(* ===== verification/_CoqProject ===== *)
-Q . S2P
Prelude.v
GoStd.v
GoJson.v
External.v
ChainSpec.v
Engine.v
Concrete.v
Async.v
EvmTypes.v
Keeper.v
MsgServer.v
Abci.v
Proposal.v
Chain.v
GlobalFee.v
Upgrades.v
Hooks.v
Alerts.v
Readiness.v
Lib.v
AppExport.v
Files.v
Testnet.v
InPlace.v
Commands.v
Wiring.v
EvmModule.v
Root.v
Network.v
Wire.v
Messages.v
Service.v
Block.v
