(* ===== verification/Prelude.v ===== *)
(** * Nexus consensus client: verification development

    The Go program under [src/cosmos] is the consensus half of a blockchain
    node: a Cosmos SDK application that orders blocks with CometBFT and leaves
    their execution to an Ethereum execution client, which it drives through
    the Engine API.  Every block after the first carries exactly one payload
    (a JSON-encoded execution block); the application keeps the hash, height
    and timestamp of the last one as its block state.

    ** The parts and how they interact

    - CometBFT asks a proposer for a block: [app/proposal.go] selects Cosmos
      transactions and calls PrepareProposal of [x/evm/keeper/abci.go], which
      asks the execution client to build on the block state and fetches the
      result, both through the retry loop of [x/evm/keeper/async.go].
    - Validators check the block: [app/proposal.go] counts voting power, parses
      and classifies the transactions and routes the payload to
      [x/evm/keeper/proposal_server.go], which runs validatePayload.
    - The block is finalized: ExecutionPayload of [x/evm/keeper/msg_server.go]
      validates again, submits the payload, moves the client's head and only
      then writes the block state.  [app/ante.go] and [x/globalfee] decide
      which transactions get that far; PreBlocker and EndBlocker of
      [app/app.go] log upgrades and run the scheduled validator operations of
      [app/block_hooks.go] and [app/upgrades.go].
    - Which Engine API version is spoken at a timestamp follows the fork
      schedule of [app/types/chain.go].

    ** The files

    - [Prelude]: errors, outcomes (value, error, panic, out of fuel), the state
      monad [M], 64-bit integers, relations every computation preserves, the
      hint databases and the tactics.
    - [GoStd], [GoJson]: what the code uses of Go's standard library: number
      parsing and printing, strings, hex and base64, durations, contexts;
      [encoding/json] with its scanner, string escapes and struct decoding.
    - [External]: go-ethereum, the Cosmos SDK and the collections store as
      records and type classes, with their laws in separate classes.
    - [Concrete]: one instance of all of them, on which the witnesses run.
    - [ChainSpec]: [app/types/chain.go], [app/chain.go], [lib/config.go].
    - [Engine]: [lib/engine.go] (interface, JSON-RPC client, stub) and the
      [World] the handlers run in: clock, execution client, store, trace.
    - [Async]: [x/evm/keeper/async.go].
    - [EvmTypes]: [x/evm/types].  [Keeper]: [keeper.go], [genesis.go],
      [query_params.go], [readiness.go], [utils.go] of [x/evm/keeper].
    - [MsgServer]: [msg_server.go], [msg_update_params.go],
      [proposal_server.go].  [Abci]: [abci.go].
    - [Proposal]: [app/proposal.go].
    - [Chain]: all handlers as one step relation, and its abstract chain.
      [Network]: several nodes, a replicated state machine and rounds of
      proposal, votes and execution.  [Block]: one node as a whole, the
      callbacks of every component run by CheckTx and FinalizeBlock.
    - [Wire], [Messages]: the protobuf wire format and the messages of
      [x/evm/types/*.pb.go].  [Service]: the client and the servers of the Msg
      service.
    - [GlobalFee]: [x/globalfee] and [app/ante.go].
    - [Upgrades]: [app/upgrades.go].  [Hooks]: [app/block_hooks.go],
      [app/metrics.go], EndBlocker.  [Alerts]: [app/upgrade_logging.go],
      [app/halt_logging.go], [app/webhook_notifier.go], PreBlocker.
    - [Readiness]: [app/rpc_readiness.go].
    - [Lib]: [lib/jwt.go], [lib/grpc_jwt.go], [lib/core_client.go],
      [lib/cosmos_grpc_server.go], [NewAuthClient], [createEngineClient].
    - [AppExport]: [app/export.go].
    - [Files]: [path/filepath] and the file system of [os].
    - [Testnet]: [cmd/nexusd/cmd/testnet_multi_node.go], which writes the
      directories of a new network.  [InPlace]: [cmd/nexusd/cmd/testnet.go],
      which turns the state of a chain into a network of one validator.
    - [Commands]: [genesis/genesis.go], what runs before a command, the gRPC
      components and the export command of [cmd/nexusd/cmd].
    - [Wiring]: [app/app_config.go], New and the accessors of [app/app.go],
      [app/ibc.go], [app/migrations.go], [app/genesis_account.go],
      [app/config.go], [docs/docs.go].
    - [EvmModule]: [x/evm/module], [x/evm/types/codec.go] and the HTTP gateway
      [x/evm/types/query.pb.gw.go].
    - [Root]: the commands of [cmd/nexusd/cmd/root.go] and [commands.go], the
      creation of the application and its set-up.

    A Go function that returns an error is a function to [outcome]; one with
    effects is a computation [M W] on the component's world.  A handler keeps
    its name; a closure or a stretch of a long function that got a name of its
    own is listed with the lines it stands for.  Records stand for structs,
    [None] for a nil pointer, [Z] with explicit wrapping ([u64], [i64]) for
    machine integers, byte strings for [string] and [[]byte].

    ** What the theorems show

    - The chain (claims C1 to C4): for every order of handler calls and every
      failure the committed head moves along one hash-linked chain of blocks
      that the execution client has executed, at most one block per call, so
      heights grow by one and timestamps strictly; the abstract specification
      is the relation [chain_of] of [Chain].  The same holds of the whole
      application, with its other modules, hooks, governance and alerts (C2).
      Nodes that execute the same payloads with the same verdicts have the same
      head, that of the abstract machine [apply_entries] of [Network].
    - Agreement of the handlers and progress (C5 to C8): what an honest proposer
      builds every validator with the same state accepts, and what they accept
      is executed and committed, given an execution client that answers, by the
      handler (C6) and by FinalizeBlock of the whole application (C7); so a
      network of honest nodes gains one block per round.
    - The handlers on every path (C9 to C14, C17 to C19, C21, C30): exact
      acceptance conditions of validatePayload and ProcessProposal, the exact
      requests made to the execution client, no write without success,
      termination of PrepareProposal, the two-thirds rule at 64 bits, bounded
      polling (C33); and one case in which finalizing a block does not return.
    - The wire (C24 to C27): the generated encoders write a reference encoding,
      the decoders read it back and return on any input; and the Msg service of
      ProcessProposal only validates.
    - The application and its start (C15, C32): New builds an application in
      which handlers, orders, stores and authorities fit together; once it is
      set up, the application has its gRPC components, with one secret.
    - Test networks (C16, C31): the directories of a multi-node network are
      complete and agree; an in-place network has exactly one validator.
    - The contract of the retry loop (C20), genesis and the store codec (C22,
      C23), the fork schedule (C28).
    - Fees (C29), validator operations (C34 to C36), hooks (C37), zero-height
      export (C38), readiness (C39), authentication (C40).
    Further theorems of the files record smaller facts, among them places where
    a comment and the code differ.

    ** Fuel and bounds

    [retry] is not structurally recursive.  It takes fuel and yields
    [OutOfFuel] when that runs out; [Async] relates it to a relation without
    fuel and proves that a deadline bounds the attempts, one per [retryDelay]
    (10 ms).  PrepareProposal sets a deadline of 10 s, hence
    [prepare_fuel] = 1001 is enough, whatever the client does.  ExecutionPayload
    has no deadline; its progress theorem needs one attempt of each loop from a
    client that answers.  The JSON parser's fuel is the length of its input and
    the webhook loop's the configured number of attempts.  In the protobuf code
    a varint has at most ten groups of seven bits, and every field starts with a
    byte of its own, so eleven rounds and the length of the input are enough:
    [unmarshal_always_returns] shows that the fuel never runs out.

    ** What is not modelled

    Libraries (the SDK, CometBFT, go-ethereum, golang-jwt, gRPC, YAML,
    dependency injection, the simulation manager) are parameters; the base
    application that runs the callbacks is one in [Block], with the order in
    which it calls them as a hypothesis.  How gRPC carries and routes a request
    and how the SDK's server starts a node are not modelled: the theorems are
    about the handlers, creators and callbacks those libraries are given.  The
    text of most log lines, goroutine scheduling (a started goroutine is an
    event or a wake-up) and the contents of panics inside libraries are left
    out.  Getters that return a field and interface assertions have no behaviour
    to state; the test doubles and test helpers are not part of the program.  Of
    the generated protobuf code the file descriptors, the reflection methods,
    the getters and [module.pb.go] are left out, and nil elements of a repeated
    field, on which the encoder panics.  A round of [Network] executes the
    payload of a block and not its other transactions, whose modules belong to
    the SDK. *)

From stdpp Require Export base list strings numbers option tactics sets gmap.
From Stdlib Require Export ZArith Lia Ascii.

(** ** Scopes and automation databases *)

Declare Scope nexus_scope.
Delimit Scope nexus_scope with nexus.
Open Scope Z_scope.
Open Scope nexus_scope.

Create HintDb nexus.
Create Rewrite HintDb nexus.

(** ** Go errors

    [errText] is [errors.New] / [fmt.Errorf] with its rendered text,
    [errWrapf] is [fmt.Errorf("<pre>%w<post>", err)].  The two sentinels the
    code tests with [errors.Is] and the two errors of [context.Context] are
    constructors of their own. *)
Inductive error : Type :=
| errText (msg : string)
| errWrapf (pre : string) (e : error) (post : string)
| ErrNotFound
| ErrNoUpgradePlanFound
| Canceled
| DeadlineExceeded.

#[export] Instance error_eq_dec : EqDecision error.
Proof. solve_decision. Defined.

Definition errWrap (prefix : string) (e : error) : error := errWrapf (prefix +:+ ": ") e "".

Fixpoint Error (e : error) : string :=
  match e with
  | errText m => m
  | errWrapf p e' q => p +:+ Error e' +:+ q
  | ErrNotFound => "collections: not found"
  | ErrNoUpgradePlanFound => "upgrade plan not found"
  | Canceled => "context canceled"
  | DeadlineExceeded => "context deadline exceeded"
  end.

(** [errors.Is]: the chain of wrapped errors reaches the target. *)
Fixpoint errors_Is (e target : error) : bool :=
  bool_decide (e = target) ||
  match e with
  | errWrapf _ e' _ => errors_Is e' target
  | _ => false
  end.

(** ** Outcomes of Go functions

    A call returns a value, returns a non-nil error, panics, or (only in the
    model of an unbounded loop) has used up the fuel it was given. *)
Inductive outcome (A : Type) : Type :=
| Ret (a : A)
| Fail (e : error)
| Panic (msg : string)
| OutOfFuel.
Arguments Ret {A} a.
Arguments Fail {A} e.
Arguments Panic {A} msg.
Arguments OutOfFuel {A}.

Definition bindO {A B} (o : outcome A) (f : A → outcome B) : outcome B :=
  match o with
  | Ret a => f a
  | Fail e => Fail e
  | Panic m => Panic m
  | OutOfFuel => OutOfFuel
  end.

Notation "'let?' x ':=' o 'in' k" := (bindO o (fun x => k))
  (at level 10, x name, o at level 100, k at level 200,
   format "'[v' 'let?'  x  ':='  o  'in' '/' k ']'") : nexus_scope.
Notation "'do?' o 'in' k" := (bindO o (fun _ => k))
  (at level 10, o at level 100, k at level 200,
   format "'[v' 'do?'  o  'in' '/' k ']'") : nexus_scope.

Definition is_ret {A} (o : outcome A) : bool :=
  match o with Ret _ => true | _ => false end.

(** [if err != nil { return ..., fmt.Errorf("p: %w", err) }]. *)
Definition wrap {A} (p : string) (o : outcome A) : outcome A :=
  match o with Fail e => Fail (errWrap p e) | _ => o end.

(** [fmt.Errorf("p %w", err)], without a colon. *)
Definition wrap_text {A} (p : string) (o : outcome A) : outcome A :=
  match o with Fail e => Fail (errWrapf (p +:+ " ") e "") | _ => o end.

(** [if err != nil { panic(...) }]: an error becomes a panic. *)
Definition must {A} (o : outcome A) : outcome A :=
  match o with Fail e => Panic (Error e) | _ => o end.

Definition guard_err (b : bool) (e : error) : outcome unit :=
  if b then Ret tt else Fail e.

(** ** State-passing computations

    [M W A] is a Go function that reads and writes the world [W].  Effects
    that happened before an error, a panic or the end of the fuel are kept:
    Go has no rollback, and the SDK's rollback is not part of this code. *)
Definition M (W A : Type) : Type := W → W * outcome A.

Definition ret {W A} (a : A) : M W A := fun w => (w, Ret a).
Definition bindM {W A B} (m : M W A) (f : A → M W B) : M W B := fun w =>
  match m w with
  | (w', Ret a) => f a w'
  | (w', Fail e) => (w', Fail e)
  | (w', Panic s) => (w', Panic s)
  | (w', OutOfFuel) => (w', OutOfFuel)
  end.

Notation "'let!' x ':=' m 'in' k" := (bindM m (fun x => k))
  (at level 10, x name, m at level 100, k at level 200,
   format "'[v' 'let!'  x  ':='  m  'in' '/' k ']'") : nexus_scope.
Notation "'do!' m 'in' k" := (bindM m (fun _ => k))
  (at level 10, m at level 100, k at level 200,
   format "'[v' 'do!'  m  'in' '/' k ']'") : nexus_scope.

Section Primitives.
Context {W : Type}.

Definition fail {A} (e : error) : M W A := fun w => (w, Fail e).
Definition panic {A} (s : string) : M W A := fun w => (w, Panic s).
Definition out_of_fuel {A} : M W A := fun w => (w, OutOfFuel).
Definition lift {A} (o : outcome A) : M W A := fun w => (w, o).
Definition gets {A} (f : W → A) : M W A := fun w => (w, Ret (f w)).
Definition modify (f : W → W) : M W unit := fun w => (f w, Ret tt).

(** [x, err := m()] with [err] inspected by the caller: an error becomes a
    value, a panic or the end of the fuel does not. *)
Definition try {A} (m : M W A) : M W (A + error) := fun w =>
  match m w with
  | (w', Ret a) => (w', Ret (inl a))
  | (w', Fail e) => (w', Ret (inr e))
  | (w', Panic s) => (w', Panic s)
  | (w', OutOfFuel) => (w', OutOfFuel)
  end.

Definition wrapM {A} (p : string) (m : M W A) : M W A := fun w =>
  let (w', o) := m w in (w', wrap p o).

(** [if err != nil { panic(...) }] around a stateful call. *)
Definition mustM {A} (m : M W A) : M W A := fun w =>
  let (w', o) := m w in (w', must o).

End Primitives.

(** ** Machine integers

    A [uint64] is a [Z] in [0, 2^64), an [int64] a [Z] in [-2^63, 2^63); every
    arithmetic operation of the source is followed by its wrap-around. *)
Definition two64 : Z := 2 ^ 64.
Definition maxUint64 : Z := 2 ^ 64 - 1.
Definition minInt64 : Z := - 2 ^ 63.
Definition maxInt64 : Z := 2 ^ 63 - 1.

Definition u64 (z : Z) : Z := z mod 2 ^ 64.
Definition i64 (z : Z) : Z := (z + 2 ^ 63) mod 2 ^ 64 - 2 ^ 63.

Definition is_u64 (z : Z) : Prop := 0 ≤ z < 2 ^ 64.
Definition is_i64 (z : Z) : Prop := - 2 ^ 63 ≤ z < 2 ^ 63.

Definition u64_add (a b : Z) : Z := u64 (a + b).
Definition i64_add (a b : Z) : Z := i64 (a + b).
Definition i64_sub (a b : Z) : Z := i64 (a - b).
Definition i64_mul (a b : Z) : Z := i64 (a * b).
(** Go's integer division truncates toward zero. *)
Definition i64_div (a b : Z) : Z := i64 (Z.quot a b).

Lemma u64_range z : is_u64 (u64 z).
Proof. unfold is_u64, u64. apply Z.mod_pos_bound. lia. Qed.

Lemma i64_range z : is_i64 (i64 z).
Proof.
  unfold is_i64, i64. pose proof (Z.mod_pos_bound (z + 2 ^ 63) (2 ^ 64)). lia.
Qed.

Lemma u64_small z : is_u64 z → u64 z = z.
Proof. unfold is_u64, u64. intros. by apply Z.mod_small. Qed.

Lemma i64_small z : is_i64 z → i64 z = z.
Proof. unfold is_i64, i64. intros. rewrite Z.mod_small; lia. Qed.

Lemma u64_add_small a b : is_u64 (a + b) → u64_add a b = a + b.
Proof. apply u64_small. Qed.

#[export] Hint Resolve u64_range i64_range : nexus.
#[export] Hint Rewrite u64_small i64_small u64_add_small
  using (unfold is_u64, is_i64 in *; lia) : nexus.

(** ** Tactics *)

(** Split every match of a computation that was assumed to end in some way. *)
Ltac unfold_monad :=
  cbv [bindM ret bindO lift gets modify fail panic
       out_of_fuel try wrapM mustM wrap wrap_text must guard_err] in *.

Ltac run_case :=
  match goal with
  | H : context [match ?x with _ => _ end] |- _ =>
      lazymatch x with
      | context [match _ with _ => _ end] => fail
      | _ => destruct x eqn:?
      end
  | |- context [match ?x with _ => _ end] =>
      lazymatch x with
      | context [match _ with _ => _ end] => fail
      | _ => destruct x eqn:?
      end
  end.

Ltac run := repeat (run_case; simplify_eq/=).

Ltac bools :=
  repeat match goal with
  | H : _ && _ = true |- _ => apply andb_true_iff in H as [??]
  | H : _ || _ = false |- _ => apply orb_false_iff in H as [??]
  | H : negb _ = true |- _ => apply negb_true_iff in H
  | H : negb _ = false |- _ => apply negb_false_iff in H
  | H : (_ <? _) = true |- _ => apply Z.ltb_lt in H
  | H : (_ <? _) = false |- _ => apply Z.ltb_ge in H
  | H : (_ <=? _) = true |- _ => apply Z.leb_le in H
  | H : (_ <=? _) = false |- _ => apply Z.leb_gt in H
  | H : (_ =? _) = true |- _ => apply Z.eqb_eq in H
  | H : (_ =? _) = false |- _ => apply Z.eqb_neq in H
  | H : bool_decide _ = true |- _ => apply bool_decide_eq_true in H
  | H : bool_decide _ = false |- _ => apply bool_decide_eq_false in H
  end.

(** ** Generic lemmas *)

Lemma bindM_ret {W A B} (m : M W A) (f : A → M W B) w w' b :
  (bindM m f) w = (w', Ret b) →
  ∃ w1 a, m w = (w1, Ret a) ∧ f a w1 = (w', Ret b).
Proof. unfold_monad. intros. run. eauto. Qed.

Lemma bindO_ret {A B} (o : outcome A) (f : A → outcome B) b :
  bindO o f = Ret b → ∃ a, o = Ret a ∧ f a = Ret b.
Proof. unfold_monad. intros. run. eauto. Qed.

Lemma wrap_ret {A} p (o : outcome A) a : wrap p o = Ret a → o = Ret a.
Proof. by destruct o. Qed.

(** A run that is known to return, without naming what it returns. *)
Lemma is_ret_run {W A} (r : W * outcome A) : is_ret r.2 = true → ∃ a, r = (r.1, Ret a).
Proof. destruct r as [w []]; [eauto|done..]. Qed.

Lemma string_app_assoc (a b c : string) : (a +:+ b) +:+ c = a +:+ (b +:+ c).
Proof. induction a as [|x a IH]; [done|]. exact (f_equal (String x) IH). Qed.

Lemma string_app_nil_r (a : string) : a +:+ "" = a.
Proof. induction a as [|x a IH]; [done|]. exact (f_equal (String x) IH). Qed.

Lemma string_length_app (a b : string) :
  String.length (a +:+ b) = (String.length a + String.length b)%nat.
Proof. induction a as [|x a IH]; [done|]. exact (f_equal S IH). Qed.

(** ** Relational invariants of computations

    [preserves R m]: however [m] ends, the world it leaves is [R]-related to
    the world it started in.  Closed under sequencing when [R] is a preorder,
    so that frame properties ("the store is not written", "the clock does not
    go back") are proved by the structure of the code. *)
Definition preserves {W} (R : relation W) {A} (m : M W A) : Prop :=
  ∀ w w' o, m w = (w', o) → R w w'.

Section Preserves.
Context {W : Type} (R : relation W) `{!PreOrder R}.

Lemma preserves_ret {A} (a : A) : preserves R (ret a : M W A).
Proof. intros w w' o [= <- <-]. reflexivity. Qed.

Lemma preserves_fail {A} e : preserves R (fail e : M W A).
Proof. intros w w' o [= <- <-]. reflexivity. Qed.

Lemma preserves_panic {A} s : preserves R (panic s : M W A).
Proof. intros w w' o [= <- <-]. reflexivity. Qed.

Lemma preserves_fuel {A} : preserves R (out_of_fuel : M W A).
Proof. intros w w' o [= <- <-]. reflexivity. Qed.

Lemma preserves_lift {A} (x : outcome A) : preserves R (lift x).
Proof. intros w w' o [= <- <-]. reflexivity. Qed.

Lemma preserves_gets {A} (f : W → A) : preserves R (gets f).
Proof. intros w w' o [= <- <-]. reflexivity. Qed.

Lemma preserves_bind {A B} (m : M W A) (f : A → M W B) :
  preserves R m → (∀ a, preserves R (f a)) → preserves R (bindM m f).
Proof.
  intros Hm Hf w w' o. unfold_monad. destruct (m w) as [w1 [a|e|s|]] eqn:E;
    [|by intros [= <- _]; eapply Hm..].
  intros. etrans; [by eapply Hm|by eapply Hf].
Qed.

Lemma preserves_try {A} (m : M W A) : preserves R m → preserves R (try m).
Proof.
  intros Hm w w' o. unfold try. destruct (m w) as [w1 [a|e|s|]] eqn:E;
    intros [= <- _]; by eapply Hm.
Qed.

Lemma preserves_wrapM {A} p (m : M W A) : preserves R m → preserves R (wrapM p m).
Proof.
  intros Hm w w' o. unfold wrapM. destruct (m w) eqn:E. intros [= <- _]. by eapply Hm.
Qed.

Lemma preserves_mustM {A} (m : M W A) : preserves R m → preserves R (mustM m).
Proof.
  intros Hm w w' o. unfold mustM. destruct (m w) eqn:E. intros [= <- _]. by eapply Hm.
Qed.

End Preserves.

#[export] Hint Resolve preserves_ret preserves_fail preserves_panic preserves_fuel
  preserves_lift preserves_gets preserves_try preserves_wrapM preserves_mustM : nexus.

(** Follow the structure of a computation, splitting its branches; what the
    hint database does not know is left to the caller. *)
Ltac preserving :=
  repeat first
    [ progress intros
    | solve [eauto with nexus typeclass_instances]
    | apply preserves_bind; [apply _| |]
    | apply preserves_try; [apply _..|]
    | apply preserves_wrapM; [apply _..|]
    | apply preserves_mustM; [apply _..|]
    | case_match ].

(** Two relations every component uses: a projection of the world is left as
    it was, or only grows. *)
Definition same {W T} (f : W → T) : relation W := fun w w' => f w' = f w.
Definition grows {W} (f : W → Z) : relation W := fun w w' => f w ≤ f w'.

#[export] Instance same_preorder {W T} (f : W → T) : PreOrder (same f).
Proof. split; unfold same; [by intros ?|intros x y z; congruence]. Qed.
#[export] Instance grows_preorder {W} (f : W → Z) : PreOrder (grows f).
Proof. split; unfold grows; [intros ?; lia|intros x y z; lia]. Qed.
