(* ===== verification/GoStd.v ===== *)
(** * The part of Go's standard library the node uses

    [strconv], [strings]/[bytes], [encoding/hex], [context] and [time], on
    byte strings.  Only what the code under [src/cosmos] calls is modelled:
    [ParseUint]/[ParseInt] in base 10 at 64 bits, [ParseBool], [TrimSpace],
    [TrimPrefix], [ToLower] (on ASCII letters; other bytes are unchanged),
    [Contains], [hex.DecodeString], the ["%d"] verb, and contexts with a
    deadline or a cancellation; [Split] and [Join] of strings. *)

From S2P Require Import Prelude.

(** ** Bytes *)

Definition byte_val (c : ascii) : Z := Z.of_N (N_of_ascii c).
Definition chr (z : Z) : ascii := ascii_of_N (Z.to_N z).
Definition bytes_of (s : string) : list ascii := String.list_ascii_of_string s.
Definition string_of (l : list ascii) : string := String.string_of_list_ascii l.
Definition len (s : string) : Z := Z.of_nat (String.length s).

Lemma string_of_bytes s : string_of (bytes_of s) = s.
Proof. apply String.string_of_list_ascii_of_string. Qed.

Lemma bytes_of_string l : bytes_of (string_of l) = l.
Proof. apply String.list_ascii_of_string_of_list_ascii. Qed.

Lemma bytes_of_app s t : bytes_of (s +:+ t) = (bytes_of s ++ bytes_of t)%list.
Proof. induction s as [|c s IH]; [done|]. exact (f_equal (cons c) IH). Qed.

Lemma byte_val_chr z : 0 ≤ z < 256 → byte_val (chr z) = z.
Proof.
  intros. unfold byte_val, chr. rewrite N_ascii_embedding by lia. lia.
Qed.

Lemma byte_val_range c : 0 ≤ byte_val c < 256.
Proof. unfold byte_val. pose proof (N_ascii_bounded c). lia. Qed.

Lemma byte_val_inj a b : byte_val a = byte_val b → a = b.
Proof.
  unfold byte_val. intros H. apply N2Z.inj in H.
  by rewrite <-(ascii_N_embedding a), <-(ascii_N_embedding b), H.
Qed.

(** ** strconv *)

Definition digit_of (c : ascii) : option Z :=
  let v := byte_val c in
  if (48 <=? v) && (v <=? 57) then Some (v - 48) else None.

Definition syntaxError (fn s : string) : error :=
  errText ("strconv." +:+ fn +:+ ": parsing " +:+ s +:+ ": invalid syntax").
Definition rangeError (fn s : string) : error :=
  errText ("strconv." +:+ fn +:+ ": parsing " +:+ s +:+ ": value out of range").

(** The digit loop of [strconv.ParseUint]: the accumulator never exceeds
    [maxUint64]. *)
Fixpoint ParseUint_loop (whole : string) (s : string) (n : Z) : outcome Z :=
  match s with
  | EmptyString => Ret n
  | String c s' =>
      match digit_of c with
      | None => Fail (syntaxError "ParseUint" whole)
      | Some d =>
          let n1 := n * 10 + d in
          if maxUint64 <? n1 then Fail (rangeError "ParseUint" whole)
          else ParseUint_loop whole s' n1
      end
  end.

Definition ParseUint (s : string) : outcome Z :=
  match s with
  | EmptyString => Fail (syntaxError "ParseUint" s)
  | _ => ParseUint_loop s s 0
  end.

(** [strconv.ParseInt(s, 10, 64)]: an optional sign, then [ParseUint]; the
    magnitude is cut off at 2^63. *)
Definition ParseInt (s : string) : outcome Z :=
  match s with
  | EmptyString => Fail (syntaxError "ParseInt" s)
  | String c s' =>
      let neg := Ascii.eqb c "-" in
      let body := if neg || Ascii.eqb c "+" then s' else s in
      match ParseUint body with
      | Ret un =>
          if negb neg && (2 ^ 63 <=? un) then Fail (rangeError "ParseInt" s)
          else if neg && (2 ^ 63 <? un) then Fail (rangeError "ParseInt" s)
          else Ret (if neg then - un else un)
      | Fail e => Fail e
      | o => o
      end
  end.

Definition ParseBool (s : string) : outcome bool :=
  if bool_decide (s ∈ ["1"; "t"; "T"; "true"; "TRUE"; "True"]) then Ret true
  else if bool_decide (s ∈ ["0"; "f"; "F"; "false"; "FALSE"; "False"]) then Ret false
  else Fail (syntaxError "ParseBool" s).

(** The ["%d"] verb: decimal digits, most significant first. *)
Fixpoint uint_digits (fuel : nat) (n : Z) (acc : string) : string :=
  match fuel with
  | O => acc
  | S fuel' =>
      let acc' := String (chr (48 + n mod 10)) acc in
      if n <? 10 then acc' else uint_digits fuel' (n / 10) acc'
  end.

Definition fmt_uint (n : Z) : string := uint_digits (S (Z.to_nat (Z.log2 n))) n "".
Definition fmt_d (z : Z) : string :=
  if z <? 0 then String "-" (fmt_uint (- z)) else fmt_uint z.

(** ** strings, bytes *)

(** The UTF-8 encodings of the runes [unicode.IsSpace] accepts. *)
Definition space_runes : list (list Z) :=
  ([[9]; [10]; [11]; [12]; [13]; [32]; [0xC2; 0x85]; [0xC2; 0xA0]; [0xE1; 0x9A; 0x80]]
   ++ map (fun k => [0xE2; 0x80; 0x80 + k]) [0; 1; 2; 3; 4; 5; 6; 7; 8; 9; 10]
   ++ [[0xE2; 0x80; 0xA8]; [0xE2; 0x80; 0xA9]; [0xE2; 0x80; 0xAF]; [0xE2; 0x81; 0x9F];
       [0xE3; 0x80; 0x80]])%list.

Fixpoint strip_prefix (p : list Z) (l : list ascii) : option (list ascii) :=
  match p, l with
  | [], _ => Some l
  | x :: p', c :: l' => if byte_val c =? x then strip_prefix p' l' else None
  | _ :: _, [] => None
  end.

Definition strip_space (runes : list (list Z)) (l : list ascii) : option (list ascii) :=
  foldr (fun p acc => match strip_prefix p l with Some r => Some r | None => acc end)
    None runes.

(** Every rune is at least one byte, so [length l] steps always suffice. *)
Fixpoint trim_left (fuel : nat) (runes : list (list Z)) (l : list ascii) : list ascii :=
  match fuel with
  | O => l
  | S fuel' =>
      match strip_space runes l with
      | Some r => trim_left fuel' runes r
      | None => l
      end
  end.

Definition TrimSpace (s : string) : string :=
  let l := bytes_of s in
  let l1 := trim_left (length l) space_runes l in
  string_of (reverse (trim_left (length l1) (map reverse space_runes) (reverse l1))).

Fixpoint HasPrefix (s p : string) : bool :=
  match p, s with
  | EmptyString, _ => true
  | String a p', String b s' => Ascii.eqb a b && HasPrefix s' p'
  | String _ _, EmptyString => false
  end.

Fixpoint drop_bytes (n : nat) (s : string) : string :=
  match n, s with
  | O, _ => s
  | S n', String _ s' => drop_bytes n' s'
  | S _, EmptyString => EmptyString
  end.

Fixpoint take_bytes (n : nat) (s : string) : string :=
  match n, s with
  | S n', String c s' => String c (take_bytes n' s')
  | _, _ => EmptyString
  end.

Definition TrimPrefix (s p : string) : string :=
  if HasPrefix s p then drop_bytes (String.length p) s else s.

Definition lower_byte (c : ascii) : ascii :=
  let v := byte_val c in
  if (65 <=? v) && (v <=? 90) then chr (v + 32) else c.

(** [strings.ToLower].  Besides the ASCII letters, two runes have an ASCII
    lower case (U+0130 and U+212A); the lower case of every other rune is not
    ASCII, and its bytes are kept: the code only looks for ASCII text in the
    result. *)
Fixpoint ToLower (s : string) : string :=
  match s with
  | EmptyString => EmptyString
  | String a s1 =>
      match s1 with
      | String b s2 =>
          if (byte_val a =? 0xC4) && (byte_val b =? 0xB0) then String "i" (ToLower s2)
          else
            match s2 with
            | String c s3 =>
                if (byte_val a =? 0xE2) && (byte_val b =? 0x84) && (byte_val c =? 0xAA)
                then String "k" (ToLower s3)
                else String (lower_byte a) (ToLower s1)
            | EmptyString => String (lower_byte a) (ToLower s1)
            end
      | EmptyString => String (lower_byte a) EmptyString
      end
  end.

Fixpoint Contains (s sub : string) : bool :=
  HasPrefix s sub ||
  match s with
  | EmptyString => false
  | String _ s' => Contains s' sub
  end.

(** [strings.Split] at a separator of one byte, and [strings.Join]. *)
Fixpoint Split (s : string) (sep : ascii) : list string :=
  match s with
  | EmptyString => [EmptyString]
  | String a s' =>
      if Ascii.eqb a sep then EmptyString :: Split s' sep
      else
        match Split s' sep with
        | h :: t => String a h :: t
        | [] => [String a EmptyString]
        end
  end.

Fixpoint Join_strings (l : list string) (sep : string) : string :=
  match l with
  | [] => EmptyString
  | [x] => x
  | x :: l' => x +:+ sep +:+ Join_strings l' sep
  end.

(** The ["%q"] verb: bytes outside ASCII are kept, as in a printable rune. *)
Definition hex_digit (z : Z) : ascii := chr (if z <? 10 then 48 + z else 87 + z).
Definition quote_byte (c : ascii) : string :=
  let v := byte_val c in
  if (v =? 34) || (v =? 92) then String (chr 92) (String c "")
  else if (7 <=? v) && (v <=? 13) then
    String (chr 92) (match String.get (Z.to_nat (v - 7)) "abtnvfr" with Some x => String x "" | None => "" end)
  else if (v <? 32) || (v =? 127) then
    String (chr 92) (String "x" (String (hex_digit (v / 16)) (String (hex_digit (v mod 16)) "")))
  else String c "".
Definition fmt_q (s : string) : string :=
  let quote := String (chr 34) "" in
  quote +:+ Join_strings (quote_byte <$> bytes_of s) "" +:+ quote.

(** ** encoding/hex *)

Definition hex_val (c : ascii) : option Z :=
  let v := byte_val c in
  if (48 <=? v) && (v <=? 57) then Some (v - 48)
  else if (97 <=? v) && (v <=? 102) then Some (v - 87)
  else if (65 <=? v) && (v <=? 70) then Some (v - 55)
  else None.

Definition InvalidByteError : error := errText "encoding/hex: invalid byte".
Definition ErrLength : error := errText "encoding/hex: odd length hex string".

Fixpoint hex_DecodeString (s : string) : outcome string :=
  match s with
  | EmptyString => Ret EmptyString
  | String a EmptyString =>
      match hex_val a with None => Fail InvalidByteError | Some _ => Fail ErrLength end
  | String a (String b s') =>
      match hex_val a, hex_val b with
      | Some x, Some y =>
          let? r := hex_DecodeString s' in Ret (String (chr (x * 16 + y)) r)
      | _, _ => Fail InvalidByteError
      end
  end.

(** ** encoding/base64 *)

Definition base64_val (c : ascii) : option Z :=
  let v := byte_val c in
  if (65 <=? v) && (v <=? 90) then Some (v - 65)
  else if (97 <=? v) && (v <=? 122) then Some (v - 71)
  else if (48 <=? v) && (v <=? 57) then Some (v + 4)
  else if v =? 43 then Some 62
  else if v =? 47 then Some 63
  else None.

Definition CorruptInputError : error := errText "illegal base64 data at input byte".

(** Groups of four digits; the last one may end in one or two ['=']. *)
Fixpoint base64_groups (l : list ascii) : outcome (list ascii) :=
  match l with
  | [] => Ret []
  | a :: b :: c :: d :: r =>
      match base64_val a, base64_val b with
      | Some x, Some y =>
          let b1 := chr (x * 4 + y / 16) in
          match base64_val c, base64_val d with
          | Some z, Some u =>
              let? rest := base64_groups r in
              Ret (b1 :: chr (y mod 16 * 16 + z / 4) :: chr (z mod 4 * 64 + u) :: rest)
          | Some z, None =>
              if (byte_val d =? 61) && (match r with [] => true | _ => false end)
              then Ret [b1; chr (y mod 16 * 16 + z / 4)] else Fail CorruptInputError
          | None, _ =>
              if (byte_val c =? 61) && (byte_val d =? 61) && (match r with [] => true | _ => false end)
              then Ret [b1] else Fail CorruptInputError
          end
      | _, _ => Fail CorruptInputError
      end
  | _ => Fail CorruptInputError
  end.

(** [base64.StdEncoding.DecodeString]: line ends are skipped anywhere. *)
Definition base64_DecodeString (s : string) : outcome string :=
  let? l := base64_groups
              (List.filter (fun c => negb ((byte_val c =? 10) || (byte_val c =? 13))) (bytes_of s)) in
  Ret (string_of l).

(** ** time and context *)

Definition Millisecond : Z := 1000000.
Definition Second : Z := 1000 * Millisecond.

(** The fraction of [v / 10^prec], without trailing zeros; the whole part is
    [v / 10^prec]. *)
Fixpoint frac_digits (prec : nat) (v : Z) (started : bool) (acc : string) : string :=
  match prec with
  | O => if started then String "." acc else acc
  | S prec' =>
      let d := v mod 10 in
      let started' := started || negb (d =? 0) in
      frac_digits prec' (v / 10) started' (if started' then String (chr (48 + d)) acc else acc)
  end.

(** [time.Duration.String]. *)
Definition Duration_String (d : Z) : string :=
  let u := Z.abs d in
  let text :=
    if u =? 0 then "0s"
    else if u <? 1000 then fmt_d u +:+ "ns"
    else if u <? 1000000 then fmt_d (u / 1000) +:+ frac_digits 3 u false "µs"
    else if u <? Second then fmt_d (u / 1000000) +:+ frac_digits 6 u false "ms"
    else
      let s := u / Second in
      let m := s / 60 in
      let secs := fmt_d (s mod 60) +:+ frac_digits 9 u false "s" in
      if m =? 0 then secs
      else if m / 60 =? 0 then fmt_d m +:+ "m" +:+ secs
      else fmt_d (m / 60) +:+ "h" +:+ fmt_d (m mod 60) +:+ "m" +:+ secs in
  if d <? 0 then "-" +:+ text else text.

(** [time.Duration.Round], halves away from zero. *)
Definition Duration_Round (d m : Z) : Z :=
  if m <=? 0 then d
  else
    let r := Z.rem d m in
    if d <? 0 then if - r + - r <? m then d - r else i64 (d - m - r)
    else if r + r <? m then d - r else i64 (d + m - r).

(** A context is done from some instant on, with [Canceled] or
    [DeadlineExceeded]; [None] is a context that is never done.  Instants are
    nanoseconds of the process's monotonic clock. *)
Record Ctx := mkCtx { ctx_done : option (Z * error) }.

Definition Background : Ctx := mkCtx None.

Definition ctx_Err (c : Ctx) (now : Z) : option error :=
  match ctx_done c with
  | Some (t, e) => if t <=? now then Some e else None
  | None => None
  end.

(** [context.WithTimeout]: the earlier of the parent's end and [now + d]. *)
Definition WithTimeout (c : Ctx) (d now : Z) : Ctx :=
  match ctx_done c with
  | Some (t, e) => if t <=? now + d then c else mkCtx (Some (now + d, DeadlineExceeded))
  | None => mkCtx (Some (now + d, DeadlineExceeded))
  end.

(** ** Facts *)

Lemma ParseUint_loop_range whole s n v :
  0 ≤ n → ParseUint_loop whole s n = Ret v → n ≤ v ∧ (n ≤ maxUint64 → is_u64 v).
Proof.
  revert n. induction s as [|c s IH]; intros n Hn; simpl.
  - intros [= <-]. unfold is_u64, maxUint64. lia.
  - unfold digit_of. destruct (_ && _) eqn:Hd; [|done]. bools.
    destruct (Z.ltb_spec maxUint64 (n * 10 + (byte_val c - 48))); [done|].
    intros H'. apply IH in H' as [??]; [|lia]. split; [lia|]. auto.
Qed.

Lemma ParseUint_u64 s v : ParseUint s = Ret v → is_u64 v.
Proof.
  destruct s as [|c s]; [done|]. intros H.
  apply ParseUint_loop_range in H as [_ H]; [|lia]. apply H. unfold maxUint64. lia.
Qed.

Lemma ParseInt_i64 s v : ParseInt s = Ret v → is_i64 v.
Proof.
  destruct s as [|c s]; [done|]. unfold ParseInt. cbv zeta. intros H.
  destruct (ParseUint _) as [un| | |] eqn:Hu; try done.
  apply ParseUint_u64 in Hu. unfold is_u64, is_i64 in *.
  destruct (Ascii.eqb c "-"); simpl in *; repeat case_match; simplify_eq; bools; lia.
Qed.

(** Printing a [uint64] and parsing it back, with anything already read. *)
Lemma ParseUint_loop_app whole n m v (s t : string) :
  ParseUint_loop whole s n = Ret m →
  ParseUint_loop whole t m = v →
  ParseUint_loop whole (s +:+ t) n = v.
Proof.
  revert n. induction s as [|c s IH]; intros n Hs Ht.
  - by injection Hs as ->.
  - change (String c s +:+ t) with (String c (s +:+ t)). simpl in *.
    destruct (digit_of c); [|done]. destruct (_ <? _); [done|]. eauto.
Qed.

Lemma digit_of_chr d : 0 ≤ d < 10 → digit_of (chr (48 + d)) = Some d.
Proof.
  intros. unfold digit_of. rewrite byte_val_chr by lia.
  destruct (_ && _) eqn:E; [f_equal; lia|].
  apply andb_false_iff in E as [E|E]; bools; lia.
Qed.

Lemma uint_digits_app fuel n acc : uint_digits fuel n acc = uint_digits fuel n "" +:+ acc.
Proof.
  revert n acc. induction fuel as [|fuel IH]; intros n acc; [done|].
  cbn [uint_digits]. destruct (n <? 10); [done|].
  rewrite (IH _ (String _ acc)), (IH _ (String _ "")), string_app_assoc. done.
Qed.

Lemma ParseUint_digits whole fuel n :
  is_u64 n → n < 2 ^ Z.of_nat fuel →
  ParseUint_loop whole (uint_digits fuel n "") 0 = Ret n.
Proof.
  revert n. induction fuel as [|fuel IH]; intros n Hn Hf.
  - unfold is_u64 in Hn. simpl in *. f_equal. lia.
  - unfold is_u64 in Hn. cbn [uint_digits].
    pose proof (Z.mod_pos_bound n 10). pose proof (Z.div_mod n 10).
    assert (Hd : digit_of (chr (48 + n mod 10)) = Some (n mod 10)) by (apply digit_of_chr; lia).
    destruct (Z.ltb_spec n 10) as [Hlt|Hge].
    + cbn [ParseUint_loop]. rewrite Hd. rewrite Z.mod_small by lia.
      by destruct (Z.ltb_spec maxUint64 (0 * 10 + n)); [unfold maxUint64 in *; lia|].
    + rewrite uint_digits_app. eapply ParseUint_loop_app.
      * apply IH; [unfold is_u64; lia|].
        rewrite Nat2Z.inj_succ, Z.pow_succ_r in Hf by lia. apply Z.div_lt_upper_bound; lia.
      * cbn [ParseUint_loop]. rewrite Hd.
        destruct (Z.ltb_spec maxUint64 (n / 10 * 10 + n mod 10)); [unfold maxUint64 in *; lia|].
        f_equal. lia.
Qed.

Lemma uint_digits_cons fuel n acc :
  ∃ c s, uint_digits (S fuel) n acc = String c s ∧ is_Some (digit_of c).
Proof.
  revert n acc. induction fuel as [|fuel IH]; intros n acc; cbn [uint_digits].
  - exists (chr (48 + n mod 10)), acc. pose proof (Z.mod_pos_bound n 10).
    rewrite digit_of_chr by lia. destruct (n <? 10); eauto.
  - destruct (n <? 10); [|apply IH]. do 2 eexists. split; [done|].
    pose proof (Z.mod_pos_bound n 10). rewrite digit_of_chr by lia. eauto.
Qed.

Lemma fmt_uint_fuel n : is_u64 n → n < 2 ^ Z.of_nat (S (Z.to_nat (Z.log2 n))).
Proof.
  unfold is_u64. intros. pose proof (Z.log2_nonneg n).
  rewrite Nat2Z.inj_succ, Z2Nat.id by lia.
  destruct (Z.eq_dec n 0) as [->|]; [done|]. apply Z.log2_spec. lia.
Qed.

Lemma ParseUint_fmt_uint n : is_u64 n → ParseUint (fmt_uint n) = Ret n.
Proof.
  intros Hn. unfold fmt_uint.
  destruct (uint_digits_cons (Z.to_nat (Z.log2 n)) n "") as (c & s & Heq & _).
  pose proof (ParseUint_digits (String c s) _ n Hn (fmt_uint_fuel n Hn)) as H.
  rewrite Heq in *. exact H.
Qed.

#[export] Hint Resolve ParseUint_u64 ParseInt_i64 : nexus.

Lemma ctx_Err_WithTimeout c d now t :
  t < now + d → ctx_Err (WithTimeout c d now) t = ctx_Err c t.
Proof.
  intros. unfold ctx_Err, WithTimeout. destruct (ctx_done c) as [[t' e]|] eqn:E; simpl.
  - destruct (Z.leb_spec t' (now + d)); simpl; [by rewrite E|].
    destruct (Z.leb_spec (now + d) t), (Z.leb_spec t' t); first [exfalso; lia | done].
  - destruct (Z.leb_spec (now + d) t); first [exfalso; lia | done].
Qed.

Lemma WithTimeout_bound c d now :
  ∃ t e, ctx_done (WithTimeout c d now) = Some (t, e) ∧ t ≤ now + d.
Proof.
  unfold WithTimeout. destruct (ctx_done c) as [[t e]|] eqn:E; simpl.
  - destruct (Z.leb_spec t (now + d)); simpl; eauto with lia.
  - eauto with lia.
Qed.

(** Splitting undoes joining, for parts without the separator. *)
Definition free (sep : ascii) (s : string) : Prop := sep ∉ bytes_of s.

Lemma Split_not_nil s sep : Split s sep ≠ [].
Proof. destruct s as [|a s]; [done|]. cbn. destruct (Ascii.eqb a sep); [done|]. by case_match. Qed.

Lemma Split_free sep s : free sep s → Split s sep = [s].
Proof.
  unfold free. induction s as [|a s IH]; cbn; [done|]. intros Hf.
  apply not_elem_of_cons in Hf as [Ha Hs].
  destruct (Ascii.eqb_spec a sep); [congruence|]. by rewrite IH.
Qed.

Lemma Split_app sep a b : Split (a +:+ String sep b) sep = (Split a sep ++ Split b sep)%list.
Proof.
  induction a as [|x a IH].
  - change ("" +:+ String sep b) with (String sep b). cbn [Split]. by rewrite Ascii.eqb_refl.
  - change (String x a +:+ String sep b) with (String x (a +:+ String sep b)). cbn [Split].
    destruct (Ascii.eqb x sep); rewrite IH; [done|].
    destruct (Split a sep) eqn:E; [by apply Split_not_nil in E|done].
Qed.

Lemma Split_parts_free s sep : Forall (free sep) (Split s sep).
Proof.
  unfold free. induction s as [|a s IH]; cbn.
  - constructor; [apply not_elem_of_nil|done].
  - destruct (Ascii.eqb_spec a sep) as [->|Ha]; [constructor; [apply not_elem_of_nil|done]|].
    destruct (Split s sep) as [|h t]; [by apply Forall_nil in IH; repeat constructor; set_solver|].
    apply Forall_cons in IH as [Hh Ht]. constructor; [|done]. cbn. set_solver.
Qed.

Lemma Split_Join sep l :
  l ≠ [] → Forall (free sep) l → Split (Join_strings l (String sep "")) sep = l.
Proof.
  induction l as [|x l IH]; [done|]. intros _ [Hx Hl]%Forall_cons.
  destruct l as [|y l]; [by apply Split_free|].
  change (Join_strings (x :: y :: l) (String sep ""))
    with (x +:+ String sep (Join_strings (y :: l) (String sep ""))).
  rewrite Split_app, Split_free, IH by done. done.
Qed.
