(* ===== verification/GoJson.v ===== *)
(** * encoding/json, as far as the node uses it

    A parser for JSON texts that follows the scanner of Go's [encoding/json]
    (strict grammar, nesting limit, replacement of invalid UTF-8), the printer
    for strings, and the rules by which [Unmarshal] fills a struct: keys match
    exactly or by case folding, later members overwrite earlier ones, unknown
    keys are skipped, [null] leaves a field alone and the first type error is
    reported after the whole object has been read. *)

From S2P Require Import Prelude GoStd.

Inductive json :=
| JNull
| JBool (b : bool)
| JNum (lit : string)
| JStr (s : string)
| JArr (l : list json)
| JObj (l : list (string * json)).

(** ** UTF-8 *)

Definition in_range (lo hi : Z) (c : ascii) : bool := (lo <=? byte_val c) && (byte_val c <=? hi).

(** The length of the valid UTF-8 sequence at the head, if there is one. *)
Definition utf8_size (l : list ascii) : option nat :=
  match l with
  | [] => None
  | a :: r =>
      let v := byte_val a in
      if v <? 0x80 then Some 1%nat else
      match r with
      | b :: r' =>
          if in_range 0xC2 0xDF a && in_range 0x80 0xBF b then Some 2%nat else
          match r' with
          | c :: r'' =>
              let lo := if v =? 0xE0 then 0xA0 else if v =? 0xF0 then 0x90 else 0x80 in
              let hi := if v =? 0xED then 0x9F else if v =? 0xF4 then 0x8F else 0xBF in
              if in_range 0xE0 0xEF a && in_range lo hi b && in_range 0x80 0xBF c
              then Some 3%nat else
              match r'' with
              | d :: _ =>
                  if in_range 0xF0 0xF4 a && in_range lo hi b && in_range 0x80 0xBF c
                     && in_range 0x80 0xBF d
                  then Some 4%nat else None
              | [] => None
              end
          | [] => None
          end
      | [] => None
      end
  end.

Definition rune_error : list ascii := map chr [0xEF; 0xBF; 0xBD].

(** [utf8.AppendRune]. *)
Definition encode_rune (r : Z) : list ascii :=
  if r <? 0x80 then [chr r]
  else if r <? 0x800 then [chr (0xC0 + r / 64); chr (0x80 + r mod 64)]
  else if r <? 0x10000 then
    [chr (0xE0 + r / 4096); chr (0x80 + r / 64 mod 64); chr (0x80 + r mod 64)]
  else
    [chr (0xF0 + r / 262144); chr (0x80 + r / 4096 mod 64); chr (0x80 + r / 64 mod 64);
     chr (0x80 + r mod 64)].

(** ** Scanning *)

Definition is_ws (c : ascii) : bool := bool_decide (byte_val c ∈ [32; 9; 13; 10]).

Fixpoint skip_ws (l : list ascii) : list ascii :=
  match l with
  | c :: r => if is_ws c then skip_ws r else l
  | [] => []
  end.

(** Four hexadecimal digits, and the rune of a [\uXXXX] pair of surrogates. *)
Definition hex4 (l : list ascii) : option (Z * list ascii) :=
  match l with
  | a :: b :: c :: d :: r =>
      match hex_val a, hex_val b, hex_val c, hex_val d with
      | Some x, Some y, Some z, Some t => Some (((x * 16 + y) * 16 + z) * 16 + t, r)
      | _, _, _, _ => None
      end
  | _ => None
  end.

Definition is_surrogate (r : Z) : bool := (0xD800 <=? r) && (r <? 0xE000).

(** The rune of an escape [\uXXXX] whose value is [r1], given what follows:
    a low surrogate may be consumed too. *)
Definition unicode_escape (r1 : Z) (rest : list ascii) : list ascii * list ascii :=
  if is_surrogate r1 then
    match rest with
    | b :: u :: rest' =>
        if Ascii.eqb b "\" && Ascii.eqb u "u" then
          match hex4 rest' with
          | Some (r2, rest'') =>
              if (r1 <? 0xDC00) && (0xDC00 <=? r2) && (r2 <? 0xE000)
              then (encode_rune ((r1 - 0xD800) * 1024 + (r2 - 0xDC00) + 0x10000), rest'')
              else (rune_error, rest)
          | None => (rune_error, rest)
          end
        else (rune_error, rest)
    | _ => (rune_error, rest)
    end
  else (encode_rune r1, rest).

Definition simple_escape (c : ascii) : option ascii :=
  match byte_val c with
  | 34 => Some (chr 34) | 92 => Some (chr 92) | 47 => Some (chr 47)
  | 98 => Some (chr 8) | 102 => Some (chr 12) | 110 => Some (chr 10)
  | 114 => Some (chr 13) | 116 => Some (chr 9)
  | _ => None
  end.

(** The body of a string after its opening quote: its decoded bytes and what
    follows the closing quote.  Every step consumes a byte. *)
Fixpoint scan_string (fuel : nat) (l : list ascii) : option (list ascii * list ascii) :=
  match fuel with
  | O => None
  | S fuel' =>
      match l with
      | [] => None
      | c :: r =>
          let v := byte_val c in
          if v =? 34 then Some ([], r)
          else if v <? 32 then None
          else if v =? 92 then
            match r with
            | e :: r' =>
                if Ascii.eqb e "u" then
                  match hex4 r' with
                  | Some (r1, rest) =>
                      let (bs, rest') := unicode_escape r1 rest in
                      match scan_string fuel' rest' with
                      | Some (s, k) => Some ((bs ++ s)%list, k)
                      | None => None
                      end
                  | None => None
                  end
                else
                  match simple_escape e with
                  | Some x =>
                      match scan_string fuel' r' with
                      | Some (s, k) => Some (x :: s, k)
                      | None => None
                      end
                  | None => None
                  end
            | [] => None
            end
          else if v <? 0x80 then
            match scan_string fuel' r with
            | Some (s, k) => Some (c :: s, k)
            | None => None
            end
          else
            let '(bs, rest) :=
              match utf8_size l with
              | Some n => (take n l, drop n l)
              | None => (rune_error, r)
              end in
            match scan_string fuel' rest with
            | Some (s, k) => Some ((bs ++ s)%list, k)
            | None => None
            end
      end
  end.

Definition is_digit (c : ascii) : bool := in_range 48 57 c.

Fixpoint span_digits (l : list ascii) : list ascii * list ascii :=
  match l with
  | c :: r =>
      if is_digit c then let (ds, k) := span_digits r in (c :: ds, k) else ([], l)
  | [] => ([], [])
  end.

Definition scan_frac (lit l : list ascii) : option (list ascii * list ascii) :=
  match l with
  | c :: r =>
      if Ascii.eqb c "." then
        match span_digits r with
        | ([], _) => None
        | (ds, k) => Some ((lit ++ c :: ds)%list, k)
        end
      else Some (lit, l)
  | [] => Some (lit, l)
  end.

Definition scan_exp (lit l : list ascii) : option (list ascii * list ascii) :=
  match l with
  | c :: r =>
      if Ascii.eqb c "e" || Ascii.eqb c "E" then
        let '(sg, r') :=
          match r with
          | x :: r1 => if Ascii.eqb x "+" || Ascii.eqb x "-" then ([x], r1) else ([], r)
          | [] => ([], r)
          end in
        match span_digits r' with
        | ([], _) => None
        | (ds, k) => Some ((lit ++ c :: sg ++ ds)%list, k)
        end
      else Some (lit, l)
  | [] => Some (lit, l)
  end.

(** A number literal, kept as its text. *)
Definition scan_number (l : list ascii) : option (string * list ascii) :=
  let '(sg, l1) :=
    match l with
    | c :: r => if Ascii.eqb c "-" then ([c], r) else ([], l)
    | [] => ([], l)
    end in
  let int :=
    match l1 with
    | c :: r =>
        if byte_val c =? 48 then Some ((sg ++ [c])%list, r)
        else if is_digit c then let (ds, k) := span_digits r in Some ((sg ++ c :: ds)%list, k)
        else None
    | [] => None
    end in
  match int with
  | Some (lit, r) =>
      match scan_frac lit r with
      | Some (lit', r') =>
          match scan_exp lit' r' with
          | Some (lit'', r'') => Some (string_of lit'', r'')
          | None => None
          end
      | None => None
      end
  | None => None
  end.

Definition scan_word (w : string) (v : json) (l : list ascii) : option (json * list ascii) :=
  match strip_prefix (map byte_val (bytes_of w)) l with
  | Some r => Some (v, r)
  | None => None
  end.

Definition maxNestingDepth : Z := 10000.

Fixpoint parse_value (fuel : nat) (depth : Z) (l : list ascii) : option (json * list ascii) :=
  match fuel with
  | O => None
  | S fuel' =>
      match skip_ws l with
      | [] => None
      | c :: r =>
          let v := byte_val c in
          if v =? 123 then
            if maxNestingDepth <? depth + 1 then None else
            match skip_ws r with
            | d :: r' => if byte_val d =? 125 then Some (JObj [], r')
                         else parse_members fuel' (depth + 1) [] (d :: r')
            | [] => None
            end
          else if v =? 91 then
            if maxNestingDepth <? depth + 1 then None else
            match skip_ws r with
            | d :: r' => if byte_val d =? 93 then Some (JArr [], r')
                         else parse_elements fuel' (depth + 1) [] (d :: r')
            | [] => None
            end
          else if v =? 34 then
            match scan_string (S (length r)) r with
            | Some (s, k) => Some (JStr (string_of s), k)
            | None => None
            end
          else if v =? 110 then scan_word "null" JNull (c :: r)
          else if v =? 116 then scan_word "true" (JBool true) (c :: r)
          else if v =? 102 then scan_word "false" (JBool false) (c :: r)
          else
            match scan_number (c :: r) with
            | Some (lit, k) => Some (JNum lit, k)
            | None => None
            end
      end
  end
with parse_members (fuel : nat) (depth : Z) (acc : list (string * json)) (l : list ascii) :
    option (json * list ascii) :=
  match fuel with
  | O => None
  | S fuel' =>
      match skip_ws l with
      | q :: r =>
          if byte_val q =? 34 then
            match scan_string (S (length r)) r with
            | Some (k, r1) =>
                match skip_ws r1 with
                | col :: r2 =>
                    if byte_val col =? 58 then
                      match parse_value fuel' depth r2 with
                      | Some (v, r3) =>
                          match skip_ws r3 with
                          | d :: r4 =>
                              if byte_val d =? 44 then
                                parse_members fuel' depth ((string_of k, v) :: acc) r4
                              else if byte_val d =? 125 then
                                Some (JObj (reverse ((string_of k, v) :: acc)), r4)
                              else None
                          | [] => None
                          end
                      | None => None
                      end
                    else None
                | [] => None
                end
            | None => None
            end
          else None
      | [] => None
      end
  end
with parse_elements (fuel : nat) (depth : Z) (acc : list json) (l : list ascii) :
    option (json * list ascii) :=
  match fuel with
  | O => None
  | S fuel' =>
      match parse_value fuel' depth l with
      | Some (v, r) =>
          match skip_ws r with
          | d :: r' =>
              if byte_val d =? 44 then parse_elements fuel' depth (v :: acc) r'
              else if byte_val d =? 93 then Some (JArr (reverse (v :: acc)), r')
              else None
          | [] => None
          end
      | None => None
      end
  end.

Definition json_SyntaxError : error := errText "invalid character in JSON text".
Definition UnmarshalTypeError : error := errText "json: cannot unmarshal value into Go value".

(** One complete JSON value, optionally surrounded by white space.  Every
    level of the recursion consumes a byte, so the length is enough fuel. *)
Definition json_parse (s : string) : outcome json :=
  let l := bytes_of s in
  match parse_value (S (S (length l))) 0 l with
  | Some (v, r) => match skip_ws r with [] => Ret v | _ => Fail json_SyntaxError end
  | None => Fail json_SyntaxError
  end.

(** ** Decoding into Go values *)

(** [foldName]: ASCII letters by case, with the two other runes that fold to
    an ASCII letter (U+017F and U+212A). *)
Fixpoint fold_bytes (l : list ascii) : list ascii :=
  match l with
  | a :: ((b :: r) as r1) =>
      if (byte_val a =? 0xC5) && (byte_val b =? 0xBF) then chr 115 :: fold_bytes r
      else
        match r with
        | c :: r' =>
            if (byte_val a =? 0xE2) && (byte_val b =? 0x84) && (byte_val c =? 0xAA)
            then chr 107 :: fold_bytes r'
            else lower_byte a :: fold_bytes r1
        | [] => lower_byte a :: fold_bytes r1
        end
  | [a] => [lower_byte a]
  | [] => []
  end.

Definition fold_key (s : string) : string := string_of (fold_bytes (bytes_of s)).

(** The struct field a key selects: exact name first, then folded name. *)
Definition field_of (names : list string) (k : string) : option string :=
  if bool_decide (k ∈ names) then Some k
  else List.find (fun n => bool_decide (fold_key n = fold_key k)) names.

Section Decode.
Context {T : Type} (names : list string) (store : string → json → T → outcome T).

(** Members are stored in order; the first type error is kept and the rest of
    the object is still read. *)
Fixpoint decode_members (l : list (string * json)) (t : T) (err : option error) :
    T * option error :=
  match l with
  | [] => (t, err)
  | (k, v) :: l' =>
      match field_of names k with
      | None => decode_members l' t err
      | Some f =>
          match store f v t with
          | Ret t' => decode_members l' t' err
          | Fail e => decode_members l' t (match err with Some e0 => Some e0 | None => Some e end)
          | _ => decode_members l' t err
          end
      end
  end.

(** [json.Unmarshal] of a parsed value into a struct. *)
Definition decode_struct (v : json) (zero : T) : outcome T :=
  match v with
  | JObj l =>
      match decode_members l zero None with
      | (t, None) => Ret t
      | (_, Some e) => Fail e
      end
  | JNull => Ret zero
  | _ => Fail UnmarshalTypeError
  end.

End Decode.

(** A value stored into a string, uint64, int64 or bool field; [null] keeps
    what was there. *)
Definition to_string (v : json) (old : string) : outcome string :=
  match v with JStr s => Ret s | JNull => Ret old | _ => Fail UnmarshalTypeError end.

Definition to_uint64 (v : json) (old : Z) : outcome Z :=
  match v with
  | JNum lit => match ParseUint lit with Ret n => Ret n | _ => Fail UnmarshalTypeError end
  | JNull => Ret old
  | _ => Fail UnmarshalTypeError
  end.

Definition to_int64 (v : json) (old : Z) : outcome Z :=
  match v with
  | JNum lit => match ParseInt lit with Ret n => Ret n | _ => Fail UnmarshalTypeError end
  | JNull => Ret old
  | _ => Fail UnmarshalTypeError
  end.

Definition to_bool (v : json) (old : bool) : outcome bool :=
  match v with JBool b => Ret b | JNull => Ret old | _ => Fail UnmarshalTypeError end.

(** ** Printing strings *)

Definition hex_digit (v : Z) : ascii := chr (if v <? 10 then 48 + v else 87 + v).

(** The escape of one byte below 0x80, with HTML escaping on. *)
Definition quote_byte (c : ascii) : list ascii :=
  let v := byte_val c in
  if (v =? 34) || (v =? 92) then [chr 92; c]
  else if v =? 8 then [chr 92; chr 98]
  else if v =? 12 then [chr 92; chr 102]
  else if v =? 10 then [chr 92; chr 110]
  else if v =? 13 then [chr 92; chr 114]
  else if v =? 9 then [chr 92; chr 116]
  else if (v <? 32) || (v =? 60) || (v =? 62) || (v =? 38) then
    [chr 92; chr 117; chr 48; chr 48; hex_digit (v / 16); hex_digit (v mod 16)]
  else [c].

(** The body of a quoted string: valid UTF-8 is copied (U+2028 and U+2029 are
    escaped), an invalid byte becomes the six bytes of an escaped U+FFFD. *)
Fixpoint quote_bytes (fuel : nat) (l : list ascii) : list ascii :=
  match fuel with
  | O => []
  | S fuel' =>
      match l with
      | [] => []
      | c :: r =>
          if byte_val c <? 0x80 then (quote_byte c ++ quote_bytes fuel' r)%list
          else
            match utf8_size l with
            | None => (bytes_of "\ufffd" ++ quote_bytes fuel' r)%list
            | Some n =>
                let rune := take n l in
                let shown :=
                  if bool_decide (map byte_val rune = [0xE2; 0x80; 0xA8]) then bytes_of "\u2028"
                  else if bool_decide (map byte_val rune = [0xE2; 0x80; 0xA9]) then bytes_of "\u2029"
                  else rune in
                (shown ++ quote_bytes fuel' (drop n l))%list
            end
      end
  end.

Definition quote_char : string := String (chr 34) EmptyString.

Definition json_quote (s : string) : string :=
  quote_char +:+ string_of (quote_bytes (String.length s) (bytes_of s)) +:+ quote_char.

(** A member of a struct, as [json.Marshal] prints it. *)
Definition json_member (key value : string) : string := json_quote key +:+ ":" +:+ value.

(** ** Reading back what was printed *)

Lemma string_of_app a b : string_of (a ++ b) = string_of a +:+ string_of b.
Proof. induction a as [|c s IH]; [done|]. exact (f_equal (String c) IH). Qed.

Lemma length_bytes_of s : length (bytes_of s) = String.length s.
Proof. induction s as [|c s IH]; [done|]. exact (f_equal Datatypes.S IH). Qed.

(** A byte that JSON prints as itself inside a string. *)
Definition json_plain (c : ascii) : bool :=
  let v := byte_val c in
  (32 <=? v) && (v <? 127)
  && negb (bool_decide (v ∈ [34; 92; 38; 60; 62])).

Definition plain (s : string) : Prop := Forall (fun c => json_plain c = true) (bytes_of s).

Lemma json_plain_range c :
  json_plain c = true →
  32 ≤ byte_val c < 127 ∧ byte_val c ∉ [34; 92; 38; 60; 62].
Proof.
  unfold json_plain. intros H. apply andb_true_iff in H as [H1 H2].
  apply negb_true_iff, bool_decide_eq_false in H2. bools. split; [lia|done].
Qed.

Lemma quote_byte_plain c : json_plain c = true → quote_byte c = [c].
Proof.
  intros [Hr Hn]%json_plain_range. unfold quote_byte. cbv zeta.
  rewrite !not_elem_of_cons in Hn.
  repeat match goal with
  | |- context [?a =? ?b] => destruct (Z.eqb_spec a b); [lia|]
  | |- context [?a <? ?b] => destruct (Z.ltb_spec a b); [lia|]
  end. done.
Qed.

Lemma quote_bytes_plain fuel l :
  Forall (fun c => json_plain c = true) l → (length l ≤ fuel)%nat → quote_bytes fuel l = l.
Proof.
  intros Hl. revert fuel. induction Hl as [|c l Hc Hl IH]; intros [|fuel] Hf; simpl in *; try lia; try done.
  destruct (json_plain_range c Hc) as [? _].
  destruct (Z.ltb_spec (byte_val c) 128); [|lia]. rewrite quote_byte_plain by done.
  simpl. rewrite IH; [done|lia].
Qed.

Lemma json_quote_plain s : plain s → json_quote s = quote_char +:+ s +:+ quote_char.
Proof.
  intros Hs. unfold json_quote. rewrite quote_bytes_plain, string_of_bytes; [done|done|].
  rewrite length_bytes_of. lia.
Qed.

Lemma scan_string_plain fuel l r :
  Forall (fun c => json_plain c = true) l → (length l < fuel)%nat →
  scan_string fuel (l ++ chr 34 :: r) = Some (l, r).
Proof.
  intros Hl. revert fuel. induction Hl as [|c l Hc Hl IH]; intros [|fuel] Hf;
    simpl in Hf; try lia; [done|].
  destruct (json_plain_range c Hc) as [? Hn]. rewrite !not_elem_of_cons in Hn.
  cbn [scan_string app]. cbv zeta.
  destruct (Z.eqb_spec (byte_val c) 34); [lia|].
  destruct (Z.ltb_spec (byte_val c) 32); [lia|].
  destruct (Z.eqb_spec (byte_val c) 92); [lia|].
  destruct (Z.ltb_spec (byte_val c) 128); [|lia]. rewrite IH; [done|lia].
Qed.

Lemma span_digits_app ds c r :
  Forall (fun d => is_digit d = true) ds → is_digit c = false →
  span_digits (ds ++ c :: r) = (ds, c :: r).
Proof.
  intros Hds Hc. induction Hds as [|d ds Hd Hds IH]; simpl; [by rewrite Hc|].
  by rewrite Hd, IH.
Qed.

(** The digits of [fmt_uint]: all digits, no leading zero but in ["0"]. *)
Lemma is_digit_chr d : 0 ≤ d < 10 → is_digit (chr (48 + d)) = true.
Proof.
  intros. unfold is_digit, in_range. rewrite byte_val_chr by lia.
  apply andb_true_iff. split; apply Z.leb_le; lia.
Qed.

Lemma uint_digits_digits fuel n acc :
  Forall (fun d => is_digit d = true) (bytes_of acc) →
  Forall (fun d => is_digit d = true) (bytes_of (uint_digits fuel n acc)).
Proof.
  revert n acc. induction fuel as [|fuel IH]; intros n acc Hacc; [done|].
  cbn [uint_digits]. pose proof (Z.mod_pos_bound n 10).
  assert (Forall (fun d => is_digit d = true) (bytes_of (String (chr (48 + n mod 10)) acc))).
  { constructor; [apply is_digit_chr; lia|done]. }
  destruct (n <? 10); auto.
Qed.

Lemma uint_digits_head fuel n acc :
  0 < n < 2 ^ Z.of_nat fuel →
  ∃ c s, uint_digits fuel n acc = String c s ∧ byte_val c ≠ 48 ∧ is_digit c = true.
Proof.
  revert n acc. induction fuel as [|fuel IH]; intros n acc Hn; [simpl in Hn; lia|].
  cbn [uint_digits]. rewrite Nat2Z.inj_succ, Z.pow_succ_r in Hn by lia.
  destruct (Z.ltb_spec n 10).
  - rewrite Z.mod_small by lia. do 2 eexists. split; [done|]. split.
    + rewrite byte_val_chr by lia. lia.
    + apply is_digit_chr. lia.
  - apply IH. split; [apply Z.div_str_pos; lia|apply Z.div_lt_upper_bound; lia].
Qed.

(** A byte that ends a number literal. *)
Definition ends_number (c : ascii) : Prop :=
  is_digit c = false ∧ Ascii.eqb c "." = false ∧ Ascii.eqb c "e" = false ∧ Ascii.eqb c "E" = false.

Lemma scan_tail_end lit c r :
  ends_number c → scan_frac lit (c :: r) = Some (lit, c :: r) ∧ scan_exp lit (c :: r) = Some (lit, c :: r).
Proof. intros (_ & H1 & H2 & H3). simpl. by rewrite H1, H2, H3. Qed.

Lemma scan_number_uint n c r :
  is_u64 n → ends_number c →
  scan_number (bytes_of (fmt_uint n) ++ c :: r) = Some (fmt_uint n, c :: r).
Proof.
  intros Hn Hc. pose proof Hc as (Hcd & _). unfold scan_number.
  destruct (Z.eq_dec n 0) as [->|Hne].
  - change (fmt_uint 0) with "0". cbn -[scan_frac scan_exp].
    change (byte_val "0" =? 48) with true. cbv iota.
    by destruct (scan_tail_end ["0"%char] c r Hc) as [-> ->].
  - destruct (uint_digits_head (S (Z.to_nat (Z.log2 n))) n "") as (d & s & Heq & Hd0 & Hd).
    { split; [unfold is_u64 in Hn; lia|by apply fmt_uint_fuel]. }
    pose proof (uint_digits_digits (S (Z.to_nat (Z.log2 n))) n "" (Forall_nil_2 _)) as Hall.
    unfold fmt_uint. rewrite Heq in Hall |- *. simpl in Hall. apply Forall_cons_1 in Hall as [_ Hall].
    change (bytes_of (String d s) ++ c :: r)%list with (d :: (bytes_of s ++ c :: r))%list.
    cbv iota beta. destruct (Ascii.eqb_spec d "-") as [->|]; [done|].
    cbv iota beta. destruct (Z.eqb_spec (byte_val d) 48); [done|].
    rewrite Hd, span_digits_app by done.
    destruct (scan_tail_end ([] ++ d :: bytes_of s)%list c r Hc) as [-> ->].
    simpl. by rewrite string_of_bytes.
Qed.
