(* ===== verification/External.v ===== *)
(** * Code the node calls but does not contain

    go-ethereum, the Cosmos SDK and CometBFT are libraries.  Their data types
    appear here as records with the fields this code reads; their functions
    are the operations of type classes, that is parameters of every definition
    that calls them, and the behaviour the code relies on is stated in
    separate classes of laws, assumed only by the theorems that need it. *)

From S2P Require Import Prelude GoStd GoJson.

(** ** go-ethereum: common *)

(** [common.Hash] is a 32-byte array and [common.Address] a 20-byte array;
    both are represented by their big-endian value. *)
Abbreviation Hash := Z (only parsing).
Abbreviation Address := Z (only parsing).

Definition is_hash (h : Hash) : Prop := 0 ≤ h < 2 ^ 256.
Definition zeroHash : Hash := 0.
Definition zeroAddress : Address := 0.

(** ** go-ethereum: beacon/engine and core/types *)

Record Withdrawal := mkWithdrawal {
  wd_Index : Z; wd_Validator : Z; wd_Address : Address; wd_Amount : Z }.

(** [engine.ExecutableData].  A nil slice or pointer is [None]; the fields the
    node never looks at are in [ed_other], as the bytes they were read from. *)
Record ExecutableData := mkExecutableData {
  ed_ParentHash : Hash;
  ed_Number : Z;
  ed_Timestamp : Z;
  ed_BlockHash : Hash;
  ed_Transactions : list string;
  ed_Withdrawals : option (list Withdrawal);
  ed_BlobGasUsed : option Z;
  ed_ExcessBlobGas : option Z;
  ed_ExecutionWitness : option string;
  ed_other : string }.

(** The status strings of the Engine API. *)
Definition VALID : string := "VALID".
Definition INVALID : string := "INVALID".
Definition SYNCING : string := "SYNCING".
Definition ACCEPTED : string := "ACCEPTED".

Record PayloadStatusV1 := mkPayloadStatusV1 {
  ps_Status : string;
  ps_LatestValidHash : option Hash;
  ps_ValidationError : option string }.

Record ForkchoiceStateV1 := mkForkchoiceStateV1 {
  fc_HeadBlockHash : Hash; fc_SafeBlockHash : Hash; fc_FinalizedBlockHash : Hash }.

Record PayloadAttributes := mkPayloadAttributes {
  pa_Timestamp : Z;
  pa_Random : Hash;
  pa_SuggestedFeeRecipient : Address;
  pa_Withdrawals : option (list Withdrawal);
  pa_BeaconRoot : option Hash }.

(** [engine.PayloadID] is an 8-byte array. *)
Abbreviation PayloadID := Z (only parsing).

Record ForkChoiceResponse := mkForkChoiceResponse {
  fr_PayloadStatus : PayloadStatusV1;
  fr_PayloadID : option PayloadID }.

(** [engine.ExecutionPayloadEnvelope]: the node only reads its payload
    pointer. *)
Record ExecutionPayloadEnvelope := mkEnvelope {
  env_ExecutionPayload : option ExecutableData }.

#[export] Instance Withdrawal_eq_dec : EqDecision Withdrawal.
Proof. solve_decision. Defined.
#[export] Instance ExecutableData_eq_dec : EqDecision ExecutableData.
Proof. solve_decision. Defined.

(** The functions of go-ethereum that are called. *)
Class GoEthereum := {
  HexToHash : string → Hash;
  Hash_Hex : Hash → string;
  BytesToHash : string → Hash;
  IsHexAddress : string → bool;
  HexToAddress : string → Address;
  EvmTx : Type;
  (** [UnmarshalBinary] of [types.Transaction] *)
  EvmTx_UnmarshalBinary : string → outcome EvmTx;
  EvmTx_BlobHashes : EvmTx → list Hash;
  (** [json.Marshal] / [json.Unmarshal] at [*engine.ExecutableData], whose
      methods go-ethereum generates. *)
  ExecutableData_Marshal : option ExecutableData → outcome string;
  ExecutableData_Unmarshal : string → outcome ExecutableData;
  (** [PayloadID.String()] *)
  PayloadID_String : PayloadID → string;
  (** [engine.UnknownPayload.Error()] *)
  UnknownPayload_Error : string }.

(** [Hash.Hex] is ["0x"] and 64 hexadecimal digits, and [HexToHash] reads it
    back; the codec of a block reads back what it wrote. *)
Class GoEthereumLaws `{GoEthereum} := {
  HexToHash_Hex h : is_hash h → HexToHash (Hash_Hex h) = h;
  HexToHash_range s : is_hash (HexToHash s);
  BytesToHash_range s : is_hash (BytesToHash s);
  Hash_Hex_len h : len (Hash_Hex h) = 66;
  Hash_Hex_prefix h : HasPrefix (Hash_Hex h) "0x" = true;
  Hash_Hex_plain h : Forall (fun c => json_plain c = true) (bytes_of (Hash_Hex h));
  ExecutableData_roundtrip d bz :
    ExecutableData_Marshal (Some d) = Ret bz → ExecutableData_Unmarshal bz = Ret d ∧ len bz ≠ 0;
  ExecutableData_Unmarshal_range bz d :
    ExecutableData_Unmarshal bz = Ret d → is_hash (ed_BlockHash d);
  ExecutableData_Unmarshal_empty d : ExecutableData_Unmarshal "" ≠ Ret d }.

(** ** Cosmos SDK: contexts, messages, transactions *)

Inductive ExecMode :=
| ExecModeCheck | ExecModeReCheck | ExecModeSimulate | ExecModePrepareProposal
| ExecModeProcessProposal | ExecModeVoteExtension | ExecModeVerifyVoteExtension
| ExecModeFinalize.

#[export] Instance ExecMode_eq_dec : EqDecision ExecMode.
Proof. solve_decision. Defined.

(** What the code reads of [sdk.Context].  [BlockTime] is in nanoseconds since
    the Unix epoch. *)
Record SdkContext := mkSdkContext {
  sc_ctx : Ctx;
  sc_Height : Z;           (** [BlockHeader().Height], an int64 *)
  sc_AppHash : string;     (** [BlockHeader().AppHash] *)
  sc_BlockTime : Z;
  sc_ExecMode : ExecMode;
  sc_IsCheckTx : bool;
  sc_IsReCheckTx : bool }.

Definition WithContext (c : SdkContext) (g : Ctx) : SdkContext :=
  mkSdkContext g (sc_Height c) (sc_AppHash c) (sc_BlockTime c) (sc_ExecMode c)
    (sc_IsCheckTx c) (sc_IsReCheckTx c).

(** [time.Time.Unix], as an int64. *)
Definition Unix (t : Z) : Z := t / Second.

Record MsgExecutionPayload := mkMsgExecutionPayload {
  mep_Authority : string;
  mep_ExecutionPayload : string }.

(** An [sdk.Msg]: the node's own payload message, or a message of another Go
    type, of which only the type is ever inspected. *)
Inductive SdkMsg :=
| MExecutionPayload (m : MsgExecutionPayload)
| MOther (goType : string) (body : string).

#[export] Instance MsgExecutionPayload_eq_dec : EqDecision MsgExecutionPayload.
Proof. solve_decision. Defined.
#[export] Instance SdkMsg_eq_dec : EqDecision SdkMsg.
Proof. solve_decision. Defined.

(** [sdk.Coins]: denominations and amounts. *)
Abbreviation Coins := (list (string * Z)) (only parsing).

(** The methods of [signing.Tx] the node calls.  A nil slice is [None]. *)
Record SigningTx := mkSigningTx {
  st_Signatures : outcome (list string);   (** [GetSignaturesV2] *)
  st_Memo : string;
  st_Fee : option Coins;
  st_FeePayer : string;
  st_FeeGranter : option string }.

(** [sdk.FeeTx]. *)
Record FeeTx := mkFeeTx { ft_Gas : Z; ft_Fee : Coins }.

(** An [sdk.Tx] and the two interfaces a type assertion may find on it. *)
Record Tx := mkTx {
  tx_Msgs : list SdkMsg;
  tx_signing : option SigningTx;
  tx_fee : option FeeTx }.

(** [client.TxConfig] and the address functions of [x/auth]. *)
Class CosmosSDK := {
  TxDecoder : string → outcome Tx;
  TxEncoder : Tx → outcome string;
  (** [NewTxBuilder], [SetMsgs], [GetTx] *)
  TxBuild : list SdkMsg → outcome Tx;
  (** [authtypes.NewModuleAddress(name)], its bytes and its bech32 text *)
  NewModuleAddress : string → string;
  AccAddress_String : string → string;
  (** the keeper's [address.Codec] *)
  StringToBytes : string → outcome string;
  BytesToString : string → outcome string }.

(** A transaction built from one payload message and encoded decodes to a
    standard transaction with that message and nothing else: no signature, memo,
    fee or granter, and the message's signer as its fee payer. *)
Class CosmosSDKLaws `{CosmosSDK} := {
  TxBuild_decode m a tx bz :
    TxBuild [MExecutionPayload m] = Ret tx → TxEncoder tx = Ret bz →
    mep_Authority m = AccAddress_String a →
    ∃ tx', TxDecoder bz = Ret tx' ∧ tx_Msgs tx' = [MExecutionPayload m] ∧
           tx_signing tx' = Some (mkSigningTx (Ret []) "" None a None) }.

(** ** Cosmos SDK: collections *)

(** [collections.ValueCodec]: how a value is laid out in the store. *)
Record ValueCodec (V : Type) := mkValueCodec {
  vc_Encode : V → outcome string;
  vc_Decode : string → outcome V }.
Arguments mkValueCodec {V}.
Arguments vc_Encode {V}.
Arguments vc_Decode {V}.

(** [collections.Item]: one value of the module's store, under its prefix. *)
Class ItemStore (St : Type) := {
  Item_Get : ∀ V, ValueCodec V → string → St → outcome V;
  Item_Set : ∀ V, ValueCodec V → string → V → St → outcome St;
  Item_Has : string → St → outcome bool }.
Arguments Item_Get {St _ V}.
Arguments Item_Set {St _ V}.

(** A value that was set is what its codec decodes from its own encoding, and
    items under different prefixes do not disturb each other. *)
Class ItemStoreLaws (St : Type) `{!ItemStore St} := {
  Item_Get_Set V (c : ValueCodec V) k v s s' :
    Item_Set c k v s = Ret s' →
    ∃ bz, vc_Encode c v = Ret bz ∧ Item_Get c k s' = vc_Decode c bz;
  Item_Get_Set_ne V V' (c : ValueCodec V) (c' : ValueCodec V') k k' v s s' :
    k ≠ k' → Item_Set c k v s = Ret s' → Item_Get c' k' s' = Item_Get c' k' s;
  Item_Has_Set V (c : ValueCodec V) k v s s' :
    Item_Set c k v s = Ret s' → Item_Has k s' = Ret true }.

(** A store whose writes do not fail: a value that encodes can be set. *)
Definition writable (St : Type) `{!ItemStore St} : Prop :=
  ∀ V (c : ValueCodec V) k v bz (s : St), vc_Encode c v = Ret bz → ∃ s', Item_Set c k v s = Ret s'.
