(* ===== verification/ChainSpec.v ===== *)
(** * Fork schedule and Engine API routing

    [app/types/chain.go], [app/chain.go] and the config file reader of
    [lib/config.go].  A fork timestamp is [None] when the YAML key is absent
    (a nil pointer in Go). *)

From S2P Require Import Prelude GoStd.

(** ** The config file *)

(** What the process sees of its operating system. *)
Record OS := mkOS {
  Getenv : string → string;
  Stat_IsNotExist : string → bool;
  ReadFile : string → outcome string }.

Definition NEXUS_CONFIG_PATH : string := "NEXUS_CONFIG_PATH".

(** [lib.ReadConfigFile]: an error without a path, a panic when the file is
    missing or cannot be read. *)
Definition ReadConfigFile (os : OS) : outcome string :=
  let path := Getenv os NEXUS_CONFIG_PATH in
  if bool_decide (path = "") then Fail (errText "config file path is empty")
  else if Stat_IsNotExist os path then
    Panic ("could not find file at path " +:+ path)
  else
    match ReadFile os path with
    | Fail e => Panic (Error (errWrapf "failed to read config " e ""))
    | o => o
    end.

(** ** The chain specification *)

Record ChainSpec := mkChainSpec {
  PragueTimestamp : option Z;
  OsakaTimestamp : option Z;
  AmsterdamTimestamp : option Z }.

#[export] Instance ChainSpec_eq_dec : EqDecision ChainSpec.
Proof. solve_decision. Defined.

Definition validate_osaka (c : ChainSpec) : outcome unit :=
  match OsakaTimestamp c with
  | None => Ret tt
  | Some osaka =>
      match PragueTimestamp c with
      | None => Fail (errText "osaka_timestamp is set but prague_timestamp is required (forks activate in order)")
      | Some prague =>
          guard_err (negb (osaka <? prague))
            (errText ("osaka_timestamp (" +:+ fmt_d osaka +:+ ") must be >= prague_timestamp ("
                      +:+ fmt_d prague +:+ ")"))
      end
  end.

Definition validate_amsterdam (c : ChainSpec) : outcome unit :=
  match AmsterdamTimestamp c with
  | None => Ret tt
  | Some amsterdam =>
      match OsakaTimestamp c with
      | None => Fail (errText "amsterdam_timestamp is set but osaka_timestamp is required (forks activate in order)")
      | Some osaka =>
          guard_err (negb (amsterdam <? osaka))
            (errText ("amsterdam_timestamp (" +:+ fmt_d amsterdam +:+ ") must be >= osaka_timestamp ("
                      +:+ fmt_d osaka +:+ ")"))
      end
  end.

(** [ChainSpec.Validate]. *)
Definition ChainSpec_Validate (c : ChainSpec) : outcome unit :=
  do? validate_osaka c in validate_amsterdam c.

Definition active (fork : option Z) (timestamp : Z) : bool :=
  match fork with Some t => t <=? timestamp | None => false end.

Definition IsPragueActive (c : ChainSpec) (timestamp : Z) : bool :=
  active (PragueTimestamp c) timestamp.
Definition IsOsakaActive (c : ChainSpec) (timestamp : Z) : bool :=
  active (OsakaTimestamp c) timestamp.
Definition IsAmsterdamActive (c : ChainSpec) (timestamp : Z) : bool :=
  active (AmsterdamTimestamp c) timestamp.

Definition GetPayloadEngineRPCVersion (c : ChainSpec) (timestamp : Z) : Z :=
  if IsOsakaActive c timestamp then 5
  else if IsPragueActive c timestamp then 4
  else 3.

Definition NewPayloadEngineRPCVersion (c : ChainSpec) (timestamp : Z) : Z :=
  if IsAmsterdamActive c timestamp then 5
  else if IsPragueActive c timestamp then 4
  else 3.

(** [app.LoadChainSpec]; [yaml] is [yaml.Unmarshal] at [ForksConfig]. *)
Definition LoadChainSpec (os : OS) (yaml : string → outcome ChainSpec) : outcome ChainSpec :=
  match ReadConfigFile os with
  | Fail _ => Ret (mkChainSpec None None None)
  | Ret data =>
      let? spec := must (wrap_text "failed to decode config" (yaml data)) in
      do? must (ChainSpec_Validate spec) in
      Ret spec
  | Panic s => Panic s
  | OutOfFuel => OutOfFuel
  end.

(** ** Specification: one fork order and one table *)

(** The forks activate in order and each requires its predecessor. *)
Definition forks_in_order (c : ChainSpec) : Prop :=
  (∀ o, OsakaTimestamp c = Some o → ∃ p, PragueTimestamp c = Some p ∧ p ≤ o) ∧
  (∀ a, AmsterdamTimestamp c = Some a → ∃ o, OsakaTimestamp c = Some o ∧ o ≤ a).

Inductive Era := PrePrague | Prague | Osaka | Amsterdam.

(** The last fork of the order that is active at a timestamp. *)
Definition era (c : ChainSpec) (timestamp : Z) : Era :=
  if IsAmsterdamActive c timestamp then Amsterdam
  else if IsOsakaActive c timestamp then Osaka
  else if IsPragueActive c timestamp then Prague
  else PrePrague.

(** The version matrix of the doc comment of [ChainSpec]:
    (getPayload, newPayload). *)
Definition rpc_matrix (e : Era) : Z * Z :=
  match e with
  | PrePrague => (3, 3)
  | Prague => (4, 4)
  | Osaka => (5, 4)
  | Amsterdam => (5, 5)
  end.

(** ** Theorems *)

Lemma active_mono fork t t' : t ≤ t' → active fork t = true → active fork t' = true.
Proof.
  intros. destruct fork as [x|]; [|done]. unfold active in *. bools. apply Z.leb_le. lia.
Qed.

(** One step of [Validate]: the later fork, if set, needs the earlier one. *)
Ltac fork_step later earlier :=
  destruct later as [t|]; [|naive_solver];
  destruct earlier as [t'|]; [|naive_solver];
  unfold guard_err; destruct (Z.ltb_spec t t'); simpl; naive_solver lia.

Lemma validate_osaka_spec c :
  validate_osaka c = Ret tt ↔
  (∀ o, OsakaTimestamp c = Some o → ∃ p, PragueTimestamp c = Some p ∧ p ≤ o).
Proof. unfold validate_osaka. fork_step (OsakaTimestamp c) (PragueTimestamp c). Qed.

Lemma validate_amsterdam_spec c :
  validate_amsterdam c = Ret tt ↔
  (∀ a, AmsterdamTimestamp c = Some a → ∃ o, OsakaTimestamp c = Some o ∧ o ≤ a).
Proof. unfold validate_amsterdam. fork_step (AmsterdamTimestamp c) (OsakaTimestamp c). Qed.

Lemma Validate_forks_in_order c : ChainSpec_Validate c = Ret tt ↔ forks_in_order c.
Proof.
  unfold ChainSpec_Validate, forks_in_order.
  rewrite <-validate_osaka_spec, <-validate_amsterdam_spec.
  unfold_monad. destruct (validate_osaka c) as [[]| | |]; naive_solver.
Qed.

(** In an ordered schedule an active fork has its predecessor active. *)
Lemma ordered_osaka_prague c t :
  forks_in_order c → IsOsakaActive c t = true → IsPragueActive c t = true.
Proof.
  intros [H _]. unfold IsOsakaActive, IsPragueActive, active.
  destruct (OsakaTimestamp c) as [o|]; [|done]. destruct (H o eq_refl) as (p & -> & ?).
  intros. bools. apply Z.leb_le. lia.
Qed.

Lemma ordered_amsterdam_osaka c t :
  forks_in_order c → IsAmsterdamActive c t = true → IsOsakaActive c t = true.
Proof.
  intros [_ H]. unfold IsOsakaActive, IsAmsterdamActive, active.
  destruct (AmsterdamTimestamp c) as [a|]; [|done]. destruct (H a eq_refl) as (o & -> & ?).
  intros. bools. apply Z.leb_le. lia.
Qed.

#[export] Hint Resolve ordered_osaka_prague ordered_amsterdam_osaka active_mono : nexus.

(** [ChainSpec.Validate] accepts a schedule exactly when the forks are in
    order, each with its predecessor set, equal timestamps allowed. *)
Theorem ChainSpec_Validate_iff_ordered c :
  ChainSpec_Validate c = Ret tt ↔ forks_in_order c.
Proof. apply Validate_forks_in_order. Qed.

(** C28: for every schedule that [Validate] accepts and every timestamp, the two
    Engine API versions are the ones the documented matrix gives for the last
    active fork. *)
Theorem rpc_versions_follow_matrix c t :
  ChainSpec_Validate c = Ret tt →
  (GetPayloadEngineRPCVersion c t, NewPayloadEngineRPCVersion c t) = rpc_matrix (era c t).
Proof.
  intros Hv%Validate_forks_in_order.
  unfold GetPayloadEngineRPCVersion, NewPayloadEngineRPCVersion, era.
  destruct (IsAmsterdamActive c t) eqn:Ha.
  - by rewrite (ordered_amsterdam_osaka c t Hv Ha).
  - destruct (IsOsakaActive c t) eqn:Ho; [by rewrite (ordered_osaka_prague c t Hv Ho)|].
    by destruct (IsPragueActive c t).
Qed.

Lemma rpc_versions_follow_matrix_witness :
  let c := mkChainSpec (Some 10) (Some 20) (Some 30) in
  ChainSpec_Validate c = Ret tt ∧
  (GetPayloadEngineRPCVersion c 25, NewPayloadEngineRPCVersion c 25) = rpc_matrix (era c 25).
Proof. split; [reflexivity|]. apply rpc_versions_follow_matrix. reflexivity. Defined.

(** As time passes neither version ever goes back, whatever the schedule:
    a block that is built with one RPC version is never followed by a block
    built with an older one. *)
Theorem rpc_versions_monotone c t t' :
  t ≤ t' →
  GetPayloadEngineRPCVersion c t ≤ GetPayloadEngineRPCVersion c t' ∧
  NewPayloadEngineRPCVersion c t ≤ NewPayloadEngineRPCVersion c t'.
Proof.
  intros Ht.
  pose proof (active_mono (PragueTimestamp c) t t' Ht) as Hp.
  pose proof (active_mono (OsakaTimestamp c) t t' Ht) as Ho.
  pose proof (active_mono (AmsterdamTimestamp c) t t' Ht) as Ha.
  unfold GetPayloadEngineRPCVersion, NewPayloadEngineRPCVersion,
    IsPragueActive, IsOsakaActive, IsAmsterdamActive.
  destruct (active (PragueTimestamp c) t), (active (OsakaTimestamp c) t),
    (active (AmsterdamTimestamp c) t);
  rewrite ?Hp, ?Ho, ?Ha by done; repeat case_match; lia.
Qed.

Lemma rpc_versions_monotone_witness :
  let c := mkChainSpec (Some 10) (Some 20) None in
  GetPayloadEngineRPCVersion c 10 ≤ GetPayloadEngineRPCVersion c 20 ∧
  NewPayloadEngineRPCVersion c 10 ≤ NewPayloadEngineRPCVersion c 20.
Proof. apply rpc_versions_monotone. lia. Defined.
