(* ===== verification/Engine.v ===== *)
(** * The Engine API client

    [lib/engine.go]: the [EngineClient] interface, its JSON-RPC implementation
    and the stub used when no execution client is configured; the consensus
    request messages of [x/evm/types/consensus.go] that two of its methods
    take.  The [World] record is the state the consensus client works on: its
    clock, the execution client and everything else outside ([w_env]), the
    application store and what has been observable so far. *)

From S2P Require Import Prelude GoStd External.

(** ** Consensus requests *)

Record DepositRequest := mkDepositRequest {
  dr_Pubkey : string; dr_WithdrawalCredentials : string; dr_Amount : Z;
  dr_Signature : string; dr_Index : Z }.

Record WithdrawalRequest := mkWithdrawalRequest {
  wr_SourceAddress : string; wr_ValidatorPubkey : string; wr_Amount : Z }.

Record ConsensusRequests := mkConsensusRequests {
  cr_Deposits : list DepositRequest; cr_Withdrawals : list WithdrawalRequest }.

Definition DepositRequest_Encode (d : DepositRequest) : outcome (list string) :=
  Panic "not implemented".
Definition WithdrawalRequest_Encode (w : WithdrawalRequest) : outcome (list string) :=
  Panic "not implemented".
Definition ConsensusRequests_Encode (c : ConsensusRequests) : outcome (list string) :=
  Panic "not implemented".

(** ** The interface *)

(** A call changes the environment, takes some time (in nanoseconds, never
    negative) and ends like any Go call. *)
Definition Call (E A : Type) : Type := E → (E * N) * outcome A.

(** [lib.EngineClient]. *)
Class EngineClient (E : Type) := {
  NewPayloadV3 : Ctx → ExecutableData → list Hash → option Hash → Call E PayloadStatusV1;
  NewPayloadV4 : Ctx → ExecutableData → list Hash → option Hash →
    option ConsensusRequests → Call E PayloadStatusV1;
  NewPayloadV5 : Ctx → ExecutableData → list Hash → option Hash →
    option ConsensusRequests → Call E PayloadStatusV1;
  ForkchoiceUpdatedV3 : Ctx → ForkchoiceStateV1 → option PayloadAttributes →
    Call E ForkChoiceResponse;
  GetPayloadV3 : Ctx → PayloadID → Call E ExecutionPayloadEnvelope;
  GetPayloadV4 : Ctx → PayloadID → Call E ExecutionPayloadEnvelope;
  GetPayloadV5 : Ctx → PayloadID → Call E ExecutionPayloadEnvelope }.

(** What the runtime does to a waiting goroutine: a pause of [d] lasts at
    least [d], [oversleep] is by how much more; a [select] with several ready
    cases takes any of them, [pick] tells whether it is the first. *)
Class Host (E : Type) := {
  oversleep : Z → E → E * N;
  pick : E → E * bool }.

(** ** The JSON-RPC client *)

Inductive RpcParam :=
| PExecutableData (d : ExecutableData)
| PHashes (l : list Hash)
| PBeaconRoot (h : option Hash)
| PRequests (l : list string)
| PForkchoiceState (f : ForkchoiceStateV1)
| PPayloadAttributes (a : option PayloadAttributes)
| PPayloadID (i : PayloadID).

(** [rpc.Client.CallContext] at the three response types.  On an error the
    second component is the response variable as ["%v"] prints it. *)
Class RpcClient (E : Type) := {
  CallPayloadStatus : Ctx → string → list RpcParam → E → (E * N) * (PayloadStatusV1 + error * string);
  CallForkChoice : Ctx → string → list RpcParam → E → (E * N) * (ForkChoiceResponse + error * string);
  CallEnvelope : Ctx → string → list RpcParam → E → (E * N) * (ExecutionPayloadEnvelope + error * string);
  fmt_ForkChoiceResponse : ForkChoiceResponse → string }.

Definition newPayloadV3 : string := "engine_newPayloadV3".
Definition newPayloadV4 : string := "engine_newPayloadV4".
Definition newPayloadV5 : string := "engine_newPayloadV5".
Definition forkchoiceUpdatedV3 : string := "engine_forkchoiceUpdatedV3".
Definition getPayloadV3 : string := "engine_getPayloadV3".
Definition getPayloadV4 : string := "engine_getPayloadV4".
Definition getPayloadV5 : string := "engine_getPayloadV5".

(** The common tail of every method: the response, or the wrapped error. *)
Definition rpc_result {E A} (what : string) (r : (E * N) * (A + error * string)) :
    (E * N) * outcome A :=
  match r with
  | (ed, inl response) => (ed, Ret response)
  | (ed, inr (err, shown)) => (ed, Fail (errWrapf (what +:+ ": ") err (", response: " +:+ shown)))
  end.

Section JsonRpc.
Context {E : Type} `{!RpcClient E}.

Definition engineClient_NewPayloadV3 (ctx : Ctx) (params : ExecutableData)
    (versionedHashes : list Hash) (beaconRoot : option Hash) : Call E PayloadStatusV1 := fun e =>
  rpc_result "new payload v3"
    (CallPayloadStatus ctx newPayloadV3
       [PExecutableData params; PHashes versionedHashes; PBeaconRoot beaconRoot] e).

(** The methods with requests encode them first. *)
Definition requestsData (requests : option ConsensusRequests) : outcome (list string) :=
  match requests with Some r => ConsensusRequests_Encode r | None => Ret [] end.

Definition engineClient_NewPayloadV4 (ctx : Ctx) (params : ExecutableData)
    (versionedHashes : list Hash) (beaconRoot : option Hash)
    (requests : option ConsensusRequests) : Call E PayloadStatusV1 := fun e =>
  match requestsData requests with
  | Ret data =>
      rpc_result "new payload v4"
        (CallPayloadStatus ctx newPayloadV4
           [PExecutableData params; PHashes versionedHashes; PBeaconRoot beaconRoot; PRequests data] e)
  | Panic s => (e, 0%N, Panic s)
  | Fail err => (e, 0%N, Fail err)
  | OutOfFuel => (e, 0%N, OutOfFuel)
  end.

Definition engineClient_NewPayloadV5 (ctx : Ctx) (params : ExecutableData)
    (versionedHashes : list Hash) (beaconRoot : option Hash)
    (requests : option ConsensusRequests) : Call E PayloadStatusV1 := fun e =>
  match requestsData requests with
  | Ret data =>
      rpc_result "new payload v5"
        (CallPayloadStatus ctx newPayloadV5
           [PExecutableData params; PHashes versionedHashes; PBeaconRoot beaconRoot; PRequests data] e)
  | Panic s => (e, 0%N, Panic s)
  | Fail err => (e, 0%N, Fail err)
  | OutOfFuel => (e, 0%N, OutOfFuel)
  end.

(** An ["ACCEPTED"] answer to forkchoiceUpdated is turned into an error. *)
Definition engineClient_ForkchoiceUpdatedV3 (ctx : Ctx) (update : ForkchoiceStateV1)
    (payloadAttributes : option PayloadAttributes) : Call E ForkChoiceResponse := fun e =>
  match rpc_result "forkchoice updated v3"
          (CallForkChoice ctx forkchoiceUpdatedV3
             [PForkchoiceState update; PPayloadAttributes payloadAttributes] e) with
  | (ed, Ret response) =>
      if bool_decide (ps_Status (fr_PayloadStatus response) = "ACCEPTED") then
        (ed, Fail (errText ("unexpected status accepted: " +:+ fmt_ForkChoiceResponse response)))
      else (ed, Ret response)
  | r => r
  end.

Definition engineClient_GetPayloadV3 (ctx : Ctx) (payloadID : PayloadID) :
    Call E ExecutionPayloadEnvelope := fun e =>
  rpc_result "get payload v3" (CallEnvelope ctx getPayloadV3 [PPayloadID payloadID] e).

Definition engineClient_GetPayloadV4 (ctx : Ctx) (payloadID : PayloadID) :
    Call E ExecutionPayloadEnvelope := fun e =>
  rpc_result "get payload v4" (CallEnvelope ctx getPayloadV4 [PPayloadID payloadID] e).

Definition engineClient_GetPayloadV5 (ctx : Ctx) (payloadID : PayloadID) :
    Call E ExecutionPayloadEnvelope := fun e =>
  rpc_result "get payload v5" (CallEnvelope ctx getPayloadV5 [PPayloadID payloadID] e).

Definition engineClient : EngineClient E := {|
  NewPayloadV3 := engineClient_NewPayloadV3;
  NewPayloadV4 := engineClient_NewPayloadV4;
  NewPayloadV5 := engineClient_NewPayloadV5;
  ForkchoiceUpdatedV3 := engineClient_ForkchoiceUpdatedV3;
  GetPayloadV3 := engineClient_GetPayloadV3;
  GetPayloadV4 := engineClient_GetPayloadV4;
  GetPayloadV5 := engineClient_GetPayloadV5 |}.

End JsonRpc.

(** ** The stub *)

Definition stub_status : PayloadStatusV1 := mkPayloadStatusV1 SYNCING None None.
Definition stub_error : error := errText "EVM not enabled (set EVM_ENABLED=true to enable)".

(** [lib.stubEngineClient]: SYNCING for every submission, an error for every
    payload request; it needs no environment and takes no time. *)
Definition stubEngineClient {E} : EngineClient E := {|
  NewPayloadV3 _ _ _ _ := fun e => (e, 0%N, Ret stub_status);
  NewPayloadV4 _ _ _ _ _ := fun e => (e, 0%N, Ret stub_status);
  NewPayloadV5 _ _ _ _ _ := fun e => (e, 0%N, Ret stub_status);
  ForkchoiceUpdatedV3 _ _ _ := fun e => (e, 0%N, Ret (mkForkChoiceResponse stub_status None));
  GetPayloadV3 _ _ := fun e => (e, 0%N, Fail stub_error);
  GetPayloadV4 _ _ := fun e => (e, 0%N, Fail stub_error);
  GetPayloadV5 _ _ := fun e => (e, 0%N, Fail stub_error) |}.

(** ** The world of the consensus client *)

Inductive EngineRequest :=
| ReqNewPayload (version : Z) (params : ExecutableData) (versionedHashes : list Hash)
    (beaconRoot : option Hash)
| ReqForkchoiceUpdated (update : ForkchoiceStateV1) (attrs : option PayloadAttributes)
| ReqGetPayload (version : Z) (id : PayloadID).

Inductive LogLevel := LDebug | LInfo | LWarn | LError.

(** What happens outside the store, in order. *)
Inductive Event :=
| EvEngine (r : EngineRequest)
| EvLog (level : LogLevel) (msg : string)
| EvCounter (keys : list string) (status : string).

Record World (E S : Type) := mkWorld {
  w_now : Z;                     (** monotonic clock, nanoseconds *)
  w_env : E;
  w_store : S;
  w_trace : list Event;
  w_lastLoggedRPCVersion : Z     (** the process-wide atomic of [abci.go] *) }.
Arguments mkWorld {E S}.
Arguments w_now {E S}.
Arguments w_env {E S}.
Arguments w_store {E S}.
Arguments w_trace {E S}.
Arguments w_lastLoggedRPCVersion {E S}.

Section WorldOps.
Context {E S : Type}.
Local Abbreviation W := (World E S).

Definition emit (ev : Event) : M W unit :=
  modify (fun w => mkWorld (w_now w) (w_env w) (w_store w) (w_trace w ++ [ev])
                     (w_lastLoggedRPCVersion w)).

Definition logger (l : LogLevel) (msg : string) : M W unit := emit (EvLog l msg).

Definition engine_call {A} (r : EngineRequest) (c : Call E A) : M W A := fun w =>
  match c (w_env w) with
  | (e', d, o) =>
      (mkWorld (w_now w + Z.of_N d) e' (w_store w) (w_trace w ++ [EvEngine r])
         (w_lastLoggedRPCVersion w), o)
  end.

Definition sleep `{!Host E} (d : Z) : M W unit := fun w =>
  match oversleep d (w_env w) with
  | (e', x) =>
      (mkWorld (w_now w + d + Z.of_N x) e' (w_store w) (w_trace w) (w_lastLoggedRPCVersion w),
       Ret tt)
  end.

(** [select { case <-time.After(d): case <-ctx.Done(): return ctx.Err() }] *)
Definition select_after `{!Host E} (d : Z) (ctx : Ctx) : M W unit := fun w =>
  let timer := w_now w + d in
  let wake := match ctx_done ctx with
              | Some (t, _) => Z.max (w_now w) (Z.min timer t)
              | None => timer
              end in
  let '(e1, x) := oversleep (wake - w_now w) (w_env w) in
  let now' := wake + Z.of_N x in
  let at_ e := mkWorld now' e (w_store w) (w_trace w) (w_lastLoggedRPCVersion w) in
  match ctx_Err ctx now' with
  | None => (at_ e1, Ret tt)
  | Some err =>
      if timer <=? now' then
        let '(e2, first) := pick e1 in (at_ e2, if first then Ret tt else Fail err)
      else (at_ e1, Fail err)
  end.

(** A read of the store that may fail, and a write. *)
Definition read_store {A} (f : S → outcome A) : M W A := fun w => (w, f (w_store w)).
Definition write_store (f : S → outcome S) : M W unit := fun w =>
  match f (w_store w) with
  | Ret s' => (mkWorld (w_now w) (w_env w) s' (w_trace w) (w_lastLoggedRPCVersion w), Ret tt)
  | Fail e => (w, Fail e)
  | Panic m => (w, Panic m)
  | OutOfFuel => (w, OutOfFuel)
  end.

(** [atomic.Int32.Swap]. *)
Definition swap_lastLoggedRPCVersion (v : Z) : M W Z := fun w =>
  (mkWorld (w_now w) (w_env w) (w_store w) (w_trace w) v, Ret (w_lastLoggedRPCVersion w)).

(** ** Frame lemmas *)

Lemma engine_call_store {A} r (c : Call E A) : preserves (same w_store) (engine_call r c).
Proof. intros w w' o. unfold engine_call. destruct (c _) as [[??]?]. by intros [= <- _]. Qed.

Lemma engine_call_clock {A} r (c : Call E A) : preserves (grows w_now) (engine_call r c).
Proof.
  intros w w' o. unfold engine_call, grows. destruct (c _) as [[??]?].
  intros [= <- _]. simpl. lia.
Qed.

Lemma emit_store ev : preserves (same w_store) (emit ev).
Proof. by intros w w' o [= <- _]. Qed.
Lemma emit_clock ev : preserves (grows w_now) (emit ev).
Proof. intros w w' o [= <- _]. unfold grows. simpl. lia. Qed.

Lemma sleep_store `{!Host E} d : preserves (same w_store) (sleep d).
Proof. intros w w' o. unfold sleep. destruct (oversleep _ _). by intros [= <- _]. Qed.
Lemma sleep_clock `{!Host E} d : 0 ≤ d → preserves (grows w_now) (sleep d).
Proof.
  intros ? w w' o. unfold sleep, grows. destruct (oversleep _ _). intros [= <- _]. simpl. lia.
Qed.

Lemma select_after_store `{!Host E} d ctx : preserves (same w_store) (select_after d ctx).
Proof.
  intros w w' o. unfold select_after. repeat case_match; by intros [= <- _].
Qed.
Lemma select_after_clock `{!Host E} d ctx : 0 ≤ d → preserves (grows w_now) (select_after d ctx).
Proof.
  intros Hd w w' o. unfold select_after, grows.
  repeat case_match; intros [= <- _]; simpl; lia.
Qed.
Lemma select_after_returns `{!Host E} d ctx w : (select_after d ctx w).2 ≠ OutOfFuel.
Proof. unfold select_after. repeat case_match; done. Qed.

Lemma swap_store v : preserves (same w_store) (swap_lastLoggedRPCVersion v).
Proof. by intros w w' o [= <- _]. Qed.
Lemma swap_clock v : preserves (grows w_now) (swap_lastLoggedRPCVersion v).
Proof. intros w w' o [= <- _]. unfold grows. simpl. lia. Qed.

(** Everything observable that is added satisfies [P]. *)
Definition emits (P : Event → Prop) : relation W := fun w w' =>
  ∃ l, w_trace w' = (w_trace w ++ l)%list ∧ Forall P l.

#[export] Instance emits_preorder P : PreOrder (emits P).
Proof.
  split.
  - intros w. exists []. by rewrite app_nil_r.
  - intros w1 w2 w3 (l1 & H1 & F1) (l2 & H2 & F2). exists (l1 ++ l2)%list.
    rewrite H2, H1, app_assoc. split; [done|]. by apply Forall_app.
Qed.

Lemma same_trace_emits P (w w' : W) : w_trace w' = w_trace w → emits P w w'.
Proof. intros H. exists []. by rewrite app_nil_r. Qed.

Lemma engine_call_emits {A} (P : Event → Prop) r (c : Call E A) :
  P (EvEngine r) → preserves (emits P) (engine_call r c).
Proof.
  intros HP w w' o. unfold engine_call. destruct (c _) as [[??]?]. intros [= <- _].
  exists [EvEngine r]. by repeat constructor.
Qed.
Lemma emit_emits (P : Event → Prop) ev : P ev → preserves (emits P) (emit ev).
Proof. intros HP w w' o [= <- _]. exists [ev]. by repeat constructor. Qed.
Lemma sleep_emits `{!Host E} P d : preserves (emits P) (sleep d).
Proof.
  intros w w' o. unfold sleep. destruct (oversleep _ _). intros [= <- _].
  by apply same_trace_emits.
Qed.
Lemma select_after_emits `{!Host E} P d ctx : preserves (emits P) (select_after d ctx).
Proof.
  intros w w' o. unfold select_after. repeat case_match; intros [= <- _]; by apply same_trace_emits.
Qed.
Lemma swap_emits P v : preserves (emits P) (swap_lastLoggedRPCVersion v).
Proof. intros w w' o [= <- _]. by apply same_trace_emits. Qed.
Lemma write_store_emits P f : preserves (emits P) (write_store f).
Proof.
  intros w w' o. unfold write_store. destruct (f _); intros [= <- _]; by apply same_trace_emits.
Qed.

Lemma read_store_world {A} (f : S → outcome A) (R : relation W) `{!Reflexive R} :
  preserves R (read_store f).
Proof. intros w w' o [= <- _]. reflexivity. Qed.

Lemma write_store_clock f : preserves (grows w_now) (write_store f).
Proof.
  intros w w' o. unfold write_store, grows.
  destruct (f _); intros [= <- _]; simpl; lia.
Qed.

End WorldOps.

#[export] Hint Resolve engine_call_store engine_call_clock emit_store emit_clock
  sleep_store sleep_clock select_after_store select_after_clock select_after_emits swap_store swap_clock read_store_world write_store_clock
  sleep_emits swap_emits write_store_emits engine_call_emits emit_emits : nexus.
#[export] Hint Unfold logger : nexus.
