(* ===== verification/Concrete.v ===== *)
(** * One concrete environment

    Instances of the interfaces of [External] and [Engine] on which the model
    runs: hexadecimal hashes as go-ethereum prints them, block and transaction
    codecs through [Countable], a store that is a finite map, and an execution
    client that answers from a script.  They show that the assumed laws can
    hold together, and the witnesses evaluate the theorems on them.  None of
    them is a global instance: a file opts in with [Existing Instance]. *)

From S2P Require Import Prelude GoStd GoJson External Engine.

(** ** Hexadecimal hashes *)

Fixpoint hex_digits (n : nat) (h : Z) (acc : string) : string :=
  match n with
  | O => acc
  | Datatypes.S n' => hex_digits n' (h / 16) (String (hex_digit (h mod 16)) acc)
  end.

Fixpoint hex_value (s : string) (acc : Z) : Z :=
  match s with
  | EmptyString => acc
  | String c s' =>
      match hex_val c with Some v => hex_value s' (16 * acc + v) | None => acc end
  end.

Fixpoint bytes_value (s : string) (acc : Z) : Z :=
  match s with
  | EmptyString => acc
  | String c s' => bytes_value s' (256 * acc + byte_val c)
  end.

Lemma hex_val_digit v : 0 ≤ v < 16 → hex_val (hex_digit v) = Some v.
Proof.
  intros Hv. assert (v ∈ seqZ 0 16) as Hin by (apply elem_of_seqZ; lia).
  clear Hv. revert v Hin. apply Forall_forall. repeat (constructor; [reflexivity|]). constructor.
Qed.

Lemma hex_digit_plain v : 0 ≤ v < 16 → json_plain (hex_digit v) = true.
Proof.
  intros Hv. assert (v ∈ seqZ 0 16) as Hin by (apply elem_of_seqZ; lia).
  clear Hv. revert v Hin. apply Forall_forall. repeat (constructor; [reflexivity|]). constructor.
Qed.

Lemma hex_digits_value n h acc a :
  0 ≤ h < 16 ^ Z.of_nat n →
  hex_value (hex_digits n h acc) a = hex_value acc (a * 16 ^ Z.of_nat n + h).
Proof.
  revert h acc a. induction n as [|n IH]; intros h acc a Hh; cbn [hex_digits].
  - simpl in *. f_equal. lia.
  - rewrite Nat2Z.inj_succ, Z.pow_succ_r in * by lia.
    pose proof (Z.mod_pos_bound h 16). pose proof (Z.div_mod h 16).
    rewrite IH by (split; [apply Z.div_pos; lia|apply Z.div_lt_upper_bound; lia]).
    cbn [hex_value]. rewrite hex_val_digit by lia. f_equal. nia.
Qed.

Lemma hex_digits_length n h acc :
  String.length (hex_digits n h acc) = (n + String.length acc)%nat.
Proof. revert h acc. induction n as [|n IH]; intros; cbn [hex_digits]; [done|]. rewrite IH. simpl. lia. Qed.

Lemma hex_digits_plain n h acc : plain acc → plain (hex_digits n h acc).
Proof.
  unfold plain. revert h acc. induction n as [|n IH]; intros h acc Ha; cbn [hex_digits]; [done|].
  apply IH. constructor; [|done]. apply hex_digit_plain. apply Z.mod_pos_bound. lia.
Qed.

Definition hash_hex (h : Hash) : string := "0x" +:+ hex_digits 64 (h mod 2 ^ 256) "".
Definition hex_to_hash (s : string) : Hash := hex_value (TrimPrefix s "0x") 0 mod 2 ^ 256.
Definition bytes_to_hash (s : string) : Hash := bytes_value s 0 mod 2 ^ 256.

Lemma TrimPrefix_0x s : TrimPrefix ("0x" +:+ s) "0x" = s.
Proof. by destruct s. Qed.

Lemma hash_hex_roundtrip h : is_hash h → hex_to_hash (hash_hex h) = h.
Proof.
  intros Hh. unfold hex_to_hash, hash_hex. rewrite TrimPrefix_0x.
  rewrite (Z.mod_small h) by exact Hh.
  rewrite hex_digits_value by (change (16 ^ Z.of_nat 64) with (2 ^ 256); exact Hh).
  simpl hex_value. rewrite Z.mul_0_l, Z.add_0_l. by apply Z.mod_small.
Qed.

(** ** Codecs through [Countable] *)

#[export] Instance Withdrawal_countable : Countable Withdrawal.
Proof.
  refine (inj_countable' (fun w => (wd_Index w, wd_Validator w, wd_Address w, wd_Amount w))
    (fun '(a, b, c, d) => mkWithdrawal a b c d) _). by intros [].
Defined.
#[export] Instance ExecutableData_countable : Countable ExecutableData.
Proof.
  refine (inj_countable' (fun e => (ed_ParentHash e, ed_Number e, ed_Timestamp e, ed_BlockHash e,
      ed_Transactions e, ed_Withdrawals e, ed_BlobGasUsed e, ed_ExcessBlobGas e,
      ed_ExecutionWitness e, ed_other e))
    (fun '(a, b, c, d, e, f, g, h, i, j) => mkExecutableData a b c d e f g h i j) _). by intros [].
Defined.
Fixpoint pos_string (p : positive) : string :=
  match p with
  | xH => "1"
  | xO p' => String "0" (pos_string p')
  | xI p' => String "1" (pos_string p')
  end.

Fixpoint string_pos (s : string) : option positive :=
  match s with
  | EmptyString => None
  | String c s' =>
      match string_pos s' with
      | Some p => if bool_decide (c = "0"%char) then Some (xO p) else Some (xI p)
      | None => if bool_decide (c = "1"%char) then Some xH else None
      end
  end.

Lemma string_pos_string p : string_pos (pos_string p) = Some p.
Proof. induction p as [p IH|p IH|]; cbn [pos_string string_pos]; rewrite ?IH; reflexivity. Qed.

Definition encode_text `{Countable A} (a : A) : string := pos_string (encode a).
Definition decode_text `{Countable A} (s : string) : option A := string_pos s ≫= decode.

Lemma decode_encode_text `{Countable A} (a : A) : decode_text (encode_text a) = Some a.
Proof. unfold decode_text, encode_text. rewrite string_pos_string. apply decode_encode. Qed.

Lemma encode_text_len `{Countable A} (a : A) : len (encode_text a) ≠ 0.
Proof. unfold encode_text. by destruct (encode a). Qed.

Definition syntax_error : error := errText "cannot decode".

(** ** go-ethereum *)

(** A transaction is its bytes; a leading ["B"] makes it one with one blob per
    following byte, an ["X"] is not a transaction. *)
Definition evm_tx_decode (s : string) : outcome string :=
  if HasPrefix s "X" then Fail syntax_error else Ret s.

Definition evm_tx_blobs (s : string) : list Hash :=
  if HasPrefix s "B" then map byte_val (bytes_of (TrimPrefix s "B")) else [].

Definition geth : GoEthereum := {|
  HexToHash := hex_to_hash;
  Hash_Hex := hash_hex;
  BytesToHash := bytes_to_hash;
  IsHexAddress s := HasPrefix s "0x" && (len s =? 42);
  HexToAddress s := hex_value (TrimPrefix s "0x") 0 mod 2 ^ 160;
  EvmTx := string;
  EvmTx_UnmarshalBinary := evm_tx_decode;
  EvmTx_BlobHashes := evm_tx_blobs;
  ExecutableData_Marshal o :=
    match o with
    | Some d => if bool_decide (is_hash (ed_BlockHash d)) then Ret (encode_text d) else Fail syntax_error
    | None => Ret "null"
    end;
  ExecutableData_Unmarshal s :=
    match decode_text s with
    | Some d => if bool_decide (is_hash (ed_BlockHash d)) then Ret d else Fail syntax_error
    | None => Fail syntax_error
    end;
  PayloadID_String i := "0x" +:+ hex_digits 16 i "";
  UnknownPayload_Error := "Unknown payload" |}.

Lemma geth_laws : @GoEthereumLaws geth.
Proof.
  split; cbn.
  - apply hash_hex_roundtrip.
  - intros s. apply Z.mod_pos_bound. lia.
  - intros s. apply Z.mod_pos_bound. lia.
  - intros h. unfold len, hash_hex. rewrite string_length_app, hex_digits_length. reflexivity.
  - intros h. unfold hash_hex. by destruct (hex_digits 64 (h mod 2 ^ 256) "").
  - intros h. unfold hash_hex. rewrite bytes_of_app.
    repeat (constructor; [reflexivity|]). apply hex_digits_plain. constructor.
  - intros d bz. case_bool_decide as Hd; [|done]. intros [= <-].
    rewrite decode_encode_text, bool_decide_eq_true_2 by done. split; [done|apply encode_text_len].
  - intros bz d. destruct (decode_text bz) as [d'|]; [|done]. case_bool_decide; [|done]. by intros [= <-].
  - done.
Qed.

(** ** Cosmos SDK *)

(** Only unsigned transactions without memo, fee or granter, as the node
    builds them, can be encoded.  The fee payer is the signer of the message. *)
Definition plain_tx (msgs : list SdkMsg) : Tx :=
  let payer := match msgs with
               | [MExecutionPayload m] => TrimPrefix (mep_Authority m) "nexus1"
               | _ => ""
               end in
  mkTx msgs (Some (mkSigningTx (Ret []) "" None payer None)) (Some (mkFeeTx 0 [])).

(** The text of the evm module's address. *)
Definition evm_authority : string := "nexus1module/evm".

(** A transaction is a payload message of the evm module (["P"] and the
    payload) or an empty message of another type (["O"] and the type). *)
Definition tx_encode (t : Tx) : outcome string :=
  match tx_Msgs t with
  | [MExecutionPayload m] =>
      if bool_decide (mep_Authority m = evm_authority) then Ret ("P" +:+ mep_ExecutionPayload m)
      else Fail syntax_error
  | [MOther ty b] => if bool_decide (b = "") then Ret ("O" +:+ ty) else Fail syntax_error
  | _ => Fail syntax_error
  end.

Definition tx_decode (s : string) : outcome Tx :=
  if HasPrefix s "P" then
    Ret (plain_tx [MExecutionPayload (mkMsgExecutionPayload evm_authority (TrimPrefix s "P"))])
  else if HasPrefix s "O" then Ret (plain_tx [MOther (TrimPrefix s "O") ""])
  else Fail syntax_error.

Definition cosmos : CosmosSDK := {|
  TxDecoder := tx_decode;
  TxEncoder := tx_encode;
  TxBuild ms := Ret (plain_tx ms);
  NewModuleAddress n := "module/" +:+ n;
  AccAddress_String a := "nexus1" +:+ a;
  StringToBytes s := if HasPrefix s "nexus1" then Ret (TrimPrefix s "nexus1")
                     else Fail (errText "invalid bech32 prefix");
  BytesToString b := Ret ("nexus1" +:+ b) |}.

Lemma cosmos_laws : @CosmosSDKLaws cosmos.
Proof.
  split. cbn. intros [auth pl] a tx bz [= <-] He Ha. unfold tx_encode in He. cbn in He, Ha.
  case_bool_decide as Hauth; [|done]. injection He as <-. subst auth.
  assert (a = "module/evm") as -> by (by injection Hauth).
  unfold tx_decode. replace (HasPrefix ("P" +:+ pl) "P") with true by (by destruct pl).
  eexists. split_and!; [reflexivity| |reflexivity]. simpl. by destruct pl.
Qed.

(** ** The store *)

Definition mapStore : ItemStore (gmap string string) := {|
  Item_Get V c k s :=
    match s !! k with Some bz => vc_Decode c bz | None => Fail ErrNotFound end;
  Item_Set V c k v s := let? bz := vc_Encode c v in Ret (<[k := bz]> s);
  Item_Has k s := Ret (bool_decide (is_Some (s !! k))) |}.

Lemma mapStore_laws : @ItemStoreLaws _ mapStore.
Proof.
  split; cbn.
  - intros V c k v s s' Hs. apply bindO_ret in Hs as (bz & Hbz & [= <-]).
    exists bz. by rewrite lookup_insert_eq.
  - intros V V' c c' k k' v s s' Hne Hs. apply bindO_ret in Hs as (bz & Hbz & [= <-]).
    by rewrite lookup_insert_ne.
  - intros V c k v s s' Hs. apply bindO_ret in Hs as (bz & Hbz & [= <-]).
    rewrite lookup_insert_eq. by rewrite bool_decide_eq_true_2.
Qed.

Lemma mapStore_writable : @writable _ mapStore.
Proof. intros V c k v bz s Hbz. cbn. rewrite Hbz. eauto. Qed.

(** ** A scripted execution client *)

(** The statuses of the next answers, [""] (or the end of the script) being a
    connection failure, and the payload that getPayload returns. *)
Record Script := mkScript { s_answers : list string; s_payload : option ExecutableData }.

Definition refused : error := errText "connection refused".

Definition answer {A} (mk : string → A) : Call Script A := fun e =>
  match s_answers e with
  | [] => (e, 1%N, Fail refused)
  | st :: rest =>
      (mkScript rest (s_payload e), 1%N, if bool_decide (st = "") then Fail refused else Ret (mk st))
  end.

Definition answer_payload : Call Script ExecutionPayloadEnvelope := fun e =>
  match s_payload e with
  | Some p => (e, 1%N, Ret (mkEnvelope (Some p)))
  | None => (e, 1%N, Fail (errText "Unknown payload"))
  end.

Definition status_of (st : string) : PayloadStatusV1 := mkPayloadStatusV1 st None None.

Definition scripted : EngineClient Script := {|
  NewPayloadV3 _ _ _ _ := answer status_of;
  NewPayloadV4 _ _ _ _ _ := answer status_of;
  NewPayloadV5 _ _ _ _ _ := answer status_of;
  ForkchoiceUpdatedV3 _ _ attrs :=
    answer (fun st => mkForkChoiceResponse (status_of st) ((fun _ => 7) <$> attrs));
  GetPayloadV3 _ _ := answer_payload;
  GetPayloadV4 _ _ := answer_payload;
  GetPayloadV5 _ _ := answer_payload |}.

(** A client that accepts everything and builds what it is asked to: on the
    block with hash [h] a block with hash [h + 1].  Block [h] has number
    [h + 182]. *)
Definition number_of (h : Hash) : Z := h + 182.

Definition build_on (h : Hash) (a : PayloadAttributes) : ExecutableData :=
  mkExecutableData h (u64_add (number_of h) 1) (pa_Timestamp a) (h + 1) ["tx"] (pa_Withdrawals a)
    (Some 0) (Some 0) None "".

Definition obliging : EngineClient Script := {|
  NewPayloadV3 _ _ _ _ := fun e => (e, 1%N, Ret (status_of VALID));
  NewPayloadV4 _ _ _ _ _ := fun e => (e, 1%N, Ret (status_of VALID));
  NewPayloadV5 _ _ _ _ _ := fun e => (e, 1%N, Ret (status_of VALID));
  ForkchoiceUpdatedV3 _ fc attrs := fun e =>
    match attrs with
    | Some a => (mkScript (s_answers e) (Some (build_on (fc_HeadBlockHash fc) a)), 1%N,
                 Ret (mkForkChoiceResponse (status_of VALID) (Some 7)))
    | None => (e, 1%N, Ret (mkForkChoiceResponse (status_of VALID) None))
    end;
  GetPayloadV3 _ _ := answer_payload;
  GetPayloadV4 _ _ := answer_payload;
  GetPayloadV5 _ _ := answer_payload |}.

Definition exact_host : Host Script := {| oversleep _ e := (e, 0%N); pick e := (e, true) |}.

Abbreviation ConcreteWorld := (World Script (gmap string string)).

Definition world (store : gmap string string) (answers : list string) (p : option ExecutableData) :
    ConcreteWorld :=
  mkWorld 0 (mkScript answers p) store [] 0.
