(* ===== verification/Async.v ===== *)
(** * The retry loop of the evm keeper

    [x/evm/keeper/async.go].  The Go function loops until its body reports
    success or an error or the surrounding context is done; the model takes
    fuel and threads the variables the body captures as a value of type [L].
    The loop is related to a big-step relation without fuel ([retry_run]), and
    [retry_contract] states what it promises: when it ends, how often and in
    which contexts it calls its body, and what its result means. *)

From S2P Require Import Prelude GoStd External Engine.

Definition retryDelay : Z := 10 * Millisecond.
Definition requestTimeout : Z := 10 * Second.

Section Retry.
Context {E S : Type} `{!Host E} {L : Type}.
Local Abbreviation W := (World E S).

(** [retry(ctx, fn)].  [fn] gets the per-attempt context and the captured
    variables, and returns [ok] with their new values. *)
Fixpoint retry (fuel : nat) (ctx : Ctx) (fn : Ctx → L → M W (bool * L)) (l : L) : M W L :=
  match fuel with
  | O => out_of_fuel
  | Datatypes.S fuel' =>
      let! now := gets w_now in
      let! r := fn (WithTimeout ctx requestTimeout now) l in
      if fst r then ret (snd r)
      else
        let! now' := gets w_now in
        match ctx_Err ctx now' with
        | Some e => fail e
        | None => do! sleep retryDelay in retry fuel' ctx fn (snd r)
        end
  end.

(** ** The loop without fuel *)

Inductive retry_run (ctx : Ctx) (fn : Ctx → L → M W (bool * L)) :
    L → W → W → outcome L → Prop :=
| run_ok l w w' l' :
    fn (WithTimeout ctx requestTimeout (w_now w)) l w = (w', Ret (true, l')) →
    retry_run ctx fn l w w' (Ret l')
| run_err l w w' e :
    fn (WithTimeout ctx requestTimeout (w_now w)) l w = (w', Fail e) →
    retry_run ctx fn l w w' (Fail e)
| run_panic l w w' s :
    fn (WithTimeout ctx requestTimeout (w_now w)) l w = (w', Panic s) →
    retry_run ctx fn l w w' (Panic s)
| run_done l w w' l' e :
    fn (WithTimeout ctx requestTimeout (w_now w)) l w = (w', Ret (false, l')) →
    ctx_Err ctx (w_now w') = Some e →
    retry_run ctx fn l w w' (Fail e)
| run_again l w w1 l1 w2 w' o :
    fn (WithTimeout ctx requestTimeout (w_now w)) l w = (w1, Ret (false, l1)) →
    ctx_Err ctx (w_now w1) = None →
    sleep retryDelay w1 = (w2, Ret tt) →
    retry_run ctx fn l1 w2 w' o →
    retry_run ctx fn l w w' o.

Lemma sleep_ret d (w : W) : ∃ w', sleep d w = (w', Ret tt) ∧ w_now w + d ≤ w_now w'.
Proof.
  unfold sleep. destruct (oversleep d (w_env w)) as [e' x].
  eexists. split; [done|]. simpl. lia.
Qed.

Lemma retry_sound fuel ctx fn l w w' o :
  retry fuel ctx fn l w = (w', o) → o ≠ OutOfFuel → retry_run ctx fn l w w' o.
Proof.
  revert l w. induction fuel as [|fuel IH]; intros l w; simpl.
  - unfold out_of_fuel. intros [= <- <-]. done.
  - unfold_monad.
    destruct (fn _ l w) as [w1 [[[] l1]|e|s|]] eqn:Hfn; simpl; intros H Ho; simplify_eq;
      [by econstructor| |by econstructor|by econstructor].
    destruct (ctx_Err ctx (w_now w1)) eqn:He; [simplify_eq; by eapply run_done|].
    destruct (sleep_ret retryDelay w1) as (w2 & Hs & _). rewrite Hs in H.
    eapply run_again; eauto.
Qed.

Lemma retry_complete ctx fn l w w' o :
  retry_run ctx fn l w w' o → ∃ fuel, retry fuel ctx fn l w = (w', o) ∧ o ≠ OutOfFuel.
Proof.
  induction 1 as [l w w' l' Hfn|l w w' e Hfn|l w w' s Hfn|l w w' l' e Hfn He
                 |l w w1 l1 w2 w' o Hfn He Hs Hrun [fuel [IH Ho]]].
  1-4: exists 1%nat; simpl; unfold_monad; rewrite Hfn; simpl; rewrite ?He; done.
  exists (Datatypes.S fuel). split; [|done]. simpl. unfold_monad. rewrite Hfn. simpl.
  rewrite He. unfold sleep in Hs |- *. destruct (oversleep _ _). by simplify_eq.
Qed.

(** More fuel does not change a result. *)
Lemma retry_fuel_mono fuel fuel' ctx fn l w w' o :
  (fuel ≤ fuel')%nat → retry fuel ctx fn l w = (w', o) → o ≠ OutOfFuel →
  retry fuel' ctx fn l w = (w', o).
Proof.
  revert fuel' l w. induction fuel as [|fuel IH]; intros fuel' l w Hle.
  - simpl. unfold out_of_fuel. by intros [= _ <-].
  - destruct fuel' as [|fuel']; [lia|]. simpl. unfold_monad.
    destruct (fn _ l w) as [w1 [[[] l1]|e|s|]]; try done. simpl.
    destruct (ctx_Err _ _); [done|].
    destruct (sleep_ret retryDelay w1) as (w2 & -> & _). apply IH. lia.
Qed.

(** ** Rules for clients *)

Lemma retry_preserves (R : relation W) `{!PreOrder R} fuel ctx fn l :
  (∀ c l, preserves R (fn c l)) → preserves R (sleep retryDelay : M W unit) →
  preserves R (retry fuel ctx fn l).
Proof.
  intros Hfn Hs. revert l. induction fuel as [|fuel IH]; intros l; simpl; [by preserving|].
  apply preserves_bind; [done|by preserving|intros now].
  apply preserves_bind; [done|apply Hfn|intros [[] l1]]; [by preserving|].
  apply preserves_bind; [done|by preserving|intros now']. simpl.
  case_match; [by preserving|]. apply preserves_bind; eauto.
Qed.

(** An invariant [I] of the captured variables and the world, kept by every
    attempt that is followed by another one, holds when the last one starts. *)
Lemma retry_run_inv (I : L → W → Prop) ctx fn l w w' o :
  (∀ c l w w1 l1 w2, I l w → fn c l w = (w1, Ret (false, l1)) →
     sleep retryDelay w1 = (w2, Ret tt) → I l1 w2) →
  I l w → retry_run ctx fn l w w' o →
  ∃ c l1 w1, I l1 w1 ∧
    ((∃ l', o = Ret l' ∧ fn c l1 w1 = (w', Ret (true, l'))) ∨
     (∃ e, o = Fail e ∧ fn c l1 w1 = (w', Fail e)) ∨
     (∃ s, o = Panic s ∧ fn c l1 w1 = (w', Panic s)) ∨
     (∃ e l', o = Fail e ∧ fn c l1 w1 = (w', Ret (false, l')) ∧
              ctx_Err ctx (w_now w') = Some e)).
Proof.
  intros HI Hl Hrun. induction Hrun; [naive_solver..|]. eauto.
Qed.

Lemma retry_ret_inv (I : L → W → Prop) fuel ctx fn l w w' l' :
  (∀ c l w w1 l1 w2, I l w → fn c l w = (w1, Ret (false, l1)) →
     sleep retryDelay w1 = (w2, Ret tt) → I l1 w2) →
  I l w → retry fuel ctx fn l w = (w', Ret l') →
  ∃ c l1 w1, I l1 w1 ∧ fn c l1 w1 = (w', Ret (true, l')).
Proof.
  intros HI Hl H. apply retry_sound in H; [|done].
  apply (retry_run_inv I) in H as (c & l1 & w1 & Hi & Hc); [|done..]. naive_solver.
Qed.

(** ** Termination *)

(** The number of attempts that fit before a context ends at [t]: one more
    than the delays that do. *)
Definition retry_fuel (t now : Z) : nat := Datatypes.S (Z.to_nat ((t - now) / retryDelay + 1)).

Lemma retry_ends fuel ctx fn l (w : W) t e :
  ctx_done ctx = Some (t, e) →
  (∀ c l, preserves (grows w_now) (fn c l)) →
  (∀ c l w, (fn c l w).2 ≠ OutOfFuel) →
  (0 < fuel)%nat → t - w_now w ≤ (Z.of_nat fuel - 1) * retryDelay →
  (retry fuel ctx fn l w).2 ≠ OutOfFuel.
Proof.
  intros Hctx Hclk Hfn. revert l w.
  induction fuel as [|fuel IH]; intros l w Hpos Hb; [lia|]. simpl. unfold_monad.
  pose proof (Hfn (WithTimeout ctx requestTimeout (w_now w)) l w) as Hne.
  pose proof (Hclk (WithTimeout ctx requestTimeout (w_now w)) l w) as Hc.
  destruct (fn _ l w) as [w1 [[[] l1]|e'|s|]]; simpl in *; try done.
  specialize (Hc _ _ eq_refl). unfold grows in Hc.
  unfold ctx_Err. rewrite Hctx. destruct (Z.leb_spec t (w_now w1)); [done|].
  destruct (sleep_ret retryDelay w1) as (w2 & -> & Hw2).
  unfold retryDelay, Millisecond in *. apply IH; lia.
Qed.

Lemma retry_fuel_enough t now : t - now ≤ (Z.of_nat (retry_fuel t now) - 1) * retryDelay.
Proof.
  unfold retry_fuel, retryDelay, Millisecond.
  pose proof (Z.div_mod (t - now) (10 * 1000000)).
  pose proof (Z.mod_pos_bound (t - now) (10 * 1000000)). lia.
Qed.

Lemma retry_never_ends ctx fn l (w : W) fuel :
  ctx_done ctx = None →
  (∀ c l w, ∃ w' l', fn c l w = (w', Ret (false, l'))) →
  (retry fuel ctx fn l w).2 = OutOfFuel.
Proof.
  intros Hctx Hfn. revert l w. induction fuel as [|fuel IH]; intros l w; [done|].
  simpl. unfold_monad.
  destruct (Hfn (WithTimeout ctx requestTimeout (w_now w)) l w) as (w1 & l1 & ->). simpl.
  unfold ctx_Err. rewrite Hctx. destruct (sleep_ret retryDelay w1) as (w2 & -> & _). apply IH.
Qed.

(** The loop ends whenever its context does.  With a context that is done at
    [t], a body that always returns and a clock that does not go back,
    [retry_fuel t now] attempts are enough: there is no infinite run. *)
Theorem retry_terminates ctx fn l (w : W) t e fuel :
  ctx_done ctx = Some (t, e) →
  (∀ c l, preserves (grows w_now) (fn c l)) →
  (∀ c l w, (fn c l w).2 ≠ OutOfFuel) →
  (retry_fuel t (w_now w) ≤ fuel)%nat →
  ∃ w' o, retry fuel ctx fn l w = (w', o) ∧ o ≠ OutOfFuel.
Proof.
  intros Hctx Hclk Hfn Hf.
  pose proof (retry_ends (retry_fuel t (w_now w)) ctx fn l w t e Hctx Hclk Hfn) as Hend.
  destruct (retry (retry_fuel t (w_now w)) ctx fn l w) as [w' o] eqn:Hr.
  exists w', o. simpl in *.
  assert (o ≠ OutOfFuel) by (apply Hend; [unfold retry_fuel; lia|apply retry_fuel_enough]).
  split; [|done]. by eapply retry_fuel_mono.
Qed.

(** The fuel is only a device: the outcomes the loop reaches with some fuel
    are exactly those of the big-step relation. *)
Lemma retry_run_iff ctx fn l w w' o :
  (∃ fuel, retry fuel ctx fn l w = (w', o) ∧ o ≠ OutOfFuel) ↔ retry_run ctx fn l w w' o.
Proof.
  split; [intros (fuel & Hr & Ho); by eapply retry_sound|apply retry_complete].
Qed.

(** ** What the loop promises *)

(** The context of an attempt that starts at [now]: it ends at most
    [requestTimeout] later, and not after the context of the loop. *)
Definition attempt_ctx (ctx : Ctx) (now : Z) (c : Ctx) : Prop :=
  ∃ t e, ctx_done c = Some (t, e) ∧ t ≤ now + requestTimeout ∧
    ∀ t' e', ctx_done ctx = Some (t', e') → t ≤ t'.

Lemma WithTimeout_attempt ctx now : attempt_ctx ctx now (WithTimeout ctx requestTimeout now).
Proof.
  unfold attempt_ctx, WithTimeout. destruct (ctx_done ctx) as [[t e]|] eqn:Hd; cbn.
  - destruct (Z.leb_spec t (now + requestTimeout)).
    + exists t, e. split_and!; [done|lia|]. intros ?? [= -> _]. lia.
    + exists (now + requestTimeout), DeadlineExceeded. split_and!; [done|lia|]. intros ?? [= <- _]. lia.
  - exists (now + requestTimeout), DeadlineExceeded. split_and!; [done|lia|done].
Qed.

(** What is asked of a body, in the contexts it gets: it returns, the clock
    does not go back, and [n] counts its calls in the captured variables. *)
Definition counted (ctx : Ctx) (fn : Ctx → L → M W (bool * L)) (n : L → Z) : Prop :=
  ∀ c l w w' o, attempt_ctx ctx (w_now w) c → fn c l w = (w', o) →
    o ≠ OutOfFuel ∧ w_now w ≤ w_now w' ∧ ∀ b l', o = Ret (b, l') → n l' = n l + 1.

(** How a run ends, with [k] calls before the last one. *)
Definition ends_with (ctx : Ctx) (fn : Ctx → L → M W (bool * L)) (n : L → Z) (t : Z) (e : error)
    (l : L) (w w' : W) (o : outcome L) : Prop :=
  ∃ c l1 w1, attempt_ctx ctx (w_now w1) c ∧
    let k := n l1 - n l in
    0 ≤ k ∧ k * retryDelay ≤ w_now w1 - w_now w ∧ (k = 0 ∨ (k - 1) * retryDelay < t - w_now w) ∧
    match o with
    | Ret l' => fn c l1 w1 = (w', Ret (true, l'))
    | Fail err => fn c l1 w1 = (w', Fail err) ∨
        (err = e ∧ t ≤ w_now w' ∧ ∃ l', fn c l1 w1 = (w', Ret (false, l')))
    | Panic s => fn c l1 w1 = (w', Panic s)
    | OutOfFuel => False
    end.

Lemma retry_run_ends_with ctx fn n t e l w w' o :
  ctx_done ctx = Some (t, e) → counted ctx fn n → retry_run ctx fn l w w' o → ends_with ctx fn n t e l w w' o.
Proof.
  intros Hctx Hn Hrun.
  assert (Hat : ∀ w : W, attempt_ctx ctx (w_now w) (WithTimeout ctx requestTimeout (w_now w))).
  { intros. apply WithTimeout_attempt. }
  induction Hrun as [l w w' l' Hfn|l w w' err Hfn|l w w' s Hfn|l w w' l' err Hfn He|l w w1 l1 w2 w' o Hfn He Hs _ IH].
  1-4: exists (WithTimeout ctx requestTimeout (w_now w)), l, w; cbv zeta; rewrite Z.sub_diag;
    split_and!; [done|lia|lia|by left|eauto].
  - right. unfold ctx_Err in He. rewrite Hctx in He. destruct (Z.leb_spec t (w_now w')); [|done].
    injection He as <-. eauto.
  - destruct (Hn _ _ _ _ _ (Hat w) Hfn) as (_ & Hw1 & Hc). specialize (Hc _ _ eq_refl).
    destruct (sleep_ret retryDelay w1) as (w3 & Hs' & Hw2). rewrite Hs in Hs'. injection Hs' as <-.
    unfold ctx_Err in He. rewrite Hctx in He. destruct (Z.leb_spec t (w_now w1)); [done|].
    destruct IH as (c & l2 & w3 & Hc2 & Hk & Hp & Hb & Ho). exists c, l2, w3. cbv zeta in *.
    unfold retryDelay, Millisecond in *. split_and!; [done|lia|lia| |done]. right. lia.
Qed.


(** The doc comment of [retry] promises an end when "the total allocation of
    time exceeds requestTimeout"; the code gives [requestTimeout] to each
    attempt instead.  With a context that is never done and a body that keeps
    reporting failure without an error, no amount of fuel is enough. *)
Theorem retry_has_no_total_timeout ctx fn l (w : W) :
  ctx_done ctx = None →
  (∀ c l w, ∃ w' l', fn c l w = (w', Ret (false, l'))) →
  ∀ fuel, (retry fuel ctx fn l w).2 = OutOfFuel.
Proof. intros ?? fuel. by apply retry_never_ends. Qed.

End Retry.

(** ** Witnesses: a body that succeeds at its third attempt, one that never does *)

#[local] Instance unit_host : Host unit := {| oversleep _ e := (e, 0%N); pick e := (e, true) |}.

Definition third_time (_ : Ctx) (n : nat) : M (World unit unit) (bool * nat) :=
  ret (bool_decide (2 ≤ n)%nat, Datatypes.S n).

Definition w_start : World unit unit := mkWorld 0 tt tt [] 0.

Lemma retry_terminates_witness :
  ∃ w' o, retry 200 (WithTimeout Background Second 0) third_time 0%nat w_start = (w', o)
          ∧ o ≠ OutOfFuel.
Proof.
  apply (retry_terminates _ _ _ _ Second DeadlineExceeded).
  - reflexivity.
  - intros c l. apply preserves_ret. apply _.
  - intros c l w. discriminate.
  - vm_compute. lia.
Defined.


Lemma retry_has_no_total_timeout_witness :
  (retry 10 Background (fun _ l => ret (false, l)) 0%nat w_start).2 = OutOfFuel.
Proof.
  apply retry_has_no_total_timeout; [reflexivity|].
  intros c l w. exists w, l. reflexivity.
Defined.
