(* ===== verification/EvmTypes.v ===== *)
(** * Types of the evm module

    [x/evm/types]: the block state kept by the chain and its JSON codec
    ([types.go]), parameters, genesis state, its validation and the decoding
    of older genesis files ([params.go], [genesis.go], [genesis_compat.go]). *)

From S2P Require Import Prelude GoStd GoJson External Engine Concrete.

Definition ModuleName : string := "evm".
Definition GovModuleName : string := "gov".
Definition ParamsKey : string := "p_evm".
Definition BlockStateKey : string := "bs_evm".

(** 20 MiB. *)
Definition MaxTxSize : Z := 20 * 1024 * 1024.

(** [Params] has no fields. *)
Record Params := mkParams {}.
Definition NewParams : Params := mkParams.
Definition DefaultParams : Params := NewParams.
Definition Params_Validate (p : Params) : outcome unit := Ret tt.

#[export] Instance Params_eq_dec : EqDecision Params.
Proof. solve_decision. Defined.

(** ** Block state *)

Record BlockState := mkBlockState {
  bs_Hash : Hash;
  bs_Height : Z;
  bs_Timestamp : Z }.

#[export] Instance BlockState_eq_dec : EqDecision BlockState.
Proof. solve_decision. Defined.

Definition NewBlockState (hash height timestamp : Z) : BlockState :=
  mkBlockState hash height timestamp.

Definition zeroBlockState : BlockState := mkBlockState zeroHash 0 0.

(** The Go types of the fields. *)
Definition valid_bs (bs : BlockState) : Prop :=
  is_hash (bs_Hash bs) ∧ is_u64 (bs_Height bs) ∧ is_u64 (bs_Timestamp bs).

(** The anonymous struct both JSON methods go through. *)
Record bsTemp := mkBsTemp { bt_Hash : string; bt_Height : Z; bt_Timestamp : Z }.

Definition bsTemp_fields : list string := ["hash"; "height"; "timestamp"].

Definition bsTemp_store (f : string) (v : json) (t : bsTemp) : outcome bsTemp :=
  if bool_decide (f = "hash") then
    let? s := to_string v (bt_Hash t) in Ret (mkBsTemp s (bt_Height t) (bt_Timestamp t))
  else if bool_decide (f = "height") then
    let? n := to_uint64 v (bt_Height t) in Ret (mkBsTemp (bt_Hash t) n (bt_Timestamp t))
  else
    let? n := to_uint64 v (bt_Timestamp t) in Ret (mkBsTemp (bt_Hash t) (bt_Height t) n).

Section BlockStateCodec.
Context `{GoEthereum}.

Definition BlockState_MarshalJSON (bs : BlockState) : outcome string :=
  Ret ("{" +:+ json_member "hash" (json_quote (Hash_Hex (bs_Hash bs))) +:+ ","
           +:+ json_member "height" (fmt_uint (bs_Height bs)) +:+ ","
           +:+ json_member "timestamp" (fmt_uint (bs_Timestamp bs)) +:+ "}").

(** [UnmarshalJSON] of one JSON value. *)
Definition BlockState_UnmarshalJSON (v : json) : outcome BlockState :=
  let? temp := decode_struct bsTemp_fields bsTemp_store v (mkBsTemp "" 0 0) in
  Ret (mkBlockState (HexToHash (bt_Hash temp)) (bt_Height temp) (bt_Timestamp temp)).

Definition BlockState_Marshal (bs : BlockState) : outcome string := BlockState_MarshalJSON bs.

(** [json.Unmarshal(data, bs)]: the text is checked, then handed to
    [UnmarshalJSON]. *)
Definition BlockState_Unmarshal (data : string) : outcome BlockState :=
  let? v := json_parse data in BlockState_UnmarshalJSON v.

(** [BlockStateValue], the codec of the store item. *)
Definition BlockStateValue : ValueCodec BlockState :=
  mkValueCodec BlockState_Marshal BlockState_Unmarshal.

Definition BlockStateValue_EncodeJSON (bs : BlockState) : outcome string := BlockState_MarshalJSON bs.
Definition BlockStateValue_DecodeJSON (b : string) : outcome BlockState := BlockState_Unmarshal b.

Definition BlockStateValue_Stringify (bs : BlockState) : string :=
  Hash_Hex (bs_Hash bs) +:+ ":" +:+ fmt_d (bs_Height bs) +:+ ":" +:+ fmt_d (bs_Timestamp bs).

End BlockStateCodec.

(** ** Genesis state *)

Record GenesisState := mkGenesisState {
  gs_Params : Params;
  gs_GenesisExecutionBlockHash : string;
  gs_CurrentBlockHash : string;
  gs_CurrentBlockHeight : Z;
  gs_CurrentBlockTimestamp : Z }.

Definition zeroGenesisState : GenesisState := mkGenesisState mkParams "" "" 0 0.

Definition DefaultGenesis : GenesisState :=
  mkGenesisState DefaultParams
    "0x0000000000000000000000000000000000000000000000000000000000000000" "" 0 0.

(** A 66-byte string that starts with ["0x"]. *)
Definition hash_text (s : string) : bool := (len s =? 66) && HasPrefix s "0x".

Definition GenesisState_Validate (gs : GenesisState) : outcome unit :=
  do? Params_Validate (gs_Params gs) in
  do? guard_err (negb (bool_decide (gs_GenesisExecutionBlockHash gs = "")))
        (errText "genesis execution block hash is required") in
  do? guard_err (hash_text (gs_GenesisExecutionBlockHash gs))
        (errText ("genesis execution block hash must be 66 characters long hex string with 0x prefix: "
                  +:+ gs_GenesisExecutionBlockHash gs)) in
  if bool_decide (gs_CurrentBlockHash gs = "") then Ret tt
  else
    guard_err (hash_text (gs_CurrentBlockHash gs))
      (errText ("current block hash must be 66 characters long hex string with 0x prefix: "
                +:+ gs_CurrentBlockHash gs)).

Definition NormalizeGenesisState (gs : GenesisState) : GenesisState :=
  if bool_decide (gs_GenesisExecutionBlockHash gs = "") then
    mkGenesisState (gs_Params gs) (gs_GenesisExecutionBlockHash DefaultGenesis)
      (gs_CurrentBlockHash gs) (gs_CurrentBlockHeight gs) (gs_CurrentBlockTimestamp gs)
  else gs.

Definition genesis_fields : list string :=
  ["params"; "genesis_execution_block_hash"; "current_block_hash"; "current_block_height";
   "current_block_timestamp"].

(** Storing a member into the generated struct, by its [json] tag. *)
Definition genesis_store (f : string) (v : json) (g : GenesisState) : outcome GenesisState :=
  let '(mkGenesisState p h c n t) := g in
  if bool_decide (f = "params") then
    match v with JObj _ | JNull => Ret g | _ => Fail UnmarshalTypeError end
  else if bool_decide (f = "genesis_execution_block_hash") then
    let? s := to_string v h in Ret (mkGenesisState p s c n t)
  else if bool_decide (f = "current_block_hash") then
    let? s := to_string v c in Ret (mkGenesisState p h s n t)
  else if bool_decide (f = "current_block_height") then
    let? x := to_uint64 v n in Ret (mkGenesisState p h c x t)
  else
    let? x := to_uint64 v t in Ret (mkGenesisState p h c n x).

(** [GenesisStateFromJSON]: the module codec first, the standard library on
    top of whatever the codec had filled in, then the defaults.  [cdc] is
    [codec.UnmarshalJSON], which may have written part of the state before it
    fails.  The second component tells whether the fallback was used, that is
    whether the warning is logged. *)
Definition GenesisStateFromJSON (cdc : string → GenesisState * option error) (bz : string) :
    outcome (GenesisState * bool) :=
  match cdc bz with
  | (gs, None) => Ret (NormalizeGenesisState gs, false)
  | (gs, Some err) =>
      match (let? v := json_parse bz in decode_struct genesis_fields genesis_store v gs) with
      | Ret gs' => Ret (NormalizeGenesisState gs', true)
      | Fail err2 =>
          Fail (errWrapf "evm genesis: codec unmarshal: " err ("; json fallback: " +:+ Error err2))
      | Panic s => Panic s
      | OutOfFuel => OutOfFuel
      end
  end.

(** ** The codec reads back what it wrote *)

Lemma parse_value_str f d s r :
  plain s →
  parse_value (Datatypes.S f) d (chr 34 :: bytes_of s ++ chr 34 :: r) = Some (JStr s, r).
Proof.
  intros Hs. cbn [parse_value skip_ws is_ws].
  replace (is_ws (chr 34)) with false by reflexivity. cbv iota zeta beta.
  replace (byte_val (chr 34)) with 34 by reflexivity. cbn [Z.eqb Pos.eqb].
  rewrite scan_string_plain; [by rewrite string_of_bytes|done|]. rewrite length_app. simpl. lia.
Qed.

Lemma digit_not_special c :
  is_digit c = true → is_ws c = false ∧ ∀ z, z ∈ [123; 91; 34; 110; 116; 102] → (byte_val c =? z) = false.
Proof.
  unfold is_digit, in_range. intros H. bools. split.
  - unfold is_ws. apply bool_decide_eq_false. rewrite !elem_of_cons, elem_of_nil. lia.
  - intros z Hz. rewrite !elem_of_cons, elem_of_nil in Hz. apply Z.eqb_neq. lia.
Qed.

Lemma fmt_uint_cons n :
  ∃ c s, fmt_uint n = String c s ∧ is_digit c = true.
Proof.
  destruct (uint_digits_cons (Z.to_nat (Z.log2 n)) n "") as (c & s & Heq & _).
  exists c, s. split; [exact Heq|].
  pose proof (uint_digits_digits (Datatypes.S (Z.to_nat (Z.log2 n))) n "" (Forall_nil_2 _)) as Hall.
  rewrite Heq in Hall. by apply Forall_cons_1 in Hall as [? _].
Qed.

Lemma parse_value_uint f d n c r :
  is_u64 n → ends_number c →
  parse_value (Datatypes.S f) d (bytes_of (fmt_uint n) ++ c :: r) = Some (JNum (fmt_uint n), c :: r).
Proof.
  intros Hn Hc. pose proof (scan_number_uint n c r Hn Hc) as Hs.
  destruct (fmt_uint_cons n) as (x & s & Heq & Hx). rewrite Heq in Hs |- *.
  change (bytes_of (String x s) ++ c :: r)%list with (x :: (bytes_of s ++ c :: r))%list in *.
  destruct (digit_not_special x Hx) as [Hws Hsp].
  cbn [parse_value skip_ws]. rewrite Hws. cbv zeta.
  rewrite !Hsp by set_solver. by rewrite Hs.
Qed.

(** One member with a plain key. *)
Lemma parse_members_step f d acc k rest :
  plain k →
  parse_members (Datatypes.S f) d acc (bytes_of (json_quote k) ++ chr 58 :: rest) =
  match parse_value f d rest with
  | Some (v, r3) =>
      match skip_ws r3 with
      | x :: r4 =>
          if byte_val x =? 44 then parse_members f d ((k, v) :: acc) r4
          else if byte_val x =? 125 then Some (JObj (reverse ((k, v) :: acc)), r4)
          else None
      | [] => None
      end
  | None => None
  end.
Proof.
  intros Hk. rewrite json_quote_plain, !bytes_of_app by done.
  change (bytes_of quote_char) with [chr 34]. rewrite <-!app_assoc. cbn [app parse_members skip_ws].
  replace (is_ws (chr 34)) with false by reflexivity. cbv iota.
  replace (byte_val (chr 34) =? 34) with true by reflexivity.
  rewrite scan_string_plain; [|done|rewrite length_app; simpl; lia].
  cbn [skip_ws]. replace (is_ws (chr 58)) with false by reflexivity. cbv iota.
  replace (byte_val (chr 58) =? 58) with true by reflexivity. by rewrite string_of_bytes.
Qed.

Lemma decode_bsTemp h n t :
  is_u64 n → is_u64 t →
  decode_struct bsTemp_fields bsTemp_store
    (JObj [("hash", JStr h); ("height", JNum (fmt_uint n)); ("timestamp", JNum (fmt_uint t))])
    (mkBsTemp "" 0 0) = Ret (mkBsTemp h n t).
Proof.
  intros Hn Ht. unfold decode_struct. cbn [decode_members].
  change (field_of bsTemp_fields "hash") with (Some "hash").
  change (field_of bsTemp_fields "height") with (Some "height").
  change (field_of bsTemp_fields "timestamp") with (Some "timestamp"). cbv iota.
  change (bsTemp_store "hash" (JStr h) (mkBsTemp "" 0 0)) with (Ret (mkBsTemp h 0 0)).
  unfold bsTemp_store. cbn [to_uint64 bt_Hash bt_Height bt_Timestamp].
  rewrite !ParseUint_fmt_uint by done. reflexivity.
Qed.

Lemma decode_members_returns {T} names (store : string → json → T → outcome T) v z :
  decode_struct names store v z ≠ OutOfFuel.
Proof. unfold decode_struct. repeat case_match; discriminate. Qed.

Lemma BlockState_Unmarshal_returns `{GoEthereum} bz : BlockState_Unmarshal bz ≠ OutOfFuel.
Proof.
  unfold BlockState_Unmarshal, json_parse, BlockState_UnmarshalJSON. cbv zeta.
  destruct (parse_value _ _ _) as [[v r]|]; [|discriminate].
  destruct (skip_ws r); [|discriminate]. cbn [bindO].
  pose proof (decode_members_returns bsTemp_fields bsTemp_store v (mkBsTemp "" 0 0)).
  by destruct (decode_struct _ _ _ _).
Qed.

Section RoundTrip.
Context `{GoEthereumLaws}.

Lemma plain_hex h : plain (Hash_Hex h).
Proof. apply Hash_Hex_plain. Qed.

(** The text of a block state parses to an object with its three members. *)
Lemma json_parse_block_state bs bz :
  valid_bs bs → BlockState_Marshal bs = Ret bz →
  json_parse bz = Ret (JObj [("hash", JStr (Hash_Hex (bs_Hash bs)));
                             ("height", JNum (fmt_uint (bs_Height bs)));
                             ("timestamp", JNum (fmt_uint (bs_Timestamp bs)))]).
Proof.
  intros (Hh & Hn & Ht). unfold BlockState_Marshal, BlockState_MarshalJSON. intros [= <-].
  unfold json_parse, json_member. cbv zeta.
  rewrite (json_quote_plain (Hash_Hex _)) by apply plain_hex.
  rewrite !bytes_of_app. change (bytes_of "{") with [chr 123]. change (bytes_of ":") with [chr 58].
  change (bytes_of ",") with [chr 44]. change (bytes_of "}") with [chr 125].
  change (bytes_of quote_char) with [chr 34]. rewrite <-!app_assoc. cbn [app].
  set (l := (bytes_of (json_quote "hash") ++ _)%list).
  assert (∃ f, Datatypes.S (length (chr 123 :: l)) = (6 + f)%nat) as [f ->].
  { exists (length l - 4)%nat. subst l. rewrite length_app.
    change (length (bytes_of (json_quote "hash"))) with 6%nat. simpl. lia. }
  cbn [parse_value skip_ws]. replace (is_ws (chr 123)) with false by reflexivity. cbv iota zeta.
  replace (byte_val (chr 123) =? 123) with true by reflexivity. cbv iota.
  replace (maxNestingDepth <? 0 + 1) with false by reflexivity. cbv iota.
  assert (Hl : skip_ws l = l ∧ ∃ l', l = chr 34 :: l') by (subst l; split; [reflexivity|eauto]).
  destruct Hl as [Hsk [l' Hl]]. rewrite Hsk, Hl.
  replace (byte_val (chr 34) =? 125) with false by reflexivity. rewrite <-Hl. subst l. clear Hsk Hl l'.
  change (6 + f)%nat with (Datatypes.S (5 + f)). rewrite parse_members_step by (repeat constructor).
  change (5 + f)%nat with (Datatypes.S (4 + f)). rewrite parse_value_str by apply plain_hex.
  change (skip_ws (chr 44 :: ?r)) with (chr 44 :: r). cbv iota.
  change (byte_val (chr 44) =? 44) with true. cbv iota.
  rewrite parse_members_step by (repeat constructor).
  change (4 + f)%nat with (Datatypes.S (3 + f)). rewrite parse_value_uint by first [done | by repeat split].
  change (skip_ws (chr 44 :: ?r)) with (chr 44 :: r). cbv iota.
  change (byte_val (chr 44) =? 44) with true. cbv iota.
  rewrite parse_members_step by (repeat constructor).
  change (3 + f)%nat with (Datatypes.S (2 + f)). rewrite parse_value_uint by first [done | by repeat split].
  reflexivity.
Qed.

(** The law of the store item, discharged for the codec of the block state. *)
Lemma block_state_decode_encode bs bz :
  valid_bs bs → vc_Encode BlockStateValue bs = Ret bz → vc_Decode BlockStateValue bz = Ret bs.
Proof.
  intros Hbs Hbz. simpl in *. unfold BlockState_Unmarshal.
  rewrite (json_parse_block_state bs bz) by done. cbn [bindO].
  destruct Hbs as (Hh & Hn & Ht). unfold BlockState_UnmarshalJSON.
  rewrite decode_bsTemp by done. cbn [bindO bt_Hash bt_Height bt_Timestamp].
  rewrite HexToHash_Hex by done. by destruct bs.
Qed.

(** C23: every block state the chain can hold (a 32-byte hash and two uint64s)
    is stored and loaded without loss: [Decode(Encode(bs)) = bs]. *)
Theorem BlockState_codec_roundtrip bs :
  valid_bs bs →
  ∃ bz, vc_Encode BlockStateValue bs = Ret bz ∧ vc_Decode BlockStateValue bz = Ret bs.
Proof.
  intros Hbs. destruct (vc_Encode BlockStateValue bs) as [bz| | |] eqn:E; [|done..].
  exists bz. split; [done|]. by apply block_state_decode_encode.
Qed.

End RoundTrip.

Lemma BlockState_codec_roundtrip_witness :
  let bs := mkBlockState (2 ^ 255 + 7) (2 ^ 64 - 1) 1700000000 in
  ∃ bz, vc_Encode (@BlockStateValue geth) bs = Ret bz ∧ vc_Decode (@BlockStateValue geth) bz = Ret bs.
Proof.
  intros bs. apply (@BlockState_codec_roundtrip geth geth_laws).
  unfold valid_bs, is_hash, is_u64. simpl. lia.
Defined.
