(* ===== verification/Keeper.v ===== *)
(** * The evm keeper: configuration, timestamps, state, genesis

    [x/evm/keeper/keeper.go], [utils.go], [genesis.go], [query_params.go],
    [readiness.go].  The keeper's store is any [ItemStore]; its execution
    client any [EngineClient]. *)

From S2P Require Import Prelude GoStd GoJson External ChainSpec Engine Concrete Async EvmTypes.

(** ** Configuration *)

Record rawUseBlockTimestamp := mkRawUseBlockTimestamp {
  raw_StartBlockHeight : string; raw_Offset : string; raw_StopBlockHeight : string }.

Record rawConfig := mkRawConfig {
  raw_SuggestedFeeRecipient : string;
  raw_UseBlockTimestamp : option rawUseBlockTimestamp;
  raw_UnixTimestampOffset : string }.

Record UseBlockTimestamp := mkUseBlockTimestamp {
  StartBlockHeight : Z; Offset : Z; StopBlockHeight : option Z }.

Record Config := mkConfig {
  cfg_SuggestedFeeRecipient : Address;
  cfg_UseBlockTimestamp : option UseBlockTimestamp;
  cfg_UnixTimestampOffset : Z }.

(** The fields of [Keeper] that are not handles to other components. *)
Record Keeper := mkKeeper {
  k_authority : string;
  k_paramsCodec : ValueCodec Params;
  k_SuggestedFeeRecipient : Address;
  k_UseBlockTimestamp : option UseBlockTimestamp;
  k_UnixTimestampOffset : Z;
  k_chainSpec : ChainSpec }.

(** An optional decimal field: 0 when empty, a panic when malformed. *)
Definition parseConfigUint (field s : string) : outcome Z :=
  if bool_decide (s = "") then Ret 0
  else
    match ParseUint s with
    | Fail e => Panic ("could not decode " +:+ field +:+ " as int: " +:+ s +:+ ", " +:+ Error e)
    | o => o
    end.

Definition parseUseBlockTimestamp (raw : rawUseBlockTimestamp) : outcome UseBlockTimestamp :=
  let? offsetVal := parseConfigUint "use_block_timestamp.offset" (raw_Offset raw) in
  let? startVal := parseConfigUint "use_block_timestamp.start_block_height" (raw_StartBlockHeight raw) in
  let? stopVal := parseConfigUint "use_block_timestamp.stop_block_height" (raw_StopBlockHeight raw) in
  if bool_decide (raw_StopBlockHeight raw = "") then
    Ret (mkUseBlockTimestamp startVal offsetVal None)
  else if stopVal <? startVal then
    Panic ("use_block_timestamp.stop_block_height (" +:+ fmt_d stopVal
           +:+ ") must be >= start_block_height (" +:+ fmt_d startVal +:+ ")")
  else Ret (mkUseBlockTimestamp startVal offsetVal (Some stopVal)).

Section Config.
Context `{GoEthereum}.

Definition parseRecipient (s : string) : outcome Address :=
  if bool_decide (s = "") then Ret zeroAddress
  else if IsHexAddress s then Ret (HexToAddress s)
  else Panic ("could not decode recipient as hex: " +:+ s).

(** [readConfig]; [yaml] is [yaml.Unmarshal] at [rawConfig]. *)
Definition readConfig (os : OS) (yaml : string → outcome rawConfig) : outcome Config :=
  match ReadConfigFile os with
  | Fail _ => Ret (mkConfig zeroAddress None 0)
  | Panic s => Panic s
  | OutOfFuel => OutOfFuel
  | Ret data =>
      let? raw := must (wrap_text "failed to decode config" (yaml data)) in
      let? recipient := parseRecipient (raw_SuggestedFeeRecipient raw) in
      let? ubt := match raw_UseBlockTimestamp raw with
                  | None => Ret None
                  | Some r => let? u := parseUseBlockTimestamp r in Ret (Some u)
                  end in
      let? unixOffset := parseConfigUint "unix_timestamp_offset" (raw_UnixTimestampOffset raw) in
      Ret (mkConfig recipient ubt unixOffset)
  end.

(** [NewKeeper]: the address codec must accept the authority, then the engine
    client is created, then the configuration is read; any failure panics. *)
Definition NewKeeper `{CosmosSDK} (os : OS) (yaml : string → outcome rawConfig)
    (createEngineClient schema : outcome unit) (authority : string)
    (paramsCodec : ValueCodec Params) (chainSpec : ChainSpec) : outcome Keeper :=
  do? match BytesToString authority with
      | Fail e => Panic ("invalid authority address " +:+ authority +:+ ": " +:+ Error e)
      | Ret _ => Ret tt
      | Panic s => Panic s
      | OutOfFuel => OutOfFuel
      end in
  do? must createEngineClient in
  let? config := readConfig os yaml in
  do? must schema in
  Ret (mkKeeper authority paramsCodec (cfg_SuggestedFeeRecipient config)
         (cfg_UseBlockTimestamp config) (cfg_UnixTimestampOffset config) chainSpec).

End Config.

(** ** Timestamps *)

(** [toUint64]. *)
Definition toUint64 (val : Z) : outcome Z :=
  if val <? 0 then Panic ("expected non-negative value, got: " +:+ fmt_d val) else Ret (u64 val).

(** [if timestamp <= previous { timestamp = previous + 1 }] *)
Definition bump (timestamp previousTimestamp : Z) : Z :=
  if timestamp <=? previousTimestamp then u64_add previousTimestamp 1 else timestamp.

(** [CalculateTimestamp]. *)
Definition CalculateTimestamp (k : Keeper) (sdkCtx : SdkContext)
    (blockHeight previousTimestamp : Z) : Z :=
  match k_UseBlockTimestamp k with
  | None => bump (u64 (Unix (sc_BlockTime sdkCtx))) previousTimestamp
  | Some cfg =>
      if (StartBlockHeight cfg <=? blockHeight)
         && match StopBlockHeight cfg with None => true | Some stop => blockHeight <? stop end
      then u64_add blockHeight (Offset cfg)
      else
        let unixOffset :=
          match StopBlockHeight cfg with
          | Some stop => if stop <=? blockHeight then k_UnixTimestampOffset k else 0
          | None => 0
          end in
        bump (u64_add (u64 (Unix (sc_BlockTime sdkCtx))) unixOffset) previousTimestamp
  end.

(** The heights at which the timestamp is derived from the block height. *)
Definition in_block_window (k : Keeper) (h : Z) : Prop :=
  match k_UseBlockTimestamp k with
  | None => False
  | Some cfg =>
      StartBlockHeight cfg ≤ h ∧
      match StopBlockHeight cfg with None => True | Some stop => h < stop end
  end.

(** ** State and genesis *)

Section State.
Context {E S : Type} `{!ItemStore S, GoEthereum}.
Local Abbreviation W := (World E S).

Definition GetBlockState : M W BlockState := read_store (Item_Get BlockStateValue BlockStateKey).
Definition SetBlockState (bs : BlockState) : M W unit :=
  write_store (Item_Set BlockStateValue BlockStateKey bs).
Definition HasBlockState : M W bool := read_store (Item_Has BlockStateKey).

Definition Params_Get (k : Keeper) : M W Params := read_store (Item_Get (k_paramsCodec k) ParamsKey).
Definition Params_Set (k : Keeper) (p : Params) : M W unit :=
  write_store (Item_Set (k_paramsCodec k) ParamsKey p).

(** [InitGenesis]. *)
Definition InitGenesis (k : Keeper) (genState : GenesisState) : M W unit :=
  do! Params_Set k (gs_Params genState) in
  if bool_decide (gs_GenesisExecutionBlockHash genState = "") then
    fail (errText "genesis execution block hash is required")
  else if negb (bool_decide (gs_CurrentBlockHash genState = "")) then
    SetBlockState (NewBlockState (HexToHash (gs_CurrentBlockHash genState))
                     (gs_CurrentBlockHeight genState) (gs_CurrentBlockTimestamp genState))
  else
    SetBlockState (NewBlockState (HexToHash (gs_GenesisExecutionBlockHash genState)) 0 0).

(** [ExportGenesis]: without a block state, the default execution hash. *)
Definition ExportGenesis (k : Keeper) : M W GenesisState :=
  let! params := Params_Get k in
  let! r := try GetBlockState in
  match r with
  | inr _ =>
      ret (mkGenesisState params (gs_GenesisExecutionBlockHash DefaultGenesis) "" 0 0)
  | inl bs =>
      ret (mkGenesisState params (Hash_Hex (bs_Hash bs)) (Hash_Hex (bs_Hash bs))
             (bs_Height bs) (bs_Timestamp bs))
  end.

(** The module's [InitGenesis] and [ValidateGenesis] ([x/evm/module/module.go]):
    the JSON first, any failure to initialize is a panic. *)
Definition AppModule_InitGenesis (k : Keeper) (cdc : string → GenesisState * option error)
    (gs : string) : M W unit :=
  let! r := lift (must (wrap "failed to unmarshal evm genesis state" (GenesisStateFromJSON cdc gs))) in
  do! (if snd r then logger LWarn "evm genesis decoded via stdlib JSON fallback (legacy format)"
       else ret tt) in
  mustM (wrapM "failed to initialize evm genesis state" (InitGenesis k (fst r))).

Definition AppModule_ValidateGenesis (cdc : string → GenesisState * option error) (bz : string) :
    outcome unit :=
  let? r := wrap "failed to unmarshal evm genesis state" (GenesisStateFromJSON cdc bz) in
  GenesisState_Validate (fst r).

(** The gRPC query for the parameters: a missing item is the zero value. *)
Definition Query_Params (k : Keeper) (req : option unit) : M W Params :=
  match req with
  | None => fail (errText "rpc error: code = InvalidArgument desc = invalid request")
  | Some _ =>
      let! r := try (Params_Get k) in
      match r with
      | inl p => ret p
      | inr e =>
          if errors_Is e ErrNotFound then ret mkParams
          else fail (errText "rpc error: code = Internal desc = internal error")
      end
  end.

(** [ProbeCommittedExecutionHead]. *)
Definition ProbeCommittedExecutionHead `{!EngineClient E} (ctx : Ctx) (committed : BlockState) :
    M W unit :=
  let fcState := mkForkchoiceStateV1 (bs_Hash committed) (bs_Hash committed) (bs_Hash committed) in
  let! resp := engine_call (ReqForkchoiceUpdated fcState None)
                 (ForkchoiceUpdatedV3 ctx fcState None) in
  if bool_decide (ps_Status (fr_PayloadStatus resp) = VALID) then ret tt
  else fail (errText ("execution client forkchoice status " +:+ ps_Status (fr_PayloadStatus resp)
                      +:+ " (want VALID) head=" +:+ Hash_Hex (bs_Hash committed))).

End State.

(** ** Theorems: configuration *)

Lemma parseConfigUint_u64 field s v : parseConfigUint field s = Ret v → is_u64 v.
Proof.
  unfold parseConfigUint. case_bool_decide; [intros [= <-]; unfold is_u64; lia|].
  destruct (ParseUint s) eqn:E; try done. intros [= <-]. by eapply ParseUint_u64.
Qed.
#[export] Hint Resolve parseConfigUint_u64 : nexus.

(** The values a running keeper can hold. *)
Definition config_ok (c : Config) : Prop :=
  is_u64 (cfg_UnixTimestampOffset c) ∧
  ∀ u, cfg_UseBlockTimestamp c = Some u →
    is_u64 (StartBlockHeight u) ∧ is_u64 (Offset u) ∧
    ∀ stop, StopBlockHeight u = Some stop → is_u64 stop ∧ StartBlockHeight u ≤ stop.

Lemma parseUseBlockTimestamp_ok raw u :
  parseUseBlockTimestamp raw = Ret u →
  is_u64 (StartBlockHeight u) ∧ is_u64 (Offset u) ∧
  ∀ stop, StopBlockHeight u = Some stop → is_u64 stop ∧ StartBlockHeight u ≤ stop.
Proof.
  unfold parseUseBlockTimestamp. intros H.
  apply bindO_ret in H as (off & Hoff & H). apply bindO_ret in H as (start & Hst & H).
  apply bindO_ret in H as (stop & Hsp & H).
  case_bool_decide; [|destruct (Z.ltb_spec stop start); [done|]]; simplify_eq/=;
    (split_and!; [by eauto with nexus..|]); intros ? [= <-]. split; eauto with nexus.
Qed.

(** Whatever the config file holds, [readConfig] either panics or returns
    64-bit values with [start_block_height <= stop_block_height]; without a
    config path it returns the zero configuration. *)
Theorem readConfig_ok `{GoEthereum} os yaml c :
  readConfig os yaml = Ret c →
  config_ok c ∧ (Getenv os NEXUS_CONFIG_PATH = "" → c = mkConfig zeroAddress None 0).
Proof.
  unfold readConfig, ReadConfigFile. intros Hc.
  case_bool_decide as Hp.
  - simplify_eq/=. unfold config_ok, is_u64. simpl. split; [split; [lia|done]|done].
  - split; [|done]. destruct (Stat_IsNotExist _ _); [done|].
    destruct (ReadFile _ _) as [data| | |]; try done.
    apply bindO_ret in Hc as (raw & _ & Hc). apply bindO_ret in Hc as (rcpt & _ & Hc).
    apply bindO_ret in Hc as (ubt & Hu & Hc). apply bindO_ret in Hc as (off & Hoff & Hc).
    simplify_eq/=. split; simpl; [by eapply parseConfigUint_u64|]. intros u ->.
    destruct (raw_UseBlockTimestamp raw); [|done].
    apply bindO_ret in Hu as (u' & Hu' & [= ->]). by eapply parseUseBlockTimestamp_ok.
Qed.

(** ** Theorems: timestamps *)

Lemma bump_gt t prev : is_u64 prev → prev < maxUint64 → prev < bump t prev.
Proof.
  unfold bump, is_u64, maxUint64. intros. destruct (Z.leb_spec t prev); [|lia].
  rewrite u64_add_small; unfold is_u64; lia.
Qed.

Lemma in_block_window_test k h cfg :
  k_UseBlockTimestamp k = Some cfg →
  (StartBlockHeight cfg <=? h)
    && match StopBlockHeight cfg with None => true | Some stop => h <? stop end = true
  ↔ in_block_window k h.
Proof.
  unfold in_block_window. intros ->. rewrite andb_true_iff, Z.leb_le.
  destruct (StopBlockHeight cfg); [by rewrite Z.ltb_lt|naive_solver].
Qed.

Lemma CalculateTimestamp_window k ctx h prev cfg :
  k_UseBlockTimestamp k = Some cfg → in_block_window k h →
  CalculateTimestamp k ctx h prev = u64_add h (Offset cfg).
Proof.
  intros Hc Hw. unfold CalculateTimestamp. rewrite Hc.
  by rewrite (proj2 (in_block_window_test k h cfg Hc) Hw).
Qed.

Lemma CalculateTimestamp_outside k ctx h prev :
  ¬ in_block_window k h → ∃ t, CalculateTimestamp k ctx h prev = bump t prev.
Proof.
  intros Hw. unfold CalculateTimestamp. destruct (k_UseBlockTimestamp k) as [cfg|] eqn:Hc; [|eauto].
  destruct (_ && _) eqn:E; [|eauto]. by apply (in_block_window_test k h cfg Hc) in E.
Qed.

Lemma CalculateTimestamp_u64 k ctx h prev : is_u64 (CalculateTimestamp k ctx h prev).
Proof.
  unfold CalculateTimestamp, bump, u64_add.
  repeat case_match; try apply u64_range; auto using u64_range.
Qed.

(** Outside the window in which block heights serve as timestamps, the next
    timestamp is strictly greater than the previous one, whatever the wall
    clock says, up to the end of the uint64 range. *)
Theorem CalculateTimestamp_progress k ctx h prev :
  ¬ in_block_window k h → is_u64 prev → prev < maxUint64 →
  prev < CalculateTimestamp k ctx h prev ∧ is_u64 (CalculateTimestamp k ctx h prev).
Proof.
  intros Hw Hp Hm. split; [|apply CalculateTimestamp_u64].
  destruct (CalculateTimestamp_outside k ctx h prev Hw) as [t ->]. by apply bump_gt.
Qed.

(** Inside the window the timestamp is the height plus the offset: it does
    not depend on the clock or on the previous block, so two nodes agree on it,
    and it grows by exactly one per block. *)
Theorem CalculateTimestamp_in_window k ctx ctx' h prev prev' cfg :
  k_UseBlockTimestamp k = Some cfg →
  in_block_window k h → in_block_window k (h + 1) →
  0 ≤ h → 0 ≤ Offset cfg → h + 1 + Offset cfg < 2 ^ 64 →
  CalculateTimestamp k ctx h prev = h + Offset cfg ∧
  CalculateTimestamp k ctx' (h + 1) prev' = CalculateTimestamp k ctx h prev + 1.
Proof.
  intros Hc Hw Hw' ???. rewrite !(CalculateTimestamp_window _ _ _ _ cfg) by done.
  rewrite !u64_add_small by (unfold is_u64; lia). lia.
Qed.

Definition sample_keeper : Keeper :=
  mkKeeper "gov" (mkValueCodec (fun _ => Ret "") (fun _ => Ret mkParams)) 0
    (Some (mkUseBlockTimestamp 10 5 (Some 100))) 0 (mkChainSpec (Some 0) None None).

Definition sample_sdk (height : Z) (seconds : Z) : SdkContext :=
  mkSdkContext Background height "app" (seconds * Second) ExecModeFinalize false false.

(** The doc comment of [CalculateTimestamp] says that it "falls back to
    previousTimestamp+1 if the result is not strictly greater".  Inside the
    window it does not: here block 20 gets timestamp 25 after a block with
    timestamp 1000. *)
Theorem CalculateTimestamp_window_may_go_back :
  in_block_window sample_keeper 20 ∧
  CalculateTimestamp sample_keeper (sample_sdk 20 2000) 20 1000 = 25.
Proof. split; [cbv; split; discriminate || reflexivity|reflexivity]. Qed.

Lemma CalculateTimestamp_progress_witness :
  1000 < CalculateTimestamp sample_keeper (sample_sdk 200 900) 200 1000 ∧
  is_u64 (CalculateTimestamp sample_keeper (sample_sdk 200 900) 200 1000).
Proof.
  apply CalculateTimestamp_progress.
  - cbv. intros [_ H]. discriminate H.
  - unfold is_u64. lia.
  - unfold maxUint64. lia.
Defined.

Lemma CalculateTimestamp_in_window_witness :
  CalculateTimestamp sample_keeper (sample_sdk 20 2000) 20 0 = 20 + 5 ∧
  CalculateTimestamp sample_keeper (sample_sdk 21 1) (20 + 1) 7
  = CalculateTimestamp sample_keeper (sample_sdk 20 2000) 20 0 + 1.
Proof.
  apply (CalculateTimestamp_in_window sample_keeper _ _ _ _ _ (mkUseBlockTimestamp 10 5 (Some 100)));
    try reflexivity; try (cbv; split; discriminate || reflexivity); cbn; lia.
Defined.

(** ** Theorems: store and genesis *)

Section StateTheorems.
Context {E S : Type} `{!ItemStore S, !ItemStoreLaws S, GoEthereumLaws}.
Local Abbreviation W := (World E S).

Lemma GetBlockState_world (w w' : W) o : GetBlockState w = (w', o) → w' = w.
Proof. unfold GetBlockState, read_store. by intros [= <- _]. Qed.

(** What was set is read back, and the parameters are not disturbed. *)
Lemma SetBlockState_get (w w' : W) bs :
  valid_bs bs → SetBlockState bs w = (w', Ret tt) →
  GetBlockState w' = (w', Ret bs) ∧
  (∀ k, (Params_Get k w').2 = (Params_Get k w).2) ∧
  w_trace w' = w_trace w ∧ w_now w' = w_now w.
Proof.
  unfold SetBlockState, write_store, GetBlockState, Params_Get, read_store. intros Hbs Hs.
  destruct (Item_Set _ _ _ _) as [s'| | |] eqn:Hset; simplify_eq/=.
  destruct (Item_Get_Set _ _ _ _ _ _ Hset) as (bz & Henc & Hget).
  rewrite Hget, (block_state_decode_encode bs bz) by done. split_and!; [done| |done|done].
  intros k. eapply Item_Get_Set_ne; [|exact Hset]. discriminate.
Qed.

Lemma Params_Set_get k p (w w' : W) :
  Params_Set k p w = (w', Ret tt) →
  ∃ bz, vc_Encode (k_paramsCodec k) p = Ret bz ∧
        Params_Get k w' = (w', vc_Decode (k_paramsCodec k) bz).
Proof.
  unfold Params_Set, Params_Get, write_store, read_store. intros Hs.
  destruct (Item_Set _ _ _ _) as [s'| | |] eqn:Hset; simplify_eq/=.
  destruct (Item_Get_Set _ _ _ _ _ _ Hset) as (bz & Henc & Hget). rewrite Hget. eauto.
Qed.

Lemma HexToHash_valid s h t : is_u64 h → is_u64 t → valid_bs (NewBlockState (HexToHash s) h t).
Proof. intros. split_and!; [apply HexToHash_range|done|done]. Qed.

(** What [InitGenesis] leaves in the store. *)
Lemma InitGenesis_state k gs (w w' : W) :
  is_u64 (gs_CurrentBlockHeight gs) → is_u64 (gs_CurrentBlockTimestamp gs) →
  InitGenesis k gs w = (w', Ret tt) →
  GetBlockState w' =
    (w', Ret (if bool_decide (gs_CurrentBlockHash gs = "")
              then mkBlockState (HexToHash (gs_GenesisExecutionBlockHash gs)) 0 0
              else mkBlockState (HexToHash (gs_CurrentBlockHash gs))
                     (gs_CurrentBlockHeight gs) (gs_CurrentBlockTimestamp gs))) ∧
  ∃ bz, vc_Encode (k_paramsCodec k) (gs_Params gs) = Ret bz ∧
        (Params_Get k w').2 = vc_Decode (k_paramsCodec k) bz.
Proof.
  intros Hh Ht Hi. unfold InitGenesis in Hi.
  apply bindM_ret in Hi as (w1 & [] & Hp & Hi).
  apply Params_Set_get in Hp as (bz & Henc & Hget).
  case_bool_decide; [done|].
  case_bool_decide; simpl in Hi;
    apply SetBlockState_get in Hi as (Hg & Hpar & _);
    try (apply HexToHash_valid; unfold is_u64; done || lia);
    (split; [exact Hg|]; exists bz; split; [done|]; by rewrite Hpar, Hget).
Qed.

Lemma SetBlockState_writable bs (w : W) :
  writable S → ∃ w', SetBlockState bs w = (w', Ret tt).
Proof.
  intros Hw. unfold SetBlockState, write_store.
  destruct (Hw _ BlockStateValue BlockStateKey bs _ (w_store w) eq_refl) as [s' ->]. eauto.
Qed.

Lemma InitGenesis_writable k gs bz (w : W) :
  writable S → vc_Encode (k_paramsCodec k) (gs_Params gs) = Ret bz →
  gs_GenesisExecutionBlockHash gs ≠ "" → ∃ w', InitGenesis k gs w = (w', Ret tt).
Proof.
  intros Hw Hp Hh. unfold InitGenesis, Params_Set, bindM, write_store at 1.
  destruct (Hw _ _ ParamsKey _ _ (w_store w) Hp) as [s' ->].
  rewrite bool_decide_eq_false_2 by done. case_match; by apply SetBlockState_writable.
Qed.

(** Genesis round trip.  A state exported from a running chain validates,
    and initializing any chain from it succeeds and restores the same block
    state and parameters. *)
Theorem genesis_export_init_roundtrip k p bs (w : W) :
  writable S →
  (∃ bz, vc_Encode (k_paramsCodec k) p = Ret bz ∧ vc_Decode (k_paramsCodec k) bz = Ret p) →
  valid_bs bs → Params_Get k w = (w, Ret p) → GetBlockState w = (w, Ret bs) →
  ∃ gs, ExportGenesis k w = (w, Ret gs) ∧ GenesisState_Validate gs = Ret tt ∧
        ∀ w1 : W, ∃ w2, InitGenesis k gs w1 = (w2, Ret tt) ∧
          GetBlockState w2 = (w2, Ret bs) ∧ Params_Get k w2 = (w2, Ret p).
Proof.
  intros Hwr (bz & Henc & Hdec) (Hh & Hn & Ht) Hp Hbs. unfold ExportGenesis. unfold_monad.
  rewrite Hp, Hbs. eexists. split; [done|].
  assert (Hne : Hash_Hex (bs_Hash bs) ≠ "").
  { intros E0. pose proof (Hash_Hex_len (bs_Hash bs)) as Hl. by rewrite E0 in Hl. }
  split.
  - unfold GenesisState_Validate, hash_text, guard_err. simpl.
    rewrite Hash_Hex_len, Hash_Hex_prefix. rewrite bool_decide_eq_false_2 by done. done.
  - intros w1. edestruct (InitGenesis_writable k (mkGenesisState p (Hash_Hex (bs_Hash bs))
      (Hash_Hex (bs_Hash bs)) (bs_Height bs) (bs_Timestamp bs)) bz w1) as [w2 Hi]; [done..|].
    exists w2. split; [exact Hi|]. apply InitGenesis_state in Hi as [Hg (bz' & Henc' & Hpar)]; [|done..].
    simpl in *. rewrite bool_decide_eq_false_2, HexToHash_Hex in Hg by done.
    split; [by destruct bs|]. unfold Params_Get, read_store in *. simpl in Hpar. rewrite Hpar. congruence.
Qed.

End StateTheorems.

(** Legacy genesis files.  [GenesisStateFromJSON] never leaves the execution
    block hash empty, so the "hash is required" errors of [Validate] and
    [InitGenesis] cannot occur on the module's path from JSON. *)
Theorem GenesisStateFromJSON_has_hash cdc bz gs fallback :
  GenesisStateFromJSON cdc bz = Ret (gs, fallback) →
  gs_GenesisExecutionBlockHash gs ≠ "" ∧
  NormalizeGenesisState gs = gs.
Proof.
  intros H. assert (∃ g, gs = NormalizeGenesisState g) as [g ->].
  { unfold GenesisStateFromJSON in H. destruct (cdc bz) as [g [e|]]; [|naive_solver].
    destruct (bindO _ _); naive_solver. }
  unfold NormalizeGenesisState. destruct (bool_decide (gs_GenesisExecutionBlockHash g = "")) eqn:Eq.
  - simpl. done.
  - bools. split; [done|]. by rewrite bool_decide_eq_false_2.
Qed.

Lemma GenesisStateFromJSON_has_hash_witness :
  let r := GenesisStateFromJSON (fun _ => (zeroGenesisState, Some ErrNotFound)) "{}" in
  r = Ret (DefaultGenesis, true) ∧
  gs_GenesisExecutionBlockHash DefaultGenesis ≠ "" ∧ NormalizeGenesisState DefaultGenesis = DefaultGenesis.
Proof.
  split; [reflexivity|].
  apply (GenesisStateFromJSON_has_hash (fun _ => (zeroGenesisState, Some ErrNotFound)) "{}" _ true).
  reflexivity.
Defined.

Section Witnesses.
#[local] Existing Instances geth geth_laws mapStore mapStore_laws.

Definition sample_os : OS :=
  mkOS (fun _ => "/etc/nexus.yaml") (fun _ => false) (fun _ => Ret "file").
Definition sample_raw : rawConfig :=
  mkRawConfig "" (Some (mkRawUseBlockTimestamp "10" "5" "100")) "18446744073709551615".

Lemma readConfig_ok_witness :
  ∃ c, readConfig sample_os (fun _ => Ret sample_raw) = Ret c ∧ config_ok c.
Proof.
  eexists. split; [vm_compute; reflexivity|].
  refine (proj1 (readConfig_ok sample_os (fun _ => Ret sample_raw) _ _)). vm_compute. reflexivity.
Defined.

Definition genesis_world : ConcreteWorld :=
  (InitGenesis sample_keeper
     (mkGenesisState DefaultParams "0x00" "0x2a" 7 8) (world ∅ [] None)).1.

Lemma genesis_export_init_roundtrip_witness :
  ∃ gs, ExportGenesis sample_keeper genesis_world = (genesis_world, Ret gs) ∧
    GenesisState_Validate gs = Ret tt ∧
    ∀ w1 : ConcreteWorld, ∃ w2, InitGenesis sample_keeper gs w1 = (w2, Ret tt) ∧
      GetBlockState w2 = (w2, Ret (mkBlockState 42 7 8)) ∧ Params_Get sample_keeper w2 = (w2, Ret DefaultParams).
Proof.
  apply (genesis_export_init_roundtrip sample_keeper DefaultParams (mkBlockState 42 7 8)).
  - apply mapStore_writable.
  - exists "". split; reflexivity.
  - unfold valid_bs, is_hash, is_u64. simpl. lia.
  - vm_compute. reflexivity.
  - vm_compute. reflexivity.
Defined.

End Witnesses.
