(* ===== verification/MsgServer.v ===== *)
(** * Executing and validating payload messages

    [x/evm/keeper/msg_server.go], [msg_update_params.go] and
    [proposal_server.go]: the handler that runs when a block is finalized, the
    one that runs when a proposal is processed, and the parameter update. *)

From S2P Require Import Prelude GoStd GoJson External ChainSpec Engine Concrete Async EvmTypes Keeper.

(** 786432 / 131072, the Cancun blob cap. *)
Definition MaxBlobsPerBlock : Z := 6.

Record MsgUpdateParams := mkMsgUpdateParams { mup_Authority : string; mup_Params : Params }.

Definition ErrInvalidSigner : error := errText "expected gov account as only signer for proposal message".

Section MsgServer.
Context {E S : Type} `{!ItemStore S, !EngineClient E, !Host E, GoEthereum, CosmosSDK}.
Local Abbreviation W := (World E S).

(** The text of the module account's address. *)
Definition moduleAuthority : string := AccAddress_String (NewModuleAddress ModuleName).

(** ** validatePayload *)

Definition validatePayload (k : Keeper) (ctx : SdkContext) (msg : MsgExecutionPayload)
    (state : BlockState) : outcome ExecutableData :=
  do? guard_err (bool_decide (mep_Authority msg = moduleAuthority))
        (errText ("invalid authority; expected " +:+ moduleAuthority +:+ ", got " +:+ mep_Authority msg)) in
  let? payload := wrap "invalid execution payload" (ExecutableData_Unmarshal (mep_ExecutionPayload msg)) in
  do? guard_err (match ed_Withdrawals payload with Some (_ :: _) => false | _ => true end)
        (errText "withdrawals are not supported") in
  do? guard_err (match ed_Withdrawals payload, ed_BlobGasUsed payload, ed_ExcessBlobGas payload with
                 | Some _, Some _, Some _ => true
                 | _, _, _ => false
                 end)
        (errText "withdrawals, blob gas used, and excess blob gas are required") in
  do? guard_err (match ed_ExecutionWitness payload with None => true | Some _ => false end)
        (errText "execution witness is not supported") in
  do? guard_err (ed_ParentHash payload =? bs_Hash state)
        (errText ("invalid parent hash: expected " +:+ Hash_Hex (bs_Hash state) +:+ ", got "
                  +:+ Hash_Hex (ed_ParentHash payload))) in
  do? guard_err (ed_Number payload =? u64_add (bs_Height state) 1)
        (errText ("invalid block number: expected " +:+ fmt_d (u64_add (bs_Height state) 1) +:+ ", got "
                  +:+ fmt_d (ed_Number payload))) in
  do? guard_err (bs_Timestamp state <? ed_Timestamp payload)
        (errText ("invalid timestamp: expected > " +:+ fmt_d (bs_Timestamp state) +:+ ", got "
                  +:+ fmt_d (ed_Timestamp payload))) in
  let? height := toUint64 (sc_Height ctx) in
  let timestamp := CalculateTimestamp k ctx height (bs_Timestamp state) in
  do? guard_err (ed_Timestamp payload =? timestamp)
        (errText ("invalid timestamp: expected " +:+ fmt_d timestamp +:+ ", got "
                  +:+ fmt_d (ed_Timestamp payload))) in
  Ret payload.

(** ** sendPayload *)

(** The versioned hashes of the blob transactions, in order. *)
Fixpoint blobHashes (txs : list string) (acc : list Hash) : outcome (list Hash) :=
  match txs with
  | [] => Ret acc
  | txBytes :: txs' =>
      let? tx := wrap "decode tx" (EvmTx_UnmarshalBinary txBytes) in
      let hashes := EvmTx_BlobHashes tx in
      blobHashes txs' (match hashes with [] => acc | _ => (acc ++ hashes)%list end)
  end.

(** What [sendPayload] checks before it calls the execution client. *)
Definition sendPayload_args (sdkCtx : SdkContext) (payload : ExecutableData) :
    outcome (list Hash * Hash) :=
  let appHash := BytesToHash (sc_AppHash sdkCtx) in
  if appHash =? zeroHash then Fail (errText "app hash is empty")
  else
    let? versionedHashes := blobHashes (ed_Transactions payload) [] in
    if MaxBlobsPerBlock <? Z.of_nat (length versionedHashes) then
      Fail (errText ("too many blobs in block: " +:+ fmt_d (Z.of_nat (length versionedHashes))
                     +:+ " > " +:+ fmt_d MaxBlobsPerBlock))
    else Ret (versionedHashes, appHash).

Definition sendPayload (k : Keeper) (sdkCtx : SdkContext) (ctx : Ctx) (payload : ExecutableData) :
    M W PayloadStatusV1 :=
  let! args := lift (sendPayload_args sdkCtx payload) in
  let '(vh, appHash) := args in
  if IsAmsterdamActive (k_chainSpec k) (ed_Timestamp payload) then
    engine_call (ReqNewPayload 5 payload vh (Some appHash))
      (NewPayloadV5 ctx payload vh (Some appHash) None)
  else if IsPragueActive (k_chainSpec k) (ed_Timestamp payload) then
    engine_call (ReqNewPayload 4 payload vh (Some appHash))
      (NewPayloadV4 ctx payload vh (Some appHash) None)
  else
    engine_call (ReqNewPayload 3 payload vh (Some appHash))
      (NewPayloadV3 ctx payload vh (Some appHash)).

(** ** ExecutionPayload, when the block is finalized *)

(** The body of the first retry loop. *)
Definition newPayloadAttempt (k : Keeper) (sdkCtx : SdkContext) (payload : ExecutableData)
    (ctx : Ctx) (l : unit) : M W (bool * unit) :=
  let! r := try (sendPayload k sdkCtx ctx payload) in
  match r with
  | inr _ => ret (false, l)
  | inl status =>
      do! emit (EvCounter ["evm"; "payload_status"] (ps_Status status)) in
      if bool_decide (ps_Status status = VALID) || bool_decide (ps_Status status = SYNCING) then
        ret (true, l)
      else fail (errText ("payload is not valid with status: " +:+ ps_Status status))
  end.

Definition headState (h : Hash) : ForkchoiceStateV1 := mkForkchoiceStateV1 h h h.

(** The body of the second. *)
Definition forkchoiceAttempt (fcState : ForkchoiceStateV1) (ctx : Ctx) (l : unit) : M W (bool * unit) :=
  let! r := try (engine_call (ReqForkchoiceUpdated fcState None)
                   (ForkchoiceUpdatedV3 ctx fcState None)) in
  match r with
  | inr _ => ret (false, l)
  | inl response =>
      do! emit (EvCounter ["evm"; "forkchoice_status"] (ps_Status (fr_PayloadStatus response))) in
      if bool_decide (ps_Status (fr_PayloadStatus response) = INVALID) then
        fail (errText ("forkchoice not updated with status: "
                       +:+ ps_Status (fr_PayloadStatus response)))
      else ret (true, l)
  end.

(** Everything up to the write of the new block state. *)
Definition runPayload (fuel : nat) (k : Keeper) (sdkCtx : SdkContext) (req : MsgExecutionPayload) :
    M W ExecutableData :=
  do! lift (guard_err (bool_decide (sc_ExecMode sdkCtx = ExecModeFinalize))
             (errText "execution payload can only be submitted in finalize mode")) in
  do! lift (guard_err (negb (len (mep_ExecutionPayload req) =? 0))
             (errText "execution payload cannot be empty")) in
  let! state := wrapM "failed to get block state" GetBlockState in
  let! payload := lift (validatePayload k sdkCtx req state) in
  do! retry fuel (sc_ctx sdkCtx) (newPayloadAttempt k sdkCtx payload) tt in
  do! retry fuel (sc_ctx sdkCtx) (forkchoiceAttempt (headState (ed_BlockHash payload))) tt in
  ret payload.

(** [msgServer.ExecutionPayload]. *)
Definition ExecutionPayload (fuel : nat) (k : Keeper) (sdkCtx : SdkContext) (req : MsgExecutionPayload) :
    M W unit :=
  let! payload := runPayload fuel k sdkCtx req in
  SetBlockState (mkBlockState (ed_BlockHash payload) (ed_Number payload) (ed_Timestamp payload)).

(** ** UpdateParams *)

Definition UpdateParams (k : Keeper) (req : MsgUpdateParams) : M W unit :=
  let! authority := lift (wrap "invalid authority address" (StringToBytes (mup_Authority req))) in
  if bool_decide (k_authority k = authority) then
    do! lift (Params_Validate (mup_Params req)) in
    Params_Set k (mup_Params req)
  else
    let expected := match BytesToString (k_authority k) with Ret s => s | _ => "" end in
    fail (errWrapf ("invalid authority; expected " +:+ expected +:+ ", got "
                    +:+ mup_Authority req +:+ ": ") ErrInvalidSigner "").

(** ** The handlers of ProcessProposal *)

Definition Proposal_ExecutionPayload (k : Keeper) (sdkCtx : SdkContext) (req : MsgExecutionPayload) :
    M W unit :=
  let! state := wrapM "failed to get block state" GetBlockState in
  do! lift (validatePayload k sdkCtx req state) in
  ret tt.

Definition Proposal_UpdateParams (req : MsgUpdateParams) : M W unit :=
  fail (errText "UpdateParams should not be called during ProcessProposal").

(** ** Specification *)

(** What a payload must satisfy to extend the block [state]. *)
Record payload_ok (k : Keeper) (ctx : SdkContext) (msg : MsgExecutionPayload)
    (state : BlockState) (p : ExecutableData) : Prop := {
  po_authority : mep_Authority msg = moduleAuthority;
  po_decoded : ExecutableData_Unmarshal (mep_ExecutionPayload msg) = Ret p;
  po_withdrawals : ed_Withdrawals p = Some [];
  po_blob_gas : is_Some (ed_BlobGasUsed p) ∧ is_Some (ed_ExcessBlobGas p);
  po_witness : ed_ExecutionWitness p = None;
  po_parent : ed_ParentHash p = bs_Hash state;
  po_number : ed_Number p = u64_add (bs_Height state) 1;
  po_later : bs_Timestamp state < ed_Timestamp p;
  po_height : 0 ≤ sc_Height ctx;
  po_timestamp : ed_Timestamp p =
    CalculateTimestamp k ctx (u64 (sc_Height ctx)) (bs_Timestamp state) }.

Lemma validatePayload_spec k ctx msg state p :
  validatePayload k ctx msg state = Ret p ↔ payload_ok k ctx msg state p.
Proof.
  split.
  - unfold validatePayload, toUint64. unfold_monad. intros Hv. run; bools;
      split; simpl; eauto using mk_is_Some; first [lia | congruence | done].
  - intros []. unfold validatePayload, toUint64.
    rewrite po_authority0, bool_decide_eq_true_2 by done. cbn [bindO guard_err].
    rewrite po_decoded0. cbn [wrap bindO]. rewrite po_withdrawals0, po_witness0.
    destruct po_blob_gas0 as [[? ->] [? ->]]. cbn [bindO guard_err].
    rewrite po_parent0, po_number0, !Z.eqb_refl. cbn [bindO guard_err].
    rewrite (proj2 (Z.ltb_lt _ _) po_later0). cbn [bindO guard_err].
    destruct (Z.ltb_spec (sc_Height ctx) 0); [lia|]. cbn [bindO].
    by rewrite <-po_timestamp0, Z.eqb_refl.
Qed.

End MsgServer.

(** ** How the handlers run *)

Section Runs.
Context {E S : Type} `{!ItemStore S, !EngineClient E, !Host E, GoEthereum, CosmosSDK}.
Local Abbreviation W := (World E S).

Lemma engine_call_trace {A} r (c : Call E A) (w w' : W) o :
  engine_call r c w = (w', o) → w_trace w' = (w_trace w ++ [EvEngine r])%list.
Proof. unfold engine_call. destruct (c _) as [[??]?]. by intros [= <- _]. Qed.

Lemma sleep_trace d (w w' : W) o : sleep d w = (w', o) → w_trace w' = w_trace w.
Proof. unfold sleep. destruct (oversleep _ _). by intros [= <- _]. Qed.

(** The request [sendPayload] makes once its arguments are in order. *)
Definition newPayloadRequest (k : Keeper) (p : ExecutableData) (args : list Hash * Hash) : EngineRequest :=
  ReqNewPayload (NewPayloadEngineRPCVersion (k_chainSpec k) (ed_Timestamp p)) p args.1 (Some args.2).

Lemma sendPayload_sent k sdk c p args (w w' : W) o :
  sendPayload_args sdk p = Ret args → sendPayload k sdk c p w = (w', o) →
  w_trace w' = (w_trace w ++ [EvEngine (newPayloadRequest k p args)])%list.
Proof.
  intros Ha. unfold sendPayload, newPayloadRequest, NewPayloadEngineRPCVersion.
  rewrite Ha. destruct args as [vh a]. unfold_monad. simpl.
  repeat case_match; apply engine_call_trace.
Qed.

Lemma sendPayload_refused k sdk c p (w : W) e :
  sendPayload_args sdk p = Fail e → sendPayload k sdk c p w = (w, Fail e).
Proof. intros Ha. unfold sendPayload. unfold_monad. by rewrite Ha. Qed.

Lemma newPayloadAttempt_run k sdk p c l (w w' : W) b l' :
  newPayloadAttempt k sdk p c l w = (w', Ret (b, l')) →
  (∃ e, sendPayload_args sdk p = Fail e ∧ b = false ∧ w' = w) ∨
  ∃ args, sendPayload_args sdk p = Ret args ∧
    let ev := EvEngine (newPayloadRequest k p args) in
    if b then
      ∃ st, (st = VALID ∨ st = SYNCING) ∧
        w_trace w' = (w_trace w ++ [ev; EvCounter ["evm"; "payload_status"] st])%list
    else w_trace w' = (w_trace w ++ [ev])%list.
Proof.
  unfold newPayloadAttempt. intros Hr.
  destruct (sendPayload_args sdk p) as [args|e|s|] eqn:Ha.
  2: { left. unfold_monad. rewrite (sendPayload_refused _ _ _ _ _ e Ha) in Hr. naive_solver. }
  2-3: unfold sendPayload in Hr; unfold_monad; rewrite Ha in Hr; done.
  right. exists args. split; [done|]. unfold_monad.
  destruct (sendPayload k sdk c p w) as [w1 o] eqn:Hs.
  apply (sendPayload_sent _ _ _ _ args) in Hs; [|done].
  destruct o as [st|e|s|]; simplify_eq/=; [|done].
  destruct (_ || _) eqn:Hst; simplify_eq/=. exists (ps_Status st). split.
  - apply orb_true_iff in Hst as [?|?]; bools; auto.
  - by rewrite Hs, <-app_assoc.
Qed.

Lemma forkchoiceAttempt_run fc c l (w w' : W) b l' :
  forkchoiceAttempt fc c l w = (w', Ret (b, l')) →
  let ev := EvEngine (ReqForkchoiceUpdated fc None) in
  if b then
    ∃ st, st ≠ INVALID ∧
      w_trace w' = (w_trace w ++ [ev; EvCounter ["evm"; "forkchoice_status"] st])%list
  else w_trace w' = (w_trace w ++ [ev])%list.
Proof.
  unfold forkchoiceAttempt. unfold_monad. intros Hr.
  destruct (engine_call _ _ w) as [w1 o] eqn:Hs. apply engine_call_trace in Hs.
  destruct o as [r|e|s|]; simplify_eq/=; [|done].
  case_bool_decide; simplify_eq/=. eexists. split; [done|]. by rewrite Hs, <-app_assoc.
Qed.

(** Loops whose failed attempts only add the same event. *)
Lemma retry_trace {L} fuel ctx (fn : Ctx → L → M W (bool * L)) l (w w' : W) l' ev :
  (∀ c l w w1 l1, fn c l w = (w1, Ret (false, l1)) → w_trace w1 = (w_trace w ++ [ev])%list) →
  retry fuel ctx fn l w = (w', Ret l') →
  ∃ n c l1 w1, w_trace w1 = (w_trace w ++ replicate n ev)%list ∧ fn c l1 w1 = (w', Ret (true, l')).
Proof.
  intros Hf Hr.
  apply (retry_ret_inv (fun _ w1 => ∃ n, w_trace w1 = (w_trace w ++ replicate n ev)%list))
    in Hr as (c & l1 & w1 & [n Hn] & Hfin).
  - by exists n, c, l1, w1.
  - intros c1 l2 w2 w3 l3 w4 [n Hn] Hfn Hsl. apply Hf in Hfn. apply sleep_trace in Hsl.
    exists (Datatypes.S n). rewrite Hsl, Hfn, Hn, <-app_assoc. by rewrite replicate_S_end.
  - exists 0%nat. by rewrite app_nil_r.
Qed.

(** The events of a successful execution: newPayload requests, all for this
    payload, the last one answered VALID or SYNCING; then forkchoice updates,
    all to its hash, the last one not answered INVALID. *)
Definition executed_events (k : Keeper) (p : ExecutableData) (args : list Hash * Hash)
    (n m : nat) (st1 st2 : string) : list Event :=
  let np := EvEngine (newPayloadRequest k p args) in
  let fc := EvEngine (ReqForkchoiceUpdated
              (mkForkchoiceStateV1 (ed_BlockHash p) (ed_BlockHash p) (ed_BlockHash p)) None) in
  (replicate n np ++ [np; EvCounter ["evm"; "payload_status"] st1]
   ++ replicate m fc ++ [fc; EvCounter ["evm"; "forkchoice_status"] st2])%list.

Lemma newPayload_loop fuel k sdk p (w w' : W) :
  retry fuel (sc_ctx sdk) (newPayloadAttempt k sdk p) tt w = (w', Ret tt) →
  ∃ args n st, sendPayload_args sdk p = Ret args ∧ (st = VALID ∨ st = SYNCING) ∧
    let np := EvEngine (newPayloadRequest k p args) in
    w_trace w' = (w_trace w ++ replicate n np ++ [np; EvCounter ["evm"; "payload_status"] st])%list.
Proof.
  intros Hr. destruct (sendPayload_args sdk p) as [args| | |] eqn:Ha.
  1: assert (Hf : ∀ c l (w w1 : W) l1, newPayloadAttempt k sdk p c l w = (w1, Ret (false, l1)) →
      w_trace w1 = (w_trace w ++ [EvEngine (newPayloadRequest k p args)])%list).
  { intros c l1 w1 w2 l2 Hf.
    apply newPayloadAttempt_run in Hf as [(e & He & _)|(args' & He & Ht)];
      rewrite Ha in He; simplify_eq/=. exact Ht. }
  1: destruct (retry_trace _ _ _ _ _ _ _ _ Hf Hr) as (n & c & l1 & w1 & Hw1 & Hfin).
  2-4: apply (retry_ret_inv (fun _ _ => True)) in Hr as (c & l1 & w1 & _ & Hfin); [|done..].
  all: apply newPayloadAttempt_run in Hfin as [(err & He & ? & _)|(args' & He & st & Hst & Ht)];
    rewrite Ha in He; simplify_eq.
  exists args', n, st. split_and!; [done..|]. cbv zeta. by rewrite Ht, Hw1, <-app_assoc.
Qed.

Lemma forkchoice_loop fuel ctx fc (w w' : W) :
  retry fuel ctx (forkchoiceAttempt fc) tt w = (w', Ret tt) →
  ∃ m st, st ≠ INVALID ∧
    let ev := EvEngine (ReqForkchoiceUpdated fc None) in
    w_trace w' = (w_trace w ++ replicate m ev ++ [ev; EvCounter ["evm"; "forkchoice_status"] st])%list.
Proof.
  intros Hr. apply (retry_trace _ _ _ _ _ _ _ (EvEngine (ReqForkchoiceUpdated fc None)))
    in Hr as (m & c & l1 & w1 & Hw1 & Hf).
  - apply forkchoiceAttempt_run in Hf as (st & Hst & Ht). exists m, st. split; [done|].
    cbv zeta. by rewrite Ht, Hw1, <-app_assoc.
  - intros c l1 w1 w2 l2 Hf. by apply forkchoiceAttempt_run in Hf.
Qed.

(** Nothing before the final write touches the store. *)
Lemma sendPayload_store k sdk c p : preserves (same w_store) (sendPayload k sdk c p : M W _).
Proof. unfold sendPayload. preserving. Qed.
#[local] Hint Resolve sendPayload_store : nexus.

Lemma newPayloadAttempt_store k sdk p c l :
  preserves (same w_store) (newPayloadAttempt k sdk p c l : M W _).
Proof. unfold newPayloadAttempt. preserving. Qed.

Lemma forkchoiceAttempt_store fc c l :
  preserves (same w_store) (forkchoiceAttempt fc c l : M W _).
Proof. unfold forkchoiceAttempt. preserving. Qed.

Lemma runPayload_store fuel k sdk req :
  preserves (same w_store) (runPayload fuel k sdk req : M W _).
Proof.
  unfold runPayload. preserving.
  - apply retry_preserves; [apply _|apply newPayloadAttempt_store|apply sleep_store].
  - apply retry_preserves; [apply _|intros; apply forkchoiceAttempt_store|apply sleep_store].
Qed.

(** A message of another account is refused at once. *)
Lemma ExecutionPayload_unauthorized fuel k sdk req st (w : W) :
  mep_Authority req ≠ moduleAuthority → GetBlockState w = (w, Ret st) →
  ∃ e, ExecutionPayload fuel k sdk req w = (w, Fail e).
Proof.
  intros Ha Hst. unfold ExecutionPayload, runPayload, validatePayload, bindM, lift, wrapM, guard_err. rewrite Hst.
  cbn [wrap bindO]. rewrite (bool_decide_eq_false_2 (mep_Authority req = moduleAuthority)) by done.
  case_bool_decide; [|by eauto]. destruct (negb _); cbn; eauto.
Qed.

Lemma runPayload_ret fuel k sdk req p (w w' : W) :
  runPayload fuel k sdk req w = (w', Ret p) →
  sc_ExecMode sdk = ExecModeFinalize ∧
  ∃ st args n m st1 st2,
    GetBlockState w = (w, Ret st) ∧ payload_ok k sdk req st p ∧
    sendPayload_args sdk p = Ret args ∧ (st1 = VALID ∨ st1 = SYNCING) ∧ st2 ≠ INVALID ∧
    w_trace w' = (w_trace w ++ executed_events k p args n m st1 st2)%list.
Proof.
  unfold runPayload. intros Hr.
  apply bindM_ret in Hr as (w1 & [] & Hm & Hr). apply bindM_ret in Hr as (w2 & [] & Hl & Hr).
  unfold lift in Hm, Hl. simplify_eq. unfold guard_err in *.
  case_bool_decide as Hmode; [|done]. split; [done|].
  apply bindM_ret in Hr as (w3 & st & Hst & Hr).
  unfold wrapM, GetBlockState, read_store in Hst. simpl in Hst. injection Hst as <- Hst.
  apply bindM_ret in Hr as (w4 & p' & Hv & Hr). unfold lift in Hv. injection Hv as <- Hv.
  apply bindM_ret in Hr as (w5 & [] & Hnp & Hr). apply bindM_ret in Hr as (w6 & [] & Hfc & Hr).
  unfold ret in Hr. simplify_eq.
  apply newPayload_loop in Hnp as (args & n & st1 & Ha & Hs1 & Ht1).
  apply forkchoice_loop in Hfc as (m & st2 & Hs2 & Ht2).
  exists st, args, n, m, st1, st2. split_and!; [|by apply validatePayload_spec|done..|].
  - unfold GetBlockState, read_store. destruct (Item_Get _ _ _); simplify_eq/=; done.
  - rewrite Ht2, Ht1. unfold executed_events. by rewrite <-!app_assoc.
Qed.

End Runs.

(** ** Theorems: what validation accepts *)

Section Claims.
Context {E S : Type} `{!ItemStore S, !ItemStoreLaws S, !EngineClient E, !Host E, GoEthereumLaws, CosmosSDK}.
Local Abbreviation W := (World E S).

(** C18: [validatePayload] accepts exactly the payloads that extend the block
    state: right authority, decodable, no withdrawals, blob gas fields set, no
    witness, the state's hash as parent, the next number, and the one timestamp
    [CalculateTimestamp] gives, which must be later than the state's. *)
Theorem validatePayload_accepts_iff k ctx msg state p :
  validatePayload k ctx msg state = Ret p ↔ payload_ok k ctx msg state p.
Proof. apply validatePayload_spec. Qed.

(** Processing a proposal has no effect at all, whatever the message: the
    handler of ProcessProposal never touches the store, the execution client
    or the clock, and it accepts exactly when the payload extends the state. *)
Theorem proposal_handler_is_a_pure_check k sdk req (w : W) :
  ∃ o, Proposal_ExecutionPayload k sdk req w = (w, o) ∧
    (o = Ret tt ↔ ∃ st p, GetBlockState w = (w, Ret st) ∧ payload_ok k sdk req st p).
Proof.
  unfold Proposal_ExecutionPayload, GetBlockState, read_store. unfold_monad.
  destruct (Item_Get _ _ _) as [st|e|s|]; [|eexists; split; [done|naive_solver]..].
  destruct (validatePayload k sdk req st) as [p|e|s|] eqn:Hv; eexists; (split; [done|]).
  - apply validatePayload_spec in Hv. naive_solver.
  - split; [done|]. intros (st' & p & [= <-] & Hok). apply validatePayload_spec in Hok. congruence.
  - split; [done|]. intros (st' & p & [= <-] & Hok). apply validatePayload_spec in Hok. congruence.
  - split; [done|]. intros (st' & p & [= <-] & Hok). apply validatePayload_spec in Hok. congruence.
Qed.

(** The header of an accepted payload is a block state. *)
Definition payload_state (p : ExecutableData) : BlockState :=
  mkBlockState (ed_BlockHash p) (ed_Number p) (ed_Timestamp p).

Lemma payload_state_valid k sdk req st p : payload_ok k sdk req st p → valid_bs (payload_state p).
Proof.
  intros []. split_and!; simpl.
  - by eapply ExecutableData_Unmarshal_range.
  - rewrite po_number0. apply u64_range.
  - rewrite po_timestamp0. apply CalculateTimestamp_u64.
Qed.

(** ** Theorems: what execution does *)

Lemma ExecutionPayload_ret fuel k sdk req (w w' : W) :
  ExecutionPayload fuel k sdk req w = (w', Ret tt) →
  sc_ExecMode sdk = ExecModeFinalize ∧
  ∃ st p args n m st1 st2,
    GetBlockState w = (w, Ret st) ∧ payload_ok k sdk req st p ∧
    sendPayload_args sdk p = Ret args ∧ (st1 = VALID ∨ st1 = SYNCING) ∧ st2 ≠ INVALID ∧
    w_trace w' = (w_trace w ++ executed_events k p args n m st1 st2)%list ∧
    GetBlockState w' = (w', Ret (payload_state p)) ∧
    ∀ k', (Params_Get k' w').2 = (Params_Get k' w).2.
Proof.
  unfold ExecutionPayload. intros Hx. apply bindM_ret in Hx as (w1 & p & Hr & Hs).
  pose proof (runPayload_store _ _ _ _ _ _ _ Hr) as Hst.
  apply runPayload_ret in Hr as [Hm (st & args & n & m & st1 & st2 & Hg & Hok & Ha & H1' & H2' & Ht)].
  apply SetBlockState_get in Hs as (Hg' & Hp & Htr & _); [|by eapply payload_state_valid].
  split; [done|]. exists st, p, args, n, m, st1, st2. split_and!; [done..| |exact Hg'|].
  - by rewrite Htr.
  - intros k'. rewrite Hp. unfold Params_Get, read_store. simpl. unfold same in Hst. by rewrite Hst.
Qed.

(** C9: a successful execution happens only when the block is finalized, of a
    payload that extends the stored state, after the execution client answered
    VALID or SYNCING to newPayload for exactly this payload and did not answer
    INVALID to the forkchoice update to its hash; it leaves the payload's
    header as the new block state and the parameters as they were. *)
Theorem ExecutionPayload_commits_header fuel k sdk req (w w' : W) :
  ExecutionPayload fuel k sdk req w = (w', Ret tt) →
  sc_ExecMode sdk = ExecModeFinalize ∧
  ∃ st p args n m st1 st2,
    GetBlockState w = (w, Ret st) ∧ payload_ok k sdk req st p ∧
    sendPayload_args sdk p = Ret args ∧ (st1 = VALID ∨ st1 = SYNCING) ∧ st2 ≠ INVALID ∧
    w_trace w' = (w_trace w ++ executed_events k p args n m st1 st2)%list ∧
    GetBlockState w' = (w', Ret (payload_state p)) ∧
    ∀ k', (Params_Get k' w').2 = (Params_Get k' w).2.
Proof. apply ExecutionPayload_ret. Qed.

Lemma ExecutionPayload_store fuel k sdk req (w w' : W) o :
  ExecutionPayload fuel k sdk req w = (w', o) → o ≠ Ret tt → w_store w' = w_store w.
Proof.
  unfold ExecutionPayload, bindM. intros Hx Ho.
  destruct (runPayload fuel k sdk req w) as [w1 r] eqn:Hr.
  apply runPayload_store in Hr. unfold same in Hr.
  destruct r as [p|e|s|]; simplify_eq/=; [|done..].
  unfold SetBlockState, write_store in Hx.
  destruct (Item_Set _ _ _ _); simplify_eq/=; done.
Qed.

(** C14: an execution that does not return nil - an error, a panic, a loop that
    is still running - has not written the store. *)
Theorem ExecutionPayload_failure_keeps_store fuel k sdk req (w w' : W) o :
  ExecutionPayload fuel k sdk req w = (w', o) → o ≠ Ret tt → w_store w' = w_store w.
Proof. apply ExecutionPayload_store. Qed.

(** The shape of every newPayload request: the version of the fork schedule,
    at most [MaxBlobsPerBlock] blobs, a nonzero beacon root. *)
Definition request_ok (k : Keeper) (ev : Event) : Prop :=
  match ev with
  | EvEngine (ReqNewPayload v p vh root) =>
      v = NewPayloadEngineRPCVersion (k_chainSpec k) (ed_Timestamp p) ∧
      Z.of_nat (length vh) ≤ MaxBlobsPerBlock ∧ ∃ r, root = Some r ∧ r ≠ zeroHash
  | EvEngine (ReqForkchoiceUpdated fc attrs) => attrs = None ∧ ∃ h, fc = headState h
  | EvEngine (ReqGetPayload _ _) => False
  | _ => True
  end.

Lemma sendPayload_args_ok sdk p vh a :
  sendPayload_args sdk p = Ret (vh, a) → Z.of_nat (length vh) ≤ MaxBlobsPerBlock ∧ a ≠ zeroHash.
Proof.
  unfold sendPayload_args. destruct (_ =? _) eqn:He; [done|]. intros Hx.
  apply bindO_ret in Hx as (l & _ & Hx). destruct (_ <? _) eqn:Hl; simplify_eq. bools. auto.
Qed.

Lemma sendPayload_emits k sdk c p : preserves (emits (request_ok k)) (sendPayload k sdk c p : M W _).
Proof.
  intros w w' o. unfold sendPayload, bindM, lift.
  destruct (sendPayload_args sdk p) as [[vh a]|e|s|] eqn:Ha; [|by intros [= <- _]..].
  apply sendPayload_args_ok in Ha as [??].
  repeat case_match; apply engine_call_emits; simpl; unfold NewPayloadEngineRPCVersion;
    repeat case_match; (split; [congruence|eauto]).
Qed.
#[local] Hint Resolve sendPayload_emits : nexus.

(** C17: however an execution ends, every newPayload request it made had the
    version of the fork schedule, at most six blobs and a nonzero beacon root;
    it never asked the client to build a payload and never pointed head, safe
    and finalized at different blocks. *)
Theorem ExecutionPayload_requests_ok fuel k sdk req :
  preserves (emits (request_ok k)) (ExecutionPayload fuel k sdk req : M W _).
Proof.
  unfold ExecutionPayload, runPayload, SetBlockState, GetBlockState. preserving.
  - apply retry_preserves; [apply _| |apply sleep_emits].
    intros c l. unfold newPayloadAttempt. preserving; by apply emit_emits.
  - apply retry_preserves; [apply _| |apply sleep_emits].
    intros c l. unfold forkchoiceAttempt. preserving; try by apply emit_emits.
    apply engine_call_emits. simpl. eauto.
Qed.

(** An execution client that answers at once and does not object. *)
Record responsive : Prop := {
  rs_v3 ctx p vh r (e : E) : ∃ ed s, NewPayloadV3 ctx p vh r e = (ed, Ret s)
      ∧ (ps_Status s = VALID ∨ ps_Status s = SYNCING);
  rs_v4 ctx p vh r (e : E) : ∃ ed s, NewPayloadV4 ctx p vh r None e = (ed, Ret s)
      ∧ (ps_Status s = VALID ∨ ps_Status s = SYNCING);
  rs_v5 ctx p vh r (e : E) : ∃ ed s, NewPayloadV5 ctx p vh r None e = (ed, Ret s)
      ∧ (ps_Status s = VALID ∨ ps_Status s = SYNCING);
  rs_fc ctx fc (e : E) : ∃ ed s, ForkchoiceUpdatedV3 ctx fc None e = (ed, Ret s)
      ∧ ps_Status (fr_PayloadStatus s) ≠ INVALID }.

Lemma engine_call_ret {A} r (c : Call E A) ed a (w : W) :
  c (w_env w) = (ed, Ret a) → ∃ w', engine_call r c w = (w', Ret a).
Proof. unfold engine_call. intros ->. destruct ed. eauto. Qed.

Lemma responsive_sendPayload k sdk p c args (w : W) :
  responsive → sendPayload_args sdk p = Ret args →
  ∃ w' s, sendPayload k sdk c p w = (w', Ret s) ∧ (ps_Status s = VALID ∨ ps_Status s = SYNCING).
Proof.
  intros HR Ha. unfold sendPayload, bindM, lift. rewrite Ha. destruct args as [vh a].
  destruct (IsAmsterdamActive _ _); [|destruct (IsPragueActive _ _)].
  - destruct (rs_v5 HR c p vh (Some a) (w_env w)) as (ed & s & Hc & Hs).
    destruct (engine_call_ret (ReqNewPayload 5 p vh (Some a)) _ ed s w Hc) as [w' Hw]. eauto.
  - destruct (rs_v4 HR c p vh (Some a) (w_env w)) as (ed & s & Hc & Hs).
    destruct (engine_call_ret (ReqNewPayload 4 p vh (Some a)) _ ed s w Hc) as [w' Hw]. eauto.
  - destruct (rs_v3 HR c p vh (Some a) (w_env w)) as (ed & s & Hc & Hs).
    destruct (engine_call_ret (ReqNewPayload 3 p vh (Some a)) _ ed s w Hc) as [w' Hw]. eauto.
Qed.

Lemma responsive_newPayload fuel k sdk p args (w : W) :
  responsive → sendPayload_args sdk p = Ret args →
  ∃ w', retry (Datatypes.S fuel) (sc_ctx sdk) (newPayloadAttempt k sdk p) tt w = (w', Ret tt).
Proof.
  intros HR Ha. cbn [retry]. unfold newPayloadAttempt. unfold_monad.
  destruct (responsive_sendPayload k sdk p (WithTimeout (sc_ctx sdk) requestTimeout (w_now w)) args w HR Ha)
    as (w1 & s & -> & Hs). unfold emit, modify.
  replace (_ || _) with true by (destruct Hs as [-> | ->]; reflexivity). simpl. eauto.
Qed.

Lemma responsive_forkchoice fuel ctx fc (w : W) :
  responsive → ∃ w', retry (Datatypes.S fuel) ctx (forkchoiceAttempt fc) tt w = (w', Ret tt).
Proof.
  intros HR. cbn [retry]. unfold forkchoiceAttempt. unfold_monad.
  destruct (rs_fc HR (WithTimeout ctx requestTimeout (w_now w)) fc (w_env w)) as (ed & s & Hc & Hs).
  destruct (engine_call_ret (ReqForkchoiceUpdated fc None) _ ed s w Hc) as [w1 ->].
  unfold emit, modify. rewrite bool_decide_eq_false_2 by done. simpl. eauto.
Qed.

Lemma payload_executes fuel k sdk req st p args (w : W) :
  responsive → writable S →
  sc_ExecMode sdk = ExecModeFinalize → len (mep_ExecutionPayload req) ≠ 0 →
  GetBlockState w = (w, Ret st) → payload_ok k sdk req st p → sendPayload_args sdk p = Ret args →
  ∃ w', ExecutionPayload (Datatypes.S fuel) k sdk req w = (w', Ret tt) ∧
        GetBlockState w' = (w', Ret (payload_state p)).
Proof.
  intros HR Hset Hm Hl Hg Hok Ha.
  destruct (responsive_newPayload fuel k sdk p args w HR Ha) as [w1 H1'].
  destruct (responsive_forkchoice fuel (sc_ctx sdk) (headState (ed_BlockHash p)) w1 HR) as [w2 H2'].
  destruct (SetBlockState_writable (payload_state p) w2 Hset) as [w3 Hs]. exists w3. split; [|eapply SetBlockState_get in Hs as [? _]; [done|by eapply payload_state_valid]].
  unfold ExecutionPayload, runPayload, bindM, lift, wrapM. rewrite Hm, bool_decide_eq_true_2 by done.
  cbn [guard_err]. apply Z.eqb_neq in Hl. rewrite Hl, Hg. cbn [negb guard_err wrap].
  rewrite (proj2 (validatePayload_spec k sdk req st p) Hok), H1', H2'. exact Hs.
Qed.

(** Progress.  If the execution client is responsive and the store can be
    written, a payload that ProcessProposal accepts and whose transactions pass
    the local checks of [sendPayload] is executed by FinalizeBlock in one
    attempt of each loop, and becomes the block state. *)
Theorem accepted_payload_is_executed fuel k sdk req st p args (w : W) :
  responsive → writable S →
  sc_ExecMode sdk = ExecModeFinalize → len (mep_ExecutionPayload req) ≠ 0 →
  GetBlockState w = (w, Ret st) → payload_ok k sdk req st p → sendPayload_args sdk p = Ret args →
  ∃ w', ExecutionPayload (Datatypes.S fuel) k sdk req w = (w', Ret tt) ∧
        GetBlockState w' = (w', Ret (payload_state p)).
Proof. apply payload_executes. Qed.

(** C21: the checks of [sendPayload] that do not involve the network (an
    undecodable transaction, more than six blobs, an empty app hash) are
    reported like a failed request and retried.  ProcessProposal accepts such
    a payload, and when the block is finalized - with a context that is never
    done, as FinalizeBlock has - the handler never returns. *)
Theorem locally_refused_payload_never_returns k sdk req st p e (w : W) :
  sc_ExecMode sdk = ExecModeFinalize → len (mep_ExecutionPayload req) ≠ 0 →
  ctx_done (sc_ctx sdk) = None →
  GetBlockState w = (w, Ret st) → payload_ok k sdk req st p → sendPayload_args sdk p = Fail e →
  Proposal_ExecutionPayload k sdk req w = (w, Ret tt) ∧
  ∀ fuel, (ExecutionPayload fuel k sdk req w).2 = OutOfFuel.
Proof.
  intros Hm Hl Hctx Hg Hok Ha. pose proof (proj2 (validatePayload_spec k sdk req st p) Hok) as Hv.
  split; [unfold Proposal_ExecutionPayload, bindM, wrapM, lift; by rewrite Hg; cbn; rewrite Hv|].
  intros fuel. unfold ExecutionPayload, runPayload, bindM, lift, wrapM.
  rewrite Hm, bool_decide_eq_true_2 by done. cbn [guard_err]. apply Z.eqb_neq in Hl.
  rewrite Hl, Hg. cbn [negb guard_err wrap]. rewrite Hv.
  assert (Hr : (retry fuel (sc_ctx sdk) (newPayloadAttempt k sdk p) tt w).2 = OutOfFuel).
  { apply retry_never_ends; [done|]. intros c l w1. exists w1, l.
    unfold newPayloadAttempt, try, bindM. by rewrite (sendPayload_refused _ _ _ _ _ e Ha). }
  destruct (retry _ _ _ _ _) as [w1 o]. simpl in Hr. by subst o.
Qed.

(** C30: the parameters change only on a message signed by the module's
    authority, and the block state never does. *)
Theorem UpdateParams_needs_authority k req (w w' : W) o :
  UpdateParams k req w = (w', o) →
  (o = Ret tt → StringToBytes (mup_Authority req) = Ret (k_authority k)) ∧
  (o ≠ Ret tt → w' = w) ∧
  (GetBlockState w').2 = (GetBlockState w).2.
Proof.
  unfold UpdateParams, bindM, lift, Params_Set, Params_Validate. intros Hu.
  destruct (StringToBytes _) as [a|e|s|] eqn:Ha; cbn [wrap] in Hu; simplify_eq; [|naive_solver..].
  case_bool_decide as Hk; [|unfold fail in Hu; naive_solver].
  unfold write_store in Hu. destruct (Item_Set _ _ _ _) as [s'| | |] eqn:Hs; simplify_eq; [|naive_solver..].
  split_and!; [done..|]. unfold GetBlockState, read_store. simpl.
  eapply Item_Get_Set_ne; [|exact Hs]. discriminate.
Qed.

End Claims.

(** ** Witnesses on the concrete environment *)

Section Witnesses.
#[local] Existing Instances geth geth_laws cosmos mapStore mapStore_laws scripted exact_host.

Definition sample_state : BlockState := mkBlockState 17 199 1000.

Definition sample_payload (txs : list string) : ExecutableData :=
  mkExecutableData 17 200 2000 18 txs (Some []) (Some 0) (Some 0) None "".

Definition sample_msg (txs : list string) : MsgExecutionPayload :=
  mkMsgExecutionPayload moduleAuthority (encode_text (sample_payload txs)).

(** A store that holds [sample_state]. *)
Definition sample_store : gmap string string :=
  match Item_Set BlockStateValue BlockStateKey sample_state ∅ with Ret s => s | _ => ∅ end.

Definition sample_world (answers : list string) : ConcreteWorld := world sample_store answers None.

Lemma sample_state_read answers :
  GetBlockState (sample_world answers) = (sample_world answers, Ret sample_state).
Proof. vm_compute. reflexivity. Qed.

Lemma sample_payload_ok txs :
  payload_ok sample_keeper (sample_sdk 200 2000) (sample_msg txs) sample_state (sample_payload txs).
Proof.
  split; try reflexivity; simpl; try lia; try (split; eauto).
  rewrite decode_encode_text. reflexivity.
Qed.

Lemma sample_msg_len txs : len (mep_ExecutionPayload (sample_msg txs)) ≠ 0.
Proof. apply encode_text_len. Qed.

Lemma ExecutionPayload_commits_header_witness :
  let w := sample_world [""; "VALID"; "VALID"] in
  let r := ExecutionPayload 2 sample_keeper (sample_sdk 200 2000) (sample_msg ["a"; "Bcd"]) w in
  r.2 = Ret tt ∧
  ∃ st p, GetBlockState w = (w, Ret st) ∧ GetBlockState r.1 = (r.1, Ret (payload_state p)).
Proof.
  intros w r. assert (Hr : r = (r.1, Ret tt)) by (vm_compute; reflexivity).
  split; [by rewrite Hr|].
  destruct (ExecutionPayload_commits_header 2 sample_keeper (sample_sdk 200 2000)
    (sample_msg ["a"; "Bcd"]) w r.1 Hr) as [_ (st & p & args & n & m & st1 & st2 & H1 & H2 & H3 & H4 & H5 & H6 & H7 & _)].
  exists st, p. split; assumption.
Defined.

Lemma ExecutionPayload_failure_keeps_store_witness :
  let w := sample_world ["INVALID"] in
  let r := ExecutionPayload 2 sample_keeper (sample_sdk 200 2000) (sample_msg []) w in
  w_store r.1 = w_store w.
Proof.
  intros w r.
  apply (ExecutionPayload_failure_keeps_store 2 sample_keeper (sample_sdk 200 2000) (sample_msg [])
           w r.1 r.2).
  - subst r. by destruct (ExecutionPayload _ _ _ _ _).
  - vm_compute. discriminate.
Defined.

Lemma accepted_payload_is_executed_witness :
  let w := world sample_store [] None in
  ∃ w', @ExecutionPayload Script _ mapStore stubEngineClient _ _ _ 1 sample_keeper
          (sample_sdk 200 2000) (sample_msg ["a"]) w = (w', Ret tt) ∧
        GetBlockState w' = (w', Ret (payload_state (sample_payload ["a"]))).
Proof.
  intros w.
  apply (@accepted_payload_is_executed Script _ mapStore mapStore_laws stubEngineClient exact_host
           geth geth_laws cosmos 0 sample_keeper (sample_sdk 200 2000) (sample_msg ["a"]) sample_state
           (sample_payload ["a"]) ([], BytesToHash "app")).
  - split; intros; do 2 eexists; (split; [reflexivity|]); simpl; auto.
  - apply mapStore_writable.
  - reflexivity.
  - apply sample_msg_len.
  - apply sample_state_read.
  - apply sample_payload_ok.
  - reflexivity.
Defined.

Lemma locally_refused_payload_never_returns_witness :
  let w := sample_world ["VALID"; "VALID"] in
  Proposal_ExecutionPayload sample_keeper (sample_sdk 200 2000) (sample_msg ["Babcdefg"]) w
    = (w, Ret tt) ∧
  ∀ fuel, (ExecutionPayload fuel sample_keeper (sample_sdk 200 2000) (sample_msg ["Babcdefg"]) w).2
    = OutOfFuel.
Proof.
  intros w. eapply (locally_refused_payload_never_returns _ _ _ sample_state (sample_payload ["Babcdefg"])).
  - reflexivity.
  - apply sample_msg_len.
  - reflexivity.
  - apply sample_state_read.
  - apply sample_payload_ok.
  - vm_compute. reflexivity.
Defined.

Lemma UpdateParams_needs_authority_witness :
  let w := sample_world [] in
  let r := UpdateParams sample_keeper (mkMsgUpdateParams "nexus1mallory" DefaultParams) w in
  r.1 = w ∧ (GetBlockState r.1).2 = (GetBlockState w).2.
Proof.
  intros w r.
  destruct (UpdateParams_needs_authority sample_keeper (mkMsgUpdateParams "nexus1mallory" DefaultParams)
              w r.1 r.2) as (_ & Hf & Hb).
  - subst r. by destruct (UpdateParams _ _ _).
  - split; [|exact Hb]. apply Hf. vm_compute. discriminate.
Defined.

End Witnesses.
