(* ===== verification/Abci.v ===== *)
(** * Building a payload: PrepareProposal of the evm keeper

    [x/evm/keeper/abci.go].  Two retry loops (ask the execution client to
    build on the current head, then fetch what it built) under one 10-second
    context, and the transaction that carries the result. *)

From S2P Require Import Prelude GoStd GoJson External ChainSpec Engine Concrete Async EvmTypes Keeper MsgServer.

Definition prepareTimeout : Z := 10 * Second.
Definition buildDelay : Z := 100 * Millisecond.
Definition unknownPayloadLogEvery : Z := 25.
Definition maxUnknownPayloadPoll : Z := 5 * Second.
Definition maxConsecutiveUnknownPayloadAttempts : Z := maxUnknownPayloadPoll / retryDelay.

(** What the handlers read of [abci.RequestPrepareProposal]. *)
Record RequestPrepareProposal := mkRequestPrepareProposal { rpp_Height : Z; rpp_Txs : list string }.

Section Abci.
Context {E S : Type} `{!ItemStore S, !EngineClient E, !Host E, GoEthereum, CosmosSDK}.
Local Abbreviation W := (World E S).

Definition isPayloadUnknown (err : error) : bool :=
  Contains (ToLower (Error err)) (ToLower UnknownPayload_Error).

(** The attributes of the block to build on [state]. *)
Definition buildAttributes (k : Keeper) (sdkCtx : SdkContext) (appHash : Hash) (blockHeight : Z)
    (state : BlockState) : PayloadAttributes :=
  mkPayloadAttributes (CalculateTimestamp k sdkCtx blockHeight (bs_Timestamp state))
    (bs_Hash state) (k_SuggestedFeeRecipient k) (Some []) (Some appHash).

Definition buildExecutionPayload (k : Keeper) (ctx : Ctx) (sdkCtx : SdkContext) (appHash : Hash)
    (blockHeight : Z) : M W ForkChoiceResponse :=
  let! state := GetBlockState in
  let fcState := headState (bs_Hash state) in
  let attrs := Some (buildAttributes k sdkCtx appHash blockHeight state) in
  engine_call (ReqForkchoiceUpdated fcState attrs) (ForkchoiceUpdatedV3 ctx fcState attrs).

(** The body of the first loop; it captures [payloadID]. *)
Definition buildAttempt (k : Keeper) (sdkCtx : SdkContext) (appHash : Hash) (height : Z)
    (ctx : Ctx) (payloadID : PayloadID) : M W (bool * PayloadID) :=
  let! r := try (buildExecutionPayload k ctx sdkCtx appHash height) in
  match r with
  | inr _ =>
      do! logger LWarn "PrepareProposal: forkchoiceUpdated failed, will retry" in
      ret (false, payloadID)
  | inl response =>
      let status := ps_Status (fr_PayloadStatus response) in
      if negb (bool_decide (status = VALID)) then
        fail (errText ("forkchoice not updated with status: " +:+ status))
      else
        match fr_PayloadID response with
        | None => fail (errText "payload ID is nil")
        | Some id => ret (true, id)
        end
  end.

(** getPayload in the version of the fork schedule. *)
Definition getPayload (k : Keeper) (timestamp : Z) (ctx : Ctx) (payloadID : PayloadID) :
    M W ExecutionPayloadEnvelope :=
  if IsOsakaActive (k_chainSpec k) timestamp then
    engine_call (ReqGetPayload 5 payloadID) (GetPayloadV5 ctx payloadID)
  else if IsPragueActive (k_chainSpec k) timestamp then
    engine_call (ReqGetPayload 4 payloadID) (GetPayloadV4 ctx payloadID)
  else
    engine_call (ReqGetPayload 3 payloadID) (GetPayloadV3 ctx payloadID).

(** The error of a poll that has lasted too long. *)
Definition stillUnknown (k : Keeper) (height timestamp : Z) (payloadID : PayloadID)
    (attempts : Z) (err : error) : error :=
  let minWall := i64_mul attempts retryDelay in
  errWrapf ("PrepareProposal: engine getPayload still unknown after ~"
    +:+ Duration_String (Duration_Round minWall Millisecond) +:+ " of polling ("
    +:+ fmt_d attempts +:+ " attempts, " +:+ Duration_String retryDelay +:+ " between attempts; height="
    +:+ fmt_d height +:+ " get_payload_rpc_version="
    +:+ fmt_d (GetPayloadEngineRPCVersion (k_chainSpec k) timestamp)
    +:+ " payload_id=" +:+ PayloadID_String payloadID +:+ "): ") err "".

(** The body of the second loop; it captures [payloadResponse] and
    [consecutiveUnknownPayload]. *)
Definition getPayloadAttempt (k : Keeper) (height timestamp : Z) (payloadID : PayloadID)
    (ctx : Ctx) (l : option ExecutionPayloadEnvelope * Z) :
    M W (bool * (option ExecutionPayloadEnvelope * Z)) :=
  let! r := try (getPayload k timestamp ctx payloadID) in
  match r with
  | inl response => ret (true, (Some response, 0))
  | inr err =>
      if isPayloadUnknown err then
        let n := i64_add (snd l) 1 in
        do! (if (n =? 1) || (Z.rem n unknownPayloadLogEvery =? 0) then
               logger LWarn "PrepareProposal: engine getPayload unknown payload, retrying"
             else ret tt) in
        if maxConsecutiveUnknownPayloadAttempts <=? n then
          fail (stillUnknown k height timestamp payloadID n err)
        else ret (false, (None, n))
      else
        do! logger LWarn "PrepareProposal: engine getPayload failed (non-unknown), retrying" in
        ret (false, (None, 0))
  end.

(** The message that carries a payload, as the proposer builds it. *)
Definition payloadMessage (payloadData : string) : MsgExecutionPayload :=
  mkMsgExecutionPayload moduleAuthority payloadData.

(** From the envelope to the transaction. *)
Definition payloadTx (response : ExecutionPayloadEnvelope) : outcome string :=
  let? payloadData := ExecutableData_Marshal (env_ExecutionPayload response) in
  let? built := TxBuild [MExecutionPayload (payloadMessage payloadData)] in
  let? tx := TxEncoder built in
  if MaxTxSize <? len tx then
    Fail (errText ("transaction too large: " +:+ fmt_d (len tx) +:+ " bytes exceeds maximum of "
                   +:+ fmt_d MaxTxSize +:+ " bytes"))
  else Ret tx.

(** The part of [PrepareProposal] that talks to the execution client. *)
Definition fetchPayload (fuel : nat) (k : Keeper) (ctx : SdkContext) (height : Z) (state : BlockState) :
    M W (option ExecutionPayloadEnvelope) :=
  let timestamp := CalculateTimestamp k ctx height (bs_Timestamp state) in
  let rpcVer := GetPayloadEngineRPCVersion (k_chainSpec k) timestamp in
  let! prev := swap_lastLoggedRPCVersion rpcVer in
  do! (if negb (prev =? rpcVer) then
         logger LInfo "PrepareProposal: engine getPayload RPC version changed"
       else ret tt) in
  let! payloadID := retry fuel (sc_ctx ctx)
                      (buildAttempt k ctx (BytesToHash (sc_AppHash ctx)) height) 0 in
  do! select_after buildDelay (sc_ctx ctx) in
  let! r := retry fuel (sc_ctx ctx) (getPayloadAttempt k height timestamp payloadID) (None, 0) in
  ret (fst r).

(** [Keeper.PrepareProposal]. *)
Definition PrepareProposal (fuel : nat) (k : Keeper) (sdkCtx : SdkContext) (req : RequestPrepareProposal) :
    M W (list string) :=
  let! now := gets w_now in
  let ctx := WithContext sdkCtx (WithTimeout (sc_ctx sdkCtx) prepareTimeout now) in
  if rpp_Height req =? 1 then ret []
  else
    let! height := lift (toUint64 (sc_Height ctx)) in
    let! state := GetBlockState in
    let! r := fetchPayload fuel k ctx height state in
    match r with
    | None => panic "runtime error: invalid memory address or nil pointer dereference"
    | Some response =>
        let! tx := lift (payloadTx response) in
        ret [tx]
    end.

End Abci.

(** ** Theorems *)

Section Claims.
Context {E S : Type} `{!ItemStore S, !EngineClient E, !Host E, GoEthereum, CosmosSDK}.
Local Abbreviation W := (World E S).

(** *** It leaves the store alone *)

Lemma buildAttempt_store k sdkc h n c l :
  preserves (same w_store) (buildAttempt k sdkc h n c l : M W _).
Proof. unfold buildAttempt, logger. preserving. Qed.
Lemma getPayloadAttempt_store k h t i c l :
  preserves (same w_store) (getPayloadAttempt k h t i c l : M W _).
Proof. unfold getPayloadAttempt, getPayload, logger. preserving. Qed.

(** Preparing a proposal never writes the store: the proposer's state is the
    same before and after, on every path. *)
Theorem PrepareProposal_keeps_store fuel k sdkc req :
  preserves (same w_store) (PrepareProposal fuel k sdkc req : M W _).
Proof.
  unfold PrepareProposal, fetchPayload, GetBlockState, logger. preserving.
  - apply retry_preserves; [apply _|intros; apply buildAttempt_store|apply sleep_store].
  - apply retry_preserves; [apply _|intros; apply getPayloadAttempt_store|apply sleep_store].
Qed.

(** *** It ends *)

(** Every call of the execution client returns. *)
Record calls_return : Prop := {
  cr_fc ctx fc a (e : E) : (ForkchoiceUpdatedV3 ctx fc a e).2 ≠ OutOfFuel;
  cr_g3 ctx i (e : E) : (GetPayloadV3 ctx i e).2 ≠ OutOfFuel;
  cr_g4 ctx i (e : E) : (GetPayloadV4 ctx i e).2 ≠ OutOfFuel;
  cr_g5 ctx i (e : E) : (GetPayloadV5 ctx i e).2 ≠ OutOfFuel }.

Lemma engine_call_returns {A} r (c : Call E A) (w : W) :
  (c (w_env w)).2 ≠ OutOfFuel → (engine_call r c w).2 ≠ OutOfFuel.
Proof. unfold engine_call. by destruct (c _) as [[??]?]. Qed.

(** Every read of the block state returns. *)
Definition reads_return : Prop := ∀ s : S, Item_Get BlockStateValue BlockStateKey s ≠ OutOfFuel.

Lemma buildAttempt_returns k sdkc h n c l (w : W) :
  calls_return → reads_return → (buildAttempt k sdkc h n c l w).2 ≠ OutOfFuel.
Proof.
  intros HC HS. unfold buildAttempt, buildExecutionPayload, GetBlockState, logger. unfold_monad.
  unfold read_store. pose proof (HS (w_store w)).
  destruct (Item_Get _ _ _) as [st|e|s|]; [|by simpl..].
  pose proof (engine_call_returns (ReqForkchoiceUpdated (headState (bs_Hash st))
    (Some (buildAttributes k sdkc h n st))) _ w
    (cr_fc HC c (headState (bs_Hash st)) (Some (buildAttributes k sdkc h n st)) (w_env w))) as Hr.
  destruct (engine_call _ _ w) as [w1 [r|e|s|]]; simpl in *; try done. repeat case_match; done.
Qed.

Lemma getPayload_returns k t c i (w : W) : calls_return → (getPayload k t c i w).2 ≠ OutOfFuel.
Proof. intros []. unfold getPayload. repeat case_match; by apply engine_call_returns. Qed.

Lemma getPayloadAttempt_returns k h t i c l (w : W) :
  calls_return → (getPayloadAttempt k h t i c l w).2 ≠ OutOfFuel.
Proof.
  intros HC. unfold getPayloadAttempt, try, bindM.
  pose proof (getPayload_returns k t c i w HC).
  destruct (getPayload k t c i w) as [w1 [r|e|s|]]; simpl in *; try done.
  unfold logger, emit, modify, ret, fail. repeat case_match; simplify_eq/=; done.
Qed.

Lemma buildAttempt_clock k sdkc h n c l :
  preserves (grows w_now) (buildAttempt k sdkc h n c l : M W _).
Proof. unfold buildAttempt, buildExecutionPayload, GetBlockState, logger. preserving. Qed.
Lemma getPayloadAttempt_clock k h t i c l :
  preserves (grows w_now) (getPayloadAttempt k h t i c l : M W _).
Proof. unfold getPayloadAttempt, getPayload, logger. preserving. Qed.

(** The attempts that fit in [prepareTimeout]: one per [retryDelay], the first
    and the one that finds the context done. *)
Definition prepare_fuel : nat := 1001.

Lemma fetchPayload_returns fuel k ctx height st (w : W) t e :
  calls_return → reads_return → ctx_done (sc_ctx ctx) = Some (t, e) → (0 < fuel)%nat →
  t - w_now w ≤ (Z.of_nat fuel - 1) * retryDelay →
  (fetchPayload fuel k ctx height st w).2 ≠ OutOfFuel.
Proof.
  intros HC HS Hctx Hf Hb. unfold fetchPayload, swap_lastLoggedRPCVersion.
  set (ts := CalculateTimestamp _ _ _ _). set (ver := GetPayloadEngineRPCVersion _ _).
  cbv [bindM]. cbn [w_lastLoggedRPCVersion].
  set (m := if negb _ then _ else _). set (w0 := mkWorld _ _ _ _ _).
  assert (∃ w1, m w0 = (w1, Ret tt) ∧ w_now w1 = w_now w) as (w1 & -> & Hw1).
  { subst m. case_match; eexists; (split; [reflexivity|done]). }
  pose proof (retry_ends fuel (sc_ctx ctx) (buildAttempt k ctx (BytesToHash (sc_AppHash ctx)) height)
    0 w1 t e Hctx (buildAttempt_clock k ctx _ height)
    (fun c l w => buildAttempt_returns k ctx _ height c l w HC HS) Hf ltac:(lia)) as H1'.
  destruct (retry _ _ _ _ w1) as [w2 [i|e'|s|]] eqn:Hr1; simpl in H1'; try done.
  apply (retry_preserves (grows w_now)) in Hr1;
    [|apply buildAttempt_clock|apply sleep_clock; done]. unfold grows in Hr1.
  pose proof (select_after_returns buildDelay (sc_ctx ctx) w2) as H2'.
  destruct (select_after _ _ w2) as [w3 [[]|e'|s|]] eqn:Hr2; simpl in H2'; try done.
  apply select_after_clock in Hr2; [|done]. unfold grows in Hr2.
  pose proof (retry_ends fuel (sc_ctx ctx) (getPayloadAttempt k height ts i)
    (None, 0) w3 t e Hctx (getPayloadAttempt_clock k height ts i)
    (fun c l w => getPayloadAttempt_returns k height ts i c l w HC) Hf ltac:(lia)) as H3'.
  by destruct (retry _ _ _ _ w3) as [w4 [r|e'|s|]].
Qed.

Lemma payloadTx_returns r :
  (∀ d, ExecutableData_Marshal d ≠ OutOfFuel) → (∀ l, TxBuild l ≠ OutOfFuel) →
  (∀ t, TxEncoder t ≠ OutOfFuel) → payloadTx r ≠ OutOfFuel.
Proof.
  intros H1' H2' H3'. unfold payloadTx.
  pose proof (H1' (env_ExecutionPayload r)). destruct (ExecutableData_Marshal _) as [d| | |]; try done. simpl.
  pose proof (H2' [MExecutionPayload (payloadMessage d)]). destruct (TxBuild _) as [b| | |]; try done. simpl.
  pose proof (H3' b). destruct (TxEncoder b); try done. simpl. by case_match.
Qed.

(** C12: preparing a proposal always ends.  Whatever the caller's context (one
    that is never done included) and however the execution client answers, the
    10-second context ends both loops: [prepare_fuel] attempts of each are
    enough. *)
Theorem PrepareProposal_terminates fuel k sdkc req (w : W) :
  calls_return → reads_return →
  (∀ d, ExecutableData_Marshal d ≠ OutOfFuel) → (∀ l, TxBuild l ≠ OutOfFuel) →
  (∀ t, TxEncoder t ≠ OutOfFuel) → (prepare_fuel ≤ fuel)%nat →
  (PrepareProposal fuel k sdkc req w).2 ≠ OutOfFuel.
Proof.
  intros HC HS HM HB HE Hf. unfold PrepareProposal, toUint64, GetBlockState, read_store.
  cbv [bindM gets lift ret panic]. destruct (rpp_Height req =? 1); [done|].
  destruct (_ <? 0); [done|]. pose proof (HS (w_store w)).
  destruct (Item_Get _ _ _) as [st|e|s|]; try done.
  destruct (WithTimeout_bound (sc_ctx sdkc) prepareTimeout (w_now w)) as (t & e & Hctx & Ht).
  set (ctx := WithContext _ _).
  pose proof (fetchPayload_returns fuel k ctx (u64 (sc_Height ctx)) st w t e HC HS Hctx) as Hfp.
  destruct (fetchPayload _ _ _ _ _ w) as [w1 [[r|]|e'|s|]]; simpl in *; try done.
  - pose proof (payloadTx_returns r HM HB HE). by destruct (payloadTx r).
  - exfalso. apply Hfp; [unfold prepare_fuel in *; lia| |done].
    unfold prepare_fuel, prepareTimeout, retryDelay, Second, Millisecond in *. lia.
Qed.

(** *** What it asks for *)

(** In a world whose block state is [st], the requests made on behalf of a
    proposal at [height] are: build on [st] with the attributes of that height,
    and fetch with the version of the fork schedule at the same timestamp. *)
Definition prepare_request_ok (k : Keeper) (ctx : SdkContext) (st : BlockState) (ev : Event) : Prop :=
  match ev with
  | EvEngine (ReqForkchoiceUpdated fc attrs) =>
      fc = mkForkchoiceStateV1 (bs_Hash st) (bs_Hash st) (bs_Hash st) ∧
      ∃ a, attrs = Some a ∧
        pa_Timestamp a = CalculateTimestamp k ctx (u64 (sc_Height ctx)) (bs_Timestamp st) ∧
        pa_Random a = bs_Hash st ∧ pa_SuggestedFeeRecipient a = k_SuggestedFeeRecipient k ∧
        pa_Withdrawals a = Some [] ∧ pa_BeaconRoot a = Some (BytesToHash (sc_AppHash ctx))
  | EvEngine (ReqGetPayload v _) =>
      v = GetPayloadEngineRPCVersion (k_chainSpec k)
            (CalculateTimestamp k ctx (u64 (sc_Height ctx)) (bs_Timestamp st))
  | EvEngine (ReqNewPayload _ _ _ _) => False
  | _ => True
  end.

(** Reads of an unchanged store give the same state, so the invariant of the
    loops carries the store along. *)
Definition prepares (P : Event → Prop) (s : S) : relation W := fun w w' =>
  w_store w = s → w_store w' = s ∧ emits P w w'.

#[local] Instance prepares_preorder P s : PreOrder (prepares P s).
Proof.
  split.
  - intros w Hw. split; [done|reflexivity].
  - intros w1 w2 w3 H12 H23 Hs. destruct (H12 Hs) as [Hs2 He]. destruct (H23 Hs2) as [Hs3 He'].
    split; [done|]. by etrans.
Qed.

Lemma prepares_intro {A} P s (m : M W A) :
  preserves (same w_store) m → preserves (emits P) m → preserves (prepares P s) m.
Proof.
  intros Hs He w w' o Hr Hw. apply Hs in Hr as Hs'. apply He in Hr. unfold same in Hs'.
  split; [congruence|done].
Qed.

Lemma getPayload_emits k t c i (P : Event → Prop) :
  P (EvEngine (ReqGetPayload (GetPayloadEngineRPCVersion (k_chainSpec k) t) i)) →
  preserves (emits P) (getPayload k t c i : M W _).
Proof.
  unfold getPayload, GetPayloadEngineRPCVersion. intros HP.
  repeat case_match; by apply engine_call_emits.
Qed.

Lemma getPayloadAttempt_emits k ctx st h i c l :
  preserves (emits (prepare_request_ok k ctx st))
    (getPayloadAttempt k h (CalculateTimestamp k ctx (u64 (sc_Height ctx)) (bs_Timestamp st)) i c l : M W _).
Proof.
  unfold getPayloadAttempt, logger. apply preserves_bind; [apply _| |].
  - apply preserves_try. by apply getPayload_emits.
  - intros r. preserving; by apply emit_emits.
Qed.

Lemma buildAttempt_prepares k ctx st s c l :
  Item_Get BlockStateValue BlockStateKey s = Ret st →
  preserves (prepares (prepare_request_ok k ctx st) s)
    (buildAttempt k ctx (BytesToHash (sc_AppHash ctx)) (u64 (sc_Height ctx)) c l : M W _).
Proof.
  intros Hst w w' o Hr Hw. split; [apply buildAttempt_store in Hr; unfold same in Hr; congruence|].
  unfold buildAttempt, buildExecutionPayload, GetBlockState, read_store, logger in Hr.
  cbv [bindM try] in Hr. rewrite Hw, Hst in Hr.
  set (at_ := Some _) in Hr. set (fc := headState _) in Hr.
  assert (Hreq : prepare_request_ok k ctx st (EvEngine (ReqForkchoiceUpdated fc at_))).
  { split; [done|]. eexists. split; [done|]. done. }
  pose proof (engine_call_emits (prepare_request_ok k ctx st) (ReqForkchoiceUpdated fc at_)
    (ForkchoiceUpdatedV3 c fc at_) Hreq w) as He.
  destruct (engine_call _ _ w) as [w1 r]. specialize (He _ _ eq_refl).
  destruct r as [r|e|x|]; cbn in Hr; simplify_eq/=; try done.
  - unfold fail, ret in Hr. repeat case_match; by simplify_eq/=.
  - injection Hr as <- <-. etrans; [exact He|].
    exact (emit_emits (prepare_request_ok k ctx st)
      (EvLog LWarn "PrepareProposal: forkchoiceUpdated failed, will retry") I w1 _ _ eq_refl).
Qed.

Lemma fetchPayload_prepares fuel k ctx st s :
  Item_Get BlockStateValue BlockStateKey s = Ret st →
  preserves (prepares (prepare_request_ok k ctx st) s)
    (fetchPayload fuel k ctx (u64 (sc_Height ctx)) st : M W _).
Proof.
  intros Hst. unfold fetchPayload, logger. preserving.
  all: first [apply retry_preserves; [apply _|intros c l|] | idtac].
  all: first [by apply buildAttempt_prepares | apply prepares_intro].
  all: first [by apply emit_emits | apply getPayloadAttempt_store | apply getPayloadAttempt_emits
             | by eauto with nexus | by apply select_after_store | by apply select_after_emits ].
Qed.

(** C11: every request PrepareProposal makes, on every path, is the right one:
    build on the committed head (head = safe = finalized), with the timestamp,
    randomness, fee recipient, empty withdrawals and beacon root of this
    height; fetch with the RPC version of the same timestamp; never submit. *)
Theorem PrepareProposal_requests_ok fuel k sdkc req (w w' : W) o st :
  PrepareProposal fuel k sdkc req w = (w', o) → GetBlockState w = (w, Ret st) →
  emits (prepare_request_ok k
    (WithContext sdkc (WithTimeout (sc_ctx sdkc) prepareTimeout (w_now w))) st) w w'.
Proof.
  unfold PrepareProposal, toUint64. cbv [bindM gets lift]. set (ctx := WithContext _ _). intros Hr Hg.
  destruct (rpp_Height req =? 1); [unfold ret in Hr; by simplify_eq|].
  destruct (_ <? 0); [by simplify_eq|]. rewrite Hg in Hr.
  assert (Hs : Item_Get BlockStateValue BlockStateKey (w_store w) = Ret st).
  { unfold GetBlockState, read_store in Hg. congruence. }
  pose proof (fetchPayload_prepares fuel k ctx st (w_store w) Hs) as Hp.
  destruct (fetchPayload _ _ _ _ _ w) as [w1 r] eqn:Hf.
  destruct (Hp _ _ _ Hf eq_refl) as [_ He].
  unfold panic, ret in Hr. destruct r as [[r|]|e|x|]; [destruct (payloadTx r)|..]; by simplify_eq/=.
Qed.

(** *** What it returns *)

(** The execution client returned [r] to some getPayload. *)
Definition client_built (r : ExecutionPayloadEnvelope) : Prop :=
  ∃ ctx i (e : E) ed,
    GetPayloadV3 ctx i e = (ed, Ret r) ∨ GetPayloadV4 ctx i e = (ed, Ret r) ∨
    GetPayloadV5 ctx i e = (ed, Ret r).

Lemma engine_call_ret_inv {A} r (c : Call E A) (w w' : W) a :
  engine_call r c w = (w', Ret a) → ∃ ed, c (w_env w) = (ed, Ret a).
Proof. unfold engine_call. destruct (c _) as [[??]?]. intros [= _ ->]. eauto. Qed.

Lemma getPayload_built k t c i (w w' : W) r : getPayload k t c i w = (w', Ret r) → client_built r.
Proof.
  unfold getPayload, client_built. intros Hr.
  repeat case_match; apply engine_call_ret_inv in Hr as [ed ?]; naive_solver.
Qed.

Lemma fetchPayload_ret fuel k ctx height st (w w' : W) r :
  fetchPayload fuel k ctx height st w = (w', Ret r) → ∃ env, r = Some env ∧ client_built env.
Proof.
  unfold fetchPayload. intros Hr.
  do 4 (apply bindM_ret in Hr as (? & ? & _ & Hr)).
  apply bindM_ret in Hr as (w5 & l & Hl & Hr). unfold ret in Hr. injection Hr as _ <-.
  apply (retry_ret_inv (fun _ _ => True)) in Hl as (c & l1 & w1 & _ & Hl); [|done..].
  unfold getPayloadAttempt, try, bindM in Hl.
  destruct (getPayload _ _ _ _ w1) as [w2 [env|e|s|]] eqn:Hg; simplify_eq/=.
  - unfold ret in Hl. simplify_eq/=. exists env. split; [done|]. by eapply getPayload_built.
  - unfold logger, emit, modify, ret, fail in Hl. repeat case_match; by simplify_eq/=.
Qed.

Lemma payloadTx_ret r bz :
  payloadTx r = Ret bz →
  ∃ data tx, ExecutableData_Marshal (env_ExecutionPayload r) = Ret data ∧
    TxBuild [MExecutionPayload (payloadMessage data)] = Ret tx ∧ TxEncoder tx = Ret bz ∧
    len bz ≤ MaxTxSize.
Proof.
  unfold payloadTx. intros Hr. apply bindO_ret in Hr as (data & Hd & Hr).
  apply bindO_ret in Hr as (tx & Ht & Hr). apply bindO_ret in Hr as (z & Hz & Hr).
  destruct (_ <? _) eqn:Hl; simplify_eq. bools. eauto 10.
Qed.

Lemma PrepareProposal_ret fuel k sdkc req (w w' : W) txs :
  PrepareProposal fuel k sdkc req w = (w', Ret txs) →
  (rpp_Height req = 1 ∧ txs = []) ∨
  (rpp_Height req ≠ 1 ∧ ∃ env bz, client_built env ∧ payloadTx env = Ret bz ∧ txs = [bz]).
Proof.
  unfold PrepareProposal. intros Hr. apply bindM_ret in Hr as (w1 & now & _ & Hr).
  destruct (rpp_Height req =? 1) eqn:Hh; bools; [unfold ret in Hr; naive_solver|].
  right. split; [done|]. do 2 (apply bindM_ret in Hr as (? & ? & _ & Hr)).
  apply bindM_ret in Hr as (w4 & r & Hf & Hr). apply fetchPayload_ret in Hf as (env & -> & Hb).
  apply bindM_ret in Hr as (w5 & bz & Ht & Hr). unfold lift, ret in *. naive_solver.
Qed.

(** C13: a proposal is either empty (height 1) or one transaction of at most
    [MaxTxSize] bytes, whose only message has the module's authority and the
    JSON of a block the execution client returned to getPayload. *)
Theorem PrepareProposal_returns_one_payload fuel k sdkc req (w w' : W) txs :
  PrepareProposal fuel k sdkc req w = (w', Ret txs) →
  (rpp_Height req = 1 ∧ txs = []) ∨
  (rpp_Height req ≠ 1 ∧ ∃ env data tx bz,
     client_built env ∧ ExecutableData_Marshal (env_ExecutionPayload env) = Ret data ∧
     TxBuild [MExecutionPayload (payloadMessage data)] = Ret tx ∧ TxEncoder tx = Ret bz ∧
     txs = [bz] ∧ len bz ≤ MaxTxSize).
Proof.
  intros Hr. apply PrepareProposal_ret in Hr as [?|(Hh & env & bz & Hb & Ht & ->)]; [by left|right].
  split; [done|]. apply payloadTx_ret in Ht as (data & tx & ? & ? & ? & ?). eauto 10.
Qed.

(** *** What an honest execution client builds *)

(** The answer to getPayload for a build of [a] on the block [h]. *)
Definition built_as (number : Hash → Z) (env : ExecutionPayloadEnvelope) (h : Hash) (a : PayloadAttributes) :
    Prop :=
  ∃ d, env_ExecutionPayload env = Some d ∧ ed_Withdrawals d = pa_Withdrawals a ∧
    is_Some (ed_BlobGasUsed d) ∧ is_Some (ed_ExcessBlobGas d) ∧ ed_ExecutionWitness d = None ∧
    ed_ParentHash d = h ∧ ed_Number d = u64_add (number h) 1 ∧ ed_Timestamp d = pa_Timestamp a.

(** The contract of the Engine API for a proposer.  [building e i h a]: in the
    client's state [e] the identifier [i] stands for a build of [a] on [h].  A
    forkchoice update with attributes hands out such an identifier, it keeps
    its meaning, and getPayload returns nothing else for it. *)
Record builder_contract (number : Hash → Z)
    (building : E → PayloadID → Hash → PayloadAttributes → Prop) : Prop := {
  bc_start ctx fc a e e' d r i :
    ForkchoiceUpdatedV3 ctx fc (Some a) e = (e', d, Ret r) → fr_PayloadID r = Some i →
    building e' i (fc_HeadBlockHash fc) a;
  bc_keep_v3 ctx j e e' d o i h a : GetPayloadV3 ctx j e = (e', d, o) → building e i h a → building e' i h a;
  bc_keep_v4 ctx j e e' d o i h a : GetPayloadV4 ctx j e = (e', d, o) → building e i h a → building e' i h a;
  bc_keep_v5 ctx j e e' d o i h a : GetPayloadV5 ctx j e = (e', d, o) → building e i h a → building e' i h a;
  bc_keep_sleep t e i h a : building e i h a → building (oversleep t e).1 i h a;
  bc_keep_pick e i h a : building e i h a → building (pick e).1 i h a;
  bc_get_v3 ctx i e ed r h a : building e i h a → GetPayloadV3 ctx i e = (ed, Ret r) → built_as number r h a;
  bc_get_v4 ctx i e ed r h a : building e i h a → GetPayloadV4 ctx i e = (ed, Ret r) → built_as number r h a;
  bc_get_v5 ctx i e ed r h a : building e i h a → GetPayloadV5 ctx i e = (ed, Ret r) → built_as number r h a }.

Section Builder.
Context (number : Hash → Z) (building : E → PayloadID → Hash → PayloadAttributes → Prop).
Hypothesis Hbc : builder_contract number building.

Lemma select_after_building d c i h a (w w' : W) o :
  select_after d c w = (w', o) → building (w_env w) i h a → building (w_env w') i h a.
Proof.
  unfold select_after. intros Hr Hb.
  set (t := _ - w_now w) in Hr. pose proof (bc_keep_sleep _ _ Hbc t _ _ _ _ Hb) as Hs.
  destruct (oversleep t (w_env w)) as [e1 x]. cbn [fst] in Hs. pose proof (bc_keep_pick _ _ Hbc _ _ _ _ Hs) as Hp.
  destruct (pick e1) as [e2 f]. repeat case_match; by simplify_eq/=.
Qed.

Lemma sleep_building d i h a (w w' : W) o :
  sleep d w = (w', o) → building (w_env w) i h a → building (w_env w') i h a.
Proof.
  unfold sleep. intros Hr Hb. pose proof (bc_keep_sleep _ _ Hbc d _ _ _ _ Hb) as Hs.
  destruct (oversleep d (w_env w)) as [e1 x]. by simplify_eq/=.
Qed.

Lemma getPayload_building k t c j i h a (w w' : W) o :
  getPayload k t c j w = (w', o) → building (w_env w) i h a → building (w_env w') i h a.
Proof.
  unfold getPayload, engine_call. intros Hr Hb. destruct (IsOsakaActive _ _); [|destruct (IsPragueActive _ _)].
  all: match type of Hr with context [let (_, _) := ?x in _] => destruct x as [[e' d] o'] eqn:Hc end.
  all: injection Hr as <- _; cbn [w_env].
  - exact (bc_keep_v5 _ _ Hbc _ _ _ _ _ _ _ _ _ Hc Hb).
  - exact (bc_keep_v4 _ _ Hbc _ _ _ _ _ _ _ _ _ Hc Hb).
  - exact (bc_keep_v3 _ _ Hbc _ _ _ _ _ _ _ _ _ Hc Hb).
Qed.

Lemma getPayload_built_as k t c i h a (w w' : W) r :
  getPayload k t c i w = (w', Ret r) → building (w_env w) i h a → built_as number r h a.
Proof.
  unfold getPayload. intros Hr Hb. destruct (IsOsakaActive _ _); [|destruct (IsPragueActive _ _)].
  all: apply engine_call_ret_inv in Hr as [ed Hr].
  - exact (bc_get_v5 _ _ Hbc _ _ _ _ _ _ _ Hb Hr).
  - exact (bc_get_v4 _ _ Hbc _ _ _ _ _ _ _ Hb Hr).
  - exact (bc_get_v3 _ _ Hbc _ _ _ _ _ _ _ Hb Hr).
Qed.

Lemma getPayloadAttempt_building k hg t j c l i h a (w w' : W) o :
  getPayloadAttempt k hg t j c l w = (w', o) → building (w_env w) i h a → building (w_env w') i h a.
Proof.
  unfold getPayloadAttempt, try, bindM. intros Hr Hb.
  destruct (getPayload _ _ _ _ w) as [w1 g] eqn:Hg. apply (getPayload_building _ _ _ _ i h a) in Hg; [|done].
  unfold logger, emit, modify, ret, fail in Hr. repeat case_match; by simplify_eq/=.
Qed.

(** A successful first loop ends with an identifier of a build on [st]. *)
Lemma buildAttempt_building k sdk root height st c l i (w w' : W) :
  GetBlockState w = (w, Ret st) → buildAttempt k sdk root height c l w = (w', Ret (true, i)) →
  building (w_env w') i (bs_Hash st) (buildAttributes k sdk root height st).
Proof.
  unfold buildAttempt, buildExecutionPayload, try, bindM. intros -> Hr.
  destruct (engine_call _ _ w) as [w1 g] eqn:Hg. unfold engine_call in Hg.
  destruct (ForkchoiceUpdatedV3 _ _ _ _) as [[e' d] o'] eqn:Hf. simplify_eq/=.
  destruct g as [r|e|x|]; cbn in Hr; [|by unfold logger, emit, modify, ret in Hr; simplify_eq/=|done..].
  unfold fail, ret in Hr. destruct (negb _); [done|]. destruct (fr_PayloadID r) eqn:Hi; simplify_eq/=.
  exact (bc_start _ _ Hbc _ _ _ _ _ _ _ _ Hf Hi).
Qed.

Lemma fetchPayload_built_as fuel k sdk height st (w w' : W) r :
  GetBlockState w = (w, Ret st) → fetchPayload fuel k sdk height st w = (w', Ret r) →
  ∃ env, r = Some env ∧
    built_as number env (bs_Hash st) (buildAttributes k sdk (BytesToHash (sc_AppHash sdk)) height st).
Proof.
  unfold fetchPayload. intros Hst Hr.
  apply bindM_ret in Hr as (w1 & prev & H1' & Hr). apply swap_store in H1'.
  apply bindM_ret in Hr as (w2 & [] & H2' & Hr).
  assert (Hs2 : w_store w2 = w_store w).
  { unfold same in H1'. rewrite <-H1'. destruct (negb _); [by apply emit_store in H2'|].
    unfold ret in H2'. by injection H2' as <-. }
  apply bindM_ret in Hr as (w3 & i & H3' & Hr).
  apply (retry_ret_inv (fun _ w0 => w_store w0 = w_store w)) in H3' as (c3 & l3 & w3' & Hs3 & H3'); [|..|done].
  2: { intros c l u u1 l1 u2 Hu Ha Hs. apply buildAttempt_store in Ha. apply sleep_store in Hs.
       unfold same in *. congruence. }
  apply (buildAttempt_building _ _ _ _ st) in H3'.
  2: { unfold GetBlockState, read_store in *. rewrite Hs3. congruence. }
  apply bindM_ret in Hr as (w4 & [] & H4' & Hr). eapply select_after_building in H4'; [|exact H3'].
  apply bindM_ret in Hr as (w5 & l & Hl & Hr). unfold ret in Hr. injection Hr as _ <-.
  set (a := buildAttributes _ _ _ _ _) in *.
  apply (retry_ret_inv (fun _ w0 => building (w_env w0) i (bs_Hash st) a)) in Hl
    as (c & l1 & u & Hu & Hl); [|..|exact H4'].
  2: { intros c l0 u u1 l1 u2 Hu Ha Hs. eapply sleep_building; [exact Hs|].
       by eapply getPayloadAttempt_building. }
  unfold getPayloadAttempt, try, bindM in Hl.
  destruct (getPayload _ _ _ _ u) as [u2 [env|e|x|]] eqn:Hg; simplify_eq/=.
  - unfold ret in Hl. simplify_eq/=. exists env. split; [done|]. by eapply getPayload_built_as.
  - unfold logger, emit, modify, ret, fail in Hl. repeat case_match; by simplify_eq/=.
Qed.

Lemma PrepareProposal_built_as fuel k sdkc req st (w w' : W) txs :
  PrepareProposal fuel k sdkc req w = (w', Ret txs) → rpp_Height req ≠ 1 → GetBlockState w = (w, Ret st) →
  ∃ env bz a, payloadTx env = Ret bz ∧ txs = [bz] ∧ built_as number env (bs_Hash st) a ∧
    pa_Withdrawals a = Some [] ∧
    pa_Timestamp a = CalculateTimestamp k sdkc (u64 (sc_Height sdkc)) (bs_Timestamp st).
Proof.
  unfold PrepareProposal. intros Hr Hh Hst. apply bindM_ret in Hr as (w1 & now & Hn & Hr).
  unfold gets in Hn. injection Hn as <- <-. rewrite (proj2 (Z.eqb_neq _ _) Hh) in Hr.
  apply bindM_ret in Hr as (w2 & h & Hht & Hr). unfold lift, toUint64 in Hht.
  destruct (_ <? 0); [done|]. injection Hht as <- <-.
  unfold bindM at 1 in Hr. rewrite Hst in Hr.
  apply bindM_ret in Hr as (w4 & r & Hf & Hr).
  apply (fetchPayload_built_as _ _ _ _ st) in Hf as (env & -> & Hb); [|done].
  apply bindM_ret in Hr as (w5 & bz & Ht & Hr). unfold lift, ret in *. simplify_eq/=.
  eexists env, bz, _. split_and!; [done|done|exact Hb|done|]. cbn. by destruct sdkc.
Qed.

End Builder.

(** *** Polling for an unknown payload *)

(** The client does not know any payload. *)
Record knows_nothing : Prop := {
  kn_3 ctx i (e : E) : ∃ ed err, GetPayloadV3 ctx i e = (ed, Fail err) ∧ isPayloadUnknown err = true;
  kn_4 ctx i (e : E) : ∃ ed err, GetPayloadV4 ctx i e = (ed, Fail err) ∧ isPayloadUnknown err = true;
  kn_5 ctx i (e : E) : ∃ ed err, GetPayloadV5 ctx i e = (ed, Fail err) ∧ isPayloadUnknown err = true }.

Definition is_getPayload (ev : Event) : bool :=
  match ev with EvEngine (ReqGetPayload _ _) => true | _ => false end.

(** How many getPayload requests a trace has. *)
Definition getPayloads (l : list Event) : nat := length (List.filter is_getPayload l).

Lemma getPayloads_app l l' : getPayloads (l ++ l') = (getPayloads l + getPayloads l')%nat.
Proof. unfold getPayloads. by rewrite List.filter_app, length_app. Qed.

Lemma engine_call_fail {A} r (c : Call E A) ed err (w : W) :
  c (w_env w) = (ed, Fail err) →
  ∃ w', engine_call r c w = (w', Fail err) ∧ w_trace w' = (w_trace w ++ [EvEngine r])%list.
Proof. unfold engine_call. intros ->. destruct ed. eauto. Qed.

Lemma unknown_getPayload k t c i (w : W) :
  knows_nothing →
  ∃ w1 err, getPayload k t c i w = (w1, Fail err) ∧ isPayloadUnknown err = true ∧
    getPayloads (w_trace w1) = Datatypes.S (getPayloads (w_trace w)).
Proof.
  intros [k3 k4 k5]. unfold getPayload.
  assert (Hgo : ∀ v (C : Call E ExecutionPayloadEnvelope),
    (∃ ed err, C (w_env w) = (ed, Fail err) ∧ isPayloadUnknown err = true) →
    ∃ w1 err, engine_call (ReqGetPayload v i) C w = (w1, Fail err) ∧ isPayloadUnknown err = true ∧
      getPayloads (w_trace w1) = Datatypes.S (getPayloads (w_trace w))).
  { intros v C (ed & err & Hc & Hu).
    destruct (engine_call_fail (ReqGetPayload v i) C ed err w Hc) as (w1 & Hw & Ht).
    exists w1, err. split_and!; [done..|]. rewrite Ht, getPayloads_app. cbn. lia. }
  repeat case_match; apply Hgo; auto.
Qed.

Lemma unknown_attempt k h t i c x n (w : W) :
  knows_nothing → 0 ≤ n < maxConsecutiveUnknownPayloadAttempts →
  ∃ w1, getPayloads (w_trace w1) = Datatypes.S (getPayloads (w_trace w)) ∧
    (n + 1 ≠ maxConsecutiveUnknownPayloadAttempts ∧
       getPayloadAttempt k h t i c (x, n) w = (w1, Ret (false, (None, n + 1))) ∨
     n + 1 = maxConsecutiveUnknownPayloadAttempts ∧
       ∃ e, getPayloadAttempt k h t i c (x, n) w = (w1, Fail e)).
Proof.
  intros HK Hn. unfold getPayloadAttempt, try, bindM.
  destruct (unknown_getPayload k t c i w HK) as (w1 & err & -> & Hu & Ht). rewrite Hu.
  change maxConsecutiveUnknownPayloadAttempts with 500 in *. cbn [fst snd].
  replace (i64_add n 1) with (n + 1) by (symmetry; apply i64_small; unfold is_i64; lia).
  assert (Hlog : ∀ b : bool, ∃ w2, (if b then logger LWarn
      "PrepareProposal: engine getPayload unknown payload, retrying" else ret tt) w1 = (w2, Ret tt) ∧
      getPayloads (w_trace w2) = getPayloads (w_trace w1)).
  { intros []; eexists; (split; [reflexivity|]); [|done].
    cbn [w_trace]. rewrite getPayloads_app. change (getPayloads [EvLog _ _]) with 0%nat. lia. }
  destruct (Hlog ((n + 1 =? 1) || (Z.rem (n + 1) unknownPayloadLogEvery =? 0))) as (w2 & -> & Hw2).
  exists w2. split; [congruence|].
  destruct (Z.leb_spec 500 (n + 1)); [right|left]; (split; [lia|]); [eexists|]; reflexivity.
Qed.


End Claims.

(** ** Witnesses *)

Section Witnesses.
#[local] Existing Instances geth geth_laws cosmos mapStore mapStore_laws scripted exact_host.

Definition built : ExecutableData :=
  mkExecutableData 17 200 2000 18 ["tx"] (Some []) (Some 0) (Some 0) None "".

Definition prepare_world : ConcreteWorld := world sample_store [""; "VALID"] (Some built).

Definition prepare_run : ConcreteWorld * outcome (list string) :=
  PrepareProposal 3 sample_keeper (sample_sdk 200 2000) (mkRequestPrepareProposal 200 []) prepare_world.

Lemma scripted_calls_return : calls_return (E := Script).
Proof.
  split; intros; cbn; unfold answer, answer_payload; repeat case_match; done.
Qed.

Lemma PrepareProposal_terminates_witness :
  (PrepareProposal prepare_fuel sample_keeper (sample_sdk 200 2000) (mkRequestPrepareProposal 200 [])
     (world sample_store [] None)).2 ≠ OutOfFuel.
Proof.
  apply PrepareProposal_terminates.
  - apply scripted_calls_return.
  - intros s. cbn. destruct (s !! BlockStateKey) as [bz|]; [apply BlockState_Unmarshal_returns|discriminate].
  - intros [d|]; cbn; [case_bool_decide|]; discriminate.
  - discriminate.
  - intros t. cbn. unfold tx_encode. repeat case_match; discriminate.
  - reflexivity.
Defined.

Lemma PrepareProposal_requests_ok_witness :
  emits (prepare_request_ok sample_keeper
    (WithContext (sample_sdk 200 2000) (WithTimeout Background prepareTimeout 0)) sample_state)
    prepare_world prepare_run.1 ∧ length (w_trace prepare_run.1) = 5%nat.
Proof.
  split; [|vm_compute; reflexivity].
  apply (PrepareProposal_requests_ok 3 sample_keeper (sample_sdk 200 2000)
           (mkRequestPrepareProposal 200 []) prepare_world prepare_run.1 prepare_run.2 sample_state).
  - unfold prepare_run. by destruct (PrepareProposal _ _ _ _ _).
  - vm_compute. reflexivity.
Defined.

Lemma PrepareProposal_returns_one_payload_witness :
  ∃ txs, prepare_run = (prepare_run.1, Ret txs) ∧ ∃ bz, txs = [bz] ∧ len bz ≤ MaxTxSize.
Proof.
  destruct (is_ret_run prepare_run) as [txs Hr]; [vm_compute; reflexivity|].
  exists txs. split; [exact Hr|].
  destruct (PrepareProposal_returns_one_payload 3 sample_keeper (sample_sdk 200 2000)
    (mkRequestPrepareProposal 200 []) prepare_world prepare_run.1 txs Hr)
    as [[Hh _]|(_ & env & data & tx & bz & _ & _ & _ & _ & Htx & Hl)]; [discriminate Hh|].
  exists bz. split; assumption.
Defined.


End Witnesses.
