(* ===== verification/Proposal.v ===== *)
(** * Block proposals

    [app/proposal.go]: which transactions a block may contain, how a proposer
    assembles a block around the payload of the execution client, and what a
    validator accepts. *)

From S2P Require Import Prelude GoStd GoJson External ChainSpec Engine Concrete Async EvmTypes Keeper MsgServer Abci.

Definition timeout : Z := Second * 10.

(** [app.go]: one Cosmos transaction per block. *)
Definition maxCosmosTxsPerBlock : Z := 1.

(** The Go types, by import path and name, that [allowedMsgTypes] holds. *)
Definition govv1 : string := "github.com/cosmos/cosmos-sdk/x/gov/types/v1".
Definition banktypes : string := "github.com/cosmos/cosmos-sdk/x/bank/types".
Definition upgradetypes : string := "cosmossdk.io/x/upgrade/types".

Definition allowedMsgTypes : list string :=
  [ govv1 +:+ ".MsgSubmitProposal";
    govv1 +:+ ".MsgVote";
    govv1 +:+ ".MsgVoteWeighted";
    govv1 +:+ ".MsgDeposit";
    banktypes +:+ ".MsgSend";
    upgradetypes +:+ ".MsgSoftwareUpgrade";
    upgradetypes +:+ ".MsgCancelUpgrade" ].

(** ["%T"] of a pointer to the type: the last element of its path. *)
Fixpoint after_slash (s best : string) : string :=
  match s with
  | EmptyString => best
  | String c s' => after_slash s' (if bool_decide (c = "/"%char) then s' else best)
  end.
Definition fmt_T (goType : string) : string := "*" +:+ after_slash goType goType.

Record parsedTx := mkParsedTx { pt_raw : string; pt_tx : Tx; pt_isEVM : bool }.

Definition validateMsgAllowed (tx : Tx) : outcome unit :=
  match tx_Msgs tx with
  | [m] =>
      match m with
      | MExecutionPayload _ => Ret tt
      | MOther t _ =>
          if bool_decide (t ∈ allowedMsgTypes) then Ret tt
          else Fail (errText ("message type " +:+ fmt_T t +:+ " not permitted"))
      end
  | _ => Fail (errText "expected exactly one message")
  end.

Section Parse.
Context `{CosmosSDK}.

Definition validateTx (tx : Tx) : outcome unit :=
  do? guard_err (Nat.eqb (length (tx_Msgs tx)) 1) (errText "expected exactly one message") in
  match tx_signing tx with
  | None => Fail (errText "expected standard transaction")
  | Some standardTx =>
      let? signatures := st_Signatures standardTx in
      do? guard_err (Nat.eqb (length signatures) 0) (errText "expected no signatures") in
      do? guard_err (len (st_Memo standardTx) =? 0) (errText "expected no memo") in
      do? guard_err (match st_Fee standardTx with None => true | Some _ => false end)
            (errText "expected no fee") in
      do? guard_err (bool_decide (st_FeePayer standardTx = NewModuleAddress ModuleName))
            (errText "expected fee payer to be the evm module") in
      guard_err (match st_FeeGranter standardTx with None => true | Some _ => false end)
        (errText "expected no fee granter")
  end.

Definition parseTx (raw : string) : outcome parsedTx :=
  let? tx := TxDecoder raw in
  do? validateMsgAllowed tx in
  match tx_Msgs tx with
  | m :: _ =>
      let isEVM := match m with MExecutionPayload _ => true | MOther _ _ => false end in
      do? (if isEVM then validateTx tx else Ret tt) in
      Ret (mkParsedTx raw tx isEVM)
  | [] => Panic "runtime error: index out of range [0] with length 0"
  end.

(** The first [maxCosmosTxs] transactions of the mempool that a block may
    contain; the others are skipped. *)
Fixpoint selectCosmosTxs (maxCosmosTxs : Z) (txs cosmosTxs : list string) : outcome (list string) :=
  match txs with
  | [] => Ret cosmosTxs
  | rawTx :: rest =>
      if maxCosmosTxs <=? Z.of_nat (length cosmosTxs) then Ret cosmosTxs
      else
        match parseTx rawTx with
        | Ret parsed =>
            if pt_isEVM parsed then selectCosmosTxs maxCosmosTxs rest cosmosTxs
            else selectCosmosTxs maxCosmosTxs rest (cosmosTxs ++ [rawTx])
        | Fail _ => selectCosmosTxs maxCosmosTxs rest cosmosTxs
        | Panic s => Panic s
        | OutOfFuel => OutOfFuel
        end
  end.

End Parse.

(** ** ProcessProposal *)

Inductive BlockIDFlag := BlockIDFlagUnknown | BlockIDFlagAbsent | BlockIDFlagCommit | BlockIDFlagNil.

#[export] Instance BlockIDFlag_eq_dec : EqDecision BlockIDFlag.
Proof. solve_decision. Defined.

Record VoteInfo := mkVoteInfo { vote_Power : Z; vote_BlockIdFlag : BlockIDFlag }.

Record RequestProcessProposal := mkRequestProcessProposal {
  rpr_Height : Z; rpr_Txs : list string; rpr_Votes : list VoteInfo }.

Inductive ProposalStatus := ACCEPT | REJECT.

(** The loop over the votes: total and voted power, as int64s. *)
Fixpoint countPower (votes : list VoteInfo) (totalPower votedPower : Z) : Z * Z :=
  match votes with
  | [] => (totalPower, votedPower)
  | v :: votes' =>
      countPower votes' (i64_add totalPower (vote_Power v))
        (if bool_decide (vote_BlockIdFlag v = BlockIDFlagCommit)
         then i64_add votedPower (vote_Power v) else votedPower)
  end.

Definition enoughPower (votes : list VoteInfo) : bool :=
  let '(totalPower, votedPower) := countPower votes 0 0 in
  negb (votedPower <=? i64_div (i64_mul totalPower 2) 3).

Section Process.
Context `{CosmosSDK}.

(** The loop over the transactions. *)
Fixpoint classifyTxs (maxCosmosTxs : Z) (txs : list string) (cosmosTxCount : Z)
    (evmMsg : option MsgExecutionPayload) : outcome (option MsgExecutionPayload) :=
  match txs with
  | [] => Ret evmMsg
  | rawTx :: rest =>
      do? guard_err (negb (MaxTxSize <? len rawTx))
            (errText ("transaction too large: " +:+ fmt_d (len rawTx) +:+ " bytes exceeds maximum of "
                      +:+ fmt_d MaxTxSize +:+ " bytes")) in
      let? parsed := parseTx rawTx in
      let isLast := match rest with [] => true | _ => false end in
      if pt_isEVM parsed && negb isLast then
        Fail (errText "EVM payload must be the last transaction")
      else if negb (pt_isEVM parsed) && isLast then
        Fail (errText "last transaction must be the EVM payload")
      else if negb (pt_isEVM parsed) then
        let n := i64_add cosmosTxCount 1 in
        if maxCosmosTxs <? n then
          Fail (errText ("too many cosmos transactions: max " +:+ fmt_d maxCosmosTxs))
        else classifyTxs maxCosmosTxs rest n evmMsg
      else
        match tx_Msgs (pt_tx parsed) with
        | MExecutionPayload msg :: _ => classifyTxs maxCosmosTxs rest cosmosTxCount (Some msg)
        | _ => Fail (errText "expected EVM payload message")
        end
  end.

(** Everything that is checked before the payload's own handler. *)
Definition checkProposal (maxCosmosTxs : Z) (req : RequestProcessProposal) :
    outcome (option MsgExecutionPayload) :=
  do? guard_err (negb (Nat.eqb (length (rpr_Txs req)) 0))
        (errText "block must contain at least one transaction") in
  do? guard_err (enoughPower (rpr_Votes req))
        (errText "reject blocks with less than (or equal to) 2/3 of the voting power") in
  classifyTxs maxCosmosTxs (rpr_Txs req) 0 None.

End Process.

Section Handlers.
Context {E S : Type} `{!ItemStore S, !EngineClient E, !Host E, GoEthereum, CosmosSDK}.
Local Abbreviation W := (World E S).

(** A message service router: the handler registered for a payload message. *)
Abbreviation Router := (option (SdkContext → MsgExecutionPayload → M W unit)).

(** [makeProcessProposalRouter] registers the proposal server of the keeper. *)
Definition makeProcessProposalRouter (k : Keeper) : Router := Some (Proposal_ExecutionPayload k).

Definition prepareProposalHandler (fuel : nat) (k : Keeper) (maxCosmosTxs : Z) (ctx : SdkContext)
    (req : RequestPrepareProposal) : M W (list string) :=
  if rpp_Height req =? 1 then ret []
  else
    let! cosmosTxs := lift (selectCosmosTxs maxCosmosTxs (rpp_Txs req) []) in
    let! evmTxs := PrepareProposal fuel k ctx req in
    ret (cosmosTxs ++ evmTxs).

Definition rejectProposal (err : error) : M W ProposalStatus :=
  do! logger LError "Rejecting Proposal" in
  ret REJECT.

Definition processProposalHandler (router : Router) (maxCosmosTxs : Z) (sdkCtx : SdkContext)
    (req : RequestProcessProposal) : M W ProposalStatus :=
  let! now := gets w_now in
  let ctx := WithContext sdkCtx (WithTimeout (sc_ctx sdkCtx) timeout now) in
  if rpr_Height req =? 1 then
    if negb (Nat.eqb (length (rpr_Txs req)) 0) then
      rejectProposal (errText "initial block cannot have transactions")
    else ret ACCEPT
  else
    let! r := try (lift (checkProposal maxCosmosTxs req)) in
    match r with
    | inr err => rejectProposal err
    | inl None => panic "runtime error: invalid memory address or nil pointer dereference"
    | inl (Some evmMsg) =>
        match router with
        | None => rejectProposal (errText "expected handler")
        | Some handler =>
            let! r := try (handler ctx evmMsg) in
            match r with
            | inr err => rejectProposal err
            | inl _ => ret ACCEPT
            end
        end
    end.

End Handlers.

(** ** Voting power *)

(** The sums in unbounded integers. *)
Definition power_sum (votes : list VoteInfo) : Z := foldr Z.add 0 (vote_Power <$> votes).
Definition total_power (votes : list VoteInfo) : Z := power_sum votes.
Definition voted_power (votes : list VoteInfo) : Z :=
  power_sum (List.filter (fun v => bool_decide (vote_BlockIdFlag v = BlockIDFlagCommit)) votes).

(** CometBFT: powers are not negative and their sum is at most MaxInt64 / 8. *)
Definition valid_votes (votes : list VoteInfo) : Prop :=
  Forall (fun v => 0 ≤ vote_Power v) votes ∧ total_power votes ≤ maxInt64 / 8.

Lemma power_sum_cons v votes : power_sum (v :: votes) = vote_Power v + power_sum votes.
Proof. done. Qed.

Lemma power_sum_nonneg votes : Forall (fun v => 0 ≤ vote_Power v) votes → 0 ≤ power_sum votes.
Proof. induction 1; [done|]. rewrite power_sum_cons. lia. Qed.

Lemma voted_power_le votes :
  Forall (fun v => 0 ≤ vote_Power v) votes → 0 ≤ voted_power votes ≤ total_power votes.
Proof.
  unfold voted_power, total_power. induction 1 as [|v votes Hv _ IH]; [done|].
  cbn [List.filter]. case_bool_decide; rewrite ?power_sum_cons; lia.
Qed.

Lemma countPower_sums votes t v :
  Forall (fun v => 0 ≤ vote_Power v) votes → 0 ≤ v ≤ t → t + total_power votes < 2 ^ 63 →
  countPower votes t v = (t + total_power votes, v + voted_power votes).
Proof.
  intros Hv. revert t v. induction Hv as [|x votes Hx Hv IH]; intros t v Ht Hb; cbn [countPower].
  - unfold total_power, voted_power, power_sum. simpl. f_equal; lia.
  - pose proof (power_sum_nonneg votes Hv) as Hs. unfold total_power in *.
    rewrite power_sum_cons in *. unfold i64_add.
    rewrite (i64_small (t + _)) by (unfold is_i64; lia). unfold voted_power in *. cbn [List.filter].
    case_bool_decide; rewrite ?power_sum_cons.
    + rewrite (i64_small (v + _)) by (unfold is_i64; lia). rewrite IH by lia. f_equal; lia.
    + rewrite IH by lia. f_equal; lia.
Qed.

Lemma enoughPower_iff votes :
  valid_votes votes → enoughPower votes = true ↔ 2 * total_power votes < 3 * voted_power votes.
Proof.
  intros [Hv Ht]. pose proof (voted_power_le votes Hv). unfold maxInt64 in Ht.
  assert (total_power votes < 2 ^ 60) by (change ((2 ^ 63 - 1) / 8) with (2 ^ 60 - 1) in Ht; lia).
  unfold enoughPower. rewrite countPower_sums by (done || lia). rewrite !Z.add_0_l.
  unfold i64_mul, i64_div. rewrite (i64_small (_ * _)) by (unfold is_i64; lia).
  rewrite Z.quot_div_nonneg by lia.
  pose proof (Z.div_mod (total_power votes * 2) 3). pose proof (Z.mod_pos_bound (total_power votes * 2) 3).
  rewrite i64_small by (unfold is_i64; lia). rewrite negb_true_iff, Z.leb_gt. lia.
Qed.

(** ** What a block may contain *)

Section Spec.
Context `{CosmosSDK}.

(** A transaction of the allow list. *)
Definition is_cosmos_tx (raw : string) : Prop :=
  ∃ p, parseTx raw = Ret p ∧ pt_isEVM p = false.

(** The transaction of a payload message. *)
Definition is_payload_tx (raw : string) (msg : MsgExecutionPayload) : Prop :=
  ∃ p, parseTx raw = Ret p ∧ pt_isEVM p = true ∧ tx_Msgs (pt_tx p) = [MExecutionPayload msg].

(** A well-formed block: at most [max] allowed transactions, then exactly one
    payload transaction, none of them too large. *)
Definition block_ok (max : Z) (txs : list string) (msg : MsgExecutionPayload) : Prop :=
  ∃ cosmosTxs evmTx, txs = (cosmosTxs ++ [evmTx])%list ∧
    Z.of_nat (length cosmosTxs) ≤ max ∧ Forall is_cosmos_tx cosmosTxs ∧ is_payload_tx evmTx msg ∧
    Forall (fun raw => len raw ≤ MaxTxSize) txs.

Lemma parseTx_evm raw p :
  parseTx raw = Ret p → pt_isEVM p = true → ∃ msg, tx_Msgs (pt_tx p) = [MExecutionPayload msg].
Proof.
  unfold parseTx. intros Hp He. apply bindO_ret in Hp as (tx & Hd & Hp).
  apply bindO_ret in Hp as ([] & Hv & Hp). unfold validateMsgAllowed in Hv.
  destruct (tx_Msgs tx) as [|m [|m' l]] eqn:Hm; try done.
  apply bindO_ret in Hp as ([] & _ & [= <-]). simpl in *. destruct m; [|done]. eauto.
Qed.

Lemma classifyTxs_sound max txs n acc msg :
  0 ≤ n ≤ max → max + Z.of_nat (length txs) < 2 ^ 63 → txs ≠ [] →
  classifyTxs max txs n acc = Ret msg →
  ∃ m, msg = Some m ∧ block_ok (max - n) txs m.
Proof.
  revert n acc. induction txs as [|raw rest IH]; intros n acc Hn Hmax Hne Hc; [done|].
  cbn [classifyTxs] in Hc. apply bindO_ret in Hc as ([] & Hl & Hc).
  unfold guard_err in Hl. destruct (Z.ltb_spec MaxTxSize (len raw)) as [|Hlen]; [done|].
  apply bindO_ret in Hc as (p & Hp & Hc). cbn [length] in Hmax.
  destruct (pt_isEVM p) eqn:He, rest as [|r2 rest]; cbn [andb negb] in Hc; try done.
  - destruct (parseTx_evm raw p Hp He) as [m Hm]. rewrite Hm in Hc. injection Hc as <-.
    exists m. split; [done|]. exists [], raw. split_and!; [done|simpl; lia|done| |by constructor].
    exists p. done.
  - cbn zeta in Hc. unfold i64_add in Hc. rewrite i64_small in Hc by (unfold is_i64; lia).
    destruct (Z.ltb_spec max (n + 1)); [done|].
    apply IH in Hc as (m & -> & (cs & ev & Heq & Hcs & Hall & Hev & Hsz)); [|lia..|done].
    exists m. split; [done|]. exists (raw :: cs), ev. rewrite Heq in *. cbn [length app].
    split_and!; [done|lia| |done|by constructor]. constructor; [by exists p|done].
Qed.

Lemma classifyTxs_complete max cs ev n acc msg :
  0 ≤ n → n + Z.of_nat (length cs) ≤ max → max < 2 ^ 63 →
  Forall is_cosmos_tx cs → is_payload_tx ev msg →
  Forall (fun raw => len raw ≤ MaxTxSize) (cs ++ [ev]) →
  classifyTxs max (cs ++ [ev]) n acc = Ret (Some msg).
Proof.
  revert n acc. induction cs as [|raw cs IH]; intros n acc Hn Hmax Hb Hcs Hev Hsz.
  - destruct Hev as (p & Hp & He & Hm). apply Forall_cons_1 in Hsz as [Hl _]. cbn [app classifyTxs].
    destruct (Z.ltb_spec MaxTxSize (len ev)); [lia|]. cbn [negb guard_err bindO].
    rewrite Hp. cbn [bindO]. rewrite He, Hm. done.
  - apply Forall_cons_1 in Hcs as [(p & Hp & He) Hcs]. cbn [app] in Hsz.
    apply Forall_cons_1 in Hsz as [Hl Hsz]. cbn [app classifyTxs length] in *.
    destruct (Z.ltb_spec MaxTxSize (len raw)); [lia|]. cbn [negb guard_err bindO].
    rewrite Hp. cbn [bindO]. rewrite He. destruct (cs ++ [ev])%list as [|r rest] eqn:Hr;
      [by destruct cs|]. cbn [andb negb]. unfold i64_add. rewrite i64_small by (unfold is_i64; lia).
    destruct (Z.ltb_spec max (n + 1)); [lia|]. apply IH; auto; lia.
Qed.

Lemma checkProposal_iff max req msg :
  0 ≤ max → max + Z.of_nat (length (rpr_Txs req)) < 2 ^ 63 →
  checkProposal max req = Ret msg ↔
  enoughPower (rpr_Votes req) = true ∧ ∃ m, msg = Some m ∧ block_ok max (rpr_Txs req) m.
Proof.
  intros Hm Hb. unfold checkProposal. split.
  - intros Hc. apply bindO_ret in Hc as ([] & Hl & Hc). apply bindO_ret in Hc as ([] & Hv & Hc).
    unfold guard_err in *. destruct (enoughPower _); [|done]. split; [done|].
    apply classifyTxs_sound in Hc as (m & -> & Hok); [|lia..|by destruct (rpr_Txs req)].
    rewrite Z.sub_0_r in Hok. eauto.
  - intros (Hv & m & -> & (cs & ev & Heq & Hn & Hcs & Hev & Hsz)). rewrite Heq, Hv in *.
    rewrite length_app in *. cbn [length] in *. rewrite Nat.add_1_r in *. cbn [Nat.eqb negb guard_err bindO].
    apply classifyTxs_complete; auto; lia.
Qed.

Lemma selectCosmosTxs_ok max txs acc out :
  Forall is_cosmos_tx acc → Z.of_nat (length acc) ≤ Z.max 0 max →
  selectCosmosTxs max txs acc = Ret out →
  Forall is_cosmos_tx out ∧ Z.of_nat (length out) ≤ Z.max 0 max ∧
  Forall (fun raw => raw ∈ acc ∨ raw ∈ txs) out.
Proof.
  revert acc. induction txs as [|raw rest IH]; intros acc Ha Hl Hs; cbn [selectCosmosTxs] in Hs.
  - injection Hs as <-. split_and!; [done..|]. apply Forall_forall. auto.
  - destruct (Z.leb_spec max (Z.of_nat (length acc))).
    + injection Hs as <-. split_and!; [done..|]. apply Forall_forall. auto.
    + assert (Hw : ∀ out, Forall (fun x => x ∈ acc ∨ x ∈ rest) out →
        Forall (fun x => x ∈ acc ∨ x ∈ raw :: rest) out).
      { intros l Hl'. eapply Forall_impl; [exact Hl'|set_solver]. }
      destruct (parseTx raw) as [p|e|m|] eqn:Hp; try done.
      * destruct (pt_isEVM p) eqn:He; apply IH in Hs as (H1 & H2 & H3); auto.
        -- split_and!; [done..|]. eapply Forall_impl; [exact H3|]. set_solver.
        -- apply Forall_app. split; [done|]. constructor; [by exists p|done].
        -- rewrite length_app. simpl. lia.
      * apply IH in Hs as (H1 & H2 & H3); auto.
Qed.

End Spec.

(** ** Theorems *)

(** C19: with the powers CometBFT allows, the int64 test of the handler is the
    exact two-thirds rule: no overflow, no rounding. *)
Theorem voting_power_test_is_exact votes :
  valid_votes votes → enoughPower votes = true ↔ 2 * total_power votes < 3 * voted_power votes.
Proof. apply enoughPower_iff. Qed.

Lemma voting_power_test_is_exact_witness :
  let votes := [mkVoteInfo 67 BlockIDFlagCommit; mkVoteInfo 33 BlockIDFlagAbsent] in
  enoughPower votes = true ↔ 2 * total_power votes < 3 * voted_power votes.
Proof.
  intros votes. apply voting_power_test_is_exact. split; [repeat constructor; simpl; lia|].
  vm_compute. discriminate.
Defined.

Section Claims.
Context {E S : Type} `{!ItemStore S, !ItemStoreLaws S, !EngineClient E, !Host E,
  GoEthereumLaws, CosmosSDKLaws}.
Local Abbreviation W := (World E S).

(** Only the height and the time of a context matter to a payload. *)
Lemma payload_ok_context k c c' m st p :
  sc_Height c' = sc_Height c → sc_BlockTime c' = sc_BlockTime c →
  payload_ok k c m st p → payload_ok k c' m st p.
Proof.
  intros Hh Ht [????????? Hts]. split; auto; [by rewrite Hh|].
  rewrite Hts. unfold CalculateTimestamp. by rewrite Ht, Hh.
Qed.

Lemma Proposal_ExecutionPayload_iff k c m (w : W) :
  (Proposal_ExecutionPayload k c m w).2 = Ret tt ↔
  ∃ st p, GetBlockState w = (w, Ret st) ∧ payload_ok k c m st p.
Proof.
  unfold Proposal_ExecutionPayload, GetBlockState, read_store. unfold_monad.
  destruct (Item_Get _ _ _) as [st|e|s|]; [|naive_solver..]. split.
  - destruct (validatePayload k c m st) as [p|e|s|] eqn:Hv; try done. intros _.
    exists st, p. split; [done|]. by apply validatePayload_spec.
  - intros (st' & p & [= <-] & Hok). by rewrite (proj2 (validatePayload_spec k c m st p) Hok).
Qed.

Lemma Proposal_ExecutionPayload_world k c m (w : W) : (Proposal_ExecutionPayload k c m w).1 = w.
Proof.
  unfold Proposal_ExecutionPayload, GetBlockState, read_store. unfold_monad.
  destruct (Item_Get _ _ _) as [st|e|s|]; [|done..]. by destruct (validatePayload k c m st).
Qed.

(** What a validator accepts after the first block. *)
Definition proposal_ok (k : Keeper) (max : Z) (c : SdkContext) (req : RequestProcessProposal)
    (w : W) (m : MsgExecutionPayload) (st : BlockState) (p : ExecutableData) : Prop :=
  enoughPower (rpr_Votes req) = true ∧ block_ok max (rpr_Txs req) m ∧
  GetBlockState w = (w, Ret st) ∧ payload_ok k c m st p.

Lemma process_accepts k max c req (w : W) :
  rpr_Height req ≠ 1 → 0 ≤ max → max + Z.of_nat (length (rpr_Txs req)) < 2 ^ 63 →
  (processProposalHandler (makeProcessProposalRouter k) max c req w).2 = Ret ACCEPT ↔
  ∃ m st p, proposal_ok k max c req w m st p.
Proof.
  intros Hh Hmax Hb. unfold processProposalHandler, proposal_ok. cbv [bindM gets]. apply Z.eqb_neq in Hh.
  rewrite Hh. cbv [try lift]. set (ctx := WithContext _ _).
  destruct (checkProposal max req) as [r|e|s|] eqn:Hc.
  2-4: split; [done|]; intros (m & st & p & Hv & Hok & _);
    assert (checkProposal max req = Ret (Some m)) by (apply checkProposal_iff; eauto); congruence.
  apply checkProposal_iff in Hc as (Hv & m & -> & Hok); [|done..].
  pose proof (Proposal_ExecutionPayload_iff k ctx m w) as Hp.
  cbn [makeProcessProposalRouter]. split.
  - destruct (Proposal_ExecutionPayload k ctx m w) as [w1 [[]|e|s|]]; cbn; try done. intros _.
    destruct (proj1 Hp eq_refl) as (st & p & Hst & Hpo). exists m, st, p. split_and!; [done..|].
    by eapply (payload_ok_context _ ctx).
  - intros (m' & st & p & _ & Hok' & Hst & Hpo).
    assert (Hm : Some m' = Some m).
    { assert (Ha : checkProposal max req = Ret (Some m)) by (apply checkProposal_iff; eauto).
      assert (Hb' : checkProposal max req = Ret (Some m')) by (apply checkProposal_iff; eauto). congruence. }
    injection Hm as ->.
    assert (Hr : (Proposal_ExecutionPayload k ctx m w).2 = Ret tt).
    { apply Hp. exists st, p. split; [done|]. by eapply (payload_ok_context _ c). }
    destruct (Proposal_ExecutionPayload k ctx m w) as [w1 o]. cbn in Hr. by subst o.
Qed.

(** C10: a validator accepts a proposal after block 1 exactly when more than two
    thirds of the previous block's voting power signed, the block is at most
    [maxCosmosTxs] allowed transactions followed by exactly one payload
    transaction, none over 20 MiB, and the payload extends its block state. *)
Theorem process_proposal_accepts_iff k max c req (w : W) :
  rpr_Height req ≠ 1 → 0 ≤ max → max + Z.of_nat (length (rpr_Txs req)) < 2 ^ 63 →
  valid_votes (rpr_Votes req) →
  (processProposalHandler (makeProcessProposalRouter k) max c req w).2 = Ret ACCEPT ↔
  2 * total_power (rpr_Votes req) < 3 * voted_power (rpr_Votes req) ∧
  ∃ m st p, block_ok max (rpr_Txs req) m ∧ GetBlockState w = (w, Ret st) ∧ payload_ok k c m st p.
Proof.
  intros Hh Hm Hb Hv. rewrite process_accepts by done. rewrite <-enoughPower_iff by done.
  unfold proposal_ok. naive_solver.
Qed.

(** Processing a proposal changes nothing but the log: store, execution
    client and clock are as before, and no engine request is made. *)
Theorem process_proposal_has_no_effects k max c req (w w' : W) o :
  processProposalHandler (makeProcessProposalRouter k) max c req w = (w', o) →
  w_store w' = w_store w ∧ w_env w' = w_env w ∧ w_now w' = w_now w ∧
  (w_trace w' = w_trace w ∨ w_trace w' = (w_trace w ++ [EvLog LError "Rejecting Proposal"])%list).
Proof.
  unfold processProposalHandler, rejectProposal, logger, emit. cbv [bindM gets try lift modify ret panic].
  cbn [makeProcessProposalRouter]. set (ctx := WithContext _ _). intros Hr.
  destruct (rpr_Height req =? 1); [case_match; simplify_eq/=; auto|].
  destruct (checkProposal max req) as [[m|]|e|s|]; simplify_eq/=; auto.
  pose proof (Proposal_ExecutionPayload_world k ctx m w) as Hw.
  destruct (Proposal_ExecutionPayload k ctx m w) as [w1 [[]|e|s|]]; simplify_eq/=; auto.
Qed.

Lemma payloadTx_is_payload d bz env :
  env_ExecutionPayload env = Some d → payloadTx env = Ret bz →
  ∃ data, ExecutableData_Marshal (Some d) = Ret data ∧ is_payload_tx bz (payloadMessage data) ∧
    len bz ≤ MaxTxSize.
Proof.
  intros Hd Ht. apply payloadTx_ret in Ht as (data & tx & Hm & Hb & He & Hl). rewrite Hd in Hm.
  exists data. split_and!; [done| |done].
  destruct (TxBuild_decode _ (NewModuleAddress ModuleName) _ _ Hb He eq_refl) as (tx' & Hdec & Hmsg & Hsig).
  exists (mkParsedTx bz tx' true). split_and!; [|done..].
  unfold parseTx. rewrite Hdec. cbn [bindO]. unfold validateMsgAllowed. rewrite Hmsg. cbn [bindO].
  unfold validateTx. rewrite Hmsg, Hsig. cbn. by rewrite bool_decide_eq_true_2.
Qed.

(** The block an honest node prepares after block 1 is well formed, and its
    payload extends the block state, whatever context of this height and time
    it is judged in. *)
Lemma prepared_block_ok fuel k max c c' req txs st number building (wp wp' : W) :
  prepareProposalHandler fuel k max c req wp = (wp', Ret txs) →
  rpp_Height req ≠ 1 → 0 ≤ max →
  Forall (fun raw => len raw ≤ MaxTxSize) (rpp_Txs req) → 0 ≤ sc_Height c →
  sc_Height c' = sc_Height c → sc_BlockTime c' = sc_BlockTime c →
  builder_contract number building → number (bs_Hash st) = bs_Height st →
  bs_Timestamp st < CalculateTimestamp k c (u64 (sc_Height c)) (bs_Timestamp st) →
  GetBlockState wp = (wp, Ret st) →
  ∃ m p, block_ok max txs m ∧ payload_ok k c' m st p.
Proof.
  intros Hp Hh Hmax Hsz Hhp Hch Hct Hbuild Hnb Hts Hstp. unfold prepareProposalHandler in Hp.
  rewrite (proj2 (Z.eqb_neq _ _) Hh) in Hp.
  apply bindM_ret in Hp as (w1 & cs & Hcs & Hp). unfold lift in Hcs. injection Hcs as <- Hcs.
  apply selectCosmosTxs_ok in Hcs as (Hall & Hlen & Hin); [|done|simpl; lia].
  apply bindM_ret in Hp as (w2 & evm & He & Hp). unfold ret in Hp. injection Hp as _ <-.
  apply (PrepareProposal_built_as number building Hbuild _ _ _ _ st) in He
    as (env & bz & a & Htx & -> & (d & Hd & Hw & Hg1 & Hg2 & Hwit & Hpar & Hnum & Htime) & Haw & Hat); [|done..].
  destruct (payloadTx_is_payload d bz env Hd Htx) as (data & Hm & Hpay & Hl).
  exists (payloadMessage data), d. split.
  - exists cs, bz. split_and!; [done|lia|done|done|]. apply Forall_app. split; [|by constructor].
    rewrite Forall_forall in *. intros raw Hraw. destruct (Hin raw Hraw) as [Hx|Hx]; [set_solver|auto].
  - apply (payload_ok_context _ c); [done..|]. apply ExecutableData_roundtrip in Hm as [Hu _].
    rewrite Hnb in Hnum. rewrite Haw in Hw. rewrite Hat in Htime. split; auto. by rewrite Htime.
Qed.

(** The settings a timestamp is computed from. *)
Definition same_clock (k k' : Keeper) : Prop :=
  k_UseBlockTimestamp k' = k_UseBlockTimestamp k ∧ k_UnixTimestampOffset k' = k_UnixTimestampOffset k.

Lemma payload_ok_clock k k' c m st p : same_clock k k' → payload_ok k c m st p → payload_ok k' c m st p.
Proof.
  intros [Hu Ho] [????????? Hts]. split; auto. rewrite Hts. unfold CalculateTimestamp. by rewrite Hu, Ho.
Qed.

Lemma block_ok_limit max max' txs m : max ≤ max' → block_ok max txs m → block_ok max' txs m.
Proof. intros Hle (cs & ev & Htxs & Hlen & Hrest). exists cs, ev. split; [done|]. split; [lia|done]. Qed.

(** C5: agreement of the two handlers.  A proposal that a node has prepared after
    block 1 is accepted by every node with the same block state, height, block
    time and timestamp settings and at least its limit on Cosmos transactions,
    if: the mempool had no oversized transactions; the proposer's execution
    client keeps the contract of the Engine API for building payloads and knows
    the number of the head block; the timestamp due at this height is later
    than the stored one; and the votes of the last commit are enough. *)
Theorem honest_proposal_is_accepted fuel k k' max max' c c' req votes txs st number building (wp wp' wv : W) :
  prepareProposalHandler fuel k max c req wp = (wp', Ret txs) →
  rpp_Height req ≠ 1 → 0 ≤ max → max ≤ max' → max' + Z.of_nat (length txs) < 2 ^ 63 →
  Forall (fun raw => len raw ≤ MaxTxSize) (rpp_Txs req) →
  enoughPower votes = true → 0 ≤ sc_Height c →
  sc_Height c' = sc_Height c → sc_BlockTime c' = sc_BlockTime c → same_clock k k' →
  builder_contract number building → number (bs_Hash st) = bs_Height st →
  bs_Timestamp st < CalculateTimestamp k c (u64 (sc_Height c)) (bs_Timestamp st) →
  GetBlockState wp = (wp, Ret st) → GetBlockState wv = (wv, Ret st) →
  (processProposalHandler (makeProcessProposalRouter k') max' c'
     (mkRequestProcessProposal (rpp_Height req) txs votes) wv).2 = Ret ACCEPT.
Proof.
  intros Hp Hh Hmax Hle Hb Hsz Hv Hhp Hch Hct Hclock Hbuild Hnb Hts Hstp Hst.
  destruct (prepared_block_ok fuel k max c c' req txs st number building wp wp') as (m & p & Hm & Hok); [done..|].
  apply process_accepts; [done|lia|done|]. exists m, st, p. split; [done|]. split; [by eapply block_ok_limit|].
  split; [done|by eapply payload_ok_clock].
Qed.

(** C6: from acceptance to commitment.  When a validator has accepted a proposal
    after block 1 and FinalizeBlock runs its payload against the same store,
    height and time, and if the execution client answers, the store can be
    written and [sendPayload] refuses nothing locally - the app hash is not
    empty, the transactions of the payload decode and carry at most six blobs -
    then the handler succeeds at its first attempts and the header of the
    payload is the new block state.  (A payload that is refused locally is
    [locally_refused_payload_never_returns].) *)
Theorem accepted_proposal_is_finalized fuel k max c c' req (w wf : W) :
  rpr_Height req ≠ 1 → 0 ≤ max → max + Z.of_nat (length (rpr_Txs req)) < 2 ^ 63 →
  (processProposalHandler (makeProcessProposalRouter k) max c req w).2 = Ret ACCEPT →
  sc_ExecMode c' = ExecModeFinalize → sc_Height c' = sc_Height c → sc_BlockTime c' = sc_BlockTime c →
  w_store wf = w_store w → responsive (E := E) → writable S →
  (∀ m p, block_ok max (rpr_Txs req) m → ExecutableData_Unmarshal (mep_ExecutionPayload m) = Ret p →
     ∃ args, sendPayload_args c' p = Ret args) →
  ∃ m p wf', block_ok max (rpr_Txs req) m ∧
    ExecutableData_Unmarshal (mep_ExecutionPayload m) = Ret p ∧
    ExecutionPayload (Datatypes.S fuel) k c' m wf = (wf', Ret tt) ∧
    GetBlockState wf' = (wf', Ret (payload_state p)).
Proof.
  intros Hh Hmax Hb Hacc Hmode Hch Hct Hs HR HW Hargs.
  apply process_accepts in Hacc as (m & st & p & _ & Hok & Hst & Hpo); [|done..].
  pose proof (po_decoded _ _ _ _ _ Hpo) as Hdec. destruct (Hargs m p Hok Hdec) as [args Ha].
  destruct (payload_executes fuel k c' m st p args wf) as (wf' & Hx & Hg); [done..| | | |done|].
  - intros Hl. destruct (mep_ExecutionPayload m) eqn:He; [|done].
    by apply (ExecutableData_Unmarshal_empty p).
  - unfold GetBlockState, read_store in *. rewrite Hs. congruence.
  - by apply (payload_ok_context _ c).
  - by exists m, p, wf'.
Qed.

End Claims.

(** ** Witnesses *)

Section Witnesses.
Definition honest_engine : EngineClient Script := obliging.
#[local] Existing Instances geth geth_laws cosmos cosmos_laws mapStore mapStore_laws exact_host honest_engine.

Definition sample_votes : list VoteInfo :=
  [mkVoteInfo 67 BlockIDFlagCommit; mkVoteInfo 33 BlockIDFlagAbsent].
Definition sample_mempool : list string :=
  ["Xbad"; "O" +:+ govv1 +:+ ".MsgVote"; "O" +:+ banktypes +:+ ".MsgSend"].

Definition honest_run : ConcreteWorld * outcome (list string) :=
  prepareProposalHandler 2 sample_keeper 1 (sample_sdk 200 2000)
    (mkRequestPrepareProposal 200 sample_mempool) (sample_world []).

Definition honest_txs : list string :=
  match honest_run.2 with Ret l => l | _ => [] end.

Definition honest_request : RequestProcessProposal :=
  mkRequestProcessProposal 200 honest_txs sample_votes.

Lemma sample_votes_valid : valid_votes sample_votes.
Proof. split; [repeat constructor; simpl; lia|]. vm_compute. discriminate. Qed.

Lemma honest_run_returns : honest_run = (honest_run.1, Ret honest_txs).
Proof.
  destruct (is_ret_run honest_run) as [l Hl]; [vm_compute; reflexivity|].
  unfold honest_txs. rewrite Hl. reflexivity.
Qed.

Lemma honest_txs_length : Z.of_nat (length honest_txs) = 2.
Proof. vm_compute. reflexivity. Qed.

Lemma honest_block_payload m : block_ok 1 honest_txs m → mep_ExecutionPayload m = encode_text built.
Proof.
  intros (cs & ev & Heq & _ & _ & (q & Hq & _ & Hm) & _).
  assert (Hlast : last honest_txs = Some ("P" +:+ encode_text built)) by (vm_compute; reflexivity).
  rewrite Heq, last_snoc in Hlast. injection Hlast as ->.
  assert (Hp : parseTx ("P" +:+ encode_text built) = Ret (mkParsedTx ("P" +:+ encode_text built)
    (plain_tx [MExecutionPayload (mkMsgExecutionPayload evm_authority (encode_text built))]) true))
    by (vm_compute; reflexivity).
  rewrite Hp in Hq. injection Hq as <-. cbn [pt_tx plain_tx tx_Msgs] in Hm. by injection Hm as <-.
Qed.

Lemma honest_decodes : ExecutableData_Unmarshal (encode_text built) = Ret built.
Proof. vm_compute. reflexivity. Qed.

(** What the client is building is in its script. *)
Definition is_building (e : Script) (i : PayloadID) (h : Hash) (a : PayloadAttributes) : Prop :=
  i = 7 ∧ s_payload e = Some (build_on h a).

Lemma obliging_contract : builder_contract number_of is_building.
Proof.
  assert (Hkeep : ∀ e e' d o i h a, answer_payload e = (e', d, o) → is_building e i h a → is_building e' i h a).
  { intros e e' d o i h a Hr Hb. unfold answer_payload in Hr. by destruct (s_payload e); simplify_eq. }
  assert (Hget : ∀ i e ed r h a, is_building e i h a → answer_payload e = (ed, Ret r) →
    built_as number_of r h a).
  { intros i e ed r h a [_ Hb] Hr. unfold answer_payload in Hr. rewrite Hb in Hr. simplify_eq.
    exists (build_on h a). by eauto 10. }
  split; try (intros; by eauto). intros ctx fc a e e' d r i [= <- _ <-] [= <-]. done.
Qed.

Lemma honest_proposal_is_accepted_witness :
  (processProposalHandler (makeProcessProposalRouter sample_keeper) 1 (sample_sdk 200 2000)
     honest_request (sample_world [])).2 = Ret ACCEPT.
Proof.
  apply (honest_proposal_is_accepted 2 sample_keeper sample_keeper 1 1 (sample_sdk 200 2000) (sample_sdk 200 2000)
    (mkRequestPrepareProposal 200 sample_mempool) sample_votes honest_txs sample_state number_of is_building
    (sample_world []) honest_run.1 (sample_world [])).
  - exact honest_run_returns.
  - discriminate.
  - lia.
  - lia.
  - rewrite honest_txs_length. lia.
  - repeat constructor; vm_compute; discriminate.
  - reflexivity.
  - vm_compute. discriminate.
  - reflexivity.
  - reflexivity.
  - split; reflexivity.
  - exact obliging_contract.
  - reflexivity.
  - vm_compute. reflexivity.
  - apply sample_state_read.
  - apply sample_state_read.
Defined.

Lemma process_proposal_accepts_iff_witness :
  (processProposalHandler (makeProcessProposalRouter sample_keeper) 1 (sample_sdk 200 2000)
     honest_request (sample_world [])).2 = Ret ACCEPT ↔
  2 * total_power sample_votes < 3 * voted_power sample_votes ∧
  ∃ m st p, block_ok 1 honest_txs m ∧
    GetBlockState (sample_world []) = (sample_world [], Ret st) ∧
    payload_ok sample_keeper (sample_sdk 200 2000) m st p.
Proof.
  apply (process_proposal_accepts_iff sample_keeper 1 (sample_sdk 200 2000) honest_request).
  - discriminate.
  - lia.
  - change (rpr_Txs honest_request) with honest_txs. rewrite honest_txs_length. lia.
  - exact sample_votes_valid.
Defined.

Lemma process_proposal_has_no_effects_witness :
  let r := processProposalHandler (makeProcessProposalRouter sample_keeper) 1 (sample_sdk 200 2000)
             (mkRequestProcessProposal 200 ["Xbad"] sample_votes) (sample_world []) in
  r.2 = Ret REJECT ∧ w_store r.1 = w_store (sample_world []).
Proof.
  intros r. split; [vm_compute; reflexivity|].
  apply (process_proposal_has_no_effects sample_keeper 1 (sample_sdk 200 2000)
           (mkRequestProcessProposal 200 ["Xbad"] sample_votes) (sample_world []) r.1 r.2).
  subst r. by destruct (processProposalHandler _ _ _ _ _).
Defined.

Lemma accepted_proposal_is_finalized_witness :
  ∃ m p wf', block_ok 1 honest_txs m ∧
    ExecutableData_Unmarshal (mep_ExecutionPayload m) = Ret p ∧
    ExecutionPayload 1 sample_keeper (sample_sdk 200 2000) m (sample_world []) = (wf', Ret tt) ∧
    GetBlockState wf' = (wf', Ret (payload_state p)).
Proof.
  apply (accepted_proposal_is_finalized 0 sample_keeper 1 (sample_sdk 200 2000) (sample_sdk 200 2000)
           honest_request (sample_world []) (sample_world [])).
  - discriminate.
  - lia.
  - change (rpr_Txs honest_request) with honest_txs. rewrite honest_txs_length. lia.
  - vm_compute. reflexivity.
  - reflexivity.
  - reflexivity.
  - reflexivity.
  - reflexivity.
  - split; intros; do 2 eexists; (split; [reflexivity|]); simpl; auto; discriminate.
  - apply mapStore_writable.
  - intros m p Hok Hu. rewrite (honest_block_payload m Hok) in Hu.
    rewrite honest_decodes in Hu. injection Hu as <-. eexists. vm_compute. reflexivity.
Defined.

End Witnesses.
