(* ===== verification/Chain.v ===== *)
(** * The chain: all handlers together

    A node runs its handlers in an order CometBFT decides, repeats them (every
    round has its proposals) and may see any of them fail.  [step] is any one
    handler call with any arguments and any result, or time passing; the
    abstract specification is a head that is either kept or extended by one
    block.  The simulation theorem relates the two, and facts about whole
    executions follow by induction on the steps. *)

From S2P Require Import Prelude GoStd GoJson External ChainSpec Engine Concrete Async EvmTypes Keeper.
From S2P Require Import MsgServer Abci Proposal.

(** ** Abstract specification *)

(** [p] is a block on top of [b]. *)
Definition linked (b : BlockState) (p : ExecutableData) : Prop :=
  ed_ParentHash p = bs_Hash b ∧ ed_Number p = u64_add (bs_Height b) 1 ∧
  bs_Timestamp b < ed_Timestamp p ∧ valid_bs (payload_state p).

(** The blocks [ps] form a chain on [b] that ends at [b']. *)
Inductive chain_of : BlockState → list ExecutableData → BlockState → Prop :=
| chain_nil b : chain_of b [] b
| chain_cons b p ps b' : linked b p → chain_of (payload_state p) ps b' → chain_of b (p :: ps) b'.

(** Somewhere in a trace the execution client has executed [p]: newPayload
    answered VALID or SYNCING, then its hash made the head. *)
Definition executed_in (k : Keeper) (p : ExecutableData) (tr : list Event) : Prop :=
  ∃ before after args n m st1 st2, (st1 = VALID ∨ st1 = SYNCING) ∧ st2 ≠ INVALID ∧
    tr = (before ++ executed_events k p args n m st1 st2 ++ after)%list.

Lemma executed_in_app k p tr l : executed_in k p tr → executed_in k p (tr ++ l).
Proof.
  intros (before & after & args & n & m & st1 & st2 & H1 & H2 & ->).
  exists before, (after ++ l)%list, args, n, m, st1, st2. by rewrite <-!app_assoc.
Qed.

Lemma chain_of_app b ps b1 qs b' :
  chain_of b ps b1 → chain_of b1 qs b' → chain_of b (ps ++ qs) b'.
Proof. induction 1; [done|]. intros. constructor; auto. Qed.

Lemma chain_of_progress b ps b' :
  chain_of b ps b' → bs_Height b + Z.of_nat (length ps) < 2 ^ 64 → 0 ≤ bs_Height b →
  bs_Height b' = bs_Height b + Z.of_nat (length ps) ∧
  bs_Timestamp b + Z.of_nat (length ps) ≤ bs_Timestamp b'.
Proof.
  induction 1 as [b|b p ps b' (_ & Hh & Ht & _) Hs IH]; cbn [length]; intros Hb Hp; [lia|].
  rewrite u64_add_small in Hh by (unfold is_u64; lia). cbn [payload_state bs_Height bs_Timestamp] in IH.
  destruct IH as [??]; lia.
Qed.

Section Chain.
Context {E S : Type} `{!ItemStore S, !ItemStoreLaws S, !EngineClient E, !Host E,
  GoEthereumLaws, CosmosSDKLaws}.
Local Abbreviation W := (World E S).
Variable k : Keeper.
Variable max : Z.

(** ** The handlers of a node *)

(** Everything but the execution of a decided block. *)
Inductive local_step : W → W → Prop :=
| step_prepare fuel c req w w' o :
    prepareProposalHandler fuel k max c req w = (w', o) → local_step w w'
| step_process c req w w' o :
    processProposalHandler (makeProcessProposalRouter k) max c req w = (w', o) → local_step w w'
| step_update_params req w w' o :
    UpdateParams k req w = (w', o) → local_step w w'
| step_query_params req w w' o :
    Query_Params k req w = (w', o) → local_step w w'
| step_probe c b w w' o :
    ProbeCommittedExecutionHead c b w = (w', o) → local_step w w'
| step_export w w' o :
    ExportGenesis k w = (w', o) → local_step w w'
| step_outside w d e l :
    local_step w (mkWorld (w_now w + Z.of_N d) e (w_store w) (w_trace w ++ l) (w_lastLoggedRPCVersion w)).

Inductive step : W → W → Prop :=
| step_local w w' : local_step w w' → step w w'
| step_finalize fuel c req w w' o :
    ExecutionPayload fuel k c req w = (w', o) → step w w'.

(** The head a store holds. *)
Definition head (w : W) (b : BlockState) : Prop := GetBlockState w = (w, Ret b).

Lemma head_same_store w w' b : w_store w' = w_store w → head w b → head w' b.
Proof. unfold head, GetBlockState, read_store. intros -> [= ->]. done. Qed.

(** The handlers that write nothing; they only add to the trace. *)
Definition reads_only : relation W := fun w w' =>
  w_store w' = w_store w ∧ ∃ l, w_trace w' = (w_trace w ++ l)%list.

#[local] Instance reads_only_preorder : PreOrder reads_only.
Proof.
  split.
  - intros w. split; [done|]. exists []. by rewrite app_nil_r.
  - intros w1 w2 w3 [S1 [l1 T1]] [S2 [l2 T2]]. split; [congruence|]. exists (l1 ++ l2)%list.
    by rewrite T2, T1, app_assoc.
Qed.

Lemma reads_only_intro {A} (m : M W A) :
  preserves (same w_store) m → preserves (emits (fun _ => True)) m → preserves reads_only m.
Proof.
  intros Hs Ht w w' o Hr. split; [by eapply Hs|]. destruct (Ht _ _ _ Hr) as (l & Hl & _). by exists l.
Qed.

Lemma engine_call_reads_only {A} r (c : Call E A) : preserves reads_only (engine_call r c).
Proof. apply reads_only_intro; [apply engine_call_store|by apply engine_call_emits]. Qed.
Lemma emit_reads_only ev : preserves reads_only (emit ev : M W _).
Proof. apply reads_only_intro; [apply emit_store|by apply emit_emits]. Qed.
Lemma sleep_reads_only d : preserves reads_only (sleep d : M W _).
Proof. apply reads_only_intro; [apply sleep_store|apply sleep_emits]. Qed.
Lemma select_after_reads_only d c : preserves reads_only (select_after d c : M W _).
Proof. apply reads_only_intro; [apply select_after_store|apply select_after_emits]. Qed.
Lemma swap_reads_only v : preserves reads_only (swap_lastLoggedRPCVersion v : M W _).
Proof. apply reads_only_intro; [apply swap_store|apply swap_emits]. Qed.
#[local] Hint Resolve engine_call_reads_only emit_reads_only sleep_reads_only select_after_reads_only
  swap_reads_only : nexus.

Lemma prepareProposalHandler_reads fuel c req :
  preserves reads_only (prepareProposalHandler fuel k max c req : M W _).
Proof.
  unfold prepareProposalHandler, PrepareProposal, fetchPayload, GetBlockState, logger. preserving.
  - apply retry_preserves; [apply _| |apply sleep_reads_only].
    intros. unfold buildAttempt, buildExecutionPayload, GetBlockState, logger. preserving.
  - apply retry_preserves; [apply _| |apply sleep_reads_only].
    intros. unfold getPayloadAttempt, getPayload, logger. preserving.
Qed.

Lemma processProposalHandler_reads c req :
  preserves reads_only (processProposalHandler (makeProcessProposalRouter k) max c req : M W _).
Proof.
  unfold processProposalHandler, rejectProposal, logger, makeProcessProposalRouter,
    Proposal_ExecutionPayload, GetBlockState. preserving.
Qed.

Lemma Query_Params_reads req : preserves reads_only (Query_Params k req : M W _).
Proof. unfold Query_Params, Params_Get. preserving. Qed.

Lemma ProbeCommittedExecutionHead_reads c b :
  preserves reads_only (ProbeCommittedExecutionHead c b : M W _).
Proof. unfold ProbeCommittedExecutionHead. preserving. Qed.

Lemma ExportGenesis_reads : preserves reads_only (ExportGenesis k : M W _).
Proof. unfold ExportGenesis, Params_Get, GetBlockState. preserving. Qed.

Lemma UpdateParams_head req w w' o b : UpdateParams k req w = (w', o) → head w b → head w' b.
Proof.
  unfold UpdateParams, bindM, lift, Params_Set, Params_Validate, head. intros Hu Hb.
  destruct (StringToBytes _) as [a|e|s|]; cbn [wrap] in Hu; simplify_eq; try done.
  case_bool_decide; [|by unfold fail in Hu; simplify_eq].
  unfold write_store in Hu. destruct (Item_Set _ _ _ _) as [s'| | |] eqn:Hs; simplify_eq; try done.
  unfold GetBlockState, read_store in *. injection Hb as Hb. simpl. f_equal. rewrite <-Hb.
  eapply Item_Get_Set_ne; [|exact Hs]. discriminate.
Qed.

Lemma UpdateParams_trace req (w w' : W) o : UpdateParams k req w = (w', o) → w_trace w' = w_trace w.
Proof.
  intros Hu. enough (preserves (same w_trace) (UpdateParams k req : M W _)) as Hp by by eapply Hp.
  unfold UpdateParams, Params_Set. preserving. intros w1 w2 o1. unfold write_store.
  by destruct (Item_Set _ _ _ _); intros [= <- _].
Qed.

(** A step of the abstract chain: the head moves over [ps], and the execution
    client has executed each of them. *)
Definition advances (w w' : W) (b : BlockState) (ps : list ExecutableData) (b' : BlockState) : Prop :=
  head w' b' ∧ chain_of b ps b' ∧ Forall (fun p => executed_in k p (w_trace w')) ps ∧
  ∃ l, w_trace w' = (w_trace w ++ l)%list.

Lemma reads_only_advances w w' b : reads_only w w' → head w b → advances w w' b [] b.
Proof. intros [Hs Hl] Hb. split_and!; [by eapply head_same_store|constructor|constructor|done]. Qed.

Lemma advances_refl w b : head w b → advances w w b [] b.
Proof. apply reads_only_advances. reflexivity. Qed.

Lemma ExecutionPayload_trace fuel c req (w w' : W) o :
  ExecutionPayload fuel k c req w = (w', o) → ∃ l, w_trace w' = (w_trace w ++ l)%list.
Proof.
  intros Hx. enough (Hp : preserves (emits (fun _ => True)) (ExecutionPayload fuel k c req : M W _)).
  { destruct (Hp _ _ _ Hx) as (l & Hl & _). by exists l. }
  unfold ExecutionPayload, runPayload, SetBlockState, GetBlockState. preserving.
  - apply retry_preserves; [apply _| |apply sleep_emits].
    intros. unfold newPayloadAttempt, sendPayload. preserving.
  - apply retry_preserves; [apply _| |apply sleep_emits].
    intros. unfold forkchoiceAttempt. preserving.
Qed.

Lemma ExecutionPayload_advances fuel c req w w' o b :
  ExecutionPayload fuel k c req w = (w', o) → head w b →
  ∃ ps b', (length ps ≤ 1)%nat ∧ advances w w' b ps b'.
Proof.
  intros Hx Hb. pose proof (ExecutionPayload_trace _ _ _ _ _ _ Hx) as Htr.
  destruct (decide (is_ret o = true)) as [Ho|Ho].
  - destruct o as [[]| | |]; try done.
    apply ExecutionPayload_ret in Hx
      as [_ (st & p & args & n & m & s1 & s2 & Hg & Hok & _ & Hs1 & Hs2 & Ht & Hg' & _)].
    unfold head in Hb. assert (st = b) as -> by congruence.
    pose proof (payload_state_valid _ _ _ _ _ Hok). exists [p], (payload_state p). split; [done|].
    split_and!; [done| | |done].
    + constructor; [|constructor]. destruct Hok. done.
    + apply Forall_singleton. exists (w_trace w), [], args, n, m, s1, s2. by rewrite app_nil_r.
  - exists [], b. split; [cbn; lia|]. apply reads_only_advances; [|done]. split; [|done].
    eapply ExecutionPayload_store; [done|]. by intros ->.
Qed.

Lemma local_step_advances w w' b : local_step w w' → head w b → advances w w' b [] b.
Proof.
  intros Hs Hb. assert (Hkeep : reads_only w w' → advances w w' b [] b) by (intros; by apply reads_only_advances).
  destruct Hs as [fuel c req w w' o Hr|c req w w' o Hr|req w w' o Hr|req w w' o Hr|c b0 w w' o Hr|w w' o Hr|w d e l].
  - apply Hkeep. by eapply prepareProposalHandler_reads.
  - apply Hkeep. by eapply processProposalHandler_reads.
  - split_and!; [by eapply UpdateParams_head|constructor|constructor|].
    exists []. rewrite app_nil_r. by eapply UpdateParams_trace.
  - apply Hkeep. by eapply Query_Params_reads.
  - apply Hkeep. by eapply ProbeCommittedExecutionHead_reads.
  - apply Hkeep. by eapply ExportGenesis_reads.
  - apply Hkeep. split; [done|]. by exists l.
Qed.

Lemma step_simulates w w' b :
  step w w' → head w b → ∃ ps b', (length ps ≤ 1)%nat ∧ advances w w' b ps b'.
Proof.
  intros [w1 w1' Hs|fuel c req w1 w1' o Hr] Hb; [|by eapply ExecutionPayload_advances].
  exists [], b. split; [cbn; lia|by apply local_step_advances].
Qed.

Lemma advances_trans w w1 w2 b b1 b2 ps qs :
  advances w w1 b ps b1 → advances w1 w2 b1 qs b2 → advances w w2 b (ps ++ qs) b2.
Proof.
  intros (_ & Hc & Hx & [l Hl]) (Hh & Hc' & Hx' & [l' Hl']).
  split_and!; [done|by eapply chain_of_app| |].
  - apply Forall_app. split; [|done]. eapply Forall_impl; [exact Hx|]. intros p Hp. cbn.
    rewrite Hl'. by apply executed_in_app.
  - exists (l ++ l')%list. by rewrite Hl', Hl, app_assoc.
Qed.

Lemma steps_simulate w w' b :
  rtc step w w' → head w b → ∃ ps b', advances w w' b ps b'.
Proof.
  intros Hs. revert b. induction Hs as [w|w w1 w' H1' Hs IH]; intros b Hb.
  - exists [], b. by apply advances_refl.
  - destruct (step_simulates _ _ _ H1' Hb) as (ps & b1 & _ & Ha).
    destruct (IH b1 (proj1 Ha)) as (qs & b' & Hq). exists (ps ++ qs)%list, b'. by eapply advances_trans.
Qed.

(** C3: refinement.  Every handler call of a node, whatever its arguments and
    whatever its result, moves the head over at most one block: one that names
    the old head as its parent, has the next number and a later timestamp, and
    that the execution client has executed. *)
Theorem every_step_keeps_or_extends_the_head w w' b :
  step w w' → head w b → ∃ ps b', (length ps ≤ 1)%nat ∧ advances w w' b ps b'.
Proof. apply step_simulates. Qed.

(** C1: over any execution, in any order of handlers and failures, the head
    moves along one hash-linked chain of executed blocks, whose number is the
    gain in height and at most the gain in time; no block is ever skipped,
    replaced or undone. *)
Theorem chain_grows_one_block_at_a_time w w' b :
  rtc step w w' → head w b → valid_bs b →
  ∃ ps b', head w' b' ∧ chain_of b ps b' ∧ Forall (fun p => executed_in k p (w_trace w')) ps ∧
    (bs_Height b + Z.of_nat (length ps) < 2 ^ 64 →
     bs_Height b' = bs_Height b + Z.of_nat (length ps) ∧
     bs_Timestamp b + Z.of_nat (length ps) ≤ bs_Timestamp b').
Proof.
  intros Hs Hb (_ & Hh & _). destruct (steps_simulate _ _ _ Hs Hb) as (ps & b' & Hb' & Hn & Hx & _).
  exists ps, b'. split_and!; [done..|]. intros Hlt. unfold is_u64 in Hh.
  apply chain_of_progress; [done|done|lia].
Qed.

End Chain.

(** ** Witnesses: one block of the concrete node *)

Section Witnesses.
#[local] Existing Instances geth geth_laws cosmos cosmos_laws mapStore mapStore_laws exact_host honest_engine.

Definition committed : ConcreteWorld :=
  (ExecutionPayload 1 sample_keeper (sample_sdk 200 2000) (sample_msg ["a"]) (sample_world [])).1.

Lemma committed_step : step sample_keeper 1 (sample_world []) committed.
Proof.
  apply (step_finalize sample_keeper 1 1 (sample_sdk 200 2000) (sample_msg ["a"]) _ _
    (ExecutionPayload 1 sample_keeper (sample_sdk 200 2000) (sample_msg ["a"]) (sample_world [])).2).
  unfold committed. by destruct (ExecutionPayload _ _ _ _ _).
Qed.

Lemma every_step_keeps_or_extends_the_head_witness :
  ∃ ps b', (length ps ≤ 1)%nat ∧ advances sample_keeper (sample_world []) committed sample_state ps b'.
Proof.
  apply (every_step_keeps_or_extends_the_head sample_keeper 1 (sample_world [])).
  - exact committed_step.
  - apply sample_state_read.
Defined.

Lemma chain_grows_one_block_at_a_time_witness :
  ∃ ps b', head committed b' ∧ chain_of sample_state ps b' ∧
    Forall (fun p => executed_in sample_keeper p (w_trace committed)) ps ∧
    (bs_Height sample_state + Z.of_nat (length ps) < 2 ^ 64 →
     bs_Height b' = bs_Height sample_state + Z.of_nat (length ps) ∧
     bs_Timestamp sample_state + Z.of_nat (length ps) ≤ bs_Timestamp b').
Proof.
  apply (chain_grows_one_block_at_a_time sample_keeper 1 (sample_world [])).
  - eapply rtc_l; [exact committed_step|apply rtc_refl].
  - apply sample_state_read.
  - unfold valid_bs, is_hash, is_u64. simpl. lia.
Defined.

End Witnesses.
