(* ===== verification/GlobalFee.v ===== *)
(** * The global minimum gas price and the ante handler

    [x/globalfee] (parameters, keeper, genesis, the fee decorator) and
    [app/ante.go], which puts the decorator in front of the SDK's own chain
    and lets payload messages past both.  [math.LegacyDec], [sdk.DecCoin]'s
    JSON and the SDK's ante chain are library code: operations of a class or
    arguments. *)

From S2P Require Import Prelude GoStd External Engine Concrete.

Module GlobalFee.

Definition ModuleName : string := "globalfee".
Definition ChainDenom : string := "atnex".
Definition ParamsKey : string := "params".

(** [math.LegacyDec]: 18 decimals, represented by the number of 10^-18 units.
    The zero value of the Go type (a nil pointer, what JSON without the field
    leaves) is [None]; using it panics. *)
Definition precision : Z := 10 ^ 18.

Record DecCoin := mkDecCoin { Denom : string; Amount : option Z }.
Record Params := mkParams { MinimumGasPrice : DecCoin }.
Record GenesisState := mkGenesisState { gs_Params : Params }.

(** The library functions that are called. *)
Class SdkMath := {
  (** [Dec.MulInt], [Dec.Ceil], [Dec.TruncateInt]: panic beyond their width *)
  MulInt : Z → Z → outcome Z;
  Ceil : Z → outcome Z;
  TruncateInt : Z → outcome Z;
  (** [sdk.DecCoin.Validate] *)
  DecCoin_Validate : DecCoin → outcome unit;
  (** [Coins.AmountOf]: panics on a denomination that is not valid *)
  AmountOf : Coins → string → outcome Z;
  Dec_String : Z → string;
  (** [json.Marshal] / [json.Unmarshal] at [Params] and [GenesisState] *)
  ParamsJSON : ValueCodec Params;
  GenesisJSON : ValueCodec GenesisState }.

(** Products are exact, [Ceil] rounds up to a whole number, [TruncateInt]
    returns it. *)
Class SdkMathLaws `{SdkMath} := {
  MulInt_exact d n r : MulInt d n = Ret r → r = d * n;
  Ceil_up d r : 0 ≤ d → Ceil d = Ret r → ∃ q, r = q * precision ∧ d ≤ r < d + precision;
  TruncateInt_whole q r : 0 ≤ q → TruncateInt (q * precision) = Ret r → r = q;
  MulInt_returns d n : MulInt d n ≠ OutOfFuel;
  ParamsJSON_roundtrip p bz : vc_Encode ParamsJSON p = Ret bz → vc_Decode ParamsJSON bz = Ret p;
  GenesisJSON_roundtrip g bz : vc_Encode GenesisJSON g = Ret bz → vc_Decode GenesisJSON bz = Ret g }.

(** [store.KVStore]: a missing key is nil. *)
Class KVStore (St : Type) := {
  kv_Get : string → St → outcome (option string);
  kv_Set : string → string → St → outcome St }.

Class KVStoreLaws (St : Type) `{!KVStore St} := {
  kv_Get_Set k v s s' : kv_Set k v s = Ret s' → kv_Get k s' = Ret (Some v) }.

Definition DefaultParams : Params := mkParams (mkDecCoin ChainDenom (Some 0)).
Definition DefaultGenesis : GenesisState := mkGenesisState DefaultParams.

Definition nil_dereference : string := "runtime error: invalid memory address or nil pointer dereference".

Definition deref {A} (x : option A) : outcome A :=
  match x with Some a => Ret a | None => Panic nil_dereference end.

Section Types.
Context `{SdkMath}.

Definition Params_Validate (p : Params) : outcome unit :=
  do? wrap "minimum_gas_price" (DecCoin_Validate (MinimumGasPrice p)) in
  guard_err (bool_decide (Denom (MinimumGasPrice p) = ChainDenom))
    (errText ("minimum_gas_price: denom must be " +:+ ChainDenom +:+ ", got "
              +:+ Denom (MinimumGasPrice p))).

Definition GenesisState_Validate (gs : GenesisState) : outcome unit := Params_Validate (gs_Params gs).

Definition MarshalGenesis (gs : GenesisState) : outcome string := vc_Encode GenesisJSON gs.
Definition UnmarshalGenesis (bz : string) : outcome GenesisState := vc_Decode GenesisJSON bz.

End Types.

Section Keeper.
Context {St : Type} `{!KVStore St, SdkMath}.

Definition GetParams : M St Params := fun s =>
  (s, let? bz := must (kv_Get ParamsKey s) in
      match bz with
      | None => Ret DefaultParams
      | Some bz => must (vc_Decode ParamsJSON bz)
      end).

Definition SetParams (p : Params) : M St unit := fun s =>
  match (let? bz := vc_Encode ParamsJSON p in kv_Set ParamsKey bz s) with
  | Ret s' => (s', Ret tt)
  | Fail e => (s, Fail e)
  | Panic m => (s, Panic m)
  | OutOfFuel => (s, OutOfFuel)
  end.

Definition DefaultGenesis_JSON : string :=
  match MarshalGenesis DefaultGenesis with Ret bz => bz | _ => "" end.

Definition ValidateGenesis (bz : string) : outcome unit :=
  let? gs := UnmarshalGenesis bz in GenesisState_Validate gs.

Definition InitGenesis (bz : string) : M St unit :=
  let! gs := lift (must (UnmarshalGenesis bz)) in
  mustM (SetParams (gs_Params gs)).

Definition ExportGenesis : M St string :=
  let! p := GetParams in
  lift (must (MarshalGenesis (mkGenesisState p))).

(** ** The decorator *)

Definition AnteHandler : Type := SdkContext → Tx → bool → M St SdkContext.

Definition MinGasPriceDecorator_AnteHandle (ctx : SdkContext) (tx : Tx) (simulate : bool)
    (next : AnteHandler) : M St SdkContext :=
  if simulate then next ctx tx simulate
  else
    let! params := GetParams in
    let minPrice := MinimumGasPrice params in
    let! price := lift (deref (Amount minPrice)) in
    if price =? 0 then next ctx tx simulate
    else
      match tx_fee tx with
      | None => fail (errText "tx must implement sdk.FeeTx")
      | Some feeTx =>
          let gas := ft_Gas feeTx in
          let! product := lift (MulInt price gas) in
          let! ceiling := lift (Ceil product) in
          let! required := lift (TruncateInt ceiling) in
          let! paid := lift (AmountOf (ft_Fee feeTx) (Denom minPrice)) in
          if paid <? required then
            fail (errText ("insufficient fees: got " +:+ fmt_d paid +:+ Denom minPrice +:+ ", required "
              +:+ fmt_d required +:+ Denom minPrice +:+ " (gas " +:+ fmt_d gas +:+ " × price "
              +:+ Dec_String price +:+ ")"))
          else next ctx tx simulate
      end.

(** [newAnteHandler]; [sdkAnteHandler] is the chain of the SDK. *)
Definition anteHandler (sdkAnteHandler : AnteHandler) (ctx : SdkContext) (tx : Tx) (simulate : bool) :
    M St SdkContext :=
  match tx_Msgs tx with
  | [MExecutionPayload _] =>
      if sc_IsCheckTx ctx || sc_IsReCheckTx ctx then
        fail (errText "MsgExecutionPayload cannot be submitted directly")
      else ret ctx
  | _ => MinGasPriceDecorator_AnteHandle ctx tx simulate sdkAnteHandler
  end.

End Keeper.

(** ** Theorems *)

Section Claims.
Context {St : Type} `{!KVStore St, !KVStoreLaws St, SdkMathLaws}.

(** A payload message and nothing else. *)
Definition is_payload (tx : Tx) : Prop := ∃ m, tx_Msgs tx = [MExecutionPayload m].

(** What the minimum price asks of a transaction, in exact arithmetic:
    [paid >= price * gas]. *)
Definition pays (p : Params) (tx : Tx) : Prop :=
  ∃ price, Amount (MinimumGasPrice p) = Some price ∧
    (price = 0 ∨
     ∃ f paid, tx_fee tx = Some f ∧ AmountOf (ft_Fee f) (Denom (MinimumGasPrice p)) = Ret paid ∧
       price * ft_Gas f ≤ paid * precision).

Lemma GetParams_state (s s' : St) o : GetParams s = (s', o) → s' = s.
Proof. by intros [= <- _]. Qed.

Lemma decorator_ret ctx tx (next : AnteHandler) (s s' : St) c' p :
  GetParams s = (s, Ret p) → (∀ x, Amount (MinimumGasPrice p) = Some x → 0 ≤ x) →
  (∀ f, tx_fee tx = Some f → 0 ≤ ft_Gas f) →
  MinGasPriceDecorator_AnteHandle ctx tx false next s = (s', Ret c') →
  pays p tx ∧ next ctx tx false s = (s', Ret c').
Proof.
  intros Hp Hpos Hgas Hr. unfold MinGasPriceDecorator_AnteHandle in Hr.
  apply bindM_ret in Hr as (s1 & p' & Hp' & Hr). rewrite Hp in Hp'. simplify_eq.
  apply bindM_ret in Hr as (s2 & price & Hd & Hr). unfold lift, deref in Hd. simplify_eq.
  destruct (Amount (MinimumGasPrice p')) as [x|] eqn:Ha; [|done]. simplify_eq.
  specialize (Hpos price eq_refl). unfold pays. rewrite Ha.
  destruct (Z.eqb_spec price 0) as [->|Hne]; [split; [by eauto|done]|].
  destruct (tx_fee tx) as [f|] eqn:Hf; [|done]. specialize (Hgas f eq_refl).
  apply bindM_ret in Hr as (s3 & product & Hm & Hr). unfold lift in Hm. injection Hm as <- Hm.
  apply bindM_ret in Hr as (s4 & ceiling & Hc & Hr). unfold lift in Hc. injection Hc as <- Hc.
  apply bindM_ret in Hr as (s5 & required & Ht & Hr). unfold lift in Ht. injection Ht as <- Ht.
  apply MulInt_exact in Hm as ->. apply Ceil_up in Hc as (q & -> & Hq); [|nia].
  apply TruncateInt_whole in Ht as ->; [|unfold precision in Hq; nia].
  apply bindM_ret in Hr as (s6 & paid & Hpaid & Hr). unfold lift in Hpaid. injection Hpaid as <- Hpaid.
  destruct (Z.ltb_spec paid q); [done|].
  split; [|done]. exists price. split; [done|]. right. exists f, paid. split_and!; [done..|]. unfold precision in *. nia.
Qed.

(** C29: the minimum gas price is a consensus rule.  In every execution mode, a
    transaction that is neither a simulation nor a payload message passes the
    ante handler only if it pays at least [price * gas] (exactly, with no
    rounding in the sender's favour, for the whole uint64 range of gas), and
    then only if the SDK's own chain accepts it too. *)
Theorem ante_enforces_minimum_gas_price ctx tx (next : AnteHandler) (s s' : St) c' p :
  ¬ is_payload tx →
  GetParams s = (s, Ret p) → (∀ x, Amount (MinimumGasPrice p) = Some x → 0 ≤ x) →
  (∀ f, tx_fee tx = Some f → is_u64 (ft_Gas f)) →
  anteHandler next ctx tx false s = (s', Ret c') →
  pays p tx ∧ next ctx tx false s = (s', Ret c').
Proof.
  intros Hnp Hp Hpos Hgas Hr. apply (decorator_ret _ _ _ _ _ _ p Hp Hpos).
  - intros f Hf. destruct (Hgas f Hf). done.
  - unfold anteHandler in Hr. destruct (tx_Msgs tx) as [|[m|t b] [|m' l]] eqn:Hm; try done.
    exfalso. apply Hnp. by exists m.
Qed.

(** Payload messages never enter through the mempool, and pass untouched
    otherwise: rejected in CheckTx and ReCheckTx, accepted without fees, state
    change or the SDK's chain in every other mode. *)
Theorem ante_payload_only_from_proposals ctx tx simulate (next : AnteHandler) (s : St) :
  is_payload tx →
  anteHandler next ctx tx simulate s =
    if sc_IsCheckTx ctx || sc_IsReCheckTx ctx
    then (s, Fail (errText "MsgExecutionPayload cannot be submitted directly"))
    else (s, Ret ctx).
Proof. intros [m Hm]. unfold anteHandler. rewrite Hm. by case_match. Qed.

Lemma SetParams_get p (s s' : St) : SetParams p s = (s', Ret tt) → GetParams s' = (s', Ret p).
Proof.
  unfold SetParams, GetParams. destruct (bindO _ _) as [x| | |] eqn:Hb; intros; simplify_eq.
  apply bindO_ret in Hb as (bz & He & Hs). apply kv_Get_Set in Hs. rewrite Hs. cbn.
  by rewrite (ParamsJSON_roundtrip p bz He).
Qed.

Lemma SetParams_writable p bz (s : St) :
  (∀ k v (t : St), ∃ t', kv_Set k v t = Ret t') → vc_Encode ParamsJSON p = Ret bz →
  ∃ s', SetParams p s = (s', Ret tt).
Proof. intros Hw He. unfold SetParams. rewrite He. cbn. destruct (Hw ParamsKey bz s) as [s' ->]. eauto. Qed.

(** The parameters round trip.  On a store that can be written, parameters
    that encode are stored and read back, their export succeeds, and a chain
    initialized from that export has the same parameters. *)
Theorem globalfee_params_roundtrip p bz gbz (s : St) :
  (∀ k v (t : St), ∃ t', kv_Set k v t = Ret t') →
  vc_Encode ParamsJSON p = Ret bz → vc_Encode GenesisJSON (mkGenesisState p) = Ret gbz →
  ∃ s', SetParams p s = (s', Ret tt) ∧ GetParams s' = (s', Ret p) ∧
    ExportGenesis s' = (s', Ret gbz) ∧
    ∀ t : St, ∃ t', InitGenesis gbz t = (t', Ret tt) ∧ GetParams t' = (t', Ret p).
Proof.
  intros Hw He Hg. destruct (SetParams_writable p bz s Hw He) as [s' Hs]. exists s'.
  apply SetParams_get in Hs as Hp. split_and!; [done..| |].
  - unfold ExportGenesis, bindM. rewrite Hp. unfold lift, MarshalGenesis. by rewrite Hg.
  - intros t. destruct (SetParams_writable p bz t Hw He) as [t' Ht]. exists t'.
    split; [|by eapply SetParams_get]. unfold InitGenesis, bindM, lift, UnmarshalGenesis, mustM.
    rewrite (GenesisJSON_roundtrip _ _ Hg). cbn. by rewrite Ht.
Qed.

End Claims.

(** ** Witnesses *)

Section Witnesses.

#[local] Instance DecCoin_eq_dec : EqDecision DecCoin.
Proof. solve_decision. Defined.
#[local] Instance Params_eq_dec : EqDecision Params.
Proof. solve_decision. Defined.
#[local] Instance Params_countable : Countable Params.
Proof.
  refine (inj_countable' (fun p => (Denom (MinimumGasPrice p), Amount (MinimumGasPrice p)))
    (fun '(d, a) => mkParams (mkDecCoin d a)) _). by intros [[]].
Defined.

Definition countable_codec {A B} `{Countable B} (f : A → B) (g : B → A) : ValueCodec A :=
  mkValueCodec (fun a => Ret (encode_text (f a)))
    (fun s => match decode_text s with Some b => Ret (g b) | None => Fail syntax_error end).

(** Decimals without a width limit. *)
Definition wide_math : SdkMath := {|
  MulInt d n := Ret (d * n);
  Ceil d := Ret (- ((- d) / precision) * precision);
  TruncateInt d := Ret (Z.quot d precision);
  DecCoin_Validate c := match Amount c with Some a => guard_err (0 <=? a) syntax_error | None => Fail syntax_error end;
  AmountOf coins denom :=
    Ret (match List.find (fun c => bool_decide (fst c = denom)) coins with Some (_, a) => a | None => 0 end);
  Dec_String := fmt_d;
  ParamsJSON := countable_codec id id;
  GenesisJSON := countable_codec gs_Params mkGenesisState |}.

Lemma wide_math_laws : @SdkMathLaws wide_math.
Proof.
  split; cbn.
  - by intros d n r [= <-].
  - intros d r Hd [= <-]. eexists. split; [reflexivity|]. unfold precision.
    pose proof (Z.div_mod (- d) (10 ^ 18)). pose proof (Z.mod_pos_bound (- d) (10 ^ 18)). lia.
  - intros q r Hq [= <-]. apply Z.quot_mul. unfold precision. lia.
  - done.
  - intros p bz [= <-]. by rewrite decode_encode_text.
  - intros [p] bz [= <-]. by rewrite decode_encode_text.
Qed.

Definition mapKV : KVStore (gmap string string) := {|
  kv_Get k s := Ret (s !! k); kv_Set k v s := Ret (<[k := v]> s) |}.

Lemma mapKV_laws : @KVStoreLaws _ mapKV.
Proof. split. cbn. intros k v s s' [= <-]. by rewrite lookup_insert_eq. Qed.

#[local] Existing Instances wide_math wide_math_laws mapKV mapKV_laws.

(** Half a unit per gas. *)
Definition half : Params := mkParams (mkDecCoin ChainDenom (Some (5 * 10 ^ 17))).
Definition fee_store : gmap string string := (SetParams half ∅).1.

Definition check_ctx (check : bool) : SdkContext :=
  mkSdkContext Background 5 "" 0 ExecModeCheck check false.
Definition paying_tx (gas fee : Z) : Tx :=
  mkTx [MOther "bank" ""] None (Some (mkFeeTx gas [("other", 7); (ChainDenom, fee)])).

Lemma ante_enforces_minimum_gas_price_witness :
  pays half (paying_tx (2 ^ 64 - 1) (2 ^ 63)) ∧
  (anteHandler (fun c _ _ => ret c) (check_ctx true) (paying_tx 3 1) false fee_store).2
    = Fail (errText "insufficient fees: got 1atnex, required 2atnex (gas 3 × price 500000000000000000)").
Proof.
  split; [|vm_compute; reflexivity].
  refine (proj1 (ante_enforces_minimum_gas_price (check_ctx true) (paying_tx (2 ^ 64 - 1) (2 ^ 63))
    (fun c _ _ => ret c) fee_store fee_store (check_ctx true) half _ _ _ _ _)).
  - intros [m Hm]. discriminate Hm.
  - vm_compute. reflexivity.
  - intros x [= <-]. lia.
  - intros f [= <-]. unfold is_u64. simpl. lia.
  - vm_compute. reflexivity.
Defined.

Lemma ante_payload_only_from_proposals_witness :
  let tx := mkTx [MExecutionPayload (mkMsgExecutionPayload "a" "b")] None None in
  (anteHandler (fun _ _ _ => fail syntax_error) (check_ctx false) tx false fee_store).2
    = Ret (check_ctx false).
Proof.
  intros tx. rewrite ante_payload_only_from_proposals; [reflexivity|].
  eexists. reflexivity.
Defined.

Lemma globalfee_params_roundtrip_witness :
  ∃ s' : gmap string string, SetParams half ∅ = (s', Ret tt) ∧ GetParams s' = (s', Ret half) ∧
    ExportGenesis s' = (s', Ret (encode_text half)) ∧
    ∀ t : gmap string string, ∃ t', InitGenesis (encode_text half) t = (t', Ret tt) ∧ GetParams t' = (t', Ret half).
Proof.
  apply (globalfee_params_roundtrip half (encode_text half)).
  - intros k v t. eexists. reflexivity.
  - reflexivity.
  - reflexivity.
Defined.

End Witnesses.

End GlobalFee.
