(* ===== verification/Upgrades.v ===== *)
(** * Validator surgery: unjail, add, remove, reconcile

    [app/upgrades.go].  The staking, bank, slashing, distribution and account
    keepers are Cosmos SDK code: operations of a class over an abstract state,
    with the laws the theorems rely on in a class of their own.  Log lines are
    left out of this component.  [math.Int] is [Z] with the
    addition of the library, its zero value (a nil pointer) [None]. *)

From S2P Require Import Prelude GoStd External.

Module Upgrades.

(** ** SDK data *)

Definition BondedPoolName : string := "bonded_tokens_pool".
Definition NotBondedPoolName : string := "not_bonded_tokens_pool".
(** [sdk.DefaultBondDenom], as [init] of [app/app.go] sets it. *)
Definition DefaultBondDenom : string := "atnex".

Inductive BondStatus := Unspecified | Unbonded | Unbonding | Bonded.
#[export] Instance BondStatus_eq_dec : EqDecision BondStatus.
Proof. solve_decision. Defined.

(** What the code reads and writes of [stakingtypes.Validator]. *)
Record Validator := mkValidator {
  v_OperatorAddress : string;
  v_PubKey : string;
  v_Jailed : bool;
  v_Status : BondStatus;
  v_Tokens : option Z;
  v_DelegatorShares : Z;
  v_MinSelfDelegation : option Z }.

#[export] Instance Validator_eq_dec : EqDecision Validator.
Proof. solve_decision. Defined.

(** [slashingtypes.ValidatorSigningInfo]; times in nanoseconds. *)
Record SigningInfo := mkSigningInfo {
  si_Address : string; si_StartHeight : Z; si_IndexOffset : Z; si_JailedUntil : Z;
  si_Tombstoned : bool; si_MissedBlocksCounter : Z }.

(** [AddValidatorOptions] and [RemoveValidatorOptions]. *)
Record AddValidatorOptions := mkAddValidatorOptions {
  avo_PubKey : option string; avo_Description : string;
  avo_InitialTokens : option Z; avo_MinSelfDelegation : option Z }.

Record RemoveValidatorOptions := mkRemoveValidatorOptions {
  rvo_BurnTokens : bool; rvo_TokenRecipient : option string }.

(** ** The keepers *)

Class Keepers (St : Type) := {
  (** x/staking *)
  GetValidator : string → St → outcome Validator;
  SetValidator : Validator → M St unit;
  SetValidatorByConsAddr : Validator → M St unit;
  SetNewValidatorByPowerIndex : Validator → M St unit;
  DeleteValidatorByPowerIndex : Validator → M St unit;
  NewValidator : string → string → string → outcome Validator;
  GetConsAddr : Validator → outcome string;
  BondDenom : St → outcome string;
  GetAllValidators : St → outcome (list Validator);
  (** the balances of the entries the iteration visits, and its error *)
  IterateUnbondingDelegations : St → list (option Z) * option error;
  (** [Delegate] of the staking message server: delegator, validator, coin *)
  Delegate : string → string → string * Z → M St unit;
  (** [math.Int.Add] *)
  Int_Add : Z → Z → outcome Z;
  (** x/bank *)
  GetBalance : string → string → St → Z;
  MintCoins : string → string * Z → M St unit;
  BurnCoins : string → string * Z → M St unit;
  SendCoinsFromModuleToAccount : string → string → string * Z → M St unit;
  SendCoinsFromModuleToModule : string → string → string * Z → M St unit;
  (** x/auth *)
  GetModuleAddress : string → string;
  HasAccount : string → St → bool;
  NewAccountWithAddress : string → M St string;
  SetAccount : string → M St unit;
  (** x/slashing *)
  GetValidatorSigningInfo : string → St → outcome SigningInfo;
  SetValidatorSigningInfo : string → SigningInfo → M St unit;
  Unjail : string → M St unit;
  (** x/distribution, with the initial values the code passes *)
  SetValidatorHistoricalRewards : string → M St unit;
  SetValidatorCurrentRewards : string → M St unit;
  SetValidatorAccumulatedCommission : string → M St unit;
  FeePool_Get : St → outcome unit;
  FeePool_Set : M St unit;
  (** [ValAddress.String], [AccAddress.String] of the same bytes *)
  ValAddress_String : string → string;
  AccAddress_Text : string → string }.

Definition nil_dereference : string := "runtime error: invalid memory address or nil pointer dereference".
Definition deref {A} (x : option A) : outcome A :=
  match x with Some a => Ret a | None => Panic nil_dereference end.

(** [if err != nil { panic(fmt.Sprintf("p: %v", err)) }] *)
Definition panics_with {St A} (p : string) (m : M St A) : M St A := fun s =>
  match m s with (s', Fail e) => (s', Panic (p +:+ ": " +:+ Error e)) | r => r end.

Definition reads {St A} (f : St → outcome A) : M St A := fun s => (s, f s).

Section Upgrades.
Context {St : Type} `{!Keepers St}.

(** [setValidatorBalance]; the coin that is minted, sent and delegated is the
    same one ([sdk.NewCoins] of one positive coin is that coin). *)
Definition setValidatorBalance (valAddr : string) (validator : Validator) (target : Z) : M St unit :=
  let tokens := match v_Tokens validator with Some t => t | None => 0 end in
  if tokens <? target then
    let additionalTokens := (DefaultBondDenom, target - tokens) in
    do! wrapM "failed to mint additional tokens" (MintCoins BondedPoolName additionalTokens) in
    do! wrapM "failed to send minted tokens to validator account"
          (SendCoinsFromModuleToAccount BondedPoolName valAddr additionalTokens) in
    wrapM "failed to delegate tokens to validator account"
      (Delegate (AccAddress_Text valAddr) (ValAddress_String valAddr) additionalTokens)
  else ret tt.

Definition ExecuteUnjailing (ctx : SdkContext) (valAddr : string) (targetTokens : option Z) : M St unit :=
  let! validator := wrapM "failed to get validator" (reads (GetValidator valAddr)) in
  do! match targetTokens with
      | None => ret tt
      | Some target =>
          wrapM "failed to restore validator balance" (setValidatorBalance valAddr validator target)
      end in
  let! consAddr := lift (wrap "failed to get consensus address" (GetConsAddr validator)) in
  let! info := wrapM "failed to get signing info" (reads (GetValidatorSigningInfo consAddr)) in
  let info' := mkSigningInfo (si_Address info) (si_StartHeight info) (si_IndexOffset info)
                 (sc_BlockTime ctx - Second) (si_Tombstoned info) (si_MissedBlocksCounter info) in
  do! wrapM "failed to update signing info" (SetValidatorSigningInfo consAddr info') in
  wrapM "failed to unjail validator" (Unjail valAddr).

(** *** ExecuteAddValidator *)

(** A new record starts bonded, with no tokens and no shares. *)
Definition freshValidator (v : Validator) : Validator :=
  mkValidator (v_OperatorAddress v) (v_PubKey v) (v_Jailed v) Bonded (Some 0) 0 (v_MinSelfDelegation v).

Definition withMinSelfDelegation (v : Validator) (m : option Z) : Validator :=
  mkValidator (v_OperatorAddress v) (v_PubKey v) (v_Jailed v) (v_Status v) (v_Tokens v)
    (v_DelegatorShares v) m.

(** Signing info for a validator that has none. *)
Definition initSigningInfo (ctx : SdkContext) (consAddr : string) : M St unit := fun s =>
  match GetValidatorSigningInfo consAddr s with
  | Fail _ =>
      wrapM "failed to set signing info"
        (SetValidatorSigningInfo consAddr
           (mkSigningInfo consAddr (sc_Height ctx) (i64_sub (sc_Height ctx) 1) 0 false 0)) s
  | Ret _ => (s, Ret tt)
  | Panic m => (s, Panic m)
  | OutOfFuel => (s, OutOfFuel)
  end.

Definition initFeePool : M St unit := fun s =>
  match FeePool_Get s with
  | Fail _ => wrapM "failed to initialize fee pool" FeePool_Set s
  | Ret _ => (s, Ret tt)
  | Panic m => (s, Panic m)
  | OutOfFuel => (s, OutOfFuel)
  end.

(** The block under [if opts.MinSelfDelegation.IsPositive()]: the only place
    where the new validator is written. *)
Definition persistValidator (ctx : SdkContext) (valAddr : string) (validator : Validator) : M St Validator :=
  do! wrapM "failed to persist validator" (SetValidator validator) in
  do! wrapM "failed to index validator by cons addr" (SetValidatorByConsAddr validator) in
  do! wrapM "failed to index validator by power" (SetNewValidatorByPowerIndex validator) in
  let! consAddr := lift (wrap "failed to get consensus address" (GetConsAddr validator)) in
  do! initSigningInfo ctx consAddr in
  do! wrapM "failed to set validator historical rewards" (SetValidatorHistoricalRewards valAddr) in
  do! wrapM "failed to set validator current rewards" (SetValidatorCurrentRewards valAddr) in
  do! wrapM "failed to set validator accumulated commission" (SetValidatorAccumulatedCommission valAddr) in
  do! initFeePool in
  wrapM "failed to load validator after creation" (reads (GetValidator valAddr)).

Definition createAccount (delegatorAddr : string) : M St unit :=
  let! exists_ := gets (HasAccount delegatorAddr) in
  if exists_ then ret tt
  else
    let! newAccount := NewAccountWithAddress delegatorAddr in
    SetAccount newAccount.

Definition is_positive (x : option Z) : bool :=
  match x with Some z => 0 <? z | None => false end.

Definition createValidator (ctx : SdkContext) (valAddr : string) (opts : AddValidatorOptions)
    (pubKey : string) (initialTokens : Z) : M St unit :=
  do! createAccount valAddr in
  let! built := lift (wrap "failed to build validator"
                        (NewValidator (ValAddress_String valAddr) pubKey (avo_Description opts))) in
  let fresh := freshValidator built in
  let! validator :=
    (if is_positive (avo_MinSelfDelegation opts) then
       persistValidator ctx valAddr (withMinSelfDelegation fresh (avo_MinSelfDelegation opts))
     else ret fresh) in
  wrapM "failed to ensure validator balance" (setValidatorBalance valAddr validator initialTokens).

Definition ExecuteAddValidator (ctx : SdkContext) (valAddr : string) (opts : option AddValidatorOptions) :
    M St unit :=
  let! r := try (reads (GetValidator valAddr)) in
  match r with
  | inl _ => ret tt
  | inr err =>
      let notFound : M St unit :=
        fail (errWrapf "validator not found: " err " (provide AddValidatorOptions with PubKey to create)") in
      match opts with
      | None => notFound
      | Some o =>
          match avo_PubKey o with
          | None => notFound
          | Some pubKey =>
              match avo_InitialTokens o with
              | Some t =>
                  if 0 <? t then createValidator ctx valAddr o pubKey t
                  else fail (errText "initial_tokens must be a positive amount")
              | None => fail (errText "initial_tokens must be a positive amount")
              end
          end
      end
  end.

(** *** ExecuteRemoveValidator *)

(** [time.Unix(253402300799, 0)], the end of year 9999. *)
Definition year9999 : Z := 253402300799 * Second.

Definition tombstoneValidator (consAddr : string) : M St unit :=
  let! info := panics_with "[RMVAL] failed to get validator signing info"
                 (reads (GetValidatorSigningInfo consAddr)) in
  if si_Tombstoned info then ret tt
  else
    panics_with "[RMVAL] failed to tombstone validator"
      (SetValidatorSigningInfo consAddr
         (mkSigningInfo (si_Address info) (si_StartHeight info) (si_IndexOffset info) year9999
            true (si_MissedBlocksCounter info))).

Definition handleValidatorTokens (validator : Validator) (opts : option RemoveValidatorOptions) : M St bool :=
  match opts with
  | None => ret false
  | Some o =>
      let! tokens := lift (deref (v_Tokens validator)) in
      if negb (0 <? tokens) then ret false
      else if negb (rvo_BurnTokens o) && bool_decide (rvo_TokenRecipient o = None) then ret false
      else
        let! bondDenom := panics_with "[RMVAL] failed to get bond denom" (reads BondDenom) in
        let poolName := if bool_decide (v_Status validator = Bonded) then BondedPoolName
                        else NotBondedPoolName in
        let! poolBalance := gets (GetBalance (GetModuleAddress poolName) bondDenom) in
        let amount := if poolBalance <? tokens then poolBalance else tokens in
        if negb (0 <? amount) then ret false
        else
          let coins := (bondDenom, amount) in
          if rvo_BurnTokens o then
            do! panics_with ("[RMVAL] failed to burn tokens from " +:+ poolName) (BurnCoins poolName coins) in
            ret true
          else
            match rvo_TokenRecipient o with
            | Some recipient =>
                do! panics_with ("[RMVAL] failed to transfer tokens from " +:+ poolName)
                      (SendCoinsFromModuleToAccount poolName recipient coins) in
                ret true
            | None => ret false
            end
  end.

Definition jailedRecord (v : Validator) (tokensBurned : bool) : Validator :=
  mkValidator (v_OperatorAddress v) (v_PubKey v) true (v_Status v)
    (if tokensBurned then Some 0 else v_Tokens v) (if tokensBurned then 0 else v_DelegatorShares v)
    (v_MinSelfDelegation v).

Definition ExecuteRemoveValidator (valAddr : string) (opts : option RemoveValidatorOptions) : M St unit :=
  let! validator := panics_with "[RMVAL] validator not found" (reads (GetValidator valAddr)) in
  let! consAddr := panics_with "[RMVAL] failed to get consensus address" (lift (GetConsAddr validator)) in
  do! tombstoneValidator consAddr in
  do! (if negb (v_Jailed validator) then
         panics_with "[RMVAL] failed to delete validator from power index"
           (DeleteValidatorByPowerIndex validator)
       else ret tt) in
  let! tokensBurned := handleValidatorTokens validator opts in
  if negb (v_Jailed validator) || tokensBurned then
    panics_with "[RMVAL] failed to update validator" (SetValidator (jailedRecord validator tokensBurned))
  else ret tt.

(** *** ExecuteReconcileStakingPools *)

(** The loop over the validators: bonded and not-bonded sums.  [math.Int.Add]
    panics when the result does not fit in 256 bits. *)
Fixpoint sumValidators (vs : list Validator) (bondedSum notBondedSum : Z) : outcome (Z * Z) :=
  match vs with
  | [] => Ret (bondedSum, notBondedSum)
  | v :: vs' =>
      match v_Tokens v with
      | None => sumValidators vs' bondedSum notBondedSum
      | Some t =>
          if bool_decide (v_Status v = Bonded) then
            let? bondedSum' := Int_Add (St := St) bondedSum t in sumValidators vs' bondedSum' notBondedSum
          else
            let? notBondedSum' := Int_Add (St := St) notBondedSum t in sumValidators vs' bondedSum notBondedSum'
      end
  end.

(** The callback over the unbonding delegations' entries. *)
Fixpoint sumUnbonding (entries : list (option Z)) (notBondedSum : Z) : outcome Z :=
  match entries with
  | [] => Ret notBondedSum
  | Some b :: entries' =>
      if 0 <? b then let? notBondedSum' := Int_Add (St := St) notBondedSum b in sumUnbonding entries' notBondedSum'
      else sumUnbonding entries' notBondedSum
  | None :: entries' => sumUnbonding entries' notBondedSum
  end.

(** A failed call is logged and execution goes on. *)
Definition tolerate (m : M St unit) : M St unit :=
  let! r := try m in ret tt.

Definition reconcileBonded (sum : Z) : M St unit :=
  let! bal := gets (GetBalance (GetModuleAddress BondedPoolName) DefaultBondDenom) in
  if bal <? sum then tolerate (MintCoins BondedPoolName (DefaultBondDenom, sum - bal)) else ret tt.

Definition reconcileNotBonded (sum : Z) : M St unit :=
  let! bal := gets (GetBalance (GetModuleAddress NotBondedPoolName) DefaultBondDenom) in
  if bal <? sum then
    let coins := (DefaultBondDenom, sum - bal) in
    let! r := try (MintCoins BondedPoolName coins) in
    match r with
    | inr _ => ret tt
    | inl _ => tolerate (SendCoinsFromModuleToModule BondedPoolName NotBondedPoolName coins)
    end
  else ret tt.

Definition ExecuteReconcileStakingPools : M St unit :=
  let! r := try (reads GetAllValidators) in
  match r with
  | inr _ => ret tt
  | inl validators =>
      let! sums := lift (sumValidators validators 0 0) in
      let! ubds := gets IterateUnbondingDelegations in
      let! notBondedSum := lift (sumUnbonding (fst ubds) (snd sums)) in
      do! reconcileBonded (fst sums) in
      reconcileNotBonded notBondedSum
  end.

End Upgrades.

(** ** Laws of the bank and of what it does not touch *)

Class KeeperLaws (St : Type) `{!Keepers St} := {
  GetBalance_nonneg x d s : 0 ≤ GetBalance x d s;
  (** sums that fit in 256 bits are exact *)
  Int_Add_fits a b : Z.abs (a + b) < 2 ^ 256 → Int_Add (St := St) a b = Ret (a + b);
  pools_distinct : GetModuleAddress BondedPoolName ≠ GetModuleAddress NotBondedPoolName;
  Mint_balance m d a s s' x d' : MintCoins m (d, a) s = (s', Ret tt) →
    GetBalance x d' s' = GetBalance x d' s
      + (if bool_decide (x = GetModuleAddress m ∧ d' = d) then a else 0);
  Mint_staking m c s s' o : MintCoins m c s = (s', o) →
    GetAllValidators s' = GetAllValidators s ∧
    IterateUnbondingDelegations s' = IterateUnbondingDelegations s ∧
    ∀ v, GetValidator v s' = GetValidator v s;
  Send_balance m m' d a s s' x d' : SendCoinsFromModuleToModule m m' (d, a) s = (s', Ret tt) →
    GetBalance x d' s' = GetBalance x d' s
      - (if bool_decide (x = GetModuleAddress m ∧ d' = d) then a else 0)
      + (if bool_decide (x = GetModuleAddress m' ∧ d' = d) then a else 0);
  Send_staking m m' c s s' o : SendCoinsFromModuleToModule m m' c s = (s', o) →
    GetAllValidators s' = GetAllValidators s ∧
    IterateUnbondingDelegations s' = IterateUnbondingDelegations s;
  Pay_balance m x c s s' y d : SendCoinsFromModuleToAccount m x c s = (s', Ret tt) →
    GetBalance y d s' = GetBalance y d s
      - (if bool_decide (y = GetModuleAddress m ∧ d = fst c) then snd c else 0)
      + (if bool_decide (y = x ∧ d = fst c) then snd c else 0);
  Pay_staking m x c s s' o : SendCoinsFromModuleToAccount m x c s = (s', o) →
    (∀ v, GetValidator v s' = GetValidator v s) ∧
    ∀ a, GetValidatorSigningInfo a s' = GetValidatorSigningInfo a s;
  Burn_staking m c s s' o : BurnCoins m c s = (s', o) →
    (∀ v, GetValidator v s' = GetValidator v s) ∧
    ∀ a, GetValidatorSigningInfo a s' = GetValidatorSigningInfo a s;
  Delete_slashing v s s' o : DeleteValidatorByPowerIndex v s = (s', o) →
    ∀ a, GetValidatorSigningInfo a s' = GetValidatorSigningInfo a s;
  SetValidator_get v s s' valAddr : SetValidator v s = (s', Ret tt) →
    v_OperatorAddress v = ValAddress_String valAddr → GetValidator valAddr s' = Ret v;
  SetValidator_slashing v s s' o : SetValidator v s = (s', o) →
    ∀ a, GetValidatorSigningInfo a s' = GetValidatorSigningInfo a s;
  SetInfo_get a i s s' : SetValidatorSigningInfo a i s = (s', Ret tt) →
    GetValidatorSigningInfo a s' = Ret i;
  SetInfo_staking a i s s' o : SetValidatorSigningInfo a i s = (s', o) →
    ∀ v, GetValidator v s' = GetValidator v s;
  GetValidator_operator v s r : GetValidator v s = Ret r → v_OperatorAddress r = ValAddress_String v;
  (** a delegation to a validator that does not exist is an error *)
  Delegate_missing d v c s e : GetValidator v s = Fail e →
    ∃ s' e', Delegate d (ValAddress_String v) c s = (s', Fail e') ∧
      ∀ y dn, GetBalance y dn s' = GetBalance y dn s;
  NewAccount_neutral a s s' o : NewAccountWithAddress a s = (s', o) →
    (∀ v, GetValidator v s' = GetValidator v s) ∧ (∀ y d, GetBalance y d s' = GetBalance y d s);
  SetAccount_neutral a s s' o : SetAccount a s = (s', o) →
    (∀ v, GetValidator v s' = GetValidator v s) ∧ (∀ y d, GetBalance y d s' = GetBalance y d s) }.

(** ** Theorems: reconciliation *)

Section Reconcile.
Context {St : Type} `{!Keepers St, !KeeperLaws St}.

Definition bonded_balance (s : St) : Z := GetBalance (GetModuleAddress BondedPoolName) DefaultBondDenom s.
Definition not_bonded_balance (s : St) : Z :=
  GetBalance (GetModuleAddress NotBondedPoolName) DefaultBondDenom s.

(** The bonded pool may mint, and may send what it has. *)
Definition bank_works : Prop :=
  (∀ d a (s : St), 0 < a < 2 ^ 256 → ∃ s', MintCoins BondedPoolName (d, a) s = (s', Ret tt)) ∧
  ∀ d a (s : St), 0 < a ≤ GetBalance (GetModuleAddress BondedPoolName) d s →
    ∃ s', SendCoinsFromModuleToModule BondedPoolName NotBondedPoolName (d, a) s = (s', Ret tt).

(** The staking data that the sums are made of. *)
Definition same_staking (s s' : St) : Prop :=
  GetAllValidators s' = GetAllValidators s ∧
  IterateUnbondingDelegations s' = IterateUnbondingDelegations s.

(** What the staking records claim: tokens of the bonded validators, and
    tokens of the others plus the positive unbonding balances. *)
Definition tokens_if (p : Validator → bool) (v : Validator) : Z :=
  if p v then default 0 (v_Tokens v) else 0.
Definition is_bonded (v : Validator) : bool := bool_decide (v_Status v = Bonded).
Definition total (l : list Z) : Z := foldr Z.add 0 l.
Definition bonded_claims (vs : list Validator) : Z := total (tokens_if is_bonded <$> vs).
Definition positive_part (e : option Z) : Z := Z.max 0 (default 0 e).
Definition not_bonded_claims (vs : list Validator) (entries : list (option Z)) : Z :=
  total (tokens_if (negb ∘ is_bonded) <$> vs) + total (positive_part <$> entries).

(** No negative tokens, and sums that 256 bits hold. *)
Definition claims_fit (vs : list Validator) (entries : list (option Z)) : Prop :=
  Forall (fun v => 0 ≤ default 0 (v_Tokens v)) vs ∧
  bonded_claims vs < 2 ^ 256 ∧ not_bonded_claims vs entries < 2 ^ 256.

Lemma tokens_if_eq p v : tokens_if p v = if p v then default 0 (v_Tokens v) else 0.
Proof. done. Qed.

Lemma total_cons z l : total (z :: l) = z + total l.
Proof. done. Qed.

Lemma total_tokens_nonneg p vs :
  Forall (fun v => 0 ≤ default 0 (v_Tokens v)) vs → 0 ≤ total (tokens_if p <$> vs).
Proof.
  induction 1 as [|v vs Hv _ IH]; [done|]. rewrite fmap_cons, total_cons. unfold tokens_if at 1.
  destruct (p v); lia.
Qed.

Lemma total_entries_nonneg entries : 0 ≤ total (positive_part <$> entries).
Proof. induction entries as [|e l IH]; [done|]. rewrite fmap_cons, total_cons. unfold positive_part at 1. lia. Qed.

Lemma Int_Add_nonneg a b : 0 ≤ a → 0 ≤ b → a + b < 2 ^ 256 → Int_Add (St := St) a b = Ret (a + b).
Proof. intros. apply Int_Add_fits. by rewrite Z.abs_eq by lia. Qed.

Lemma sumValidators_exact vs b nb :
  Forall (fun v => 0 ≤ default 0 (v_Tokens v)) vs → 0 ≤ b → 0 ≤ nb →
  b + bonded_claims vs < 2 ^ 256 → nb + total (tokens_if (negb ∘ is_bonded) <$> vs) < 2 ^ 256 →
  sumValidators vs b nb =
    Ret (b + bonded_claims vs, nb + total (tokens_if (negb ∘ is_bonded) <$> vs)).
Proof.
  intros Hf. revert b nb. induction Hf as [|v vs Hv Hf IH]; intros b nb Hb Hnb Hbf Hnf.
  { by rewrite !Z.add_0_r. }
  pose proof (total_tokens_nonneg is_bonded _ Hf). pose proof (total_tokens_nonneg (negb ∘ is_bonded) _ Hf).
  unfold bonded_claims in *. rewrite !fmap_cons, !total_cons in *. cbn [sumValidators].
  fold (is_bonded v). rewrite !tokens_if_eq in *. change ((negb ∘ is_bonded) v) with (negb (is_bonded v)) in *.
  destruct (v_Tokens v) as [t|]; cbn [from_option id] in *.
  - destruct (is_bonded v); cbn [negb] in *; rewrite Int_Add_nonneg by lia; cbn [bindO]; rewrite IH by lia;
      f_equal; f_equal; lia.
  - rewrite IH by (destruct (is_bonded v); cbn [negb] in *; lia).
    destruct (is_bonded v); f_equal; f_equal; cbn; lia.
Qed.

Lemma sumUnbonding_exact entries nb :
  0 ≤ nb → nb + total (positive_part <$> entries) < 2 ^ 256 →
  sumUnbonding entries nb = Ret (nb + total (positive_part <$> entries)).
Proof.
  revert nb. induction entries as [|e l IH]; intros nb Hnb Hf; [by rewrite Z.add_0_r|].
  pose proof (total_entries_nonneg l). rewrite fmap_cons, total_cons in *.
  unfold positive_part at 1 in Hf. unfold positive_part at 1.
  destruct e as [t|]; cbn [from_option id sumUnbonding] in *.
  - destruct (Z.ltb_spec 0 t); [rewrite Int_Add_nonneg by lia; cbn [bindO]|]; rewrite IH by lia; f_equal; lia.
  - rewrite IH by lia. f_equal; lia.
Qed.

Lemma reconcileBonded_ok sum (s : St) :
  bank_works → sum < 2 ^ 256 →
  ∃ s', reconcileBonded sum s = (s', Ret tt) ∧ same_staking s s' ∧
    bonded_balance s' = Z.max (bonded_balance s) sum ∧ not_bonded_balance s' = not_bonded_balance s ∧
    (sum ≤ bonded_balance s → s' = s).
Proof.
  intros [Hm _] Hfit. pose proof (GetBalance_nonneg (GetModuleAddress BondedPoolName) DefaultBondDenom s).
  unfold reconcileBonded, tolerate. unfold_monad. fold (bonded_balance s).
  destruct (Z.ltb_spec (bonded_balance s) sum) as [Hlt|Hge].
  - destruct (Hm DefaultBondDenom (sum - bonded_balance s) s) as [s' Hs]; [unfold bonded_balance in *; lia|]. rewrite Hs. exists s'.
    destruct (Mint_staking _ _ _ _ _ Hs) as (? & ? & _). split_and!; [done|done| | |lia];
      unfold bonded_balance, not_bonded_balance in *; rewrite (Mint_balance _ _ _ _ _ _ _ Hs).
    + rewrite bool_decide_eq_true_2 by done. lia.
    + rewrite bool_decide_eq_false_2; [lia|]. intros [Heq _]. by apply pools_distinct.
  - exists s. split_and!; [done|done|lia|done|done].
Qed.

Lemma reconcileNotBonded_ok sum (s : St) :
  bank_works → sum < 2 ^ 256 →
  ∃ s', reconcileNotBonded sum s = (s', Ret tt) ∧ same_staking s s' ∧
    not_bonded_balance s' = Z.max (not_bonded_balance s) sum ∧ bonded_balance s' = bonded_balance s ∧
    (sum ≤ not_bonded_balance s → s' = s).
Proof.
  intros [Hm Hsend] Hfit.
  pose proof (GetBalance_nonneg (GetModuleAddress NotBondedPoolName) DefaultBondDenom s).
  unfold reconcileNotBonded, tolerate. unfold_monad. fold (not_bonded_balance s).
  destruct (Z.ltb_spec (not_bonded_balance s) sum) as [Hlt|Hge].
  - set (a := sum - not_bonded_balance s). destruct (Hm DefaultBondDenom a s) as [s1 H1]; [unfold not_bonded_balance in *; lia|]. rewrite H1.
    assert (Hb1 : bonded_balance s1 = bonded_balance s + a).
    { unfold bonded_balance. rewrite (Mint_balance _ _ _ _ _ _ _ H1). by rewrite bool_decide_eq_true_2. }
    assert (Hn1 : not_bonded_balance s1 = not_bonded_balance s).
    { unfold not_bonded_balance. rewrite (Mint_balance _ _ _ _ _ _ _ H1).
      rewrite bool_decide_eq_false_2; [lia|]. intros [Heq _]. by apply pools_distinct. }
    destruct (Hsend DefaultBondDenom a s1) as [s2 H2].
    { fold (bonded_balance s1). rewrite Hb1.
      pose proof (GetBalance_nonneg (GetModuleAddress BondedPoolName) DefaultBondDenom s).
      unfold bonded_balance. lia. }
    rewrite H2. exists s2.
    destruct (Mint_staking _ _ _ _ _ H1) as (Ha & Hb & _). destruct (Send_staking _ _ _ _ _ _ H2) as (Hc & Hd).
    split_and!; [done|split; congruence| | |lia];
      unfold bonded_balance, not_bonded_balance in *; rewrite (Send_balance _ _ _ _ _ _ _ _ H2).
    + rewrite bool_decide_eq_false_2, bool_decide_eq_true_2; [lia|done|].
      intros [Heq _]. by apply pools_distinct.
    + rewrite bool_decide_eq_true_2, bool_decide_eq_false_2; [lia| |done].
      intros [Heq _]. by apply pools_distinct.
  - exists s. split_and!; [done|done|lia|done|done].
Qed.

Lemma reconcile_run vs entries (s s1 s2 : St) :
  GetAllValidators s = Ret vs → fst (IterateUnbondingDelegations s) = entries → claims_fit vs entries →
  reconcileBonded (bonded_claims vs) s = (s1, Ret tt) →
  reconcileNotBonded (not_bonded_claims vs entries) s1 = (s2, Ret tt) →
  ExecuteReconcileStakingPools s = (s2, Ret tt).
Proof.
  intros Hv <- (Hf & Hb & Hn) H1 H2. unfold ExecuteReconcileStakingPools, reads. unfold_monad. rewrite Hv.
  unfold not_bonded_claims in *.
  pose proof (total_entries_nonneg (fst (IterateUnbondingDelegations s))).
  pose proof (total_tokens_nonneg (negb ∘ is_bonded) _ Hf).
  rewrite sumValidators_exact by (try done; lia). rewrite !Z.add_0_l. cbn [fst snd].
  rewrite sumUnbonding_exact by lia. rewrite H1. exact H2.
Qed.

(** C34: reconciliation fills both pools to exactly what the staking records
    claim (validator tokens by status, plus the positive unbonding balances in
    the not-bonded pool), never takes anything out of a pool, and is idempotent:
    a second run changes nothing. *)
Theorem reconcile_funds_both_pools vs (s : St) :
  bank_works → GetAllValidators s = Ret vs → claims_fit vs (fst (IterateUnbondingDelegations s)) →
  ∃ s', ExecuteReconcileStakingPools s = (s', Ret tt) ∧
    bonded_balance s' = Z.max (bonded_balance s) (bonded_claims vs) ∧
    not_bonded_balance s' =
      Z.max (not_bonded_balance s) (not_bonded_claims vs (fst (IterateUnbondingDelegations s))) ∧
    ExecuteReconcileStakingPools s' = (s', Ret tt).
Proof.
  intros Hbank Hv Hfit. pose proof Hfit as (_ & Hfb & Hfn). set (es := fst (IterateUnbondingDelegations s)) in *.
  destruct (reconcileBonded_ok (bonded_claims vs) s Hbank Hfb) as (s1 & H1 & [Hv1 Hu1] & Hb1 & Hn1 & _).
  destruct (reconcileNotBonded_ok (not_bonded_claims vs es) s1 Hbank Hfn)
    as (s2 & H2 & [Hv2 Hu2] & Hn2 & Hb2 & _).
  exists s2. split_and!; [by eapply reconcile_run|congruence|congruence|].
  destruct (reconcileBonded_ok (bonded_claims vs) s2 Hbank Hfb) as (s3 & H3 & _ & _ & _ & He3).
  assert (s3 = s2) as -> by (apply He3; rewrite Hb2, Hb1; lia).
  destruct (reconcileNotBonded_ok (not_bonded_claims vs es) s2 Hbank Hfn) as (s4 & H4 & _ & _ & _ & He4).
  assert (s4 = s2) as -> by (apply He4; rewrite Hn2; lia).
  apply (reconcile_run vs es s2 s2 s2); [congruence| |done|exact H3|exact H4]. by rewrite Hu2, Hu1.
Qed.

End Reconcile.

(** ** Theorems: removal *)

Section Remove.
Context {St : Type} `{!Keepers St, !KeeperLaws St}.

(** A call that never returns an error: it returns or panics. *)
Definition no_error {A} (m : M St A) : Prop := ∀ s e, (m s).2 ≠ Fail e.

Lemma no_error_bind {A B} (m : M St A) (f : A → M St B) :
  no_error m → (∀ a, no_error (f a)) → no_error (bindM m f).
Proof.
  intros Hm Hf s e. unfold bindM. specialize (Hm s). destruct (m s) as [s1 [a|e'|x|]]; simpl in *; try done.
  - apply Hf.
  - intros [= ->]. by apply (Hm e).
Qed.

Lemma no_error_panics {A} p (m : M St A) : no_error (panics_with p m).
Proof. intros s e. unfold panics_with. by destruct (m s) as [s1 [a|e'|x|]]. Qed.

Lemma no_error_ret {A} (a : A) : no_error (ret a).
Proof. done. Qed.

#[local] Hint Resolve no_error_panics no_error_ret : nexus.

Lemma handleValidatorTokens_no_error v opts : no_error (handleValidatorTokens v opts).
Proof.
  unfold handleValidatorTokens, deref.
  repeat first [by eauto with nexus | apply no_error_bind; [|intros] | case_match; simplify_eq | by intros ?? ].
Qed.

Lemma tombstoneValidator_ret c (s s' : St) :
  tombstoneValidator c s = (s', Ret tt) →
  (∀ v, GetValidator v s' = GetValidator v s) ∧
  ∃ i, GetValidatorSigningInfo c s' = Ret i ∧ si_Tombstoned i = true.
Proof.
  unfold tombstoneValidator. intros Hr. apply bindM_ret in Hr as (s1 & i & Hi & Hr).
  unfold panics_with, reads in Hi. destruct (GetValidatorSigningInfo c s) eqn:Hg; simplify_eq.
  destruct (si_Tombstoned i) eqn:Ht; [unfold ret in Hr; simplify_eq; eauto|].
  unfold panics_with in Hr. destruct (SetValidatorSigningInfo _ _ _) as [s2 [[]| | |]] eqn:Hs; simplify_eq.
  split; [by eapply SetInfo_staking|]. eexists. split; [by eapply SetInfo_get|done].
Qed.

(** Without a burn nothing is written; with one, only balances are. *)
Lemma handleValidatorTokens_ret v opts (s s' : St) b :
  handleValidatorTokens v opts s = (s', Ret b) →
  (b = false → s' = s) ∧ ∀ a, GetValidatorSigningInfo a s' = GetValidatorSigningInfo a s.
Proof.
  unfold handleValidatorTokens. destruct opts as [o|]; [|unfold ret; naive_solver]. intros Hr.
  apply bindM_ret in Hr as (s1 & tokens & Hd & Hr). unfold lift in Hd. injection Hd as <- _.
  destruct (negb (0 <? tokens)); [unfold ret in Hr; naive_solver|].
  destruct (_ && _); [unfold ret in Hr; naive_solver|].
  apply bindM_ret in Hr as (s2 & denom & Hd & Hr). unfold panics_with, reads in Hd.
  destruct (BondDenom s); simplify_eq. apply bindM_ret in Hr as (s3 & bal & Hb & Hr).
  unfold gets in Hb. injection Hb as <- _.
  destruct (negb _); [unfold ret in Hr; naive_solver|].
  destruct (rvo_BurnTokens o); [|destruct (rvo_TokenRecipient o); [|unfold ret in Hr; naive_solver]];
    apply bindM_ret in Hr as (s4 & [] & Hx & Hr); unfold ret in Hr; simplify_eq; (split; [done|]);
    unfold panics_with in Hx;
    [destruct (BurnCoins _ _ _) as [s5 [[]| | |]] eqn:Hy; simplify_eq; by eapply Burn_staking
    |destruct (SendCoinsFromModuleToAccount _ _ _ _) as [s5 [[]| | |]] eqn:Hy; simplify_eq; by eapply Pay_staking].
Qed.

(** C35: removal is final or fatal.  The remove-validator flow never reports an
    error: it panics, or it has tombstoned the validator's consensus key and
    left its record jailed (with no tokens and no shares when its tokens were
    burned or transferred). *)
Theorem remove_validator_tombstones_and_jails valAddr opts (s s' : St) o v c :
  GetValidator valAddr s = Ret v → GetConsAddr v = Ret c →
  ExecuteRemoveValidator valAddr opts s = (s', o) →
  (∀ e, o ≠ Fail e) ∧
  (o = Ret tt →
     (∃ i, GetValidatorSigningInfo c s' = Ret i ∧ si_Tombstoned i = true) ∧
     ∃ v', GetValidator valAddr s' = Ret v' ∧ v_Jailed v' = true ∧
       (v' = v ∨ v' = jailedRecord v true ∨ v' = jailedRecord v false)).
Proof.
  intros Hv Hc Hx. split.
  - intros e ->. assert (Hn : no_error (ExecuteRemoveValidator valAddr opts)).
    { unfold ExecuteRemoveValidator, tombstoneValidator.
      repeat first [by eauto with nexus | apply handleValidatorTokens_no_error
                   | apply no_error_bind; [|intros] | case_match]. }
    apply (Hn s e). by rewrite Hx.
  - intros ->. unfold ExecuteRemoveValidator in Hx. apply bindM_ret in Hx as (s1 & v1 & Hv1 & Hx).
    unfold panics_with, reads in Hv1. rewrite Hv in Hv1. simplify_eq.
    apply bindM_ret in Hx as (s2 & c1 & Hc1 & Hx). unfold panics_with, lift in Hc1. rewrite Hc in Hc1. simplify_eq.
    apply bindM_ret in Hx as (s3 & [] & Ht & Hx). apply tombstoneValidator_ret in Ht as [Hval (i & Hi & Hti)].
    apply bindM_ret in Hx as (s4 & [] & Hd & Hx). apply bindM_ret in Hx as (s5 & b & Hh & Hx).
    apply handleValidatorTokens_ret in Hh as [Hb Hs5].
    assert (Hs4 : GetValidatorSigningInfo c1 s4 = Ret i ∧ (v_Jailed v1 = true → s4 = s3)).
    { destruct (v_Jailed v1); cbn in Hd; [unfold ret in Hd; by simplify_eq|].
      unfold panics_with in Hd. destruct (DeleteValidatorByPowerIndex _ _) as [s6 [[]| | |]] eqn:Hdel; simplify_eq.
      split; [|done]. by rewrite (Delete_slashing _ _ _ _ Hdel). }
    destruct Hs4 as [Hi4 Hj4]. destruct (negb (v_Jailed v1) || b) eqn:Hcase.
    + unfold panics_with in Hx. destruct (SetValidator _ _) as [s6 [[]| | |]] eqn:Hset; simplify_eq. split.
      * exists i. split; [|done]. by rewrite (SetValidator_slashing _ _ _ _ Hset), Hs5.
      * exists (jailedRecord v1 b). split_and!; [|done|destruct b; auto].
        eapply SetValidator_get; [exact Hset|]. exact (GetValidator_operator _ _ _ Hv).
    + unfold ret in Hx. simplify_eq. apply orb_false_iff in Hcase as [Hj ->].
      apply negb_false_iff in Hj. rewrite (Hb eq_refl) in *. rewrite (Hj4 Hj) in *. split; [by eauto|].
      exists v1. split_and!; [|done|by left]. by rewrite Hval.
Qed.

End Remove.

(** ** Theorems: addition *)

Section Add.
Context {St : Type} `{!Keepers St, !KeeperLaws St}.

Lemma createAccount_neutral a (s s' : St) o :
  createAccount a s = (s', o) →
  (∀ v, GetValidator v s' = GetValidator v s) ∧ (∀ y d, GetBalance y d s' = GetBalance y d s).
Proof.
  unfold createAccount. unfold_monad. intros Hr. destruct (HasAccount a s); [by simplify_eq|].
  destruct (NewAccountWithAddress a s) as [s1 r] eqn:Hn. apply NewAccount_neutral in Hn as [Hv Hb].
  destruct r as [acc|e|x|]; simplify_eq; auto. apply SetAccount_neutral in Hr as [Hv' Hb'].
  split; intros; [by rewrite Hv'|by rewrite Hb'].
Qed.

(** C36: the add-validator flow writes the validator record only when the
    minimum self-delegation is positive.  Without one (the hook's
    "min_self_delegation" may be 0) it mints the initial tokens, pays them to
    the operator's account, and then fails to delegate them to the validator
    that does not exist: an error is reported and the minted tokens stay. *)
Theorem add_validator_without_self_delegation_leaks ctx valAddr opts pk t e built (s : St) :
  GetValidator valAddr s = Fail e → avo_PubKey opts = Some pk →
  avo_InitialTokens opts = Some t → 0 < t < 2 ^ 256 → is_positive (avo_MinSelfDelegation opts) = false →
  NewValidator (ValAddress_String valAddr) pk (avo_Description opts) = Ret built →
  (∃ s1, createAccount valAddr s = (s1, Ret tt)) →
  (∀ d a (s : St), 0 < a < 2 ^ 256 → ∃ s', MintCoins BondedPoolName (d, a) s = (s', Ret tt)) →
  (∀ d a (s : St), 0 < a ≤ GetBalance (GetModuleAddress BondedPoolName) d s →
     ∃ s', SendCoinsFromModuleToAccount BondedPoolName valAddr (d, a) s = (s', Ret tt)) →
  valAddr ≠ GetModuleAddress BondedPoolName →
  ∃ s' err, ExecuteAddValidator ctx valAddr (Some opts) s = (s', Fail err) ∧
    GetBalance valAddr DefaultBondDenom s' = GetBalance valAddr DefaultBondDenom s + t.
Proof.
  intros Hv Hpk Ht Hpos Hmin Hnew [s1 Hacc] Hmint Hsend Hne.
  unfold ExecuteAddValidator, reads. unfold_monad. rewrite Hv, Hpk, Ht.
  rewrite (proj2 (Z.ltb_lt 0 t) (proj1 Hpos)). unfold createValidator. unfold_monad. rewrite Hacc, Hnew, Hmin.
  unfold setValidatorBalance. unfold_monad. cbn [freshValidator v_Tokens].
  rewrite (proj2 (Z.ltb_lt 0 t) (proj1 Hpos)), Z.sub_0_r.
  apply createAccount_neutral in Hacc as [Hv1 Hb1].
  destruct (Hmint DefaultBondDenom t s1 Hpos) as [s2 H2]. rewrite H2.
  destruct (Hsend DefaultBondDenom t s2) as [s3 H3].
  { rewrite (Mint_balance _ _ _ _ _ _ _ H2), bool_decide_eq_true_2 by done.
    pose proof (GetBalance_nonneg (GetModuleAddress BondedPoolName) DefaultBondDenom s1). lia. }
  rewrite H3.
  destruct (Mint_staking _ _ _ _ _ H2) as (_ & _ & Hv2). destruct (Pay_staking _ _ _ _ _ _ H3) as [Hv3 _].
  destruct (Delegate_missing (AccAddress_Text valAddr) valAddr (DefaultBondDenom, t) s3 e) as (s4 & e' & H4 & Hb4).
  { by rewrite Hv3, Hv2, Hv1. }
  rewrite H4. do 2 eexists. split; [reflexivity|].
  rewrite Hb4, (Pay_balance _ _ _ _ _ _ _ H3), (Mint_balance _ _ _ _ _ _ _ H2), Hb1. cbn [fst snd].
  rewrite (bool_decide_eq_false_2 (valAddr = _ ∧ _)) by (by intros [? _]).
  rewrite bool_decide_eq_true_2 by done. lia.
Qed.

(** An existing validator is left alone: the flow returns without looking at
    the options, so it neither tops up its delegation nor unjails it, which
    the function's doc comment announces. *)
Theorem add_validator_ignores_existing ctx valAddr opts v (s : St) :
  GetValidator valAddr s = Ret v → ExecuteAddValidator ctx valAddr opts s = (s, Ret tt).
Proof. intros Hv. unfold ExecuteAddValidator, reads. unfold_monad. by rewrite Hv. Qed.

End Add.

(** ** Witnesses: keepers over finite maps *)

Section Witnesses.

Record Ledger := mkLedger {
  l_vals : gmap string Validator;
  l_infos : gmap string SigningInfo;
  l_bals : gmap (string * string) N;
  l_ubds : list (option Z) }.

Definition l_balance (x d : string) (s : Ledger) : Z := Z.of_N (default 0%N (l_bals s !! (x, d))).

(** Add [a], which may be negative down to the balance. *)
Definition l_credit (x : string) (c : string * Z) (s : Ledger) : Ledger :=
  mkLedger (l_vals s) (l_infos s)
    (<[(x, fst c) := Z.to_N (l_balance x (fst c) s + snd c)]> (l_bals s)) (l_ubds s).

Definition l_operator (v : string) : string := "nexusvaloper" +:+ v.

Definition l_get (v : string) (s : Ledger) : outcome Validator :=
  match l_vals s !! v with
  | Some r => Ret (mkValidator (l_operator v) (v_PubKey r) (v_Jailed r) (v_Status r) (v_Tokens r)
                     (v_DelegatorShares r) (v_MinSelfDelegation r))
  | None => Fail ErrNotFound
  end.

Definition l_error : error := errText "insufficient funds".

Definition l_move (from to_ : string) (c : string * Z) : M Ledger unit := fun s =>
  if (0 <=? snd c) && (snd c <=? l_balance from (fst c) s)
  then (l_credit to_ c (l_credit from (fst c, - snd c) s), Ret tt)
  else (s, Fail l_error).

Definition skip : M Ledger unit := ret tt.

Definition ledger : Keepers Ledger := {|
  GetValidator := l_get;
  SetValidator v := fun s =>
    (mkLedger (<[TrimPrefix (v_OperatorAddress v) "nexusvaloper" := v]> (l_vals s)) (l_infos s)
       (l_bals s) (l_ubds s), Ret tt);
  SetValidatorByConsAddr _ := skip;
  SetNewValidatorByPowerIndex _ := skip;
  DeleteValidatorByPowerIndex _ := skip;
  NewValidator op pk _ := Ret (mkValidator op pk false Unbonded (Some 0) 0 (Some 1));
  GetConsAddr v := Ret (v_PubKey v);
  BondDenom _ := Ret DefaultBondDenom;
  GetAllValidators s := Ret (snd <$> map_to_list (l_vals s));
  IterateUnbondingDelegations s := (l_ubds s, None);
  Int_Add a b := if Z.abs (a + b) <? 2 ^ 256 then Ret (a + b) else Panic "integer overflow";
  Delegate _ op _ := fun s =>
    match l_get (TrimPrefix op "nexusvaloper") s with
    | Ret _ => (s, Ret tt) | _ => (s, Fail ErrNotFound) end;
  GetBalance := l_balance;
  MintCoins m c := fun s =>
    if 0 <=? snd c then (l_credit ("module/" +:+ m) c s, Ret tt) else (s, Fail l_error);
  BurnCoins m c := fun s =>
    if snd c <=? l_balance ("module/" +:+ m) (fst c) s
    then (l_credit ("module/" +:+ m) (fst c, - snd c) s, Ret tt) else (s, Fail l_error);
  SendCoinsFromModuleToAccount m x := l_move ("module/" +:+ m) x;
  SendCoinsFromModuleToModule m m' := l_move ("module/" +:+ m) ("module/" +:+ m');
  GetModuleAddress m := "module/" +:+ m;
  HasAccount _ _ := true;
  NewAccountWithAddress a := ret a;
  SetAccount _ := skip;
  GetValidatorSigningInfo a s := match l_infos s !! a with Some i => Ret i | None => Fail ErrNotFound end;
  SetValidatorSigningInfo a i := fun s =>
    (mkLedger (l_vals s) (<[a := i]> (l_infos s)) (l_bals s) (l_ubds s), Ret tt);
  Unjail _ := skip;
  SetValidatorHistoricalRewards _ := skip;
  SetValidatorCurrentRewards _ := skip;
  SetValidatorAccumulatedCommission _ := skip;
  FeePool_Get _ := Ret tt;
  FeePool_Set := skip;
  ValAddress_String := l_operator;
  AccAddress_Text a := "nexus" +:+ a |}.

Lemma l_credit_balance x c s y d :
  0 ≤ l_balance x (fst c) s + snd c →
  l_balance y d (l_credit x c s) = l_balance y d s + (if bool_decide (y = x ∧ d = fst c) then snd c else 0).
Proof.
  intros Hn. unfold l_credit. unfold l_balance at 1. cbn [l_bals]. case_bool_decide as Hd.
  - destruct Hd as [-> ->]. rewrite lookup_insert_eq. simpl. lia.
  - rewrite lookup_insert_ne by (intros [= Hx Hy]; apply Hd; by split). unfold l_balance. lia.
Qed.

Lemma l_move_balance from to_ c s s' y d :
  l_move from to_ c s = (s', Ret tt) →
  l_balance y d s' = l_balance y d s - (if bool_decide (y = from ∧ d = fst c) then snd c else 0)
    + (if bool_decide (y = to_ ∧ d = fst c) then snd c else 0).
Proof.
  unfold l_move. destruct (_ && _) eqn:Hb; [|done]. intros [= <-]. bools.
  assert (Hc : ∀ y d, l_balance y d (l_credit from (fst c, - snd c) s) =
    l_balance y d s + (if bool_decide (y = from ∧ d = fst c) then - snd c else 0)).
  { intros. rewrite l_credit_balance by (cbn; lia). done. }
  rewrite l_credit_balance.
  - rewrite Hc. repeat case_bool_decide; lia.
  - rewrite Hc. unfold l_balance in *. case_bool_decide as Hd; [destruct Hd as [-> _]|]; lia.
Qed.

Lemma l_move_staking from to_ c s s' o :
  l_move from to_ c s = (s', o) →
  l_vals s' = l_vals s ∧ l_infos s' = l_infos s ∧ l_ubds s' = l_ubds s.
Proof. unfold l_move. case_match; by intros [= <- _]. Qed.

Lemma l_get_same v s s' : l_vals s' = l_vals s → l_get v s' = l_get v s.
Proof. unfold l_get. by intros ->. Qed.

Lemma TrimPrefix_operator v : TrimPrefix (l_operator v) "nexusvaloper" = v.
Proof. by destruct v. Qed.

Lemma ledger_laws : @KeeperLaws _ ledger.
Proof.
  split; cbn [GetBalance GetModuleAddress MintCoins GetAllValidators IterateUnbondingDelegations GetValidator
    SendCoinsFromModuleToModule SendCoinsFromModuleToAccount GetValidatorSigningInfo BurnCoins
    DeleteValidatorByPowerIndex SetValidator SetValidatorSigningInfo Delegate NewAccountWithAddress
    SetAccount ledger ValAddress_String Int_Add].
  - intros. unfold l_balance. lia.
  - intros a b Hab. by destruct (Z.ltb_spec (Z.abs (a + b)) (2 ^ 256)); [|lia].
  - done.
  - intros m d a s s' x d'. cbn [fst snd]. destruct (Z.leb_spec 0 a); [|done]. intros [= <-].
    rewrite l_credit_balance by (cbn; unfold l_balance; lia). done.
  - intros m c s s' o. case_match; by intros [= <- _].
  - intros m m' d a s s' x d'. apply l_move_balance.
  - intros m m' c s s' o Hm. apply l_move_staking in Hm as (-> & _ & ->). done.
  - intros m x c s s' y d. apply l_move_balance.
  - intros m x c s s' o Hm. apply l_move_staking in Hm as (Hv & -> & _). split; [|done].
    intros v. by apply l_get_same.
  - intros m c s s' o. case_match; by intros [= <- _].
  - by intros v s s' o [= <- _].
  - intros v s s' a [= <-] Ho. unfold l_get. cbn [l_vals]. rewrite Ho, TrimPrefix_operator, lookup_insert_eq.
    rewrite <-Ho. by destruct v.
  - by intros v s s' o [= <- _].
  - intros a i s s' [= <-]. cbn. by rewrite lookup_insert_eq.
  - by intros a i s s' o [= <- _].
  - intros v s r. unfold l_get. case_match; [|done]. by intros [= <-].
  - intros d v c s e Hg. rewrite TrimPrefix_operator, Hg. eauto.
  - by intros a s s' o [= <- _].
  - by intros a s s' o [= <- _].
Qed.

#[local] Existing Instances ledger ledger_laws.

Definition alice : Validator := mkValidator (l_operator "alice") "pkA" false Bonded (Some 100) 100 (Some 1).
Definition bob : Validator := mkValidator (l_operator "bob") "pkB" true Unbonding (Some 30) 30 (Some 1).

(** The bonded pool holds 60 of the 100 tokens recorded, the other one
    nothing of 30 + 5. *)
Definition broken : Ledger :=
  mkLedger {[ "alice" := alice; "bob" := bob ]}
    {[ "pkA" := mkSigningInfo "pkA" 1 0 0 false 0 ]}
    {[ ("module/" +:+ BondedPoolName, DefaultBondDenom) := 60%N ]} [Some 5; None].

Lemma ledger_bank_works : bank_works (St := Ledger).
Proof.
  split.
  - intros d a s Ha. cbn. destruct (Z.leb_spec 0 a); [eauto|lia].
  - intros d a s [Ha Hb]. cbn in *. unfold l_move. cbn [fst snd].
    destruct (Z.leb_spec 0 a); [|lia].
    destruct (Z.leb_spec a (l_balance ("module/" +:+ BondedPoolName) d s)); [cbn; eauto|].
    exfalso. cbn in *. lia.
Qed.

Lemma reconcile_funds_both_pools_witness :
  ∃ s', ExecuteReconcileStakingPools broken = (s', Ret tt) ∧
    bonded_balance s' = 100 ∧ not_bonded_balance s' = 35 ∧
    ExecuteReconcileStakingPools s' = (s', Ret tt).
Proof.
  destruct (reconcile_funds_both_pools [alice; bob] broken) as (s' & H1 & H2 & H3 & H4).
  - exact ledger_bank_works.
  - vm_compute. reflexivity.
  - split_and!; [repeat constructor; cbn; lia|vm_compute; reflexivity..].
  - exists s'. split_and!; [exact H1| | |exact H4]; [rewrite H2|rewrite H3]; vm_compute; reflexivity.
Defined.

Definition removed : Ledger * outcome unit :=
  ExecuteRemoveValidator "alice" (Some (mkRemoveValidatorOptions true None)) broken.

Lemma remove_validator_tombstones_and_jails_witness :
  removed.2 = Ret tt ∧
  ∃ v', GetValidator "alice" removed.1 = Ret v' ∧ v_Jailed v' = true.
Proof.
  assert (Hr : removed.2 = Ret tt) by (vm_compute; reflexivity). split; [exact Hr|].
  destruct (remove_validator_tombstones_and_jails "alice" (Some (mkRemoveValidatorOptions true None))
    broken removed.1 removed.2 alice "pkA") as [_ Hok].
  - vm_compute. reflexivity.
  - reflexivity.
  - unfold removed. by destruct (ExecuteRemoveValidator _ _ _).
  - destruct (Hok Hr) as [_ (v' & Hv & Hj & _)]. exists v'. split; assumption.
Defined.

Definition new_ctx : SdkContext := mkSdkContext Background 9 "" 0 ExecModeFinalize false false.
Definition no_min : AddValidatorOptions := mkAddValidatorOptions (Some "pkC") "" (Some 1000) (Some 0).

Lemma add_validator_without_self_delegation_leaks_witness :
  ∃ s' err, ExecuteAddValidator new_ctx "carol" (Some no_min) broken = (s', Fail err) ∧
    GetBalance "carol" DefaultBondDenom s' = GetBalance "carol" DefaultBondDenom broken + 1000.
Proof.
  eapply (add_validator_without_self_delegation_leaks new_ctx "carol" no_min "pkC" 1000 ErrNotFound).
  - vm_compute. reflexivity.
  - reflexivity.
  - reflexivity.
  - lia.
  - reflexivity.
  - reflexivity.
  - eexists. reflexivity.
  - apply ledger_bank_works.
  - intros d a s [Ha Hb]. cbn in *. unfold l_move. cbn [fst snd].
    destruct (Z.leb_spec 0 a); [|lia].
    destruct (Z.leb_spec a (l_balance ("module/" +:+ BondedPoolName) d s)); [cbn; eauto|].
    exfalso. cbn in *. lia.
  - discriminate.
Defined.

Lemma add_validator_ignores_existing_witness :
  ExecuteAddValidator new_ctx "bob" (Some no_min) broken = (broken, Ret tt).
Proof. eapply add_validator_ignores_existing. vm_compute. reflexivity. Defined.

End Witnesses.

End Upgrades.
