(* ===== verification/Hooks.v ===== *)
(** * Block hooks and the end of a block

    [app/block_hooks.go] (scheduled validator operations read from the config
    file), the [EndBlocker] of [app/app.go] that runs them and
    [app/metrics.go].  What YAML decodes into an [interface{}] is a [yval]. *)

From S2P Require Import Prelude GoStd External ChainSpec Upgrades.

Module Hooks.
Import Upgrades.

(** ** Configuration *)

Inductive yval :=
| YMap (m : list (string * yval))
| YStr (s : string)
| YBool (b : bool)
| YOther.

Fixpoint yget (m : list (string * yval)) (key : string) : option yval :=
  match m with
  | [] => None
  | (k, v) :: m' => if bool_decide (k = key) then Some v else yget m' key
  end.

Definition hookUnjail : string := "unjail".
Definition hookAddValidator : string := "add_validator".
Definition hookRemoveValidator : string := "remove_validator".
Definition hookReconcileStakingPools : string := "reconcile_staking_pools".

Inductive hookParams :=
| unjailParams (validator : string) (targetTokens : option Z)
| addValidatorParams (validator : string) (options : AddValidatorOptions)
| removeValidatorParams (validator : string) (options : RemoveValidatorOptions)
| reconcileStakingPoolsParams
| rawParams (v : yval).

Record BlockHook := mkBlockHook { Block : Z; Action : string; hook_Params : hookParams }.

(** [BlockHooks], a map from heights. *)
Abbreviation BlockHooks := (gmap Z (list BlockHook)).

(** [sdk.AccAddressFromBech32] and [sdk.ValAddressFromBech32]. *)
Class Bech32 := {
  AccAddressFromBech32 : string → outcome string;
  ValAddressFromBech32 : string → outcome string }.

Definition expectParamsIsMap (raw : yval) (action : string) : outcome (list (string * yval)) :=
  match raw with
  | YMap m => Ret m
  | _ => Panic ("failed to read " +:+ action +:+ " params as map")
  end.

Definition requireValueIsString (value : yval) (field : string) : outcome string :=
  match value with
  | YStr s => Ret s
  | _ => Panic (field +:+ " field is not type string")
  end.

Definition requireFieldIsString (params : list (string * yval)) (key : string) : outcome string :=
  match yget params key with
  | None => Panic ("failed to read " +:+ key +:+ " field from params")
  | Some value => requireValueIsString value key
  end.

Definition parseInt (value : yval) (field : string) : outcome Z :=
  let? strValue := requireValueIsString value field in
  match ParseInt strValue with
  | Fail e => Panic ("failed to parse " +:+ field +:+ " as int64: " +:+ Error e)
  | o => o
  end.

Definition parseBool (value : yval) (field : string) : outcome bool :=
  match value with
  | YBool v => Ret v
  | YStr v =>
      match ParseBool v with
      | Fail e => Panic ("failed to parse " +:+ field +:+ " as bool: " +:+ Error e)
      | o => o
      end
  | _ => Panic (field +:+ " field is not a bool or string")
  end.

Definition ed25519_KeyType : string := "ed25519".
Definition ed25519_PubKeySize : Z := 32.

(** ["%q"] of the key type is only shown in the message. *)
Definition parsePubKey (value : yval) : outcome string :=
  let? pubKeyMap := expectParamsIsMap value "pub_key" in
  let? rawType := requireFieldIsString pubKeyMap "type" in
  let keyType := if bool_decide (ToLower rawType = "") then ed25519_KeyType else ToLower rawType in
  let? rawValue := requireFieldIsString pubKeyMap "value" in
  match base64_DecodeString rawValue with
  | Fail e => Panic ("failed to decode pub_key value: " +:+ Error e)
  | Ret decoded =>
      if bool_decide (keyType = ToLower ed25519_KeyType)
         || bool_decide (keyType = "tendermint/pubkeyed25519") then
        if negb (len decoded =? ed25519_PubKeySize) then
          Panic ("invalid ed25519 pubkey size: " +:+ fmt_d (len decoded))
        else Ret decoded
      else Panic ("unsupported pub_key type " +:+ keyType)
  | Panic s => Panic s
  | OutOfFuel => OutOfFuel
  end.

Definition parseUnjailHook (params : yval) : outcome hookParams :=
  let? m := expectParamsIsMap params "unjail" in
  let? validator := requireFieldIsString m "validator" in
  match yget m "target_tokens" with
  | None => Ret (unjailParams validator None)
  | Some raw =>
      let? t := parseInt raw "target_tokens" in
      if negb (0 <? t) then Panic ("target_tokens must be positive, got " +:+ fmt_d t)
      else Ret (unjailParams validator (Some t))
  end.

(** A required field. *)
Definition require (m : list (string * yval)) (key : string) : outcome yval :=
  match yget m key with
  | Some v => Ret v
  | None => Panic ("failed to read " +:+ key +:+ " field from params")
  end.

Definition parseAddValidatorHook (params : yval) : outcome hookParams :=
  let? m := expectParamsIsMap params "add_validator" in
  let? validatorStr := requireFieldIsString m "validator" in
  let? pubKeyRaw := require m "pub_key" in
  let? minSelfDelegationRaw := require m "min_self_delegation" in
  let? pubKey := parsePubKey pubKeyRaw in
  let? minSelfDelegation := parseInt minSelfDelegationRaw "min_self_delegation" in
  let? initialTokensRaw := require m "initial_tokens" in
  let? initialTokens := parseInt initialTokensRaw "initial_tokens" in
  if negb (0 <? initialTokens) then
    Panic ("initial_tokens must be positive, got " +:+ fmt_d initialTokens)
  else
    Ret (addValidatorParams validatorStr
           (mkAddValidatorOptions (Some pubKey) "" (Some initialTokens) (Some minSelfDelegation))).

(** An entry of the file: block, action, params. *)
Abbreviation RawHook := (Z * string * yval)%type.

Section Load.
Context `{Bech32}.

Definition parseRemoveValidatorHook (params : yval) : outcome hookParams :=
  let? m := expectParamsIsMap params "remove_validator" in
  let? validatorStr := requireFieldIsString m "validator" in
  let? burn := match yget m "burn_tokens" with
               | None => Ret false
               | Some raw => parseBool raw "burn_tokens"
               end in
  let? recipient :=
    match yget m "token_recipient" with
    | None => Ret None
    | Some raw =>
        let? s := requireValueIsString raw "token_recipient" in
        match AccAddressFromBech32 s with
        | Fail e => Panic ("invalid token_recipient address: " +:+ Error e)
        | Ret a => Ret (Some a)
        | Panic x => Panic x
        | OutOfFuel => OutOfFuel
        end
    end in
  Ret (removeValidatorParams validatorStr (mkRemoveValidatorOptions burn recipient)).

(** The [switch] of [LoadHooks] on one entry of the file. *)
Definition parseHook (action : string) (params : yval) : outcome hookParams :=
  if bool_decide (action = hookUnjail) then parseUnjailHook params
  else if bool_decide (action = hookAddValidator) then parseAddValidatorHook params
  else if bool_decide (action = hookRemoveValidator) then parseRemoveValidatorHook params
  else if bool_decide (action = hookReconcileStakingPools) then Ret reconcileStakingPoolsParams
  else Panic ("unexpected hook action " +:+ action).

Fixpoint loadHooks_loop (raw : list RawHook) (hooks : BlockHooks) : outcome BlockHooks :=
  match raw with
  | [] => Ret hooks
  | (block, action, params) :: raw' =>
      let? p := parseHook action params in
      loadHooks_loop raw'
        (<[block := (default [] (hooks !! block) ++ [mkBlockHook block action p])%list]> hooks)
  end.

(** [LoadHooks]; [yaml] is [yaml.Unmarshal] at [BlockHooksConfig]. *)
Definition LoadHooks (os : OS) (yaml : string → outcome (list RawHook)) : outcome BlockHooks :=
  match ReadConfigFile os with
  | Fail _ => Ret ∅
  | Ret data =>
      let? config := must (wrap_text "failed to decode config" (yaml data)) in
      loadHooks_loop config ∅
  | Panic s => Panic s
  | OutOfFuel => OutOfFuel
  end.

End Load.

(** ** Running hooks *)

Section Perform.
Context {St : Type} `{!Keepers St, Bech32}.

Definition performUnjailHook (ctx : SdkContext) (hook : BlockHook) : M St unit :=
  match hook_Params hook with
  | unjailParams validator target =>
      let! valAddr := lift (ValAddressFromBech32 validator) in
      ExecuteUnjailing ctx valAddr
        (match target with Some t => if 0 <? t then Some t else None | None => None end)
  | _ => fail (errText "invalid unjail params")
  end.

Definition performAddValidatorHook (ctx : SdkContext) (hook : BlockHook) : M St unit :=
  match hook_Params hook with
  | addValidatorParams validator options =>
      let! valAddr := lift (ValAddressFromBech32 validator) in
      ExecuteAddValidator ctx valAddr (Some options)
  | _ => fail (errText "invalid add_validator params")
  end.

Definition performRemoveValidatorHook (ctx : SdkContext) (hook : BlockHook) : M St unit :=
  match hook_Params hook with
  | removeValidatorParams validator options =>
      let! valAddr := lift (ValAddressFromBech32 validator) in
      ExecuteRemoveValidator valAddr (Some options)
  | _ => fail (errText "invalid remove_validator params")
  end.

Definition performReconcileStakingPoolsHook (hook : BlockHook) : M St unit :=
  match hook_Params hook with
  | reconcileStakingPoolsParams => do! ExecuteReconcileStakingPools in ret tt
  | _ => fail (errText "invalid reconcile_staking_pools params")
  end.

Definition PerformHook (ctx : SdkContext) (hook : BlockHook) : M St unit :=
  if bool_decide (Action hook = hookUnjail) then performUnjailHook ctx hook
  else if bool_decide (Action hook = hookAddValidator) then performAddValidatorHook ctx hook
  else if bool_decide (Action hook = hookRemoveValidator) then performRemoveValidatorHook ctx hook
  else if bool_decide (Action hook = hookReconcileStakingPools) then performReconcileStakingPoolsHook hook
  else fail (errText ("unrecognized hook action " +:+ Action hook)).

End Perform.

(** ** Metrics *)

(** A gauge: its name, labels and value (a [float32] holding a small whole
    number). *)
Record Gauge := mkGauge { g_name : list string; g_labels : list (string * string); g_value : Z }.

(** What the iteration sees of a validator; [vm_consAddr] may fail. *)
Record ValidatorView := mkValidatorView {
  vm_status : BondStatus; vm_jailed : bool; vm_consAddr : outcome string;
  vm_moniker : string; vm_operator : string }.

Record counts := mkCounts { n_bonded : Z; n_unbonding : Z; n_unbonded : Z; n_jailed : Z; n_tombstoned : Z }.

Definition flag (b : bool) : Z := if b then 1 else 0.

Section Metrics.
Context (GetSigningInfo : string → outcome SigningInfo).

Definition is_tombstoned (v : ValidatorView) : bool :=
  match vm_consAddr v with
  | Ret a => match GetSigningInfo a with Ret i => si_Tombstoned i | _ => false end
  | _ => false
  end.

Definition validator_gauges (v : ValidatorView) : list Gauge :=
  let labels := [("moniker", vm_moniker v); ("address", vm_operator v)] in
  [ mkGauge ["validator"; "bonded"] labels (flag (bool_decide (vm_status v = Bonded)));
    mkGauge ["validator"; "unbonding"] labels (flag (bool_decide (vm_status v = Unbonding)));
    mkGauge ["validator"; "unbonded"] labels (flag (bool_decide (vm_status v = Unbonded)));
    mkGauge ["validator"; "jailed"] labels (flag (vm_jailed v));
    mkGauge ["validator"; "tombstoned"] labels (flag (is_tombstoned v)) ].

Definition count (c : counts) (v : ValidatorView) : counts :=
  mkCounts (n_bonded c + flag (bool_decide (vm_status v = Bonded)))
    (n_unbonding c + flag (bool_decide (vm_status v = Unbonding)))
    (n_unbonded c + flag (bool_decide (vm_status v = Unbonded)))
    (n_jailed c + flag (vm_jailed v)) (n_tombstoned c + flag (is_tombstoned v)).

Definition network_gauges (c : counts) : list Gauge :=
  [ mkGauge ["network"; "validators"] [("bond_status", "bonded")] (n_bonded c);
    mkGauge ["network"; "validators"] [("bond_status", "unbonding")] (n_unbonding c);
    mkGauge ["network"; "validators"] [("bond_status", "unbonded")] (n_unbonded c);
    mkGauge ["network"; "validators"; "jailed"] [] (n_jailed c);
    mkGauge ["network"; "validators"; "tombstoned"] [] (n_tombstoned c) ].

(** [updateValidatorMetrics]; the iteration visits [vs] and ends with [err].
    Network gauges are only set when it ended without an error. *)
Definition updateValidatorMetrics (vs : list ValidatorView) (err : option error) : list Gauge :=
  let own := concat (map validator_gauges vs) in
  match err with
  | Some _ => own
  | None => (own ++ network_gauges (foldl count (mkCounts 0 0 0 0 0) vs))%list
  end.

End Metrics.

(** ** EndBlocker *)

(** The state of the application, what was logged about hooks (the action and
    its error, if any) and the gauges. *)
Record HookWorld (St : Type) := mkHookWorld {
  hw_state : St; hw_log : list (string * option error); hw_gauges : list Gauge }.
Arguments mkHookWorld {St}.
Arguments hw_state {St}.
Arguments hw_log {St}.
Arguments hw_gauges {St}.

Section EndBlock.
Context {St Resp : Type} `{!Keepers St, Bech32}.
(** [ModuleManager.EndBlock] and the view of the validators for metrics. *)
Variable EndBlock : M St Resp.
Variable IterateValidators : St → list ValidatorView * option error.

Definition on_state {A} (m : M St A) : M (HookWorld St) A := fun w =>
  let (s', o) := m (hw_state w) in (mkHookWorld s' (hw_log w) (hw_gauges w), o).

Definition log_hook (action : string) (e : option error) : M (HookWorld St) unit :=
  modify (fun w => mkHookWorld (hw_state w) (hw_log w ++ [(action, e)]) (hw_gauges w)).

Fixpoint runHooks (ctx : SdkContext) (hooks : list BlockHook) : M (HookWorld St) unit :=
  match hooks with
  | [] => ret tt
  | hook :: hooks' =>
      let! r := try (on_state (PerformHook ctx hook)) in
      do! log_hook (Action hook) (match r with inl _ => None | inr e => Some e end) in
      runHooks ctx hooks'
  end.

Definition metrics : M (HookWorld St) unit :=
  modify (fun w =>
    let '(vs, err) := IterateValidators (hw_state w) in
    mkHookWorld (hw_state w) (hw_log w)
      (hw_gauges w ++ updateValidatorMetrics (fun a => GetValidatorSigningInfo a (hw_state w)) vs err)).

Definition EndBlocker (app_hooks : BlockHooks) (ctx : SdkContext) : M (HookWorld St) Resp :=
  let! resp := on_state EndBlock in
  do! match app_hooks !! sc_Height ctx with
      | Some hooks => runHooks ctx hooks
      | None => ret tt
      end in
  do! metrics in
  ret resp.

End EndBlock.

(** ** Theorems: what is loaded *)

Section LoadClaims.
Context `{Bech32}.

(** A hook whose parameters are those of its action, in range. *)
Definition hook_ok (b : BlockHook) : Prop :=
  match hook_Params b with
  | unjailParams _ t => Action b = hookUnjail ∧ ∀ x, t = Some x → 0 < x ∧ is_i64 x
  | addValidatorParams _ o =>
      Action b = hookAddValidator ∧
      (∃ pk, avo_PubKey o = Some pk ∧ len pk = ed25519_PubKeySize) ∧
      (∃ x, avo_InitialTokens o = Some x ∧ 0 < x ∧ is_i64 x) ∧
      ∃ m, avo_MinSelfDelegation o = Some m ∧ is_i64 m
  | removeValidatorParams _ _ => Action b = hookRemoveValidator
  | reconcileStakingPoolsParams => Action b = hookReconcileStakingPools
  | rawParams _ => False
  end.

Lemma parseInt_i64 v f x : parseInt v f = Ret x → is_i64 x.
Proof.
  unfold parseInt. intros Hp. apply bindO_ret in Hp as (str & _ & Hp).
  destruct (ParseInt str) eqn:Hi; simplify_eq. by eapply ParseInt_i64.
Qed.

Lemma parsePubKey_size v pk : parsePubKey v = Ret pk → len pk = ed25519_PubKeySize.
Proof.
  unfold parsePubKey. intros Hp. apply bindO_ret in Hp as (m & _ & Hp).
  apply bindO_ret in Hp as (t & _ & Hp). apply bindO_ret in Hp as (raw & _ & Hp).
  destruct (base64_DecodeString raw) as [d| | |]; try done.
  destruct (_ || _); [|done]. destruct (negb _) eqn:Hl; simplify_eq. bools. done.
Qed.

Lemma parseUnjailHook_ok b v p : parseUnjailHook v = Ret p → hook_ok (mkBlockHook b hookUnjail p).
Proof.
  unfold parseUnjailHook. intros Hp. apply bindO_ret in Hp as (m & _ & Hp).
  apply bindO_ret in Hp as (val & _ & Hp).
  destruct (yget m "target_tokens") as [raw|]; [|simplify_eq; done].
  apply bindO_ret in Hp as (t & Ht & Hp). apply parseInt_i64 in Ht.
  destruct (negb _) eqn:Hl; simplify_eq. bools. split; [done|]. by intros x [= <-].
Qed.

Lemma parseAddValidatorHook_ok b v p :
  parseAddValidatorHook v = Ret p → hook_ok (mkBlockHook b hookAddValidator p).
Proof.
  unfold parseAddValidatorHook. intros Hp. apply bindO_ret in Hp as (m & _ & Hp).
  apply bindO_ret in Hp as (val & _ & Hp). apply bindO_ret in Hp as (pkr & _ & Hp).
  apply bindO_ret in Hp as (msr & _ & Hp). apply bindO_ret in Hp as (pk & Hpk & Hp).
  apply bindO_ret in Hp as (ms & Hms & Hp). apply bindO_ret in Hp as (itr & _ & Hp).
  apply bindO_ret in Hp as (it & Hit & Hp). destruct (negb _) eqn:Hl; simplify_eq. bools.
  cbn. split_and!; [done| | |]; eauto using parsePubKey_size, parseInt_i64.
Qed.

Lemma parseHook_ok b a v p : parseHook a v = Ret p → hook_ok (mkBlockHook b a p).
Proof.
  unfold parseHook. repeat case_bool_decide; subst; intros Hp; try done.
  - by eapply parseUnjailHook_ok.
  - by eapply parseAddValidatorHook_ok.
  - unfold parseRemoveValidatorHook in Hp. apply bindO_ret in Hp as (m & _ & Hp).
    apply bindO_ret in Hp as (val & _ & Hp). apply bindO_ret in Hp as (bt & _ & Hp).
    apply bindO_ret in Hp as (rc & _ & [= <-]). done.
  - by injection Hp as <-.
Qed.

(** The entries of a height, in file order. *)
Definition hooks_for (h : Z) (raw : list RawHook) : list BlockHook :=
  omap (fun '(b, a, v) =>
    if bool_decide (b = h)
    then match parseHook a v with Ret p => Some (mkBlockHook b a p) | _ => None end
    else None) raw.

Lemma loadHooks_loop_spec raw m0 m :
  loadHooks_loop raw m0 = Ret m →
  Forall (fun '(b, a, v) => ∃ p, parseHook a v = Ret p) raw ∧
  ∀ h, default [] (m !! h) = (default [] (m0 !! h) ++ hooks_for h raw)%list.
Proof.
  revert m0. induction raw as [|[[b a] v] raw IH]; intros m0 Hl; cbn [loadHooks_loop] in Hl.
  - injection Hl as <-. split; [constructor|]. intros h. by rewrite app_nil_r.
  - apply bindO_ret in Hl as (p & Hp & Hl). apply IH in Hl as [Hall Hm].
    split; [constructor; eauto|]. intros h. rewrite Hm. unfold hooks_for. cbn [omap list_omap].
    rewrite Hp. case_bool_decide as Hb; [subst b|].
    + rewrite lookup_insert_eq. cbn [default from_option id]. by rewrite <-app_assoc.
    + by rewrite lookup_insert_ne.
Qed.

Lemma hooks_for_ok h raw : Forall hook_ok (hooks_for h raw).
Proof.
  unfold hooks_for. induction raw as [|[[b a] v] raw IH]; [constructor|]. cbn [omap list_omap].
  case_bool_decide; [|done]. destruct (parseHook a v) as [p| | |] eqn:Hp; try done.
  constructor; [by eapply parseHook_ok|done].
Qed.

(** Loading is complete and ordered.  When [LoadHooks] returns, every entry
    of the file was understood, each height has exactly its entries in file
    order, and every hook carries the parameters of its action with token
    amounts positive int64s and a 32-byte key: malformed entries stop the node
    at start, never at their block. *)
Theorem LoadHooks_keeps_every_entry os yaml data raw hooks :
  ReadConfigFile os = Ret data → yaml data = Ret raw → LoadHooks os yaml = Ret hooks →
  Forall (fun '(b, a, v) => ∃ p, parseHook a v = Ret p) raw ∧
  ∀ h, default [] (hooks !! h) = hooks_for h raw ∧ Forall hook_ok (default [] (hooks !! h)).
Proof.
  intros Hr Hy. unfold LoadHooks. rewrite Hr, Hy. cbn [wrap must bindO]. intros Hl.
  apply loadHooks_loop_spec in Hl as [Hall Hm]. split; [done|]. intros h.
  rewrite Hm, lookup_empty. split; [done|]. apply hooks_for_ok.
Qed.

End LoadClaims.

(** ** Theorems: what is run *)

Section RunClaims.
Context {St Resp : Type} `{!Keepers St, Bech32}.
Variable EndBlock : M St Resp.
Variable IterateValidators : St → list ValidatorView * option error.

(** Hooks run one after the other on the state the previous one left, each
    ending with nil or an error that is only recorded. *)
Inductive hook_runs (ctx : SdkContext) :
    list BlockHook → St → St → list (string * option error) → Prop :=
| runs_nil s : hook_runs ctx [] s s []
| runs_ok h hs s s1 s' l :
    PerformHook ctx h s = (s1, Ret tt) → hook_runs ctx hs s1 s' l →
    hook_runs ctx (h :: hs) s s' ((Action h, None) :: l)
| runs_err h hs s s1 s' l e :
    PerformHook ctx h s = (s1, Fail e) → hook_runs ctx hs s1 s' l →
    hook_runs ctx (h :: hs) s s' ((Action h, Some e) :: l).

Lemma runHooks_spec ctx hs (w w' : HookWorld St) o :
  runHooks ctx hs w = (w', o) →
  (∀ e, o ≠ Fail e) ∧
  (o = Ret tt → ∃ l, hook_runs ctx hs (hw_state w) (hw_state w') l ∧ hw_log w' = (hw_log w ++ l)%list).
Proof.
  revert w. induction hs as [|h hs IH]; intros w Hr; cbn [runHooks] in Hr.
  - injection Hr as <- <-. split; [done|]. intros _. exists []. split; [constructor|by rewrite app_nil_r].
  - unfold on_state, log_hook, bindM, try, modify in Hr.
    destruct (PerformHook ctx h (hw_state w)) as [s1 [[]|e|x|]] eqn:Hp; cbn in Hr; simplify_eq; try done;
      apply IH in Hr as [Hf Hok]; (split; [done|]); intros Ho; destruct (Hok Ho) as (l & Hrun & Hl);
      cbn in Hrun, Hl; rewrite <-app_assoc in Hl; eexists; (split; [|exact Hl]); by econstructor.
Qed.

Lemma hook_runs_actions ctx hs s s' l : hook_runs ctx hs s s' l → fst <$> l = Action <$> hs.
Proof. induction 1; [done|..]; cbn; by f_equal. Qed.

Lemma EndBlocker_spec hooks ctx (w w' : HookWorld St) o :
  EndBlocker EndBlock IterateValidators hooks ctx w = (w', o) →
  (∀ e, o = Fail e → ∃ s1, EndBlock (hw_state w) = (s1, Fail e)) ∧
  (∀ r, o = Ret r →
     ∃ s1 l, EndBlock (hw_state w) = (s1, Ret r) ∧
       hook_runs ctx (default [] (hooks !! sc_Height ctx)) s1 (hw_state w') l ∧
       hw_log w' = (hw_log w ++ l)%list ∧
       fst <$> l = Action <$> default [] (hooks !! sc_Height ctx)).
Proof.
  unfold EndBlocker, metrics. cbv [bindM modify ret]. unfold on_state at 1. intros Hr.
  destruct (EndBlock (hw_state w)) as [s1 [r|e|x|]] eqn:He; [|simplify_eq; split; intros; simplify_eq; eauto..].
  set (w1 := mkHookWorld s1 (hw_log w) (hw_gauges w)) in *.
  assert (Hm : ∀ m : M (HookWorld St) unit, m = match hooks !! sc_Height ctx with
      | Some hs => runHooks ctx hs | None => λ w, (w, Ret ()) end →
      m = runHooks ctx (default [] (hooks !! sc_Height ctx))).
  { intros m ->. by destruct (hooks !! sc_Height ctx). }
  rewrite (Hm _ eq_refl) in Hr.
  destruct (runHooks ctx _ w1) as [w2 o2] eqn:Hh. apply runHooks_spec in Hh as [Hf Hok].
  destruct o2 as [[]|e|x|]; [|exfalso; by apply (Hf e)|simplify_eq; split; naive_solver..].
  destruct (Hok eq_refl) as (l & Hrun & Hl). destruct (IterateValidators (hw_state w2)) as [vs err].
  simplify_eq. split; [done|]. intros r' [= <-]. exists s1, l. split_and!; [done..|].
  by eapply hook_runs_actions.
Qed.

(** [EndBlocker] returns when the modules do and no hook of the height panics. *)
Lemma runHooks_returns ctx hs (w : HookWorld St) :
  (∀ h s, h ∈ hs → ∃ s', PerformHook ctx h s = (s', Ret tt) ∨ ∃ e, PerformHook ctx h s = (s', Fail e)) →
  ∃ w', runHooks ctx hs w = (w', Ret tt).
Proof.
  revert w. induction hs as [|h hs IH]; intros w Hh; cbn [runHooks]; [by exists w|].
  unfold on_state, log_hook, bindM, try, modify.
  destruct (Hh h (hw_state w)) as [s' [->|[e ->]]]; [by left|..]; cbn; apply IH; intros; apply Hh; by right.
Qed.

Lemma EndBlocker_returns hooks ctx (w : HookWorld St) :
  (∀ s, ∃ s' r, EndBlock s = (s', Ret r)) →
  (∀ h s, h ∈ default [] (hooks !! sc_Height ctx) →
     ∃ s', PerformHook ctx h s = (s', Ret tt) ∨ ∃ e, PerformHook ctx h s = (s', Fail e)) →
  ∃ w' r, EndBlocker EndBlock IterateValidators hooks ctx w = (w', Ret r).
Proof.
  intros He Hh. unfold EndBlocker, bindM, on_state at 1. destruct (He (hw_state w)) as (s1 & r & ->).
  set (w1 := mkHookWorld s1 (hw_log w) (hw_gauges w)). destruct (runHooks_returns ctx _ w1 Hh) as [w2 Hr].
  exists (metrics IterateValidators w2).1, r. destruct (hooks !! sc_Height ctx); cbn in Hr.
  - by rewrite Hr.
  - by injection Hr as <-.
Qed.

(** C37: hooks never stop a block and never stop each other.  [EndBlocker]
    returns an error only if the modules' own EndBlock does; when it returns
    without one (no hook panicked), every hook of this height and no other is run once, in
    order, after EndBlock, each failure recorded and passed over, and the
    response is EndBlock's. *)
Theorem EndBlocker_runs_the_hooks_of_its_height hooks ctx (w w' : HookWorld St) o :
  EndBlocker EndBlock IterateValidators hooks ctx w = (w', o) →
  (∀ e, o = Fail e → ∃ s1, EndBlock (hw_state w) = (s1, Fail e)) ∧
  (∀ r, o = Ret r →
     ∃ s1 l, EndBlock (hw_state w) = (s1, Ret r) ∧
       hook_runs ctx (default [] (hooks !! sc_Height ctx)) s1 (hw_state w') l ∧
       hw_log w' = (hw_log w ++ l)%list ∧
       fst <$> l = Action <$> default [] (hooks !! sc_Height ctx)).
Proof. apply EndBlocker_spec. Qed.

(** ** Theorems: metrics *)

Lemma count_total g vs c :
  Forall (fun v => vm_status v ≠ Unspecified) vs →
  let c' := foldl (count g) c vs in
  n_bonded c' + n_unbonding c' + n_unbonded c' =
    n_bonded c + n_unbonding c + n_unbonded c + Z.of_nat (length vs) ∧
  n_jailed c ≤ n_jailed c' ≤ n_jailed c + Z.of_nat (length vs) ∧
  n_tombstoned c ≤ n_tombstoned c' ≤ n_tombstoned c + Z.of_nat (length vs).
Proof.
  intros Hv. revert c. induction Hv as [|v vs Hv _ IH]; intros c; cbn [foldl length]; [lia|].
  specialize (IH (count g c v)). cbv zeta in *.
  set (c' := foldl (count g) (count g c v) vs) in *.
  cbn [count n_bonded n_unbonding n_unbonded n_jailed n_tombstoned] in IH.
  assert (flag (bool_decide (vm_status v = Bonded)) + flag (bool_decide (vm_status v = Unbonding))
    + flag (bool_decide (vm_status v = Unbonded)) = 1) by (destruct (vm_status v); [done|reflexivity..]).
  assert (0 ≤ flag (vm_jailed v) ≤ 1) by (destruct (vm_jailed v); simpl; lia).
  assert (0 ≤ flag (is_tombstoned g v) ≤ 1) by (destruct (is_tombstoned g v); simpl; lia). 
  lia.
Qed.

(** The network gauges partition the validators: bonded, unbonding and
    unbonded add up to their number, and jailed or tombstoned never exceed it. *)
Theorem network_gauges_partition_validators g vs :
  Forall (fun v => vm_status v ≠ Unspecified) vs →
  ∃ b ub un j t, network_gauges (foldl (count g) (mkCounts 0 0 0 0 0) vs) =
    [ mkGauge ["network"; "validators"] [("bond_status", "bonded")] b;
      mkGauge ["network"; "validators"] [("bond_status", "unbonding")] ub;
      mkGauge ["network"; "validators"] [("bond_status", "unbonded")] un;
      mkGauge ["network"; "validators"; "jailed"] [] j;
      mkGauge ["network"; "validators"; "tombstoned"] [] t ] ∧
    b + ub + un = Z.of_nat (length vs) ∧ 0 ≤ j ≤ Z.of_nat (length vs) ∧ 0 ≤ t ≤ Z.of_nat (length vs).
Proof.
  intros Hv. destruct (count_total g vs (mkCounts 0 0 0 0 0) Hv) as (H1 & H2 & H3). simpl in H1, H2, H3.
  do 5 eexists. split; [reflexivity|]. lia.
Qed.

End RunClaims.

(** ** Witnesses *)

Section Witnesses.
#[local] Existing Instances ledger ledger_laws.

Definition plain_bech32 : Bech32 := {|
  AccAddressFromBech32 s := Ret s; ValAddressFromBech32 s := Ret s |}.
#[local] Existing Instance plain_bech32.

Definition hooks_os : OS := mkOS (fun _ => "/nexus.yaml") (fun _ => false) (fun _ => Ret "yaml").

Definition hooks_file : list RawHook :=
  [ (7, "reconcile_staking_pools", YOther);
    (9, "unjail", YMap [("validator", YStr "alice")]);
    (7, "unjail", YMap [("validator", YStr "nobody"); ("target_tokens", YStr "500")]);
    (7, "remove_validator", YMap [("validator", YStr "alice"); ("burn_tokens", YBool true)]) ].

Definition loaded : BlockHooks :=
  match LoadHooks hooks_os (fun _ => Ret hooks_file) with Ret h => h | _ => ∅ end.

Lemma loaded_returns : LoadHooks hooks_os (fun _ => Ret hooks_file) = Ret loaded.
Proof. vm_compute. reflexivity. Qed.

Lemma LoadHooks_keeps_every_entry_witness :
  length (hooks_for 7 hooks_file) = 3%nat ∧
  ∀ h, default [] (loaded !! h) = hooks_for h hooks_file ∧ Forall hook_ok (default [] (loaded !! h)).
Proof.
  split; [vm_compute; reflexivity|].
  refine (proj2 (LoadHooks_keeps_every_entry hooks_os (fun _ => Ret hooks_file) "yaml" hooks_file loaded _ _ _)).
  - reflexivity.
  - reflexivity.
  - exact loaded_returns.
Defined.

Definition block7 : SdkContext := mkSdkContext Background 7 "" 0 ExecModeFinalize false false.

Definition end_of_block : HookWorld Ledger * outcome nat :=
  EndBlocker (ret 3%nat) (fun _ => ([], None)) loaded block7 (mkHookWorld broken [] []).

Lemma EndBlocker_runs_the_hooks_of_its_height_witness :
  end_of_block.2 = Ret 3%nat ∧
  ∃ l, hw_log end_of_block.1 = l ∧ fst <$> l = Action <$> default [] (loaded !! 7) ∧ length l = 3%nat.
Proof.
  assert (Hr : end_of_block.2 = Ret 3%nat) by (vm_compute; reflexivity). split; [exact Hr|].
  destruct (EndBlocker_runs_the_hooks_of_its_height (ret 3%nat) (fun _ => ([], None)) loaded block7
    (mkHookWorld broken [] []) end_of_block.1 end_of_block.2) as [_ Hok].
  - unfold end_of_block. by destruct (EndBlocker _ _ _ _ _).
  - destruct (Hok 3%nat Hr) as (s1 & l & _ & _ & Hl & Ha). exists l. split; [exact Hl|].
    split; [exact Ha|]. rewrite <-(length_fmap fst), Ha. vm_compute. reflexivity.
Defined.

Lemma network_gauges_partition_validators_witness :
  let vs := [mkValidatorView Bonded false (Ret "pkA") "a" "alice";
             mkValidatorView Unbonding true (Fail ErrNotFound) "b" "bob"] in
  ∃ b ub un j t, network_gauges (foldl (count (fun _ => Fail ErrNotFound)) (mkCounts 0 0 0 0 0) vs) =
    [ mkGauge ["network"; "validators"] [("bond_status", "bonded")] b;
      mkGauge ["network"; "validators"] [("bond_status", "unbonding")] ub;
      mkGauge ["network"; "validators"] [("bond_status", "unbonded")] un;
      mkGauge ["network"; "validators"; "jailed"] [] j;
      mkGauge ["network"; "validators"; "tombstoned"] [] t ] ∧
    b + ub + un = Z.of_nat (length vs) ∧ 0 ≤ j ≤ Z.of_nat (length vs) ∧ 0 ≤ t ≤ Z.of_nat (length vs).
Proof.
  intros vs. apply network_gauges_partition_validators. repeat constructor; discriminate.
Defined.

End Witnesses.

End Hooks.
