(* ===== verification/Alerts.v ===== *)
(** * Upgrade alerts

    [app/upgrade_logging.go], [app/halt_logging.go], [app/webhook_notifier.go]
    and the [PreBlocker] of [app/app.go]: one structured log per scheduled
    plan, one before a coordinated halt, and their delivery to a webhook.  The
    upgrade keeper and the HTTP transport are classes; a [go] statement is the
    event that a goroutine was started. *)

From S2P Require Import Prelude GoStd GoJson External.

Module Alerts.

(** ** Time formatting: [UTC().Format(time.RFC3339Nano)] *)

Fixpoint pad_left (n : nat) (s : string) : string :=
  match n with
  | O => s
  | S n' => if (String.length s <? n)%nat then String "0" (pad_left n' s) else s
  end.

Definition digits (n : nat) (z : Z) : string := pad_left n (fmt_uint z).

(** The proleptic Gregorian date of a day number (0 is 1970-01-01). *)
Definition civil (day : Z) : Z * Z * Z :=
  let z := day + 719468 in
  let era := z / 146097 in
  let doe := z - era * 146097 in
  let yoe := (doe - doe / 1460 + doe / 36524 - doe / 146096) / 365 in
  let doy := doe - (365 * yoe + yoe / 4 - yoe / 100) in
  let mp := (5 * doy + 2) / 153 in
  let d := doy - (153 * mp + 2) / 5 + 1 in
  let m := if mp <? 10 then mp + 3 else mp - 9 in
  (yoe + era * 400 + (if m <=? 2 then 1 else 0), m, d).

Definition RFC3339Nano (t : Z) : string :=
  let secs := t / Second in
  let '(y, m, d) := civil (secs / 86400) in
  let sod := secs mod 86400 in
  digits 4 y +:+ "-" +:+ digits 2 m +:+ "-" +:+ digits 2 d +:+ "T"
  +:+ digits 2 (sod / 3600) +:+ ":" +:+ digits 2 (sod / 60 mod 60) +:+ ":" +:+ digits 2 (sod mod 60)
  +:+ frac_digits 9 (t mod Second) false "Z".

(** ** The keeper and the transport *)

Record Plan := mkPlan { plan_Name : string; plan_Height : Z; plan_Info : string }.
#[export] Instance Plan_eq_dec : EqDecision Plan.
Proof. solve_decision. Defined.

Class UpgradeKeeper (S : Type) := {
  GetUpgradePlan : S → outcome Plan;
  ShouldExecute : Plan → Z → bool;
  IsSkipHeight : Z → bool;
  HasHandler : string → bool }.

(** [http.NewRequestWithContext] for a POST to a URL, and [Client.Do]: the
    time it takes and the status code or the error. *)
Class Http (E : Type) := {
  NewRequest : string → outcome unit;
  Do : string → string → E → E * N * (Z + error) }.

Inductive AlertEvent :=
| ALog (isError : bool) (msg : string)
| APost (body : string)
| AGo (event text : string).

(** [upgradeNotifier]'s memory, the clock, the network and what was seen. *)
Record AlertWorld (E : Type) := mkAlertWorld {
  lastLoggedOK : bool; lastName : string; lastHeight : Z; lastInfo : string;
  aw_now : Z; aw_env : E; aw_trace : list AlertEvent }.
Arguments mkAlertWorld {E}.
Arguments lastLoggedOK {E}.
Arguments lastName {E}.
Arguments lastHeight {E}.
Arguments lastInfo {E}.
Arguments aw_now {E}.
Arguments aw_env {E}.
Arguments aw_trace {E}.

Record webhookNotifier := mkWebhookNotifier {
  wn_url : string; wn_maxAttempts : Z; wn_initialBackoff : Z }.

Definition webhookDefaultHTTPTimeout : Z := 5 * Second.
Definition webhookDefaultMaxAttempts : Z := 3.
Definition webhookDefaultInitialBackoff : Z := 1 * Second.

Definition newWebhookNotifier (url : string) : webhookNotifier :=
  mkWebhookNotifier url webhookDefaultMaxAttempts webhookDefaultInitialBackoff.

Section Alerts.
Context {E : Type} `{!Http E}.
Local Abbreviation W := (AlertWorld E).

Definition alert (ev : AlertEvent) : M W unit :=
  modify (fun w => mkAlertWorld (lastLoggedOK w) (lastName w) (lastHeight w) (lastInfo w)
                     (aw_now w) (aw_env w) (aw_trace w ++ [ev])).

Definition pause (d : Z) : M W unit :=
  modify (fun w => mkAlertWorld (lastLoggedOK w) (lastName w) (lastHeight w) (lastInfo w)
                     (aw_now w + d) (aw_env w) (aw_trace w)).

(** ** The webhook *)

(** [postOnce]: whether a retry makes sense, and the error. *)
Definition postOnce (n : webhookNotifier) (body : string) : M W (bool * option error) := fun w =>
  match NewRequest (wn_url n) with
  | Fail e => (w, Ret (false, Some e))
  | Panic s => (w, Panic s)
  | OutOfFuel => (w, OutOfFuel)
  | Ret _ =>
      let '(e', d, r) := Do (wn_url n) body (aw_env w) in
      let w' := mkAlertWorld (lastLoggedOK w) (lastName w) (lastHeight w) (lastInfo w)
                  (aw_now w + Z.of_N d) e' (aw_trace w ++ [APost body]) in
      (w', Ret match r with
               | inr err => (true, Some err)
               | inl code =>
                   if (200 <=? code) && (code <? 300) then (false, None)
                   else
                     let err := errText ("webhook returned status " +:+ fmt_d code) in
                     if 500 <=? code then (true, Some err) else (false, Some err)
               end)
  end.

(** The loop; [fuel] is [maxAttempts], the loop's own bound. *)
Fixpoint notifyLoop (fuel : nat) (n : webhookNotifier) (body : string) (attempt backoff : Z) :
    M W unit :=
  match fuel with
  | O => alert (ALog true "webhook notifier: delivery failed")
  | S fuel' =>
      let! r := postOnce n body in
      match r with
      | (_, None) => ret tt
      | (retryable, Some err) =>
          if negb retryable || (attempt =? wn_maxAttempts n) then
            alert (ALog true "webhook notifier: delivery failed")
          else
            do! pause backoff in
            notifyLoop fuel' n body (i64_add attempt 1) (i64_mul backoff 2)
      end
  end.

(** [Notify]; [None] is the nil receiver.  Encoding a string cannot fail. *)
Definition Notify (n : option webhookNotifier) (event text : string) : M W unit :=
  match n with
  | None => ret tt
  | Some n =>
      if bool_decide (wn_url n = "") then ret tt
      else
        let body := "{" +:+ json_member "text" (json_quote text) +:+ "}" in
        notifyLoop (Z.to_nat (wn_maxAttempts n)) n body 1 (wn_initialBackoff n)
  end.

(** ** The two logs *)

Definition upgradeEventName : string := "upgrade_scheduled".
Definition haltEventName : string := "halt_triggered".

Definition upgradeLog_JSON (p : Plan) : string :=
  "{" +:+ json_member "event" (json_quote upgradeEventName) +:+ ","
      +:+ json_member "name" (json_quote (plan_Name p)) +:+ ","
      +:+ json_member "height" (fmt_d (plan_Height p)) +:+ ","
      +:+ json_member "info" (json_quote (plan_Info p)) +:+ "}".

Definition haltLog_JSON (p : Plan) (height : Z) (timestamp : string) : string :=
  "{" +:+ json_member "event" (json_quote haltEventName) +:+ ","
      +:+ json_member "plan_name" (json_quote (plan_Name p)) +:+ ","
      +:+ json_member "height" (fmt_d height) +:+ ","
      +:+ json_member "info" (json_quote (plan_Info p)) +:+ ","
      +:+ json_member "timestamp" (json_quote timestamp) +:+ "}".

Definition newline : string := String (chr 10) EmptyString.
Definition backtick : string := String (chr 96) EmptyString.

Definition formatUpgradeScheduledText (p : Plan) : string :=
  ":warning: *Upgrade scheduled* — plan " +:+ backtick +:+ plan_Name p +:+ backtick
  +:+ " will halt the chain at height " +:+ backtick +:+ fmt_d (plan_Height p) +:+ backtick
  +:+ "." +:+ newline +:+ "Info: " +:+ plan_Info p.

Definition formatHaltTriggeredText (p : Plan) (height : Z) (timestamp : string) : string :=
  ":rotating_light: *Chain halt triggered* — plan " +:+ backtick +:+ plan_Name p +:+ backtick
  +:+ " at height " +:+ backtick +:+ fmt_d height +:+ backtick +:+ " (" +:+ timestamp
  +:+ ")." +:+ newline +:+ "Info: " +:+ plan_Info p.

Definition remember (ok : bool) (name : string) (height : Z) (info : string) : M W unit :=
  modify (fun w => mkAlertWorld ok name height info (aw_now w) (aw_env w) (aw_trace w)).

Definition forgetLastPlan : M W unit := remember false "" 0 "".

Context {S : Type} `{!UpgradeKeeper S}.

(** [MaybeLogNewPlan] of a notifier with a keeper. *)
Definition MaybeLogNewPlan (webhook : option webhookNotifier) (height : Z) (store : S) : M W unit :=
  match GetUpgradePlan store with
  | Fail e =>
      if errors_Is e ErrNoUpgradePlanFound then forgetLastPlan
      else alert (ALog true "upgrade logger: failed to read upgrade plan")
  | Panic s => panic s
  | OutOfFuel => out_of_fuel
  | Ret plan =>
      if ShouldExecute plan height then ret tt
      else
        let! seen := gets (fun w => lastLoggedOK w && bool_decide (lastName w = plan_Name plan)
                             && (lastHeight w =? plan_Height plan)
                             && bool_decide (lastInfo w = plan_Info plan)) in
        if seen then ret tt
        else
          do! alert (ALog false (upgradeLog_JSON plan)) in
          do! match webhook with
              | Some _ => alert (AGo upgradeEventName (formatUpgradeScheduledText plan))
              | None => ret tt
              end in
          remember true (plan_Name plan) (plan_Height plan) (plan_Info plan)
  end.

Definition logHaltIfTriggered (webhook : option webhookNotifier) (height blockTime : Z) (store : S) :
    M W unit :=
  match GetUpgradePlan store with
  | Fail e =>
      if errors_Is e ErrNoUpgradePlanFound then ret tt
      else alert (ALog true "halt logger: failed to read upgrade plan")
  | Panic s => panic s
  | OutOfFuel => out_of_fuel
  | Ret plan =>
      if negb (ShouldExecute plan height) then ret tt
      else if IsSkipHeight height then ret tt
      else if HasHandler (plan_Name plan) then ret tt
      else
        let timestamp := RFC3339Nano blockTime in
        do! alert (ALog true (haltLog_JSON plan height timestamp)) in
        Notify webhook haltEventName (formatHaltTriggeredText plan height timestamp)
  end.

(** [App.PreBlocker]: both logs, then the module manager's PreBlock on the
    same state, whose response is returned. *)
Definition preBlockAlerts (webhook : option webhookNotifier) (height blockTime : Z) (store : S) : M W unit :=
  do! logHaltIfTriggered webhook height blockTime store in
  MaybeLogNewPlan webhook height store.

Definition PreBlocker {Resp} (PreBlock : M S Resp) (webhook : option webhookNotifier)
    (height blockTime : Z) : M (W * S) Resp := fun '(w, store) =>
  match preBlockAlerts webhook height blockTime store w with
  | (w', Ret _) => let '(store', r) := PreBlock store in ((w', store'), r)
  | (w', Fail e) => ((w', store), Fail e)
  | (w', Panic m) => ((w', store), Panic m)
  | (w', OutOfFuel) => ((w', store), OutOfFuel)
  end.

End Alerts.

(** ** Theorems: delivery *)

Section NotifyClaims.
Context {E : Type} `{!Http E}.
Local Abbreviation W := (AlertWorld E).

Definition is_post (ev : AlertEvent) : bool := match ev with APost _ => true | _ => false end.
Definition posts (l : list AlertEvent) : nat := length (List.filter is_post l).

Lemma posts_app l l' : posts (l ++ l') = (posts l + posts l')%nat.
Proof. unfold posts. by rewrite List.filter_app, length_app. Qed.

(** The client's timeout holds, and building a request returns. *)
Definition http_ok : Prop :=
  (∀ url body (e : E), Z.of_N (Do url body e).1.2 ≤ webhookDefaultHTTPTimeout) ∧
  ∀ url, (∃ e, NewRequest (E := E) url = Fail e) ∨ NewRequest (E := E) url = Ret tt.

Lemma postOnce_run n body (w : W) :
  http_ok →
  ∃ w' r, postOnce n body w = (w', Ret r) ∧
    (posts (aw_trace w') ≤ Datatypes.S (posts (aw_trace w)))%nat ∧
    aw_now w ≤ aw_now w' ≤ aw_now w + webhookDefaultHTTPTimeout.
Proof.
  intros [Ht Hn]. unfold postOnce. destruct (Hn (wn_url n)) as [[e ->]| ->].
  - exists w. eexists. split; [done|]. unfold webhookDefaultHTTPTimeout, Second, Millisecond. lia.
  - specialize (Ht (wn_url n) body (aw_env w)). destruct (Do _ _ _) as [[e' d] r]. cbn in Ht.
    do 2 eexists. split; [done|]. cbn [aw_trace aw_now]. rewrite posts_app. cbn. lia.
Qed.

(** The pauses double, so [fuel] attempts pause less than [2^fuel] times the
    first pause. *)
Lemma notifyLoop_run fuel n body attempt backoff (w : W) :
  http_ok → 0 ≤ backoff → backoff * 2 ^ Z.of_nat fuel < 2 ^ 63 →
  1 ≤ attempt → attempt + Z.of_nat fuel = wn_maxAttempts n + 1 → wn_maxAttempts n < 2 ^ 62 →
  ∃ w', notifyLoop fuel n body attempt backoff w = (w', Ret tt) ∧
    (posts (aw_trace w') ≤ posts (aw_trace w) + fuel)%nat ∧
    aw_now w' ≤ aw_now w + Z.of_nat fuel * webhookDefaultHTTPTimeout
                + backoff * (2 ^ (Z.max 1 (Z.of_nat fuel) - 1) - 1).
Proof.
  intros Hok. revert attempt backoff w. induction fuel as [|fuel IH]; intros attempt backoff w Hb Hw Ha Hs Hm.
  - eexists. split; [reflexivity|]. cbn [alert modify aw_trace aw_now]. rewrite posts_app.
    change (posts [ALog _ _]) with 0%nat. change (2 ^ (Z.max 1 (Z.of_nat 0) - 1) - 1) with 0. lia.
  - cbn [notifyLoop]. unfold bindM.
    destruct (postOnce_run n body w Hok) as (w1 & [b [err|]] & -> & Hp & Ht).
    2: { exists w1. split; [done|]. split; [lia|]. rewrite Nat2Z.inj_succ.
         unfold webhookDefaultHTTPTimeout, Second, Millisecond in *.
         pose proof (Z.pow_pos_nonneg 2 (Z.max 1 (Z.succ (Z.of_nat fuel)) - 1)). nia. }
    assert (Hpow : 2 ^ Z.of_nat (Datatypes.S fuel) = 2 * 2 ^ Z.of_nat fuel).
    { rewrite Nat2Z.inj_succ, Z.pow_succ_r by lia. done. }
    pose proof (Z.pow_pos_nonneg 2 (Z.of_nat fuel)) as Hpp.
    destruct (negb b || (attempt =? wn_maxAttempts n)) eqn:Hstop.
    + eexists. split; [reflexivity|]. cbn [alert modify aw_trace aw_now]. rewrite posts_app. cbn [posts].
      change (posts [ALog _ _]) with 0%nat. split; [lia|].
      rewrite Nat2Z.inj_succ. replace (Z.max 1 (Z.succ (Z.of_nat fuel)) - 1) with (Z.of_nat fuel) by lia.
      unfold webhookDefaultHTTPTimeout, Second, Millisecond in *. nia.
    + apply orb_false_iff in Hstop as [_ Hne]. bools. unfold pause, modify.
      assert (Hf : (0 < fuel)%nat) by lia.
      unfold i64_add, i64_mul. rewrite (i64_small (attempt + 1)) by (unfold is_i64; lia).
      assert (Hpf : 2 ≤ 2 ^ Z.of_nat fuel).
      { destruct fuel; [lia|]. rewrite Nat2Z.inj_succ, Z.pow_succ_r by lia.
        pose proof (Z.pow_pos_nonneg 2 (Z.of_nat fuel)). lia. }
      rewrite (i64_small (backoff * 2)) by (unfold is_i64; nia).
      match goal with |- context [notifyLoop _ _ _ _ _ ?x] => set (w2 := x) end.
      destruct (IH (attempt + 1) (backoff * 2) w2) as (w' & -> & Hp' & Ht'); [nia|nia|lia|lia|lia|].
      exists w'. split; [done|]. subst w2. cbn [aw_trace aw_now] in *. split; [lia|].
      rewrite Nat2Z.inj_succ. replace (Z.max 1 (Z.succ (Z.of_nat fuel)) - 1) with (Z.of_nat fuel) by lia.
      replace (Z.max 1 (Z.of_nat fuel) - 1) with (Z.of_nat fuel - 1) in Ht' by lia.
      assert (2 ^ Z.of_nat fuel = 2 * 2 ^ (Z.of_nat fuel - 1)).
      { rewrite <-Z.pow_succ_r by lia. f_equal. lia. }
      unfold webhookDefaultHTTPTimeout, Second, Millisecond in *. nia.
Qed.

(** Whatever the endpoint does, delivery returns, and announces nothing. *)
Definition is_announcement (ev : AlertEvent) : bool := match ev with AGo _ _ => true | _ => false end.

Definition delivers (m : M W unit) : Prop := ∀ w, ∃ w' l,
  m w = (w', Ret tt) ∧ aw_trace w' = (aw_trace w ++ l)%list ∧ Forall (fun ev => is_announcement ev = false) l.

Lemma notifyLoop_delivers fuel n body attempt backoff :
  http_ok → delivers (notifyLoop fuel n body attempt backoff).
Proof.
  intros [_ Hn]. revert attempt backoff. induction fuel as [|fuel IH]; intros attempt backoff w.
  { do 2 eexists. split; [reflexivity|]. split; [done|]. by repeat constructor. }
  assert (Hpost : ∃ w1 r l, postOnce n body w = (w1, Ret r) ∧ aw_trace w1 = (aw_trace w ++ l)%list ∧
    Forall (fun ev => is_announcement ev = false) l).
  { unfold postOnce. destruct (Hn (wn_url n)) as [[e ->]| ->].
    - exists w, (false, Some e), []. by rewrite app_nil_r.
    - destruct (Do _ _ _) as [[e' d] r]. do 3 eexists. split; [done|]. split; [done|]. by repeat constructor. }
  destruct Hpost as (w1 & [b err] & l & Hp & Ht & Hl). cbn [notifyLoop]. unfold bindM. rewrite Hp.
  destruct err as [err|]; [|by exists w1, l].
  destruct (negb b || _).
  - do 2 eexists. split; [reflexivity|]. split; [cbn; rewrite Ht; by rewrite <-app_assoc|].
    apply Forall_app. split; [done|]. by repeat constructor.
  - unfold pause, modify. match goal with |- context [notifyLoop _ _ _ ?a ?c ?x] =>
      destruct (IH a c x) as (w' & l' & Hr & Ht' & Hl') end.
    exists w', (l ++ l')%list. split; [exact Hr|]. cbn in Ht'. rewrite Ht', Ht, app_assoc. split; [done|].
    by apply Forall_app.
Qed.

Lemma Notify_delivers n event text : http_ok → delivers (Notify n event text).
Proof.
  intros Hok w. destruct n as [n|]; cbn [Notify]; [case_bool_decide|].
  2: by apply notifyLoop_delivers.
  all: exists w, []; by rewrite app_nil_r.
Qed.

(** Delivery is bounded.  However the endpoint behaves, a notification of
    the configured notifier returns after at most three requests and 18
    seconds of requests and pauses, so a hung endpoint cannot keep the chain
    from halting. *)
Theorem webhook_delivery_is_bounded url event text (w : W) :
  http_ok →
  ∃ w', Notify (Some (newWebhookNotifier url)) event text w = (w', Ret tt) ∧
    (posts (aw_trace w') ≤ posts (aw_trace w) + 3)%nat ∧ aw_now w' ≤ aw_now w + 18 * Second.
Proof.
  intros Hok. unfold Notify, newWebhookNotifier. cbn [wn_url wn_maxAttempts wn_initialBackoff].
  case_bool_decide; [exists w; split; [done|]; unfold Second, Millisecond; lia|].
  match goal with |- context [notifyLoop _ ?nn ?b _ _ _] =>
    destruct (notifyLoop_run 3 nn b 1 webhookDefaultInitialBackoff w Hok) as (w' & Hr & Hp & Ht) end;
    [unfold webhookDefaultInitialBackoff, Second, Millisecond; lia..|done|
     cbn [wn_maxAttempts]; unfold webhookDefaultMaxAttempts; lia|].
  exists w'. split_and!; [exact Hr|lia|].
  change (2 ^ (Z.max 1 (Z.of_nat 3) - 1) - 1) with 3 in Ht.
  unfold webhookDefaultHTTPTimeout, webhookDefaultInitialBackoff in Ht. lia.
Qed.

End NotifyClaims.

(** ** Theorems: one log per plan *)

Section LogClaims.
Context {E S : Type} `{!Http E, !UpgradeKeeper S}.
Local Abbreviation W := (AlertWorld E).

(** The notifier remembers exactly this plan. *)
Definition remembers (w : W) (p : Plan) : Prop :=
  lastLoggedOK w = true ∧ lastName w = plan_Name p ∧ lastHeight w = plan_Height p ∧ lastInfo w = plan_Info p.

Lemma remembers_test (w : W) p :
  lastLoggedOK w && bool_decide (lastName w = plan_Name p) && (lastHeight w =? plan_Height p)
    && bool_decide (lastInfo w = plan_Info p) = true ↔ remembers w p.
Proof.
  unfold remembers. rewrite !andb_true_iff, !bool_decide_eq_true, Z.eqb_eq. tauto.
Qed.

(** One block after the other, with the given heights and stores. *)
Fixpoint blocks (webhook : option webhookNotifier) (l : list (Z * S)) : M W unit :=
  match l with
  | [] => ret tt
  | (h, s) :: l' => do! MaybeLogNewPlan webhook h s in blocks webhook l'
  end.

(** The events of one announcement. *)
Definition announcement (webhook : option webhookNotifier) (p : Plan) : list AlertEvent :=
  ALog false (upgradeLog_JSON p) ::
  match webhook with
  | Some _ => [AGo upgradeEventName (formatUpgradeScheduledText p)]
  | None => []
  end.

Lemma MaybeLog_again webhook h s p (w : W) :
  GetUpgradePlan s = Ret p → remembers w p → MaybeLogNewPlan webhook h s w = (w, Ret tt).
Proof.
  intros Hp Hr. unfold MaybeLogNewPlan. rewrite Hp. destruct (ShouldExecute p h); [done|].
  cbv [bindM gets]. by rewrite (proj2 (remembers_test w p) Hr).
Qed.

Lemma MaybeLog_first webhook h s p (w : W) :
  GetUpgradePlan s = Ret p → ShouldExecute p h = false → ¬ remembers w p →
  ∃ w', MaybeLogNewPlan webhook h s w = (w', Ret tt) ∧ remembers w' p ∧
    aw_trace w' = (aw_trace w ++ announcement webhook p)%list.
Proof.
  intros Hp Hs Hr. unfold MaybeLogNewPlan. rewrite Hp, Hs. cbv [bindM gets].
  destruct (_ && _) eqn:Ht; [by apply remembers_test in Ht|].
  destruct webhook; eexists; (split; [reflexivity|]); (split; [done|]); cbn; by rewrite <-?app_assoc.
Qed.

Lemma blocks_again webhook p l (w : W) :
  Forall (fun x => GetUpgradePlan (snd x) = Ret p) l → remembers w p → blocks webhook l w = (w, Ret tt).
Proof.
  intros Hl Hr. induction Hl as [|[h s] l Hp _ IH]; [done|]. cbn [blocks]. unfold bindM.
  by rewrite (MaybeLog_again webhook h s p w Hp Hr).
Qed.

(** A scheduled plan is announced exactly once.  Over any run of blocks in
    which the same plan is stored and the first block is not yet its height, a
    notifier that does not remember the plan emits one announcement at the
    first block and nothing after it. *)
Theorem upgrade_announced_once webhook p h s l (w : W) :
  GetUpgradePlan s = Ret p → ShouldExecute p h = false → ¬ remembers w p →
  Forall (fun x => GetUpgradePlan (snd x) = Ret p) l →
  ∃ w', blocks webhook ((h, s) :: l) w = (w', Ret tt) ∧
    aw_trace w' = (aw_trace w ++ announcement webhook p)%list ∧ remembers w' p.
Proof.
  intros Hp Hs Hr Hl. destruct (MaybeLog_first webhook h s p w Hp Hs Hr) as (w' & Hm & Hr' & Ht).
  exists w'. split; [|done]. cbn [blocks]. unfold bindM. rewrite Hm. by apply (blocks_again webhook p).
Qed.

(** A block at which the upgrade module will halt the chain. *)
Definition halts (p : Plan) (h : Z) : bool :=
  ShouldExecute p h && negb (IsSkipHeight h) && negb (HasHandler (plan_Name p)).

Lemma halt_idle webhook h t s p (w : W) :
  GetUpgradePlan s = Ret p → halts p h = false → logHaltIfTriggered webhook h t s w = (w, Ret tt).
Proof.
  intros Hp Hh. unfold logHaltIfTriggered, halts in *. rewrite Hp.
  destruct (ShouldExecute p h); [|done]. destruct (IsSkipHeight h); [done|].
  by destruct (HasHandler (plan_Name p)).
Qed.

Lemma halt_fires webhook h t s p (w : W) :
  GetUpgradePlan s = Ret p → halts p h = true →
  logHaltIfTriggered webhook h t s w =
    Notify webhook haltEventName (formatHaltTriggeredText p h (RFC3339Nano t))
      (alert (ALog true (haltLog_JSON p h (RFC3339Nano t))) w).1.
Proof.
  intros Hp Hh. unfold logHaltIfTriggered, halts in *. rewrite Hp.
  destruct (ShouldExecute p h); [|done]. destruct (IsSkipHeight h); [done|].
  by destruct (HasHandler (plan_Name p)).
Qed.

Lemma due_not_announced webhook h s p (w : W) :
  GetUpgradePlan s = Ret p → ShouldExecute p h = true → MaybeLogNewPlan webhook h s w = (w, Ret tt).
Proof. intros Hp Hs. unfold MaybeLogNewPlan. by rewrite Hp, Hs. Qed.

Lemma PreBlocker_run {Resp} (PreBlock : M S Resp) webhook h t s (w w1 w2 : W) :
  logHaltIfTriggered webhook h t s w = (w1, Ret tt) → MaybeLogNewPlan webhook h s w1 = (w2, Ret tt) →
  PreBlocker PreBlock webhook h t (w, s) = ((w2, (PreBlock s).1), (PreBlock s).2).
Proof.
  intros H1 H2. unfold PreBlocker, preBlockAlerts, bindM. rewrite H1, H2. by destruct (PreBlock s).
Qed.

(** Alerts never hold up a block, exclude each other and match the upgrade
    module.  Whatever the webhook endpoint does, [PreBlocker] goes on to the
    modules' PreBlock on the untouched state and returns its response; at a
    halting block the halt is logged first and no plan is announced, at a block
    whose plan is due but handled or skipped nothing is emitted, and at an
    earlier block nothing but one announcement. *)
Theorem PreBlocker_alerts {Resp} (PreBlock : M S Resp) webhook h t s p (w : W) :
  http_ok (E := E) → GetUpgradePlan s = Ret p →
  ∃ w', PreBlocker PreBlock webhook h t (w, s) = ((w', (PreBlock s).1), (PreBlock s).2) ∧
    if ShouldExecute p h then
      if halts p h then
        ∃ l, aw_trace w' = (aw_trace w ++ ALog true (haltLog_JSON p h (RFC3339Nano t)) :: l)%list ∧
          Forall (fun ev => is_announcement ev = false) l
      else w' = w
    else aw_trace w' = aw_trace w ∨ aw_trace w' = (aw_trace w ++ announcement webhook p)%list.
Proof.
  intros Hok Hp. destruct (halts p h) eqn:Hh.
  - assert (Hs : ShouldExecute p h = true) by (by unfold halts in Hh; destruct (ShouldExecute p h)).
    rewrite Hs. pose proof (halt_fires webhook h t s p w Hp Hh) as Hf.
    revert Hf. generalize (RFC3339Nano t) as ts. intros ts Hf.
    destruct (Notify_delivers webhook haltEventName (formatHaltTriggeredText p h ts) Hok
                (alert (ALog true (haltLog_JSON p h ts)) w).1) as (w' & l & Hn & Ht & Hl).
    exists w'. rewrite Hn in Hf. split.
    + eapply PreBlocker_run; [exact Hf|by eapply due_not_announced].
    + exists l. split; [|done]. rewrite Ht. cbn [alert modify fst aw_trace]. by rewrite <-app_assoc.
  - pose proof (halt_idle webhook h t s p w Hp Hh) as Hi. destruct (ShouldExecute p h) eqn:Hs.
    + exists w. split; [|done]. eapply PreBlocker_run; [exact Hi|by eapply due_not_announced].
    + destruct (decide (remembers w p)) as [Hm|Hm].
      * exists w. split; [|by left]. eapply PreBlocker_run; [exact Hi|by eapply MaybeLog_again].
      * destruct (MaybeLog_first webhook h s p w Hp Hs Hm) as (w1 & H1 & _ & Ht).
        exists w1. split; [by eapply PreBlocker_run|by right].
Qed.

End LogClaims.

(** ** Witnesses *)

Section Witnesses.

(** An endpoint that answers from a list of status codes, then hangs up to
    the timeout. *)
Definition slack : Http (list Z) := {|
  NewRequest url := Ret tt;
  Do _ _ l := match l with
              | [] => ([], 5000000000%N, inr (errText "deadline exceeded"))
              | c :: l' => (l', 20000000%N, inl c)
              end |}.

(** A store is the plan it holds; a plan is due at its height. *)
Definition plans : UpgradeKeeper (option Plan) := {|
  GetUpgradePlan s := match s with Some p => Ret p | None => Fail (errWrap "upgrade" ErrNoUpgradePlanFound) end;
  ShouldExecute p h := plan_Height p =? h;
  IsSkipHeight _ := false;
  HasHandler n := bool_decide (n = "globalfee-v1") |}.
#[local] Existing Instances slack plans.

Definition quiet (codes : list Z) : AlertWorld (list Z) := mkAlertWorld false "" 0 "" 0 codes [].
Definition osaka : Plan := mkPlan "osaka" 100 "https://example.com".

Lemma slack_ok : http_ok (E := list Z).
Proof.
  split.
  - intros url body [|c l]; vm_compute; discriminate.
  - intros url. right. reflexivity.
Qed.

Lemma webhook_delivery_is_bounded_witness :
  ∃ w', Notify (Some (newWebhookNotifier "https://hooks")) "e" "t" (quiet []) = (w', Ret tt) ∧
    (posts (aw_trace w') ≤ posts (aw_trace (quiet [])) + 3)%nat ∧ aw_now w' ≤ aw_now (quiet []) + 18 * Second.
Proof.
  apply webhook_delivery_is_bounded. exact slack_ok.
Defined.

Lemma upgrade_announced_once_witness :
  ∃ w', blocks (Some (newWebhookNotifier "u")) [(98, Some osaka); (99, Some osaka); (100, Some osaka)]
          (quiet []) = (w', Ret tt) ∧
    aw_trace w' = ([] ++ announcement (Some (newWebhookNotifier "u")) osaka)%list ∧ remembers w' osaka.
Proof.
  apply (upgrade_announced_once (Some (newWebhookNotifier "u")) osaka 98 (Some osaka)).
  - reflexivity.
  - reflexivity.
  - intros [H _]. discriminate H.
  - repeat constructor.
Defined.

Lemma PreBlocker_alerts_witness :
  halts osaka 100 = true ∧
  ∃ w', PreBlocker (fun s => (s, Ret 7%nat)) (Some (newWebhookNotifier "u")) 100 0
          (quiet [200], Some osaka) = ((w', Some osaka), Ret 7%nat) ∧
    ∃ l, aw_trace w' = ([] ++ ALog true (haltLog_JSON osaka 100 (RFC3339Nano 0)) :: l)%list ∧
      Forall (fun ev => is_announcement ev = false) l.
Proof.
  split; [reflexivity|].
  exact (PreBlocker_alerts (fun s => (s, Ret 7%nat)) (Some (newWebhookNotifier "u")) 100 0 (Some osaka)
    osaka (quiet [200]) slack_ok eq_refl).
Defined.

End Witnesses.

End Alerts.
