(* ===== verification/Readiness.v ===== *)
(** * The readiness probe

    [app/rpc_readiness.go]: GET /readyz.  Committed block state, the local
    CometBFT sync flag, the execution client's answer to a forkchoice update
    without attributes, and the optional comparison with a trusted peer. *)

From S2P Require Import Prelude GoStd GoJson External ChainSpec Engine Concrete Async EvmTypes Keeper.

Module Readiness.

Definition readinessRequestTimeout : Z := 12 * Second.
Definition readinessBodyOK : string := "ok".
Definition readinessBodyUnhealthy : string := "unhealthy".
Definition StatusOK : Z := 200.
Definition StatusServiceUnavailable : Z := 503.
Definition StatusInternalServerError : Z := 500.

(** ** Configuration *)

Record readinessProbeConfig := mkProbeConfig {
  TrustedPeerStatusURL : string; TrustedPeerHeadersJSON : string; HeadLagMaxBlocks : Z }.

Definition loadReadinessProbeConfig (os : OS) : readinessProbeConfig :=
  let s := TrimSpace (Getenv os "HEAD_LAG_MAX_BLOCKS") in
  let maxLag := if bool_decide (s = "") then 2
                else match ParseUint s with Ret v => v | _ => 2 end in
  mkProbeConfig (TrimSpace (Getenv os "TRUSTED_PEER_STATUS_URL"))
    (Getenv os "TRUSTED_PEER_STATUS_HEADERS") maxLag.

(** ** Errors *)

(** What a check returns: nil, a [readinessProbeError] with its stage, or
    another error. *)
Inductive probe := Healthy | Tagged (kind : string) (e : error) | Untagged (e : error).

Definition errKindCommittedState : string := "committed_state".
Definition errKindQueryContext : string := "query_context".
Definition errKindCosmos : string := "cosmos".
Definition errKindReth : string := "reth".
Definition errKindHeadLag : string := "head_lag".
Definition errKindTrustedPeerConfig : string := "trusted_peer_config".
Definition errKindTrustedPeerRequest : string := "trusted_peer_request".
Definition errKindTrustedPeerResponse : string := "trusted_peer_response".

Definition readinessFailureHTTPStatus (p : probe) : Z :=
  match p with Tagged _ _ => StatusServiceUnavailable | _ => StatusInternalServerError end.

(** The stage that is logged. *)
Definition readinessStage (p : probe) : string :=
  match p with Tagged k _ => k | _ => "internal" end.

(** Status code and body. *)
Definition writeReadinessResult (p : probe) : Z * string :=
  match p with
  | Healthy => (StatusOK, readinessBodyOK)
  | _ => (readinessFailureHTTPStatus p, readinessBodyUnhealthy)
  end.

(** ** CometBFT status *)

Record cometStatusParsed := mkCometStatus { catchingUp : option bool; latestBlockHeight : option Z }.

(** A [json.RawMessage] member is kept as the value it holds. *)
Record syncInfo := mkSyncInfo { si_CatchingUp : option bool; si_LatestBlockHeight : option json }.
Record statusWrap := mkStatusWrap { sw_Result : option (option syncInfo); sw_Error : option json }.

Definition sync_store (f : string) (v : json) (t : syncInfo) : outcome syncInfo :=
  if bool_decide (f = "catching_up") then
    match v with
    | JNull => Ret (mkSyncInfo None (si_LatestBlockHeight t))
    | _ => let? b := to_bool v false in Ret (mkSyncInfo (Some b) (si_LatestBlockHeight t))
    end
  else Ret (mkSyncInfo (si_CatchingUp t) (Some v)).

Definition zero_sync : syncInfo := mkSyncInfo None None.

Definition result_store (f : string) (v : json) (t : option syncInfo) : outcome (option syncInfo) :=
  match v with
  | JNull => Ret None
  | _ => let? s := decode_struct ["catching_up"; "latest_block_height"] sync_store v
                     (match t with Some s => s | None => zero_sync end) in
         Ret (Some s)
  end.

Definition wrap_store (f : string) (v : json) (t : statusWrap) : outcome statusWrap :=
  if bool_decide (f = "result") then
    match v with
    | JNull => Ret (mkStatusWrap None (sw_Error t))
    | _ => let? r := decode_struct ["sync_info"] result_store v
                       (match sw_Result t with Some r => r | None => None end) in
           Ret (mkStatusWrap (Some r) (sw_Error t))
    end
  else
    Ret (mkStatusWrap (sw_Result t) (match v with JNull => None | _ => Some v end)).

(** A number or a quoted number; [null] leaves the zero value. *)
Definition parseJSONInt64 (v : json) : outcome Z :=
  match v with
  | JStr s => ParseInt (TrimSpace s)
  | _ => to_int64 v 0
  end.

(** [parseCometStatusJSON]; the raw text of an RPC error is not kept in the
    error. *)
Definition parseCometStatusJSON (b : string) : outcome cometStatusParsed :=
  let? w := wrap "json decode"
              (let? v := json_parse b in
               decode_struct ["result"; "error"] wrap_store v (mkStatusWrap None None)) in
  match sw_Error w with
  | Some _ => Fail (errText "rpc error")
  | None =>
      match sw_Result w with
      | Some (Some si) =>
          match si_LatestBlockHeight si with
          | Some v =>
              let? h := wrap "latest_block_height" (parseJSONInt64 v) in
              Ret (mkCometStatus (si_CatchingUp si) (Some h))
          | None => Ret (mkCometStatus (si_CatchingUp si) None)
          end
      | _ => Fail (errText "missing sync_info")
      end
  end.

(** ** The trusted peer *)

(** A JSON object of strings, as the map it decodes to. *)
Fixpoint header_members (l : list (string * json)) (m : gmap string string) (err : option error) :
    gmap string string * option error :=
  match l with
  | [] => (m, err)
  | (k, v) :: l' =>
      match v with
      | JStr s => header_members l' (<[k := s]> m) err
      | JNull => header_members l' (<[k := ""]> m) err
      | _ => header_members l' m (match err with Some e => Some e | None => Some UnmarshalTypeError end)
      end
  end.

Definition parseOptionalJSONHeaders (raw : string) : outcome (gmap string string) :=
  let raw := TrimSpace raw in
  if bool_decide (raw = "") then Ret ∅
  else
    wrap "TRUSTED_PEER_STATUS_HEADERS must be JSON object"
      (let? v := json_parse raw in
       match v with
       | JObj l => match header_members l ∅ None with (m, None) => Ret m | (_, Some e) => Fail e end
       | JNull => Ret ∅
       | _ => Fail UnmarshalTypeError
       end).

Definition truncateBytes (s : string) (n : nat) : string :=
  if (String.length s <=? n)%nat then s else take_bytes n s +:+ "...".

(** [http.DefaultClient] on a GET with extra headers: building the request may
    fail; the response is a status code and a body (read up to 1 MiB) or an
    error of the request or of reading. *)
Class Peer (E : Type) := {
  BuildGet : string → outcome unit;
  Get : Ctx → string → gmap string string → E → E * N * (Z * (string + error) + error);
  (** [Client.Status] of the local CometBFT: its CatchingUp flag *)
  Status : Ctx → E → E * N * outcome bool }.

Definition maxBody : nat := Z.to_nat (2 ^ 20).

Section Probe.
Context {E S : Type} `{!ItemStore S, !EngineClient E, !Peer E, GoEthereum}.
Local Abbreviation W := (World E S).

(** The difference of the heights, as the code computes it. *)
Definition headDiff (localCommittedHeight peerH : Z) : Z :=
  let lh := i64 localCommittedHeight in
  if lh <=? peerH then u64 (i64_sub peerH lh) else u64 (i64_sub lh peerH).

(** What is concluded from the peer's answer. *)
Definition judgePeer (localCommittedHeight maxLag code : Z) (b : string) : probe :=
  if negb (code =? StatusOK) then
    Tagged errKindTrustedPeerResponse
      (errText ("http " +:+ fmt_d code +:+ ": " +:+ truncateBytes b 200))
  else
    match parseCometStatusJSON b with
    | Ret parsed =>
        match latestBlockHeight parsed with
        | None => Tagged errKindTrustedPeerResponse (errText "missing sync_info.latest_block_height")
        | Some peerH =>
            if peerH <? 0 then
              Tagged errKindTrustedPeerResponse (errText "latest_block_height negative")
            else
              let diff := headDiff localCommittedHeight peerH in
              if maxLag <? diff then
                Tagged errKindHeadLag
                  (errText (fmt_d diff +:+ " blocks apart (local_committed=" +:+ fmt_d localCommittedHeight
                            +:+ " peer=" +:+ fmt_d peerH +:+ " max_abs=" +:+ fmt_d maxLag +:+ ")"))
              else Healthy
        end
    | Fail e => Tagged errKindTrustedPeerResponse (errWrap "status body" e)
    | _ => Untagged (errText "unreachable")
    end.

Definition env_call {A} (f : E → E * N * A) : M W A := fun w =>
  match f (w_env w) with
  | (e', d, a) => (mkWorld (w_now w + Z.of_N d) e' (w_store w) (w_trace w) (w_lastLoggedRPCVersion w), Ret a)
  end.

Definition checkTrustedPeerLag (ctx : Ctx) (localCommittedHeight : Z) (peerStatusURL headersJSON : string)
    (maxLag : Z) : M W probe :=
  if bool_decide (TrimSpace peerStatusURL = "") then ret Healthy
  else
    match parseOptionalJSONHeaders headersJSON with
    | Fail e => ret (Tagged errKindTrustedPeerConfig e)
    | Panic s => panic s
    | OutOfFuel => out_of_fuel
    | Ret extra =>
        match BuildGet peerStatusURL with
        | Fail e => ret (Tagged errKindTrustedPeerRequest e)
        | Panic s => panic s
        | OutOfFuel => out_of_fuel
        | Ret _ =>
            let! r := env_call (Get ctx peerStatusURL extra) in
            match r with
            | inr e => ret (Tagged errKindTrustedPeerRequest e)
            | inl (_, inr e) => ret (Tagged errKindTrustedPeerRequest e)
            | inl (code, inl b) =>
                ret (judgePeer localCommittedHeight maxLag code (take_bytes maxBody b))
            end
        end
    end.

(** [statusFn] is nil when the API server has no client. *)
Definition checkLocalCometNotCatchingUp (ctx : Ctx) (hasClient : bool) : M W (option error) :=
  if negb hasClient then ret (Some (errText "comet rpc client not configured for readiness"))
  else
    let! r := env_call (Status ctx) in
    match r with
    | Fail e => ret (Some (errWrap "status" e))
    | Panic s => panic s
    | OutOfFuel => out_of_fuel
    | Ret true => ret (Some (errText "catching_up=true"))
    | Ret false => ret None
    end.

Definition readinessChecksPhases (ctx : Ctx) (hasClient : bool) (committed : BlockState)
    (cfg : readinessProbeConfig) : M W probe :=
  let! c := checkLocalCometNotCatchingUp ctx hasClient in
  match c with
  | Some e => ret (Tagged errKindCosmos e)
  | None =>
      let! r := try (ProbeCommittedExecutionHead ctx committed) in
      match r with
      | inr e => ret (Tagged errKindReth e)
      | inl _ =>
          checkTrustedPeerLag ctx (bs_Height committed) (TrustedPeerStatusURL cfg)
            (TrustedPeerHeadersJSON cfg) (HeadLagMaxBlocks cfg)
      end
  end.

(** [CreateQueryContextWithCheckHeader(0, false, false)] is an argument. *)
Definition runReadinessChecks (ctx : Ctx) (queryContext : outcome unit) (hasClient : bool)
    (cfg : readinessProbeConfig) : M W probe :=
  match queryContext with
  | Fail e => ret (Tagged errKindQueryContext (errWrap "create query context" e))
  | Panic s => panic s
  | OutOfFuel => out_of_fuel
  | Ret _ =>
      let! r := try GetBlockState in
      match r with
      | inr e =>
          if errors_Is e ErrNotFound
          then ret (Tagged errKindCommittedState (errWrap "block state not initialized" e))
          else ret (Untagged (errWrap "block state" e))
      | inl committed => readinessChecksPhases ctx hasClient committed cfg
      end
  end.

Definition readinessHTTPHandler (reqCtx : Ctx) (queryContext : outcome unit) (hasClient : bool)
    (cfg : readinessProbeConfig) : M W (Z * string) :=
  let! now := gets w_now in
  let! p := runReadinessChecks (WithTimeout reqCtx readinessRequestTimeout now) queryContext hasClient cfg in
  do! match p with
      | Healthy => ret tt
      | _ => logger LError ("readiness probe failed stage=" +:+ readinessStage p)
      end in
  ret (writeReadinessResult p).

End Probe.

(** ** Theorems *)

Lemma headDiff_exact l p : 0 ≤ l < 2 ^ 63 → 0 ≤ p < 2 ^ 63 → headDiff l p = Z.abs (p - l).
Proof.
  intros Hl Hp. unfold headDiff, i64_sub. rewrite (i64_small l) by (unfold is_i64; lia).
  destruct (Z.leb_spec l p); rewrite i64_small, u64_small by (unfold is_i64, is_u64; lia); lia.
Qed.

Lemma parseJSONInt64_i64 v h : parseJSONInt64 v = Ret h → is_i64 h.
Proof.
  unfold parseJSONInt64, to_int64. destruct v; intros Hp; try done.
  - injection Hp as <-. unfold is_i64. lia.
  - destruct (ParseInt lit) eqn:Hi; simplify_eq. by eapply ParseInt_i64.
  - by eapply ParseInt_i64.
Qed.

Lemma parseCometStatusJSON_i64 b c h :
  parseCometStatusJSON b = Ret c → latestBlockHeight c = Some h → is_i64 h.
Proof.
  unfold parseCometStatusJSON. intros Hp Hh. apply bindO_ret in Hp as (w & _ & Hp).
  destruct (sw_Error w); [done|]. destruct (sw_Result w) as [[si|]|]; try done.
  destruct (si_LatestBlockHeight si) as [v|]; [|by simplify_eq].
  apply bindO_ret in Hp as (x & Hx & [= <-]). simplify_eq/=.
  destruct (parseJSONInt64 v) eqn:Hv; simplify_eq/=. by eapply parseJSONInt64_i64.
Qed.

(** The head-lag rule is the documented one.  For a local height below 2^63
    and a peer that answers 200 with a height, the check passes exactly when
    the height is not negative and |peer - local| <= maxLag (equality is still
    healthy); any other status code or body is unhealthy. *)
Theorem head_lag_rule local maxLag code b :
  0 ≤ local < 2 ^ 63 →
  judgePeer local maxLag code b = Healthy ↔
  code = StatusOK ∧ ∃ c h, parseCometStatusJSON b = Ret c ∧ latestBlockHeight c = Some h ∧
    0 ≤ h ∧ Z.abs (h - local) ≤ maxLag.
Proof.
  intros Hl. unfold judgePeer. destruct (Z.eqb_spec code StatusOK) as [->|Hc]; cbn [negb].
  2: { split; [done|]. by intros [? _]. }
  destruct (parseCometStatusJSON b) as [c|e|s|] eqn:Hp.
  2-4: split; [done|]; by intros (_ & c' & h' & Hc' & _).
  destruct (latestBlockHeight c) as [h|] eqn:Hh.
  2: { split; [done|]. intros (_ & c' & h' & [= <-] & Hh' & _). by rewrite Hh in Hh'. }
  pose proof (parseCometStatusJSON_i64 b c h Hp Hh) as Hi. unfold is_i64 in Hi.
  destruct (Z.ltb_spec h 0); [split; [done|]; intros (_ & c' & h' & [= <-] & Hh' & Hx & _);
    rewrite Hh in Hh'; simplify_eq; lia|].
  rewrite headDiff_exact by lia. destruct (Z.ltb_spec maxLag (Z.abs (h - local))); split; try done.
  - intros (_ & c' & h' & [= <-] & Hh' & _ & Hx). rewrite Hh in Hh'. simplify_eq. lia.
  - intros _. split; [done|]. exists c, h. done.
Qed.

Section ProbeClaims.
Context {E S : Type} `{!ItemStore S, !EngineClient E, !Peer E, GoEthereum}.
Local Abbreviation W := (World E S).

Lemma ProbeCommittedExecutionHead_valid c b (w w' : W) :
  ProbeCommittedExecutionHead c b w = (w', Ret tt) →
  ∃ ed resp, ForkchoiceUpdatedV3 c (mkForkchoiceStateV1 (bs_Hash b) (bs_Hash b) (bs_Hash b)) None (w_env w)
               = (ed, Ret resp) ∧ ps_Status (fr_PayloadStatus resp) = VALID.
Proof.
  unfold ProbeCommittedExecutionHead. intros Hr. apply bindM_ret in Hr as (w1 & resp & Hc & Hr).
  case_bool_decide; [|done]. unfold engine_call in Hc. destruct (ForkchoiceUpdatedV3 _ _ _ _) as [[e' d] o].
  simplify_eq. eauto.
Qed.

(** What a healthy answer rests on: the local node in sync, and the committed
    head accepted by the execution client. *)
Definition ready (ctx : Ctx) (committed : BlockState) : Prop :=
  (∃ (e : E) ed, Status ctx e = (ed, Ret false)) ∧
  ∃ (e : E) ed resp,
    ForkchoiceUpdatedV3 ctx
      (mkForkchoiceStateV1 (bs_Hash committed) (bs_Hash committed) (bs_Hash committed)) None e
      = (ed, Ret resp) ∧ ps_Status (fr_PayloadStatus resp) = VALID.

Lemma readinessChecksPhases_healthy ctx cl b cfg (w w' : W) :
  readinessChecksPhases ctx cl b cfg w = (w', Ret Healthy) → ready ctx b.
Proof.
  unfold readinessChecksPhases. intros Hr. apply bindM_ret in Hr as (w1 & c & Hc & Hr).
  destruct c; [by unfold ret in Hr|]. split.
  - unfold checkLocalCometNotCatchingUp in Hc. destruct cl; [|done]. cbn [negb] in Hc.
    apply bindM_ret in Hc as (w2 & r & He & Hc). unfold env_call in He.
    destruct (Status ctx (w_env w)) as [[e' d] o] eqn:Hs. simplify_eq.
    destruct r as [[]|e|s|]; try done. exists (w_env w), (e', d). exact Hs.
  - apply bindM_ret in Hr as (w2 & r & Hp & Hr). destruct r as [[]|]; [|by unfold ret in Hr].
    unfold try in Hp. destruct (ProbeCommittedExecutionHead ctx b w1) as [w3 [[]|e|s|]] eqn:Hx; simplify_eq.
    apply ProbeCommittedExecutionHead_valid in Hx as (ed & resp & Hx & Hv). eauto.
Qed.

(** C39: the probe's answer.  200 is answered with "ok", only when the block
    state can be read, CometBFT reports it is not catching up and the
    execution client answered VALID to a forkchoice update to exactly the
    committed head; everything else is "unhealthy" with 503, or with 500 when
    the block state exists but cannot be read. *)
Theorem readiness_answer rctx q cl cfg (w w' : W) code body :
  readinessHTTPHandler rctx q cl cfg w = (w', Ret (code, body)) →
  (code = StatusOK ∧ body = readinessBodyOK ∧
     ∃ committed, GetBlockState w = (w, Ret committed) ∧
       ready (WithTimeout rctx readinessRequestTimeout (w_now w)) committed) ∨
  (code = StatusServiceUnavailable ∧ body = readinessBodyUnhealthy) ∨
  (code = StatusInternalServerError ∧ body = readinessBodyUnhealthy).
Proof.
  unfold readinessHTTPHandler. intros Hr. apply bindM_ret in Hr as (w1 & now & Hn & Hr).
  unfold gets in Hn. injection Hn as <- <-. apply bindM_ret in Hr as (w2 & p & Hp & Hr).
  apply bindM_ret in Hr as (w3 & [] & _ & Hr). unfold ret in Hr. injection Hr as _ Hres.
  destruct p as [|kd e|e]; cbn in Hres; simplify_eq; [left|by right; left|by right; right].
  split_and!; [done..|]. unfold runReadinessChecks in Hp. destruct q; try done.
  apply bindM_ret in Hp as (w4 & r & Hg & Hp). unfold try, GetBlockState, read_store in Hg.
  destruct (Item_Get _ _ _) as [b|e|s|] eqn:Hi; simplify_eq.
  - exists b. split; [unfold GetBlockState, read_store; by rewrite Hi|].
    by eapply readinessChecksPhases_healthy.
  - case_match; by unfold ret in Hp.
Qed.

(** The only request of a probe. *)
Definition probe_request (ev : Event) : Prop :=
  match ev with
  | EvEngine (ReqForkchoiceUpdated fc attrs) =>
      attrs = None ∧ ∃ h, fc = mkForkchoiceStateV1 h h h
  | EvEngine _ => False
  | _ => True
  end.

Lemma env_call_emits {A} P (f : E → E * N * A) : preserves (emits P) (env_call f : M W A).
Proof.
  intros w w' o. unfold env_call. destruct (f _) as [[??]?]. intros [= <- _]. by apply same_trace_emits.
Qed.
Lemma env_call_store {A} (f : E → E * N * A) : preserves (same w_store) (env_call f : M W A).
Proof. intros w w' o. unfold env_call. destruct (f _) as [[??]?]. by intros [= <- _]. Qed.
#[local] Hint Resolve env_call_emits env_call_store : nexus.

(** Probing is harmless: on every path the store is left as it was, and the
    execution client is only ever asked to confirm a head, never to build or
    execute a block. *)
Theorem readiness_probe_is_harmless rctx q cl cfg :
  preserves (same w_store) (readinessHTTPHandler rctx q cl cfg : M W _) ∧
  preserves (emits probe_request) (readinessHTTPHandler rctx q cl cfg : M W _).
Proof.
  unfold readinessHTTPHandler, runReadinessChecks, readinessChecksPhases, checkLocalCometNotCatchingUp,
    checkTrustedPeerLag, ProbeCommittedExecutionHead, GetBlockState, logger.
  split; preserving; try by apply emit_emits.
  all: apply engine_call_emits; cbn; eauto.
Qed.

End ProbeClaims.

(** ** Witnesses *)

Section Witnesses.
#[local] Existing Instances geth mapStore scripted.

Definition quote (s : string) : string := json_quote s.

(** The body of a status response, with a quoted height as CometBFT sends. *)
Definition status_body (height : string) : string :=
  "{" +:+ json_member "jsonrpc" (quote "2.0") +:+ ", " +:+ json_member "result"
    ("{" +:+ json_member "sync_info"
       ("{" +:+ json_member "latest_block_height" height +:+ ", "
            +:+ json_member "catching_up" "false" +:+ "}") +:+ "}") +:+ "}".

Lemma head_lag_rule_witness :
  judgePeer 100 2 200 (status_body (quote " 102 ")) = Healthy ↔
  200 = StatusOK ∧ ∃ c h, parseCometStatusJSON (status_body (quote " 102 ")) = Ret c ∧
    latestBlockHeight c = Some h ∧ 0 ≤ h ∧ Z.abs (h - 100) ≤ 2.
Proof. apply head_lag_rule. lia. Defined.

(** A peer that is always at height 102; the local node is in sync. *)
Definition peer102 : Peer Script := {|
  BuildGet _ := Ret tt;
  Get _ _ _ e := (e, 1%N, inl (200, inl (status_body (quote "102"))));
  Status _ e := (e, 1%N, Ret false) |}.
#[local] Existing Instance peer102.

Definition ready_store : gmap string string :=
  match Item_Set BlockStateValue BlockStateKey (mkBlockState 17 100 1000) ∅ with Ret s => s | _ => ∅ end.

Definition probed : World Script (gmap string string) * outcome (Z * string) :=
  readinessHTTPHandler Background (Ret tt) true (mkProbeConfig "http://peer" "" 2)
    (world ready_store ["VALID"] None).

Lemma readiness_answer_witness :
  probed.2 = Ret (200, "ok") ∧
  ∃ committed, GetBlockState (world ready_store ["VALID"] None)
    = (world ready_store ["VALID"] None, Ret committed).
Proof.
  assert (Hr : probed = (probed.1, Ret (200, "ok"))) by (vm_compute; reflexivity).
  split; [by rewrite Hr|].
  destruct (readiness_answer Background (Ret tt) true (mkProbeConfig "http://peer" "" 2)
    (world ready_store ["VALID"] None) probed.1 200 "ok" Hr)
    as [(_ & _ & b & Hb & _)|[[Hc _]|[Hc _]]]; [|discriminate Hc..].
  exists b. exact Hb.
Defined.

(** A peer whose [latest_block_height] is null is taken to be at height 0
    rather than to have no height. *)
Theorem null_peer_height_reads_as_zero :
  ∃ c, parseCometStatusJSON (status_body "null") = Ret c ∧ latestBlockHeight c = Some 0 ∧
    judgePeer 1 2 200 (status_body "null") = Healthy.
Proof. eexists. vm_compute. done. Qed.

End Witnesses.

End Readiness.
