(* ===== verification/Lib.v ===== *)
(** * Authentication and the Core interface

    [lib/jwt.go], [lib/grpc_jwt.go] (the shared secret, its tokens, the client
    and server interceptors), [lib/core_client.go], [lib/cosmos_grpc_server.go],
    [NewAuthClient] of [lib/engine.go] and [createEngineClient] of
    [x/evm/keeper/keeper.go].  The JWT library,
    gRPC and the JSON-RPC dialler are library code: a class and arguments. *)

From S2P Require Import Prelude GoStd External ChainSpec.

Module Lib.

(** ** The JWT library *)

(** The signing method of a parsed header: an HMAC with its name, or one of
    another family. *)
Inductive Method := HMAC (alg : string) | OtherMethod (alg : string).

Definition HS256 : string := "HS256".
Definition alg_of (m : Method) : string := match m with HMAC a => a | OtherMethod a => a end.

(** [SignedString] of a token with one [iat] claim and the method HS256;
    [jwt.Parse] with a key function, at some time: whether the token is valid,
    or why it could not be parsed. *)
Class Jwt := {
  SignedString : string → Z → outcome string;
  jwt_Parse : string → (Method → outcome string) → Z → outcome bool;
  (** [token] carries a signature of [method] under [key] *)
  signed : Method → string → string → Prop }.

(** [Parse] accepts only what the key function allowed and the signature
    confirms, reports the key function's refusal, and accepts a token that was
    issued in the past with the key it was signed with. *)
Class JwtLaws `{Jwt} := {
  Parse_sound t kf now : jwt_Parse t kf now = Ret true → ∃ m key, kf m = Ret key ∧ signed m key t;
  Parse_complete key iat t kf now : SignedString key iat = Ret t → iat ≤ now →
    kf (HMAC HS256) = Ret key → jwt_Parse t kf now = Ret true }.

Section Jwt.
Context `{Jwt}.

(** A [JwtSecret] is its bytes; [unix] is [time.Now().Unix()]. *)
Definition GenerateToken (secret : string) (unix : Z) : outcome string :=
  wrap "sign jwt" (SignedString secret unix).

(** The key function of [ValidateToken]. *)
Definition hs256_key (secret : string) (m : Method) : outcome string :=
  match m with
  | OtherMethod a => Fail (errText ("unexpected signing method: " +:+ a))
  | HMAC a =>
      if negb (bool_decide (a = HS256)) then
        Fail (errText ("unexpected algorithm: expected HS256, got " +:+ a))
      else Ret secret
  end.

Definition ValidateToken (secret tokenString : string) (unix : Z) : outcome unit :=
  let? valid := wrap "parse jwt" (jwt_Parse tokenString (hs256_key secret) unix) in
  if valid then Ret tt else Fail (errText "invalid jwt token").

(** ** Loading the secret *)

(** [LoadJWTSecret]; [bytes.TrimSpace] trims the same white space as the
    string function. *)
Definition LoadJWTSecret (os : OS) (path : string) : outcome string :=
  let? file := ReadFile os path in
  let secret := TrimPrefix (TrimSpace file) "0x" in
  if negb (len secret =? 64) then
    Fail (errText ("jwt secret must be 64 hex chars, got " +:+ fmt_d (len secret)))
  else hex_DecodeString secret.

Definition GRPCJWTSecretPathEnvVar : string := "GRPC_JWT_SECRET_PATH".

Definition LoadJWTSecretFromEnv (os : OS) : outcome string :=
  let secretPath := Getenv os GRPCJWTSecretPathEnvVar in
  if bool_decide (secretPath = "") then
    Fail (errText (GRPCJWTSecretPathEnvVar +:+ " environment variable not set"))
  else LoadJWTSecret os secretPath.

(** [http.Client] with the transport of [NewJwtClient]: its time limit and the
    secret that signs the requests; the URL is the one [rpc.DialOptions] dialled. *)
Record jwtHTTPClient := mkJwtHTTPClient { hc_Timeout : Z; hc_jwtSecret : string }.
Record rpcEngineClient := mkRpcEngineClient { ec_url : string; ec_http : jwtHTTPClient }.

Definition NewAuthClient (dial : string → outcome unit) (url jwtSecret : string) : outcome rpcEngineClient :=
  let client := mkJwtHTTPClient (10 * Second) jwtSecret in
  do? wrap "dial rpc" (dial url) in
  Ret (mkRpcEngineClient url client).

(** [createEngineClient]; [dial] is [rpc.DialOptions]. *)
Definition createEngineClient (os : OS) (dial : string → outcome unit) : outcome rpcEngineClient :=
  let envPath := Getenv os "EVM_ENGINE_JWT_SECRET_PATH" in
  let jwtSecretPath := if bool_decide (envPath = "") then "jwt.hex" else envPath in
  let envURL := Getenv os "EVM_ENGINE_URL" in
  let engineURL := if bool_decide (envURL = "") then "http://localhost:8551" else envURL in
  let? jwtSecret := wrap ("failed to load JWT secret from " +:+ jwtSecretPath)
                      (LoadJWTSecret os jwtSecretPath) in
  wrap ("failed to create engine client for " +:+ engineURL) (NewAuthClient dial engineURL jwtSecret).

(** ** Requests *)

(** Headers or metadata: names and values. *)
Abbreviation Metadata := (list (string * string)) (only parsing).

(** [Header.Set] of one name: every earlier value is replaced. *)
Definition header_set (h : Metadata) (k v : string) : Metadata :=
  ((k, v) :: List.filter (fun kv => negb (bool_decide (fst kv = k))) h)%list.

(** [jwtClient.RoundTrip]: the request that reaches the transport carries the
    token. *)
Definition RoundTrip {A} (secret : string) (unix : Z) (transport : Metadata → outcome A)
    (header : Metadata) : outcome A :=
  let? tokenString := wrap "jwt token string" (GenerateToken secret unix) in
  wrap "round trip" (transport (header_set header "Authorization" ("Bearer " +:+ tokenString))).

(** [JWTUnaryClientInterceptor]. *)
Definition JWTUnaryClientInterceptor {A} (secret : string) (unix : Z) (invoker : Metadata → outcome A)
    (md : Metadata) : outcome A :=
  match GenerateToken secret unix with
  | Ret token => invoker (md ++ [("authorization", "Bearer " +:+ token)])%list
  | Fail e => Fail (errText ("rpc error: code = Internal desc = generate jwt: " +:+ Error e))
  | Panic s => Panic s
  | OutOfFuel => OutOfFuel
  end.

(** [AuthFunc]; [authFromMD] is [auth.AuthFromMD(ctx, "bearer")]. *)
Definition AuthFunc (secret : string) (unix : Z) (authFromMD : Metadata → outcome string) (md : Metadata) :
    outcome unit :=
  let? token := authFromMD md in
  match ValidateToken secret token unix with
  | Ret _ => Ret tt
  | Fail e => Fail (errText ("rpc error: code = Unauthenticated desc = invalid token: " +:+ Error e))
  | Panic s => Panic s
  | OutOfFuel => OutOfFuel
  end.

End Jwt.

(** ** The Core client *)

Definition CoreDefaultAddr : string := "localhost:50051".
Definition CoreAddrEnvVar : string := "CORE_GRPC_ADDR".

Definition GetCoreAddr (os : OS) : string :=
  let addr := Getenv os CoreAddrEnvVar in
  if bool_decide (addr = "") then CoreDefaultAddr else addr.

(** [newCoreClientInternal] and [NewCoreClient]: the address and secret of the
    connection; [newClient] is [grpc.NewClient]. *)
Definition newCoreClientInternal (newClient : string → outcome unit) (addr secret : string) :
    outcome (string * string) :=
  let addr := if bool_decide (addr = "") then CoreDefaultAddr else addr in
  do? wrap "dial grpc" (newClient addr) in
  Ret (addr, secret).

Definition NewCoreClient (os : OS) (newClient : string → outcome unit) (addr : string) :
    outcome (string * string) :=
  let? jwtSecret := wrap "JWT authentication required" (LoadJWTSecretFromEnv os) in
  newCoreClientInternal newClient addr jwtSecret.

(** Requests with their optional messages; what is in them is opaque. *)
Record CoreBlock := mkCoreBlock { cb_Header : option string; cb_body : string }.
Record NewPayloadRequest := mkNewPayloadRequest { npr_Block : option CoreBlock }.
Record ForkchoiceUpdatedRequest := mkForkchoiceUpdatedRequest { fur_ForkchoiceState : option string }.

Definition coreClient_NewPayload {R} (send : NewPayloadRequest → outcome R)
    (req : option NewPayloadRequest) : outcome R :=
  match req with
  | Some r =>
      match npr_Block r with
      | Some b =>
          match cb_Header b with
          | Some _ => wrap "new payload" (send r)
          | None => Fail (errText "new payload: block and header are required")
          end
      | None => Fail (errText "new payload: block and header are required")
      end
  | None => Fail (errText "new payload: block and header are required")
  end.

Definition coreClient_ForkchoiceUpdated {R} (send : ForkchoiceUpdatedRequest → outcome R)
    (req : option ForkchoiceUpdatedRequest) : outcome R :=
  match req with
  | Some r =>
      match fur_ForkchoiceState r with
      | Some _ => wrap "forkchoice updated" (send r)
      | None => Fail (errText "forkchoice updated: forkchoice state is required")
      end
  | None => Fail (errText "forkchoice updated: forkchoice state is required")
  end.

(** ** The Cosmos gRPC server *)

Definition GRPCDefaultAddr : string := "0.0.0.0:50052".

Record HealthCheckResponse := mkHealthCheckResponse {
  hc_SenderId : string; hc_BlockHeight : Z; hc_Timestamp : Z }.

(** [HealthCheck] of a server whose [getHeight] returns [height]. *)
Definition CosmosServer_HealthCheck (height unixMilli : Z) (senderId : string) : outcome HealthCheckResponse :=
  Ret (mkHealthCheckResponse senderId height unixMilli).

Definition MockCosmosServer_HealthCheck (senderId : string) : outcome HealthCheckResponse :=
  Fail (errText "mock: Cosmos service server not configured").

(** [StartGRPCServerInternal] and [StartGRPCServer] up to [Serve]: the address
    that is listened on and the secret of the interceptor; [listen] is
    [net.Listen]. *)
Definition StartGRPCServerInternal (listen : string → outcome unit) (addr secret : string) :
    outcome (string * string) :=
  let addr := if bool_decide (addr = "") then GRPCDefaultAddr else addr in
  do? wrap ("failed to listen on " +:+ addr) (listen addr) in
  Ret (addr, secret).

Definition StartGRPCServer (os : OS) (listen : string → outcome unit) (addr : string) :
    outcome (string * string) :=
  let? jwtSecret := wrap "JWT authentication required" (LoadJWTSecretFromEnv os) in
  StartGRPCServerInternal listen addr jwtSecret.

(** ** Theorems *)

Section Claims.
Context `{JwtLaws}.

Lemma ValidateToken_signed secret t now : ValidateToken secret t now = Ret tt → signed (HMAC HS256) secret t.
Proof.
  unfold ValidateToken. intros Hv. apply bindO_ret in Hv as ([] & Hp & Hv); [|done].
  destruct (jwt_Parse t _ now) as [b|e|s|] eqn:Hj; simplify_eq/=.
  apply Parse_sound in Hj as (m & key & Hk & Hs). unfold hs256_key in Hk. destruct m as [a|a]; [|done].
  destruct (negb _) eqn:Ha; [done|]. bools. by simplify_eq.
Qed.

(** C40: only HS256 under this secret.  A token the server accepts carries an
    HS256 signature under the shared secret: no other HMAC, no other method and
    no unsigned token passes, whatever its header says. *)
Theorem accepted_token_is_hs256_signed secret t now md authFromMD :
  ValidateToken secret t now = Ret tt ∨
    (authFromMD md = Ret t ∧ AuthFunc secret now authFromMD md = Ret tt) →
  signed (HMAC HS256) secret t.
Proof.
  intros [Hv|[Ha Hf]]; [by eapply ValidateToken_signed|].
  unfold AuthFunc in Hf. rewrite Ha in Hf. cbn in Hf.
  destruct (ValidateToken secret t now) as [[]| | |] eqn:Hv; try done. by eapply ValidateToken_signed.
Qed.

(** Both ends agree.  A request that the client interceptor sends (at a time
    not after the server's) is authenticated by a server with the same secret,
    whatever metadata it carried, given a reader that finds the bearer token
    the client appended. *)
Theorem client_requests_authenticate {A} secret unix now md authFromMD (ok : A) token :
  SignedString secret unix = Ret token → unix ≤ now →
  authFromMD (md ++ [("authorization", "Bearer " +:+ token)])%list = Ret token →
  JWTUnaryClientInterceptor secret unix
    (fun md' => do? AuthFunc secret now authFromMD md' in Ret ok) md = Ret ok.
Proof.
  intros Ht Hn Hmd. unfold JWTUnaryClientInterceptor, GenerateToken. rewrite Ht. cbn [wrap].
  unfold AuthFunc, ValidateToken. rewrite Hmd. cbn [bindO].
  rewrite (Parse_complete secret unix token (hs256_key secret) now Ht Hn); [done|].
  unfold hs256_key. by rewrite bool_decide_eq_true_2.
Qed.

End Claims.

Lemma hex_DecodeString_len s r : hex_DecodeString s = Ret r → len s = 2 * len r.
Proof.
  revert r. induction s as [s IH] using (induction_ltof1 _ String.length). unfold ltof in IH.
  destruct s as [|a [|b s]]; intros r Hd; cbn [hex_DecodeString] in Hd.
  - by injection Hd as <-.
  - by destruct (hex_val a).
  - destruct (hex_val a), (hex_val b); try done. apply bindO_ret in Hd as (r' & Hr & [= <-]).
    apply IH in Hr; [|cbn; lia]. unfold len in *. cbn [String.length]. lia.
Qed.

Lemma LoadJWTSecret_len os p s : LoadJWTSecret os p = Ret s → len s = 32.
Proof.
  intros Hl. unfold LoadJWTSecret in Hl. apply bindO_ret in Hl as (f & _ & Hl).
  destruct (negb _) eqn:Hn; [done|]. bools. apply hex_DecodeString_len in Hl. lia.
Qed.

Lemma LoadJWTSecretFromEnv_len os s : LoadJWTSecretFromEnv os = Ret s → len s = 32.
Proof. unfold LoadJWTSecretFromEnv. case_bool_decide; [done|]. apply LoadJWTSecret_len. Qed.

(** Both gRPC components use the secret of the environment. *)
Lemma StartGRPCServer_secret os l a a' s : StartGRPCServer os l a = Ret (a', s) → LoadJWTSecretFromEnv os = Ret s.
Proof.
  unfold StartGRPCServer. intros Hl. apply bindO_ret in Hl as (x & Hx & Hl). unfold StartGRPCServerInternal in Hl.
  apply bindO_ret in Hl as ([] & _ & [= _ <-]). by apply wrap_ret in Hx.
Qed.

Lemma NewCoreClient_secret os nc a a' s : NewCoreClient os nc a = Ret (a', s) → LoadJWTSecretFromEnv os = Ret s.
Proof.
  unfold NewCoreClient. intros Hl. apply bindO_ret in Hl as (x & Hx & Hl). unfold newCoreClientInternal in Hl.
  apply bindO_ret in Hl as ([] & _ & [= _ <-]). by apply wrap_ret in Hx.
Qed.

(** Whatever the secret file holds, a secret that loads is exactly 32 bytes,
    the key size of HS256 in the Engine API; the same holds for the engine
    client, the Core client and the gRPC server, none of which starts without
    one. *)
Theorem secrets_are_32_bytes os path s :
  LoadJWTSecret os path = Ret s ∨ LoadJWTSecretFromEnv os = Ret s ∨
  (∃ dial c, createEngineClient os dial = Ret c ∧ hc_jwtSecret (ec_http c) = s) ∨
  (∃ nc a a', NewCoreClient os nc a = Ret (a', s)) ∨ (∃ l a a', StartGRPCServer os l a = Ret (a', s)) →
  len s = 32.
Proof.
  intros [Hl|[Hl|[(dial & c & Hl & Hs)|[(nc & a & a' & Hl)|(l & a & a' & Hl)]]]].
  - by eapply LoadJWTSecret_len.
  - by eapply LoadJWTSecretFromEnv_len.
  - unfold createEngineClient in Hl. apply bindO_ret in Hl as (x & Hx%wrap_ret & Hl).
    apply wrap_ret in Hl. unfold NewAuthClient in Hl. apply bindO_ret in Hl as ([] & _ & [= <-]).
    cbn in Hs. subst. by eapply LoadJWTSecret_len.
  - by eapply LoadJWTSecretFromEnv_len, NewCoreClient_secret.
  - by eapply LoadJWTSecretFromEnv_len, StartGRPCServer_secret.
Qed.

(** ** Witnesses *)

Section Witnesses.

(** A toy signature: the key and the method in clear. *)
Definition toy_parse (t : string) (kf : Method → outcome string) (now : Z) : outcome bool :=
  if HasPrefix t "HS256." then
    let? key := kf (HMAC HS256) in Ret (HasPrefix t ("HS256." +:+ key +:+ "."))
  else let? key := kf (OtherMethod "none") in Ret false.

Definition toy : Jwt := {|
  SignedString key iat := Ret ("HS256." +:+ key +:+ "." +:+ fmt_d iat);
  jwt_Parse := toy_parse;
  signed m key t := m = HMAC HS256 ∧ HasPrefix t ("HS256." +:+ key +:+ ".") = true |}.

Lemma HasPrefix_app p s : HasPrefix (p +:+ s) p = true.
Proof.
  induction p as [|c p IH]; [by destruct s|].
  change ((String c p) +:+ s) with (String c (p +:+ s)). cbn [HasPrefix]. by rewrite Ascii.eqb_refl, IH.
Qed.

Lemma toy_laws : @JwtLaws toy.
Proof.
  split; cbv [SignedString jwt_Parse signed toy toy_parse].
  - intros t kf now. destruct (HasPrefix t "HS256."); intros Hb; apply bindO_ret in Hb as (key & Hk & Hb); [|done].
    injection Hb as Hb. eauto.
  - intros key iat t kf now [= <-] _ Hk.
    rewrite HasPrefix_app, Hk. cbn [bindO]. f_equal.
    rewrite <-(string_app_assoc key "." (fmt_d iat)), <-string_app_assoc. apply HasPrefix_app.
Qed.
#[local] Existing Instances toy toy_laws.

Lemma accepted_token_is_hs256_signed_witness : signed (HMAC HS256) "k" "HS256.k.7".
Proof.
  apply (accepted_token_is_hs256_signed "k" "HS256.k.7" 9 [] (fun _ => Fail ErrNotFound)).
  left. vm_compute. reflexivity.
Defined.

(** A reader of the last bearer token. *)
Definition last_bearer (md : list (string * string)) : outcome string :=
  match last md with
  | Some (k, v) => if HasPrefix v "Bearer " then Ret (TrimPrefix v "Bearer ") else Fail ErrNotFound
  | None => Fail ErrNotFound
  end.

Lemma client_requests_authenticate_witness :
  JWTUnaryClientInterceptor "k" 7 (fun md' => do? AuthFunc "k" 9 last_bearer md' in Ret tt)
    [("x", "y")] = Ret tt.
Proof.
  apply (client_requests_authenticate "k" 7 9 [("x", "y")] last_bearer tt "HS256.k.7").
  - vm_compute. reflexivity.
  - lia.
  - vm_compute. reflexivity.
Defined.

Definition secret_file : string :=
  " 0x000102030405060708090a0b0c0d0e0f000102030405060708090A0B0C0D0E0F ".

Lemma secrets_are_32_bytes_witness :
  ∃ s, LoadJWTSecret (mkOS (fun _ => "") (fun _ => false) (fun _ => Ret secret_file)) "jwt.hex" = Ret s ∧ len s = 32.
Proof.
  eexists. split; [vm_compute; reflexivity|].
  apply (secrets_are_32_bytes (mkOS (fun _ => "") (fun _ => false) (fun _ => Ret secret_file)) "jwt.hex").
  left. vm_compute. reflexivity.
Defined.

End Witnesses.

End Lib.
