(* ===== verification/AppExport.v ===== *)
(** * Exporting the state

    [app/export.go]: the export of all modules, and the preparation of a
    genesis at height zero, which withdraws rewards, reinitializes the
    distribution records at height zero, resets the heights kept by the staking
    and slashing modules and jails the validators that are not on a list.

    The keepers are Cosmos SDK code: operations of a class over an abstract
    state.  An operation that receives a context gets its block height, the one
    thing this code changes about it.  An iteration with a callback is the list
    of what it visits and the error it ends with; the callbacks write only
    records the iteration has already read. *)

From S2P Require Import Prelude GoStd External.

Module AppExport.

(** What the code reads and writes of the staking and slashing records; the
    other fields are carried along. *)
Record Entry := mkEntry { e_CreationHeight : Z; e_rest : string }.
Record Unbonding := mkUnbonding { u_key : string; u_Entries : list Entry }.
Record ValidatorRecord := mkValidatorRecord {
  vr_Operator : string; vr_UnbondingHeight : Z; vr_Jailed : bool; vr_Bonded : bool; vr_rest : string }.
Record SigningInfo := mkSigningInfo { si_StartHeight : Z; si_rest : string }.
Record Delegation := mkDelegation { del_Validator : string; del_Delegator : string }.

Class ExportKeepers (St DecCoins : Type) := {
  (** address codecs *)
  ValidatorAddress_StringToBytes : string → outcome string;
  ValidatorAddress_BytesToString : string → outcome string;
  Address_StringToBytes : string → outcome string;
  (** x/staking; an iteration over validators visits their operators *)
  IterateValidators : St → list string * option error;
  GetAllDelegations : St → outcome (list Delegation);
  IterateRedelegations : St → list Unbonding * option error;
  SetRedelegation : Unbonding → M St unit;
  IterateUnbondings : St → list Unbonding * option error;
  SetUnbonding : Unbonding → M St unit;
  (** the addresses of the validators' keys, in descending order *)
  ValidatorsKeys : St → list string;
  GetValidatorRecord : string → St → outcome ValidatorRecord;
  SetValidatorRecord : ValidatorRecord → M St unit;
  iter_Close : St → option error;
  (** at a block height *)
  ApplyAndReturnValidatorSetUpdates : Z → M St unit;
  (** x/distribution, at a block height *)
  WithdrawValidatorCommission : Z → string → M St unit;
  WithdrawDelegationRewards : Z → string → string → M St unit;
  DeleteAllValidatorSlashEvents : M St unit;
  DeleteAllValidatorHistoricalRewards : M St unit;
  GetValidatorOutstandingRewardsCoins : string → St → outcome DecCoins;
  CommunityPool_Get : St → outcome DecCoins;
  CommunityPool_Set : DecCoins → M St unit;
  DecCoins_Add : DecCoins → DecCoins → DecCoins;
  AfterValidatorCreated : Z → string → M St unit;
  BeforeDelegationCreated : Z → string → string → M St unit;
  AfterDelegationModified : Z → string → string → M St unit;
  (** x/slashing *)
  IterateValidatorSigningInfos : St → list (string * SigningInfo) * option error;
  SetSigningInfo : string → SigningInfo → M St unit;
  (** the export itself *)
  ExportGenesisForModules : list string → St → outcome string;
  MarshalIndent : string → outcome string;
  WriteValidators : St → list string * option error;
  GetConsensusParams : St → string }.

Record ExportedApp := mkExportedApp {
  xa_AppState : string; xa_Validators : list string; xa_Height : Z; xa_ConsensusParams : string }.

Section Export.
Context {St DecCoins : Type} `{!ExportKeepers St DecCoins}.

(** [for _, x := range l { f(x) }] *)
Fixpoint forEach {A} (l : list A) (f : A → M St unit) : M St unit :=
  match l with
  | [] => ret tt
  | x :: l' => do! f x in forEach l' f
  end.

(** An iteration with a callback, whose own error is a panic. *)
Definition iterate {A} (what : St → list A * option error) (f : A → M St unit) : M St unit :=
  let! visited := gets what in
  do! forEach (fst visited) f in
  mustM (match snd visited with Some e => fail e | None => ret tt end).

(** [_, _ = f()]: an error is dropped. *)
Definition dropError (m : M St unit) : M St unit := let! r := try m in ret tt.

(** The addresses on the list must parse. *)
Fixpoint checkAllowed (addrs : list string) : outcome unit :=
  match addrs with
  | [] => Ret tt
  | addr :: rest => do? must (ValidatorAddress_StringToBytes addr) in checkAllowed rest
  end.

Definition withdrawCommissions (height : Z) : M St unit :=
  iterate IterateValidators (fun operator =>
    let! valBz := lift (must (ValidatorAddress_StringToBytes operator)) in
    dropError (WithdrawValidatorCommission height valBz)).

Definition withdrawRewards (height : Z) (dels : list Delegation) : M St unit :=
  forEach dels (fun d =>
    let! valAddr := lift (must (ValidatorAddress_StringToBytes (del_Validator d))) in
    let! delAddr := lift (must (Address_StringToBytes (del_Delegator d))) in
    dropError (WithdrawDelegationRewards height delAddr valAddr)).

(** At height zero: what is left of a validator's rewards goes to the
    community pool, and its distribution records start anew. *)
Definition reinitializeValidators (height : Z) : M St unit :=
  iterate IterateValidators (fun operator =>
    let! valBz := lift (must (ValidatorAddress_StringToBytes operator)) in
    let! rewards := fun s => (s, must (GetValidatorOutstandingRewardsCoins valBz s)) in
    let! pool := fun s => (s, must (CommunityPool_Get s)) in
    do! mustM (CommunityPool_Set (DecCoins_Add pool rewards)) in
    mustM (AfterValidatorCreated height valBz)).

Definition reinitializeDelegations (height : Z) (dels : list Delegation) : M St unit :=
  forEach dels (fun d =>
    let! valAddr := lift (must (ValidatorAddress_StringToBytes (del_Validator d))) in
    let! delAddr := lift (must (Address_StringToBytes (del_Delegator d))) in
    do! mustM (wrapM "error while incrementing period" (BeforeDelegationCreated height delAddr valAddr)) in
    mustM (wrapM "error while creating a new delegation period record"
             (AfterDelegationModified height delAddr valAddr))).

(** [CreationHeight = 0] in every entry. *)
Definition resetEntries (u : Unbonding) : Unbonding :=
  mkUnbonding (u_key u) ((fun e => mkEntry 0 (e_rest e)) <$> u_Entries u).

Definition resetRedelegations : M St unit :=
  iterate IterateRedelegations (fun red => mustM (SetRedelegation (resetEntries red))).

Definition resetUnbondings : M St unit :=
  iterate IterateUnbondings (fun ubd => mustM (SetUnbonding (resetEntries ubd))).

Definition resetRecord (jail : bool) (v : ValidatorRecord) : ValidatorRecord :=
  mkValidatorRecord (vr_Operator v) 0 (vr_Jailed v || jail) (vr_Bonded v) (vr_rest v).

(** The body of the loop over the validators' keys. *)
Definition resetValidator (allowed : list string) (addr : string) : M St unit := fun s =>
  match GetValidatorRecord addr s with
  | Fail _ => (s, Panic "expected validator, not found")
  | Panic m => (s, Panic m)
  | OutOfFuel => (s, OutOfFuel)
  | Ret validator =>
      (let! valAddr := lift (must (ValidatorAddress_BytesToString addr)) in
       let jail := negb (bool_decide (allowed = [])) && negb (bool_decide (valAddr ∈ allowed)) in
       mustM (SetValidatorRecord (resetRecord jail validator))) s
  end.

Definition resetValidators (allowed : list string) : M St unit :=
  let! keys := gets ValidatorsKeys in forEach keys (resetValidator allowed).

Definition resetSigningInfos : M St unit :=
  iterate IterateValidatorSigningInfos (fun '(addr, info) =>
    dropError (SetSigningInfo addr (mkSigningInfo 0 (si_rest info)))).

(** The first half: fee distribution. *)
Definition prepDistribution (height : Z) (jailAllowedAddrs : list string) : M St unit :=
  do! lift (checkAllowed jailAllowedAddrs) in
  do! withdrawCommissions height in
  let! dels := fun s => (s, must (GetAllDelegations s)) in
  do! withdrawRewards height dels in
  do! DeleteAllValidatorSlashEvents in
  do! DeleteAllValidatorHistoricalRewards in
  do! reinitializeValidators 0 in
  reinitializeDelegations 0 dels.

(** [prepForZeroHeightGenesis]; when the iterator does not close, the rest is
    skipped. *)
Definition prepForZeroHeightGenesis (height : Z) (jailAllowedAddrs : list string) : M St unit :=
  do! prepDistribution height jailAllowedAddrs in
  do! resetRedelegations in
  do! resetUnbondings in
  do! resetValidators jailAllowedAddrs in
  let! closed := gets iter_Close in
  match closed with
  | Some _ => ret tt
  | None =>
      do! mustM (ApplyAndReturnValidatorSetUpdates height) in
      resetSigningInfos
  end.

(** [ExportAppStateAndValidators].  The struct is filled even when
    WriteValidators fails; its error is what the caller sees. *)
Definition ExportAppStateAndValidators (lastBlockHeight : Z) (forZeroHeight : bool)
    (jailAllowedAddrs modulesToExport : list string) : M St ExportedApp :=
  do! (if forZeroHeight then prepForZeroHeightGenesis lastBlockHeight jailAllowedAddrs else ret tt) in
  let height := if forZeroHeight then 0 else i64_add lastBlockHeight 1 in
  let! genState := fun s => (s, ExportGenesisForModules modulesToExport s) in
  let! appState := lift (MarshalIndent genState) in
  let! validators := gets WriteValidators in
  match snd validators with
  | Some e => fail e
  | None =>
      let! params := gets GetConsensusParams in
      ret (mkExportedApp appState (fst validators) height params)
  end.

End Export.

(** ** Laws *)

Section Views.
Context {St DecCoins : Type} `{!ExportKeepers St DecCoins}.

Definition redelegations (s : St) : list Unbonding := fst (IterateRedelegations s).
Definition unbondings (s : St) : list Unbonding := fst (IterateUnbondings s).
Definition signingInfos (s : St) : list (string * SigningInfo) := fst (IterateValidatorSigningInfos s).

(** The validators and their records are as before. *)
Definition validators_kept (s s' : St) : Prop :=
  ValidatorsKeys s' = ValidatorsKeys s ∧ ∀ a, GetValidatorRecord a s' = GetValidatorRecord a s.

(** So is everything the staking module keeps. *)
Definition staking_kept (s s' : St) : Prop :=
  redelegations s' = redelegations s ∧ unbondings s' = unbondings s ∧ validators_kept s s'.

#[export] Instance validators_kept_preorder : PreOrder validators_kept.
Proof.
  split; [by intros s|]. intros s1 s2 s3 [K1 R1] [K2 R2]. split; [congruence|]. intros a. by rewrite R2.
Qed.
#[export] Instance staking_kept_preorder : PreOrder staking_kept.
Proof.
  split; [by intros s|]. intros s1 s2 s3 (A1 & B1 & C1) (A2 & B2 & C2). split_and!; [congruence..|]. by etrans.
Qed.

Definition overwrite (u x : Unbonding) : Unbonding := if bool_decide (u_key x = u_key u) then u else x.
Definition overwriteInfo (a : string) (i : SigningInfo) (x : string * SigningInfo) : string * SigningInfo :=
  if bool_decide (x.1 = a) then (a, i) else x.

End Views.

(** Every keeper writes its own records: distribution none of the staking
    module's; a record that is written replaces the one with its key.  The
    update of the validator set keeps the validators; it writes an unbonding
    height, the height it runs at, only for a validator whose bond it ends. *)
Class ExportLaws (St DecCoins : Type) `{!ExportKeepers St DecCoins} := {
  SetRecord_get a v v' s s' : GetValidatorRecord a s = Ret v → vr_Operator v' = vr_Operator v →
    SetValidatorRecord v' s = (s', Ret tt) → GetValidatorRecord a s' = Ret v';
  SetRecord_ne a b v v' s s' o : GetValidatorRecord a s = Ret v → vr_Operator v' = vr_Operator v →
    SetValidatorRecord v' s = (s', o) → b ≠ a → GetValidatorRecord b s' = GetValidatorRecord b s;
  SetRecord_keys a v v' s s' o : GetValidatorRecord a s = Ret v → vr_Operator v' = vr_Operator v →
    SetValidatorRecord v' s = (s', o) → ValidatorsKeys s' = ValidatorsKeys s;
  SetRecord_redelegations v : preserves (same redelegations) (SetValidatorRecord v);
  SetRecord_unbondings v : preserves (same unbondings) (SetValidatorRecord v);
  SetRedelegation_iterate u s s' : SetRedelegation u s = (s', Ret tt) →
    u_key u ∈ u_key <$> redelegations s → redelegations s' = overwrite u <$> redelegations s;
  SetRedelegation_unbondings u : preserves (same unbondings) (SetRedelegation u);
  SetRedelegation_validators u : preserves validators_kept (SetRedelegation u);
  SetUnbonding_iterate u s s' : SetUnbonding u s = (s', Ret tt) →
    u_key u ∈ u_key <$> unbondings s → unbondings s' = overwrite u <$> unbondings s;
  SetUnbonding_redelegations u : preserves (same redelegations) (SetUnbonding u);
  SetUnbonding_validators u : preserves validators_kept (SetUnbonding u);
  Apply_redelegations h : preserves (same redelegations) (ApplyAndReturnValidatorSetUpdates h);
  Apply_unbondings h : preserves (same unbondings) (ApplyAndReturnValidatorSetUpdates h);
  Apply_keys h : preserves (same ValidatorsKeys) (ApplyAndReturnValidatorSetUpdates h);
  Apply_records h a v s s' : ApplyAndReturnValidatorSetUpdates h s = (s', Ret tt) → GetValidatorRecord a s = Ret v →
    ∃ v', GetValidatorRecord a s' = Ret v' ∧ vr_Operator v' = vr_Operator v ∧ vr_Jailed v' = vr_Jailed v ∧
      (vr_UnbondingHeight v' = vr_UnbondingHeight v ∨
       (vr_UnbondingHeight v' = h ∧ vr_Bonded v = true ∧ vr_Bonded v' = false));
  SetSigningInfo_iterate a i s s' : SetSigningInfo a i s = (s', Ret tt) → a ∈ (signingInfos s).*1 →
    signingInfos s' = overwriteInfo a i <$> signingInfos s;
  SetSigningInfo_staking a i : preserves staking_kept (SetSigningInfo a i);
  WithdrawCommission_staking h v : preserves staking_kept (WithdrawValidatorCommission h v);
  WithdrawRewards_staking h d v : preserves staking_kept (WithdrawDelegationRewards h d v);
  DeleteSlashEvents_staking : preserves staking_kept DeleteAllValidatorSlashEvents;
  DeleteHistoricalRewards_staking : preserves staking_kept DeleteAllValidatorHistoricalRewards;
  CommunityPool_staking p : preserves staking_kept (CommunityPool_Set p);
  AfterValidatorCreated_staking h v : preserves staking_kept (AfterValidatorCreated h v);
  BeforeDelegationCreated_staking h d v : preserves staking_kept (BeforeDelegationCreated h d v);
  AfterDelegationModified_staking h d v : preserves staking_kept (AfterDelegationModified h d v) }.

#[export] Hint Resolve SetRecord_redelegations SetRecord_unbondings SetRedelegation_unbondings
  SetRedelegation_validators SetUnbonding_redelegations SetUnbonding_validators
  Apply_redelegations Apply_unbondings Apply_keys SetSigningInfo_staking WithdrawCommission_staking
  WithdrawRewards_staking DeleteSlashEvents_staking DeleteHistoricalRewards_staking CommunityPool_staking
  AfterValidatorCreated_staking BeforeDelegationCreated_staking AfterDelegationModified_staking : nexus.

(** ** Theorems *)

Section Claims.
Context {St DecCoins : Type} `{!ExportKeepers St DecCoins, !ExportLaws St DecCoins}.

Lemma mustM_ret {A} (m : M St A) s s' a : mustM m s = (s', Ret a) → m s = (s', Ret a).
Proof. unfold mustM. destruct (m s) as [t []]; by intros [= -> ->]. Qed.

Lemma iterate_ret {A} what (f : A → M St unit) s s' :
  iterate what f s = (s', Ret tt) → forEach (fst (what s)) f s = (s', Ret tt).
Proof.
  unfold iterate. intros Hr. apply bindM_ret in Hr as (s1 & v & Hv & Hr). injection Hv as <- <-.
  apply bindM_ret in Hr as (s2 & [] & Hf & Hr). apply mustM_ret in Hr.
  destruct (snd (what s)); unfold fail, ret in Hr; by simplify_eq/=.
Qed.

(** *** What is left alone *)

Lemma preserves_forEach {A} (R : relation St) `{!PreOrder R} (l : list A) f :
  (∀ x, preserves R (f x)) → preserves R (forEach l f).
Proof. intros Hf. induction l as [|x l IH]; cbn [forEach]; [by apply preserves_ret|by apply preserves_bind]. Qed.

Lemma preserves_iterate {A} (R : relation St) `{!PreOrder R} what (f : A → M St unit) :
  (∀ x, preserves R (f x)) → preserves R (iterate what f).
Proof. intros Hf. unfold iterate. preserving. by apply preserves_forEach. Qed.

Lemma preserves_read {A} (R : relation St) `{!PreOrder R} (f : St → outcome A) : preserves R (fun s => (s, f s)).
Proof. by intros s s' o [= <- _]. Qed.
#[local] Hint Resolve preserves_forEach preserves_iterate preserves_read : nexus.

Lemma dropError_preserves (R : relation St) `{!PreOrder R} m : preserves R m → preserves R (dropError m).
Proof. intros Hm. unfold dropError. preserving. Qed.
#[local] Hint Resolve dropError_preserves : nexus.

Lemma prepDistribution_staking height allowed : preserves staking_kept (prepDistribution height allowed).
Proof.
  unfold prepDistribution, withdrawCommissions, withdrawRewards, reinitializeValidators, reinitializeDelegations.
  preserving; (apply preserves_iterate || apply preserves_forEach); [apply _| |apply _|..]; preserving.
Qed.

(** *** Creation heights *)

Definition is_reset (u : Unbonding) : Prop := Forall (fun e => e_CreationHeight e = 0) (u_Entries u).

Lemma resetEntries_reset u : is_reset (resetEntries u).
Proof. unfold is_reset, resetEntries. simpl. apply Forall_fmap. by apply Forall_true. Qed.

Lemma overwrite_key u (l : list Unbonding) : u_key <$> (overwrite u <$> l) = u_key <$> l.
Proof.
  rewrite <-list_fmap_compose. apply list_fmap_ext. intros i x _. unfold overwrite. simpl.
  by case_bool_decide.
Qed.

Section Resets.
Context (iter : St → list Unbonding) (set_ : Unbonding → M St unit).
Hypothesis Hset : ∀ u s s', set_ u s = (s', Ret tt) → u_key u ∈ u_key <$> iter s →
  iter s' = overwrite u <$> iter s.

Lemma reset_loop l s s' :
  (∀ u, u ∈ l → u_key u ∈ u_key <$> iter s) →
  (∀ x, x ∈ iter s → is_reset x ∨ u_key x ∈ u_key <$> l) →
  forEach l (fun u => mustM (set_ (resetEntries u))) s = (s', Ret tt) → Forall is_reset (iter s').
Proof.
  revert s. induction l as [|u l IH]; intros s Hin Hx Hr.
  { injection Hr as <-. apply Forall_forall. intros x Hi. destruct (Hx x Hi) as [|Hn]; [done|set_solver]. }
  cbn [forEach] in Hr. apply bindM_ret in Hr as (s1 & [] & Hm & Hr). apply mustM_ret in Hm.
  apply Hset in Hm; [|by apply (Hin u); left]. apply (IH s1); [..|done].
  - intros v Hv. rewrite Hm, overwrite_key. apply Hin. by right.
  - intros x Hi. rewrite Hm in Hi. apply list_elem_of_fmap in Hi as (y & -> & Hy). unfold overwrite.
    case_bool_decide as Hk; [left; apply resetEntries_reset|].
    destruct (Hx y Hy) as [|Hl]; [by left|]. rewrite fmap_cons in Hl.
    apply elem_of_cons in Hl as [Hl|]; [done|by right].
Qed.

Lemma reset_iterated (what : St → list Unbonding * option error) s s' :
  (∀ s, iter s = fst (what s)) →
  iterate what (fun u => mustM (set_ (resetEntries u))) s = (s', Ret tt) → Forall is_reset (iter s').
Proof.
  intros Hw Hr. apply iterate_ret in Hr. rewrite <-Hw in Hr. apply reset_loop in Hr; [done|..].
  - intros u Hu. by apply list_elem_of_fmap_2.
  - intros x Hi. right. by apply list_elem_of_fmap_2.
Qed.
End Resets.

(** *** Validators *)

Definition jails (allowed : list string) (text : string) : bool :=
  negb (bool_decide (allowed = [])) && negb (bool_decide (text ∈ allowed)).

(** [addr]'s record in [s'] is the one in [s], reset. *)
Definition record_reset (allowed : list string) (s s' : St) (addr : string) : Prop :=
  ∃ v v' text, GetValidatorRecord addr s = Ret v ∧ GetValidatorRecord addr s' = Ret v' ∧
    ValidatorAddress_BytesToString addr = Ret text ∧
    vr_Operator v' = vr_Operator v ∧ vr_Bonded v' = vr_Bonded v ∧
    vr_UnbondingHeight v' = 0 ∧ vr_Jailed v' = vr_Jailed v || jails allowed text.

Lemma resetValidator_ret allowed a s s' :
  resetValidator allowed a s = (s', Ret tt) →
  record_reset allowed s s' a ∧ ValidatorsKeys s' = ValidatorsKeys s ∧
  ∀ b, b ≠ a → GetValidatorRecord b s' = GetValidatorRecord b s.
Proof.
  unfold resetValidator. destruct (GetValidatorRecord a s) as [v| | |] eqn:Hv; try done. intros Hr.
  apply bindM_ret in Hr as (s1 & text & Ht & Hr). unfold lift, must in Ht.
  destruct (ValidatorAddress_BytesToString a) as [x| | |] eqn:Hx; try done. injection Ht as <- <-.
  apply mustM_ret in Hr. split; [|split].
  - eexists v, _, x. split_and!; [done|exact (SetRecord_get a v (resetRecord _ v) _ _ Hv eq_refl Hr)|done..].
  - exact (SetRecord_keys a v (resetRecord _ v) _ _ _ Hv eq_refl Hr).
  - intros b Hb. exact (SetRecord_ne a b v (resetRecord _ v) _ _ _ Hv eq_refl Hr Hb).
Qed.

Lemma resetValidators_loop allowed l s s' :
  NoDup l → forEach l (resetValidator allowed) s = (s', Ret tt) →
  (∀ a, a ∈ l → record_reset allowed s s' a) ∧ ValidatorsKeys s' = ValidatorsKeys s ∧
  ∀ b, b ∉ l → GetValidatorRecord b s' = GetValidatorRecord b s.
Proof.
  intros Hnd. revert s. induction Hnd as [|a l Ha Hnd IH]; intros s Hr.
  { injection Hr as <-. by split; [set_solver|]. }
  cbn [forEach] in Hr. apply bindM_ret in Hr as (s1 & [] & H1 & Hr).
  apply resetValidator_ret in H1 as (H1 & Hk & Hne). apply IH in Hr as (Hin & Hk' & Hout).
  split_and!; [|congruence|].
  - intros b Hb. apply elem_of_cons in Hb as [->|Hb].
    + destruct H1 as (v & v' & x & Hv & Hv' & Hrest). exists v, v', x. by rewrite (Hout a Ha).
    + destruct (Hin b Hb) as (v & v' & x & Hv & Hrest). exists v, v', x.
      rewrite <-Hne; [done|]. by intros ->.
  - intros b Hb. rewrite Hout by set_solver. apply Hne. set_solver.
Qed.

Lemma resetValidators_preserves (R : relation St) `{!PreOrder R} allowed :
  (∀ v, preserves R (SetValidatorRecord v)) → preserves R (resetValidators allowed).
Proof.
  intros Hset. unfold resetValidators. apply preserves_bind; [apply _|by preserving|]. intros keys.
  apply preserves_forEach; [apply _|]. intros a s s' o. unfold resetValidator.
  destruct (GetValidatorRecord a s) as [v| | |]; [|by intros [= <- _]..].
  match goal with |- ?m s = _ → _ => assert (Hp : preserves R m); [|apply Hp] end. preserving.
Qed.

(** *** Signing infos *)

Definition starts_at_zero (x : string * SigningInfo) : Prop := si_StartHeight x.2 = 0.

Lemma resetSigningInfos_ret s s' :
  (∀ a i t, ∃ t', SetSigningInfo a i t = (t', Ret tt)) → resetSigningInfos s = (s', Ret tt) →
  Forall starts_at_zero (signingInfos s').
Proof.
  intros Hok Hr. apply iterate_ret in Hr. fold (signingInfos s) in Hr.
  assert (Hgen : ∀ l s, forEach l (fun '(addr, info) => dropError (SetSigningInfo addr (mkSigningInfo 0 (si_rest info)))) s
      = (s', Ret tt) → (∀ x, x ∈ l → x.1 ∈ (signingInfos s).*1) →
    (∀ x, x ∈ signingInfos s → starts_at_zero x ∨ x.1 ∈ l.*1) → Forall starts_at_zero (signingInfos s')).
  2: { apply (Hgen _ _ Hr); intros x Hx; [|right]; by apply list_elem_of_fmap_2. }
  clear s Hr. intros l. induction l as [|[a i] l IH]; intros s Hr Hin Hx.
  { injection Hr as <-. apply Forall_forall. intros x Hi. destruct (Hx x Hi) as [|Hn]; [done|set_solver]. }
  cbn [forEach] in Hr. apply bindM_ret in Hr as (s1 & [] & H1 & Hr).
  unfold dropError, try, bindM in H1. destruct (Hok a (mkSigningInfo 0 (si_rest i)) s) as [t Ht].
  rewrite Ht in H1. injection H1 as <-. apply SetSigningInfo_iterate in Ht; [|by apply (Hin (a, i)); left].
  assert (Hkeys : (signingInfos t).*1 = (signingInfos s).*1).
  { rewrite Ht, <-list_fmap_compose. apply list_fmap_ext. intros ? x _. unfold overwriteInfo. cbn. by case_bool_decide. }
  apply (IH t); [done|..].
  - intros x Hl. rewrite Hkeys. apply Hin. by right.
  - intros x Hi. rewrite Ht in Hi. apply list_elem_of_fmap in Hi as (y & -> & Hy). unfold overwriteInfo.
    case_bool_decide as Hk; [by left|]. destruct (Hx y Hy) as [|Hl]; [by left|].
    rewrite fmap_cons in Hl. apply elem_of_cons in Hl as [Hl|]; [done|by right].
Qed.

Lemma resetSigningInfos_staking : preserves staking_kept resetSigningInfos.
Proof. apply preserves_iterate; [apply _|]. intros [a i]. preserving. Qed.

(** C38: what a zero-height genesis resets, in the state that is exported.  When
    the preparation returns - the store's iterator having closed and every
    signing info having been written - every redelegation and unbonding entry
    has creation height zero and every signing info starts at zero; the
    validators are those there were, each jailed in addition exactly when there
    is a list and it is not on it, and with unbonding height zero, except those
    whose bond the last update of the validator set has ended: they have the
    height of the export. *)
Theorem zero_height_genesis_resets height allowed s s' :
  prepForZeroHeightGenesis height allowed s = (s', Ret tt) →
  (∀ t : St, iter_Close t = None) → (∀ a i t, ∃ t', SetSigningInfo a i t = (t', Ret tt)) →
  (∀ t : St, NoDup (ValidatorsKeys t)) →
  Forall is_reset (redelegations s') ∧ Forall is_reset (unbondings s') ∧
  Forall starts_at_zero (signingInfos s') ∧ ValidatorsKeys s' = ValidatorsKeys s ∧
  ∀ a, a ∈ ValidatorsKeys s →
    ∃ v v' text, GetValidatorRecord a s = Ret v ∧ GetValidatorRecord a s' = Ret v' ∧
      ValidatorAddress_BytesToString a = Ret text ∧ vr_Operator v' = vr_Operator v ∧
      vr_Jailed v' = vr_Jailed v || jails allowed text ∧
      (vr_UnbondingHeight v' = 0 ∨ (vr_UnbondingHeight v' = height ∧ vr_Bonded v = true ∧ vr_Bonded v' = false)).
Proof.
  intros Hr Hclose Hinfo Hnd. unfold prepForZeroHeightGenesis in Hr.
  apply bindM_ret in Hr as (s0 & [] & (R0 & U0 & K0 & G0)%prepDistribution_staking & Hr).
  apply bindM_ret in Hr as (s1 & [] & H1 & Hr). apply bindM_ret in Hr as (s2 & [] & H2 & Hr).
  apply bindM_ret in Hr as (s3 & [] & H3 & Hr).
  unfold bindM at 1, gets in Hr. rewrite Hclose in Hr.
  apply bindM_ret in Hr as (s4 & [] & H4%mustM_ret & Hr).
  pose proof (resetSigningInfos_staking _ _ _ Hr) as (R5 & U5 & K5 & G5).
  apply resetSigningInfos_ret in Hr; [|done].
  assert (Hred : Forall is_reset (redelegations s1)).
  { by eapply (reset_iterated redelegations _ SetRedelegation_iterate _ s0 s1). }
  assert (Hubd : Forall is_reset (unbondings s2)).
  { by eapply (reset_iterated unbondings _ SetUnbonding_iterate _ s1 s2). }
  assert (V1 : validators_kept s0 s1) by (revert H1; apply preserves_iterate; [apply _|preserving]).
  assert (V2 : validators_kept s1 s2) by (revert H2; apply preserves_iterate; [apply _|preserving]).
  assert (R2 : same redelegations s1 s2) by (revert H2; apply preserves_iterate; [apply _|preserving]).
  destruct V1 as [K1 G1], V2 as [K2 G2]. unfold same in R2.
  pose proof (resetValidators_preserves (same redelegations) allowed SetRecord_redelegations _ _ _ H3) as R3.
  pose proof (resetValidators_preserves (same unbondings) allowed SetRecord_unbondings _ _ _ H3) as U3.
  pose proof (Apply_redelegations _ _ _ _ H4) as R4. pose proof (Apply_unbondings _ _ _ _ H4) as U4.
  pose proof (Apply_keys _ _ _ _ H4) as K4. unfold same in *.
  unfold resetValidators, bindM, gets in H3. apply resetValidators_loop in H3 as (Hrec & K3 & _); [|done].
  split_and!; [by rewrite R5, R4, R3, R2|by rewrite U5, U4, U3|done|congruence|].
  intros a Ha. destruct (Hrec a) as (v & v3 & text & Hv & Hv3 & Ht & Ho & Hb & Hu & Hj); [by rewrite K2, K1, K0|].
  destruct (Apply_records _ _ _ _ _ H4 Hv3) as (v' & Hv' & Ho' & Hj' & Hu').
  exists v, v', text. split_and!; [|by rewrite G5|done|congruence|congruence|].
  - by rewrite <-G0, <-G1, <-G2.
  - destruct Hu' as [Hu'|(Hu' & Hb1 & Hb2)]; [left|right; split_and!]; congruence.
Qed.

(** The height of an export: zero, or the block after the last one. *)
Lemma ExportApp_height last zero allowed modules (s s' : St) x :
  is_i64 (last + 1) → ExportAppStateAndValidators last zero allowed modules s = (s', Ret x) →
  xa_Height x = if zero then 0 else last + 1.
Proof.
  intros Hl Hr. unfold ExportAppStateAndValidators in Hr.
  do 4 (apply bindM_ret in Hr as (? & ? & _ & Hr)). destruct (snd _); [done|].
  apply bindM_ret in Hr as (? & ? & _ & Hr). unfold ret in Hr. simplify_eq. simpl.
  destruct zero; [done|]. unfold i64_add. by apply i64_small.
Qed.

End Claims.

(** ** Witness: three validators, one of them on the list *)

Section Witnesses.

Record Staking := mkStaking {
  st_reds : list Unbonding; st_ubds : list Unbonding;
  st_vals : gmap string ValidatorRecord; st_infos : list (string * SigningInfo); st_pool : Z }.

(** The bond of a jailed validator ends. *)
Definition endBond (h : Z) (v : ValidatorRecord) : ValidatorRecord :=
  if vr_Jailed v && vr_Bonded v then mkValidatorRecord (vr_Operator v) h true false (vr_rest v) else v.
Definition skip : M Staking unit := ret tt.

(** An address is the text of its operator. *)
Definition toy_staking : ExportKeepers Staking Z := {|
  ValidatorAddress_StringToBytes a := Ret a;
  ValidatorAddress_BytesToString a := Ret a;
  Address_StringToBytes a := Ret a;
  IterateValidators s := (elements (dom (st_vals s)), None);
  GetAllDelegations _ := Ret [mkDelegation "a" "d"];
  IterateRedelegations s := (st_reds s, None);
  SetRedelegation u := fun s =>
    (mkStaking (overwrite u <$> st_reds s) (st_ubds s) (st_vals s) (st_infos s) (st_pool s), Ret tt);
  IterateUnbondings s := (st_ubds s, None);
  SetUnbonding u := fun s =>
    (mkStaking (st_reds s) (overwrite u <$> st_ubds s) (st_vals s) (st_infos s) (st_pool s), Ret tt);
  ValidatorsKeys s := elements (dom (st_vals s));
  GetValidatorRecord a s :=
    match st_vals s !! a with
    | Some v => Ret (mkValidatorRecord a (vr_UnbondingHeight v) (vr_Jailed v) (vr_Bonded v) (vr_rest v))
    | None => Fail ErrNotFound
    end;
  SetValidatorRecord v := fun s =>
    (mkStaking (st_reds s) (st_ubds s) (<[vr_Operator v := v]> (st_vals s)) (st_infos s) (st_pool s), Ret tt);
  iter_Close _ := None;
  ApplyAndReturnValidatorSetUpdates h := modify (fun s =>
    mkStaking (st_reds s) (st_ubds s) (endBond h <$> st_vals s) (st_infos s) (st_pool s));
  WithdrawValidatorCommission _ _ := fun s => (s, Fail ErrNotFound);
  WithdrawDelegationRewards _ _ _ := skip;
  DeleteAllValidatorSlashEvents := skip;
  DeleteAllValidatorHistoricalRewards := skip;
  GetValidatorOutstandingRewardsCoins _ _ := Ret 3;
  CommunityPool_Get s := Ret (st_pool s);
  CommunityPool_Set p := fun s => (mkStaking (st_reds s) (st_ubds s) (st_vals s) (st_infos s) p, Ret tt);
  DecCoins_Add := Z.add;
  AfterValidatorCreated _ _ := skip;
  BeforeDelegationCreated _ _ _ := skip;
  AfterDelegationModified _ _ _ := skip;
  IterateValidatorSigningInfos s := (st_infos s, None);
  SetSigningInfo a i := fun s =>
    (mkStaking (st_reds s) (st_ubds s) (st_vals s) (overwriteInfo a i <$> st_infos s) (st_pool s), Ret tt);
  ExportGenesisForModules _ _ := Ret "{}";
  MarshalIndent g := Ret g;
  WriteValidators s := (elements (dom (st_vals s)), None);
  GetConsensusParams _ := "" |}.
#[local] Existing Instance toy_staking.

Lemma toy_staking_laws : ExportLaws Staking Z.
Proof.
  assert (Hskip : ∀ A (m : M Staking A) (f : Staking → Staking) (R : relation Staking),
    (∀ s, (m s).1 = f s) → (∀ s, R s (f s)) → preserves R m).
  { intros A m f R Hm Hf s s' o Hr. specialize (Hm s). rewrite Hr in Hm. cbn in Hm. by subst. }
  split; cbn.
  - intros a v v' s s' Hv Ho [= <-]. destruct (st_vals s !! a); simplify_eq. cbn in *. rewrite Ho.
    rewrite lookup_insert_eq. destruct v'. cbn in *. by subst.
  - intros a b v v' s s' o Hv Ho [= <- _] Hb. destruct (st_vals s !! a); simplify_eq. cbn in *. rewrite Ho.
    by rewrite lookup_insert_ne.
  - intros a v v' s s' o Hv Ho [= <- _]. destruct (st_vals s !! a) eqn:Ha; simplify_eq. cbn in *. rewrite Ho.
    by rewrite dom_insert_lookup_L by (by eexists).
  - intros v. by eapply Hskip.
  - intros v. by eapply Hskip.
  - by intros u s s' [= <-] _.
  - intros u. by eapply Hskip.
  - intros u. by eapply Hskip.
  - by intros u s s' [= <-] _.
  - intros u. by eapply Hskip.
  - intros u. by eapply Hskip.
  - intros h. by eapply Hskip.
  - intros h. by eapply Hskip.
  - intros h s s' o [= <- _]. unfold same. cbn. by rewrite dom_fmap_L.
  - intros h a v s s' [= <-] Hv. cbn. rewrite lookup_fmap. destruct (st_vals s !! a) as [x|]; simplify_eq/=.
    eexists. split; [done|]. unfold endBond. cbn. destruct (vr_Jailed x) eqn:?, (vr_Bonded x) eqn:?; cbn; split_and!; auto.
  - by intros a i s s' [= <-] _.
  - intros a i. by eapply Hskip.
  - intros h v s s' o [= <- _]. done.
  - intros h d v. by eapply Hskip.
  - by eapply Hskip.
  - by eapply Hskip.
  - intros p. by eapply Hskip.
  - intros h v. by eapply Hskip.
  - intros h d v. by eapply Hskip.
  - intros h d v. by eapply Hskip.
Qed.
#[local] Existing Instance toy_staking_laws.

Definition running : Staking :=
  mkStaking [mkUnbonding "r" [mkEntry 12 ""; mkEntry 40 ""]] [mkUnbonding "u" [mkEntry 7 ""]]
    {[ "a" := mkValidatorRecord "a" 0 false true ""; "b" := mkValidatorRecord "b" 33 false true "";
       "c" := mkValidatorRecord "c" 21 true false "" ]}
    [("ka", mkSigningInfo 5 ""); ("kb", mkSigningInfo 30 "")] 0.

Definition prepared : Staking * outcome unit := prepForZeroHeightGenesis 50 ["a"] running.

(** The bond of [b], which is not on the list, ends at the height of the export. *)
Lemma zero_height_genesis_resets_witness :
  prepared.2 = Ret tt ∧
  GetValidatorRecord "b" prepared.1 = Ret (mkValidatorRecord "b" 50 true false "") ∧
  GetValidatorRecord "c" prepared.1 = Ret (mkValidatorRecord "c" 0 true false "") ∧
  Forall is_reset (redelegations prepared.1) ∧ Forall is_reset (unbondings prepared.1) ∧
  Forall starts_at_zero (signingInfos prepared.1).
Proof.
  do 3 (split; [vm_compute; reflexivity|]).
  destruct (zero_height_genesis_resets 50 ["a"] running prepared.1) as (Hred & Hubd & Hinf & _).
  - vm_compute. reflexivity.
  - reflexivity.
  - intros. eexists. reflexivity.
  - intros t. change (NoDup (elements (dom (st_vals t)))). apply NoDup_elements.
  - split_and!; assumption.
Defined.

End Witnesses.

End AppExport.
