(* ===== verification/Files.v ===== *)
(** * Paths and files

    The part of [path/filepath] and [os] the command line uses, on a Unix
    system.  [Clean], [Join], [Base], [Dir], [Abs] and [Rel] work on the
    components of a path; a [Disk] is the file system a command sees, with the
    directory it runs in and the faults it will meet.

    A path that was resolved is the list of its components, innermost first,
    so that the parent of [name :: dir] is [dir].  Symbolic links and
    permissions are not modelled. *)

From S2P Require Import Prelude GoStd.

(** ** path/filepath *)

Definition slash : ascii := "/".
Definition IsAbs (p : string) : bool := HasPrefix p "/".

(** One component of a path, applied to the components read so far
    (innermost first): the loop of [filepath.Clean]. *)
Definition clean_step (rooted : bool) (stack : list string) (c : string) : list string :=
  if bool_decide (c = "") || bool_decide (c = ".") then stack
  else if bool_decide (c = "..") then
    match stack with
    | [] => if rooted then [] else [".."]
    | x :: rest => if bool_decide (x = "..") then ".." :: stack else rest
    end
  else c :: stack.

Definition clean_from (rooted : bool) (stack : list string) (l : list string) : list string :=
  fold_left (clean_step rooted) l stack.

Definition render (rooted : bool) (stack : list string) : string :=
  let body := Join_strings (reverse stack) "/" in
  if rooted then "/" +:+ body
  else if bool_decide (body = "") then "." else body.

Definition Clean (p : string) : string := render (IsAbs p) (clean_from (IsAbs p) [] (Split p slash)).

(** [filepath.Join]: empty elements in front are skipped. *)
Fixpoint Join (elems : list string) : string :=
  match elems with
  | [] => ""
  | e :: rest => if bool_decide (e = "") then Join rest else Clean (Join_strings (e :: rest) "/")
  end.

(** The last element of a path without its trailing slashes. *)
Fixpoint last_element (l : list string) : string :=
  match l with
  | [] => ""
  | x :: l' => let y := last_element l' in if bool_decide (y = "") then x else y
  end.

Definition Base (p : string) : string :=
  if bool_decide (p = "") then "."
  else
    let e := last_element (Split p slash) in
    if bool_decide (e = "") then "/" else e.

(** [filepath.Dir]: what comes before the last slash, cleaned. *)
Definition Dir (p : string) : string :=
  match reverse (Split p slash) with
  | _ :: front =>
      match front with
      | [] => "."
      | _ => Clean (Join_strings (reverse front) "/" +:+ "/")
      end
  | [] => "."
  end.

Definition Abs (cwd p : string) : string := if IsAbs p then Clean p else Join [cwd; p].

(** [filepath.Rel] of two absolute clean paths: up from what is left of the
    base, down to what is left of the target. *)
Fixpoint rel_components (base targ : list string) : list string :=
  match base, targ with
  | b :: base', t :: targ' =>
      if bool_decide (b = t) then rel_components base' targ'
      else (((fun _ => "..") <$> base) ++ targ)%list
  | _, _ => (((fun _ => "..") <$> base) ++ targ)%list
  end.

(** The components of a clean absolute path, outermost first. *)
Definition abs_components (p : string) : list string := reverse (clean_from true [] (Split p slash)).

Definition Rel (base targ : string) : string :=
  match rel_components (abs_components base) (abs_components targ) with
  | [] => "."
  | l => Join_strings l "/"
  end.

(** ** os *)

(** What may go wrong with one call: it is refused, or a write stops after
    some bytes. *)
Inductive Fault := NoFault | Refused (e : error) | Partial (e : error) (written : nat).

Record Disk := mkDisk {
  cwd : string;
  files : gmap (list string) string;
  dirs : gset (list string);
  calls : nat;                (** calls made so far *)
  fault : nat → Fault;        (** what happens to the n-th *)
  stderr : list string }.

Definition resolve (wd p : string) : list string :=
  clean_from true [] (if IsAbs p then Split p slash else Split wd slash ++ Split p slash)%list.

Definition with_files (d : Disk) (f : gmap (list string) string) : Disk :=
  mkDisk (cwd d) f (dirs d) (calls d) (fault d) (stderr d).
Definition with_dirs (d : Disk) (s : gset (list string)) : Disk :=
  mkDisk (cwd d) (files d) s (calls d) (fault d) (stderr d).
Definition called (d : Disk) : Disk :=
  mkDisk (cwd d) (files d) (dirs d) (S (calls d)) (fault d) (stderr d).

Definition ENOENT : error := errText "no such file or directory".
Definition ENOTDIR : error := errText "not a directory".
Definition EISDIR : error := errText "is a directory".

(** The directories on the way to a path, itself included. *)
Fixpoint ancestors (p : list string) : list (list string) :=
  p :: match p with [] => [] | _ :: p' => ancestors p' end.

Definition MkdirAll (p : string) : M Disk unit := fun d =>
  let path := resolve (cwd d) p in
  match fault d (calls d) with
  | NoFault =>
      if existsb (fun a => bool_decide (is_Some (files d !! a))) (ancestors path) then (called d, Fail ENOTDIR)
      else (called (with_dirs d (list_to_set (ancestors path) ∪ dirs d)), Ret tt)
  | Refused e => (called d, Fail e)
  | Partial e _ => (called d, Fail e)
  end.

(** Opening a file for writing truncates it; then its bytes are written. *)
Definition write_at (path : list string) (contents : string) : M Disk unit := fun d =>
  match path with
  | [] => (called d, Fail EISDIR)
  | _ :: parent =>
      if bool_decide (path ∈ dirs d) then (called d, Fail EISDIR)
      else if negb (bool_decide (parent ∈ dirs d)) then (called d, Fail ENOENT)
      else
        match fault d (calls d) with
        | NoFault => (called (with_files d (<[path := contents]> (files d))), Ret tt)
        | Refused e => (called d, Fail e)
        | Partial e n => (called (with_files d (<[path := take_bytes n contents]> (files d))), Fail e)
        end
  end.

Definition WriteFile (p : string) (contents : string) : M Disk unit := fun d =>
  write_at (resolve (cwd d) p) contents d.

Definition read_at (path : list string) : M Disk string := fun d =>
  match fault d (calls d) with
  | NoFault =>
      (called d, match files d !! path with Some s => Ret s | None => Fail ENOENT end)
  | Refused e => (called d, Fail e)
  | Partial e _ => (called d, Fail e)
  end.

Definition os_ReadFile (p : string) : M Disk string := fun d => read_at (resolve (cwd d) p) d.

(** [os.RemoveAll]: everything at the path and below it. *)
Definition RemoveAll (p : string) : M Disk unit := fun d =>
  let path := resolve (cwd d) p in
  let below (q : list string) := bool_decide (path ∈ ancestors q) in
  match fault d (calls d) with
  | NoFault =>
      (called (with_dirs (with_files d (filter (fun kv => below kv.1 = false) (files d)))
                 (filter (fun q => below q = false) (dirs d))), Ret tt)
  | Refused e => (called d, Fail e)
  | Partial e _ => (called d, Fail e)
  end.

(** [cmd.PrintErrf]. *)
Definition PrintErr (line : string) : M Disk unit := fun d =>
  (mkDisk (cwd d) (files d) (dirs d) (calls d) (fault d) (line :: stderr d), Ret tt).

(** Known answers, from the documentation of the package. *)
Example Clean_1 : Clean "a/../../b//./c/" = "../b/c". Proof. reflexivity. Qed.
Example Clean_2 : Clean "/../a/b/.." = "/a". Proof. reflexivity. Qed.
Example Clean_3 : Clean "" = ".". Proof. reflexivity. Qed.
Example Join_1 : Join [""; "a/b"; "../../../xyz"] = "../xyz". Proof. reflexivity. Qed.
Example Base_1 : map Base ["/foo/bar/baz.js"; "/foo/bar/"; "dev.txt"; "/"; ""] = ["baz.js"; "bar"; "dev.txt"; "/"; "."].
Proof. reflexivity. Qed.
Example Dir_1 : map Dir ["/foo/bar/baz"; "/foo/bar/baz/"; "foo/bar"; "dev.txt"; "/x"; ""] =
  ["/foo/bar"; "/foo/bar/baz"; "foo"; "."; "/"; "."].
Proof. reflexivity. Qed.
Example Rel_1 : map (Rel "/a") ["/a/b/c"; "/b/c"; "/a"] = ["b/c"; "../b/c"; "."]. Proof. reflexivity. Qed.

Arguments resolve : simpl never.
Arguments Join : simpl never.
Arguments Clean : simpl never.

(** ** Facts about paths *)

(** A component that is a name. *)
Definition normal (c : string) : Prop := c ≠ "" ∧ c ≠ "." ∧ c ≠ "..".

Lemma clean_step_normal r st c : normal c → clean_step r st c = c :: st.
Proof. intros (?&?&?). unfold clean_step. by rewrite !bool_decide_eq_false_2. Qed.

Lemma clean_step_up r st x : x ≠ ".." → clean_step r (x :: st) ".." = st.
Proof. intros Hx. unfold clean_step. cbn [orb bool_decide]. by rewrite (bool_decide_eq_false_2 (x = "..")). Qed.

Lemma clean_from_app r st l1 l2 : clean_from r st (l1 ++ l2) = clean_from r (clean_from r st l1) l2.
Proof. apply fold_left_app. Qed.

Lemma clean_from_normal r st l : Forall normal l → clean_from r st l = (reverse l ++ st)%list.
Proof.
  revert st. induction l as [|c l IH]; intros st; [done|]. intros [Hc Hl]%Forall_cons.
  change (clean_from r (clean_step r st c) l = (reverse (c :: l) ++ st)%list).
  rewrite clean_step_normal, IH, reverse_cons, <-app_assoc by done. done.
Qed.

(** What [Clean] leaves: names, after some [..] when the path is relative. *)
Definition cleaned (rooted : bool) (stack : list string) : Prop :=
  ∃ names ups, stack = (names ++ ups)%list ∧ Forall normal names ∧ Forall (eq "..") ups ∧
    (rooted = true → ups = []).

Lemma cleaned_nil r : cleaned r [].
Proof. by exists [], []. Qed.

Lemma clean_step_cleaned r st c : cleaned r st → cleaned r (clean_step r st c).
Proof.
  intros (names & ups & -> & Hn & Hu & Hr). unfold clean_step.
  destruct (bool_decide (c = "") || bool_decide (c = ".")) eqn:E1; [by exists names, ups|]. bools.
  case_bool_decide as E2.
  - destruct names as [|x names]; cbn.
    + destruct ups as [|u ups]; [by destruct r; [exists [], []|exists [], [".."]; repeat constructor]|].
      apply Forall_cons in Hu as [<- Hu]. rewrite bool_decide_eq_true_2 by done.
      exists [], (".." :: ".." :: ups). repeat constructor; try done. intros Hr'. by apply Hr in Hr'.
    + apply Forall_cons in Hn as [(?&?&?) Hn]. rewrite bool_decide_eq_false_2 by done. by exists names, ups.
  - exists (c :: names), ups. repeat split; [|done..]. by constructor.
Qed.

Lemma clean_from_cleaned r st l : cleaned r st → cleaned r (clean_from r st l).
Proof. revert st. induction l as [|c l IH]; intros st H; [done|]. cbn. apply IH. by apply clean_step_cleaned. Qed.

Lemma cleaned_rooted st : cleaned true st → Forall normal st.
Proof. intros (names & ups & -> & Hn & _ & Hr). by rewrite Hr, app_nil_r. Qed.

Lemma resolve_normal wd p : Forall normal (resolve wd p).
Proof. apply cleaned_rooted, clean_from_cleaned, cleaned_nil. Qed.

(** A rooted path is not disturbed by cleaning what is appended to it. *)
Lemma clean_from_cleaned_suffix st l :
  Forall normal st → clean_from true st (reverse (clean_from false [] l)) = clean_from true st l.
Proof.
  intros Hst. induction l as [|c l IH] using rev_ind; [done|].
  rewrite !clean_from_app, <-IH. clear IH.
  pose proof (clean_from_cleaned false [] l (cleaned_nil _)) as Hc. set (r := clean_from false [] l) in *.
  change (clean_from true st (reverse (clean_step false r c)) = clean_step true (clean_from true st (reverse r)) c).
  unfold clean_step at 1.
  destruct (bool_decide (c = "") || bool_decide (c = ".")) eqn:E1; [unfold clean_step; by rewrite E1|]. bools.
  case_bool_decide as E2; [|by rewrite reverse_cons, clean_from_app].
  subst c. destruct Hc as (names & ups & Hr & Hn & Hu & _). destruct r as [|x r']; [done|].
  case_bool_decide as Ex; [by rewrite (reverse_cons (x :: r') ".."), clean_from_app|].
  rewrite reverse_cons, clean_from_app. cbn [clean_from fold_left]. rewrite (clean_step_normal _ _ x).
  { by rewrite clean_step_up. }
  destruct names as [|y names]; [destruct ups; [done|]; apply Forall_cons in Hu as [<- _]; by simplify_eq/=|].
  apply Forall_cons in Hn as [Hn _]. by simplify_eq/=.
Qed.

(** Splitting what was rendered. *)
Lemma normal_free_ne l : Forall normal l → Forall (free slash) l → l ≠ [] → Join_strings l "/" ≠ "".
Proof.
  intros Hn Hf Hl Hj. apply (f_equal (fun s => Split s slash)) in Hj.
  rewrite (Split_Join slash) in Hj by done. cbn in Hj. subst.
  by apply Forall_cons in Hn as [(?&_) _].
Qed.

Lemma clean_from_free r st l : Forall (free slash) st → Forall (free slash) l → Forall (free slash) (clean_from r st l).
Proof.
  revert st. induction l as [|c l IH]; intros st Hs; [done|]. intros [Hc Hl]%Forall_cons.
  apply (IH (clean_step r st c)); [|done]. unfold clean_step.
  destruct (_ || _); [done|]. case_bool_decide; [|by constructor].
  destruct st as [|x st]; [destruct r; repeat constructor; by vm_compute; set_solver|].
  apply Forall_cons in Hs as [??]. case_bool_decide; [|done]. subst. by repeat constructor.
Qed.

Lemma IsAbs_Split s : IsAbs s = true → ∃ t, Split s slash = "" :: Split t slash.
Proof.
  unfold IsAbs. destruct s as [|a s]; [done|]. cbn [HasPrefix]. intros H. apply andb_true_iff in H as [H _].
  apply Ascii.eqb_eq in H as <-. exists s. cbn. done.
Qed.

Lemma IsAbs_app a b : a ≠ "" → IsAbs (a +:+ b) = IsAbs a.
Proof. destruct a as [|x a]; [done|]. intros _. unfold IsAbs. change (String x a +:+ b) with (String x (a +:+ b)).
  cbn. by destruct (a +:+ b), a. Qed.

Lemma cleaned_not_empty r st : cleaned r st → Forall (fun c => c ≠ "") st.
Proof.
  intros (names & ups & -> & Hn & Hu & _). apply Forall_app. split.
  - eapply Forall_impl; [exact Hn|]. by intros x (?&_).
  - eapply Forall_impl; [exact Hu|]. by intros x <-.
Qed.

(** Cleaning a path does not change what it names. *)
Lemma resolve_Clean wd p : resolve wd (Clean p) = resolve wd p.
Proof.
  unfold Clean. set (st := clean_from (IsAbs p) [] (Split p slash)).
  assert (Hc : cleaned (IsAbs p) st) by apply clean_from_cleaned, cleaned_nil.
  assert (Hf : Forall (free slash) st) by (apply clean_from_free; [constructor|apply Split_parts_free]).
  assert (Hf' : Forall (free slash) (reverse st)) by by rewrite Forall_reverse.
  assert (Hbody : st ≠ [] → Split (Join_strings (reverse st) "/") slash = reverse st).
  { intros Hst. apply Split_Join; [|done]. intros Hr. apply Hst. by rewrite <-(reverse_involutive st), Hr. }
  pose proof (cleaned_not_empty _ _ Hc) as Hne. unfold resolve at 2. destruct (IsAbs p) eqn:Habs.
  - apply cleaned_rooted in Hc. unfold resolve, render.
    rewrite (IsAbs_app "/") by done. change (IsAbs "/") with true. cbn [fst].
    change ("/" +:+ Join_strings (reverse st) "/") with ("" +:+ String slash (Join_strings (reverse st) "/")).
    rewrite Split_app. fold st. destruct st as [|x st'] eqn:Est; [done|]. rewrite <-Est in *.
    rewrite Hbody, clean_from_app by (by rewrite Est).
    rewrite clean_from_normal by (by rewrite Forall_reverse). rewrite reverse_involutive. cbn. by rewrite app_nil_r.
  - rewrite clean_from_app, <-(clean_from_cleaned_suffix _ (Split p slash))
      by apply cleaned_rooted, clean_from_cleaned, cleaned_nil.
    fold st. unfold resolve, render. destruct st as [|x st'] eqn:Est.
    { rewrite bool_decide_eq_true_2 by done. change (IsAbs ".") with false. cbv iota. by rewrite clean_from_app. }
    rewrite <-Est in *. assert (Hst : st ≠ []) by by rewrite Est.
    specialize (Hbody Hst). rewrite bool_decide_eq_false_2.
    2:{ intros Hb. rewrite Hb in Hbody. cbn in Hbody. rewrite <-Forall_reverse in Hne.
        rewrite <-Hbody in Hne. by apply Forall_cons in Hne as [? _]. }
    destruct (IsAbs (Join_strings (reverse st) "/")) eqn:Ha.
    + apply IsAbs_Split in Ha as (t & Ht). rewrite Ht in Hbody. rewrite <-Forall_reverse in Hne.
      rewrite <-Hbody in Hne. by apply Forall_cons in Hne as [? _].
    + by rewrite Hbody, clean_from_app.
Qed.

Lemma Split_Join_strings l :
  l ≠ [] → Split (Join_strings l "/") slash = concat ((fun e => Split e slash) <$> l).
Proof.
  induction l as [|x l IH]; [done|]. intros _. destruct l as [|y l]; [cbn; by rewrite app_nil_r|].
  change (Join_strings (x :: y :: l) "/") with (x +:+ String slash (Join_strings (y :: l) "/")).
  rewrite Split_app, IH by done. done.
Qed.

(** [Join] names what its first element names, followed by the others. *)
Lemma resolve_Join wd a rest :
  a ≠ "" → resolve wd (Join (a :: rest)) = clean_from true (resolve wd a) (concat ((fun e => Split e slash) <$> rest)).
Proof.
  intros Ha. unfold Join; fold Join. rewrite bool_decide_eq_false_2, resolve_Clean by done. unfold resolve.
  rewrite Split_Join_strings by done. cbn [fmap list_fmap concat].
  assert (Habs : IsAbs (Join_strings (a :: rest) "/") = IsAbs a).
  { destruct rest; [done|]. by apply IsAbs_app. }
  rewrite Habs. destruct (IsAbs a); rewrite !clean_from_app; done.
Qed.

(** Plain file names: no slash, and not one of the special components. *)
Definition plain_name (c : string) : Prop := normal c ∧ free slash c.

Lemma resolve_Join_plain wd a rest :
  a ≠ "" → Forall plain_name rest → resolve wd (Join (a :: rest)) = (reverse rest ++ resolve wd a)%list.
Proof.
  intros Ha Hr. rewrite resolve_Join by done.
  assert (concat ((fun e => Split e slash) <$> rest) = rest) as ->.
  { induction Hr as [|x l (Hx & Hf) _ IH]; [done|]. cbn. by rewrite Split_free, IH. }
  rewrite clean_from_normal; [done|]. eapply Forall_impl; [exact Hr|]. by intros x (?&_).
Qed.

Lemma resolve_root p : resolve "/" p = clean_from true [] (Split p slash).
Proof. unfold resolve. destruct (IsAbs p); [done|]. by rewrite clean_from_app. Qed.

Lemma abs_components_Abs wd p : wd ≠ "" → abs_components (Abs wd p) = reverse (resolve wd p).
Proof.
  intros Hwd. unfold abs_components. rewrite <-resolve_root. unfold Abs. destruct (IsAbs p) eqn:Ha.
  - rewrite resolve_Clean. unfold resolve. by rewrite Ha.
  - rewrite resolve_Join by done. cbn [fmap list_fmap concat]. rewrite app_nil_r, resolve_root.
    unfold resolve. by rewrite Ha, clean_from_app.
Qed.

(** ** Facts about files *)

(** The working directory stays, and files outside [P] keep their contents. *)
Definition touches (P : list string → Prop) : relation Disk := fun d d' =>
  cwd d' = cwd d ∧ ∀ q, ¬ P q → files d' !! q = files d !! q.

#[export] Instance touches_preorder P : PreOrder (touches P).
Proof.
  split; [by split|]. intros d1 d2 d3 [H1 H2] [H3 H4].
  split; [congruence|]. intros q Hq. by rewrite H4, H2.
Qed.

Lemma touches_mono (P Q : list string → Prop) d d' :
  (∀ q, P q → Q q) → touches P d d' → touches Q d d'.
Proof. intros HPQ [Hc Hf]. split; [done|]. intros q Hq. apply Hf. auto. Qed.

Lemma preserves_mono {W A} (R1 R2 : relation W) (m : M W A) :
  (∀ w w', R1 w w' → R2 w w') → preserves R1 m → preserves R2 m.
Proof. intros HR Hm w w' o Hw. eauto. Qed.

Lemma MkdirAll_touches P p : preserves (touches P) (MkdirAll p).
Proof. intros d d' o. unfold MkdirAll. repeat case_match; intros [= <- _]; by split. Qed.

Lemma PrintErr_touches P l : preserves (touches P) (PrintErr l).
Proof. intros d d' o [= <- _]. by split. Qed.

Lemma read_at_touches P p : preserves (touches P) (read_at p).
Proof. intros d d' o. unfold read_at. case_match; intros [= <- _]; by split. Qed.

Lemma write_at_touches (P : list string → Prop) p c : P p → preserves (touches P) (write_at p c).
Proof.
  intros Hp d d' o. unfold write_at. destruct p as [|x p]; [by intros [= <- _]|].
  repeat case_match; intros [= <- _]; split; try done; intros q Hq; cbn;
    rewrite lookup_insert_ne; naive_solver.
Qed.

Lemma write_at_ret p c d d' :
  write_at p c d = (d', Ret tt) → files d' = <[p := c]> (files d) ∧ cwd d' = cwd d.
Proof. unfold write_at. intros H. repeat case_match; simplify_eq; done. Qed.

Lemma read_at_ret p c d d' :
  read_at p d = (d', Ret c) → files d !! p = Some c ∧ files d' = files d ∧ cwd d' = cwd d.
Proof. unfold read_at. intros H. repeat case_match; by simplify_eq. Qed.

#[export] Hint Resolve MkdirAll_touches PrintErr_touches read_at_touches : nexus.

Lemma render_ne r st : cleaned r st → render r st ≠ "".
Proof.
  intros Hc. unfold render. destruct r; [by intros [=]|]. by case_bool_decide.
Qed.

Lemma Join_ne a rest : a ≠ "" → Join (a :: rest) ≠ "".
Proof.
  intros Ha. unfold Join; fold Join. rewrite bool_decide_eq_false_2 by done.
  apply render_ne, clean_from_cleaned, cleaned_nil.
Qed.

(** Appending to a path appends to its last component. *)
Lemma Split_app_last sep a :
  ∃ front l, ∀ b, free sep b → Split (a +:+ b) sep = (front ++ [l +:+ b])%list.
Proof.
  induction a as [|x a (front & l & IH)].
  - exists [], "". intros b Hb. by apply Split_free.
  - destruct (Ascii.eqb x sep) eqn:E.
    + exists ("" :: front), l. intros b Hb. change (String x a +:+ b) with (String x (a +:+ b)).
      cbn [Split]. by rewrite E, IH.
    + destruct front as [|f front].
      * exists [], (String x l). intros b Hb. change (String x a +:+ b) with (String x (a +:+ b)).
        cbn [Split]. by rewrite E, IH.
      * exists (String x f :: front), l. intros b Hb. change (String x a +:+ b) with (String x (a +:+ b)).
        cbn [Split]. by rewrite E, IH.
Qed.

Lemma normal_app a b : b ≠ "" → free "." b → normal (a +:+ b).
Proof.
  unfold free. intros Hb Hd. destruct b as [|x b]; [done|]. apply not_elem_of_cons in Hd as [Hx Hd].
  destruct a as [|y a]; [split_and!; intros [=]; subst; by cbn in *|].
  destruct a as [|z a]; [split_and!; intros [=]; subst; by cbn in *|].
  split_and!; intros [=]. by destruct a.
Qed.

Lemma string_app_inj_l (a b c : string) : a +:+ b = a +:+ c → b = c.
Proof. apply (inj (String.append a)). Qed.

(** Decimal digits are neither slashes nor dots. *)
Lemma uint_digits_free c fuel n acc :
  digit_of c = None → free c acc → free c (uint_digits fuel n acc).
Proof.
  intros Hc. revert n acc. induction fuel as [|fuel IH]; intros n acc Ha; [done|]. cbn [uint_digits].
  assert (free c (String (chr (48 + n mod 10)) acc)).
  { unfold free in *. cbn. apply not_elem_of_cons. split; [|done]. intros ->.
    pose proof (Z.mod_pos_bound n 10). rewrite digit_of_chr in Hc by lia. done. }
  destruct (n <? 10); auto.
Qed.

Lemma fmt_d_free c i : 0 ≤ i → digit_of c = None → free c (fmt_d i).
Proof.
  intros Hi Hc. unfold fmt_d. destruct (Z.ltb_spec i 0); [lia|].
  apply uint_digits_free; [done|]. unfold free. set_solver.
Qed.

Lemma fmt_d_ne i : 0 ≤ i → fmt_d i ≠ "".
Proof.
  intros Hi. unfold fmt_d, fmt_uint. destruct (Z.ltb_spec i 0); [lia|].
  destruct (uint_digits_cons (Z.to_nat (Z.log2 i)) i "") as (c & s & -> & _). done.
Qed.

Lemma fmt_d_inj i j : is_u64 i → is_u64 j → fmt_d i = fmt_d j → i = j.
Proof.
  unfold is_u64. intros Hi Hj. unfold fmt_d. destruct (Z.ltb_spec i 0), (Z.ltb_spec j 0); [lia..|].
  intros Hf. pose proof (ParseUint_fmt_uint i Hi). pose proof (ParseUint_fmt_uint j Hj). congruence.
Qed.

Lemma last_element_snoc l x : x ≠ "" → last_element (l ++ [x]) = x.
Proof.
  intros Hx. induction l as [|y l IH]; cbn; [by rewrite bool_decide_eq_true_2|].
  by rewrite IH, bool_decide_eq_false_2.
Qed.

(** The base of a path that was joined from a plain name. *)
Lemma Base_Join a name : a ≠ "" → plain_name name → Base (Join [a; name]) = name.
Proof.
  intros Ha [Hn Hf]. unfold Base. rewrite bool_decide_eq_false_2 by by apply Join_ne.
  assert (Hs : ∃ front, Split (Join [a; name]) slash = (front ++ [name])%list).
  { unfold Join. rewrite bool_decide_eq_false_2 by done. unfold Clean.
    rewrite Split_Join_strings by done. cbn [fmap list_fmap concat]. rewrite (Split_free slash name), app_nil_r by done.
    set (r := IsAbs _). rewrite clean_from_app. cbn [clean_from fold_left]. rewrite clean_step_normal by done.
    set (st := clean_from r [] (Split a slash)).
    assert (Hst : Forall (free slash) st) by (apply clean_from_free; [constructor|apply Split_parts_free]).
    assert (Hj : Split (Join_strings (reverse (name :: st)) "/") slash = (reverse st ++ [name])%list).
    { rewrite reverse_cons. apply Split_Join; [by destruct (reverse st)|].
      apply Forall_app. split; [by rewrite Forall_reverse|by constructor]. }
    fold (clean_from r [] (Split a slash)). fold st. unfold render. destruct r.
    - change ("/" +:+ Join_strings (reverse (name :: st)) "/")
        with ("" +:+ String slash (Join_strings (reverse (name :: st)) "/")).
      rewrite Split_app, Hj. by exists ("" :: reverse st).
    - case_bool_decide as Hb; [|eauto]. rewrite Hb in Hj. destruct (reverse st) as [|? [|??]]; cbn in Hj; try done.
      injection Hj as <-. by destruct Hn. }
  destruct Hs as [front ->]. rewrite last_element_snoc by (by destruct Hn).
  by rewrite bool_decide_eq_false_2 by (by destruct Hn).
Qed.

Lemma rel_components_prefix p a b : rel_components (p ++ a) (p ++ b) = rel_components a b.
Proof. induction p as [|x p IH]; [done|]. cbn. by rewrite bool_decide_eq_true_2. Qed.

Lemma string_app_inj_r (a b c : string) : a +:+ c = b +:+ c → a = b.
Proof.
  intros Heq. apply (f_equal bytes_of) in Heq. rewrite !bytes_of_app in Heq. apply app_inv_tail in Heq.
  by rewrite <-(string_of_bytes a), <-(string_of_bytes b), Heq.
Qed.
