(* ===== verification/Testnet.v ===== *)
(** * The multi-node testnet command

    [cmd/nexusd/cmd/testnet_multi_node.go]: [nexusd multi-node] writes the
    directories of a local network, one per validator: keys, configuration,
    a signed genesis transaction, and a genesis file that is the same for all.
    The command runs on the [Disk] of [Files].

    The libraries it calls (genutil, the keyring, the transaction builder, the
    codecs and the configuration writers) are the class [TestnetLib]; what the
    theorems need to know about them is [TestnetLaws].  The node configuration
    is one object that every iteration changes; here it is passed along. *)

From S2P Require Import Prelude GoStd Files Upgrades.

Module Testnet.

Abbreviation Coin := (string * Z)%type (only parsing).
Abbreviation DefaultBondDenom := Upgrades.DefaultBondDenom.

Definition flagNodeDirPrefix : string := "node-dir-prefix".
Definition flagPorts : string := "list-ports".
Definition flagNumValidators : string := "v".
Definition flagOutputDir : string := "output-dir".
Definition flagValidatorsStakeAmount : string := "validators-stake-amount".
Definition flagStartingIPAddress : string := "starting-ip-address".

Record initArgs := mkInitArgs {
  algo : string; chainID : string; keyringBackend : string; minGasPrices : string;
  nodeDirPrefix : string; numValidators : Z; outputDir : string; startingIPAddress : string;
  validatorsStakesAmount : gmap Z Coin; ports : gmap Z string }.

(** The fields of [cmtconfig.Config] the command sets. *)
Record NodeConfig := mkNodeConfig {
  RootDir : string; Moniker : string; RPC_ListenAddress : string;
  P2P_PersistentPeers : string; P2P_AllowDuplicateIP : bool; P2P_ListenAddress : string;
  ProxyApp : string; PrometheusListenAddr : string; Prometheus : bool; nc_rest : string }.

(** The fields of [srvconfig.Config] the command sets.  [MinGasPrices] is a
    field of the embedded [BaseConfig]: the two spellings are one field. *)
Record AppConfig := mkAppConfig {
  MinGasPrices : string; API_Enable : bool; API_Address : string; GRPC_Address : string;
  Telemetry_EnableHostnameLabel : bool; Telemetry_Enabled : bool;
  Telemetry_PrometheusRetentionTime : Z; ac_rest : string }.

Record Balance := mkBalance { bal_Address : string; bal_Coins : list Coin }.
Record AuthGenesis := mkAuthGenesis { ag_Accounts : list string; ag_rest : string }.
Record BankGenesis := mkBankGenesis { bg_Balances : list Balance; bg_Supply : list Coin; bg_rest : string }.
Record GenesisDoc := mkGenesisDoc { gd_ChainID : string; gd_AppState : string }.

Record CreateValidator := mkCreateValidator {
  cv_ValAddr : string; cv_PubKey : string; cv_Value : Coin; cv_Moniker : string;
  cv_Rate : Z; cv_MaxRate : Z; cv_MaxChangeRate : Z; cv_MinSelfDelegation : Z }.

Class TestnetLib := {
  (** names of the SDK's flags *)
  FlagKeyringBackend : string;
  FlagChainID : string;
  FlagMinGasPrices : string;
  FlagKeyType : string;
  (** cosmossdk.io/math, sdk.NewCoin, Coins.Sort, Coins.Add *)
  NewIntFromString : string → option Z;
  NewCoin : string → Z → outcome Coin;
  TokensFromConsensusPower : Z → Z;
  Coins_Sort : list Coin → list Coin;
  Coins_Add : list Coin → list Coin → list Coin;
  (** math/rand: the n-th draw below a bound *)
  Intn : nat → Z → Z;
  (** configuration *)
  DefaultConfig : AppConfig;
  GenesisFile : NodeConfig → string;
  app_WriteConfigFile : string → AppConfig → M Disk unit;
  cmt_WriteConfigFile : string → NodeConfig → M Disk unit;
  (** keys *)
  InitializeNodeValidatorFiles : NodeConfig → M Disk (string * string);
  Keyring : Type;
  keyring_New : string → string → M Disk Keyring;
  NewSigningAlgoFromString : string → Keyring → outcome string;
  GenerateSaveCoinKey : Keyring → string → string → M Disk (string * string);
  AccAddress_Bech32 : string → string;
  ValAddress_Bech32 : string → string;
  NewBaseAccount : string → string;
  (** transactions *)
  NewMsgCreateValidator : CreateValidator → outcome CreateValidator;
  TxBuilder : Type;
  SetMsgs : CreateValidator → outcome TxBuilder;
  SetMemo : string → TxBuilder → TxBuilder;
  Sign : Keyring → string → string → string → TxBuilder → M Disk TxBuilder;
  TxJSONEncoder : TxBuilder → outcome string;
  Marshal_secret : string → outcome string;
  (** genesis *)
  DefaultGenesis : gmap string string;
  auth_ModuleName : string;
  bank_ModuleName : string;
  auth_Unmarshal : string → outcome AuthGenesis;
  auth_Marshal : AuthGenesis → outcome string;
  bank_Unmarshal : string → outcome BankGenesis;
  bank_Marshal : BankGenesis → outcome string;
  PackAccounts : list string → outcome (list string);
  SanitizeGenesisBalances : list Balance → list Balance;
  MarshalIndent : gmap string string → outcome string;
  SaveAs : GenesisDoc → string → M Disk unit;
  AppGenesisFromFile : string → M Disk string;
  (** node id, public key, chain id, gentx directory, genesis; the new
      configuration and the node's application state *)
  GenAppStateFromConfig : NodeConfig → string → string → string → string → string → M Disk (NodeConfig * string);
  (** file, chain id, application state, time *)
  ExportGenesisFileWithTime : string → string → string → Z → M Disk unit }.

(** ** Flags *)

(** [cmd.Flags().GetString] and [GetInt]. *)
Record FlagSet := mkFlagSet { GetString : string → outcome string; GetInt : string → outcome Z }.

(** [x, _ := f()]: the zero value when there is an error. *)
Definition or_empty (o : outcome string) : string := match o with Ret s => s | _ => "" end.
Definition or_zero (o : outcome Z) : Z := match o with Ret z => z | _ => 0 end.

Section Testnet.
Context `{TestnetLib}.

(** [SetNormalizeFunc]: an old name of a flag. *)
Definition normalizeFlag (name : string) : string := if bool_decide (name = "algo") then FlagKeyType else name.

(** The flags the command declares, with their defaults; [addTestnetFlagsToCmd]
    declares the first four and [v], the number of validators. *)
Definition testnetFlags : list (string * string) :=
  [(flagOutputDir, "./.testnets"); (FlagChainID, ""); (FlagMinGasPrices, "0.0001" +:+ DefaultBondDenom);
   (FlagKeyType, "secp256k1")].
Definition multiNodeFlags : list (string * string) :=
  (testnetFlags ++
   [(flagPorts, ""); (flagNodeDirPrefix, "validator");
    (flagValidatorsStakeAmount, "100000000,100000000,100000000,100000000");
    (flagStartingIPAddress, "localhost"); (FlagKeyringBackend, "test")])%list.

(** The flag set of a command line without flags. *)
Definition defaultFlags : FlagSet :=
  mkFlagSet
    (fun name => match list_find (fun f => f.1 = normalizeFlag name) multiNodeFlags with
                 | Some (_, (_, v)) => Ret v
                 | None => Fail (errText ("flag accessed but not defined: " +:+ name))
                 end)
    (fun name => if bool_decide (normalizeFlag name = flagNumValidators) then Ret 4
                 else Fail (errText ("flag accessed but not defined: " +:+ name))).

(** The loop over the amounts: one that is not a number is passed over, and
    the next one takes its place. *)
Fixpoint parseStakes (amounts : list string) (top : Z) (stakes : gmap Z Coin) : outcome (gmap Z Coin) :=
  match amounts with
  | [] => Ret stakes
  | amount :: rest =>
      match NewIntFromString amount with
      | None => parseStakes rest top stakes
      | Some a =>
          let? coin := NewCoin DefaultBondDenom a in
          parseStakes rest (top + 1) (<[top := coin]> stakes)
      end
  end.

(** Ports when none are listed, and those that are. *)
Fixpoint defaultPorts (n : nat) (i top : Z) (m : gmap Z string) : gmap Z string :=
  match n with
  | O => m
  | S n' => defaultPorts n' (i + 1) (top + 1) (<[top := fmt_d (26657 - 3 * i)]> m)
  end.

Fixpoint listedPorts (l : list string) (top : Z) (m : gmap Z string) : gmap Z string :=
  match l with
  | [] => m
  | port :: rest => listedPorts rest (top + 1) (<[top := port]> m)
  end.

Definition parsePorts (s : string) (numValidators : Z) : gmap Z string :=
  if bool_decide (s = "") then defaultPorts (Z.to_nat numValidators) 0 0 ∅
  else listedPorts (Split s ",") 0 ∅.

Definition parseArgs (fs : FlagSet) : outcome initArgs :=
  let n := or_zero (GetInt fs flagNumValidators) in
  let? stakes := match GetString fs flagValidatorsStakeAmount with
                 | Ret s => parseStakes (Split s ",") 0 ∅
                 | _ => Ret ∅
                 end in
  let ports := match GetString fs flagPorts with Ret s => parsePorts s n | _ => ∅ end in
  Ret (mkInitArgs (or_empty (GetString fs FlagKeyType)) (or_empty (GetString fs FlagChainID))
         (or_empty (GetString fs FlagKeyringBackend)) (or_empty (GetString fs FlagMinGasPrices))
         (or_empty (GetString fs flagNodeDirPrefix)) n (or_empty (GetString fs flagOutputDir))
         (or_empty (GetString fs flagStartingIPAddress)) stakes ports).

(** ** Files *)

Definition writeFile (file dir contents : string) : M Disk unit :=
  do! (fun d => match MkdirAll dir d with
                | (d', Fail e) => (d', Fail (errWrap ("could not create directory " +:+ fmt_q dir) e))
                | r => r
                end) in
  WriteFile file contents.

(** [copyFile]; the number of bytes is what it returns. *)
Definition copyFile (src dstDir : string) : M Disk Z := fun d =>
  let source := resolve (cwd d) src in
  let dst := resolve (cwd d) (Join [dstDir; Base src]) in
  (do! read_at source in               (* os.Open *)
   do! write_at dst "" in              (* os.Create *)
   let! contents := gets (fun d => default "" (files d !! source)) in
   do! write_at dst contents in        (* io.Copy *)
   do! read_at dst in                  (* Sync *)
   ret (len contents)) d.

Definition isSubDir (cwd src dstDir : string) : bool :=
  let absSrc := Abs cwd src in
  let absDstDir := Abs cwd dstDir in
  let relativePath := Rel absDstDir absSrc in
  negb (HasPrefix relativePath "..") && negb (IsAbs relativePath).

Definition charset : string := "abcdefghijklmnopqrstuvwxyz0123456789".

(** [generateRandomString]: every byte is drawn from the charset; an index out
    of range would panic. *)
Fixpoint generateRandomString (length : nat) (draw : nat) : outcome string :=
  match length with
  | O => Ret ""
  | S length' =>
      match String.get (Z.to_nat (Intn draw (len charset))) charset with
      | Some c => let? rest := generateRandomString length' (S draw) in Ret (String c rest)
      | None => Panic "runtime error: index out of range"
      end
  end.

(** ** The directories of the nodes *)

(** What the loop over the nodes collects. *)
Record Collected := mkCollected {
  co_nodeIDs : list string; co_valPubKeys : list string; co_genAccounts : list string;
  co_genBalances : list Balance; co_genFiles : list string; co_persistentPeers : string;
  co_gentxsFiles : list string; co_nodeConfig : NodeConfig; co_appConfig : AppConfig }.

Definition nodeDirName (args : initArgs) (i : Z) : string := nodeDirPrefix args +:+ fmt_d i.
Definition nodeDir (args : initArgs) (i : Z) : string := Join [outputDir args; nodeDirName args i].
Definition gentxsDir (args : initArgs) (i : Z) : string :=
  Join [outputDir args; nodeDirName args i; "config"; "gentx"].

(** An error that also removes everything written so far. *)
Definition orRemoveAll {A} (dir : string) (m : M Disk A) : M Disk A :=
  let! r := try m in
  match r with
  | inl a => ret a
  | inr e => let! ignored := try (RemoveAll dir) in fail e
  end.

(** The [InitializeNodeValidatorFiles] half of an iteration: directories, node
    key, memo. *)
Definition startConfig (args : initArgs) (i : Z) (c : NodeConfig) : NodeConfig :=
  mkNodeConfig (nodeDir args i) (nodeDirName args i) ("tcp://0.0.0.0:" +:+ default "" (ports args !! i))
    (P2P_PersistentPeers c) (P2P_AllowDuplicateIP c) (P2P_ListenAddress c) (ProxyApp c)
    (PrometheusListenAddr c) (Prometheus c) (nc_rest c).

Definition memo (args : initArgs) (i : Z) (nodeID : string) : string :=
  nodeID +:+ "@" +:+ startingIPAddress args +:+ ":" +:+ fmt_d (26656 - 3 * i).

Definition addPeer (peers m : string) : string :=
  if bool_decide (peers = "") then m else peers +:+ "," +:+ m.

(** The genesis account and its coins. *)
Definition genesisCoins : outcome (list Coin) :=
  let? c1 := NewCoin "testtoken" (TokensFromConsensusPower 1000) in
  let? c2 := NewCoin DefaultBondDenom (TokensFromConsensusPower 500) in
  Ret (Coins_Sort [c1; c2]).

Definition validatorStake (args : initArgs) (i : Z) : outcome Coin :=
  match validatorsStakesAmount args !! i with
  | Some c => Ret c
  | None => NewCoin DefaultBondDenom (TokensFromConsensusPower 100)
  end.

(** [math.LegacyOneDec()], in units of 10^-18. *)
Definition oneDec : Z := 10 ^ 18.

(** The signed genesis transaction of node [i], as JSON. *)
Definition buildGentx (args : initArgs) (i : Z) (kb : Keyring) (addr pubKey memo : string) : M Disk string :=
  let! valTokens := lift (validatorStake args i) in
  let! createValMsg := lift (NewMsgCreateValidator
    (mkCreateValidator (ValAddress_Bech32 addr) pubKey valTokens (nodeDirName args i) oneDec oneDec oneDec 1)) in
  let! built := lift (SetMsgs createValMsg) in
  let! signed := Sign kb (chainID args) memo (nodeDirName args i) (SetMemo memo built) in
  lift (TxJSONEncoder signed).

Definition nodeAppConfig (args : initArgs) (i : Z) (a : AppConfig) : AppConfig :=
  mkAppConfig (MinGasPrices a) (API_Enable a) ("tcp://localhost:" +:+ fmt_d (1317 - i))
    (startingIPAddress args +:+ ":" +:+ fmt_d (9090 - 2 * i))
    (Telemetry_EnableHostnameLabel a) (Telemetry_Enabled a) (Telemetry_PrometheusRetentionTime a) (ac_rest a).

(** One iteration of the loop of [initTestnetFiles]. *)
Definition initNode (args : initArgs) (i : Z) (co : Collected) : M Disk Collected :=
  let cfg := startConfig args i (co_nodeConfig co) in
  do! orRemoveAll (outputDir args) (MkdirAll (Join [nodeDir args i; "config"])) in
  let! node := orRemoveAll (outputDir args) (InitializeNodeValidatorFiles cfg) in
  let memo := memo args i node.1 in
  let! kb := keyring_New (keyringBackend args) (nodeDir args i) in
  let! algo := lift (NewSigningAlgoFromString (algo args) kb) in
  let! key := orRemoveAll (outputDir args) (GenerateSaveCoinKey kb (nodeDirName args i) algo) in
  let! cliPrint := lift (Marshal_secret key.2) in
  do! writeFile (Join [nodeDir args i; "key_seed.json"]) (nodeDir args i) cliPrint in
  let! coins := lift genesisCoins in
  let! txBz := buildGentx args i kb key.1 node.2 memo in
  let file := Join [gentxsDir args i; "gentx-" +:+ node.1 +:+ ".json"] in
  do! writeFile file (gentxsDir args i) txBz in
  let appConfig := nodeAppConfig args i (co_appConfig co) in
  do! app_WriteConfigFile (Join [nodeDir args i; "config"; "app.toml"]) appConfig in
  ret (mkCollected (co_nodeIDs co ++ [node.1]) (co_valPubKeys co ++ [node.2])
         (co_genAccounts co ++ [NewBaseAccount key.1])
         (co_genBalances co ++ [mkBalance (AccAddress_Bech32 key.1) coins])
         (co_genFiles co ++ [GenesisFile cfg]) (addPeer (co_persistentPeers co) memo)
         (co_gentxsFiles co ++ [file]) cfg appConfig)%list.

Fixpoint initNodes (args : initArgs) (n : nat) (i : Z) (co : Collected) : M Disk Collected :=
  match n with
  | O => ret co
  | S n' => let! co' := initNode args i co in initNodes args n' (i + 1) co'
  end.

(** ** Genesis *)

Fixpoint saveAll (doc : GenesisDoc) (genFiles : list string) : M Disk unit :=
  match genFiles with
  | [] => ret tt
  | f :: rest => do! SaveAs doc f in saveAll doc rest
  end.

Definition totalSupply (supply : list Coin) (bals : list Balance) : list Coin :=
  fold_left (fun s b => Coins_Add s (bal_Coins b)) bals supply.

(** The application state with the accounts and balances of the nodes. *)
Definition genesisState (genAccounts : list string) (genBalances : list Balance) : outcome string :=
  let? auth := must (auth_Unmarshal (default "" (DefaultGenesis !! auth_ModuleName))) in
  let? accounts := PackAccounts genAccounts in
  let? authBz := must (auth_Marshal (mkAuthGenesis accounts (ag_rest auth))) in
  let state1 := <[auth_ModuleName := authBz]> DefaultGenesis in
  let? bank := must (bank_Unmarshal (default "" (state1 !! bank_ModuleName))) in
  let balances := SanitizeGenesisBalances genBalances in
  let? bankBz := must (bank_Marshal (mkBankGenesis balances (totalSupply (bg_Supply bank) balances) (bg_rest bank))) in
  MarshalIndent (<[bank_ModuleName := bankBz]> state1).

(** [initGenFiles] saves the document to the files of the [numValidators]
    nodes, which is all of them. *)
Definition initGenFiles (chainID : string) (genAccounts : list string) (genBalances : list Balance)
    (genFiles : list string) : M Disk unit :=
  let! appGenStateJSON := lift (genesisState genAccounts genBalances) in
  saveAll (mkGenesisDoc chainID appGenStateJSON) genFiles.

(** The inner loop: the genesis transactions of all nodes go to one node. *)
Fixpoint copyGentxs (gentxsFiles : list string) (dir : string) : M Disk unit :=
  match gentxsFiles with
  | [] => ret tt
  | file :: rest =>
      let! wd := gets cwd in
      do! (if isSubDir wd file dir then ret 0 else copyFile file dir) in
      copyGentxs rest dir
  end.

Fixpoint copyToNodes (args : initArgs) (gentxsFiles : list string) (n : nat) (i : Z) : M Disk unit :=
  match n with
  | O => ret tt
  | S n' =>
      do! copyGentxs gentxsFiles (Join [nodeDir args i; "config"; "gentx"]) in
      copyToNodes args gentxsFiles n' (i + 1)
  end.

(** The configuration a node ends up with. *)
Definition finalConfig (args : initArgs) (i : Z) (persistentPeers : string) (c : NodeConfig) : NodeConfig :=
  mkNodeConfig (RootDir c) (Moniker c) ("tcp://127.0.0.1:" +:+ default "" (ports args !! i))
    persistentPeers true ("tcp://0.0.0.0:" +:+ fmt_d (26656 - 3 * i))
    ("tcp://127.0.0.1:" +:+ fmt_d (26658 - 3 * i)) (":" +:+ fmt_d (26660 + i)) true (nc_rest c).

Definition setRoot (args : initArgs) (i : Z) (c : NodeConfig) : NodeConfig :=
  mkNodeConfig (nodeDir args i) (nodeDirName args i) (RPC_ListenAddress c)
    (P2P_PersistentPeers c) (P2P_AllowDuplicateIP c) (P2P_ListenAddress c) (ProxyApp c)
    (PrometheusListenAddr c) (Prometheus c) (nc_rest c).

(** One iteration of [collectGenFiles]; [appState] is [None] before the first. *)
Definition collectNode (args : initArgs) (persistentPeers : string) (genTime : Z) (i : Z)
    (nodeID valPubKey : string) (st : NodeConfig * option string) : M Disk (NodeConfig * option string) :=
  let cfg := setRoot args i st.1 in
  let! appGenesis := AppGenesisFromFile (GenesisFile cfg) in
  let! r := GenAppStateFromConfig cfg nodeID valPubKey (chainID args)
              (Join [nodeDir args i; "config"; "gentx"]) appGenesis in
  let cfg' := finalConfig args i persistentPeers r.1 in
  do! cmt_WriteConfigFile (Join [RootDir cfg'; "config"; "config.toml"]) cfg' in
  let appState := default r.2 st.2 in
  do! ExportGenesisFileWithTime (GenesisFile cfg') (chainID args) appState genTime in
  ret (cfg', Some appState).

Fixpoint collectNodes (args : initArgs) (persistentPeers : string) (genTime : Z) (i : Z)
    (nodes : list (string * string)) (st : NodeConfig * option string) : M Disk (NodeConfig * option string) :=
  match nodes with
  | [] => ret st
  | (nodeID, valPubKey) :: rest =>
      let! st' := collectNode args persistentPeers genTime i nodeID valPubKey st in
      collectNodes args persistentPeers genTime (i + 1) rest st'
  end.

(** [tmtime.Now()] is [genTime]. *)
Definition collectGenFiles (args : initArgs) (genTime : Z) (nodeConfig : NodeConfig)
    (nodeIDs valPubKeys : list string) (persistentPeers : string) : M Disk unit :=
  do! collectNodes args persistentPeers genTime 0 (zip nodeIDs valPubKeys) (nodeConfig, None) in
  ret tt.

(** ** initTestnetFiles *)

(** The application configuration before the loop: the flag is assigned first
    and the same field is assigned again. *)
Definition baseAppConfig (args : initArgs) : AppConfig :=
  let c0 := DefaultConfig in
  let c1 := mkAppConfig (minGasPrices args) (API_Enable c0) (API_Address c0) (GRPC_Address c0)
              (Telemetry_EnableHostnameLabel c0) (Telemetry_Enabled c0)
              (Telemetry_PrometheusRetentionTime c0) (ac_rest c0) in
  mkAppConfig ("0.0001" +:+ DefaultBondDenom) false (API_Address c1) (GRPC_Address c1)
    false false 0 (ac_rest c1).

Definition withChainID (args : initArgs) (id : string) : initArgs :=
  mkInitArgs (algo args) id (keyringBackend args) (minGasPrices args) (nodeDirPrefix args)
    (numValidators args) (outputDir args) (startingIPAddress args) (validatorsStakesAmount args) (ports args).

(** What follows the choice of the chain id. *)
Definition setupNodes (nodeConfig : NodeConfig) (genTime : Z) (args : initArgs) : M Disk unit :=
  if numValidators args <? 0 then panic "runtime error: makeslice: len out of range"
  else
    let n := Z.to_nat (numValidators args) in
    let! co := initNodes args n 0
                 (mkCollected [] [] [] [] [] "" [] nodeConfig (baseAppConfig args)) in
    do! initGenFiles (chainID args) (co_genAccounts co) (co_genBalances co) (co_genFiles co) in
    do! copyToNodes args (co_gentxsFiles co) n 0 in
    do! collectGenFiles args genTime (co_nodeConfig co) (co_nodeIDs co) (co_valPubKeys co)
          (co_persistentPeers co) in
    PrintErr ("Successfully initialized " +:+ fmt_d (numValidators args) +:+ " node directories").

Definition initTestnetFiles (nodeConfig : NodeConfig) (genTime : Z) (args : initArgs) : M Disk unit :=
  if bool_decide (chainID args = "") then
    let! r := lift (generateRandomString 6 0) in
    setupNodes nodeConfig genTime (withChainID args ("chain-" +:+ r))
  else setupNodes nodeConfig genTime args.

(** The command; [clientCtx] is [client.GetClientQueryContext(cmd)]. *)
Definition runMultiNode (clientCtx : outcome unit) (fs : FlagSet) (config : NodeConfig) (genTime : Z) : M Disk unit :=
  do! lift clientCtx in
  let! args := lift (parseArgs fs) in
  initTestnetFiles config genTime args.

End Testnet.

(** ** Laws of the libraries *)

(** Everything at a directory or below it. *)
Definition within (dir q : list string) : Prop := ∃ s, q = (s ++ dir)%list.

(** The writers write the file they are given; key generation stays in the
    directory of the node and returns a node id in hexadecimal; collecting a node's genesis transactions rewrites
    files of its [config] directory only. *)
Class TestnetLaws `{TestnetLib} := {
  genesis_text : string → string → Z → string;
  doc_text : GenesisDoc → string;
  config_text : NodeConfig → string;
  keyring_dir : Keyring → string;
  GenesisFile_path c : GenesisFile c = Join [RootDir c; "config"; "genesis.json"];
  Initialize_within c d d' o :
    InitializeNodeValidatorFiles c d = (d', o) → touches (within (resolve (cwd d) (RootDir c))) d d';
  Initialize_id c d d' id pk : InitializeNodeValidatorFiles c d = (d', Ret (id, pk)) → free slash id;
  keyring_New_within b dir d d' o :
    keyring_New b dir d = (d', o) →
    touches (within (resolve (cwd d) dir)) d d' ∧ ∀ kb, o = Ret kb → keyring_dir kb = dir;
  GenerateSaveCoinKey_within kb name alg d d' o :
    GenerateSaveCoinKey kb name alg d = (d', o) → touches (within (resolve (cwd d) (keyring_dir kb))) d d';
  Sign_within kb id m name b d d' o :
    Sign kb id m name b d = (d', o) → touches (within (resolve (cwd d) (keyring_dir kb))) d d';
  app_WriteConfigFile_writes p c d d' o :
    app_WriteConfigFile p c d = (d', o) → touches (eq (resolve (cwd d) p)) d d';
  SaveAs_writes doc f d d' :
    SaveAs doc f d = (d', Ret tt) → files d' = <[resolve (cwd d) f := doc_text doc]> (files d) ∧ cwd d' = cwd d;
  AppGenesisFromFile_reads f d d' o : AppGenesisFromFile f d = (d', o) → touches (fun _ => False) d d';
  GenAppState_within c id pk chain dir g d d' o :
    GenAppStateFromConfig c id pk chain dir g d = (d', o) →
    touches (fun q => ∃ f, q = f :: "config" :: resolve (cwd d) (RootDir c)) d d' ∧
    ∀ r, o = Ret r → RootDir r.1 = RootDir c;
  cmt_WriteConfigFile_writes p c d d' :
    cmt_WriteConfigFile p c d = (d', Ret tt) →
    files d' = <[resolve (cwd d) p := config_text c]> (files d) ∧ cwd d' = cwd d;
  Export_writes f id st t d d' :
    ExportGenesisFileWithTime f id st t d = (d', Ret tt) →
    files d' = <[resolve (cwd d) f := genesis_text id st t]> (files d) ∧ cwd d' = cwd d }.

(** ** Paths of the nodes *)

Section Paths.
Context (wd : string) (args : initArgs) (Hout : outputDir args ≠ "").

Definition nodePath (i : Z) : list string := resolve wd (nodeDir args i).

Lemma nodeDir_ne i : nodeDir args i ≠ "".
Proof. by apply Join_ne. Qed.

Lemma plain_config : plain_name "config".
Proof. split; [done|]. apply (bool_decide_unpack _). vm_compute. done. Qed.
Lemma plain_gentx : plain_name "gentx".
Proof. split; [done|]. apply (bool_decide_unpack _). vm_compute. done. Qed.

(** The directories of the nodes are siblings with different names. *)
Lemma nodePath_sibling :
  ∃ base l, ∀ i, 0 ≤ i → nodePath i = (l +:+ fmt_d i) :: base.
Proof.
  destruct (Split_app_last slash (nodeDirPrefix args)) as (front & l & Hs).
  exists (clean_from true (resolve wd (outputDir args)) front), l. intros i Hi.
  unfold nodePath, nodeDir. rewrite resolve_Join by done. cbn [fmap list_fmap concat]. rewrite app_nil_r.
  unfold nodeDirName. rewrite Hs, clean_from_app by (by apply fmt_d_free). cbn [clean_from fold_left].
  apply clean_step_normal, normal_app; [by apply fmt_d_ne|by apply fmt_d_free].
Qed.

Lemma nodePath_apart i j s t : is_u64 i → is_u64 j → length s = length t →
  (s ++ nodePath i)%list = (t ++ nodePath j)%list → i = j ∧ s = t.
Proof.
  intros Hi Hj Hl Heq. destruct nodePath_sibling as (base & l & Hp).
  apply app_inj_1 in Heq as [-> Heq]; [|done]. rewrite !Hp in Heq by (unfold is_u64 in *; lia).
  injection Heq as Heq. split; [|done]. apply fmt_d_inj; [done..|]. by eapply string_app_inj_l.
Qed.

Lemma within_apart i j s : is_u64 i → is_u64 j → i ≠ j → ¬ within (nodePath i) (s ++ nodePath j).
Proof.
  intros Hi Hj Hne (t & Heq). destruct nodePath_sibling as (base & l & Hp).
  assert (length s = length t).
  { apply (f_equal length) in Heq. rewrite !length_app, !Hp in Heq by (unfold is_u64 in *; lia). cbn in Heq. lia. }
  by apply nodePath_apart in Heq as [? _].
Qed.

Lemma gentxsDir_path i : resolve wd (gentxsDir args i) = "gentx" :: "config" :: nodePath i.
Proof.
  unfold gentxsDir, nodePath, nodeDir. rewrite !resolve_Join by done. cbn [fmap list_fmap concat].
  rewrite !app_nil_r, clean_from_app.
  change (Split "config" slash ++ Split "gentx" slash)%list with ["config"; "gentx"]. done.
Qed.

Lemma inNode_path i rest :
  Forall plain_name rest → resolve wd (Join (nodeDir args i :: rest)) = (reverse rest ++ nodePath i)%list.
Proof. intros. apply resolve_Join_plain; [apply nodeDir_ne|done]. Qed.

End Paths.

(** ** What each phase leaves on disk *)

Section Phases.
Context `{TestnetLaws} (args : initArgs) (Hout : outputDir args ≠ "").

Definition gentxName (id : string) : string := "gentx-" +:+ id +:+ ".json".
Definition gentxFile (i : Z) (id : string) : string := Join [gentxsDir args i; gentxName id].

(** An id that can be part of a file name. *)
Lemma plain_gentxName id : free slash id → plain_name (gentxName id).
Proof.
  intros Hid. unfold gentxName. split; [by split_and!|]. unfold free in *.
  rewrite !bytes_of_app, !not_elem_of_app. split_and!; [|done|]; apply (bool_decide_unpack _); vm_compute; done.
Qed.

Lemma gentxFile_path wd i id :
  free slash id → resolve wd (gentxFile i id) = gentxName id :: "gentx" :: "config" :: nodePath wd args i.
Proof.
  intros Hid. unfold gentxFile. rewrite resolve_Join_plain, gentxsDir_path; [done|done|by apply Join_ne|].
  by repeat constructor; apply plain_gentxName.
Qed.

Lemma orRemoveAll_ret {A} dir (m : M Disk A) d d' a :
  orRemoveAll dir m d = (d', Ret a) → m d = (d', Ret a).
Proof.
  unfold orRemoveAll, bindM, try. destruct (m d) as [d1 [b|e|t|]]; try done.
  destruct (RemoveAll dir d1) as [d2 [b|e'|t|]]; done.
Qed.

Lemma lift_ret {W A} (o : outcome A) (w w' : W) a : lift o w = (w', Ret a) → w' = w ∧ o = Ret a.
Proof. by intros [= <- ->]. Qed.

Lemma WriteFile_touches d p c d' o :
  WriteFile p c d = (d', o) → touches (eq (resolve (cwd d) p)) d d'.
Proof. intros Hw. by apply (write_at_touches (eq (resolve (cwd d) p))) in Hw. Qed.

Lemma writeFile_ret file dir c d d' :
  writeFile file dir c d = (d', Ret tt) →
  touches (eq (resolve (cwd d) file)) d d' ∧ files d' !! resolve (cwd d) file = Some c.
Proof.
  unfold writeFile. intros Hw. apply bindM_ret in Hw as (d1 & [] & H1 & Hw).
  assert (Ht : touches (fun _ => False) d d1).
  { destruct (MkdirAll dir d) as [d2 o] eqn:Hm. apply MkdirAll_touches with (P := fun _ => False) in Hm.
    by destruct o; simplify_eq. }
  destruct Ht as [Hc Ht]. split.
  - apply WriteFile_touches in Hw. rewrite Hc in Hw. etrans; [|exact Hw]. split; [done|]. auto.
  - apply write_at_ret in Hw as [-> _]. rewrite Hc. by rewrite lookup_insert_eq.
Qed.

(** Nothing outside the node's directory is written. *)
Lemma buildGentx_within i kb addr pk m d d' o :
  buildGentx args i kb addr pk m d = (d', o) → touches (within (resolve (cwd d) (keyring_dir kb))) d d'.
Proof.
  unfold buildGentx, bindM, lift. intros Hb. repeat (case_match; simplify_eq; try by split).
  all: match goal with Hs : Sign _ _ _ _ _ _ = _ |- _ => by apply Sign_within in Hs end.
Qed.

Lemma touches_trans (P : list string → Prop) d1 d2 d3 :
  touches P d1 d2 → touches P d2 d3 → touches P d1 d3.
Proof. intros. by etrans. Qed.

Lemma touches_cwd P d d' : touches P d d' → cwd d' = cwd d.
Proof. by intros [? _]. Qed.

Lemma nodePath_within wd i rest : within (nodePath wd args i) (rest ++ nodePath wd args i).
Proof. by exists rest. Qed.
#[local] Hint Resolve nodePath_within : core.

Lemma touches_in_node wd i rest d d' :
  touches (eq (rest ++ nodePath wd args i)%list) d d' → touches (within (nodePath wd args i)) d d'.
Proof. apply touches_mono. by intros q <-. Qed.

Lemma RootDir_startConfig i c : RootDir (startConfig args i c) = nodeDir args i.
Proof. done. Qed.

Lemma plain_app_toml : plain_name "app.toml".
Proof. split; [done|]. apply (bool_decide_unpack _). vm_compute. done. Qed.
Lemma plain_key_seed : plain_name "key_seed.json".
Proof. split; [done|]. apply (bool_decide_unpack _). vm_compute. done. Qed.
Lemma plain_genesis : plain_name "genesis.json".
Proof. split; [done|]. apply (bool_decide_unpack _). vm_compute. done. Qed.
Lemma plain_config_toml : plain_name "config.toml".
Proof. split; [done|]. apply (bool_decide_unpack _). vm_compute. done. Qed.
#[local] Hint Resolve plain_app_toml plain_key_seed plain_genesis plain_config_toml plain_config plain_gentx : core.

(** What an iteration makes: the id and the public key of the node, the
    address of its account and its genesis transaction. *)
Record Node := mkNode { n_id : string; n_pubKey : string; n_addr : string; n_tx : string }.

(** Node [i] is made by the libraries: its keys for its directory and name, its
    transaction for those keys and the account, with its own peer address. *)
Definition nodeMade (i : Z) (n : Node) : Prop :=
  (∃ c e e', RootDir c = nodeDir args i ∧ Moniker c = nodeDirName args i ∧
     InitializeNodeValidatorFiles c e = (e', Ret (n_id n, n_pubKey n))) ∧
  (∃ kb alg secret e e', GenerateSaveCoinKey kb (nodeDirName args i) alg e = (e', Ret (n_addr n, secret))) ∧
  ∃ kb e e', buildGentx args i kb (n_addr n) (n_pubKey n) (memo args i (n_id n)) e = (e', Ret (n_tx n)).

(** What the loop has collected after the nodes [l]. *)
Definition collectedNodes (l : list Node) (co co' : Collected) : Prop :=
  co_nodeIDs co' = (co_nodeIDs co ++ (n_id <$> l))%list ∧
  co_valPubKeys co' = (co_valPubKeys co ++ (n_pubKey <$> l))%list ∧
  co_genAccounts co' = (co_genAccounts co ++ (NewBaseAccount ∘ n_addr <$> l))%list ∧
  bal_Address <$> co_genBalances co' = ((bal_Address <$> co_genBalances co) ++ (AccAddress_Bech32 ∘ n_addr <$> l))%list.

(** One node: everything stays in its directory; and what is collected. *)
Lemma initNode_ret i co co' d d' :
  initNode args i co d = (d', Ret co') →
  ∃ n, nodeMade i n ∧ free slash (n_id n) ∧ collectedNodes [n] co co' ∧
    co_gentxsFiles co' = (co_gentxsFiles co ++ [gentxFile i (n_id n)])%list ∧
    co_genFiles co' = (co_genFiles co ++ [Join [nodeDir args i; "config"; "genesis.json"]])%list ∧
    co_persistentPeers co' = addPeer (co_persistentPeers co) (memo args i (n_id n)) ∧
    touches (within (nodePath (cwd d) args i)) d d' ∧
    files d' !! resolve (cwd d) (gentxFile i (n_id n)) = Some (n_tx n).
Proof.
  unfold initNode. intros Hn.
  apply bindM_ret in Hn as (d1 & [] & H1 & Hn). apply orRemoveAll_ret in H1.
  apply bindM_ret in Hn as (d2 & [id pk] & H2 & Hn). apply orRemoveAll_ret in H2.
  apply bindM_ret in Hn as (d3 & kb & H3 & Hn).
  apply bindM_ret in Hn as (? & al & [-> _]%lift_ret & Hn).
  apply bindM_ret in Hn as (d4 & [addr sec] & H4 & Hn). apply orRemoveAll_ret in H4.
  apply bindM_ret in Hn as (? & bz & [-> _]%lift_ret & Hn).
  apply bindM_ret in Hn as (d5 & [] & H5 & Hn).
  apply bindM_ret in Hn as (? & coins & [-> _]%lift_ret & Hn).
  apply bindM_ret in Hn as (d6 & tx & H6 & Hn). cbn [fst snd] in *.
  apply bindM_ret in Hn as (d7 & [] & H7 & Hn).
  apply bindM_ret in Hn as (d8 & [] & H8 & Hn). injection Hn as <- <-.
  pose proof (Initialize_id _ _ _ _ _ H2) as Hid.
  exists (mkNode id pk addr tx). cbn -[resolve gentxFile nodeMade collectedNodes].
  rewrite GenesisFile_path. split.
  { split_and!; [by exists (startConfig args i (co_nodeConfig co)), d1, d2|by exists kb, al, sec, d3, d4|by exists kb, d5, d6]. }
  split; [done|]. split; [by split_and!; cbn; rewrite ?fmap_app|]. do 3 (split; [done|]).
  change (Join [gentxsDir args i; "gentx-" +:+ id +:+ ".json"]) with (gentxFile i id) in H7.
  apply MkdirAll_touches with (P := within (nodePath (cwd d) args i)) in H1.
  pose proof (touches_cwd _ _ _ H1) as C1.
  apply Initialize_within in H2. rewrite RootDir_startConfig, C1 in H2.
  pose proof (touches_cwd _ _ _ H2) as C2.
  apply keyring_New_within in H3 as [H3 Hkb]. rewrite C2, C1 in H3. specialize (Hkb _ eq_refl).
  pose proof (touches_cwd _ _ _ H3) as C3.
  apply GenerateSaveCoinKey_within in H4. rewrite Hkb, C3, C2, C1 in H4.
  pose proof (touches_cwd _ _ _ H4) as C4.
  apply writeFile_ret in H5 as [H5 _]. rewrite C4, C3, C2, C1, inNode_path in H5 by auto.
  pose proof (touches_cwd _ _ _ H5) as C5.
  apply buildGentx_within in H6. rewrite Hkb, C5, C4, C3, C2, C1 in H6.
  pose proof (touches_cwd _ _ _ H6) as C6.
  apply writeFile_ret in H7 as [H7 Hfile]. rewrite C6, C5, C4, C3, C2, C1 in H7, Hfile.
  pose proof (touches_cwd _ _ _ H7) as C7.
  apply app_WriteConfigFile_writes in H8. rewrite C7, C6, C5, C4, C3, C2, C1, inNode_path in H8 by auto.
  rewrite gentxFile_path in * by done. split.
  - apply touches_in_node in H5, H8. apply (touches_in_node _ _ [_; _; _]) in H7.
    do 7 (eapply touches_trans; [eassumption|]). done.
  - destruct H8 as [_ H8]. rewrite H8; [done|]. by intros [=].
Qed.

(** [f(i, ids[0]), f(i+1, ids[1]), ...] *)
Fixpoint fromIndex {A} (f : Z → string → A) (i : Z) (ids : list string) : list A :=
  match ids with [] => [] | id :: rest => f i id :: fromIndex f (i + 1) rest end.

Lemma fromIndex_lookup {A} (f : Z → string → A) i ids k :
  fromIndex f i ids !! k = f (i + Z.of_nat k) <$> (ids !! k).
Proof.
  revert i k. induction ids as [|id ids IH]; intros i [|k]; cbn; [done|done| |].
  - by rewrite Z.add_0_r.
  - rewrite IH. f_equal. f_equal. lia.
Qed.

Definition inNodes (wd : string) (i : Z) (n : nat) (q : list string) : Prop :=
  ∃ k, i ≤ k < i + Z.of_nat n ∧ within (nodePath wd args k) q.

Lemma inNodes_apart wd i n k s :
  0 ≤ i → i + Z.of_nat n ≤ 2 ^ 63 → is_u64 k → (k < i ∨ i + Z.of_nat n ≤ k) →
  ¬ inNodes wd i n (s ++ nodePath wd args k)%list.
Proof.
  intros Hi Hn Hk Hout' (j & Hj & Hw). apply within_apart in Hw; [done|done| |done|lia].
  unfold is_u64 in *. lia.
Qed.

Lemma initNodes_ret n i co co' d d' :
  initNodes args n i co d = (d', Ret co') →
  ∃ l, length l = n ∧ Forall (fun x => free slash (n_id x)) l ∧ collectedNodes l co co' ∧
    (∀ k x, l !! k = Some x → nodeMade (i + Z.of_nat k) x) ∧
    co_gentxsFiles co' = (co_gentxsFiles co ++ fromIndex gentxFile i (n_id <$> l))%list ∧
    co_genFiles co' = (co_genFiles co ++
      fromIndex (fun k _ => Join [nodeDir args k; "config"; "genesis.json"]) i (n_id <$> l))%list ∧
    co_persistentPeers co' = fold_left addPeer (fromIndex (memo args) i (n_id <$> l)) (co_persistentPeers co) ∧
    (0 ≤ i → i + Z.of_nat n ≤ 2 ^ 63 →
       touches (inNodes (cwd d) i n) d d' ∧
       ∀ k x, l !! k = Some x →
         files d' !! resolve (cwd d) (gentxFile (i + Z.of_nat k) (n_id x)) = Some (n_tx x)).
Proof.
  revert i co d. induction n as [|n IH]; intros i co d Hr.
  - injection Hr as <- <-. exists []. unfold collectedNodes. cbn. rewrite !app_nil_r. by split_and!.
  - apply bindM_ret in Hr as (d1 & co1 & H1 & Hr).
    apply initNode_ret in H1 as (x & Hx & Hid & (A1 & A2 & A3 & A4) & E3 & E4 & E5 & Ht & Hf).
    apply IH in Hr as (l & L & Hids & (B1 & B2 & B3 & B4) & Hl & F3 & F4 & F5 & Hrest).
    exists (x :: l). unfold collectedNodes. rewrite !fmap_cons. cbn [length fromIndex fold_left].
    rewrite F3, F4, F5, E3, E4, E5, B1, B2, B3, B4, A1, A2, A3, A4, <-!app_assoc.
    split_and!; [congruence|by constructor|done..| |done|done|done|].
    + intros [|k] y Hy; cbn in Hy; simplify_eq; [by rewrite Z.add_0_r|].
      replace (i + Z.of_nat (S k)) with (i + 1 + Z.of_nat k) by lia. auto.
    + intros Hi Hn. pose proof (touches_cwd _ _ _ Ht) as Hc.
      destruct Hrest as [Ht' Hf']; [lia|lia|]. rewrite Hc in Ht', Hf'. split.
      * eapply touches_trans; (eapply touches_mono; [|eassumption]).
        -- intros q Hq. exists i. split; [lia|done].
        -- intros q (k & Hk & Hq). exists k. split; [lia|done].
      * intros [|k] y Hy; cbn in Hy; simplify_eq.
        -- rewrite Z.add_0_r. destruct Ht' as [_ Ht']. rewrite Ht'; [done|].
           rewrite gentxFile_path by done. apply (inNodes_apart _ _ _ i [_; _; _]); [lia|lia|unfold is_u64; lia|lia].
        -- replace (i + Z.of_nat (S k)) with (i + 1 + Z.of_nat k) by lia. auto.
Qed.

(** The documents that are saved. *)
Lemma saveAll_ret doc fs d d' :
  saveAll doc fs d = (d', Ret tt) →
  touches (fun q => ∃ f, f ∈ fs ∧ q = resolve (cwd d) f) d d' ∧
  ∀ f, f ∈ fs → files d' !! resolve (cwd d) f = Some (doc_text doc).
Proof.
  revert d. induction fs as [|f fs IH]; intros d Hs; [injection Hs as <-; split; [done|intros f Hf; by apply elem_of_nil in Hf]|].
  apply bindM_ret in Hs as (d1 & [] & [F1 C1]%SaveAs_writes & Hs). apply IH in Hs as [Hs Hin]. rewrite C1 in *. split.
  - destruct Hs as [C2 Hs]. split; [congruence|]. intros q Hq. rewrite Hs.
    + rewrite F1, lookup_insert_ne; [done|]. intros <-. apply Hq. exists f. split; [left|done].
    + intros (f' & Hf & ->). apply Hq. exists f'. split; [by right|done].
  - intros g Hg. destruct (decide (resolve (cwd d) g ∈ (resolve (cwd d) <$> fs))) as [Hi|Hi].
    + apply list_elem_of_fmap in Hi as (g' & -> & Hg'). auto.
    + apply elem_of_cons in Hg as [->|Hg]; [|by destruct Hi; apply list_elem_of_fmap_2].
      destruct Hs as [_ Hs]. rewrite Hs, F1, lookup_insert_eq; [done|]. intros (f' & Hf & Heq).
      apply Hi. rewrite Heq. by apply list_elem_of_fmap_2.
Qed.

(** *** Copying the genesis transactions *)

Lemma isSubDir_gentx wd i j id :
  wd ≠ "" → is_u64 i → is_u64 j → free slash id →
  isSubDir wd (gentxFile j id) (Join [nodeDir args i; "config"; "gentx"]) = bool_decide (i = j).
Proof.
  intros Hwd Hi Hj Hid. unfold isSubDir, Rel. rewrite !abs_components_Abs by done.
  rewrite gentxFile_path, inNode_path by auto. change (reverse ["config"; "gentx"]) with ["gentx"; "config"].
  destruct (nodePath_sibling wd args Hout) as (base & l & Hp).
  rewrite !Hp by (unfold is_u64 in *; lia). cbn [app]. rewrite !reverse_cons, <-!app_assoc. cbn [app].
  rewrite rel_components_prefix. case_bool_decide as Hij.
  - subst j. cbn [rel_components]. rewrite !bool_decide_eq_true_2 by done. done.
  - cbn [rel_components]. rewrite bool_decide_eq_false_2; [done|]. intros Heq. apply Hij.
    apply fmt_d_inj; [done..|]. by eapply string_app_inj_l.
Qed.

Lemma copyFile_ret src dir d d' n :
  copyFile src dir d = (d', Ret n) →
  let dst := resolve (cwd d) (Join [dir; Base src]) in
  dst ≠ resolve (cwd d) src →
  ∃ c, files d !! resolve (cwd d) src = Some c ∧ files d' = <[dst := c]> (files d) ∧ cwd d' = cwd d.
Proof.
  unfold copyFile. cbv zeta. intros Hc Hne. set (dst := resolve (cwd d) (Join [dir; Base src])) in *.
  apply bindM_ret in Hc as (d1 & c0 & [Hs [F1 C1]]%read_at_ret & Hc).
  apply bindM_ret in Hc as (d2 & [] & [F2 C2]%write_at_ret & Hc).
  apply bindM_ret in Hc as (d3 & c & H3 & Hc). injection H3 as <- <-.
  apply bindM_ret in Hc as (d4 & [] & [F4 C4]%write_at_ret & Hc).
  apply bindM_ret in Hc as (d5 & c5 & [_ [F5 C5]]%read_at_ret & Hc). injection Hc as <- _.
  exists c0. split; [done|]. rewrite F5, F4, F2, F1, lookup_insert_ne, Hs, insert_insert_eq by done.
  split; [done|congruence].
Qed.

Lemma gentxFile_inj wd i i' id id' :
  is_u64 i → is_u64 i' → free slash id → free slash id' →
  resolve wd (gentxFile i id) = resolve wd (gentxFile i' id') → i = i' ∧ id = id'.
Proof.
  intros Hi Hi' Hid Hid' Heq. rewrite !gentxFile_path in Heq by done.
  apply (nodePath_apart _ _ Hout _ _ [_; _; _] [_; _; _]) in Heq as [-> [= Heq]]; [|done..].
  split; [done|]. exact (string_app_inj_r id id' _ Heq).
Qed.

Lemma copy_destination wd i j id :
  free slash id →
  resolve wd (Join [Join [nodeDir args i; "config"; "gentx"]; Base (gentxFile j id)]) = resolve wd (gentxFile i id).
Proof.
  intros Hid. unfold gentxFile at 1. rewrite Base_Join by (try apply plain_gentxName; try apply Join_ne; done).
  rewrite gentxFile_path, resolve_Join_plain, inNode_path; auto.
  - by apply Join_ne, Join_ne.
  - repeat constructor; by apply plain_gentxName.
Qed.

(** The inner loop leaves every listed transaction in the directory of node
    [i] and changes nothing else. *)
Lemma copyGentxs_ret i ids j d d' :
  cwd d ≠ "" → is_u64 i → 0 ≤ j → j + Z.of_nat (length ids) ≤ 2 ^ 63 →
  Forall (free slash) ids → NoDup ids →
  copyGentxs (fromIndex gentxFile j ids) (Join [nodeDir args i; "config"; "gentx"]) d = (d', Ret tt) →
  touches (fun q => ∃ id, id ∈ ids ∧ q = resolve (cwd d) (gentxFile i id)) d d' ∧
  ∀ k id, ids !! k = Some id →
    files d' !! resolve (cwd d) (gentxFile i id) = files d !! resolve (cwd d) (gentxFile (j + Z.of_nat k) id).
Proof.
  intros Hwd Hi. revert j d Hwd. induction ids as [|id ids IH]; intros j d Hwd Hj Hl Hf Hnd Hc.
  { injection Hc as <-. by split. }
  apply Forall_cons in Hf as [Hid Hf]. apply NoDup_cons in Hnd as [Hnid Hnd]. cbn [length] in Hl.
  assert (Hju : is_u64 j) by (unfold is_u64; lia).
  cbn [fromIndex copyGentxs] in Hc.
  apply bindM_ret in Hc as (d0 & wd & E0 & Hc). injection E0 as <- <-.
  apply bindM_ret in Hc as (d1 & nb & E1 & Hc). rewrite isSubDir_gentx in E1 by done.
  assert (Hstep : cwd d1 = cwd d ∧ (∀ q, q ≠ resolve (cwd d) (gentxFile i id) → files d1 !! q = files d !! q) ∧
            files d1 !! resolve (cwd d) (gentxFile i id) = files d !! resolve (cwd d) (gentxFile j id)).
  { case_bool_decide as Hij; [by injection E1 as <- _; subst|].
    apply copyFile_ret in E1 as (c & Hs & F1 & C1); rewrite copy_destination in * by done.
    - rewrite F1, lookup_insert_eq, Hs. split_and!; try done. intros q Hq. by rewrite lookup_insert_ne.
    - intros Heq. by apply gentxFile_inj in Heq as [? _]. }
  destruct Hstep as (C1 & Fo & Fi).
  destruct (IH (j + 1) d1) as [Ht Hk]; [by rewrite C1|lia|lia|done|done|done|]. rewrite C1 in Ht, Hk. split.
  - destruct Ht as [Hc1 Ht]. split; [congruence|]. intros q Hq. rewrite Ht, Fo; [done| |].
    + intros ->. apply Hq. exists id. split; [left|done].
    + intros (id' & Hin & ->). apply Hq. exists id'. split; [by right|done].
  - intros [|k] id' Hlk; cbn in Hlk; simplify_eq.
    + rewrite Z.add_0_r. destruct Ht as [_ Ht]. rewrite Ht; [done|]. intros (id1 & Hin & Heq).
      apply gentxFile_inj in Heq as [_ <-]; try done. by eapply (Forall_forall (free slash)).
    + pose proof (list_elem_of_lookup_2 _ _ _ Hlk) as Hin.
      assert (free slash id') by by eapply (Forall_forall (free slash)).
      assert (k < length ids)%nat by by eapply lookup_lt_Some.
      rewrite (Hk k id' Hlk). replace (j + Z.of_nat (S k)) with (j + 1 + Z.of_nat k) by lia. apply Fo.
      intros Heq. apply gentxFile_inj in Heq as [_ ->]; [done| |done..]. unfold is_u64. lia.
Qed.

(** The outer loop: every transaction reaches every node. *)
Lemma copyToNodes_ret ids n i d d' :
  cwd d ≠ "" → 0 ≤ i → i + Z.of_nat n ≤ 2 ^ 63 → Z.of_nat (length ids) ≤ 2 ^ 63 →
  Forall (free slash) ids → NoDup ids →
  copyToNodes args (fromIndex gentxFile 0 ids) n i d = (d', Ret tt) →
  touches (fun q => ∃ i' id, i ≤ i' < i + Z.of_nat n ∧ id ∈ ids ∧ q = resolve (cwd d) (gentxFile i' id)) d d' ∧
  ∀ i' k id, i ≤ i' < i + Z.of_nat n → ids !! k = Some id →
    files d' !! resolve (cwd d) (gentxFile i' id) = files d !! resolve (cwd d) (gentxFile (Z.of_nat k) id).
Proof.
  intros Hwd Hi Hn Hl Hf Hnd. revert i d Hwd Hi Hn. induction n as [|n IH]; intros i d Hwd Hi Hn Hc.
  { injection Hc as <-. split; [done|]. lia. }
  apply bindM_ret in Hc as (d1 & [] & E1 & Hc).
  apply copyGentxs_ret in E1 as [T1 F1]; [|done|unfold is_u64; lia|lia|lia|done|done].
  pose proof (touches_cwd _ _ _ T1) as C1.
  apply IH in Hc as [T2 F2]; [|by rewrite C1|lia|lia]. rewrite C1 in T2, F2.
  assert (Hin : ∀ k id, ids !! k = Some id → free slash id ∧ (k < length ids)%nat ∧ id ∈ ids).
  { intros k id Hk. pose proof (list_elem_of_lookup_2 _ _ _ Hk). split_and!;
      [by eapply (Forall_forall (free slash))|by eapply lookup_lt_Some|done]. }
  split.
  - eapply touches_trans; (eapply touches_mono; [|eassumption]).
    + intros q (id & Hid & ->). exists i, id. split_and!; [lia..|done|done].
    + intros q (i' & id & Hi' & Hid & ->). exists i', id. split_and!; [lia..|done|done].
  - intros i' k id Hi' Hk. destruct (Hin k id Hk) as (Hfree & Hlt & Hel).
    destruct (decide (i' = i)) as [->|Hne].
    + destruct T2 as [_ T2]. rewrite T2; [by apply (F1 k)|]. intros (i1 & id1 & Hi1 & Hid1 & Heq).
      apply gentxFile_inj in Heq as [? _]; [lia|unfold is_u64; lia..|done|by eapply (Forall_forall (free slash))].
    + rewrite (F2 i' k id) by (lia || done). destruct (decide (Z.of_nat k = i)) as [<-|Hki]; [by apply (F1 k)|].
      destruct T1 as [_ T1]. apply T1. intros (id1 & Hid1 & Heq).
      apply gentxFile_inj in Heq as [? _]; [lia|unfold is_u64; lia..|done|by eapply (Forall_forall (free slash))].
Qed.

(** *** Collecting *)

Definition genesisPath (i : Z) : string := Join [nodeDir args i; "config"; "genesis.json"].
Definition configPath (i : Z) : string := Join [nodeDir args i; "config"; "config.toml"].

Lemma genesisPath_key wd i : resolve wd (genesisPath i) = "genesis.json" :: "config" :: nodePath wd args i.
Proof. unfold genesisPath. by rewrite inNode_path by auto. Qed.
Lemma configPath_key wd i : resolve wd (configPath i) = "config.toml" :: "config" :: nodePath wd args i.
Proof. unfold configPath. by rewrite inNode_path by auto. Qed.

(** What node [i] has at the end: the shared genesis and its configuration. *)
Definition nodeReady (wd peers appState : string) (genTime i : Z) (d : Disk) : Prop :=
  files d !! resolve wd (genesisPath i) = Some (genesis_text (chainID args) appState genTime) ∧
  ∃ c, files d !! resolve wd (configPath i) = Some (config_text c) ∧
    RootDir c = nodeDir args i ∧ P2P_PersistentPeers c = peers ∧
    P2P_ListenAddress c = "tcp://0.0.0.0:" +:+ fmt_d (26656 - 3 * i) ∧
    RPC_ListenAddress c = "tcp://127.0.0.1:" +:+ default "" (ports args !! i) ∧
    ProxyApp c = "tcp://127.0.0.1:" +:+ fmt_d (26658 - 3 * i) ∧
    PrometheusListenAddr c = ":" +:+ fmt_d (26660 + i).

Definition inConfig (wd : string) (i : Z) (n : nat) (q : list string) : Prop :=
  ∃ k f, i ≤ k < i + Z.of_nat n ∧ q = f :: "config" :: nodePath wd args k.

(** [appState] is what the SDK collects for node [i], from the genesis document
    and the genesis transactions the node has on the disk [d]. *)
Definition stateCollected (i : Z) (id pk appState : string) (d : Disk) : Prop :=
  ∃ c g e e' r, RootDir c = nodeDir args i ∧ AppGenesisFromFile (genesisPath i) d = (e, Ret g) ∧
    GenAppStateFromConfig c id pk (chainID args) (Join [nodeDir args i; "config"; "gentx"]) g e = (e', Ret (r, appState)).

Lemma collectNode_ret peers t i id pk st st' d d' :
  collectNode args peers t i id pk st d = (d', Ret st') →
  ∃ a, st'.2 = Some a ∧ (∀ a0, st.2 = Some a0 → a = a0) ∧ (st.2 = None → stateCollected i id pk a d) ∧
    touches (inConfig (cwd d) i 1) d d' ∧ nodeReady (cwd d) peers a t i d'.
Proof.
  unfold collectNode. intros Hc.
  apply bindM_ret in Hc as (d1 & g & E1 & Hc). pose proof E1 as E1'. apply AppGenesisFromFile_reads in E1.
  pose proof (touches_cwd _ _ _ E1) as C1.
  apply bindM_ret in Hc as (d2 & [c0 s0] & E2 & Hc). pose proof E2 as E2'. apply GenAppState_within in E2 as [E2 R2].
  specialize (R2 _ eq_refl). cbn in R2. rewrite C1 in E2. pose proof (touches_cwd _ _ _ E2) as C2.
  apply bindM_ret in Hc as (d3 & [] & [F3 C3]%cmt_WriteConfigFile_writes & Hc). cbn [RootDir finalConfig fst snd] in *.
  apply bindM_ret in Hc as (d4 & [] & [F4 C4]%Export_writes & Hc). injection Hc as <- <-.
  rewrite GenesisFile_path in F4. cbn [RootDir finalConfig] in F4.
  rewrite R2, ?C3, ?C2, ?C1 in *. fold (configPath i) in F3. fold (genesisPath i) in F4.
  exists (default s0 st.2). split; [done|]. split; [by intros a0 ->|]. split.
  { intros ->. rewrite GenesisFile_path in E1'. by exists (setRoot args i st.1), g, d1, d2, c0. }
  rewrite F3 in F4. split.
  - split; [congruence|]. intros q Hq.
    assert (Hq' : ∀ f, q ≠ f :: "config" :: nodePath (cwd d) args i).
    { intros f ->. apply Hq. exists i, f. split; [lia|done]. }
    rewrite F4, genesisPath_key, configPath_key, !lookup_insert_ne by (intros <-; by eapply Hq').
    destruct E2 as [_ E2], E1 as [_ E1]. rewrite E2, E1; [done|by intros []|]. intros (f & ->). by eapply Hq'.
  - unfold nodeReady. rewrite F4. split; [by rewrite lookup_insert_eq|].
    exists (finalConfig args i peers c0). cbn [RootDir finalConfig P2P_PersistentPeers P2P_ListenAddress
      RPC_ListenAddress ProxyApp PrometheusListenAddr].
    rewrite lookup_insert_ne, lookup_insert_eq by (rewrite genesisPath_key, configPath_key; by intros [=]).
    by split_and!.
Qed.

Lemma nodeReady_frame wd peers a t i j n d d' :
  is_u64 i → 0 ≤ j → j + Z.of_nat n ≤ 2 ^ 63 → (i < j ∨ j + Z.of_nat n ≤ i) →
  touches (inConfig wd j n) d d' → nodeReady wd peers a t i d → nodeReady wd peers a t i d'.
Proof.
  intros Hi Hj Hn Hij [_ Ht] [Hg (c & Hc & Hrest)].
  assert (Hnot : ∀ f, ¬ inConfig wd j n (f :: "config" :: nodePath wd args i)).
  { intros f (k & f' & Hk & Heq).
    apply (nodePath_apart _ _ Hout _ _ [_; _] [_; _]) in Heq as [-> _]; [lia|done|unfold is_u64 in *; lia|done]. }
  split.
  - rewrite Ht; [done|]. rewrite genesisPath_key. apply Hnot.
  - exists c. split; [|done]. rewrite Ht; [done|]. rewrite configPath_key. apply Hnot.
Qed.

Lemma collectNodes_ret peers t i nodes st st' d d' :
  0 ≤ i → i + Z.of_nat (length nodes) ≤ 2 ^ 63 →
  collectNodes args peers t i nodes st d = (d', Ret st') →
  touches (inConfig (cwd d) i (length nodes)) d d' ∧
  ∃ a, (∀ a0, st.2 = Some a0 → a = a0) ∧
    (st.2 = None → ∀ id pk, nodes !! 0%nat = Some (id, pk) → stateCollected i id pk a d) ∧
    ∀ k, i ≤ k < i + Z.of_nat (length nodes) → nodeReady (cwd d) peers a t k d'.
Proof.
  revert i st d. induction nodes as [|[id pk] nodes IH]; intros i st d Hi Hn Hc.
  { injection Hc as <- <-. split; [done|]. exists (default "" st.2). split; [by intros a0 ->|]. split; [done|]. cbn. lia. }
  cbn [length] in Hn. apply bindM_ret in Hc as (d1 & st1 & E1 & Hc).
  apply collectNode_ret in E1 as (a & Ha & Hst & Hcol & T1 & R1). pose proof (touches_cwd _ _ _ T1) as C1.
  apply IH in Hc as [T2 (a' & Ha' & _ & R2)]; [|lia..]. rewrite C1 in T2, R2.
  specialize (Ha' _ Ha). subst a'. split.
  - eapply touches_trans; (eapply touches_mono; [|eassumption]);
      intros q (k & f & Hk & ->); exists k, f; (split; [cbn [length]; lia|done]).
  - exists a. split; [done|]. split; [intros Hn0 id' pk' [= <- <-]; auto|]. intros k Hk. cbn [length] in Hk. destruct (decide (k = i)) as [->|]; [|apply R2; lia].
    eapply nodeReady_frame; [| | | |exact T2|exact R1]; [unfold is_u64; lia|lia|lia|lia].
Qed.

End Phases.

(** ** Theorems *)

Section Claims.
Context `{TestnetLaws}.

Lemma addPeer_join l p : Forall (fun m => m ≠ "") l → p ≠ "" →
  fold_left addPeer l p = Join_strings (p :: l) ",".
Proof.
  revert p. induction l as [|m l IH]; intros p; [done|]. intros [Hm Hl]%Forall_cons Hp.
  cbn [fold_left]. unfold addPeer at 2. rewrite bool_decide_eq_false_2 by done. rewrite IH; [|done|by destruct p].
  destruct l as [|m' l].
  - cbn [Join_strings]. done.
  - cbn [Join_strings]. by rewrite !string_app_assoc.
Qed.

Lemma peers_join args i ids :
  fold_left addPeer (fromIndex (memo args) i ids) "" = Join_strings (fromIndex (memo args) i ids) ",".
Proof.
  assert (Hm : ∀ j id, memo args j id ≠ "") by (intros j [|c id]; by intros [=]).
  destruct ids as [|id ids]; [done|]. cbn [fromIndex fold_left]. unfold addPeer at 2.
  rewrite bool_decide_eq_true_2 by done. apply addPeer_join; [|done].
  generalize (i + 1). induction ids; intros j; cbn; constructor; auto.
Qed.

(** The chain id of the network: the one that was asked for, or a drawn one. *)
Definition chosenChainID (args : initArgs) : outcome string :=
  if bool_decide (chainID args = "") then let? r := generateRandomString 6 0 in Ret ("chain-" +:+ r)
  else Ret (chainID args).

(** The loop that makes the nodes, as the command starts it. *)
Definition makeNodes (nodeConfig : NodeConfig) (args : initArgs) : M Disk Collected :=
  initNodes args (Z.to_nat (numValidators args)) 0 (mkCollected [] [] [] [] [] "" [] nodeConfig (baseAppConfig args)).

(** The node keys that are generated are different. *)
Definition distinctKeys (nodeConfig : NodeConfig) (args : initArgs) (d : Disk) : Prop :=
  ∀ chain d1 co, chosenChainID args = Ret chain → makeNodes nodeConfig (withChainID args chain) d = (d1, Ret co) →
    NoDup (co_nodeIDs co).

(** What a node finds on a disk: the genesis transaction of every node. *)
Definition hasGentxs (wd : string) (args : initArgs) (nodes : list Node) (i : Z) (d : Disk) : Prop :=
  ∀ n, n ∈ nodes → files d !! resolve wd (gentxFile args i (n_id n)) = Some (n_tx n).

(** The application state is collected for node 0, on a disk on which it has
    the document with the accounts and balances of all nodes, and their
    transactions. *)
Definition collectedFrom (wd : string) (args : initArgs) (co : Collected) (nodes : list Node) (appState : string) : Prop :=
  ∃ d js, genesisState (co_genAccounts co) (co_genBalances co) = Ret js ∧
    files d !! resolve wd (genesisPath args 0) = Some (doc_text (mkGenesisDoc (chainID args) js)) ∧
    hasGentxs wd args nodes 0 d ∧
    ∀ n, nodes !! 0%nat = Some n → stateCollected args 0 (n_id n) (n_pubKey n) appState d.

Lemma initTestnetFiles_setup nodeConfig genTime args d d' :
  initTestnetFiles nodeConfig genTime args d = (d', Ret tt) →
  ∃ chain, chosenChainID args = Ret chain ∧ setupNodes nodeConfig genTime (withChainID args chain) d = (d', Ret tt).
Proof.
  unfold initTestnetFiles, chosenChainID. case_bool_decide as Hid; intros Hr.
  - apply bindM_ret in Hr as (d1 & r & [-> Hg]%lift_ret & Hr). exists ("chain-" +:+ r). by rewrite Hg.
  - exists (chainID args). split; [done|]. by destruct args.
Qed.

(** The phases of [setupNodes], with the disks between them. *)
Lemma setupNodes_phases nodeConfig genTime args d d' :
  setupNodes nodeConfig genTime args d = (d', Ret tt) →
  0 ≤ numValidators args ∧ ∃ co js d1 d2 d3 d4 st,
    makeNodes nodeConfig args d = (d1, Ret co) ∧
    genesisState (co_genAccounts co) (co_genBalances co) = Ret js ∧
    saveAll (mkGenesisDoc (chainID args) js) (co_genFiles co) d1 = (d2, Ret tt) ∧
    copyToNodes args (co_gentxsFiles co) (Z.to_nat (numValidators args)) 0 d2 = (d3, Ret tt) ∧
    collectNodes args (co_persistentPeers co) genTime 0 (zip (co_nodeIDs co) (co_valPubKeys co)) (co_nodeConfig co, None) d3
      = (d4, Ret st) ∧ files d' = files d4.
Proof.
  unfold setupNodes. destruct (Z.ltb_spec (numValidators args) 0); [done|]. intros Hr. split; [done|].
  apply bindM_ret in Hr as (d1 & co & E1 & Hr).
  apply bindM_ret in Hr as (d2 & [] & E2 & Hr). unfold initGenFiles in E2.
  apply bindM_ret in E2 as (? & js & [-> Hjs]%lift_ret & E2).
  apply bindM_ret in Hr as (d3 & [] & E3 & Hr).
  apply bindM_ret in Hr as (d4 & [] & E4 & Hr). unfold collectGenFiles in E4.
  apply bindM_ret in E4 as (d5 & st & E4 & E5). injection E5 as <-. injection Hr as <-.
  by exists co, js, d1, d2, d3, d5, st.
Qed.

(** The transactions of the nodes, from where they were written to where the
    state is collected. *)
Lemma gentxs_copied args nodes n js d1 d2 d3 :
  outputDir args ≠ "" → cwd d1 ≠ "" → Z.of_nat n < 2 ^ 63 → length nodes = n →
  Forall (fun x => free slash (n_id x)) nodes → NoDup (n_id <$> nodes) →
  (∀ k x, nodes !! k = Some x → files d1 !! resolve (cwd d1) (gentxFile args (Z.of_nat k) (n_id x)) = Some (n_tx x)) →
  saveAll js (fromIndex (fun k _ => genesisPath args k) 0 (n_id <$> nodes)) d1 = (d2, Ret tt) →
  copyToNodes args (fromIndex (gentxFile args) 0 (n_id <$> nodes)) n 0 d2 = (d3, Ret tt) →
  cwd d3 = cwd d1 ∧ (∀ i, 0 ≤ i < Z.of_nat n → hasGentxs (cwd d1) args nodes i d3) ∧
  ((0 < n)%nat → files d3 !! resolve (cwd d1) (genesisPath args 0) = Some (doc_text js)).
Proof.
  intros Hout Hwd Hn Hl Hfree Hnd Hw [T2 S2]%saveAll_ret E3. pose proof (touches_cwd _ _ _ T2) as C2.
  assert (Hf : Forall (free slash) (n_id <$> nodes)) by by apply Forall_fmap.
  apply copyToNodes_ret in E3 as [T3 G3]; [|done|by rewrite C2|lia|lia|rewrite length_fmap; lia|done|done].
  pose proof (touches_cwd _ _ _ T3) as C3. rewrite C2 in *. split; [congruence|]. split.
  - intros i Hi x Hx. apply list_elem_of_lookup_1 in Hx as [k Hk].
    assert (Hid : free slash (n_id x)) by (by eapply (Forall_lookup_1 (fun x => free slash (n_id x)))).
    rewrite (G3 i k) by (lia || by rewrite list_lookup_fmap, Hk). destruct T2 as [_ T2]. rewrite T2; [by apply Hw|].
    rewrite gentxFile_path by done. intros (f & Hin & Heq). apply list_elem_of_lookup_1 in Hin as (m & Hm).
    rewrite fromIndex_lookup in Hm. destruct ((n_id <$> nodes) !! m); [|done]. injection Hm as <-.
    by rewrite genesisPath_key in Heq.
  - intros Hpos. destruct T3 as [_ T3]. rewrite T3.
    + apply S2. destruct nodes as [|x nodes]; [cbn in Hl; lia|]. left.
    + rewrite genesisPath_key by done. intros (i' & id & _ & Hin & Heq).
      rewrite gentxFile_path in Heq; [done..|]. by eapply (Forall_forall (free slash)).
Qed.

(** C16: a testnet that was set up is complete.  When the command returns
    without error and the node keys it generated are different, then the nodes
    it made - each with the keys, the account and the signed transaction the
    libraries gave for its directory - have: the same genesis file (chain id,
    time, and the application state the SDK collected from the accounts,
    balances and transactions of all of them), a configuration whose peer list
    names every node at the port that node listens on, and the genesis
    transaction of every node. *)
Theorem multi_node_testnet_is_complete nodeConfig genTime args d d' :
  outputDir args ≠ "" → cwd d ≠ "" → is_i64 (numValidators args) → distinctKeys nodeConfig args d →
  initTestnetFiles nodeConfig genTime args d = (d', Ret tt) →
  ∃ chain d1 co nodes appState,
    chosenChainID args = Ret chain ∧
    let args := withChainID args chain in
    makeNodes nodeConfig args d = (d1, Ret co) ∧ collectedNodes nodes (mkCollected [] [] [] [] [] "" [] nodeConfig (baseAppConfig args)) co ∧
    Z.of_nat (length nodes) = numValidators args ∧
    (∀ k n, nodes !! k = Some n → nodeMade args (Z.of_nat k) n) ∧
    (0 < numValidators args → collectedFrom (cwd d) args co nodes appState) ∧
    ∀ i, 0 ≤ i < numValidators args →
      nodeReady args (cwd d) (Join_strings (fromIndex (memo args) 0 (n_id <$> nodes)) ",") appState genTime i d' ∧
      hasGentxs (cwd d) args nodes i d'.
Proof.
  intros Hout Hwd Hn Hkeys (chain & Hchain & Hr)%initTestnetFiles_setup. specialize (Hkeys chain).
  set (args' := withChainID args chain) in *. assert (Hout' : outputDir args' ≠ "") by done.
  change (numValidators args) with (numValidators args') in Hn.
  apply setupNodes_phases in Hr as (Hpos & co & js & d1 & d2 & d3 & d4 & st & E1 & Hjs & E2 & E3 & E4 & Ef).
  specialize (Hkeys _ _ Hchain E1). exists chain, d1, co. pose proof E1 as Hmake. unfold makeNodes in E1.
  apply initNodes_ret in E1 as (nodes & L & Hfree & Hco & Hmade & F3 & F4 & F5 & P1); [|done].
  pose proof Hco as (A1 & A2 & _ & _). cbn [co_nodeIDs co_valPubKeys co_gentxsFiles co_genFiles co_persistentPeers app] in *.
  destruct P1 as [T1 G1]; [done|unfold is_i64 in *; lia|]. pose proof (touches_cwd _ _ _ T1) as C1.
  rewrite F4 in E2. rewrite F3 in E3. rewrite A1, A2, F5, peers_join in E4. rewrite A1 in Hkeys.
  destruct (gentxs_copied args' nodes (Z.to_nat (numValidators args')) (mkGenesisDoc (chainID args') js) d1 d2 d3) as (C3 & G3 & S3);
    [done|by rewrite C1|unfold is_i64 in *; lia|done|done|done|by rewrite C1|done|done|]. rewrite C1 in *.
  assert (Lz : length (zip (n_id <$> nodes) (n_pubKey <$> nodes)) = length nodes)
    by (rewrite length_zip, !length_fmap; lia).
  apply collectNodes_ret in E4 as [T4 (a & _ & Hcol & R4)]; [|done|done|rewrite Lz; unfold is_i64 in *; lia].
  rewrite Lz, C3 in *. exists nodes, a. split; [done|]. cbv zeta. fold args'. split; [done|]. split; [done|]. split; [lia|].
  split; [by intros k x Hk; apply (Hmade k x Hk)|]. split.
  - intros H0'. exists d3, js. split_and!; [done|apply S3; lia|apply G3; lia|].
    intros x Hx. apply Hcol; [done|]. rewrite lookup_zip_with, !list_lookup_fmap, Hx. done.
  - intros i Hi. split.
    + destruct (R4 i) as [Hg Hc]; [lia|]. unfold nodeReady. by rewrite Ef.
    + intros x Hx. rewrite Ef. assert (Hid : free slash (n_id x)) by (by eapply (Forall_forall (fun x => free slash (n_id x)))).
      destruct T4 as [_ T4]. rewrite T4; [by apply G3; [lia|]|].
      rewrite gentxFile_path by done. by intros (k' & f & _ & [=]).
Qed.

(** *** Ports *)

(** The port of an address, and the ports of the services of node [i]. *)
Definition portText (addr : string) : string := last_element (Split addr ":").
Definition servicePorts (args : initArgs) (peers : string) (c : NodeConfig) (a : AppConfig) (i : Z) : list string :=
  portText <$> [P2P_ListenAddress (finalConfig args i peers c); RPC_ListenAddress (finalConfig args i peers c);
                ProxyApp (finalConfig args i peers c); PrometheusListenAddr (finalConfig args i peers c);
                GRPC_Address (nodeAppConfig args i a); API_Address (nodeAppConfig args i a)].

Lemma portText_app host z : 0 ≤ z → portText (host +:+ ":" +:+ fmt_d z) = fmt_d z.
Proof.
  intros Hz. unfold portText. change (host +:+ ":" +:+ fmt_d z) with (host +:+ String ":" (fmt_d z)).
  rewrite Split_app, (Split_free ":" (fmt_d z)) by (by apply fmt_d_free). apply last_element_snoc. by apply fmt_d_ne.
Qed.

Lemma defaultPorts_lookup n i top m j :
  defaultPorts n i top m !! j =
  if (top <=? j) && (j <? top + Z.of_nat n) then Some (fmt_d (26657 - 3 * (i + (j - top)))) else m !! j.
Proof.
  revert i top m. induction n as [|n IH]; intros i top m; cbn [defaultPorts].
  - destruct (_ && _) eqn:E; [|done]. bools. lia.
  - rewrite IH. destruct (decide (j = top)) as [->|Hne].
    + rewrite lookup_insert_eq.
      destruct (Z.leb_spec (top + 1) top); [lia|]. cbn [andb].
      destruct (Z.leb_spec top top), (Z.ltb_spec top (top + Z.of_nat (S n))); [|lia..]. cbn [andb].
      by rewrite Z.sub_diag, Z.add_0_r.
    + rewrite lookup_insert_ne by done.
      replace (i + 1 + (j - (top + 1))) with (i + (j - top)) by lia.
      destruct (Z.leb_spec (top + 1) j), (Z.ltb_spec j (top + 1 + Z.of_nat n)),
        (Z.leb_spec top j), (Z.ltb_spec j (top + Z.of_nat (S n))); cbn [andb]; done || lia.
Qed.

Definition serviceNumbers (i : Z) : list Z :=
  [26656 - 3 * i; 26657 - 3 * i; 26658 - 3 * i; 26660 + i; 9090 - 2 * i; 1317 - i].

Lemma servicePorts_default args peers c a n i :
  0 ≤ i < n → n ≤ 1317 → ports args = parsePorts "" n →
  servicePorts args peers c a i = fmt_d <$> serviceNumbers i.
Proof.
  intros Hi Hn Hp. unfold servicePorts, finalConfig, nodeAppConfig.
  cbn [P2P_ListenAddress RPC_ListenAddress ProxyApp PrometheusListenAddr GRPC_Address API_Address fmap list_fmap].
  rewrite Hp. unfold parsePorts. rewrite bool_decide_eq_true_2 by done. rewrite defaultPorts_lookup.
  destruct (Z.leb_spec 0 i), (Z.ltb_spec i (0 + Z.of_nat (Z.to_nat n))); try lia.
  cbn [andb default from_option id]. rewrite Z.add_0_l, Z.sub_0_r.
  unfold serviceNumbers. cbn [fmap list_fmap]. repeat f_equal.
  - apply (portText_app "tcp://0.0.0.0"). lia.
  - apply (portText_app "tcp://127.0.0.1"). lia.
  - apply (portText_app "tcp://127.0.0.1"). lia.
  - apply (portText_app ""). lia.
  - apply portText_app. lia.
  - apply (portText_app "tcp://localhost"). lia.
Qed.

(** With the default ports, up to 1317 nodes can run on one machine: all
    ports of all nodes are different and between 1 and 65535. *)
Theorem default_ports_do_not_clash args peers c a n :
  0 ≤ n ≤ 1317 → ports args = parsePorts "" n →
  NoDup (seqZ 0 n ≫= servicePorts args peers c a) ∧
  Forall (fun p => ∃ z, p = fmt_d z ∧ 1 ≤ z ≤ 65535) (seqZ 0 n ≫= servicePorts args peers c a).
Proof.
  intros Hn Hp.
  assert (Hnum : ∀ i z, 0 ≤ i < n → z ∈ serviceNumbers i → 1 ≤ z ≤ 65535).
  { intros i z Hi. unfold serviceNumbers. rewrite !elem_of_cons, elem_of_nil. lia. }
  assert (Hin : ∀ i p, i ∈ seqZ 0 n → p ∈ servicePorts args peers c a i →
            0 ≤ i < n ∧ ∃ z, p = fmt_d z ∧ z ∈ serviceNumbers i).
  { intros i p Hi Hpi. apply elem_of_seqZ in Hi. split; [lia|].
    rewrite (servicePorts_default _ _ _ _ n) in Hpi by (lia || done).
    apply list_elem_of_fmap in Hpi as (z & -> & Hz). eauto. }
  split.
  - apply NoDup_bind; [| |apply NoDup_seqZ].
    + intros i j p Hi Hj Hpi Hpj. apply Hin in Hpi as (Hi' & z & -> & Hz); [|done].
      apply Hin in Hpj as (Hj' & z' & Heq & Hz'); [|done].
      pose proof (Hnum _ _ Hi' Hz). pose proof (Hnum _ _ Hj' Hz').
      apply fmt_d_inj in Heq as <-; [|unfold is_u64; lia..].
      unfold serviceNumbers in Hz, Hz'. rewrite !elem_of_cons, elem_of_nil in Hz, Hz'. lia.
    + intros i Hi. apply elem_of_seqZ in Hi. rewrite (servicePorts_default _ _ _ _ n) by (lia || done).
      apply NoDup_fmap_2_strong.
      * intros z z' Hz Hz' Heq. apply Hnum in Hz, Hz'; [|lia..]. apply fmt_d_inj; unfold is_u64; lia || done.
      * unfold serviceNumbers. repeat (apply NoDup_cons; split; [rewrite ?elem_of_cons, ?elem_of_nil; lia|]).
        apply NoDup_nil_2.
  - apply Forall_forall. intros p (i & Hpi & Hi)%list_elem_of_bind.
    apply Hin in Hpi as (Hi' & z & -> & Hz); [|done]. eauto.
Qed.

(** *** Flags *)

Definition withMinGasPrices (args : initArgs) (p : string) : initArgs :=
  mkInitArgs (algo args) (chainID args) (keyringBackend args) p (nodeDirPrefix args)
    (numValidators args) (outputDir args) (startingIPAddress args) (validatorsStakesAmount args) (ports args).

Lemma initNodes_minGas args p n i co d :
  initNodes (withMinGasPrices args p) n i co d = initNodes args n i co d.
Proof.
  revert i co d. induction n as [|n IH]; intros i co d; [done|]. cbn [initNodes]. unfold bindM.
  change (initNode (withMinGasPrices args p) i co d) with (initNode args i co d).
  destruct (initNode args i co d) as [d1 []]; [apply IH|done..].
Qed.

Lemma copyToNodes_minGas args p fs n i d :
  copyToNodes (withMinGasPrices args p) fs n i d = copyToNodes args fs n i d.
Proof.
  revert i d. induction n as [|n IH]; intros i d; [done|]. cbn [copyToNodes]. unfold bindM.
  change (nodeDir (withMinGasPrices args p) i) with (nodeDir args i).
  destruct (copyGentxs fs _ d) as [d1 []]; [apply IH|done..].
Qed.

Lemma collectNodes_minGas args p peers t i nodes st d :
  collectNodes (withMinGasPrices args p) peers t i nodes st d = collectNodes args peers t i nodes st d.
Proof.
  revert i st d. induction nodes as [|[id pk] nodes IH]; intros i st d; [done|]. cbn [collectNodes]. unfold bindM.
  change (collectNode (withMinGasPrices args p) peers t i id pk st d) with (collectNode args peers t i id pk st d).
  destruct (collectNode args peers t i id pk st d) as [d1 []]; [apply IH|done..].
Qed.

Lemma bindM_ext {W A B} (m1 m2 : M W A) (f g : A → M W B) w :
  m1 w = m2 w → (∀ a w', f a w' = g a w') → bindM m1 f w = bindM m2 g w.
Proof. unfold bindM. intros -> Hf. destruct (m2 w) as [w1 []]; auto. Qed.

Lemma setupNodes_minGas nodeConfig t args p d :
  setupNodes nodeConfig t (withMinGasPrices args p) d = setupNodes nodeConfig t args d.
Proof.
  unfold setupNodes. change (numValidators (withMinGasPrices args p)) with (numValidators args).
  destruct (numValidators args <? 0); [done|].
  apply bindM_ext; [apply initNodes_minGas|]. intros co d1.
  apply bindM_ext; [done|]. intros _ d2. apply bindM_ext; [apply copyToNodes_minGas|]. intros _ d3.
  apply bindM_ext; [|by intros]. apply bindM_ext; [apply collectNodes_minGas|by intros].
Qed.

(** The flag [minimum-gas-prices] has no effect: whatever its value, the
    command does the same, because the field it sets is assigned again. *)
Theorem min_gas_prices_flag_is_ignored nodeConfig t args p d :
  initTestnetFiles nodeConfig t (withMinGasPrices args p) d = initTestnetFiles nodeConfig t args d.
Proof.
  unfold initTestnetFiles. change (chainID (withMinGasPrices args p)) with (chainID args).
  case_bool_decide; [|apply setupNodes_minGas].
  apply bindM_ext; [done|]. intros r d'. apply (setupNodes_minGas nodeConfig t (withChainID args _)).
Qed.

(** Amounts that are not numbers do not keep their place: validator [k] gets
    the [k]-th amount that is a number. *)
Theorem stakes_skip_invalid_amounts amounts stakes k :
  parseStakes amounts 0 ∅ = Ret stakes →
  match omap NewIntFromString amounts !! k with
  | Some a => ∃ coin, NewCoin DefaultBondDenom a = Ret coin ∧ stakes !! Z.of_nat k = Some coin
  | None => stakes !! Z.of_nat k = None
  end.
Proof.
  assert (Hgen : ∀ amounts top m, parseStakes amounts top m = Ret stakes →
    (∀ j, j < top → stakes !! j = m !! j) ∧ ∀ k,
    match omap NewIntFromString amounts !! k with
    | Some a => ∃ coin, NewCoin DefaultBondDenom a = Ret coin ∧ stakes !! (top + Z.of_nat k) = Some coin
    | None => stakes !! (top + Z.of_nat k) = m !! (top + Z.of_nat k)
    end).
  { clear. intros amounts. induction amounts as [|x amounts IH]; intros top m Hp; cbn in Hp |- *.
    - by injection Hp as <-.
    - destruct (NewIntFromString x) as [a|]; cbn; [|by apply IH].
      destruct (NewCoin DefaultBondDenom a) as [coin| | |] eqn:Hc; try done. cbn in Hp. apply IH in Hp as [Hlow Hk].
      split.
      + intros j Hj. rewrite Hlow, lookup_insert_ne by lia. done.
      + intros [|k'].
        * exists coin. split; [done|]. rewrite Z.add_0_r, Hlow, lookup_insert_eq by lia. done.
        * specialize (Hk k'). replace (top + Z.of_nat (S k')) with (top + 1 + Z.of_nat k') by lia.
          cbn. destruct (omap NewIntFromString amounts !! k'); [done|]. rewrite Hk, lookup_insert_ne by lia. done. }
  intros Hp. apply Hgen in Hp as [_ Hk]. exact (Hk k).
Qed.

Lemma listedPorts_lookup l top m j :
  top + Z.of_nat (length l) ≤ j → listedPorts l top m !! j = m !! j.
Proof.
  revert top m. induction l as [|x l IH]; intros top m Hj; cbn in *; [done|].
  rewrite IH, lookup_insert_ne by lia. done.
Qed.

(** With fewer ports than validators the remaining nodes are configured to
    listen on an address without a port. *)
Theorem unlisted_rpc_port_is_missing args peers c s n i :
  s ≠ "" → ports args = parsePorts s n → Z.of_nat (length (Split s ",")) ≤ i →
  RPC_ListenAddress (finalConfig args i peers c) = "tcp://127.0.0.1:".
Proof.
  intros Hs Hp Hi. unfold finalConfig. cbn [RPC_ListenAddress]. rewrite Hp. unfold parsePorts.
  rewrite bool_decide_eq_false_2, listedPorts_lookup by (done || lia). done.
Qed.

End Claims.

(** ** Witnesses *)

Section Witnesses.

Definition toy_config_text (c : NodeConfig) : string :=
  Join_strings [RootDir c; Moniker c; RPC_ListenAddress c; P2P_PersistentPeers c; P2P_ListenAddress c;
    ProxyApp c; PrometheusListenAddr c] " ".
Definition toy_genesis_text (id st : string) (t : Z) : string := id +:+ " " +:+ st +:+ " " +:+ fmt_d t.

(** A text without its slashes. *)
Definition stripped (s : string) : string :=
  string_of (List.filter (fun c => negb (Ascii.eqb c slash)) (bytes_of s)).

Lemma stripped_free s : free slash ("id-" +:+ stripped s).
Proof.
  unfold free, stripped. rewrite bytes_of_app, bytes_of_string. intros Hin. apply elem_of_app in Hin as [Hin|Hin].
  - revert Hin. apply (bool_decide_unpack _). vm_compute. exact I.
  - by apply list_elem_of_In, List.filter_In in Hin as [_ ?].
Qed.

(** Libraries that write one line per file and keep no keys on disk. *)
Definition toy : TestnetLib := {|
  FlagKeyringBackend := "keyring-backend";
  FlagChainID := "chain-id";
  FlagMinGasPrices := "minimum-gas-prices";
  FlagKeyType := "key-type";
  NewIntFromString s := match ParseInt s with Ret z => Some z | _ => None end;
  NewCoin denom a := if a <? 0 then Panic "negative coin amount" else Ret (denom, a);
  TokensFromConsensusPower p := p * 1000000;
  Coins_Sort l := l;
  Coins_Add a b := (a ++ b)%list;
  Intn n bound := Z.of_nat n mod bound;
  DefaultConfig := mkAppConfig "" true "" "" true true 60 "";
  GenesisFile c := Join [RootDir c; "config"; "genesis.json"];
  app_WriteConfigFile p c := WriteFile p (MinGasPrices c);
  cmt_WriteConfigFile p c := WriteFile p (toy_config_text c);
  InitializeNodeValidatorFiles c := ret ("id-" +:+ stripped (Moniker c), "pk-" +:+ Moniker c);
  Keyring := string;
  keyring_New backend dir := ret dir;
  NewSigningAlgoFromString a kb := Ret a;
  GenerateSaveCoinKey kb name alg := ret ("addr-" +:+ name, "secret");
  AccAddress_Bech32 a := a;
  ValAddress_Bech32 a := a;
  NewBaseAccount a := a;
  NewMsgCreateValidator m := Ret m;
  TxBuilder := string;
  SetMsgs m := Ret ("create " +:+ cv_ValAddr m +:+ " " +:+ fmt_d (snd (cv_Value m)));
  SetMemo m b := b +:+ " memo " +:+ m;
  Sign kb id m name b := ret (b +:+ " signed");
  TxJSONEncoder b := Ret b;
  Marshal_secret x := Ret x;
  DefaultGenesis := {["auth" := "a"; "bank" := "b"]};
  auth_ModuleName := "auth";
  bank_ModuleName := "bank";
  auth_Unmarshal x := Ret (mkAuthGenesis [] x);
  auth_Marshal g := Ret (Join_strings (ag_Accounts g) ",");
  bank_Unmarshal x := Ret (mkBankGenesis [] [] x);
  bank_Marshal g := Ret (fmt_d (Z.of_nat (length (bg_Supply g))));
  PackAccounts l := Ret l;
  SanitizeGenesisBalances l := l;
  MarshalIndent m := Ret (default "" (m !! "auth") +:+ default "" (m !! "bank"));
  SaveAs doc f := WriteFile f (gd_AppState doc);
  AppGenesisFromFile f := os_ReadFile f;
  GenAppStateFromConfig c id pk chain dir g := ret (c, g);
  ExportGenesisFileWithTime f id st t := WriteFile f (toy_genesis_text id st t) |}.
#[local] Existing Instance toy.

Lemma toy_testnet_laws : @TestnetLaws toy.
Proof.
  refine (@Build_TestnetLaws toy toy_genesis_text gd_AppState toy_config_text (fun kb => kb) _ _ _ _ _ _ _ _ _ _ _ _); cbn.
  - done.
  - intros c d d' o [= <- _]. done.
  - intros c d d' id pk [= _ <- _]. apply stripped_free.
  - intros b dir d d' o [= <- <-]. split; [done|]. by intros kb [= <-].
  - intros kb name alg d d' o [= <- _]. done.
  - intros kb id m name b d d' o [= <- _]. done.
  - intros p c d d' o. apply WriteFile_touches.
  - intros doc f d d' Hw. by apply write_at_ret in Hw.
  - intros f d d' o Hr. by apply read_at_touches with (P := fun _ => False) in Hr.
  - intros c id pk chain dir g d d' o [= <- <-]. split; [done|]. by intros r [= <-].
  - intros p c d d' Hw. by apply write_at_ret in Hw.
  - intros f id st t d d' Hw. by apply write_at_ret in Hw.
Qed.
#[local] Existing Instance toy_testnet_laws.

Definition twoNodes : initArgs :=
  mkInitArgs "secp256k1" "testing" "test" "" "validator" 2 "./.testnets" "localhost"
    {[0 := ("atnex", 7)]} (parsePorts "" 2).

Definition emptyDisk : Disk := mkDisk "/home/op" ∅ ∅ 0 (fun _ => NoFault) [].
Definition freshConfig : NodeConfig := mkNodeConfig "" "" "" "" false "" "" "" false "".
Definition twoNodesRun : Disk * outcome unit := initTestnetFiles freshConfig 99 twoNodes emptyDisk.

Lemma twoNodes_distinct : distinctKeys freshConfig twoNodes emptyDisk.
Proof.
  intros chain d1 co [= <-] Hm.
  assert (Hv : (co_nodeIDs <$> match (makeNodes freshConfig (withChainID twoNodes "testing") emptyDisk).2 with
                              | Ret co => Some co | _ => None end) = Some ["id-validator0"; "id-validator1"])
    by (vm_compute; reflexivity).
  rewrite Hm in Hv. injection Hv as ->. apply (bool_decide_unpack _). vm_compute. exact I.
Qed.

Lemma multi_node_testnet_is_complete_witness :
  twoNodesRun.2 = Ret tt ∧
  ∃ chain d1 co nodes appState,
    chosenChainID twoNodes = Ret chain ∧
    let args := withChainID twoNodes chain in
    makeNodes freshConfig args emptyDisk = (d1, Ret co) ∧
    collectedNodes nodes (mkCollected [] [] [] [] [] "" [] freshConfig (baseAppConfig args)) co ∧
    Z.of_nat (length nodes) = numValidators args ∧
    (∀ k n, nodes !! k = Some n → nodeMade args (Z.of_nat k) n) ∧
    (0 < numValidators args → collectedFrom (cwd emptyDisk) args co nodes appState) ∧
    ∀ i, 0 ≤ i < numValidators args →
      nodeReady args (cwd emptyDisk) (Join_strings (fromIndex (memo args) 0 (n_id <$> nodes)) ",") appState 99 i twoNodesRun.1 ∧
      hasGentxs (cwd emptyDisk) args nodes i twoNodesRun.1.
Proof.
  split; [vm_compute; reflexivity|].
  apply (multi_node_testnet_is_complete freshConfig 99 twoNodes emptyDisk twoNodesRun.1).
  - done.
  - done.
  - unfold is_i64. cbn. lia.
  - exact twoNodes_distinct.
  - vm_compute. reflexivity.
Defined.

(** Without flags: four validators with a stake of 10^8 each, and their ports. *)
Example default_args :
  parseArgs defaultFlags =
  Ret (mkInitArgs "secp256k1" "" "test" "0.0001atnex" "validator" 4 "./.testnets" "localhost"
         (list_to_map ((fun i => (i, ("atnex", 100000000))) <$> [0; 1; 2; 3]))
         (list_to_map [(0, "26657"); (1, "26654"); (2, "26651"); (3, "26648")])).
Proof. vm_compute. reflexivity. Qed.

(** The second node's copy of the first node's transaction, as written. *)
Example second_node_has_first_gentx :
  files twoNodesRun.1 !! resolve "/home/op" "/home/op/.testnets/validator1/config/gentx/gentx-id-validator0.json" =
  Some "create addr-validator0 7 memo id-validator0@localhost:26656 signed".
Proof. vm_compute. reflexivity. Qed.

Lemma default_ports_do_not_clash_witness :
  NoDup (seqZ 0 2 ≫= servicePorts twoNodes "" freshConfig (mkAppConfig "" true "" "" true true 60 "")).
Proof.
  apply (default_ports_do_not_clash twoNodes "" freshConfig (mkAppConfig "" true "" "" true true 60 "") 2).
  - lia.
  - reflexivity.
Defined.

End Witnesses.

End Testnet.
