(* ===== verification/InPlace.v ===== *)
(** * The in-place testnet command

    [cmd/nexusd/cmd/testnet.go]: [nexusd in-place-testnet] opens the state of a
    running chain, removes its validators from the staking store, installs one
    new validator, funds some accounts and starts the node.

    The keepers are Cosmos SDK code: operations of a class on an abstract
    state, of which the staking module's key-value store is visible.  An
    iteration visits the keys that were in the store when it began.
    [handleErr] ends the process: an error becomes a [Panic]. *)

From S2P Require Import Prelude GoStd Upgrades.

Module InPlace.

Definition valVotingPower : Z := 900000000000000.
(** The options the command reads, by the constants that name them. *)
Inductive OptKey :=
| KeyNewValAddr | KeyUserPubKey | KeyNewOpAddr | KeyTriggerTestnetUpgrade | flagAccountsToFund | FlagHome.

Record valArgs := mkValArgs {
  newValAddr : string; newOperatorAddress : string; newValPubKey : string;
  accountsToFund : list string; upgradeToTrigger : string; homeDir : string }.

(** A value of [AppOptions.Get], by the Go types the code asks for. *)
Inductive OptValue := ONil | OString (s : string) | OHexBytes (s : string) | OPubKey (bytes : string) | OOther (text : string).

(** The fields of [stakingtypes.Validator] the command sets; decimals in units
    of 10^-18. *)
Record TestValidator := mkTestValidator {
  tv_OperatorAddress : string; tv_ConsensusPubkey : string; tv_Jailed : bool;
  tv_Status : Upgrades.BondStatus; tv_Tokens : Z; tv_DelegatorShares : Z; tv_Moniker : string;
  tv_Rate : Z; tv_MaxRate : Z; tv_MaxChangeRate : Z; tv_MinSelfDelegation : Z }.

Record TestSigningInfo := mkTestSigningInfo { ts_Address : string; ts_StartHeight : Z; ts_Tombstoned : bool }.

(** [handleErr(f())]. *)
Definition handleErr {St A} (m : M St A) : M St A := fun s =>
  match m s with
  | (s', Fail e) => (s', Panic ("exit status 1: " +:+ Error e))
  | r => r
  end.

Class TestnetKeepers (St : Type) := {
  (** the staking store *)
  kv : St → gmap string string;
  kv_Delete : string → M St unit;
  (** the keys an iterator from a prefix to its end visits *)
  kv_Iterator : string → St → list string;
  ValidatorsKey : string;
  ValidatorQueueKey : string;
  (** x/staking *)
  NewAnyWithValue : string → outcome string;
  ValidatorAddress_StringToBytes : string → outcome string;
  ValidatorsPowerStoreIterator : St → outcome (list string);
  LastValidatorsIterator : St → outcome (list string);
  SetValidator : TestValidator → M St unit;
  SetValidatorByConsAddr : TestValidator → M St unit;
  SetValidatorByPowerIndex : TestValidator → M St unit;
  SetLastValidatorPower : string → Z → M St unit;
  AfterValidatorCreated : string → M St unit;
  BondDenom : St → outcome string;
  (** x/distribution, with the initial values the code passes *)
  SetValidatorHistoricalRewards : string → M St unit;
  SetValidatorCurrentRewards : string → M St unit;
  SetValidatorAccumulatedCommission : string → M St unit;
  SetValidatorOutstandingRewards : string → M St unit;
  (** x/slashing, x/bank, x/auth *)
  ConsAddress_String : string → string;
  SetValidatorSigningInfo : string → TestSigningInfo → M St unit;
  LastBlockHeight : St → Z;
  mint_ModuleName : string;
  NewCoins : string → Z → outcome (string * Z);
  MintCoins : string → string * Z → M St unit;
  Address_StringToBytes : string → outcome string;
  SendCoinsFromModuleToAccount : string → string → string * Z → M St unit }.

Section InPlace.
Context {St : Type} `{!TestnetKeepers St}.

(** [for ; iterator.Valid(); iterator.Next() { store.Delete(iterator.Key()) }] *)
Fixpoint deleteKeys (keys : list string) : M St unit :=
  match keys with
  | [] => ret tt
  | k :: rest => do! kv_Delete k in deleteKeys rest
  end.

Definition removeFromPowerStore : M St unit :=
  let! keys := handleErr (fun s => (s, ValidatorsPowerStoreIterator s)) in deleteKeys keys.
Definition removeFromLastValidators : M St unit :=
  let! keys := handleErr (fun s => (s, LastValidatorsIterator s)) in deleteKeys keys.
Definition removePrefix (prefix : string) : M St unit :=
  let! keys := gets (kv_Iterator prefix) in deleteKeys keys.

Definition newVal (args : valArgs) (pubkeyAny : string) : TestValidator :=
  mkTestValidator (newOperatorAddress args) pubkeyAny false Upgrades.Bonded valVotingPower
    (10000000 * 10 ^ 18) "Testnet Validator" (5 * 10 ^ 16) (10 ^ 17) (5 * 10 ^ 16) 1.

Definition installValidator (v : TestValidator) (validator : string) : M St unit :=
  do! handleErr (SetValidator v) in
  do! handleErr (SetValidatorByConsAddr v) in
  do! handleErr (SetValidatorByPowerIndex v) in
  do! handleErr (SetLastValidatorPower validator 0) in
  handleErr (AfterValidatorCreated validator).

Definition initDistribution (validator : string) : M St unit :=
  do! handleErr (SetValidatorHistoricalRewards validator) in
  do! handleErr (SetValidatorCurrentRewards validator) in
  do! handleErr (SetValidatorAccumulatedCommission validator) in
  handleErr (SetValidatorOutstandingRewards validator).

(** An error of [SetValidatorSigningInfo] is dropped. *)
Definition initSigningInfo (args : valArgs) : M St unit :=
  let! height := gets LastBlockHeight in
  let! ignored := try (SetValidatorSigningInfo (newValAddr args)
    (mkTestSigningInfo (ConsAddress_String (newValAddr args)) (i64_sub height 1) false)) in
  ret tt.

Fixpoint fundAccounts (defaultCoins : string * Z) (accounts : list string) : M St unit :=
  match accounts with
  | [] => ret tt
  | accountStr :: rest =>
      do! handleErr (MintCoins mint_ModuleName defaultCoins) in
      let! account := handleErr (lift (Address_StringToBytes accountStr)) in
      do! handleErr (SendCoinsFromModuleToAccount mint_ModuleName account defaultCoins) in
      fundAccounts defaultCoins rest
  end.

Definition initAppForTestnet (args : valArgs) : M St unit :=
  let! pubkeyAny := handleErr (lift (NewAnyWithValue (newValPubKey args))) in
  let v := newVal args pubkeyAny in
  let! validator := handleErr (lift (ValidatorAddress_StringToBytes (tv_OperatorAddress v))) in
  do! removeFromPowerStore in
  do! removeFromLastValidators in
  do! removePrefix ValidatorsKey in
  do! removePrefix ValidatorQueueKey in
  do! installValidator v validator in
  do! initDistribution validator in
  do! initSigningInfo args in
  let! bondDenom := handleErr (fun s => (s, BondDenom s)) in
  let! defaultCoins := lift (NewCoins bondDenom 1000000000) in
  fundAccounts defaultCoins (accountsToFund args).

(** [getCommandArgs]; [ToString] is [cast.ToString]. *)
Definition getCommandArgs (ToString : OptValue → string) (Get : OptKey → OptValue) : outcome valArgs :=
  match Get KeyNewValAddr with
  | OHexBytes addr =>
      match Get KeyUserPubKey with
      | OPubKey pk =>
          match Get KeyNewOpAddr with
          | OString op =>
              match Get KeyTriggerTestnetUpgrade with
              | OString up =>
                  let accounts := Split (ToString (Get flagAccountsToFund)) "," in
                  let home := ToString (Get FlagHome) in
                  if bool_decide (home = "") then Fail (errText "invalid home dir")
                  else Ret (mkValArgs addr op pk accounts up home)
              | _ => Fail (errText "upgradeToTrigger is not of type string")
              end
          | _ => Fail (errText "newOperatorAddress is not of type string")
          end
      | _ => Fail (errText "newValPubKey is not of type crypto.PubKey")
      end
  | _ => Fail (errText "newValAddr is not of type bytes.HexBytes")
  end.

(** [newTestnetApp], on the state of the application that [newApp] opened. *)
Definition newTestnetApp (ToString : OptValue → string) (Get : OptKey → OptValue) : M St unit :=
  let! args := lift (must (getCommandArgs ToString Get)) in
  initAppForTestnet args.

(** ** Laws *)

(** The two index prefixes and the one of the consensus addresses, and where
    each keeper operation writes. *)
Class TestnetKeepersLaws := {
  PowerKey : string;
  LastKey : string;
  ConsKey : string;
  validator_entry : TestValidator → string * string;
  cons_entry : TestValidator → string * string;
  power_entry : TestValidator → string * string;
  last_entry : string → Z → string * string;
  prefixes_disjoint p q k : p ∈ [ValidatorsKey; ValidatorQueueKey; PowerKey; LastKey; ConsKey] →
    q ∈ [ValidatorsKey; ValidatorQueueKey; PowerKey; LastKey; ConsKey] →
    HasPrefix k p = true → HasPrefix k q = true → p = q;
  prefixes_distinct : NoDup [ValidatorsKey; ValidatorQueueKey; PowerKey; LastKey; ConsKey];
  entry_prefixes v a n : HasPrefix (validator_entry v).1 ValidatorsKey = true ∧
    HasPrefix (cons_entry v).1 ConsKey = true ∧ HasPrefix (power_entry v).1 PowerKey = true ∧
    HasPrefix (last_entry a n).1 LastKey = true;
  kv_Delete_ret k s : ∃ s', kv_Delete k s = (s', Ret tt) ∧ kv s' = delete k (kv s);
  kv_Iterator_spec p s k : k ∈ kv_Iterator p s ↔ HasPrefix k p = true ∧ is_Some (kv s !! k);
  Power_iterator_spec s keys k : ValidatorsPowerStoreIterator s = Ret keys →
    k ∈ keys ↔ HasPrefix k PowerKey = true ∧ is_Some (kv s !! k);
  Last_iterator_spec s keys k : LastValidatorsIterator s = Ret keys →
    k ∈ keys ↔ HasPrefix k LastKey = true ∧ is_Some (kv s !! k);
  SetValidator_kv v s s' : SetValidator v s = (s', Ret tt) →
    kv s' = <[(validator_entry v).1 := (validator_entry v).2]> (kv s);
  SetValidatorByConsAddr_kv v s s' : SetValidatorByConsAddr v s = (s', Ret tt) →
    kv s' = <[(cons_entry v).1 := (cons_entry v).2]> (kv s);
  SetValidatorByPowerIndex_kv v s s' : tv_Jailed v = false → SetValidatorByPowerIndex v s = (s', Ret tt) →
    kv s' = <[(power_entry v).1 := (power_entry v).2]> (kv s);
  SetLastValidatorPower_kv a n s s' : SetLastValidatorPower a n s = (s', Ret tt) →
    kv s' = <[(last_entry a n).1 := (last_entry a n).2]> (kv s);
  (** other modules have stores of their own *)
  other_kv a c m i :
    preserves (same kv) (AfterValidatorCreated a) ∧ preserves (same kv) (SetValidatorHistoricalRewards a) ∧
    preserves (same kv) (SetValidatorCurrentRewards a) ∧ preserves (same kv) (SetValidatorAccumulatedCommission a) ∧
    preserves (same kv) (SetValidatorOutstandingRewards a) ∧ preserves (same kv) (SetValidatorSigningInfo a i) ∧
    preserves (same kv) (MintCoins m c) ∧ preserves (same kv) (SendCoinsFromModuleToAccount m a c) }.

End InPlace.
Arguments TestnetKeepersLaws St {_}.

(** ** Theorems *)

Section Claims.
Context {St : Type} `{!TestnetKeepers St} `{!TestnetKeepersLaws St}.

Definition allPrefixes : list string := [ValidatorsKey; ValidatorQueueKey; PowerKey; LastKey; ConsKey].

(** No entry under a prefix; exactly one entry. *)
Definition cleared (p : string) (s : St) : Prop := ∀ k, HasPrefix k p = true → kv s !! k = None.
Definition only_entry (p : string) (e : string * string) (s : St) : Prop :=
  kv s !! e.1 = Some e.2 ∧ ∀ k, HasPrefix k p = true → k ≠ e.1 → kv s !! k = None.

Lemma handleErr_ret {A} (m : M St A) s s' a : handleErr m s = (s', Ret a) → m s = (s', Ret a).
Proof. unfold handleErr. destruct (m s) as [s1 []]; by intros [=]; subst. Qed.

Lemma deleteKeys_kv keys s s' o :
  deleteKeys keys s = (s', o) →
  ∀ k, (k ∈ keys → kv s' !! k = None) ∧ (k ∉ keys → kv s' !! k = kv s !! k).
Proof.
  revert s. induction keys as [|x keys IH]; intros s; cbn [deleteKeys].
  - intros [= <- _] k. split; [by intros ?%elem_of_nil|done].
  - unfold bindM. destruct (kv_Delete_ret x s) as (s1 & -> & Hs1). intros Hd k.
    destruct (IH _ Hd k) as [Hin Hout]. split.
    + intros Hk. destruct (decide (k ∈ keys)); [auto|]. apply elem_of_cons in Hk as [->|]; [|done].
      by rewrite Hout, Hs1, lookup_delete_eq.
    + intros Hk. apply not_elem_of_cons in Hk as [??]. by rewrite Hout, Hs1, lookup_delete_ne.
Qed.

(** Deleting everything an iterator visits clears its prefix, and what was
    clear stays clear. *)
Lemma deleteKeys_clears p keys s s' o :
  (∀ k, k ∈ keys ↔ HasPrefix k p = true ∧ is_Some (kv s !! k)) → deleteKeys keys s = (s', o) →
  cleared p s' ∧ ∀ q, cleared q s → cleared q s'.
Proof.
  intros Hk Hd. pose proof (deleteKeys_kv _ _ _ _ Hd) as Hkv. split.
  - intros k Hp. destruct (Hkv k) as [Hin Hout]. destruct (decide (k ∈ keys)) as [|Hn]; [auto|].
    rewrite Hout by done. apply eq_None_not_Some. intros Hs. apply Hn. by apply Hk.
  - intros q Hq k Hp. destruct (Hkv k) as [Hin Hout]. destruct (decide (k ∈ keys)) as [|Hn]; [auto|].
    rewrite Hout by done. auto.
Qed.

Lemma insert_cleared p q e s s' :
  p ∈ allPrefixes → q ∈ allPrefixes → p ≠ q → HasPrefix e.1 q = true →
  kv s' = <[e.1 := e.2]> (kv s) →
  (cleared p s → cleared p s') ∧ (∀ e', HasPrefix e'.1 p = true → only_entry p e' s → only_entry p e' s').
Proof.
  intros Hp Hq Hne He Hs. assert (Hk : ∀ k, HasPrefix k p = true → k ≠ e.1).
  { intros k Hk ->. apply Hne. by eapply prefixes_disjoint. }
  split.
  - intros Hc k Hpk. rewrite Hs, lookup_insert_ne by (apply not_eq_sym; auto). auto.
  - intros e' He' [H1 H2]. split.
    + rewrite Hs, lookup_insert_ne by (apply not_eq_sym; auto). done.
    + intros k Hpk Hke. rewrite Hs, lookup_insert_ne by (apply not_eq_sym; auto). auto.
Qed.

Lemma insert_only p e s s' :
  cleared p s → kv s' = <[e.1 := e.2]> (kv s) → only_entry p e s'.
Proof.
  intros Hc Hs. split; [by rewrite Hs, lookup_insert_eq|].
  intros k Hp Hne. rewrite Hs, lookup_insert_ne by done. auto.
Qed.

Lemma only_entry_same p e s s' : same kv s s' → only_entry p e s → only_entry p e s'.
Proof. unfold same, only_entry. by intros ->. Qed.

Lemma handleErr_preserves {A} (m : M St A) : preserves (same kv) m → preserves (same kv) (handleErr m).
Proof. intros Hm s s' o. unfold handleErr. destruct (m s) as [s1 []] eqn:E; intros [= <- _]; by eapply Hm. Qed.

Lemma fundAccounts_same c l : preserves (same kv) (fundAccounts c l).
Proof.
  induction l as [|a l IH]; cbn [fundAccounts]; [preserving|].
  apply preserves_bind; [apply _|apply handleErr_preserves; by apply (other_kv "" c mint_ModuleName (mkTestSigningInfo "" 0 false))|intros _].
  apply preserves_bind; [apply _|apply handleErr_preserves; auto with nexus typeclass_instances|intros x].
  apply preserves_bind; [apply _|apply handleErr_preserves; by apply (other_kv x c mint_ModuleName (mkTestSigningInfo "" 0 false))|done].
Qed.

Lemma distinct_prefixes : ValidatorsKey ≠ ValidatorQueueKey ∧ ValidatorsKey ≠ PowerKey ∧ ValidatorsKey ≠ LastKey ∧
  ValidatorsKey ≠ ConsKey ∧ ValidatorQueueKey ≠ PowerKey ∧ ValidatorQueueKey ≠ LastKey ∧ ValidatorQueueKey ≠ ConsKey ∧
  PowerKey ≠ LastKey ∧ PowerKey ≠ ConsKey ∧ LastKey ≠ ConsKey.
Proof.
  pose proof prefixes_distinct as Hd. rewrite !NoDup_cons, !not_elem_of_cons in Hd. naive_solver.
Qed.

Lemma in_prefixes : ValidatorsKey ∈ allPrefixes ∧ ValidatorQueueKey ∈ allPrefixes ∧ PowerKey ∈ allPrefixes ∧
  LastKey ∈ allPrefixes ∧ ConsKey ∈ allPrefixes.
Proof. unfold allPrefixes. set_solver. Qed.

(** The four removals leave the staking store without validators. *)
Lemma removals_clear s s' :
  (do! removeFromPowerStore in do! removeFromLastValidators in
   do! removePrefix ValidatorsKey in removePrefix ValidatorQueueKey) s = (s', Ret tt) →
  cleared PowerKey s' ∧ cleared LastKey s' ∧ cleared ValidatorsKey s' ∧ cleared ValidatorQueueKey s'.
Proof.
  intros Hr.
  apply bindM_ret in Hr as (s1 & [] & H1 & Hr). apply bindM_ret in H1 as (s0 & ks & H0%handleErr_ret & H1).
  injection H0 as <- Hks. apply deleteKeys_clears with (p := PowerKey) in H1 as [A1 _];
    [|intros k; by apply Power_iterator_spec].
  apply bindM_ret in Hr as (s2 & [] & H2 & Hr). apply bindM_ret in H2 as (s0' & ks' & H0%handleErr_ret & H2).
  injection H0 as <- Hks'. apply deleteKeys_clears with (p := LastKey) in H2 as [A2 K2];
    [|intros k; by apply Last_iterator_spec].
  apply bindM_ret in Hr as (s3 & [] & H3 & Hr). apply bindM_ret in H3 as (s0'' & ks'' & H0 & H3).
  injection H0 as <- <-. apply deleteKeys_clears with (p := ValidatorsKey) in H3 as [A3 K3];
    [|intros k; apply kv_Iterator_spec].
  apply bindM_ret in Hr as (s4 & ks3 & H0 & H4). injection H0 as <- <-.
  apply deleteKeys_clears with (p := ValidatorQueueKey) in H4 as [A4 K4]; [|intros k; apply kv_Iterator_spec].
  split_and!; auto.
Qed.

(** Installing a validator in a store without validators. *)
Lemma installValidator_only v a s s' :
  tv_Jailed v = false →
  cleared PowerKey s → cleared LastKey s → cleared ValidatorsKey s → cleared ValidatorQueueKey s →
  installValidator v a s = (s', Ret tt) →
  only_entry ValidatorsKey (validator_entry v) s' ∧ only_entry PowerKey (power_entry v) s' ∧
  only_entry LastKey (last_entry a 0) s' ∧ cleared ValidatorQueueKey s'.
Proof.
  intros Hj Cp Cl Cv Cq Hi. destruct distinct_prefixes as (D1&D2&D3&D4&D5&D6&D7&D8&D9&D10).
  destruct in_prefixes as (I1&I2&I3&I4&I5). destruct (entry_prefixes v a 0) as (P1&P2&P3&P4).
  unfold installValidator in Hi.
  apply bindM_ret in Hi as (s1 & [] & H1%handleErr_ret%SetValidator_kv & Hi).
  apply bindM_ret in Hi as (s2 & [] & H2%handleErr_ret%SetValidatorByConsAddr_kv & Hi).
  apply bindM_ret in Hi as (s3 & [] & H3%handleErr_ret & Hi). apply SetValidatorByPowerIndex_kv in H3; [|done].
  apply bindM_ret in Hi as (s4 & [] & H4%handleErr_ret%SetLastValidatorPower_kv & Hi).
  apply handleErr_ret in Hi. apply (other_kv a ("", 0) "" (mkTestSigningInfo "" 0 false)) in Hi.
  assert (V1 := insert_only _ _ _ _ Cv H1).
  assert (V2 := proj2 (insert_cleared _ _ _ _ _ I1 I5 D4 P2 H2) _ P1 V1).
  assert (V3 := proj2 (insert_cleared _ _ _ _ _ I1 I3 D2 P3 H3) _ P1 V2).
  assert (V4 := proj2 (insert_cleared _ _ _ _ _ I1 I4 D3 P4 H4) _ P1 V3).
  assert (W1 := proj1 (insert_cleared _ _ _ _ _ I3 I1 (not_eq_sym D2) P1 H1) Cp).
  assert (W2 := proj1 (insert_cleared _ _ _ _ _ I3 I5 D9 P2 H2) W1).
  assert (W3 := insert_only _ _ _ _ W2 H3).
  assert (W4 := proj2 (insert_cleared _ _ _ _ _ I3 I4 D8 P4 H4) _ P3 W3).
  assert (L1 := proj1 (insert_cleared _ _ _ _ _ I4 I1 (not_eq_sym D3) P1 H1) Cl).
  assert (L2 := proj1 (insert_cleared _ _ _ _ _ I4 I5 D10 P2 H2) L1).
  assert (L3 := proj1 (insert_cleared _ _ _ _ _ I4 I3 (not_eq_sym D8) P3 H3) L2).
  assert (L4 := insert_only _ _ _ _ L3 H4).
  assert (Q1 := proj1 (insert_cleared _ _ _ _ _ I2 I1 (not_eq_sym D1) P1 H1) Cq).
  assert (Q2 := proj1 (insert_cleared _ _ _ _ _ I2 I5 D7 P2 H2) Q1).
  assert (Q3 := proj1 (insert_cleared _ _ _ _ _ I2 I3 D5 P3 H3) Q2).
  assert (Q4 := proj1 (insert_cleared _ _ _ _ _ I2 I4 D6 P4 H4) Q3).
  split_and!; try (by eapply only_entry_same). unfold cleared, same in *. by rewrite Hi.
Qed.

(** What follows the installation leaves the staking store alone. *)
Lemma initDistribution_same a : preserves (same kv) (initDistribution a).
Proof.
  destruct (other_kv a ("", 0) "" (mkTestSigningInfo "" 0 false)) as (_&A2&A3&A4&A5&_).
  unfold initDistribution.
  do 3 (apply preserves_bind; [apply _|by apply handleErr_preserves|intros _]). by apply handleErr_preserves.
Qed.

Lemma initSigningInfo_same args : preserves (same kv) (initSigningInfo args).
Proof.
  unfold initSigningInfo. apply preserves_bind; [apply _|auto with nexus typeclass_instances|intros h].
  apply preserves_bind; [apply _| |intros _; auto with nexus typeclass_instances].
  apply preserves_try. apply (other_kv (newValAddr args) ("", 0) "").
Qed.

(** C31: the network has one validator.  When the command has prepared the
    state, the staking store holds exactly one validator record, one entry of
    the power index and one of the last validator set, those of the new
    validator, and no validator is queued for unbonding, whatever the store
    held before. *)
Theorem in_place_testnet_has_one_validator args s s' :
  initAppForTestnet args s = (s', Ret tt) →
  ∃ pk a, NewAnyWithValue (newValPubKey args) = Ret pk ∧
    ValidatorAddress_StringToBytes (newOperatorAddress args) = Ret a ∧
    only_entry ValidatorsKey (validator_entry (newVal args pk)) s' ∧
    only_entry PowerKey (power_entry (newVal args pk)) s' ∧
    only_entry LastKey (last_entry a 0) s' ∧ cleared ValidatorQueueKey s'.
Proof.
  unfold initAppForTestnet. intros Hi.
  apply bindM_ret in Hi as (s1 & pk & H1%handleErr_ret & Hi). injection H1 as <- Hpk.
  apply bindM_ret in Hi as (s2 & a & H2%handleErr_ret & Hi). injection H2 as <- Ha.
  exists pk, a. split; [done|]. split; [done|].
  apply bindM_ret in Hi as (s3 & [] & H3 & Hi). apply bindM_ret in Hi as (s4 & [] & H4 & Hi).
  apply bindM_ret in Hi as (s5 & [] & H5 & Hi). apply bindM_ret in Hi as (s6 & [] & H6 & Hi).
  destruct (removals_clear s s6) as (C1&C2&C3&C4).
  { unfold bindM in *. by rewrite H3, H4, H5, H6. }
  apply bindM_ret in Hi as (s7 & [] & H7 & Hi).
  apply installValidator_only in H7 as (O1&O2&O3&O4); [|done..].
  apply bindM_ret in Hi as (s8 & [] & H8%initDistribution_same & Hi).
  apply bindM_ret in Hi as (s9 & [] & H9%initSigningInfo_same & Hi).
  apply bindM_ret in Hi as (s10 & denom & H10%handleErr_ret & Hi). injection H10 as <- _.
  apply bindM_ret in Hi as (s11 & coins & H11 & Hi). injection H11 as <- _.
  apply fundAccounts_same in Hi. assert (Hs : same kv s7 s') by (unfold same in *; congruence).
  split_and!; try (by eapply only_entry_same). unfold cleared, same in *. by rewrite Hs.
Qed.

(** The command cannot be run without accounts to fund: the flag's default is
    the empty list of accounts, which splits into one empty address, and the
    address codec refuses that one, so the process exits. *)
Theorem in_place_testnet_needs_accounts ToString Get s s' :
  ToString (Get flagAccountsToFund) = "" → (∀ b, Address_StringToBytes "" ≠ Ret b) →
  newTestnetApp ToString Get s ≠ (s', Ret tt).
Proof.
  intros Hacc Hempty Hr. unfold newTestnetApp in Hr.
  apply bindM_ret in Hr as (s1 & args & H1 & Hr). injection H1 as <- H1.
  assert (Ha : accountsToFund args = [""]).
  { unfold getCommandArgs in H1. rewrite Hacc in H1. repeat (case_match; simplify_eq/=; try done). }
  unfold initAppForTestnet in Hr.
  do 11 (let x := fresh "x" in apply bindM_ret in Hr as (? & x & _ & Hr)).
  rewrite Ha in Hr. cbn [fundAccounts] in Hr.
  apply bindM_ret in Hr as (? & [] & _ & Hr).
  apply bindM_ret in Hr as (? & b & Hb%handleErr_ret & _). injection Hb as _ Hb. by eapply Hempty.
Qed.

End Claims.

(** ** Witnesses *)

Section Witnesses.

(** A state that is the staking store alone; the other modules do nothing. *)
Definition keys_under (p : string) (m : gmap string string) : list string :=
  List.filter (fun k => HasPrefix k p) (map_to_list m).*1.
Definition put (e : string * string) : M (gmap string string) unit := modify (fun m => <[e.1 := e.2]> m).
Definition skip : M (gmap string string) unit := ret tt.

Definition toy : TestnetKeepers (gmap string string) := {|
  kv m := m;
  kv_Delete k := modify (delete k);
  kv_Iterator p m := keys_under p m;
  ValidatorsKey := "V";
  ValidatorQueueKey := "Q";
  NewAnyWithValue pk := Ret pk;
  ValidatorAddress_StringToBytes a := Ret a;
  ValidatorsPowerStoreIterator m := Ret (keys_under "P" m);
  LastValidatorsIterator m := Ret (keys_under "L" m);
  SetValidator v := put ("V" +:+ tv_OperatorAddress v, tv_Moniker v);
  SetValidatorByConsAddr v := put ("C" +:+ tv_ConsensusPubkey v, tv_OperatorAddress v);
  SetValidatorByPowerIndex v := put ("P" +:+ fmt_d (tv_Tokens v), tv_OperatorAddress v);
  SetLastValidatorPower a n := put ("L" +:+ a, fmt_d n);
  AfterValidatorCreated a := skip;
  BondDenom m := Ret "atnex";
  SetValidatorHistoricalRewards a := skip;
  SetValidatorCurrentRewards a := skip;
  SetValidatorAccumulatedCommission a := skip;
  SetValidatorOutstandingRewards a := skip;
  ConsAddress_String a := a;
  SetValidatorSigningInfo a i := skip;
  LastBlockHeight m := 100;
  mint_ModuleName := "mint";
  NewCoins d a := Ret (d, a);
  MintCoins m c := skip;
  Address_StringToBytes a := if bool_decide (a = "") then Fail (errText "empty address string is not allowed") else Ret a;
  SendCoinsFromModuleToAccount m a c := skip |}.
#[local] Existing Instance toy.

Lemma keys_under_spec p m k : k ∈ keys_under p m ↔ HasPrefix k p = true ∧ is_Some (m !! k).
Proof.
  unfold keys_under. rewrite list_elem_of_In, filter_In, <-list_elem_of_In, list_elem_of_fmap. split.
  - intros [([k' v] & -> & Hl%elem_of_map_to_list) Hp]. eauto.
  - intros [Hp [v Hv]]. split; [|done]. exists (k, v). split; [done|]. by apply elem_of_map_to_list.
Qed.

Lemma skip_same : preserves (same (fun m => m)) skip.
Proof. by intros m m' o [= <- _]. Qed.

Lemma HasPrefix_one x k c : HasPrefix (String x k) (String c "") = true → c = x.
Proof. cbn [HasPrefix]. by intros [?%Ascii.eqb_eq _]%andb_true_iff. Qed.

Lemma toy_keepers_laws : TestnetKeepersLaws (gmap string string).
Proof.
  refine (@Build_TestnetKeepersLaws (gmap string string) toy "P" "L" "C"
    (fun v => ("V" +:+ tv_OperatorAddress v, tv_Moniker v)) (fun v => ("C" +:+ tv_ConsensusPubkey v, tv_OperatorAddress v))
    (fun v => ("P" +:+ fmt_d (tv_Tokens v), tv_OperatorAddress v)) (fun a n => ("L" +:+ a, fmt_d n))
    _ _ _ _ _ _ _ _ _ _ _ _); cbn [kv kv_Delete kv_Iterator ValidatorsKey ValidatorQueueKey toy
      ValidatorsPowerStoreIterator LastValidatorsIterator SetValidator SetValidatorByConsAddr
      SetValidatorByPowerIndex SetLastValidatorPower fst snd].
  - intros p q k Hp Hq. destruct k as [|x k]; [intros Hk; repeat (apply elem_of_cons in Hp as [->|Hp]; [by cbn in Hk|]); by apply elem_of_nil in Hp|].
    repeat (apply elem_of_cons in Hp as [->|Hp]; [|]); try (by apply elem_of_nil in Hp);
      repeat (apply elem_of_cons in Hq as [->|Hq]; [|]); try (by apply elem_of_nil in Hq); try done;
      intros ?%HasPrefix_one ?%HasPrefix_one; congruence.
  - apply (bool_decide_unpack _). vm_compute. done.
  - intros v a n. by repeat split; cbn; destruct (tv_OperatorAddress v), (tv_ConsensusPubkey v), (fmt_d (tv_Tokens v)), a.
  - intros k m. by exists (delete k m).
  - intros p m k. apply keys_under_spec.
  - intros m keys k [= <-]. apply keys_under_spec.
  - intros m keys k [= <-]. apply keys_under_spec.
  - by intros v m m' [= <-].
  - by intros v m m' [= <-].
  - by intros v m m' _ [= <-].
  - by intros a n m m' [= <-].
  - intros a c m i. split_and!; apply skip_same.
Qed.
#[local] Existing Instance toy_keepers_laws.

Definition mainnet : gmap string string :=
  list_to_map [("Vold", "old validator"); ("P55", "old"); ("Lold", "55"); ("Q1", "old"); ("Ckey", "old"); ("X", "params")].
Definition newArgs : valArgs := mkValArgs "cons" "op" "pk" ["alice"] "" "/home".
Definition prepared : gmap string string * outcome unit := initAppForTestnet newArgs mainnet.

Lemma in_place_testnet_has_one_validator_witness :
  ∃ pk a, NewAnyWithValue (newValPubKey newArgs) = Ret pk ∧
    ValidatorAddress_StringToBytes (newOperatorAddress newArgs) = Ret a ∧
    only_entry ValidatorsKey (validator_entry (newVal newArgs pk)) prepared.1 ∧
    only_entry PowerKey (power_entry (newVal newArgs pk)) prepared.1 ∧
    only_entry LastKey (last_entry a 0) prepared.1 ∧ cleared ValidatorQueueKey prepared.1.
Proof. apply (in_place_testnet_has_one_validator newArgs mainnet prepared.1). vm_compute. reflexivity. Defined.

(** The options of the command with the flag left at its default. *)
Definition defaultOptions (k : OptKey) : OptValue :=
  match k with
  | KeyNewValAddr => OHexBytes "cons" | KeyUserPubKey => OPubKey "pk" | KeyNewOpAddr => OString "op"
  | KeyTriggerTestnetUpgrade => OString "" | flagAccountsToFund => OString "" | FlagHome => OString "/home"
  end.
Definition toString (v : OptValue) : string := match v with OString s => s | _ => "" end.

Lemma in_place_testnet_needs_accounts_witness :
  let r := newTestnetApp toString defaultOptions mainnet in
  toString (defaultOptions flagAccountsToFund) = "" ∧ r ≠ (r.1, Ret tt).
Proof.
  split; [reflexivity|].
  apply (in_place_testnet_needs_accounts toString defaultOptions mainnet); [reflexivity|done].
Defined.

End Witnesses.

End InPlace.
