(* ===== verification/Commands.v ===== *)
(** * Embedded genesis files and the start of the daemon

    [genesis/genesis.go] (the genesis documents built into the binary),
    [cmd/nexusd/cmd/root.go] (what runs before every command, among it writing
    the embedded genesis for [start]), the gRPC set-up and the export command
    of [cmd/nexusd/cmd/commands.go], and [cmd/nexusd/cmd/config.go].

    The order in which Go visits a map is unspecified: it is an argument, a
    permutation of the keys.  The embedded file system, the SDK's command
    helpers and gRPC are library or build-time code: arguments and classes. *)

From stdpp Require Import sorting.
From S2P Require Import Prelude GoStd External ChainSpec Files Lib Testnet AppExport.

Module Commands.

(** ** The embedded genesis documents *)

Definition genesisPaths : gmap string string := list_to_map
  [("localnet", "chain-specs/localnet/cosmos.json");
   ("devnet", "chain-specs/devnet/cosmos.json");
   ("testnet", "chain-specs/testnet/cosmos.json");
   ("mainnet", "chain-specs/mainnet/cosmos.json")].

(** [Names]; [visit] is the order of the range over the map. *)
Definition Names (visit : list string) : list string := merge_sort String.le visit.

Definition IsEmbedded (name : string) : bool := bool_decide (is_Some (genesisPaths !! name)).

(** ["%v"] of a slice of strings. *)
Definition fmt_v (l : list string) : string := "[" +:+ Join_strings l " " +:+ "]".

(** [Genesis]; [fs] is [ReadFile] of the embedded file system. *)
Definition Genesis (fs : string → outcome string) (visit : list string) (name : string) : outcome string :=
  match genesisPaths !! name with
  | None => Fail (errText ("no embedded genesis for " +:+ fmt_q name +:+ " (available: " +:+ fmt_v (Names visit) +:+ ")"))
  | Some path => fs path
  end.

(** ** root.go *)

Definition FlagChain : string := "chain".

(** The loop of [formatNetworkList]: the names so far, and whether this is the
    first. *)
Fixpoint joinNetworks (i : nat) (names : list string) (out : string) : string :=
  match names with
  | [] => out
  | n :: rest => joinNetworks (S i) rest ((if (0 <? Z.of_nat i) then out +:+ "|" else out) +:+ n)
  end.

Definition formatNetworkList (visit : list string) : string := joinNetworks 0 (Names visit) "".

(** A command: its name and its flags. *)
Record Command := mkCommand { cmd_Name : string; cmd_Flags : Testnet.FlagSet }.

Section Root.
Context (fs : string → outcome string) (visit : list string) (FlagHome DefaultNodeHome : string).

Definition homeOf (cmd : Command) : string :=
  match Testnet.GetString (cmd_Flags cmd) FlagHome with
  | Ret h => if bool_decide (h = "") then DefaultNodeHome else h
  | _ => DefaultNodeHome
  end.

Definition writeEmbedded (cmd : Command) (chain : string) : M Disk unit :=
  let home := homeOf cmd in
  let! embedded := lift (Genesis fs visit chain) in
  let target := Join [home; "config"; "genesis.json"] in
  do! wrapM "create config dir" (MkdirAll (Dir target)) in
  do! wrapM "write embedded genesis" (WriteFile target embedded) in
  PrintErr ("Wrote embedded " +:+ fmt_q chain +:+ " genesis to " +:+ target).

Definition materializeEmbeddedGenesis (cmd : Command) : M Disk unit :=
  match Testnet.GetString (cmd_Flags cmd) FlagChain with
  | Ret chain =>
      if bool_decide (chain = "") then ret tt
      else if negb (IsEmbedded chain) then
        fail (errText ("--chain " +:+ fmt_q chain +:+ " is not supported (available: " +:+ fmt_v (Names visit) +:+ ")"))
      else if negb (bool_decide (cmd_Name cmd = "start")) then ret tt
      else writeEmbedded cmd chain
  | _ => ret tt
  end.

(** [PersistentPreRunE]: reading flags and configuration files, then the
    genesis.  The first four are SDK functions. *)
Definition PersistentPreRunE (ReadPersistentCommandFlags ReadFromClientConfig SetCmdClientContextHandler
    InterceptConfigsPreRunHandler : M Disk unit) (cmd : Command) : M Disk unit :=
  do! ReadPersistentCommandFlags in
  do! ReadFromClientConfig in
  do! SetCmdClientContextHandler in
  do! InterceptConfigsPreRunHandler in
  materializeEmbeddedGenesis cmd.

End Root.

(** ** config.go *)

(** Both functions return the library's defaults unchanged. *)
Definition initCometBFTConfig {C} (DefaultConfig : C) : C := DefaultConfig.
Definition initAppConfig {C} (DefaultConfigTemplate : string) (DefaultConfig : C) : string * C :=
  (DefaultConfigTemplate, DefaultConfig).

(** ** commands.go: the gRPC components *)

Definition CoreGrpcServerEnabledEnvVar : string := "GRPC_SERVER_ENABLED".
Definition CosmosGrpcAddrEnvVar : string := "COSMOS_GRPC_ADDR".

(** The gRPC state of the process: servers that serve (address and secret),
    open connections to Core, the client set on the application, and whether
    the clean-up goroutine is registered. *)
Record GrpcState := mkGrpcState {
  serving : list (string * string);
  connected : list (string * string);
  appCoreClient : option (string * string);
  cleanup : option ((string * string) * (string * string)) }.

Definition start_serving (srv : string * string) (g : GrpcState) : GrpcState :=
  mkGrpcState (srv :: serving g) (connected g) (appCoreClient g) (cleanup g).
Definition open_connection (c : string * string) (g : GrpcState) : GrpcState :=
  mkGrpcState (serving g) (c :: connected g) (appCoreClient g) (cleanup g).
Definition SetCoreClient (c : string * string) (g : GrpcState) : GrpcState :=
  mkGrpcState (serving g) (connected g) (Some c) (cleanup g).
Definition register_cleanup (srv c : string * string) (g : GrpcState) : GrpcState :=
  mkGrpcState (serving g) (connected g) (appCoreClient g) (Some (srv, c)).

(** [PostSetup] of the start command; [captured] tells whether [newAppWithCapture]
    has set [nexusApp], [listen] and [newClient] are [net.Listen] and
    [grpc.NewClient]. *)
Definition PostSetup (os : OS) (listen newClient : string → outcome unit) (captured : bool) : M GrpcState unit :=
  if negb (bool_decide (Getenv os CoreGrpcServerEnabledEnvVar = "true")) then ret tt
  else
    let envAddr := Getenv os CosmosGrpcAddrEnvVar in
    let cosmosAddr := if bool_decide (envAddr = "") then Lib.GRPCDefaultAddr else envAddr in
    let! grpcServer := lift (wrap "failed to start grpc server" (Lib.StartGRPCServer os listen cosmosAddr)) in
    do! modify (start_serving grpcServer) in
    let coreAddr := Lib.GetCoreAddr os in
    let! coreClient := lift (wrap "failed to create core client" (Lib.NewCoreClient os newClient coreAddr)) in
    do! modify (open_connection coreClient) in
    do! (if captured then modify (SetCoreClient coreClient) else ret tt) in
    modify (register_cleanup grpcServer coreClient).

(** What the clean-up goroutine waits for: the end of the context, an error of
    [Serve], or the end of [Serve] without one. *)
Inductive Wakeup := CtxDone | ServeFailed (e : error) | ServeEnded.

Definition remove_one (x : string * string) (l : list (string * string)) : list (string * string) :=
  List.filter (fun y => negb (bool_decide (y = x))) l.

(** The end of the goroutine that serves: an error of [Serve] is sent, then the
    channel is closed. *)
Definition serveGoroutine (result : option error) : Wakeup :=
  match result with Some e => ServeFailed e | None => ServeEnded end.

(** [GracefulStop] ends a server; [Stop] does so for a server that was
    started; [Close] of the client may fail and then keeps the connection. *)
Definition GracefulStop (srv : string * string) : M GrpcState unit :=
  modify (fun g => mkGrpcState (remove_one srv (serving g)) (connected g) (appCoreClient g) (cleanup g)).
Definition CosmosServer_Stop (grpcServer : option (string * string)) : M GrpcState unit :=
  match grpcServer with Some srv => GracefulStop srv | None => ret tt end.
Definition coreClient_Close (closeErr : option error) (c : string * string) : M GrpcState unit :=
  match closeErr with
  | Some e => fail e
  | None => modify (fun g => mkGrpcState (serving g) (remove_one c (connected g)) (appCoreClient g) (cleanup g))
  end.

(** The clean-up goroutine; an error of [Close] is only logged. *)
Definition runCleanup (closeErr : option error) (w : Wakeup) : M GrpcState unit :=
  let! registered := gets cleanup in
  match registered with
  | None => ret tt
  | Some (srv, c) =>
      match w with
      | CtxDone =>
          do! GracefulStop srv in
          let! closed := try (coreClient_Close closeErr c) in
          ret tt
      | ServeFailed e => fail e
      | ServeEnded => ret tt
      end
  end.

(** ** commands.go: export *)

Section Export.
Context {St DecCoins : Type} `{!AppExport.ExportKeepers St DecCoins}.
(** [app.New] with or without the latest state, [LoadHeight], and the height
    of the state that is loaded. *)
Context (New : bool → M St unit) (LoadHeight : Z → M St unit) (LastBlockHeight : St → Z).

(** [appExport]; [home] is the value of the home option when it is a string,
    [isViper] whether the options are a [*viper.Viper]. *)
Definition appExport (height : Z) (forZeroHeight : bool) (jailAllowedAddrs : list string)
    (home : option string) (isViper : bool) (modulesToExport : list string) : M St AppExport.ExportedApp :=
  if bool_decide (default "" home = "") then fail (errText "application home not set")
  else if negb isViper then fail (errText "appOpts is not viper.Viper")
  else
    do! (if negb (height =? -1) then do! New false in LoadHeight height else New true) in
    let! last := gets LastBlockHeight in
    AppExport.ExportAppStateAndValidators last forZeroHeight jailAllowedAddrs modulesToExport.

End Export.

(** ** Theorems *)

Definition networks : list string := ["devnet"; "localnet"; "mainnet"; "testnet"].

Lemma joinNetworks_from i names out : (0 < i)%nat →
  joinNetworks i names out = Join_strings (out :: names) "|".
Proof.
  revert i out. induction names as [|n names IH]; intros i out Hi; [done|]. cbn [joinNetworks].
  destruct (Z.ltb_spec 0 (Z.of_nat i)); [|lia]. rewrite IH by lia.
  destruct names as [|m names]; cbn [Join_strings]; by rewrite !string_app_assoc.
Qed.

Lemma joinNetworks_join names : joinNetworks 0 names "" = Join_strings names "|".
Proof. destruct names as [|n names]; [done|]. cbn [joinNetworks]. rewrite joinNetworks_from by lia. done. Qed.

(** In whatever order Go visits the map of networks, the list of names is
    the same sorted one, the help text joins it with bars as [strings.Join]
    would, and a name is listed exactly when its genesis is embedded. *)
Theorem networks_do_not_depend_on_map_order visit :
  visit ≡ₚ (map_to_list genesisPaths).*1 →
  Names visit = networks ∧ formatNetworkList visit = Join_strings networks "|" ∧
  ∀ name, name ∈ Names visit ↔ IsEmbedded name = true.
Proof.
  intros Hp.
  assert (Hn : Names visit = networks).
  { apply (Sorted_unique String.le).
    - apply Sorted_merge_sort, _.
    - unfold networks. repeat constructor.
    - unfold Names. rewrite merge_sort_Permutation, Hp. apply (bool_decide_unpack _). vm_compute. done. }
  split; [done|]. split; [unfold formatNetworkList; by rewrite joinNetworks_join, Hn|].
  intros name. unfold IsEmbedded. rewrite bool_decide_eq_true. unfold Names.
  rewrite merge_sort_Permutation, Hp, list_elem_of_fmap. split.
  - intros ([k v] & -> & Hl%elem_of_map_to_list). eauto.
  - intros [v Hv]. exists (name, v). split; [done|]. by apply elem_of_map_to_list.
Qed.

Section RootClaims.
Context (fs : string → outcome string) (visit : list string) (FlagHome DefaultNodeHome : string).

Abbreviation materialize := (materializeEmbeddedGenesis fs visit FlagHome DefaultNodeHome) (only parsing).
Abbreviation target cmd := (Join [homeOf FlagHome DefaultNodeHome cmd; "config"; "genesis.json"]) (only parsing).

(** What [--chain] does.  A network that is not embedded is refused whatever
    the command, and then nothing is written; a command other than [start], or
    no [--chain], writes nothing either; [start] with an embedded network
    touches no file but [<home>/config/genesis.json], and when it succeeds that
    file holds the embedded document. *)
Theorem embedded_genesis_is_materialized cmd d d' o :
  materialize cmd d = (d', o) →
  match Testnet.GetString (cmd_Flags cmd) FlagChain with
  | Ret chain =>
      if bool_decide (chain = "") then d' = d ∧ o = Ret tt
      else match genesisPaths !! chain with
           | None => d' = d ∧ ∃ e, o = Fail e
           | Some path =>
               if bool_decide (cmd_Name cmd = "start") then
                 touches (eq (resolve (cwd d) (target cmd))) d d' ∧
                 (o = Ret tt → ∃ doc, fs path = Ret doc ∧ files d' !! resolve (cwd d) (target cmd) = Some doc)
               else d' = d ∧ o = Ret tt
           end
  | _ => d' = d ∧ o = Ret tt
  end.
Proof.
  unfold materializeEmbeddedGenesis, IsEmbedded.
  destruct (Testnet.GetString (cmd_Flags cmd) FlagChain) as [chain| | |]; try by intros [= <- <-].
  case_bool_decide; [by intros [= <- <-]|].
  destruct (genesisPaths !! chain) as [path|] eqn:Hp; cbn [negb]; [|intros [= <- <-]; eauto].
  rewrite bool_decide_eq_true_2 by eauto. case_bool_decide; cbn [negb]; [|by intros [= <- <-]].
  unfold writeEmbedded, Genesis. rewrite Hp. intros Hw.
  destruct (fs path) as [doc| | |]; unfold bindM, lift in Hw; try by (injection Hw as <- <-; by split).
  unfold wrapM in Hw. destruct (MkdirAll _ d) as [d1 o1] eqn:H1.
  apply MkdirAll_touches with (P := eq (resolve (cwd d) (target cmd))) in H1. destruct o1; cbn [wrap] in Hw;
    try by (injection Hw as <- <-; by split).
  unfold WriteFile in Hw. destruct H1 as [C1 H1]. rewrite C1 in Hw.
  destruct (write_at _ doc d1) as [d2 o2] eqn:H2. pose proof H2 as H2'.
  apply write_at_touches with (P := eq (resolve (cwd d) (target cmd))) in H2; [|done].
  assert (H12 : touches (eq (resolve (cwd d) (target cmd))) d d2) by (etrans; [by split|done]).
  destruct o2 as [[]| | |]; cbn [wrap] in Hw; try by (injection Hw as <- <-; by split).
  apply write_at_ret in H2' as [F2 _]. injection Hw as <- <-. split; [exact H12|].
  intros _. exists doc. split; [done|]. cbn [files]. by rewrite F2, lookup_insert_eq.
Qed.

End RootClaims.

(** What [PostSetup] leaves when it returns on a process without gRPC
    components. *)
Lemma PostSetup_ret os listen newClient captured g0 g :
  PostSetup os listen newClient captured g0 = (g, Ret tt) →
  (Getenv os CoreGrpcServerEnabledEnvVar ≠ "true" ∧ g = g0) ∨
  ∃ a b secret, Getenv os CoreGrpcServerEnabledEnvVar = "true" ∧ len secret = 32 ∧
    serving g = (a, secret) :: serving g0 ∧ connected g = (b, secret) :: connected g0 ∧
    appCoreClient g = (if captured then Some (b, secret) else appCoreClient g0) ∧
    cleanup g = Some ((a, secret), (b, secret)).
Proof.
  unfold PostSetup. case_bool_decide as He; cbn [negb]; [|intros [= <-]; by left]. intros Hp. right.
  apply bindM_ret in Hp as (g1 & [a s1] & H1 & Hp). injection H1 as <- H1.
  apply bindM_ret in Hp as (g2 & [] & H2 & Hp). injection H2 as <-.
  apply bindM_ret in Hp as (g3 & [b s2] & H3 & Hp). injection H3 as <- H3.
  apply bindM_ret in Hp as (g4 & [] & H4 & Hp). injection H4 as <-.
  apply bindM_ret in Hp as (g5 & [] & H5 & Hp). injection Hp as <-.
  apply wrap_ret, Lib.StartGRPCServer_secret in H1. apply wrap_ret, Lib.NewCoreClient_secret in H3.
  assert (s2 = s1) as -> by congruence. apply Lib.LoadJWTSecretFromEnv_len in H1.
  exists a, b, s1. destruct captured; injection H5 as <-; by split_and!.
Qed.

(** The two gRPC components live and end together.  When PostSetup returns
    on a process without gRPC components, either they are disabled and nothing
    was started, or the server serves and the client is connected, both with
    the same 32-byte secret; and when the context ends and the connection
    closes, neither is left. *)
Theorem grpc_components_are_cleaned_up os listen newClient captured g :
  PostSetup os listen newClient captured (mkGrpcState [] [] None None) = (g, Ret tt) →
  (Getenv os CoreGrpcServerEnabledEnvVar ≠ "true" ∧ g = mkGrpcState [] [] None None) ∨
  ∃ a b secret, len secret = 32 ∧ serving g = [(a, secret)] ∧ connected g = [(b, secret)] ∧
    appCoreClient g = (if captured then Some (b, secret) else None) ∧
    ∃ g', runCleanup None CtxDone g = (g', Ret tt) ∧ serving g' = [] ∧ connected g' = [].
Proof.
  intros [?|(a & b & secret & _ & Hl & Hs & Hc & Ha & Hcl)]%PostSetup_ret; [by left|right].
  exists a, b, secret. split_and!; try done.
  unfold runCleanup, bindM, gets. rewrite Hcl. eexists. split; [reflexivity|].
  cbn. rewrite Hs, Hc. cbn. by rewrite !bool_decide_eq_true_2.
Qed.

(** A connection that cannot be created leaves the server serving: the error
    is returned before the clean-up is registered. *)
Theorem core_client_failure_leaves_server os listen newClient captured a secret e :
  Getenv os CoreGrpcServerEnabledEnvVar = "true" →
  Lib.StartGRPCServer os listen
    (if bool_decide (Getenv os CosmosGrpcAddrEnvVar = "") then Lib.GRPCDefaultAddr else Getenv os CosmosGrpcAddrEnvVar) =
    Ret (a, secret) →
  Lib.NewCoreClient os newClient (Lib.GetCoreAddr os) = Fail e →
  ∃ g e', PostSetup os listen newClient captured (mkGrpcState [] [] None None) = (g, Fail e') ∧
    serving g = [(a, secret)] ∧ cleanup g = None.
Proof.
  intros He Hs Hc. unfold PostSetup. rewrite bool_decide_eq_true_2 by done. cbn [negb].
  unfold bindM, lift, modify. rewrite Hs. cbn [wrap]. rewrite Hc. cbn [wrap]. eauto.
Qed.

(** The exported height is the one that was asked for.  Exporting at a
    height loads that height, not the latest state, and the document says the
    block after it (or zero); without a home directory or with other options
    nothing is opened. *)
Theorem export_uses_the_requested_height {St DecCoins} `{!AppExport.ExportKeepers St DecCoins}
    (New : bool → M St unit) (LoadHeight : Z → M St unit) (LastBlockHeight : St → Z)
    height zero allowed home isViper modules (s s' : St) x :
  (∀ h s s', LoadHeight h s = (s', Ret tt) → LastBlockHeight s' = h) →
  is_i64 height → height ≠ -1 → height ≠ maxInt64 →
  appExport New LoadHeight LastBlockHeight height zero allowed home isViper modules s = (s', Ret x) →
  home ≠ None ∧ home ≠ Some "" ∧ isViper = true ∧ AppExport.xa_Height x = (if zero then 0 else height + 1) ∧
  ∃ s1 s2, New false s = (s1, Ret tt) ∧ LoadHeight height s1 = (s2, Ret tt) ∧
    AppExport.ExportAppStateAndValidators height zero allowed modules s2 = (s', Ret x).
Proof.
  intros Hload Hi Hne Hmax. unfold appExport. case_bool_decide as Hh; [done|].
  destruct isViper; cbn [negb]; [|done]. intros Hr.
  apply bindM_ret in Hr as (s2 & [] & H2 & Hr).
  destruct (Z.eqb_spec height (-1)); cbn [negb] in H2; [done|].
  apply bindM_ret in H2 as (s1 & [] & H1 & H2).
  apply bindM_ret in Hr as (s3 & last & H3 & Hr). injection H3 as <- <-.
  rewrite (Hload _ _ _ H2) in Hr. split; [by intros ->|]. split; [by intros ->|]. split; [done|].
  split; [|eauto]. apply AppExport.ExportApp_height in Hr; [done|].
  unfold is_i64, maxInt64 in *. lia.
Qed.

(** ** Witnesses *)

Section Witnesses.

Lemma networks_do_not_depend_on_map_order_witness :
  Names ["testnet"; "mainnet"; "localnet"; "devnet"] = networks.
Proof.
  apply (networks_do_not_depend_on_map_order ["testnet"; "mainnet"; "localnet"; "devnet"]).
  apply (bool_decide_unpack _). vm_compute. done.
Defined.

Example help_text : formatNetworkList ["testnet"; "mainnet"; "localnet"; "devnet"] = "devnet|localnet|mainnet|testnet".
Proof. vm_compute. reflexivity. Qed.

Definition startDevnet : Command :=
  mkCommand "start" (Testnet.mkFlagSet (fun f => Ret (if bool_decide (f = FlagChain) then "devnet" else "/data")) (fun _ => Ret 0)).
Definition docs (path : string) : outcome string := Ret ("genesis of " +:+ path).
Definition disk : Disk := mkDisk "/home/op" ∅ ∅ 0 (fun _ => NoFault) [].
Definition started : Disk * outcome unit :=
  materializeEmbeddedGenesis docs networks "home" "/default" startDevnet disk.

Lemma embedded_genesis_is_materialized_witness :
  ∃ doc, docs "chain-specs/devnet/cosmos.json" = Ret doc ∧
    files started.1 !! resolve (cwd disk) "/data/config/genesis.json" = Some doc.
Proof.
  pose proof (embedded_genesis_is_materialized docs networks "home" "/default" startDevnet disk started.1 (Ret tt)
                ltac:(vm_compute; reflexivity)) as Hm.
  destruct Hm as [_ Hm]. exact (Hm eq_refl).
Defined.

Definition grpcEnv : OS :=
  mkOS (fun v => if bool_decide (v = CoreGrpcServerEnabledEnvVar) then "true"
                 else if bool_decide (v = Lib.GRPCJWTSecretPathEnvVar) then "jwt" else "")
    (fun _ => false) (fun _ => Ret Lib.secret_file).
Definition running : GrpcState * outcome unit :=
  PostSetup grpcEnv (fun _ => Ret tt) (fun _ => Ret tt) true (mkGrpcState [] [] None None).

Lemma grpc_components_are_cleaned_up_witness :
  (Getenv grpcEnv CoreGrpcServerEnabledEnvVar ≠ "true" ∧ running.1 = mkGrpcState [] [] None None) ∨
  ∃ a b secret, len secret = 32 ∧ serving running.1 = [(a, secret)] ∧ connected running.1 = [(b, secret)] ∧
    appCoreClient running.1 = (if true then Some (b, secret) else None) ∧
    ∃ g', runCleanup None CtxDone running.1 = (g', Ret tt) ∧ serving g' = [] ∧ connected g' = [].
Proof.
  apply (grpc_components_are_cleaned_up grpcEnv (fun _ => Ret tt) (fun _ => Ret tt) true running.1).
  vm_compute. reflexivity.
Defined.

#[local] Existing Instance AppExport.toy_staking.

(** An application that is the state of three validators, whatever height is
    loaded; the height that was asked for is the size of the pool. *)
Definition setPool (h : Z) (s : AppExport.Staking) : AppExport.Staking :=
  AppExport.mkStaking (AppExport.st_reds s) (AppExport.st_ubds s) (AppExport.st_vals s) (AppExport.st_infos s) h.
Definition exported : AppExport.Staking * outcome AppExport.ExportedApp :=
  appExport (fun _ => ret tt) (fun h => modify (setPool h)) AppExport.st_pool 41 false [] (Some "/data") true [] AppExport.running.

Lemma export_uses_the_requested_height_witness : ∃ x, exported = (exported.1, Ret x) ∧ AppExport.xa_Height x = 42.
Proof.
  destruct (is_ret_run exported) as [x Hx]; [vm_compute; reflexivity|]. exists x. split; [exact Hx|].
  apply (export_uses_the_requested_height (fun _ => ret tt) (fun h => modify (setPool h)) AppExport.st_pool
           41 false [] (Some "/data") true [] AppExport.running exported.1 x).
  - intros h s s' [= <-]. reflexivity.
  - unfold is_i64. lia.
  - lia.
  - unfold maxInt64. lia.
  - exact Hx.
Defined.

End Witnesses.

End Commands.
