(* ===== verification/Wiring.v ===== *)
(** * How the application is put together

    [app/app_config.go] (modules, their order, module accounts),
    [app/app.go] ([New], the chain initializer, routes and accessors),
    [app/ibc.go], [app/migrations.go], [app/genesis_account.go],
    [app/config.go], [docs/docs.go], the provider of
    [x/evm/module/depinject.go] and the registration of the IBC modules on the
    client side in [cmd/nexusd/cmd/root.go].  The provider of [x/globalfee]
    only packs its keeper, which is the store itself in [GlobalFee].

    A module is named by a constructor instead of the string constant of its
    package.  Dependency injection, the builder and [Load] are library code:
    the class [AppLib].  A callback that is set on the application is recorded
    as set; what it does is the subject of the other files. *)

From S2P Require Import Prelude GoStd GoJson External ChainSpec Engine Concrete EvmTypes Keeper Proposal Upgrades Hooks Alerts Readiness.

Module Wiring.

(** ** Names *)

Inductive Mod :=
| runtime | auth | vesting | bank | staking | slashing | tx | genutil | authz | upgrade
| distribution | evidence | mint | group | nft | feegrant | gov | consensus | circuit
| params | epochs | evm | globalfee | ibc | transfer | ica | ibctm | solomachine.

#[export] Instance Mod_eq_dec : EqDecision Mod.
Proof. solve_decision. Defined.

(** Module accounts: [FeeCollectorName], the two pools, or a module's. *)
Inductive Account := FeeCollector | BondedPool | NotBondedPool | OfModule (m : Mod).
#[export] Instance Account_eq_dec : EqDecision Account.
Proof. solve_decision. Defined.

Inductive Permission := Minter | Burner | Staking.
#[export] Instance Permission_eq_dec : EqDecision Permission.
Proof. solve_decision. Defined.

(** Key-value stores and parameter subspaces the IBC modules add. *)
Inductive IBCName := ibcCore | ibcTransfer | icaHost | icaController.
#[export] Instance IBCName_eq_dec : EqDecision IBCName.
Proof. solve_decision. Defined.

Definition Name : string := "nexus".
Definition AccountAddressPrefix : string := "nexus".
Definition ChainCoinType : Z := 118.

(** ** app_config.go *)

Definition moduleAccPerms : list (Account * list Permission) :=
  [(FeeCollector, []);
   (OfModule distribution, []);
   (OfModule mint, [Minter]);
   (BondedPool, [Burner; Minter; Staking]);
   (NotBondedPool, [Burner; Staking]);
   (OfModule gov, [Burner]);
   (OfModule nft, []);
   (OfModule transfer, [Minter; Burner]);
   (OfModule ica, [])].

Definition blockAccAddrs : list Account :=
  [FeeCollector; OfModule distribution; OfModule mint; BondedPool; NotBondedPool; OfModule nft].

Definition beginBlockers : list Mod :=
  [mint; distribution; slashing; evidence; staking; authz; epochs; ibc; evm].

Definition endBlockers : list Mod := [gov; staking; feegrant; group; evm].

(** The configuration of the runtime module; lists that are not given are
    empty. *)
Record RuntimeModule := mkRuntimeModule {
  AppName : string; PreBlockers : list Mod; BeginBlockers : list Mod; EndBlockers : list Mod;
  InitGenesis : list Mod; OverrideStoreKeys : list (Mod * string) }.

Definition runtimeModule : RuntimeModule :=
  mkRuntimeModule Name [upgrade; auth] [] []
    [consensus; auth; bank; distribution; staking; slashing; gov; mint; genutil; evidence; authz; feegrant;
     vesting; nft; group; upgrade; circuit; epochs; ibc; transfer; ica; evm; globalfee]
    [(auth, "acc")].

(** The configuration of a module, with the options that are given. *)
Inductive ModuleConfig :=
| RuntimeConfig (c : RuntimeModule)
| AuthConfig (Bech32Prefix : string) (perms : list (Account * list Permission)) (EnableUnorderedTransactions : bool)
| BankConfig (BlockedModuleAccountsOverride : list Account)
| TxConfig (SkipAnteHandler SkipPostHandler : bool)
| UpgradeConfig (Authority : Mod)
| GroupConfig (MaxExecutionPeriod MaxMetadataLen : Z)
| EvmConfig (Authority : string)
| DefaultModule.

Definition appConfig : list (Mod * ModuleConfig) :=
  [(runtime, RuntimeConfig runtimeModule);
   (auth, AuthConfig AccountAddressPrefix moduleAccPerms true);
   (vesting, DefaultModule);
   (bank, BankConfig blockAccAddrs);
   (staking, DefaultModule);
   (slashing, DefaultModule);
   (tx, TxConfig true true);
   (genutil, DefaultModule);
   (authz, DefaultModule);
   (upgrade, UpgradeConfig gov);
   (distribution, DefaultModule);
   (evidence, DefaultModule);
   (mint, DefaultModule);
   (group, GroupConfig (1209600 * Second) 255);
   (nft, DefaultModule);
   (feegrant, DefaultModule);
   (gov, DefaultModule);
   (consensus, DefaultModule);
   (circuit, DefaultModule);
   (params, DefaultModule);
   (epochs, DefaultModule);
   (evm, EvmConfig "");
   (globalfee, DefaultModule)].

(** [depinject.Config], as [AppConfig] makes it: the modules' configuration and
    the module basics that are supplied with it. *)
Record DepinjectConfig := mkDepinjectConfig { cfg_modules : list (Mod * ModuleConfig); cfg_basics : list Mod }.
Definition app_AppConfig : DepinjectConfig := mkDepinjectConfig appConfig [genutil].

(** [init]: the variables of other packages it sets, and [DefaultNodeHome]. *)
Record Globals := mkGlobals { BondDenom : string; EnvPrefix : string; DefaultNodeHome : string }.
Definition app_init (GetNodeHomeDirectory : string → outcome string) : outcome Globals :=
  let? home := must (GetNodeHomeDirectory ("." +:+ Name)) in
  Ret (mkGlobals Upgrades.DefaultBondDenom Name home).

(** ** Module accounts *)

(** [GetMaccPerms]: later entries of the list would replace earlier ones. *)
Definition GetMaccPerms (a : Account) : option (list Permission) :=
  fold_left (fun dup e => if bool_decide (e.1 = a) then Some e.2 else dup) moduleAccPerms None.

(** [BlockedAddresses]: the addresses that map to [true]. *)
Definition BlockedAddresses (a : Account) : bool :=
  if 0 <? Z.of_nat (length blockAccAddrs) then bool_decide (a ∈ blockAccAddrs)
  else bool_decide (is_Some (GetMaccPerms a)).

(** ** genesis_account.go *)

Record BaseAccount := mkBaseAccount { ba_Address : string; ba_rest : string }.

Record GenesisAccount := mkGenesisAccount {
  ga_BaseAccount : BaseAccount; OriginalVesting : Coins; DelegatedFree : Coins; DelegatedVesting : Coins;
  StartTime : Z; EndTime : Z; ga_ModuleName : string; ModulePermissions : list string }.

(** [Coins.IsZero]: no coin with an amount. *)
Definition Coins_IsZero (c : Coins) : bool := forallb (fun e => snd e =? 0) c.

(** [GenesisAccount.Validate]; the two methods of the auth module are
    arguments. *)
Definition GenesisAccount_Validate (BaseAccount_Validate : BaseAccount → outcome unit)
    (ModuleAccount_Validate : BaseAccount → string → list string → outcome unit) (sga : GenesisAccount) : outcome unit :=
  do? (if negb (Coins_IsZero (OriginalVesting sga)) then
         guard_err (negb (EndTime sga <=? StartTime sga)) (errText "vesting start-time cannot be before end-time")
       else Ret tt) in
  do? (if negb (bool_decide (ga_ModuleName sga = "")) then
         ModuleAccount_Validate (ga_BaseAccount sga) (ga_ModuleName sga) (ModulePermissions sga)
       else Ret tt) in
  BaseAccount_Validate (ga_BaseAccount sga).

(** ** config.go: the address prefixes *)

Record SdkConfig := mkSdkConfig {
  CoinType : Z; Account_prefix : string * string; Validator_prefix : string * string;
  Consensus_prefix : string * string; Sealed : bool }.

Definition initConfig : SdkConfig :=
  mkSdkConfig ChainCoinType (AccountAddressPrefix, AccountAddressPrefix +:+ "pub")
    (AccountAddressPrefix +:+ "valoper", AccountAddressPrefix +:+ "valoperpub")
    (AccountAddressPrefix +:+ "valcons", AccountAddressPrefix +:+ "valconspub") true.

(** ** depinject.go *)

Section Provide.
Context `{GoEthereum, CosmosSDK}.
(** [authtypes.NewModuleAddressOrBech32Address]. *)
Context (NewModuleAddressOrBech32Address : string → string).

Definition evm_ProvideModule (os : OS) (yaml : string → outcome rawConfig) (createEngineClient schema : outcome unit)
    (Authority : string) (paramsCodec : ValueCodec Params) (chainSpec : ChainSpec) : outcome Keeper :=
  let authority := if bool_decide (Authority = "") then NewModuleAddress GovModuleName
                   else NewModuleAddressOrBech32Address Authority in
  NewKeeper os yaml createEngineClient schema authority paramsCodec chainSpec.

End Provide.

(** ** The application *)

(** What [New] sets on the base application. *)
Record BaseApp := mkBaseApp {
  PrepareProposal_max : option Z;        (** the handler and its limit *)
  ProcessProposal_max : option Z;
  AnteHandler : bool; PreBlocker_set : bool; BeginBlocker_set : bool; EndBlocker_set : bool;
  InitChainer_set : bool;
  StoreLoader : option (Z * list Mod) }. (** height and added stores *)

Record ModuleManager := mkModuleManager {
  Modules : list Mod; OrderPreBlockers : list Mod; OrderBeginBlockers : list Mod;
  OrderEndBlockers : list Mod; OrderInitGenesis : list Mod }.

(** The IBC keepers: the store key and the subspace each was built with, the
    routes of the two routers and of the light clients. *)
Record IBCState := mkIBCState {
  keeperStores : list (IBCName * option IBCName);
  keeperSubspaces : list (IBCName * option IBCName);
  router : list IBCName; routerV2 : list IBCName; clientRoutes : list Mod }.

(** The struct, less its codecs and the keepers of the SDK, which are only
    handed on to libraries; its client for Core is in [Commands]. *)
Record App := mkApp {
  baseApp : BaseApp; manager : ModuleManager; stores : list IBCName; subspaces : list IBCName;
  ibcState : option IBCState; evmKeeper : Keeper; hooks : Hooks.BlockHooks;
  webhookNotifier : option Alerts.webhookNotifier; upgradeNotifier : bool;
  upgradeHandlers : list string;
  sm : list Mod }. (** the modules of the simulation manager *)

(** The libraries: [Inject] builds everything but the evm module's keeper from
    the configuration; [RegisterStores] and [RegisterModules] may refuse;
    [Load] loads the state, and sets the orders that the runtime configuration
    gives. *)
Class AppLib := {
  Inject : DepinjectConfig → outcome unit;
  NewSimulationManagerFromAppModules : list Mod → list Mod → list Mod;
  RegisterStores_ok : list IBCName → App → outcome unit;
  RegisterModules_ok : list Mod → App → outcome unit;
  ReadUpgradeInfoFromDisk : outcome (string * Z);
  IsSkipHeight : Z → bool;
  Load : bool → RuntimeModule → App → outcome App }.

Definition with_base (b : BaseApp) (a : App) : App :=
  mkApp b (manager a) (stores a) (subspaces a) (ibcState a) (evmKeeper a) (hooks a) (webhookNotifier a)
    (upgradeNotifier a) (upgradeHandlers a) (sm a).
Definition with_manager (m : ModuleManager) (a : App) : App :=
  mkApp (baseApp a) m (stores a) (subspaces a) (ibcState a) (evmKeeper a) (hooks a) (webhookNotifier a)
    (upgradeNotifier a) (upgradeHandlers a) (sm a).

Section New.
Context `{AppLib}.

(** *** ibc.go *)

Definition RegisterStores (keys : list IBCName) (a : App) : outcome App :=
  do? RegisterStores_ok keys a in
  Ret (mkApp (baseApp a) (manager a) (stores a ++ keys)%list (subspaces a) (ibcState a) (evmKeeper a) (hooks a)
         (webhookNotifier a) (upgradeNotifier a) (upgradeHandlers a) (sm a)).

(** [app.GetKey]: nil when no such store is registered. *)
Definition GetKey (k : IBCName) (a : App) : option IBCName := if bool_decide (k ∈ stores a) then Some k else None.

Definition addSubspace (n : IBCName) (a : App) : App :=
  mkApp (baseApp a) (manager a) (stores a) (subspaces a ++ [n])%list (ibcState a) (evmKeeper a) (hooks a)
    (webhookNotifier a) (upgradeNotifier a) (upgradeHandlers a) (sm a).

(** [app.GetSubspace]: the zero value when there is none. *)
Definition GetSubspace (n : IBCName) (a : App) : option IBCName :=
  if bool_decide (n ∈ subspaces a) then Some n else None.

Definition RegisterModules (ms : list Mod) (a : App) : outcome App :=
  do? RegisterModules_ok ms a in
  let m := manager a in
  Ret (with_manager (mkModuleManager (Modules m ++ ms)%list (OrderPreBlockers m) (OrderBeginBlockers m)
         (OrderEndBlockers m) (OrderInitGenesis m)) a).

Definition ibcNames : list IBCName := [ibcCore; ibcTransfer; icaHost; icaController].

Definition registerIBCModules (app : App) : outcome App :=
  let? app := RegisterStores ibcNames app in
  let app := fold_left (fun a n => addSubspace n a) [ibcCore; ibcTransfer; icaController; icaHost] app in
  let st := mkIBCState ((fun n => (n, GetKey n app)) <$> ibcNames) ((fun n => (n, GetSubspace n app)) <$> ibcNames)
              [ibcTransfer; icaController; icaHost] [ibcTransfer] [ibctm; solomachine] in
  let app := mkApp (baseApp app) (manager app) (stores app) (subspaces app) (Some st) (evmKeeper app) (hooks app)
               (webhookNotifier app) (upgradeNotifier app) (upgradeHandlers app) (sm app) in
  RegisterModules [ibc; transfer; ica; ibctm; solomachine] app.

(** *** migrations.go *)

Definition globalFeeV1 : string := "globalfee-v1".

Definition registerGlobalFeeV1 (upgradeInfo : string * Z) (a : App) : App :=
  let a := mkApp (baseApp a) (manager a) (stores a) (subspaces a) (ibcState a) (evmKeeper a) (hooks a)
             (webhookNotifier a) (upgradeNotifier a) (globalFeeV1 :: upgradeHandlers a) (sm a) in
  if bool_decide (upgradeInfo.1 = globalFeeV1) && negb (IsSkipHeight upgradeInfo.2) then
    let b := baseApp a in
    with_base (mkBaseApp (PrepareProposal_max b) (ProcessProposal_max b) (AnteHandler b) (PreBlocker_set b)
                 (BeginBlocker_set b) (EndBlocker_set b) (InitChainer_set b) (Some (upgradeInfo.2, [globalfee]))) a
  else a.

Definition registerMigrations (a : App) : outcome App :=
  let? upgradeInfo := must ReadUpgradeInfoFromDisk in
  Ret (registerGlobalFeeV1 upgradeInfo a).

(** *** New *)

Definition WebhookURLEnvVar : string := "NEXUS_ALERT_WEBHOOK_URL".
Definition newWebhookNotifierFromEnv (os : OS) : Alerts.webhookNotifier :=
  Alerts.newWebhookNotifier (Getenv os WebhookURLEnvVar).

(** The application after [depinject.Inject]. *)
Definition injected (k : Keeper) : App :=
  mkApp (mkBaseApp None None false false false false false None)
    (mkModuleManager (fst <$> appConfig) [] [] [] []) [] [] None k ∅ None false [] [].

(** [appBuilder.Build] runs the options, the last of which sets the two
    proposal handlers; then the ante handler. *)
Definition build (a : App) : App :=
  with_base (mkBaseApp (Some maxCosmosTxsPerBlock) (Some maxCosmosTxsPerBlock) true false false false false None) a.

(** The simulation manager of the modules that are registered by now; the auth
    module is replaced.  [RegisterStoreDecoders] only fills tables of the
    modules. *)
Definition setSimulationManager (a : App) : App :=
  mkApp (baseApp a) (manager a) (stores a) (subspaces a) (ibcState a) (evmKeeper a) (hooks a) (webhookNotifier a)
    (upgradeNotifier a) (upgradeHandlers a) (NewSimulationManagerFromAppModules (Modules (manager a)) [auth]).

(** From [LoadHooks] to [SetInitChainer]. *)
Definition setCallbacks (hs : Hooks.BlockHooks) (n : Alerts.webhookNotifier) (a : App) : App :=
  let b := baseApp a in
  let m := manager a in
  mkApp (mkBaseApp (PrepareProposal_max b) (ProcessProposal_max b) (AnteHandler b) true true true true (StoreLoader b))
    (mkModuleManager (Modules m) (OrderPreBlockers m) beginBlockers endBlockers (OrderInitGenesis m))
    (stores a) (subspaces a) (ibcState a) (evmKeeper a) hs (Some n) true (upgradeHandlers a) (sm a).

Section Build.
Context `{GoEthereum, CosmosSDK} (NewModuleAddressOrBech32Address : string → string).
Context `{!Hooks.Bech32}.

(** What the process is given: the YAML decoders of the three sections of the
    configuration file, the engine client, the store schema and the codec. *)
Record Env := mkEnv {
  env_os : OS;
  yaml_forks : string → outcome ChainSpec;
  yaml_keeper : string → outcome rawConfig;
  yaml_hooks : string → outcome (list Hooks.RawHook);
  engineClient : outcome unit;
  schema : outcome unit;
  paramsCodec : ValueCodec Params }.

Definition New (env : Env) (loadLatest : bool) : outcome App :=
  let? chainSpec := LoadChainSpec (env_os env) (yaml_forks env) in
  do? must (Inject app_AppConfig) in
  let? k := must (evm_ProvideModule NewModuleAddressOrBech32Address (env_os env) (yaml_keeper env)
                    (engineClient env) (schema env) "" (paramsCodec env) chainSpec) in
  let? app := must (registerIBCModules (build (injected k))) in
  let app := setSimulationManager app in
  let? hs := Hooks.LoadHooks (env_os env) (yaml_hooks env) in
  let app := setCallbacks hs (newWebhookNotifierFromEnv (env_os env)) app in
  let? app := registerMigrations app in
  must (Load loadLatest runtimeModule app).

End Build.

(** The chain initializer: the version map first, then the modules' genesis;
    an error of either is returned. *)
Definition InitChainer {St R} (SetModuleVersionMap : list Mod → M St unit) (runtime_InitChainer : M St R)
    (a : App) : M St R :=
  do! SetModuleVersionMap (Modules (manager a)) in
  let! resp := runtime_InitChainer in
  ret resp.

Definition BeginBlocker {St R} (ModuleManager_BeginBlock : M St R) : M St R := ModuleManager_BeginBlock.

(** The router: the routes of the libraries, and those of this program with
    their path (and method, if only one is served). *)
Inductive Route :=
| ModuleRoutes
| SwaggerRoutes
| FileServer (path : string)
| OpenAPIConsole (path title url : string)
| ReadinessProbe (path method : string).

(** *** docs.go *)

Definition apiFile : string := "/static/openapi.json".

(** [handler]: a page with this title that loads the document at [apiFile]. *)
Definition handler (title : string) : Route := OpenAPIConsole "/" title apiFile.

Definition RegisterOpenAPIService (appName : string) (rtr : list Route) : list Route :=
  (rtr ++ [FileServer apiFile; handler appName])%list.

Definition readinessHTTPPath : string := "/readyz".
Definition registerReadinessHandlers (rtr : list Route) : list Route :=
  (rtr ++ [ReadinessProbe readinessHTTPPath "GET"])%list.

(** [RegisterAPIRoutes]: the routes in their order and the probe configuration
    that is loaded with them; [client] tells whether there is a CometBFT
    client, whose status the probe asks for. *)

Definition RegisterAPIRoutes (os : OS) (RegisterSwaggerAPI : outcome unit) (client : bool) :
    outcome (list Route * Readiness.readinessProbeConfig * bool) :=
  do? must RegisterSwaggerAPI in
  let rtr := RegisterOpenAPIService Name [ModuleRoutes; SwaggerRoutes] in
  Ret (registerReadinessHandlers rtr, Readiness.loadReadinessProbeConfig os, client).

End New.

(** *** The client side *)

(** The keys of the map [RegisterIBC] returns. *)
Definition RegisterIBC : list Mod := [ibc; transfer; ica; ibctm; solomachine].

(** The loop of [NewRootCmd]: the modules the command line knows. *)
Definition clientModules (moduleBasicManager : list Mod) : list Mod :=
  fold_left (fun known m => if bool_decide (m ∈ known) then known else m :: known) RegisterIBC moduleBasicManager.

(** ** Theorems *)

(** [x] comes before [y] in an order. *)
Definition before (l : list Mod) (x y : Mod) : Prop := ∃ i j, l !! i = Some x ∧ l !! j = Some y ∧ (i < j)%nat.

(** An application in which everything fits. *)
Record wired `{CosmosSDK, AppLib} (a : App) : Prop := {
  w_handlers : baseApp a = mkBaseApp (Some 1) (Some 1) true true true true true (StoreLoader (baseApp a));
  w_modules : NoDup (Modules (manager a));
  w_orders l : l ∈ [OrderPreBlockers (manager a); OrderBeginBlockers (manager a); OrderEndBlockers (manager a);
                    OrderInitGenesis (manager a)] → NoDup l ∧ l ⊆ Modules (manager a);
  w_genesis m : (m ∈ Modules (manager a) ∧ m ∉ OrderInitGenesis (manager a)) ↔
                m ∈ [runtime; tx; params; ibctm; solomachine];
  w_upgrade_first : head (OrderPreBlockers (manager a)) = Some upgrade;
  w_fees_before_slashing : before (OrderBeginBlockers (manager a)) distribution slashing;
  w_genutil : before (OrderInitGenesis (manager a)) staking genutil ∧ before (OrderInitGenesis (manager a)) auth genutil;
  w_ibc : ∃ st, ibcState a = Some st ∧ Forall (fun e => e.2 = Some e.1) (keeperStores st) ∧
          Forall (fun e => e.2 = Some e.1) (keeperSubspaces st) ∧ clientRoutes st ⊆ Modules (manager a);
  w_simulation : sm a = NewSimulationManagerFromAppModules (Modules (manager a)) [auth];
  w_authority : k_authority (evmKeeper a) = NewModuleAddress GovModuleName;
  w_forks : ChainSpec_Validate (k_chainSpec (evmKeeper a)) = Ret tt }.

(** What [Load] does to the orders: those of the runtime configuration are
    set, and a list that it leaves empty keeps order and callback. *)
Class AppLibLaws `{AppLib} := {
  Load_orders latest cfg a a' : Load latest cfg a = Ret a' → BeginBlockers cfg = [] → EndBlockers cfg = [] →
    PreBlockers cfg ≠ [] → InitGenesis cfg ≠ [] → a' = with_manager (mkModuleManager (Modules (manager a)) (PreBlockers cfg) (OrderBeginBlockers (manager a))
           (OrderEndBlockers (manager a)) (InitGenesis cfg)) a }.

Section Claims.
Context `{AppLibLaws, GoEthereum, CosmosSDK} (NewModuleAddressOrBech32Address : string → string).
Context `{!Hooks.Bech32}.

Lemma must_ret {A} (o : outcome A) x : must o = Ret x → o = Ret x.
Proof. by destruct o. Qed.

Lemma NewKeeper_ret os yaml e sc auth pc cs k :
  NewKeeper os yaml e sc auth pc cs = Ret k → k_authority k = auth ∧ k_chainSpec k = cs.
Proof.
  unfold NewKeeper. intros Hk. do 4 (apply bindO_ret in Hk as (? & _ & Hk)). by injection Hk as <-.
Qed.

Lemma LoadChainSpec_valid os yaml cs : LoadChainSpec os yaml = Ret cs → ChainSpec_Validate cs = Ret tt.
Proof.
  unfold LoadChainSpec. destruct (ReadConfigFile os); [|by intros [= <-]|done..].
  intros Hl. apply bindO_ret in Hl as (sp & _ & Hl). apply bindO_ret in Hl as ([] & Hv%must_ret & [= <-]). done.
Qed.

(** The application [New] hands to [Load]. *)
Lemma New_ret env latest a :
  New NewModuleAddressOrBech32Address env latest = Ret a →
  ∃ k cs hs info,
    LoadChainSpec (env_os env) (yaml_forks env) = Ret cs ∧ k_chainSpec k = cs ∧
    k_authority k = NewModuleAddress GovModuleName ∧ Hooks.LoadHooks (env_os env) (yaml_hooks env) = Ret hs ∧
    ReadUpgradeInfoFromDisk = Ret info ∧
    ∃ app1, registerIBCModules (build (injected k)) = Ret app1 ∧
      Load latest runtimeModule
        (registerGlobalFeeV1 info (setCallbacks hs (newWebhookNotifierFromEnv (env_os env)) (setSimulationManager app1))) = Ret a.
Proof.
  unfold New. intros Hn.
  apply bindO_ret in Hn as (cs & Hcs & Hn). apply bindO_ret in Hn as (? & _ & Hn).
  apply bindO_ret in Hn as (k & [Ha Hc]%must_ret%NewKeeper_ret & Hn).
  apply bindO_ret in Hn as (app1 & Hi%must_ret & Hn).
  apply bindO_ret in Hn as (hs & Hh & Hn). apply bindO_ret in Hn as (app2 & Hm & Hl%must_ret).
  unfold registerMigrations in Hm. apply bindO_ret in Hm as (info & Hinfo%must_ret & [= <-]).
  rewrite bool_decide_eq_true_2 in Ha by done. eauto 15.
Qed.

Lemma registerIBCModules_ret k app1 :
  registerIBCModules (build (injected k)) = Ret app1 →
  app1 = mkApp (mkBaseApp (Some 1) (Some 1) true false false false false None)
    (mkModuleManager ((fst <$> appConfig) ++ [ibc; transfer; ica; ibctm; solomachine]) [] [] [] [])
    ibcNames [ibcCore; ibcTransfer; icaController; icaHost]
    (Some (mkIBCState ((fun n => (n, Some n)) <$> ibcNames) ((fun n => (n, Some n)) <$> ibcNames)
       [ibcTransfer; icaController; icaHost] [ibcTransfer] [ibctm; solomachine]))
    k ∅ None false [] [].
Proof.
  unfold registerIBCModules, RegisterStores. intros Hr.
  apply bindO_ret in Hr as (a1 & E1 & Hr). apply bindO_ret in E1 as ([] & _ & [= <-]).
  unfold RegisterModules in Hr. apply bindO_ret in Hr as ([] & _ & [= <-]). reflexivity.
Qed.

Lemma New_app env latest a :
  New NewModuleAddressOrBech32Address env latest = Ret a →
  ∃ k hs info, ChainSpec_Validate (k_chainSpec k) = Ret tt ∧ k_authority k = NewModuleAddress GovModuleName ∧
    Hooks.LoadHooks (env_os env) (yaml_hooks env) = Ret hs ∧ ReadUpgradeInfoFromDisk = Ret info ∧
    evmKeeper a = k ∧ hooks a = hs ∧ upgradeHandlers a = [globalFeeV1] ∧
    baseApp a = mkBaseApp (Some 1) (Some 1) true true true true true
      (if bool_decide (info.1 = globalFeeV1) && negb (IsSkipHeight info.2) then Some (info.2, [globalfee]) else None) ∧
    manager a = mkModuleManager ((fst <$> appConfig) ++ [ibc; transfer; ica; ibctm; solomachine])
      (PreBlockers runtimeModule) beginBlockers endBlockers (InitGenesis runtimeModule) ∧
    ibcState a = Some (mkIBCState ((fun n => (n, Some n)) <$> ibcNames) ((fun n => (n, Some n)) <$> ibcNames)
       [ibcTransfer; icaController; icaHost] [ibcTransfer] [ibctm; solomachine]) ∧
    sm a = NewSimulationManagerFromAppModules (Modules (manager a)) [auth].
Proof.
  intros Hn. apply New_ret in Hn as (k & cs & hs & info & Hcs & Hk & Ha & Hh & Hi & app1 & Hib & Hl).
  apply registerIBCModules_ret in Hib as ->. apply Load_orders in Hl; [|done..].
  exists k, hs, info. apply LoadChainSpec_valid in Hcs. rewrite Hk. subst a.
  unfold registerGlobalFeeV1. destruct (_ && _); by split_and!.
Qed.

(** C15: when [New] returns, the application fits together: both proposal
    handlers, the ante handler, the three blockers and the chain initializer
    are set; every order names registered modules, each once; exactly the
    modules without genesis are missing from the genesis order, in which
    genutil comes after staking and auth; the upgrade module goes first,
    rewards are handed out before slashing; every IBC keeper has its store key
    and its subspace and every light client a registered module; the evm
    module obeys governance and its fork schedule is valid. *)
Theorem New_builds_a_wired_app env latest a :
  New NewModuleAddressOrBech32Address env latest = Ret a → wired a.
Proof.
  intros Hn. apply New_app in Hn as (k & hs & info & Hv & Ha & _ & _ & <- & _ & _ & Hb & Hm & Hi & Hsm).
  split; rewrite ?Hsm, ?Hm, ?Hi, ?Hb; cbn [Modules OrderPreBlockers OrderBeginBlockers OrderEndBlockers OrderInitGenesis
    StoreLoader]; try done.
  - apply (bool_decide_unpack _). vm_compute. done.
  - intros l Hl. assert (Hall : Forall (fun l => NoDup l ∧ Forall (fun m => m ∈ ((fst <$> appConfig) ++
        [ibc; transfer; ica; ibctm; solomachine])%list) l)
      [PreBlockers runtimeModule; beginBlockers; endBlockers; InitGenesis runtimeModule]).
    { apply (bool_decide_unpack _). vm_compute. done. }
    eapply Forall_forall in Hall as [Hnd Hsub]; [|exact Hl]. split; [done|].
    intros m Hml. by eapply Forall_forall in Hsub.
  - intros m. destruct m; apply (bool_decide_unpack _); vm_compute; done.
  - exists 1%nat, 2%nat. split_and!; [done|done|lia].
  - split; [exists 4%nat, 8%nat|exists 1%nat, 8%nat]; (split_and!; [done|done|lia]).
  - eexists. split; [done|]. cbn [keeperStores keeperSubspaces clientRoutes]. split_and!; [by repeat constructor..|].
    intros m. destruct m; apply (bool_decide_unpack _); vm_compute; done.
Qed.

(** The store of the fee module.  The handler of the [globalfee-v1] upgrade
    is always registered; the store of the module is added at the height of
    the plan on disk exactly when that plan is this upgrade and its height is
    not skipped. *)
Theorem globalfee_store_is_added_by_its_upgrade env latest a info :
  ReadUpgradeInfoFromDisk = Ret info → New NewModuleAddressOrBech32Address env latest = Ret a →
  globalFeeV1 ∈ upgradeHandlers a ∧
  ∀ h added, StoreLoader (baseApp a) = Some (h, added) ↔
    info.1 = globalFeeV1 ∧ IsSkipHeight info.2 = false ∧ h = info.2 ∧ added = [globalfee].
Proof.
  intros Hinfo Hn. apply New_app in Hn as (k & hs & info' & _ & _ & _ & Hi & _ & _ & Hu & Hb & _ & _).
  rewrite Hinfo in Hi. injection Hi as <-. rewrite Hu, Hb. cbn [StoreLoader]. split; [left|].
  intros h added. case_bool_decide; cbn [andb]; [|naive_solver].
  destruct (IsSkipHeight info.2); cbn [negb]; naive_solver.
Qed.

(** The command line and the node agree on the modules: the module manager
    of the client, completed by hand with the IBC modules, knows exactly the
    modules that [New] registers. *)
Theorem client_and_node_know_the_same_modules env latest a :
  New NewModuleAddressOrBech32Address env latest = Ret a →
  clientModules (fst <$> appConfig) ≡ₚ Modules (manager a).
Proof.
  intros Hn. apply New_app in Hn as (k & hs & info & _ & _ & _ & _ & _ & _ & _ & _ & Hm & _). rewrite Hm.
  apply (bool_decide_unpack _). vm_compute. done.
Qed.

End Claims.

(** Three module accounts may receive funds: those of governance, of the IBC
    transfers and of the interchain accounts.  Nothing is blocked that is not
    a module account. *)
Theorem module_accounts_that_may_receive a :
  (is_Some (GetMaccPerms a) ∧ BlockedAddresses a = false ↔ a ∈ [OfModule gov; OfModule transfer; OfModule ica]) ∧
  (BlockedAddresses a = true → is_Some (GetMaccPerms a)).
Proof.
  destruct a as [| | |m]; [..|destruct m]; (split; [apply (bool_decide_unpack _); vm_compute; done|vm_compute; done || (intros _; eexists; done)]).
Qed.

(** A genesis account is valid exactly when a vesting schedule that vests
    something starts before it ends, and the auth module accepts the module
    account it names, if any, and the base account. *)
Theorem GenesisAccount_Validate_iff BV MV sga :
  GenesisAccount_Validate BV MV sga = Ret tt ↔
  ((∃ c, c ∈ OriginalVesting sga ∧ snd c ≠ 0) → StartTime sga < EndTime sga) ∧
  (ga_ModuleName sga ≠ "" → MV (ga_BaseAccount sga) (ga_ModuleName sga) (ModulePermissions sga) = Ret tt) ∧
  BV (ga_BaseAccount sga) = Ret tt.
Proof.
  unfold GenesisAccount_Validate.
  assert (Hz : Coins_IsZero (OriginalVesting sga) = false ↔ ∃ c, c ∈ OriginalVesting sga ∧ snd c ≠ 0).
  { unfold Coins_IsZero. induction (OriginalVesting sga) as [|[d x] l IH]; cbn; [split; [done|intros (c & ?%elem_of_nil & _)]|].
    - done.
    - destruct (Z.eqb_spec x 0); cbn.
      + rewrite IH. split; [intros (c & ? & ?); exists c; split; [by right|done]|].
        intros (c & Hin & ?). apply elem_of_cons in Hin as [->|]; [done|eauto].
      + split; [|done]. intros _. exists (d, x). split; [left|done]. }
  rewrite <-Hz. destruct (Coins_IsZero (OriginalVesting sga)); cbn [negb guard_err bindO].
  - destruct (decide (ga_ModuleName sga = "")) as [->|Hm].
    + rewrite bool_decide_eq_true_2 by done. cbn. naive_solver.
    + rewrite bool_decide_eq_false_2 by done. cbn. destruct (MV _ _ _) as [[]| | |]; cbn; naive_solver.
  - destruct (Z.leb_spec (EndTime sga) (StartTime sga)); cbn; [split; [done|intros (? & _); lia]|].
    destruct (decide (ga_ModuleName sga = "")) as [->|Hm].
    + rewrite bool_decide_eq_true_2 by done. cbn. naive_solver.
    + rewrite bool_decide_eq_false_2 by done. cbn. destruct (MV _ _ _) as [[]| | |]; cbn; naive_solver.
Qed.

(** ** Witnesses *)

Section Witnesses.
#[local] Existing Instances geth cosmos Hooks.plain_bech32.

(** Libraries that refuse nothing, with the plan of the fee upgrade on disk. *)
Definition toy : AppLib := {|
  Inject cfg := Ret tt;
  NewSimulationManagerFromAppModules ms overrides := ms;
  RegisterStores_ok keys a := Ret tt;
  RegisterModules_ok ms a := Ret tt;
  ReadUpgradeInfoFromDisk := Ret ("globalfee-v1", 1000);
  IsSkipHeight h := false;
  Load latest cfg a := Ret (with_manager
    (mkModuleManager (Modules (manager a)) (PreBlockers cfg)
       (match BeginBlockers cfg with [] => OrderBeginBlockers (manager a) | l => l end)
       (match EndBlockers cfg with [] => OrderEndBlockers (manager a) | l => l end) (InitGenesis cfg)) a) |}.
#[local] Existing Instance toy.

Lemma toy_app_laws : AppLibLaws.
Proof. split. intros latest cfg a a' [= <-] Hb He. by rewrite Hb, He. Qed.
#[local] Existing Instance toy_app_laws.

Definition quietEnv : Env :=
  mkEnv (mkOS (fun _ => "") (fun _ => false) (fun _ => Fail ErrNotFound)) (fun _ => Fail ErrNotFound)
    (fun _ => Fail ErrNotFound) (fun _ => Fail ErrNotFound) (Ret tt) (Ret tt)
    (mkValueCodec (fun _ => Ret "") (fun _ => Ret DefaultParams)).

Definition theApp : App := match New (fun a => a) quietEnv true with Ret a => a | _ => injected sample_keeper end.

Lemma New_returns : New (fun a => a) quietEnv true = Ret theApp.
Proof. reflexivity. Qed.

Lemma New_builds_a_wired_app_witness : wired theApp.
Proof. apply (New_builds_a_wired_app (fun a => a) quietEnv true). exact New_returns. Defined.

Lemma globalfee_store_is_added_by_its_upgrade_witness :
  ∀ h added, StoreLoader (baseApp theApp) = Some (h, added) ↔
    "globalfee-v1" = globalFeeV1 ∧ IsSkipHeight 1000 = false ∧ h = 1000 ∧ added = [globalfee].
Proof.
  apply (globalfee_store_is_added_by_its_upgrade (fun a => a) quietEnv true theApp ("globalfee-v1", 1000)).
  - reflexivity.
  - exact New_returns.
Defined.

Lemma client_and_node_know_the_same_modules_witness : clientModules (fst <$> appConfig) ≡ₚ Modules (manager theApp).
Proof. apply (client_and_node_know_the_same_modules (fun a => a) quietEnv true). exact New_returns. Defined.

End Witnesses.

End Wiring.
