(* ===== verification/EvmModule.v ===== *)
(** * The evm module as the SDK sees it

    [x/evm/module/module.go], [x/evm/module/depinject.go],
    [x/evm/module/simulation.go], [x/evm/module/autocli.go],
    [x/evm/types/codec.go] and the HTTP gateway of the module's query service,
    [x/evm/types/query.pb.gw.go].

    The JSON codec of the SDK is a record of two functions, grpc-gateway's
    handling of request contexts two arguments; a registry is the list of what
    was registered. *)

From S2P Require Import Prelude GoStd GoJson External ChainSpec Engine Concrete EvmTypes Keeper Wiring.

Module EvmModule.

(** ** module.go *)

(** [codec.JSONCodec] for the genesis state; [UnmarshalJSON] may have written
    part of the state before it fails. *)
Record JSONCodec := mkJSONCodec {
  MarshalJSON : GenesisState → outcome string;
  UnmarshalJSON : string → GenesisState * option error }.

(** The two keepers are held and never used: their types are arguments. *)
Record AppModule (AK BK : Type) := mkAppModule {
  am_cdc : JSONCodec; am_keeper : Keeper; am_authKeeper : AK; am_bankKeeper : BK }.
Arguments mkAppModule {AK BK}.
Arguments am_cdc {AK BK}.
Arguments am_keeper {AK BK}.

Definition NewAppModule {AK BK} (cdc : JSONCodec) (keeper : Keeper) (authKeeper : AK) (bankKeeper : BK) :
    AppModule AK BK := mkAppModule cdc keeper authKeeper bankKeeper.

(** What a module registers: message types of an interface, and services with
    the keeper they were built on. *)
Inductive Registered :=
| Implementation (interface type : string)
| MsgServiceDesc (service : string)
| MsgServer (k : Keeper)
| QueryServer (k : Keeper).

Definition Msg_service : string := "nexus.evm.v1.Msg".
Definition Query_service : string := "nexus.evm.v1.Query".

(** [types.RegisterInterfaces]. *)
Definition RegisterInterfaces (registrar : list Registered) : list Registered :=
  (registrar ++ [Implementation "sdk.Msg" "MsgUpdateParams"; Implementation "sdk.Msg" "MsgExecutionPayload";
                 MsgServiceDesc Msg_service])%list.

Definition ConsensusVersion : Z := 1.

Section Module.
Context {E S AK BK : Type} `{!ItemStore S, GoEthereum} (am : AppModule AK BK).
Local Abbreviation W := (World E S).

Definition RegisterServices (registrar : list Registered) : outcome (list Registered) :=
  Ret (registrar ++ [MsgServer (am_keeper am); QueryServer (am_keeper am)])%list.

Definition AppModule_DefaultGenesis : outcome string := must (MarshalJSON (am_cdc am) DefaultGenesis).

Definition module_ValidateGenesis (bz : string) : outcome unit := AppModule_ValidateGenesis (UnmarshalJSON (am_cdc am)) bz.

Definition module_InitGenesis (gs : string) : M W unit :=
  AppModule_InitGenesis (am_keeper am) (UnmarshalJSON (am_cdc am)) gs.

Definition AppModule_ExportGenesis : M W string :=
  let! genState := mustM (wrapM "failed to export evm genesis state" (ExportGenesis (am_keeper am))) in
  lift (must (wrap "failed to marshal evm genesis state" (MarshalJSON (am_cdc am) genState))).

Definition BeginBlock : M W unit := ret tt.
Definition EndBlock : M W unit := ret tt.

End Module.

(** ** simulation.go *)

(** [GenerateGenesisState]: the addresses it collects are not used. *)
Definition GenerateGenesisState (cdc : JSONCodec) (GenState : gmap string string) : outcome (gmap string string) :=
  let evmGenesis := mkGenesisState DefaultParams "" "" 0 0 in
  let? bz := must (MarshalJSON cdc evmGenesis) in
  Ret (<[ModuleName := bz]> GenState).

(** ** autocli.go *)

Record RpcCommand := mkRpcCommand { RpcMethod : string; Use : string; Short : string; Skip : bool }.
Record ServiceCommands := mkServiceCommands {
  Service : string; EnhanceCustomCommand : bool; RpcCommandOptions : list RpcCommand }.

Definition AutoCLIOptions : ServiceCommands * ServiceCommands :=
  (mkServiceCommands Query_service false [mkRpcCommand "Params" "params" "Shows the parameters of the module" false],
   mkServiceCommands Msg_service true [mkRpcCommand "UpdateParams" "" "" true]).

(** ** depinject.go *)

Section Provide.
Context `{GoEthereum, CosmosSDK} (NewModuleAddressOrBech32Address : string → string).

(** [ProvideModule]: the keeper, and the module on the same keeper. *)
Definition ProvideModule {AK BK} (os : OS) (yaml : string → outcome rawConfig) (createEngineClient schema : outcome unit)
    (Authority : string) (cdc : JSONCodec) (paramsCodec : ValueCodec Params) (authKeeper : AK) (bankKeeper : BK)
    (chainSpec : ChainSpec) : outcome (Keeper * AppModule AK BK) :=
  let? k := Wiring.evm_ProvideModule NewModuleAddressOrBech32Address os yaml createEngineClient schema Authority
              paramsCodec chainSpec in
  Ret (k, NewAppModule cdc k authKeeper bankKeeper).

End Provide.

(** ** query.pb.gw.go *)

(** Header and trailer of an answer; [metadata.Join] concatenates. *)
Record ServerMetadata := mkServerMetadata { HeaderMD : list (string * string); TrailerMD : list (string * string) }.
Definition noMetadata : ServerMetadata := mkServerMetadata [] [].
Definition joinMetadata (a b : ServerMetadata) : ServerMetadata :=
  mkServerMetadata (HeaderMD a ++ HeaderMD b)%list (TrailerMD a ++ TrailerMD b)%list.

(** What is written to the client: an error, with the metadata that is in the
    context by then, or the message. *)
Inductive HTTPReply :=
| HTTPError (md : option ServerMetadata) (e : error)
| ForwardResponse (md : ServerMetadata) (p : Params).

(** A pattern of grpc-gateway: version, operations, string pool and verb. *)
Record Pattern := mkPattern { p_version : Z; p_ops : list Z; p_pool : list string; p_verb : string }.
Definition pattern_Query_Params_0 : Pattern :=
  mkPattern 1 [2; 0; 2; 1; 2; 2; 2; 3] ["nexus"; "evm"; "v1"; "params"] "".

Section Gateway.
Context {W Req C : Type} (AnnotateContext AnnotateIncomingContext : Req → outcome C).

(** A server writes its metadata to the transport stream, the second component
    of its state; a client hands over answer or error with the metadata. *)
Definition QueryServerImpl : Type := C → option unit → M (W * ServerMetadata) Params.
Definition QueryClient : Type := C → option unit → M W ((Params + error) * ServerMetadata).
Definition Handler : Type := Req → M W HTTPReply.
Definition ServeMux : Type := list (string * Pattern * Handler).

Definition request_Query_Params_0 (client : QueryClient) (ctx : C) : M W ((Params + error) * ServerMetadata) :=
  client ctx (Some tt).

Definition local_request_Query_Params_0 (server : QueryServerImpl) (ctx : C) :
    M (W * ServerMetadata) ((Params + error) * ServerMetadata) :=
  let! msg := try (server ctx (Some tt)) in
  ret (msg, noMetadata).

(** Run with a new transport stream, and look at it afterwards. *)
Definition with_stream {A} (m : M (W * ServerMetadata) A) : M W (A * ServerMetadata) := fun w =>
  match m (w, noMetadata) with
  | (w', stream, Ret a) => (w', Ret (a, stream))
  | (w', _, Fail e) => (w', Fail e)
  | (w', _, Panic s) => (w', Panic s)
  | (w', _, OutOfFuel) => (w', OutOfFuel)
  end.

(** The end of both handlers. *)
Definition reply (md : ServerMetadata) (r : Params + error) : HTTPReply :=
  match r with inr err => HTTPError (Some md) err | inl resp => ForwardResponse md resp end.

Definition serverHandler (server : QueryServerImpl) : Handler := fun req =>
  let! rctx := try (lift (AnnotateIncomingContext req)) in
  match rctx with
  | inr err => ret (HTTPError None err)
  | inl rctx =>
      let! r := with_stream (local_request_Query_Params_0 server rctx) in
      let '(resp, md, stream) := r in
      ret (reply (joinMetadata md stream) resp)
  end.

Definition clientHandler (client : QueryClient) : Handler := fun req =>
  let! rctx := try (lift (AnnotateContext req)) in
  match rctx with
  | inr err => ret (HTTPError None err)
  | inl rctx =>
      let! r := request_Query_Params_0 client rctx in
      let '(resp, md) := r in
      ret (reply md resp)
  end.

Definition RegisterQueryHandlerServer (mux : ServeMux) (server : QueryServerImpl) : outcome ServeMux :=
  Ret (mux ++ [("GET", pattern_Query_Params_0, serverHandler server)])%list.

Definition RegisterQueryHandlerClient (mux : ServeMux) (client : QueryClient) : outcome ServeMux :=
  Ret (mux ++ [("GET", pattern_Query_Params_0, clientHandler client)])%list.

(** [Invoke] of a connection: the method's full name, context and request; the
    metadata of the answer go to the call options. *)
Context {Conn : Type} (Invoke : Conn → string → C → option unit → M W ((Params + error) * ServerMetadata)).

Definition Params_method : string := "/nexus.evm.v1.Query/Params".

Definition queryClient_Params (cc : Conn) : QueryClient := fun ctx inp =>
  let! r := Invoke cc Params_method ctx inp in
  let '(out, md) := r in
  match out with
  | inr err => ret (inr err, md)
  | inl out => ret (inl out, md)
  end.

Definition NewQueryClient (cc : Conn) : QueryClient := queryClient_Params cc.

(** [_Query_Params_Handler]: the request is decoded, then the server is called,
    through the interceptor when there is one. *)
Definition _Query_Params_Handler (srv : QueryServerImpl) (ctx : C) (dec : outcome unit)
    (interceptor : option (C → string → (C → option unit → M (W * ServerMetadata) Params) → M (W * ServerMetadata) Params)) :
    M (W * ServerMetadata) Params :=
  do! lift dec in
  match interceptor with
  | None => srv ctx (Some tt)
  | Some i => i ctx Params_method srv
  end.

Definition RegisterQueryHandler (mux : ServeMux) (conn : Conn) : outcome ServeMux :=
  RegisterQueryHandlerClient mux (NewQueryClient conn).

(** The connections that were dialled: open ones, and those that a goroutine
    closes when the context is done. *)
Record Dialled := mkDialled { mux_of : ServeMux; open : list Conn; closeWhenDone : list Conn }.

(** The deferred function closes the connection on an error, and otherwise
    leaves that to the goroutine. *)
Definition RegisterQueryHandlerFromEndpoint (Dial : string → outcome Conn) (endpoint : string) : M Dialled unit :=
  let! conn := lift (Dial endpoint) in
  do! modify (fun d => mkDialled (mux_of d) (conn :: open d) (closeWhenDone d)) in
  fun d =>
    match RegisterQueryHandler (mux_of d) conn with
    | Ret mux => (mkDialled mux (open d) (conn :: closeWhenDone d), Ret tt)
    | Fail e => (mkDialled (mux_of d) (tail (open d)) (closeWhenDone d), Fail e)
    | Panic s => (mkDialled (mux_of d) (open d) (conn :: closeWhenDone d), Panic s)
    | OutOfFuel => (d, OutOfFuel)
    end.

(** [RegisterGRPCGatewayRoutes] of the module. *)
Definition RegisterGRPCGatewayRoutes (mux : ServeMux) (clientCtx : Conn) : outcome ServeMux :=
  must (RegisterQueryHandlerClient mux (NewQueryClient clientCtx)).

End Gateway.

(** ** Theorems *)

(** The query server of the keeper, on a stream it does not use. *)
Definition keeperServer {E S C} `{!ItemStore S} (k : Keeper) : QueryServerImpl (W := World E S) (C := C) :=
  fun _ req ws => let (w', o) := Query_Params k req ws.1 in ((w', ws.2), o).

Lemma bind_try_lift {W A B} (o : outcome A) (f : A + error → M W B) w :
  bindM (try (lift o)) f w =
  match o with
  | Ret a => f (inl a) w
  | Fail e => f (inr e) w
  | Panic s => (w, Panic s)
  | OutOfFuel => (w, OutOfFuel)
  end.
Proof. by destruct o. Qed.

Section Claims.
Context {E S : Type} `{!ItemStore S, !ItemStoreLaws S, GoEthereumLaws}.
Local Abbreviation W := (World E S).

(** The codec of the SDK reads back what it wrote, for states whose texts need
    no escapes and whose numbers are 64 bits wide. *)
Definition reads_back (cdc : JSONCodec) : Prop := ∀ gs,
  plain (gs_GenesisExecutionBlockHash gs) → plain (gs_CurrentBlockHash gs) →
  is_u64 (gs_CurrentBlockHeight gs) → is_u64 (gs_CurrentBlockTimestamp gs) →
  ∃ bz, MarshalJSON cdc gs = Ret bz ∧ UnmarshalJSON cdc bz = (gs, None).

(** C22: the genesis file of the module.  The document that a running chain
    exports passes the module's validation, and a new chain that is initialized
    from it, whatever its state was, does not panic and has the same block
    state and parameters. *)
Theorem module_genesis_roundtrip {AK BK} (am : AppModule AK BK) p bs (w : W) :
  reads_back (am_cdc am) → writable S →
  (∃ bz, vc_Encode (k_paramsCodec (am_keeper am)) p = Ret bz ∧ vc_Decode (k_paramsCodec (am_keeper am)) bz = Ret p) →
  valid_bs bs → Params_Get (am_keeper am) w = (w, Ret p) → GetBlockState w = (w, Ret bs) →
  ∃ bz, AppModule_ExportGenesis am w = (w, Ret bz) ∧ module_ValidateGenesis am bz = Ret tt ∧
    ∀ w1 : W, ∃ w2, module_InitGenesis am bz w1 = (w2, Ret tt) ∧
      GetBlockState w2 = (w2, Ret bs) ∧ Params_Get (am_keeper am) w2 = (w2, Ret p).
Proof.
  intros Hc Hwr Hp Hbs Hget Hst.
  destruct (genesis_export_init_roundtrip _ p bs w Hwr Hp Hbs Hget Hst) as (gs & Hexp & Hval & Hini).
  assert (Hgs : gs = mkGenesisState p (Hash_Hex (bs_Hash bs)) (Hash_Hex (bs_Hash bs)) (bs_Height bs) (bs_Timestamp bs)).
  { revert Hexp. unfold ExportGenesis. unfold_monad. rewrite Hget, Hst. by intros [= <-]. }
  destruct Hbs as (? & Hh & Ht). destruct (Hc gs) as (bz & Hm & Hu); [subst gs; try apply plain_hex; done..|].
  assert (Hn : NormalizeGenesisState gs = gs).
  { unfold NormalizeGenesisState. rewrite bool_decide_eq_false_2; [done|]. subst gs. cbn. intros E0.
    pose proof (Hash_Hex_len (bs_Hash bs)) as Hl. by rewrite E0 in Hl. }
  exists bz. unfold AppModule_ExportGenesis, module_ValidateGenesis, AppModule_ValidateGenesis, module_InitGenesis,
    AppModule_InitGenesis, GenesisStateFromJSON. rewrite Hu, Hn. unfold_monad. rewrite Hexp, Hm. cbn [fst snd].
  split_and!; [done|done|]. intros w1. destruct (Hini w1) as (w2 & Hi & Hrest). exists w2. by rewrite Hi.
Qed.

(** The genesis of a simulation has no execution block hash; the module fills
    it in, so the document is valid all the same. *)
Theorem simulation_genesis_is_valid {AK BK} (am : AppModule AK BK) g g' :
  reads_back (am_cdc am) → GenerateGenesisState (am_cdc am) g = Ret g' →
  GenesisState_Validate (mkGenesisState DefaultParams "" "" 0 0) ≠ Ret tt ∧
  ∃ bz, g' !! ModuleName = Some bz ∧ module_ValidateGenesis am bz = Ret tt.
Proof.
  intros Hc Hg. split; [done|]. destruct (Hc (mkGenesisState DefaultParams "" "" 0 0)) as (bz & Hm & Hu);
    [by (constructor || (unfold is_u64; cbn; lia))..|].
  exists bz. unfold GenerateGenesisState in Hg. cbv zeta in Hg. rewrite Hm in Hg. injection Hg as <-.
  rewrite lookup_insert_eq. split; [done|].
  unfold module_ValidateGenesis, AppModule_ValidateGenesis, GenesisStateFromJSON. by rewrite Hu.
Qed.

Section Endpoint.
Context {Req C Conn : Type} (AnnotateContext AnnotateIncomingContext : Req → outcome C).
Context (Invoke : Conn → string → C → option unit → M W ((Params + error) * ServerMetadata)).

(** What the endpoint answers to a request, by what the store holds. *)
Definition params_reply (stored : outcome Params) : outcome HTTPReply :=
  match stored with
  | Ret p => Ret (ForwardResponse noMetadata p)
  | Fail e => Ret (if errors_Is e ErrNotFound then ForwardResponse noMetadata (mkParams)
                   else HTTPError (Some noMetadata) (errText "rpc error: code = Internal desc = internal error"))
  | Panic s => Panic s
  | OutOfFuel => OutOfFuel
  end.

Lemma keeperServer_stream k (ctx : C) (w : W) :
  with_stream (try (keeperServer k ctx (Some tt))) w =
  match Item_Get (k_paramsCodec k) ParamsKey (w_store w) with
  | Ret p => (w, Ret (inl p, noMetadata))
  | Fail e => (w, Ret ((if errors_Is e ErrNotFound then inl mkParams
                        else inr (errText "rpc error: code = Internal desc = internal error")), noMetadata))
  | Panic s => (w, Panic s)
  | OutOfFuel => (w, OutOfFuel)
  end.
Proof.
  unfold with_stream, keeperServer, try. unfold Query_Params, Params_Get, read_store. unfold_monad.
  destruct (Item_Get _ _ _) as [p|e|m|]; try done. cbn. by destruct (errors_Is e ErrNotFound).
Qed.

Lemma local_request_stream (server : QueryServerImpl) (ctx : C) (w : W) :
  with_stream (local_request_Query_Params_0 server ctx) w =
  match with_stream (try (server ctx (Some tt))) w with
  | (w', Ret (r, st)) => (w', Ret (r, noMetadata, st))
  | (w', Fail e) => (w', Fail e)
  | (w', Panic s) => (w', Panic s)
  | (w', OutOfFuel) => (w', OutOfFuel)
  end.
Proof.
  unfold local_request_Query_Params_0, with_stream. unfold_monad.
  by destruct (server ctx (Some tt) (w, noMetadata)) as [[] []].
Qed.

(** The parameters over HTTP.  The handler that calls the query server in the
    same process answers with the stored parameters, with the zero value when
    there are none, with an internal error otherwise, and with the error of the
    request when its context cannot be set up; it changes nothing.  The handler
    that goes through a connection passes on what the connection returns, with
    its metadata. *)
Theorem params_endpoint_answers k conn req (w : W) :
  serverHandler AnnotateIncomingContext (keeperServer k) req w =
    (w, match AnnotateIncomingContext req with
        | Ret _ => params_reply (Item_Get (k_paramsCodec k) ParamsKey (w_store w))
        | Fail e => Ret (HTTPError None e)
        | Panic s => Panic s
        | OutOfFuel => OutOfFuel
        end) ∧
  ∀ ctx, AnnotateContext req = Ret ctx →
    clientHandler AnnotateContext (NewQueryClient Invoke conn) req w =
    match Invoke conn Params_method ctx (Some tt) w with
    | (w', Ret (r, md)) => (w', Ret (reply md r))
    | (w', Fail e) => (w', Fail e)
    | (w', Panic s) => (w', Panic s)
    | (w', OutOfFuel) => (w', OutOfFuel)
    end.
Proof.
  split.
  - unfold params_reply, serverHandler. rewrite bind_try_lift.
    destruct (AnnotateIncomingContext req) as [ctx|e|m|]; [|done..].
    unfold bindM at 1. rewrite local_request_stream, keeperServer_stream.
    destruct (Item_Get _ _ _) as [p|e|m|]; [done| |done..]. by destruct (errors_Is e ErrNotFound).
  - intros ctx Hc. unfold clientHandler. rewrite bind_try_lift, Hc.
    unfold request_Query_Params_0, NewQueryClient, queryClient_Params, bindM.
    destruct (Invoke conn Params_method ctx (Some tt) w) as [w' [[[p|e] md]| | |]]; done.
Qed.

(** A connection that was dialled for the gateway is closed when the context
    ends, never before. *)
Theorem dialled_connections_are_closed Dial endpoint d d' o :
  RegisterQueryHandlerFromEndpoint AnnotateContext Invoke Dial endpoint d = (d', o) →
  open d = closeWhenDone d → open d' = closeWhenDone d' ∧ (o ≠ Ret tt → open d' = open d).
Proof.
  unfold RegisterQueryHandlerFromEndpoint. unfold_monad. destruct (Dial endpoint) as [conn| | |];
    intros [= <- <-]; cbn; [|done..]. by intros ->.
Qed.

End Endpoint.

End Claims.

(** The keeper that is provided is the one the module serves. *)
Theorem provided_module_serves_its_keeper `{GoEthereum, CosmosSDK} {AK BK} addr os yaml e sc auth cdc pc (ak : AK) (bk : BK) cs k m :
  ProvideModule addr os yaml e sc auth cdc pc ak bk cs = Ret (k, m) →
  RegisterServices m [] = Ret [MsgServer k; QueryServer k].
Proof. unfold ProvideModule. intros Hp. apply bindO_ret in Hp as (k' & _ & Hp). by injection Hp as -> <-. Qed.

(** ** Witnesses *)

Section Witnesses.
#[local] Existing Instances geth geth_laws mapStore mapStore_laws.

(** A codec that writes the bits of a number for the state. *)
Fixpoint bits (p : positive) : string :=
  match p with xH => "" | xO q => String (chr 48) (bits q) | xI q => String (chr 49) (bits q) end.
Fixpoint unbits (s : string) : positive :=
  match s with
  | EmptyString => xH
  | String c s => if byte_val c =? 48 then xO (unbits s) else xI (unbits s)
  end.

Lemma unbits_bits p : unbits (bits p) = p.
Proof. induction p as [p IH|p IH|]; cbn; by rewrite ?IH. Qed.

Definition tuple_of (gs : GenesisState) : string * string * Z * Z :=
  (gs_GenesisExecutionBlockHash gs, gs_CurrentBlockHash gs, gs_CurrentBlockHeight gs, gs_CurrentBlockTimestamp gs).

Definition bitCodec : JSONCodec :=
  mkJSONCodec (fun gs => Ret (bits (encode (tuple_of gs))))
    (fun bz => match decode (unbits bz) with
               | Some (h, c, n, t) => (mkGenesisState mkParams h c n t, None)
               | None => (zeroGenesisState, Some (errText "invalid character"))
               end).

Lemma bitCodec_reads_back : reads_back bitCodec.
Proof.
  intros [[] h c n t] _ _ _ _. eexists. split; [reflexivity|].
  cbn [UnmarshalJSON bitCodec]. rewrite unbits_bits, decode_encode. done.
Qed.

Definition bitModule : AppModule unit unit := NewAppModule bitCodec sample_keeper tt tt.

Lemma module_genesis_roundtrip_witness :
  ∃ bz, AppModule_ExportGenesis bitModule genesis_world = (genesis_world, Ret bz) ∧
    module_ValidateGenesis bitModule bz = Ret tt ∧
    ∀ w1 : ConcreteWorld, ∃ w2, module_InitGenesis bitModule bz w1 = (w2, Ret tt) ∧
      GetBlockState w2 = (w2, Ret (mkBlockState 42 7 8)) ∧ Params_Get sample_keeper w2 = (w2, Ret DefaultParams).
Proof.
  apply (module_genesis_roundtrip bitModule DefaultParams (mkBlockState 42 7 8)).
  - apply bitCodec_reads_back.
  - apply mapStore_writable.
  - exists "". split; reflexivity.
  - unfold valid_bs, is_hash, is_u64. simpl. lia.
  - vm_compute. reflexivity.
  - vm_compute. reflexivity.
Defined.

End Witnesses.

End EvmModule.
