(* ===== verification/Root.v ===== *)
(** * The command line and the start of a node

    The rest of [cmd/nexusd/cmd/root.go] and [cmd/nexusd/cmd/commands.go]: the
    client context, the tree of commands, the functions that create the
    application and the [PostSetup] ([Commands]) that shares a variable with
    them; [cmd/nexusd/main.go].  Which of them a command calls, and when, is up
    to the server of the SDK.

    A command of the SDK is named by the function that builds it. *)

From S2P Require Import Prelude GoStd External ChainSpec Engine Concrete EvmTypes Keeper Lib Hooks Commands Wiring.

Module Root.

(** ** The client context *)

Record ClientContext (Codec Registry Amino TxC : Type) := mkClientContext {
  cc_Codec : option Codec; cc_InterfaceRegistry : option Registry; cc_LegacyAmino : option Amino;
  cc_Stdin : bool; cc_AccountRetriever : bool; cc_HomeDir : string; cc_ViperPrefix : string;
  cc_TxConfig : option TxC }.
Arguments mkClientContext {Codec Registry Amino TxC}.
Arguments cc_Codec {Codec Registry Amino TxC}.
Arguments cc_InterfaceRegistry {Codec Registry Amino TxC}.
Arguments cc_LegacyAmino {Codec Registry Amino TxC}.
Arguments cc_Stdin {Codec Registry Amino TxC}.
Arguments cc_AccountRetriever {Codec Registry Amino TxC}.
Arguments cc_HomeDir {Codec Registry Amino TxC}.
Arguments cc_ViperPrefix {Codec Registry Amino TxC}.
Arguments cc_TxConfig {Codec Registry Amino TxC}.

Section Context_.
Context {Codec Registry Amino TxC Opts QueryFn : Type}.
Local Abbreviation CC := (ClientContext Codec Registry Amino TxC).
(** [config.ReadFromClientConfig], whose error is ignored but not the context
    it returns with it; the query for coin metadata; the transaction
    configuration. *)
Context (DefaultNodeHome : string) (ReadFromClientConfig : CC → CC * option error).
Context (NewGRPCCoinMetadataQueryFn : CC → QueryFn) (withQueryFn : QueryFn → Opts → Opts).
Context (NewTxConfigWithOptions : option Codec → Opts → outcome TxC).

Definition WithTxConfig (t : TxC) (c : CC) : CC :=
  mkClientContext (cc_Codec c) (cc_InterfaceRegistry c) (cc_LegacyAmino c) (cc_Stdin c) (cc_AccountRetriever c)
    (cc_HomeDir c) (cc_ViperPrefix c) (Some t).

Definition ProvideClientContext (appCodec : Codec) (interfaceRegistry : Registry) (txConfigOpts : Opts)
    (legacyAmino : Amino) : outcome CC :=
  let clientCtx := mkClientContext (Some appCodec) (Some interfaceRegistry) (Some legacyAmino) true true
                     DefaultNodeHome Wiring.Name None in
  let clientCtx := (ReadFromClientConfig clientCtx).1 in
  let txConfigOpts := withQueryFn (NewGRPCCoinMetadataQueryFn clientCtx) txConfigOpts in
  let? txConfig := must (NewTxConfigWithOptions (cc_Codec clientCtx) txConfigOpts) in
  Ret (WithTxConfig txConfig clientCtx).

End Context_.

(** ** The commands *)

(** How a command gets its application. *)
Inductive Creator := newApp_ | newAppWithCapture_.

Inductive SubCommand :=
| InitCmd | NewInPlaceTestnetCmd | NewTestnetMultiNodeCmd | DebugCmd | ConfigCommand
| PruningCmd (c : Creator) | SnapshotCmd (c : Creator)
| ServerCommands (c : Creator)
| StatusCommand | GenutilCommands | KeysCommands
| Parent (Use_ : string) (Aliases : list string) (Short_ : string) (sub : list SubCommand)
| WaitTxCmd | ValidatorCommand | QueryBlockCmd | QueryTxsByEventsCmd | QueryBlocksCmd | QueryTxCmd
| QueryBlockResultsCmd
| GetSignCommand | GetSignBatchCommand | GetMultiSignCommand | GetMultiSignBatchCmd
| GetValidateSignaturesCommand | LineBreak | GetBroadcastCommand | GetEncodeCommand | GetDecodeCommand
| GetSimulateCmd.

Definition queryCommand : SubCommand :=
  Parent "query" ["q"] "Querying subcommands"
    [WaitTxCmd; ValidatorCommand; QueryBlockCmd; QueryTxsByEventsCmd; QueryBlocksCmd; QueryTxCmd; QueryBlockResultsCmd].

Definition txCommand : SubCommand :=
  Parent "tx" [] "Transactions subcommands"
    [GetSignCommand; GetSignBatchCommand; GetMultiSignCommand; GetMultiSignBatchCmd; GetValidateSignaturesCommand;
     LineBreak; GetBroadcastCommand; GetEncodeCommand; GetDecodeCommand; GetSimulateCmd].

Definition initRootCmd (commands : list SubCommand) : list SubCommand :=
  (commands ++ [InitCmd; NewInPlaceTestnetCmd; NewTestnetMultiNodeCmd; DebugCmd; ConfigCommand;
                PruningCmd newApp_; SnapshotCmd newApp_]
            ++ [ServerCommands newAppWithCapture_]
            ++ [StatusCommand; GenutilCommands; queryCommand; txCommand; KeysCommands])%list.

Record RootCmd := mkRootCmd {
  Use : string; Short : string; SilenceErrors : bool; chainFlagUsage : string;
  basicManager : list Wiring.Mod; autoCliModules : list Wiring.Mod; commands : list SubCommand }.

Section NewRootCmd.
Context `{Wiring.AppLib} (yaml_forks : string → outcome ChainSpec) (visit : list string).
(** [EnhanceRootCommand] of autocli, on the modules it was given. *)
Context (EnhanceRootCommand : list Wiring.Mod → list SubCommand → outcome (list SubCommand)).

Definition NewRootCmd (os : OS) : outcome RootCmd :=
  do? LoadChainSpec os yaml_forks in
  do? must (Wiring.Inject Wiring.app_AppConfig) in
  let usage := "Embedded network genesis to use (" +:+ Commands.formatNetworkList visit +:+ "). When set on the " +:+
               "start command, the embedded genesis is materialized to <home>/config/genesis.json before launch." in
  let mods := Wiring.clientModules (fst <$> Wiring.appConfig) in
  let? cmds := must (EnhanceRootCommand mods (initRootCmd [])) in
  Ret (mkRootCmd (Wiring.Name +:+ "d") "nexus node" true usage mods mods cmds).

End NewRootCmd.

(** [main]: the exit code, and what it prints. *)
Definition main (Execute : RootCmd → outcome unit) (rootCmd : RootCmd) : outcome (Z * option string) :=
  match Execute rootCmd with
  | Ret _ => Ret (0, None)
  | Fail e => Ret (1, Some (Error e))
  | Panic s => Panic s
  | OutOfFuel => OutOfFuel
  end.

(** ** Creating the application and setting it up *)

Section Start.
Context `{Wiring.AppLib, GoEthereum, CosmosSDK} (NewModuleAddressOrBech32Address : string → string).
Context `{!Hooks.Bech32}.

(** The variable that both closures of [initRootCmd] share, and the gRPC
    components. *)
Record Process := mkProcess { nexusApp : option Wiring.App; grpcState : Commands.GrpcState }.

Definition newApp (env : Wiring.Env) : outcome Wiring.App := Wiring.New NewModuleAddressOrBech32Address env true.

Definition newAppWithCapture (env : Wiring.Env) : M Process Wiring.App :=
  let! a := lift (newApp env) in
  do! modify (fun p => mkProcess (Some a) (grpcState p)) in
  ret a.

Definition postSetup (os : OS) (listen newClient : string → outcome unit) : M Process unit := fun p =>
  let captured := match nexusApp p with Some _ => true | None => false end in
  let (g, o) := Commands.PostSetup os listen newClient captured (grpcState p) in
  (mkProcess (nexusApp p) g, o).

(** ** Theorems *)

Lemma postSetup_app os listen newClient p p' o : postSetup os listen newClient p = (p', o) → nexusApp p' = nexusApp p.
Proof. unfold postSetup. destruct (Commands.PostSetup _ _ _ _ _). by intros [= <- _]. Qed.

(** C32: the application gets its client for Core.  After the creator that the
    server commands use has built an application, whatever was captured and
    running before, a [PostSetup] that returns leaves that application captured
    and, with the gRPC components enabled, gives it a client of its own: a new
    connection with the 32-byte secret of the server that it also starts, both
    registered for clean-up; disabled, it changes nothing.  Without an
    application it starts both all the same and sets the client on nothing.  An
    application that could not be built is not captured. *)
Theorem captured_app_gets_its_core_client env os listen newClient p p1 p2 :
  (∀ a, newAppWithCapture env p = (p1, Ret a) → newApp env = Ret a ∧ nexusApp p1 = Some a ∧ grpcState p1 = grpcState p) ∧
  (is_ret (newAppWithCapture env p).2 = false → (newAppWithCapture env p).1 = p) ∧
  (postSetup os listen newClient p1 = (p2, Ret tt) →
   nexusApp p2 = nexusApp p1 ∧
   if bool_decide (Getenv os Commands.CoreGrpcServerEnabledEnvVar = "true") then
     ∃ a b secret, len secret = 32 ∧
       Commands.serving (grpcState p2) = (a, secret) :: Commands.serving (grpcState p1) ∧
       Commands.connected (grpcState p2) = (b, secret) :: Commands.connected (grpcState p1) ∧
       Commands.cleanup (grpcState p2) = Some ((a, secret), (b, secret)) ∧
       Commands.appCoreClient (grpcState p2) =
         match nexusApp p1 with Some _ => Some (b, secret) | None => Commands.appCoreClient (grpcState p1) end
   else p2 = p1).
Proof.
  split; [|split].
  - intros a Hn. unfold newAppWithCapture in Hn. apply bindM_ret in Hn as (p0 & a0 & Hl & Hn).
    injection Hl as <- Hl. by injection Hn as <- <-.
  - unfold newAppWithCapture, bindM, lift. by destruct (newApp env).
  - intros Hp. split; [by eapply postSetup_app|]. unfold postSetup in Hp.
    destruct (Commands.PostSetup _ _ _ _ _) as [g o] eqn:Hg. injection Hp as <- ->. cbn [grpcState].
    apply Commands.PostSetup_ret in Hg as [[Hd ->]|(a & b & secret & He & Hl & Hs & Hc & Hset & Hcl)].
    + rewrite bool_decide_eq_false_2 by done. by destruct p1.
    + rewrite bool_decide_eq_true_2 by done. exists a, b, secret. rewrite Hset. split_and!; [done..|].
      by destruct (nexusApp p1).
Qed.

End Start.

(** ** Witnesses *)

Section Witnesses.
#[local] Existing Instances geth cosmos Hooks.plain_bech32 Wiring.toy.

Definition grpcNode : Wiring.Env :=
  Wiring.mkEnv Commands.grpcEnv (fun _ => Fail ErrNotFound) (fun _ => Fail ErrNotFound) (fun _ => Fail ErrNotFound)
    (Ret tt) (Ret tt) (mkValueCodec (fun _ => Ret "") (fun _ => Ret DefaultParams)).

Definition freshProcess : Process := mkProcess None (Commands.mkGrpcState [] [] None None).
Definition createdNode : Process * outcome Wiring.App := newAppWithCapture (fun a => a) grpcNode freshProcess.
Definition setUpNode : Process * outcome unit :=
  postSetup Commands.grpcEnv (fun _ => Ret tt) (fun _ => Ret tt) createdNode.1.

Lemma captured_app_gets_its_core_client_witness :
  is_ret createdNode.2 = true ∧ setUpNode.2 = Ret tt ∧
  ∃ c, len c.2 = 32 ∧ Commands.connected (grpcState setUpNode.1) = [c] ∧
    Commands.appCoreClient (grpcState setUpNode.1) = Some c.
Proof.
  assert (Hr : is_ret createdNode.2 = true) by (vm_compute; reflexivity). split; [exact Hr|].
  assert (Hp : setUpNode.2 = Ret tt) by (vm_compute; reflexivity). split; [exact Hp|].
  destruct (is_ret_run createdNode Hr) as [a Ha].
  destruct (captured_app_gets_its_core_client (fun a => a) grpcNode Commands.grpcEnv (fun _ => Ret tt) (fun _ => Ret tt)
              freshProcess createdNode.1 setUpNode.1) as (Hnew & _ & Hset).
  destruct (Hnew a Ha) as (_ & Happ & Hg). destruct Hset as [_ Hset].
  { rewrite <-Hp. apply surjective_pairing. }
  rewrite bool_decide_eq_true_2 in Hset by (vm_compute; reflexivity).
  destruct Hset as (x & b & secret & Hl & _ & Hc & _ & Hs). rewrite Hg in Hc. rewrite Happ in Hs.
  exists (b, secret). split_and!; [exact Hl|exact Hc|exact Hs].
Defined.

End Witnesses.

End Root.
