(* ===== verification/Network.v ===== *)
(** * Several nodes

    What the handlers of [Proposal] and [MsgServer] give when more than one
    node runs them.  Agreement: nodes that execute the same decided payloads
    with the same verdicts have the same head, whatever else each of them does
    in between and whatever their configuration, store and execution client.
    Progress: while the environment is honest, every round of proposal, votes
    and execution moves all nodes to the same next block.

    CometBFT is the environment: it picks the proposer, hands the proposal to
    every node and, when all of them accept, has its transactions executed.  Of
    these the payload messages are run here, wherever in the block they are;
    the others belong to modules of the SDK, which do not touch the evm store. *)

From S2P Require Import Prelude GoStd GoJson External ChainSpec Engine Concrete Async EvmTypes Keeper.
From S2P Require Import MsgServer Abci Proposal Chain.

(** ** The replicated state machine *)

(** A decided payload message with the verdict of its execution. *)
Definition Decided : Type := MsgExecutionPayload * bool.

Section Machine.
Context `{GoEthereum}.

Definition apply_entry (b : BlockState) (x : Decided) : BlockState :=
  if x.2 then
    match ExecutableData_Unmarshal (mep_ExecutionPayload x.1) with Ret p => payload_state p | _ => b end
  else b.

Definition apply_entries (b : BlockState) (l : list Decided) : BlockState := fold_left apply_entry l b.
End Machine.

(** ** The payload messages of a block *)

Definition tx_payloads (tx : Tx) : list MsgExecutionPayload :=
  omap (fun m => match m with MExecutionPayload p => Some p | MOther _ _ => None end) (tx_Msgs tx).

(** In the order of execution, over all messages of all transactions. *)
Definition block_payloads `{CosmosSDK} (txs : list string) : list MsgExecutionPayload :=
  txs ≫= fun raw => match TxDecoder raw with Ret tx => tx_payloads tx | _ => [] end.

Section Payloads.
Context `{CosmosSDK}.

Lemma parseTx_decodes raw p : parseTx raw = Ret p → TxDecoder raw = Ret (pt_tx p) ∧ length (tx_Msgs (pt_tx p)) = 1%nat ∧
  (pt_isEVM p = false → tx_payloads (pt_tx p) = []).
Proof.
  unfold parseTx. intros Hp. apply bindO_ret in Hp as (tx & Hd & Hp). apply bindO_ret in Hp as ([] & Hv & Hp).
  unfold validateMsgAllowed in Hv. destruct (tx_Msgs tx) as [|m [|m' l]] eqn:Hm; try done.
  apply bindO_ret in Hp as ([] & _ & [= <-]). cbn. unfold tx_payloads. rewrite Hm. by destruct m.
Qed.

Lemma block_ok_payloads max txs m : block_ok max txs m → block_payloads txs = [m].
Proof.
  intros (cs & ev & -> & _ & Hcs & (p & Hp & _ & Hm) & _). unfold block_payloads. rewrite bind_app.
  assert (cs ≫= (fun raw => match TxDecoder raw with Ret tx => tx_payloads tx | _ => [] end) = []) as ->.
  { induction Hcs as [|raw cs (q & Hq & He) _ IH]; [done|]. cbn. rewrite IH, app_nil_r.
    destruct (parseTx_decodes raw q Hq) as (-> & _ & Hn). by apply Hn. }
  cbn. destruct (parseTx_decodes ev p Hp) as (-> & _). unfold tx_payloads. by rewrite Hm.
Qed.

End Payloads.

(** A block that a validator accepts after block 1 has exactly one payload
    message, over all messages of all its transactions, and that one extends
    the block state: no second payload hides behind the checks. *)
Theorem accepted_block_has_one_payload {E S : Type} `{!ItemStore S, !EngineClient E, !Host E, GoEthereumLaws, CosmosSDKLaws}
    k max c req (w : World E S) :
  rpr_Height req ≠ 1 → 0 ≤ max → max + Z.of_nat (length (rpr_Txs req)) < 2 ^ 63 →
  (processProposalHandler (makeProcessProposalRouter k) max c req w).2 = Ret ACCEPT →
  ∃ m st p, block_payloads (rpr_Txs req) = [m] ∧ GetBlockState w = (w, Ret st) ∧ payload_ok k c m st p.
Proof.
  intros Hh Hm Hb Ha. apply process_accepts in Ha as (m & st & p & _ & Hok & Hst & Hpo); [|done..].
  exists m, st, p. split_and!; [by eapply block_ok_payloads|done..].
Qed.

Section Replica.
Context {E S : Type} `{!ItemStore S, !ItemStoreLaws S, !EngineClient E, !Host E,
  GoEthereumLaws, CosmosSDKLaws}.
Local Abbreviation W := (World E S).
Variable k : Keeper.
Variable max : Z.

(** A run of one node that executes the entries [l], with any other handler
    calls before, between and after them. *)
Inductive replica : list Decided → W → W → Prop :=
| replica_done w : replica [] w w
| replica_local w w1 w' l : local_step k max w w1 → replica l w1 w' → replica l w w'
| replica_execute fuel c m w w1 w' o l :
    ExecutionPayload fuel k c m w = (w1, o) → replica l w1 w' → replica ((m, is_ret o) :: l) w w'.

Lemma execute_entry fuel c m w w1 o b :
  ExecutionPayload fuel k c m w = (w1, o) → head w b → head w1 (apply_entry b (m, is_ret o)).
Proof.
  intros Hx Hb. unfold apply_entry. cbn [fst snd]. destruct (is_ret o) eqn:Ho.
  - destruct o as [[]| | |]; try done.
    apply ExecutionPayload_ret in Hx as [_ (st & p & args & n & m0 & s1 & s2 & _ & Hok & _ & _ & _ & _ & Hg & _)].
    by rewrite (po_decoded _ _ _ _ _ Hok).
  - eapply head_same_store; [|exact Hb]. eapply ExecutionPayload_store; [done|]. by intros ->.
Qed.

Lemma replica_refines l w w' b : replica l w w' → head w b → head w' (apply_entries b l).
Proof.
  intros Hr. revert b. induction Hr as [w|w w1 w' l Hs Hr IH|fuel c m w w1 w' o l Hx Hr IH]; intros b Hb; [done|..].
  - apply IH. by destruct (local_step_advances k max _ _ _ Hs Hb) as [? _].
  - apply IH. by eapply execute_entry.
Qed.
End Replica.

(** C4: agreement.  Two nodes with the same head that execute the same decided
    payloads with the same verdicts end with the same head, the one the
    abstract machine [apply_entries] computes.  Nothing else has to agree: not
    their configuration, their store or execution client, the retries and the
    contexts of the executions, or the proposals, votes, parameter updates,
    queries, exports and readiness probes in between. *)
Theorem replicas_agree {E1 S1 E2 S2 : Type} `{!ItemStore S1, !ItemStoreLaws S1, !EngineClient E1, !Host E1,
    !ItemStore S2, !ItemStoreLaws S2, !EngineClient E2, !Host E2, GoEthereumLaws, CosmosSDKLaws}
    k1 k2 max1 max2 l (w1 w1' : World E1 S1) (w2 w2' : World E2 S2) b :
  replica k1 max1 l w1 w1' → replica k2 max2 l w2 w2' → head w1 b → head w2 b →
  head w1' (apply_entries b l) ∧ head w2' (apply_entries b l).
Proof. intros. split; by eapply replica_refines. Qed.

(** ** Rounds of an honest network *)

Section Rounds.
Context {E S : Type} `{!ItemStore S, !ItemStoreLaws S, !EngineClient E, !Host E,
  GoEthereumLaws, CosmosSDKLaws}.
Local Abbreviation W := (World E S).
Variable k : Keeper.
Variable max : Z.

(** What CometBFT decides about a round: who proposes, from which mempool and
    last commit, and the contexts in which the handlers run. *)
Record Round := mkRound {
  rd_fuel : nat;
  rd_proposer : nat;
  rd_request : RequestPrepareProposal;
  rd_votes : list VoteInfo;
  rd_prepare : SdkContext;
  rd_process : SdkContext;
  rd_finalize : SdkContext }.

Definition round_prepare (r : Round) : W → W * outcome (list string) :=
  prepareProposalHandler (rd_fuel r) k max (rd_prepare r) (rd_request r).
Definition round_process (r : Round) (txs : list string) : W → W * outcome ProposalStatus :=
  processProposalHandler (makeProcessProposalRouter k) max (rd_process r)
    (mkRequestProcessProposal (rpp_Height (rd_request r)) txs (rd_votes r)).
Definition round_finalize (r : Round) (txs : list string) (w : W) : W :=
  fold_left (fun w m => (ExecutionPayload (Datatypes.S (rd_fuel r)) k (rd_finalize r) m w).1) (block_payloads txs) w.

Definition accepts {A} (v : A * outcome ProposalStatus) : bool :=
  match v.2 with Ret ACCEPT => true | _ => false end.

(** The votes on a proposal; it is executed when all nodes accept. *)
Definition vote_and_execute (r : Round) (txs : list string) (ws : list W) : list W :=
  let voted := round_process r txs <$> ws in
  if forallb accepts voted then round_finalize r txs ∘ fst <$> voted else fst <$> voted.

Definition run_round (r : Round) (ws : list W) : list W :=
  match ws !! rd_proposer r with
  | None => ws
  | Some w =>
      let '(w', o) := round_prepare r w in
      let ws := <[rd_proposer r := w']> ws in
      match o with Ret txs => vote_and_execute r txs ws | _ => ws end
  end.

Definition run_rounds (rs : list Round) (ws : list W) : list W := fold_left (fun ws r => run_round r ws) rs ws.

(** All nodes have this head. *)
Definition heads (ws : list W) (b : BlockState) : Prop := Forall (fun w => head w b) ws.

(** *** An honest environment *)

(** [number] gives the number of the block of a hash. *)
Context (number : Hash → Z) (building : E → PayloadID → Hash → PayloadAttributes → Prop).

(** The contexts of a round after block 1 belong to the same block, outside the
    window of height timestamps; the last commit has its two thirds, the
    mempool no oversized transaction. *)
Record honest_round (r : Round) : Prop := {
  hr_first : rpp_Height (rd_request r) ≠ 1;
  hr_sizes : Forall (fun raw => len raw ≤ MaxTxSize) (rpp_Txs (rd_request r));
  hr_power : enoughPower (rd_votes r) = true;
  hr_height : 0 ≤ sc_Height (rd_prepare r);
  hr_window : ¬ in_block_window k (u64 (sc_Height (rd_prepare r)));
  hr_process : sc_Height (rd_process r) = sc_Height (rd_prepare r) ∧
               sc_BlockTime (rd_process r) = sc_BlockTime (rd_prepare r);
  hr_finalize : sc_Height (rd_finalize r) = sc_Height (rd_prepare r) ∧
                sc_BlockTime (rd_finalize r) = sc_BlockTime (rd_prepare r);
  hr_mode : sc_ExecMode (rd_finalize r) = ExecModeFinalize }.

(** The proposer's client delivers a block in time: one with decodable
    transactions and few enough blobs, whose hash belongs to its number. *)
Definition delivers_block (r : Round) (ws : list W) : Prop := ∃ w txs,
  ws !! rd_proposer r = Some w ∧ (round_prepare r w).2 = Ret txs ∧ max + Z.of_nat (length txs) < 2 ^ 63 ∧
  ∀ m p, m ∈ block_payloads txs → ExecutableData_Unmarshal (mep_ExecutionPayload m) = Ret p →
    number (ed_BlockHash p) = ed_Number p ∧ ed_Timestamp p < maxUint64 ∧
    ∃ args, sendPayload_args (rd_finalize r) p = Ret args.

Fixpoint honest_rounds (rs : list Round) (ws : list W) : Prop :=
  match rs with
  | [] => True
  | r :: rs => honest_round r ∧ delivers_block r ws ∧ honest_rounds rs (run_round r ws)
  end.

Hypothesis Hmax : 0 ≤ max.
Hypothesis Hresponsive : responsive (E := E).
Hypothesis Hwritable : writable S.
Hypothesis Hbuilder : builder_contract number building.

(** The heads from which an honest round starts, and to which it leads. *)
Definition head_ok (b : BlockState) : Prop :=
  valid_bs b ∧ number (bs_Hash b) = bs_Height b ∧ bs_Timestamp b < maxUint64.

Lemma heads_insert i w w' ws b :
  ws !! i = Some w → reads_only w w' → heads ws b → heads (<[i:=w']> ws) b.
Proof.
  intros Hw [Hs _] Hh. apply Forall_insert; [done|]. eapply head_same_store; [exact Hs|].
  by eapply (Forall_lookup_1 _ _ _ _ Hh).
Qed.

Lemma heads_processes r txs ws b : heads ws b → heads (fst <$> (round_process r txs <$> ws)) b.
Proof.
  intros Hh. unfold heads in *. rewrite !Forall_fmap. eapply Forall_impl; [exact Hh|]. intros w Hw. cbv beta.
  unfold compose. destruct (round_process r txs w) as [w' o] eqn:Hp. apply processProposalHandler_reads in Hp as [Hs _].
  by eapply head_same_store.
Qed.

(** Every node accepts a block that extends the common head. *)
Lemma all_accept r txs m p ws b :
  honest_round r → max + Z.of_nat (length txs) < 2 ^ 63 → heads ws b →
  block_ok max txs m → payload_ok k (rd_process r) m b p →
  forallb accepts (round_process r txs <$> ws) = true.
Proof.
  intros Hr Hlen Hh Hok Hpo. apply Is_true_true, forallb_True, Forall_fmap. eapply Forall_impl; [exact Hh|]. intros w Hw. cbv beta.
  pose proof (process_accepts k max (rd_process r) (mkRequestProcessProposal (rpp_Height (rd_request r)) txs (rd_votes r))
    w (hr_first r Hr) Hmax Hlen) as [_ Ha].
  unfold compose, accepts, round_process. rewrite Ha; [done|]. exists m, b, p. split_and!; [apply (hr_power r Hr)|done..].
Qed.

(** Every node executes it. *)
Lemma all_finalize r txs m p args ws b :
  honest_round r → heads ws b → block_payloads txs = [m] → payload_ok k (rd_finalize r) m b p →
  sendPayload_args (rd_finalize r) p = Ret args →
  heads (round_finalize r txs <$> ws) (payload_state p).
Proof.
  intros Hr Hh Hm Hpo Ha. apply Forall_fmap. eapply Forall_impl; [exact Hh|]. intros w Hw.
  unfold compose, round_finalize. rewrite Hm. cbn [fold_left].
  destruct (payload_executes (rd_fuel r) k (rd_finalize r) m b p args w) as (w' & -> & Hg); try done.
  - apply (hr_mode r Hr).
  - intros Hl. pose proof (po_decoded _ _ _ _ _ Hpo) as Hd. destruct (mep_ExecutionPayload m) eqn:He; [|done].
    by apply (ExecutableData_Unmarshal_empty p).
Qed.

Lemma round_progress r ws b :
  honest_round r → delivers_block r ws → heads ws b → head_ok b →
  ∃ p, linked b p ∧ head_ok (payload_state p) ∧ heads (run_round r ws) (payload_state p).
Proof.
  intros Hr (w & txs & Hw & Htxs & Hlen & Hblk) Hh (Hv & Hnum & Hts). unfold run_round. rewrite Hw.
  destruct (round_prepare r w) as [w' o] eqn:Hp. cbn [snd] in Htxs. subst o.
  assert (Hb : head w b) by by eapply (Forall_lookup_1 _ _ _ _ Hh).
  destruct (CalculateTimestamp_progress k (rd_prepare r) (u64 (sc_Height (rd_prepare r))) (bs_Timestamp b)
    (hr_window r Hr) (proj2 (proj2 Hv)) Hts) as [Hlt _].
  destruct (hr_process r Hr) as [Hph Hpt]. destruct (hr_finalize r Hr) as [Hfh Hft].
  destruct (prepared_block_ok (rd_fuel r) k max (rd_prepare r) (rd_process r) (rd_request r) txs b number building w w')
    as (m & p & Hok & Hpo); try done; try apply Hr.
  pose proof (block_ok_payloads max txs m Hok) as Hpay.
  destruct (Hblk m p ltac:(rewrite Hpay; set_solver) (po_decoded _ _ _ _ _ Hpo)) as (Hn & Ht & args & Ha).
  assert (Hpf : payload_ok k (rd_finalize r) m b p)
    by (eapply (payload_ok_context _ (rd_process r)); [congruence..|done]).
  pose proof (payload_state_valid _ _ _ _ _ Hpo) as Hpv.
  exists p. split_and!; [by destruct Hpo|done..|].
  assert (Hh1 : heads (<[rd_proposer r:=w']> ws) b).
  { eapply heads_insert; [done| |done]. by eapply prepareProposalHandler_reads. }
  unfold vote_and_execute. rewrite (all_accept r txs m p _ b) by done.
  rewrite list_fmap_compose. eapply all_finalize; [done|by apply heads_processes|done..].
Qed.

(** C8: progress of the network.  As long as the rounds are honest, every
    round adds one block: all nodes accept the proposal, execute it and reach
    the same head, and after [n] rounds they are [n] blocks further on one
    hash-linked chain, and [n] higher. *)
Theorem honest_rounds_make_progress rs ws b :
  honest_rounds rs ws → heads ws b → head_ok b → bs_Height b + Z.of_nat (length rs) < 2 ^ 64 →
  ∃ ps b', length ps = length rs ∧ chain_of b ps b' ∧ heads (run_rounds rs ws) b' ∧
    bs_Height b' = bs_Height b + Z.of_nat (length rs).
Proof.
  intros Hrun Hh Hb Hlt.
  assert (∃ ps b', length ps = length rs ∧ chain_of b ps b' ∧ heads (run_rounds rs ws) b') as (ps & b' & Hl & Hc & Hs).
  { clear Hlt. revert ws b Hrun Hh Hb. induction rs as [|r rs IH]; intros ws b Hrun Hh Hb.
    - exists [], b. split_and!; [done|constructor|done].
    - destruct Hrun as (Hr & Hd & Hrun). destruct (round_progress r ws b Hr Hd Hh Hb) as (p & Hlink & Hb1 & Hh1).
      destruct (IH _ _ Hrun Hh1 Hb1) as (ps & b' & Hl & Hc & Hs). exists (p :: ps), b'.
      split_and!; [cbn; lia|by constructor|done]. }
  exists ps, b'. split_and!; [done..|]. rewrite <-Hl in Hlt |- *.
  destruct Hb as ((_ & Hu & _) & _). unfold is_u64 in Hu. by apply (chain_of_progress b ps b'); [..|lia].
Qed.

End Rounds.

(** ** Witnesses: two nodes, two rounds *)

Section Witnesses.
#[local] Existing Instances geth geth_laws cosmos cosmos_laws mapStore mapStore_laws exact_host honest_engine.

(** Another node: its fees go elsewhere. *)
Definition other_keeper : Keeper :=
  mkKeeper (k_authority sample_keeper) (k_paramsCodec sample_keeper) 77 (k_UseBlockTimestamp sample_keeper)
    (k_UnixTimestampOffset sample_keeper) (k_chainSpec sample_keeper).

Definition sample_entry : Decided := (sample_msg ["a"], true).
Definition executed_by (k : Keeper) (w : ConcreteWorld) : ConcreteWorld :=
  (ExecutionPayload 1 k (sample_sdk 200 2000) (sample_msg ["a"]) w).1.
Definition executed_alone : ConcreteWorld := executed_by other_keeper (sample_world []).

Lemma executed_by_ret k w :
  is_ret (ExecutionPayload 1 k (sample_sdk 200 2000) (sample_msg ["a"]) w).2 = true →
  replica k 1 [sample_entry] w (executed_by k w).
Proof.
  intros Ho. assert (sample_entry = (sample_msg ["a"], is_ret (ExecutionPayload 1 k (sample_sdk 200 2000) (sample_msg ["a"]) w).2))
    as -> by (by rewrite Ho).
  eapply (replica_execute k 1 1 _ _ w (executed_by k w)); [|apply replica_done].
  unfold executed_by. apply surjective_pairing.
Qed.

(** One node prepares a proposal of its own first, the other does not. *)
Lemma replicas_agree_witness :
  head (executed_by sample_keeper honest_run.1) (apply_entries sample_state [sample_entry]) ∧
  head executed_alone (apply_entries sample_state [sample_entry]).
Proof.
  apply (replicas_agree sample_keeper other_keeper 1 1 [sample_entry] (sample_world []) _ (sample_world [])).
  - eapply replica_local; [eapply step_prepare, honest_run_returns|]. apply executed_by_ret. vm_compute. reflexivity.
  - apply executed_by_ret. vm_compute. reflexivity.
  - apply sample_state_read.
  - apply sample_state_read.
Defined.

Definition sample_round (proposer : nat) (height : Z) : Round :=
  mkRound 2 proposer (mkRequestPrepareProposal height sample_mempool) sample_votes
    (sample_sdk height 2000) (sample_sdk height 2000) (sample_sdk height 2000).
Definition sample_rounds : list Round := [sample_round 0 200; sample_round 1 201].
Definition sample_nodes : list ConcreteWorld := [sample_world []; sample_world []].

Lemma sample_round_honest i h : 100 ≤ h < 2 ^ 63 → honest_round sample_keeper (sample_round i h).
Proof.
  intros Hh. split; cbn; try done; [lia|repeat constructor; vm_compute; discriminate|lia|].
  unfold in_block_window. cbn. unfold u64. rewrite Z.mod_small by lia. lia.
Qed.

Lemma sample_rounds_honest : honest_rounds sample_keeper 1 number_of sample_rounds sample_nodes.
Proof.
  cbn [honest_rounds sample_rounds]. split_and!; try (apply sample_round_honest; lia).
  - eexists (sample_world []), _. split_and!; [reflexivity|vm_compute; reflexivity|vm_compute; reflexivity|].
    intros m p Hm Hp. vm_compute in Hm. apply list_elem_of_singleton in Hm as ->. vm_compute in Hp. injection Hp as <-.
    split_and!; [vm_compute; reflexivity..|]. eexists. vm_compute. reflexivity.
  - eexists _, _. split_and!; [vm_compute; reflexivity|vm_compute; reflexivity|vm_compute; reflexivity|].
    intros m p Hm Hp. vm_compute in Hm. apply list_elem_of_singleton in Hm as ->. vm_compute in Hp. injection Hp as <-.
    split_and!; [vm_compute; reflexivity..|]. eexists. vm_compute. reflexivity.
  - done.
Qed.

Lemma honest_rounds_make_progress_witness :
  ∃ ps b', length ps = 2%nat ∧ chain_of sample_state ps b' ∧
    heads (run_rounds sample_keeper 1 sample_rounds sample_nodes) b' ∧ bs_Height b' = 199 + 2.
Proof.
  apply (honest_rounds_make_progress sample_keeper 1 number_of is_building ltac:(lia)) with (rs := sample_rounds).
  - split; intros; do 2 eexists; (split; [reflexivity|]); simpl; auto; discriminate.
  - apply mapStore_writable.
  - exact obliging_contract.
  - exact sample_rounds_honest.
  - repeat constructor; apply sample_state_read.
  - split_and!; [unfold valid_bs, is_hash, is_u64; simpl; lia|reflexivity|vm_compute; reflexivity].
  - vm_compute. reflexivity.
Defined.

End Witnesses.
