(* ===== verification/Wire.v ===== *)
(** * The protobuf wire format of the generated code

    What the generated files [x/evm/types/*.pb.go] share: writing a message
    from the end of a buffer towards its front, varints, skipping of unknown
    fields, and the loop of [Unmarshal].  The generator repeats these functions
    in every file under another suffix ([encodeVarintTx], [sovTx], [skipTx],
    [encodeVarintGenesis], ...); they are defined once here.  [Messages] holds
    the messages.

    A buffer is a list of bytes; an access outside of it panics as in Go.
    [Unmarshal] changes its receiver, so it is a computation on the message,
    and what was decoded before an error stays. *)

From S2P Require Import Prelude GoStd.

Abbreviation bytes := (list ascii).
Definition blen (d : bytes) : Z := Z.of_nat (length d).

Definition ErrInvalidLength : error := errText "proto: negative length found during unmarshaling".
Definition ErrIntOverflow : error := errText "proto: integer overflow".
Definition ErrUnexpectedEndOfGroup : error := errText "proto: unexpected end of group".
Definition ErrUnexpectedEOF : error := errText "unexpected EOF".

(** ** Accesses to a slice *)

Definition index (d : bytes) (i : Z) : outcome Z :=
  if (0 <=? i) && (i <? blen d) then
    match d !! Z.to_nat i with Some b => Ret (byte_val b) | None => Panic "index out of range" end
  else Panic "index out of range".

(** [d[i:j]]. *)
Definition slice (d : bytes) (i j : Z) : outcome bytes :=
  if (0 <=? i) && (i <=? j) && (j <=? blen d) then Ret (take (Z.to_nat (j - i)) (drop (Z.to_nat i) d))
  else Panic "slice bounds out of range".

(** [d[i] = uint8(v)]. *)
Definition set_byte (d : bytes) (i v : Z) : outcome bytes :=
  if (0 <=? i) && (i <? blen d) then Ret (<[Z.to_nat i := chr (v mod 256)]> d) else Panic "index out of range".

(** [copy(d[i:], src)]: as many bytes as fit. *)
Definition copy_to (d : bytes) (i : Z) (src : bytes) : outcome bytes :=
  if (0 <=? i) && (i <=? blen d) then
    let i := Z.to_nat i in
    let src := take (length d - i)%nat src in
    Ret (take i d ++ src ++ drop (i + length src)%nat d)%list
  else Panic "slice bounds out of range".

(** ** Varints *)

(** [math/bits.Len64]. *)
Definition Len64 (x : Z) : Z := if x =? 0 then 0 else Z.log2 x + 1.

Definition sov (x : Z) : Z := (Len64 (Z.lor x 1) + 6) / 7.

(** The loop of [encodeVarint]: a [uint64] has at most ten groups of seven
    bits. *)
Fixpoint encode_loop (fuel : nat) (dAtA : bytes) (offset v : Z) : outcome bytes :=
  match fuel with
  | O => OutOfFuel
  | S fuel =>
      if 128 <=? v then
        let? dAtA := set_byte dAtA offset (Z.lor (Z.land v 127) 128) in
        encode_loop fuel dAtA (offset + 1) (Z.shiftr v 7)
      else set_byte dAtA offset v
  end.

(** The buffer and the offset of its first byte. *)
Definition encodeVarint (dAtA : bytes) (offset v : Z) : outcome (bytes * Z) :=
  let base := offset - sov v in
  let? dAtA := encode_loop 10 dAtA base v in
  Ret (dAtA, base).

(** The loop that reads a varint into a [uint64], the state: seven bits at a
    time, the bits beyond the width are lost. *)
Fixpoint varint_loop (fuel : nat) (dAtA : bytes) (iNdEx shift : Z) : M Z Z :=
  match fuel with
  | O => out_of_fuel
  | S fuel =>
      if 64 <=? shift then fail ErrIntOverflow
      else if blen dAtA <=? iNdEx then fail ErrUnexpectedEOF
      else
        let! b := lift (index dAtA iNdEx) in
        do! modify (fun acc => Z.lor acc (u64 (Z.shiftl (Z.land b 127) shift))) in
        if b <? 128 then ret (iNdEx + 1) else varint_loop fuel dAtA (iNdEx + 1) (shift + 7)
  end.

(** The value and the index after it, read into a new variable. *)
Definition varint (dAtA : bytes) (iNdEx : Z) : outcome (Z * Z) :=
  let (acc, o) := varint_loop 11 dAtA iNdEx 0 0 in
  let? i := o in Ret (acc, i).

(** The same into an [int]: the same bits. *)
Definition varint_int (dAtA : bytes) (iNdEx : Z) : outcome (Z * Z) :=
  let? r := varint dAtA iNdEx in Ret (i64 r.1, r.2).

(** ** Skipping a field *)

(** The loop that passes over a varint. *)
Fixpoint skip_varint (fuel : nat) (dAtA : bytes) (iNdEx shift : Z) : outcome Z :=
  match fuel with
  | O => OutOfFuel
  | S fuel =>
      if 64 <=? shift then Fail ErrIntOverflow
      else if blen dAtA <=? iNdEx then Fail ErrUnexpectedEOF
      else
        let? b := index dAtA iNdEx in
        if b <? 128 then Ret (iNdEx + 1) else skip_varint fuel dAtA (iNdEx + 1) (shift + 7)
  end.

(** What follows a tag of this wire type: the new index and depth. *)
Definition skip_value (dAtA : bytes) (wireType iNdEx depth : Z) : outcome (Z * Z) :=
  if wireType =? 0 then let? i := skip_varint 11 dAtA iNdEx 0 in Ret (i, depth)
  else if wireType =? 1 then Ret (i64_add iNdEx 8, depth)
  else if wireType =? 2 then
    let? r := varint_int dAtA iNdEx in
    if r.1 <? 0 then Fail ErrInvalidLength else Ret (i64_add r.2 r.1, depth)
  else if wireType =? 3 then Ret (iNdEx, depth + 1)
  else if wireType =? 4 then
    if depth =? 0 then Fail ErrUnexpectedEndOfGroup else Ret (iNdEx, depth - 1)
  else if wireType =? 5 then Ret (i64_add iNdEx 4, depth)
  else Fail (errText ("proto: illegal wireType " +:+ fmt_d wireType)).

Fixpoint skip_loop (fuel : nat) (dAtA : bytes) (iNdEx depth : Z) : outcome Z :=
  match fuel with
  | O => OutOfFuel
  | S fuel =>
      if blen dAtA <=? iNdEx then Fail ErrUnexpectedEOF
      else
        let? r := varint dAtA iNdEx in
        let? s := skip_value dAtA (Z.land r.1 7) r.2 depth in
        if s.1 <? 0 then Fail ErrInvalidLength
        else if s.2 =? 0 then Ret s.1
        else skip_loop fuel dAtA s.1 s.2
  end.

(** Every round reads a tag, so there are at most as many as bytes. *)
Definition skip (dAtA : bytes) : outcome Z := skip_loop (S (length dAtA)) dAtA 0 0.

(** ** Marshalling

    The buffer and the index of the first byte that was written. *)

Definition put_byte (b : Z) (s : bytes * Z) : outcome (bytes * Z) :=
  let? d := set_byte s.1 (s.2 - 1) b in Ret (d, s.2 - 1).

(** [if len(x) > 0 { i -= len(x); copy; length; tag }]. *)
Definition put_bytes (tag : Z) (x : bytes) (s : bytes * Z) : outcome (bytes * Z) :=
  if 0 <? blen x then
    let i := s.2 - blen x in
    let? d := copy_to s.1 i x in
    let? s := encodeVarint d i (blen x) in
    put_byte tag s
  else Ret s.

(** [if x != 0 { value; tag }]. *)
Definition put_uint (tag x : Z) (s : bytes * Z) : outcome (bytes * Z) :=
  if negb (x =? 0) then let? s := encodeVarint s.1 s.2 x in put_byte tag s else Ret s.

(** A message inside another: it is marshalled into [dAtA[:i]], which shares
    the buffer. *)
Definition put_message (marshal : bytes → outcome (bytes * Z)) (tag : Z) (s : bytes * Z) : outcome (bytes * Z) :=
  let? front := slice s.1 0 s.2 in
  let? r := marshal front in
  let d := (r.1 ++ drop (Z.to_nat s.2) s.1)%list in
  let? s := encodeVarint d (s.2 - r.2) (r.2) in
  put_byte tag s.

(** A repeated message, from the last to the first. *)
Fixpoint put_messages {A} (marshal : A → bytes → outcome (bytes * Z)) (tag : Z) (l : list A) (s : bytes * Z) :
    outcome (bytes * Z) :=
  match l with
  | [] => Ret s
  | m :: l => let? s := put_messages marshal tag l s in put_message (marshal m) tag s
  end.

(** [Marshal]: a buffer of the size of the message; [dAtA[:n]]. *)
Definition marshal_sized {A} (size : A → Z) (marshal : A → bytes → outcome (bytes * Z)) (m : A) : outcome bytes :=
  let n := size m in
  if n <? 0 then Panic "makeslice: len out of range"
  else
    let? r := marshal m (replicate (Z.to_nat n) (chr 0)) in
    slice r.1 0 r.2.

(** ** Unmarshalling *)

Section Unmarshal.
Context {A : Type}.

(** What a field of this number does: from its wire type and the index after
    its tag to the index after the field. *)
Definition Field : Type := Z → Z → M A Z.

(** The length of a field, and the index of its end. *)
Definition field_end (dAtA : bytes) (iNdEx : Z) : outcome (Z * Z) :=
  let? r := varint_int dAtA iNdEx in
  if r.1 <? 0 then Fail ErrInvalidLength
  else
    let postIndex := i64_add r.2 r.1 in
    if postIndex <? 0 then Fail ErrInvalidLength
    else if blen dAtA <? postIndex then Fail ErrUnexpectedEOF
    else Ret (r.2, postIndex).

Definition expect_wireType (wireType want : Z) (name : string) : M A unit :=
  lift (guard_err (wireType =? want)
          (errText ("proto: wrong wireType = " +:+ fmt_d wireType +:+ " for field " +:+ name))).

(** A [string] or [[]byte]: the bytes are copied and stored. *)
Definition bytes_field (dAtA : bytes) (name : string) (store : bytes → A → A) : Field := fun wireType iNdEx =>
  do! expect_wireType wireType 2 name in
  let! e := lift (field_end dAtA iNdEx) in
  let! b := lift (slice dAtA e.1 e.2) in
  do! modify (store b) in
  ret e.2.

(** A [uint64]: set to zero, then read in place. *)
Definition uint_field (dAtA : bytes) (name : string) (store : Z → A → A) : Field := fun wireType iNdEx =>
  do! expect_wireType wireType 0 name in
  fun m => let (x, o) := varint_loop 11 dAtA iNdEx 0 0 in (store x m, o).

(** A message: [unmarshal] decodes its bytes into the part of the receiver it
    is responsible for. *)
Definition message_field (dAtA : bytes) (name : string) (unmarshal : bytes → M A unit) : Field :=
  fun wireType iNdEx =>
    do! expect_wireType wireType 2 name in
    let! e := lift (field_end dAtA iNdEx) in
    let! b := lift (slice dAtA e.1 e.2) in
    do! unmarshal b in
    ret e.2.

(** Any other field. *)
Definition unknown_field (dAtA : bytes) (preIndex : Z) : M A Z :=
  let! rest := lift (slice dAtA preIndex (blen dAtA)) in
  let! skippy := lift (skip rest) in
  if (skippy <? 0) || (i64_add preIndex skippy <? 0) then fail ErrInvalidLength
  else if blen dAtA <? i64_add preIndex skippy then fail ErrUnexpectedEOF
  else ret (i64_add preIndex skippy).

Definition i32 (z : Z) : Z := (z + 2 ^ 31) mod 2 ^ 32 - 2 ^ 31.

(** One round of the loop: a tag and its field. *)
Definition unmarshal_field (name : string) (fields : Z → option Field) (dAtA : bytes) (iNdEx : Z) : M A Z :=
  let! r := lift (varint dAtA iNdEx) in
  let fieldNum := i32 (Z.shiftr r.1 3) in
  let wireType := Z.land r.1 7 in
  if wireType =? 4 then fail (errText ("proto: " +:+ name +:+ ": wiretype end group for non-group"))
  else if fieldNum <=? 0 then
    fail (errText ("proto: " +:+ name +:+ ": illegal tag " +:+ fmt_d fieldNum +:+ " (wire type " +:+ fmt_d r.1 +:+ ")"))
  else
    match fields fieldNum with
    | Some f => f wireType r.2
    | None => unknown_field dAtA iNdEx
    end.

Fixpoint unmarshal_loop (fuel : nat) (name : string) (fields : Z → option Field) (dAtA : bytes) (iNdEx : Z) :
    M A unit :=
  if iNdEx <? blen dAtA then
    match fuel with
    | O => out_of_fuel
    | S fuel =>
        let! i := unmarshal_field name fields dAtA iNdEx in
        unmarshal_loop fuel name fields dAtA i
    end
  else if blen dAtA <? iNdEx then fail ErrUnexpectedEOF
  else ret tt.

(** Every round reads at least a tag. *)
Definition unmarshal (name : string) (fields : bytes → Z → option Field) (dAtA : bytes) : M A unit :=
  unmarshal_loop (length dAtA) name (fields dAtA) dAtA 0.

End Unmarshal.
Arguments Field : clear implicits.

(** ** The reference encoding

    Written front to back: seven bits per byte, least significant first. *)

Fixpoint leb (n : nat) (v : Z) : bytes :=
  match n with
  | O => []
  | S n => if 128 <=? v then chr (v mod 128 + 128) :: leb n (v / 128) else [chr v]
  end.
Definition uvarint (v : Z) : bytes := leb 10 v.

Definition enc_message (tag : Z) (body : bytes) : bytes := (chr tag :: uvarint (blen body) ++ body)%list.
Definition enc_bytes (tag : Z) (x : bytes) : bytes := if 0 <? blen x then enc_message tag x else [].
Definition enc_uint (tag x : Z) : bytes := if negb (x =? 0) then chr tag :: uvarint x else [].

Arguments uvarint : simpl never.
Arguments enc_message : simpl never.
Arguments enc_bytes : simpl never.
Arguments enc_uint : simpl never.

Lemma blen_app a b : blen (a ++ b) = blen a + blen b.
Proof. unfold blen. rewrite length_app. lia. Qed.
Lemma blen_cons x a : blen (x :: a) = 1 + blen a.
Proof. unfold blen. cbn [length]. lia. Qed.
Lemma blen_nonneg a : 0 ≤ blen a.
Proof. unfold blen. lia. Qed.
#[export] Hint Rewrite blen_app blen_cons : nexus.

Lemma blen_to_nat a : Z.to_nat (blen a) = length a.
Proof. unfold blen. lia. Qed.

(** A list has a prefix of every length up to its own. *)
Lemma split_at {X} (n : nat) (l : list X) : (n ≤ length l)%nat → ∃ a b, l = (a ++ b)%list ∧ length a = n.
Proof.
  intros Hn. exists (take n l), (drop n l). split; [by rewrite take_drop|]. by rewrite length_take_le.
Qed.

Lemma length_one {X} (b : list X) : length b = 1%nat → ∃ x, b = [x].
Proof. destruct b as [|x [|]]; try done. eauto. Qed.

(** *** Accesses at a known place *)

Lemma index_at pre x rest : index (pre ++ x :: rest) (blen pre) = Ret (byte_val x).
Proof.
  unfold index. rewrite blen_to_nat, list_lookup_middle by done.
  autorewrite with nexus. pose proof (blen_nonneg pre). pose proof (blen_nonneg rest).
  destruct (Z.leb_spec 0 (blen pre)), (Z.ltb_spec (blen pre) (blen pre + (1 + blen rest))); done || lia.
Qed.

Lemma set_byte_at a x e v : 0 ≤ v < 256 → set_byte (a ++ x :: e) (blen a) v = Ret (a ++ chr v :: e)%list.
Proof.
  intros Hv. unfold set_byte. rewrite blen_to_nat, insert_app_r_alt, Nat.sub_diag, Z.mod_small by lia.
  autorewrite with nexus. pose proof (blen_nonneg a). pose proof (blen_nonneg e).
  destruct (Z.leb_spec 0 (blen a)), (Z.ltb_spec (blen a) (blen a + (1 + blen e))); done || lia.
Qed.

Lemma copy_to_at a b e src : length b = length src → copy_to (a ++ b ++ e) (blen a) src = Ret (a ++ src ++ e)%list.
Proof.
  intros Hb. unfold copy_to. rewrite blen_to_nat. autorewrite with nexus.
  pose proof (blen_nonneg a). pose proof (blen_nonneg b). pose proof (blen_nonneg e).
  destruct (Z.leb_spec 0 (blen a)), (Z.leb_spec (blen a) (blen a + (blen b + blen e))); try lia. cbn [andb].
  rewrite !length_app, (take_ge src), take_app_length by lia.
  rewrite (app_assoc a b e), (drop_app_length' (a ++ b) e) by (rewrite length_app; lia). done.
Qed.

Lemma slice_at pre b rest : slice (pre ++ b ++ rest) (blen pre) (blen pre + blen b) = Ret b.
Proof.
  unfold slice. rewrite blen_to_nat. autorewrite with nexus.
  pose proof (blen_nonneg pre). pose proof (blen_nonneg b). pose proof (blen_nonneg rest).
  destruct (Z.leb_spec 0 (blen pre)), (Z.leb_spec (blen pre) (blen pre + blen b)),
    (Z.leb_spec (blen pre + blen b) (blen pre + (blen b + blen rest))); try lia. cbn [andb].
  replace (blen pre + blen b - blen pre) with (blen b) by lia.
  by rewrite blen_to_nat, drop_app_length, take_app_length.
Qed.

Lemma slice_front b rest : slice (b ++ rest) 0 (blen b) = Ret b.
Proof. exact (slice_at [] b rest). Qed.

(** *** Sizes of varints *)

Lemma sov_log2 v : 0 ≤ v → sov v = Z.log2 v / 7 + 1.
Proof.
  intros Hv. unfold sov, Len64.
  assert (Hlor : Z.log2 (Z.lor v 1) = Z.log2 v).
  { rewrite Z.log2_lor by lia. change (Z.log2 1) with 0. pose proof (Z.log2_nonneg v). lia. }
  destruct (Z.eqb_spec (Z.lor v 1) 0) as [H0|_].
  - apply Z.lor_eq_0_iff in H0 as [_ H0]. discriminate H0.
  - rewrite Hlor. replace (Z.log2 v + 1 + 6) with (Z.log2 v + 1 * 7) by lia. rewrite Z.div_add by lia. lia.
Qed.

(** The bits that are left after the first byte. *)
Lemma div128 n v :
  128 ≤ v < 2 ^ (7 * Z.of_nat (S n)) → 0 ≤ v / 128 < 2 ^ (7 * Z.of_nat n) ∧ (0 < n)%nat.
Proof.
  intros Hv. assert (Hdiv : 0 ≤ v / 128 < 2 ^ (7 * Z.of_nat n)).
  { split; [apply Z.div_pos; lia|]. apply Z.div_lt_upper_bound; [lia|].
    change 128 with (2 ^ 7). rewrite <-Z.pow_add_r by lia.
    replace (7 + 7 * Z.of_nat n) with (7 * Z.of_nat (S n)) by lia. lia. }
  split; [done|]. destruct n; [|lia]. cbn in Hdiv.
  assert (1 ≤ v / 128) by (apply Z.div_le_lower_bound; lia). lia.
Qed.

Lemma leb_length n v : 0 ≤ v < 2 ^ (7 * Z.of_nat n) → (0 < n)%nat → blen (leb n v) = sov v.
Proof.
  revert v. induction n as [|n IH]; intros v Hv Hn; [lia|]. cbn [leb].
  rewrite sov_log2 by lia. destruct (Z.leb_spec 128 v) as [Hge|Hlt].
  - destruct (div128 n v) as [Hdiv Hn0]; [lia|].
    rewrite blen_cons, IH, sov_log2 by (lia || done).
    assert (Hlog : Z.log2 (v / 128) = Z.log2 v - 7).
    { change 128 with (2 ^ 7). rewrite <-Z.shiftr_div_pow2, Z.log2_shiftr by lia.
      assert (7 ≤ Z.log2 v) by (apply Z.log2_le_pow2; lia). lia. }
    rewrite Hlog. replace (Z.log2 v - 7) with (Z.log2 v + -1 * 7) by lia. rewrite Z.div_add by lia. lia.
  - assert (Z.log2 v < 7).
    { destruct (decide (v = 0)) as [->|]; [done|]. apply Z.log2_lt_pow2; lia. }
    pose proof (Z.log2_nonneg v). rewrite Z.div_small by lia. done.
Qed.

Lemma uvarint_length v : is_u64 v → blen (uvarint v) = sov v.
Proof. intros Hv. apply leb_length; [|lia]. unfold is_u64 in Hv. cbn. lia. Qed.

(** *** Writing from the back

    [writes f p]: in front of the index there is room for [p]; [f] puts [p]
    there and changes nothing else. *)

Definition writes (f : bytes * Z → outcome (bytes * Z)) (p : bytes) : Prop := ∀ a b e,
  length b = length p → f ((a ++ b ++ e)%list, blen (a ++ b)) = Ret ((a ++ p ++ e)%list, blen a).

Lemma writes_ret : writes Ret [].
Proof. intros a b e Hb. apply nil_length_inv in Hb as ->. by rewrite app_nil_r. Qed.

Lemma writes_bind f g p q : writes f p → writes g q → writes (fun s => bindO (f s) g) (q ++ p).
Proof.
  intros Hf Hg a b e Hb. rewrite length_app in Hb.
  destruct (split_at (length q) b) as (b1 & b2 & -> & Hl); [lia|].
  rewrite length_app in Hb. rewrite <-app_assoc.
  pose proof (Hf (a ++ b1)%list b2 e ltac:(lia)) as Hf'. rewrite <-!app_assoc in Hf'. rewrite Hf'. cbn [bindO].
  rewrite Hg, <-app_assoc by lia. done.
Qed.

Lemma encode_loop_writes n v a b e :
  0 ≤ v < 2 ^ (7 * Z.of_nat n) → (0 < n)%nat → length b = length (leb n v) →
  encode_loop n (a ++ b ++ e) (blen a) v = Ret (a ++ leb n v ++ e)%list.
Proof.
  revert v a b. induction n as [|n IH]; intros v a b Hv Hn Hb; [lia|]. cbn [leb encode_loop] in *.
  destruct (Z.leb_spec 128 v) as [Hge|Hlt].
  - destruct b as [|x b]; [done|]. cbn [app].
    assert (Hval : Z.lor (Z.land v 127) 128 = v mod 128 + 128).
    { change 127 with (Z.ones 7). rewrite Z.land_ones by lia. change (2 ^ 7) with 128.
      change 128 with (Z.shiftl 1 7) at 2. rewrite <-(Z.add_0_l (_ + _)).
      assert (Hl : Z.land (v mod 128) 128 = 0).
      { apply Z.bits_inj'. intros i Hi. rewrite Z.land_spec, Z.bits_0.
        change 128 with (2 ^ 7). destruct (decide (i = 7)) as [->|].
        - by rewrite Z.mod_pow2_bits_high.
        - rewrite (Z.pow2_bits_false 7 i) by lia. by rewrite andb_false_r. }
      rewrite <-Z.lxor_lor, <-Z.add_nocarry_lxor by done. done. }
    assert (0 ≤ v mod 128 < 128) by (apply Z.mod_pos_bound; lia).
    rewrite Hval, set_byte_at by lia. cbn [bindO].
    rewrite Z.shiftr_div_pow2 by lia. change (2 ^ 7) with 128.
    destruct (div128 n v) as [Hdiv Hn0]; [lia|].
    replace (blen a + 1) with (blen (a ++ [chr (v mod 128 + 128)])) by (by rewrite blen_app).
    rewrite cons_middle, app_assoc, IH by (done || (injection Hb; done)). by rewrite <-app_assoc.
  - apply length_one in Hb as [x ->]. cbn [app]. rewrite set_byte_at by lia. done.
Qed.

Lemma encodeVarint_writes v : is_u64 v → writes (fun s => encodeVarint s.1 s.2 v) (uvarint v).
Proof.
  intros Hv a b e Hb. unfold encodeVarint. cbn [fst snd].
  assert (blen b = sov v) as Hs by (rewrite <-uvarint_length by done; unfold blen; lia).
  rewrite blen_app, <-Hs. replace (blen a + blen b - blen b) with (blen a) by lia.
  rewrite encode_loop_writes; [done| |lia|done]. unfold is_u64 in Hv. cbn. lia.
Qed.

Lemma put_byte_writes t : 0 ≤ t < 256 → writes (put_byte t) [chr t].
Proof.
  intros Ht a b e Hb. apply length_one in Hb as [x ->]. unfold put_byte. cbn [fst snd app].
  rewrite blen_app, blen_cons. replace (blen a + (1 + blen []) - 1) with (blen a) by (change (blen []) with 0; lia).
  by rewrite set_byte_at.
Qed.

Lemma put_message_writes marshal tag p :
  0 ≤ tag < 256 → is_u64 (blen p) →
  (∀ a b, length b = length p → marshal (a ++ b)%list = Ret ((a ++ p)%list, blen p)) →
  writes (put_message marshal tag) (enc_message tag p).
Proof.
  intros Ht Hp Hm a b e Hb. unfold put_message, enc_message in *. cbn [fst snd].
  cbn [length] in Hb. rewrite length_app in Hb.
  destruct (split_at (1 + length (uvarint (blen p))) b) as (b1 & b2 & -> & Hl); [lia|]. rewrite length_app in Hb.
  rewrite (app_assoc a (b1 ++ b2) e), slice_front. cbn [bindO]. rewrite (app_assoc a b1 b2), Hm by lia.
  cbn [bindO fst snd]. rewrite blen_to_nat, drop_app_length.
  replace (blen ((a ++ b1) ++ b2) - blen p) with (blen (a ++ b1)) by (rewrite !blen_app; unfold blen; lia).
  pose proof (writes_bind _ _ _ _ (encodeVarint_writes (blen p) Hp) (put_byte_writes tag Ht) a b1 (p ++ e)%list) as Hw.
  rewrite <-!app_assoc in Hw. cbn [fst snd] in Hw.
  rewrite <-(app_assoc (a ++ b1) p e), <-(app_assoc a b1 (p ++ e)).
  etrans; [apply Hw; cbn [length app]; lia|]. cbn [app]. by rewrite <-app_assoc.
Qed.

Lemma put_bytes_writes tag x : 0 ≤ tag < 256 → is_u64 (blen x) → writes (put_bytes tag x) (enc_bytes tag x).
Proof.
  intros Ht Hx. unfold enc_bytes. intros a b e. unfold put_bytes. cbn [fst snd].
  destruct (0 <? blen x); [|apply writes_ret]. unfold enc_message. cbn [length]. rewrite length_app. intros Hb.
  destruct (split_at (1 + length (uvarint (blen x))) b) as (b1 & b2 & -> & Hl); [lia|]. rewrite length_app in Hb.
  replace (blen (a ++ b1 ++ b2) - blen x) with (blen (a ++ b1)) by (rewrite !blen_app; unfold blen; lia).
  rewrite <-(app_assoc b1 b2 e), (app_assoc a b1), copy_to_at by lia. cbn [bindO].
  pose proof (writes_bind _ _ _ _ (encodeVarint_writes (blen x) Hx) (put_byte_writes tag Ht) a b1 (x ++ e)%list) as Hw.
  rewrite <-!app_assoc in Hw. cbn [fst snd] in Hw.
  rewrite <-(app_assoc a b1 (x ++ e)).
  etrans; [apply Hw; cbn [length app]; lia|]. cbn [app]. by rewrite <-app_assoc.
Qed.

Lemma put_uint_writes tag x : 0 ≤ tag < 256 → is_u64 x → writes (put_uint tag x) (enc_uint tag x).
Proof.
  intros Ht Hx. unfold put_uint, enc_uint. destruct (negb (x =? 0)); [|apply writes_ret].
  exact (writes_bind _ _ _ _ (encodeVarint_writes x Hx) (put_byte_writes tag Ht)).
Qed.

Lemma put_messages_writes {A} (marshal : A → bytes → outcome (bytes * Z)) tag (enc : A → bytes) l :
  0 ≤ tag < 256 →
  Forall (fun m => is_u64 (blen (enc m)) ∧
    ∀ a b, length b = length (enc m) → marshal m (a ++ b)%list = Ret ((a ++ enc m)%list, blen (enc m))) l →
  writes (put_messages marshal tag l) (l ≫= fun m => enc_message tag (enc m)).
Proof.
  intros Ht. induction 1 as [|m l [Hu Hm] _ IH]; cbn [put_messages]; [apply writes_ret|].
  exact (writes_bind _ _ _ _ IH (put_message_writes _ _ _ Ht Hu Hm)).
Qed.

(** A chain of writes fills a buffer of its size from the back. *)
Lemma writes_marshal f p a b : writes f p → length b = length p →
  f ((a ++ b)%list, blen (a ++ b)) = Ret ((a ++ p)%list, blen a).
Proof. intros Hf Hb. specialize (Hf a b [] Hb). by rewrite !app_nil_r in Hf. Qed.

Lemma marshal_sized_enc {A} (size : A → Z) marshal (m : A) p :
  size m = blen p → (∀ a b, length b = length p → marshal m (a ++ b)%list = Ret ((a ++ p)%list, blen p)) →
  marshal_sized size marshal m = Ret p.
Proof.
  intros Hs Hm. unfold marshal_sized. rewrite Hs. pose proof (blen_nonneg p).
  destruct (Z.ltb_spec (blen p) 0); [lia|].
  pose proof (Hm [] (replicate (Z.to_nat (blen p)) (chr 0))) as Hr. cbn [app] in Hr.
  rewrite Hr by (rewrite length_replicate; apply blen_to_nat). cbn [bindO fst snd].
  pose proof (slice_front p []) as Hf. by rewrite app_nil_r in Hf.
Qed.

(** *** Reading *)

(** Disjoint bits add up. *)
Lemma lor_shiftl a b n : 0 ≤ n → 0 ≤ a < 2 ^ n → Z.lor a (Z.shiftl b n) = a + b * 2 ^ n.
Proof.
  intros Hn Ha. rewrite <-Z.lxor_lor.
  - rewrite <-Z.add_nocarry_lxor; [by rewrite Z.shiftl_mul_pow2|].
    apply Z.bits_inj'. intros i Hi. rewrite Z.land_spec, Z.shiftl_spec, Z.bits_0 by lia.
    destruct (decide (i < n)); [by rewrite (Z.testbit_neg_r b) by lia; rewrite andb_false_r|].
    rewrite <-(Z.mod_small a (2 ^ n)) by lia. by rewrite Z.mod_pow2_bits_high by lia.
  - apply Z.bits_inj'. intros i Hi. rewrite Z.land_spec, Z.shiftl_spec, Z.bits_0 by lia.
    destruct (decide (i < n)); [by rewrite (Z.testbit_neg_r b) by lia; rewrite andb_false_r|].
    rewrite <-(Z.mod_small a (2 ^ n)) by lia. by rewrite Z.mod_pow2_bits_high by lia.
Qed.

Lemma lor_u64 a b : is_u64 a → is_u64 b → is_u64 (Z.lor a b).
Proof.
  unfold is_u64. intros Ha Hb. split; [apply Z.lor_nonneg; lia|].
  destruct (decide (Z.lor a b = 0)) as [->|Hne]; [lia|].
  assert (0 ≤ Z.lor a b) by (apply Z.lor_nonneg; lia).
  apply Z.log2_lt_pow2; [lia|]. rewrite Z.log2_lor by lia.
  assert (∀ x, 0 ≤ x < 2 ^ 64 → Z.log2 x < 64) as Hlog.
  { intros x Hx. destruct (decide (x = 0)) as [->|]; [done|]. apply Z.log2_lt_pow2; lia. }
  pose proof (Hlog a Ha). pose proof (Hlog b Hb). lia.
Qed.

Lemma varint_loop_leb n v shift acc pre rest :
  (0 < n)%nat → shift = 7 * (10 - Z.of_nat n) → (n ≤ 10)%nat → 0 ≤ v < 2 ^ (7 * Z.of_nat n) →
  v * 2 ^ shift < 2 ^ 64 → 0 ≤ acc < 2 ^ shift →
  varint_loop (S n) (pre ++ leb n v ++ rest) (blen pre) shift acc =
  (acc + v * 2 ^ shift, Ret (blen pre + blen (leb n v))).
Proof.
  revert v shift acc pre. induction n as [|n IH]; intros v shift acc pre Hn Hs Hn10 Hv Hw Hacc; [lia|].
  cbn [leb]. set (x := if 128 <=? v then chr (v mod 128 + 128) else chr v).
  assert (Hx : Z.land (byte_val x) 127 = v mod 128 ∧ (byte_val x <? 128) = negb (128 <=? v)).
  { change 127 with (Z.ones 7). rewrite Z.land_ones by lia. change (2 ^ 7) with 128. unfold x.
    assert (0 ≤ v mod 128 < 128) by (apply Z.mod_pos_bound; lia).
    destruct (Z.leb_spec 128 v); rewrite byte_val_chr by lia; cbn [negb].
    - split; [|apply Z.ltb_ge; lia]. replace (v mod 128 + 128) with (v mod 128 + 1 * 128) by lia.
      rewrite Z_mod_plus_full. apply Z.mod_mod. lia.
    - split; [done|apply Z.ltb_lt; lia]. }
  assert (Hp : 0 < 2 ^ shift) by (apply Z.pow_pos_nonneg; lia).
  assert (Hmod : 0 ≤ v mod 128 ≤ v) by (split; [apply Z.mod_pos_bound; lia|apply Z.mod_le; lia]).
  assert (Hacc' : Z.lor acc (u64 (Z.shiftl (v mod 128) shift)) = acc + (v mod 128) * 2 ^ shift).
  { rewrite u64_small; [by apply lor_shiftl; lia|]. rewrite Z.shiftl_mul_pow2 by lia. unfold is_u64. nia. }
  assert (Hstep : ∀ tl, varint_loop (S (S n)) (pre ++ x :: tl) (blen pre) shift acc =
    if negb (128 <=? v) then (acc + (v mod 128) * 2 ^ shift, Ret (blen pre + 1))
    else varint_loop (S n) (pre ++ x :: tl) (blen pre + 1) (shift + 7) (acc + (v mod 128) * 2 ^ shift)).
  { intros tl. cbn [varint_loop]. destruct (Z.leb_spec 64 shift); [lia|].
    rewrite blen_app, blen_cons. pose proof (blen_nonneg tl).
    destruct (Z.leb_spec (blen pre + (1 + blen tl)) (blen pre)); [lia|].
    rewrite index_at. unfold bindM, lift, modify. destruct Hx as [Hx1 Hx2]. rewrite Hx1, Hx2, Hacc'.
    by destruct (negb (128 <=? v)). }
  unfold x in *. destruct (Z.leb_spec 128 v) as [Hge|Hlt]; cbn [app negb] in *.
  - rewrite Hstep. destruct (div128 n v) as [Hdiv Hn0]; [lia|].
    replace (blen pre + 1) with (blen (pre ++ [chr (v mod 128 + 128)])) by (by rewrite blen_app).
    pose proof (Z.div_mod v 128 ltac:(lia)) as Hdm.
    assert (Hsh : 2 ^ (shift + 7) = 2 ^ shift * 128) by (rewrite Z.pow_add_r by lia; done).
    rewrite cons_middle, app_assoc, IH; [|lia..|rewrite Hsh; nia|].
    + rewrite Hsh, blen_app, !blen_cons. change (blen []) with 0. f_equal; [|f_equal; lia]. nia.
    + rewrite Hsh. assert (v mod 128 < 128) by (apply Z.mod_pos_bound; lia). nia.
  - rewrite Hstep, Z.mod_small by lia. change (blen [chr v]) with 1. done.
Qed.

Lemma varint_uvarint v pre rest :
  is_u64 v → varint (pre ++ uvarint v ++ rest) (blen pre) = Ret (v, blen pre + blen (uvarint v)) ∧
  varint_loop 11 (pre ++ uvarint v ++ rest) (blen pre) 0 0 = (v, Ret (blen pre + blen (uvarint v))).
Proof.
  intros Hv. unfold is_u64 in Hv.
  assert (Hl : varint_loop 11 (pre ++ uvarint v ++ rest) (blen pre) 0 0 = (v, Ret (blen pre + blen (uvarint v)))).
  { unfold uvarint. rewrite varint_loop_leb; [f_equal; cbn; lia|cbn; lia..]. }
  split; [|exact Hl]. unfold varint. by rewrite Hl.
Qed.

Lemma varint_tag tag pre rest :
  0 ≤ tag < 128 → varint (pre ++ chr tag :: rest) (blen pre) = Ret (tag, blen pre + 1).
Proof.
  intros Ht. destruct (varint_uvarint tag pre rest) as [Hv _]; [unfold is_u64; lia|].
  assert (uvarint tag = [chr tag]) as Hu.
  { unfold uvarint. cbn [leb]. destruct (Z.leb_spec 128 tag); [lia|done]. }
  rewrite Hu in Hv. exact Hv.
Qed.

Lemma field_end_at pre b rest :
  blen (pre ++ uvarint (blen b) ++ b ++ rest) ≤ maxInt64 →
  let start := blen pre + blen (uvarint (blen b)) in
  field_end (pre ++ uvarint (blen b) ++ b ++ rest) (blen pre) = Ret (start, start + blen b).
Proof.
  intros Hd. unfold field_end, varint_int. autorewrite with nexus in Hd.
  pose proof (blen_nonneg pre). pose proof (blen_nonneg b). pose proof (blen_nonneg rest).
  pose proof (blen_nonneg (uvarint (blen b))). unfold maxInt64 in Hd.
  destruct (varint_uvarint (blen b) pre (b ++ rest)) as [-> _]; [unfold is_u64; lia|].
  cbn [bindO fst snd]. rewrite i64_small by (unfold is_i64; lia).
  destruct (Z.ltb_spec (blen b) 0); [lia|].
  unfold i64_add. rewrite i64_small by (unfold is_i64; lia). rewrite !blen_app.
  destruct (Z.ltb_spec (blen pre + blen (uvarint (blen b)) + blen b) 0); [lia|].
  destruct (Z.ltb_spec (blen pre + (blen (uvarint (blen b)) + (blen b + blen rest)))
              (blen pre + blen (uvarint (blen b)) + blen b)); [lia|]. done.
Qed.

Lemma i32_small tag : 0 ≤ tag < 128 → i32 (Z.shiftr tag 3) = Z.shiftr tag 3.
Proof.
  intros Ht. rewrite Z.shiftr_div_pow2 by lia. assert (0 ≤ tag / 2 ^ 3 < 128).
  { split; [apply Z.div_pos; lia|]. apply Z.div_lt_upper_bound; lia. }
  unfold i32. rewrite Z.mod_small; lia.
Qed.

Lemma skip_message tag p rest :
  0 ≤ tag < 128 → Z.land tag 7 = 2 → 1 + blen (uvarint (blen p)) + blen p ≤ maxInt64 →
  skip (chr tag :: uvarint (blen p) ++ p ++ rest) = Ret (1 + blen (uvarint (blen p)) + blen p).
Proof.
  intros Ht H2 Hb. pose proof (blen_nonneg p). pose proof (blen_nonneg rest).
  pose proof (blen_nonneg (uvarint (blen p))). unfold maxInt64 in Hb.
  unfold skip. cbn [length skip_loop]. rewrite blen_cons. autorewrite with nexus.
  destruct (Z.leb_spec (1 + (blen (uvarint (blen p)) + (blen p + blen rest))) 0); [lia|].
  pose proof (varint_tag tag [] (uvarint (blen p) ++ p ++ rest) Ht) as Hv. cbn [app] in Hv.
  change (blen []) with 0 in Hv. rewrite Hv. cbn [bindO fst snd]. rewrite H2. unfold skip_value. cbn [Z.eqb Pos.eqb].
  destruct (varint_uvarint (blen p) [chr tag] (p ++ rest)) as [Hl _]; [unfold is_u64; lia|].
  cbn [app] in Hl. unfold varint_int. change (0 + 1) with (blen [chr tag]). rewrite Hl. cbn [bindO fst snd].
  rewrite i64_small by (unfold is_i64; lia). destruct (Z.ltb_spec (blen p) 0); [lia|]. cbn [bindO fst snd].
  unfold i64_add. change (blen [chr tag]) with 1. rewrite i64_small by (unfold is_i64; lia).
  destruct (Z.ltb_spec (1 + blen (uvarint (blen p)) + blen p) 0); [lia|]. done.
Qed.

(** [reads name fields p f]: wherever the loop meets [p], it goes on after it
    with the receiver changed by [f]. *)
Section Reads.
Context {A : Type} (name : string) (fields : bytes → Z → option (Field A)).

Definition reads (p : bytes) (f : A → A) : Prop := ∀ d pre rest m fuel,
  d = (pre ++ p ++ rest)%list → blen d ≤ maxInt64 → (length p + length rest ≤ fuel)%nat →
  ∃ fuel', (length rest ≤ fuel')%nat ∧
    unmarshal_loop fuel name (fields d) d (blen pre) m =
    unmarshal_loop fuel' name (fields d) d (blen (pre ++ p)) (f m).

Lemma reads_nil : reads [] id.
Proof. intros d pre rest m fuel _ _ Hf. exists fuel. split; [done|]. by rewrite app_nil_r. Qed.

Lemma reads_app p q f g : reads p f → reads q g → reads (p ++ q) (g ∘ f).
Proof.
  intros Hp Hq d pre rest m fuel Hd Hb Hf. rewrite length_app in Hf.
  destruct (Hp d pre (q ++ rest)%list m fuel) as (f1 & Hf1 & ->); [by rewrite Hd, <-app_assoc|done|rewrite length_app; lia|].
  rewrite length_app in Hf1.
  destruct (Hq d (pre ++ p)%list rest (f m) f1) as (f2 & Hf2 & ->); [by rewrite Hd, <-!app_assoc|done|lia|].
  exists f2. split; [done|]. by rewrite <-app_assoc.
Qed.

(** Everything was read. *)
Lemma reads_all p f m : reads p f → blen p ≤ maxInt64 → unmarshal name fields p m = (f m, Ret tt).
Proof.
  intros Hp Hb. unfold unmarshal. change 0 with (blen []).
  destruct (Hp p [] [] m (length p)) as (f1 & _ & ->); [by rewrite app_nil_r|done|cbn; lia|].
  cbn [app]. destruct f1; cbn [unmarshal_loop]; by rewrite Z.ltb_irrefl.
Qed.

(** One field: its tag is a byte, and its handler reads the rest. *)
Lemma reads_field tag p f :
  0 ≤ tag < 128 → Z.land tag 7 ≠ 4 → 0 < Z.shiftr tag 3 →
  (∀ d pre rest m, d = (pre ++ chr tag :: p ++ rest)%list → blen d ≤ maxInt64 →
     ∃ h, fields d (Z.shiftr tag 3) = Some h ∧ h (Z.land tag 7) (blen pre + 1) m = (f m, Ret (blen pre + 1 + blen p))) →
  reads (chr tag :: p) f.
Proof.
  intros Ht H4 H0 Hh d pre rest m fuel Hd Hb Hf.
  destruct fuel as [|fuel]; [cbn in Hf; lia|]. exists fuel. cbn [length] in Hf. split; [lia|].
  destruct (Hh d pre rest m Hd Hb) as (h & Hs & Hrun).
  cbn [unmarshal_loop]. pose proof (blen_nonneg pre). pose proof (blen_nonneg p). pose proof (blen_nonneg rest).
  assert (Hlt : blen pre < blen d) by (rewrite Hd; cbn; autorewrite with nexus; lia).
  destruct (Z.ltb_spec (blen pre) (blen d)); [|lia].
  assert (Hr : unmarshal_field name (fields d) d (blen pre) m = (f m, Ret (blen pre + 1 + blen p))).
  { assert (Hv : varint d (blen pre) = Ret (tag, blen pre + 1)) by (rewrite Hd; by apply varint_tag).
    unfold unmarshal_field, bindM, lift. rewrite Hv. cbn [fst snd].
    destruct (Z.eqb_spec (Z.land tag 7) 4); [done|].
    rewrite i32_small by done.
    destruct (Z.leb_spec (Z.shiftr tag 3) 0); [lia|]. by rewrite Hs. }
  unfold bindM at 1. rewrite Hr.
  by replace (blen (pre ++ chr tag :: p)) with (blen pre + 1 + blen p) by (rewrite blen_app, blen_cons; lia).
Qed.

Lemma reads_length_delimited tag p f :
  0 ≤ tag < 128 → Z.land tag 7 = 2 → 0 < Z.shiftr tag 3 →
  (∀ d, ∃ h, fields d (Z.shiftr tag 3) = Some h ∧ ∀ i s e m,
     field_end d i = Ret (s, e) → slice d s e = Ret p → h 2 i m = (f m, Ret e)) →
  reads (enc_message tag p) f.
Proof.
  intros Ht H2 H0 Hh. unfold enc_message. apply reads_field; [done|lia|done|].
  intros d pre rest m Hd Hb. destruct (Hh d) as (h & Hs & Hrun). exists h. split; [done|].
  assert (Hd' : d = ((pre ++ [chr tag]) ++ uvarint (blen p) ++ p ++ rest)%list).
  { rewrite Hd, <-!app_assoc. done. }
  rewrite H2. assert (Hpre : blen pre + 1 = blen (pre ++ [chr tag])) by (by rewrite blen_app).
  rewrite Hpre, (blen_app (uvarint (blen p)) p), Z.add_assoc. apply (Hrun _ (blen (pre ++ [chr tag]) + blen (uvarint (blen p)))).
  - rewrite Hd'. apply field_end_at. by rewrite <-Hd'.
  - rewrite Hd', <-blen_app, app_assoc. apply slice_at.
Qed.

Lemma reads_message tag fname un p f :
  0 ≤ tag < 128 → Z.land tag 7 = 2 → 0 < Z.shiftr tag 3 →
  (∀ d, fields d (Z.shiftr tag 3) = Some (message_field d fname un)) →
  (∀ m, un p m = (f m, Ret tt)) → reads (enc_message tag p) f.
Proof.
  intros Ht H2 H0 Hf Hu. apply reads_length_delimited; [done..|]. intros d. eexists. split; [apply Hf|].
  intros i s e m He Hs. unfold message_field, expect_wireType, bindM, lift, guard_err, ret. cbn [Z.eqb Pos.eqb].
  rewrite He. cbn [fst snd]. by rewrite Hs, Hu.
Qed.

Lemma reads_bytes tag fname store x :
  0 ≤ tag < 128 → Z.land tag 7 = 2 → 0 < Z.shiftr tag 3 →
  (∀ d, fields d (Z.shiftr tag 3) = Some (bytes_field d fname store)) →
  reads (enc_bytes tag x) (fun m => if 0 <? blen x then store x m else m).
Proof.
  intros Ht H2 H0 Hf. unfold enc_bytes. destruct (0 <? blen x); [|exact reads_nil].
  apply reads_length_delimited; [done..|]. intros d. eexists. split; [apply Hf|].
  intros i s e m He Hs. unfold bytes_field, expect_wireType, bindM, lift, guard_err, modify, ret. cbn [Z.eqb Pos.eqb].
  rewrite He. cbn [fst snd]. by rewrite Hs.
Qed.

Lemma reads_uint tag fname store x :
  0 ≤ tag < 128 → Z.land tag 7 = 0 → 0 < Z.shiftr tag 3 → is_u64 x →
  (∀ d, fields d (Z.shiftr tag 3) = Some (uint_field d fname store)) →
  reads (enc_uint tag x) (fun m => if negb (x =? 0) then store x m else m).
Proof.
  intros Ht H2 H0 Hx Hf. unfold enc_uint. destruct (negb (x =? 0)); [|exact reads_nil].
  apply reads_field; [done|lia|done|]. intros d pre rest m Hd Hb. eexists. split; [apply Hf|].
  unfold uint_field, expect_wireType, bindM, lift, guard_err. rewrite H2. cbn [Z.eqb].
  destruct (varint_uvarint x (pre ++ [chr tag]) rest Hx) as [_ Hv].
  rewrite <-app_assoc in Hv. cbn [app] in Hv. rewrite <-Hd, blen_app in Hv.
  change (blen [chr tag]) with 1 in Hv. by rewrite Hv.
Qed.

Lemma reads_messages {B} tag fname un (enc : B → bytes) (app : B → A → A) (l : list B) :
  0 ≤ tag < 128 → Z.land tag 7 = 2 → 0 < Z.shiftr tag 3 →
  (∀ d, fields d (Z.shiftr tag 3) = Some (message_field d fname un)) →
  Forall (fun e => ∀ m, un (enc e) m = (app e m, Ret tt)) l →
  reads (l ≫= fun e => enc_message tag (enc e)) (fun m => fold_left (fun m e => app e m) l m).
Proof.
  intros Ht H2 H0 Hf. induction 1 as [|e l He _ IH]; [exact reads_nil|].
  exact (reads_app _ _ _ _ (reads_message _ _ _ _ _ Ht H2 H0 Hf He) IH).
Qed.

(** A length-delimited field of a number the message does not have. *)
Lemma reads_unknown tag p :
  0 ≤ tag < 128 → Z.land tag 7 = 2 → 0 < Z.shiftr tag 3 → (∀ d, fields d (Z.shiftr tag 3) = None) →
  reads (enc_message tag p) id.
Proof.
  intros Ht H2 H0 Hn d pre rest m fuel Hd Hb Hf. unfold enc_message in *.
  destruct fuel as [|fuel]; [cbn in Hf; lia|]. exists fuel. cbn [length] in Hf. split; [lia|].
  pose proof (blen_nonneg pre). pose proof (blen_nonneg p). pose proof (blen_nonneg rest).
  pose proof (blen_nonneg (uvarint (blen p))). unfold maxInt64 in Hb.
  pose proof Hb as Hlen. rewrite Hd in Hlen. cbn [app] in Hlen. autorewrite with nexus in Hlen.
  assert (Hlt : blen pre < blen d) by (rewrite Hd; cbn [app]; autorewrite with nexus; lia).
  cbn [unmarshal_loop]. destruct (Z.ltb_spec (blen pre) (blen d)); [|lia].
  set (e := 1 + blen (uvarint (blen p)) + blen p).
  pose proof (skip_message tag p rest Ht H2 ltac:(unfold maxInt64; lia)) as Hsk. fold e in Hsk.
  assert (Hr : unmarshal_field name (fields d) d (blen pre) m = (m, Ret (blen pre + e))).
  { assert (Hv : varint d (blen pre) = Ret (tag, blen pre + 1)) by (rewrite Hd; by apply varint_tag).
    unfold unmarshal_field, bindM, lift. rewrite Hv. cbn [fst snd].
    destruct (Z.eqb_spec (Z.land tag 7) 4); [lia|]. rewrite i32_small by done.
    destruct (Z.leb_spec (Z.shiftr tag 3) 0); [lia|]. rewrite Hn. unfold unknown_field, bindM, lift, ret.
    pose proof (slice_at pre (chr tag :: uvarint (blen p) ++ p ++ rest) []) as Hsl.
    rewrite app_nil_r, <-blen_app in Hsl.
    replace (pre ++ chr tag :: uvarint (blen p) ++ p ++ rest)%list with d in Hsl
      by (rewrite Hd; cbn [app]; by rewrite <-app_assoc).
    rewrite Hsl, Hsk. unfold e, i64_add. rewrite i64_small by (unfold is_i64; lia).
    destruct (Z.ltb_spec (1 + blen (uvarint (blen p)) + blen p) 0); [lia|]. cbn [orb].
    destruct (Z.ltb_spec (blen pre + (1 + blen (uvarint (blen p)) + blen p)) 0); [lia|].
    rewrite Hd. cbn [app]. autorewrite with nexus.
    destruct (Z.ltb_spec (blen pre + (1 + (blen (uvarint (blen p)) + blen p + blen rest)))
                (blen pre + (1 + blen (uvarint (blen p)) + blen p))); [lia|]. done. }
  unfold bindM at 1. rewrite Hr.
  by replace (blen (pre ++ chr tag :: uvarint (blen p) ++ p)) with (blen pre + e)
    by (autorewrite with nexus; unfold e; lia).
Qed.

End Reads.

(** *** Unmarshalling any bytes ends

    [ends]: a value or an error, neither a panic nor a loop that goes on. *)

Definition ends {A} (P : A → Prop) (o : outcome A) : Prop :=
  match o with Ret a => P a | Fail _ => True | Panic _ | OutOfFuel => False end.

Lemma ends_bindO {A B} (P : A → Prop) (Q : B → Prop) (o : outcome A) (f : A → outcome B) :
  ends P o → (∀ a, P a → ends Q (f a)) → ends Q (bindO o f).
Proof. destruct o; cbn; eauto. Qed.

Lemma ends_bindM {W A B} (P : A → Prop) (Q : B → Prop) (m : M W A) (f : A → M W B) w :
  ends P (m w).2 → (∀ a w', P a → ends Q (f a w').2) → ends Q (bindM m f w).2.
Proof. unfold bindM. destruct (m w) as [w' []]; cbn; eauto. Qed.

Lemma ends_mono {A} (P Q : A → Prop) o : (∀ a, P a → Q a) → ends P o → ends Q o.
Proof. destruct o; cbn; eauto. Qed.

Lemma index_ends d i : 0 ≤ i < blen d → ends (fun b => 0 ≤ b < 256) (index d i).
Proof.
  intros Hi. unfold index. destruct (Z.leb_spec 0 i), (Z.ltb_spec i (blen d)); try lia. cbn [andb].
  destruct (d !! Z.to_nat i) eqn:Hd; [apply byte_val_range|]. apply lookup_ge_None in Hd. unfold blen in *. lia.
Qed.

Lemma slice_ends d i j : 0 ≤ i ≤ j → j ≤ blen d → ends (fun b => blen b = j - i) (slice d i j).
Proof.
  intros Hi Hj. unfold slice. destruct (Z.leb_spec 0 i), (Z.leb_spec i j), (Z.leb_spec j (blen d)); try lia. cbn.
  unfold blen in *. rewrite length_take, length_drop. lia.
Qed.

Lemma varint_loop_ends n d i shift acc :
  0 ≤ i → shift < 71 ≤ shift + 7 * Z.of_nat n → is_u64 acc →
  is_u64 (varint_loop n d i shift acc).1 ∧ ends (fun j => i < j ≤ blen d) (varint_loop n d i shift acc).2.
Proof.
  revert i shift acc. induction n as [|n IH]; intros i shift acc Hi Hs Ha; [lia|]. cbn [varint_loop].
  destruct (Z.leb_spec 64 shift); [by split|]. destruct (Z.leb_spec (blen d) i); [by split|].
  pose proof (index_ends d i ltac:(lia)) as Hb. unfold bindM, lift, modify, ret.
  destruct (index d i) as [b| | |]; cbn in Hb; try done.
  assert (is_u64 (Z.lor acc (u64 (Z.shiftl (Z.land b 127) shift)))) as Hu by (apply lor_u64; auto with nexus).
  destruct (b <? 128); [split; [done|cbn; lia]|].
  destruct (IH (i + 1) (shift + 7) _ ltac:(lia) ltac:(lia) Hu) as [H1 H2]. split; [exact H1|].
  eapply ends_mono; [|exact H2]. cbn. lia.
Qed.

Lemma varint_ends d i : 0 ≤ i → ends (fun r => is_u64 r.1 ∧ i < r.2 ≤ blen d) (varint d i).
Proof.
  intros Hi. unfold varint. destruct (varint_loop_ends 11 d i 0 0) as [Hv Hj]; [lia|lia|unfold is_u64; lia|].
  destruct (varint_loop 11 d i 0 0) as [acc []]; cbn in *; done.
Qed.

Lemma varint_int_ends d i : 0 ≤ i → ends (fun r => is_i64 r.1 ∧ i < r.2 ≤ blen d) (varint_int d i).
Proof.
  intros Hi. eapply ends_bindO; [by apply varint_ends|]. intros r [_ Hr]. cbn. split; [auto with nexus|lia].
Qed.

Lemma skip_varint_ends n d i shift :
  0 ≤ i → shift < 71 ≤ shift + 7 * Z.of_nat n → ends (fun j => i < j ≤ blen d) (skip_varint n d i shift).
Proof.
  revert i shift. induction n as [|n IH]; intros i shift Hi Hs; [lia|]. cbn [skip_varint].
  destruct (Z.leb_spec 64 shift); [done|]. destruct (Z.leb_spec (blen d) i); [done|].
  eapply ends_bindO; [by apply index_ends|]. intros b _. destruct (b <? 128); [cbn; lia|].
  eapply ends_mono; [|apply IH; lia]. cbn. lia.
Qed.

(** Adding a length to an index: exact, or negative. *)
Lemma i64_add_index i n : 0 ≤ i ≤ maxInt64 → 0 ≤ n ≤ maxInt64 → i64_add i n < 0 ∨ i64_add i n = i + n.
Proof.
  unfold maxInt64, i64_add, i64. intros Hi Hn. destruct (decide (i + n < 2 ^ 63)).
  - right. rewrite Z.mod_small; lia.
  - left. rewrite <-(Z_mod_plus_full _ (-1)), Z.mod_small; lia.
Qed.

Lemma skip_value_ends d t i depth : 0 ≤ i ≤ blen d → blen d ≤ maxInt64 → 0 ≤ depth →
  ends (fun s => (s.1 < 0 ∨ i ≤ s.1 ≤ maxInt64) ∧ 0 ≤ s.2) (skip_value d t i depth).
Proof.
  intros Hi Hd Hdep. unfold skip_value.
  assert (Hadd : ∀ j n, i ≤ j ≤ blen d → 0 ≤ n ≤ maxInt64 → i64_add j n < 0 ∨ i ≤ i64_add j n ≤ maxInt64).
  { intros j n Hj Hn. destruct (i64_add_index j n) as [|He]; [lia|done|by left|right].
    pose proof (i64_range (j + n)) as Hr. unfold i64_add in *. unfold is_i64, maxInt64 in *. lia. }
  destruct (t =? 0).
  { eapply ends_bindO; [apply skip_varint_ends; lia|]. cbn. intros j Hj. lia. }
  destruct (t =? 1); [cbn; split; [apply Hadd; unfold maxInt64; lia|done]|].
  destruct (t =? 2).
  { eapply ends_bindO; [apply varint_int_ends; lia|]. intros r [Hr Hj]. destruct (Z.ltb_spec r.1 0); [done|].
    cbn. split; [apply Hadd; unfold is_i64, maxInt64 in *; lia|done]. }
  destruct (t =? 3); [cbn; lia|]. destruct (t =? 4).
  { destruct (Z.eqb_spec depth 0); cbn; [done|lia]. }
  destruct (t =? 5); [cbn; split; [apply Hadd; unfold maxInt64; lia|done]|]. done.
Qed.

Lemma skip_loop_ends n d i depth :
  0 ≤ i → blen d ≤ maxInt64 → 0 ≤ depth → blen d - i < Z.of_nat n → (0 < n)%nat →
  ends (fun j => i < j ≤ maxInt64) (skip_loop n d i depth).
Proof.
  revert i depth. induction n as [|n IH]; intros i depth Hi Hd Hdep Hn Hn0; [lia|]. cbn [skip_loop].
  destruct (Z.leb_spec (blen d) i); [done|].
  eapply ends_bindO; [by apply varint_ends|]. intros r [_ Hr].
  eapply ends_bindO; [apply skip_value_ends; [lia|done|done]|]. intros s [Hs Hs2].
  destruct (Z.ltb_spec s.1 0); [done|]. destruct (s.2 =? 0); [cbn; lia|].
  eapply ends_mono; [|apply IH; lia]. cbn. lia.
Qed.

Lemma skip_ends d : blen d ≤ maxInt64 → ends (fun j => 0 < j ≤ maxInt64) (skip d).
Proof. intros Hd. apply skip_loop_ends; unfold blen in *; lia. Qed.

Lemma field_end_ends d i : 0 ≤ i → blen d ≤ maxInt64 →
  ends (fun e => i < e.1 ≤ e.2 ∧ e.2 ≤ blen d) (field_end d i).
Proof.
  intros Hi Hd. unfold field_end. eapply ends_bindO; [by apply varint_int_ends|]. intros r [Hr Hj].
  destruct (Z.ltb_spec r.1 0); [done|].
  destruct (i64_add_index r.2 r.1) as [|He]; [lia|unfold is_i64, maxInt64 in *; lia| |].
  - destruct (Z.ltb_spec (i64_add r.2 r.1) 0); [done|lia].
  - rewrite He. destruct (Z.ltb_spec (r.2 + r.1) 0); [done|].
    destruct (Z.ltb_spec (blen d) (r.2 + r.1)); cbn; [done|lia].
Qed.

Section Totality.
Context {A : Type}.

(** A field handler that ends, at or after the index it was given. *)
Definition field_ends (d : bytes) (h : Field A) : Prop := ∀ t i m,
  0 ≤ i ≤ blen d → ends (fun j => i ≤ j ≤ blen d) (h t i m).2.

(** A nested message that ends on every part of the input. *)
Definition message_ends (un : bytes → M A unit) : Prop := ∀ b m,
  blen b ≤ maxInt64 → ends (fun _ => True) (un b m).2.

Lemma expect_wireType_ends t w n (m : A) : ends (fun _ => True) (expect_wireType t w n m).2.
Proof. unfold expect_wireType, lift, guard_err. by destruct (t =? w). Qed.

Lemma bytes_field_ends d n store : blen d ≤ maxInt64 → field_ends d (bytes_field d n store).
Proof.
  intros Hd t i m Hi. eapply ends_bindM; [apply expect_wireType_ends|]. intros _ m1 _.
  eapply ends_bindM; [apply field_end_ends; [lia|done]|]. intros e m2 He. cbn in He.
  eapply ends_bindM; [apply slice_ends; lia|]. intros b m3 _. cbn. lia.
Qed.

Lemma uint_field_ends d n store : field_ends d (uint_field d n store).
Proof.
  intros t i m Hi. eapply ends_bindM; [apply expect_wireType_ends|]. intros _ m1 _.
  destruct (varint_loop_ends 11 d i 0 0) as [_ Hj]; [lia|lia|unfold is_u64; lia|].
  destruct (varint_loop 11 d i 0 0) as [x o]. cbn [snd] in *. eapply ends_mono; [|exact Hj]. cbn. lia.
Qed.

Lemma message_field_ends d n un : blen d ≤ maxInt64 → message_ends un → field_ends d (message_field d n un).
Proof.
  intros Hd Hu t i m Hi. eapply ends_bindM; [apply expect_wireType_ends|]. intros _ m1 _.
  eapply ends_bindM; [apply field_end_ends; [lia|done]|]. intros e m2 He. cbn in He.
  eapply ends_bindM; [apply slice_ends; lia|]. intros b m3 Hb. cbn in Hb.
  eapply ends_bindM; [apply Hu; lia|]. intros _ m4 _. cbn. lia.
Qed.

Lemma unknown_field_ends d i (m : A) : blen d ≤ maxInt64 → 0 ≤ i < blen d →
  ends (fun j => i < j ≤ blen d) (unknown_field d i m).2.
Proof.
  intros Hd Hi. eapply ends_bindM; [apply slice_ends; lia|]. intros rest m1 Hr. cbn in Hr.
  eapply ends_bindM; [apply skip_ends; lia|]. intros j m2 Hj. cbn in Hj.
  destruct (Z.ltb_spec j 0); [done|]. cbn [orb].
  destruct (i64_add_index i j) as [|He]; [lia|lia| |].
  - destruct (Z.ltb_spec (i64_add i j) 0); [done|lia].
  - rewrite He. destruct (Z.ltb_spec (i + j) 0); [done|].
    destruct (Z.ltb_spec (blen d) (i + j)); cbn; [done|lia].
Qed.

Context (name : string) (fields : bytes → Z → option (Field A)).

Lemma unmarshal_ends :
  (∀ d n h, blen d ≤ maxInt64 → fields d n = Some h → field_ends d h) → message_ends (unmarshal name fields).
Proof.
  intros Hf d m Hd. unfold unmarshal.
  assert (Hgen : ∀ fuel i m, 0 ≤ i ≤ blen d → blen d - i ≤ Z.of_nat fuel →
            ends (fun _ => True) (unmarshal_loop fuel name (fields d) d i m).2);
    [|apply Hgen; unfold blen; lia].
  clear m. induction fuel as [|fuel IH]; intros i m Hi Hn; cbn [unmarshal_loop];
    (destruct (Z.ltb_spec i (blen d)); [|by destruct (blen d <? i)]); [lia|].
  apply (ends_bindM (fun j => i < j ≤ blen d)); [|intros j m' Hj; apply IH; lia].
  unfold unmarshal_field. eapply ends_bindM; [apply varint_ends; lia|]. intros r m' [_ Hr].
  destruct (Z.land r.1 7 =? 4); [done|]. destruct (i32 (Z.shiftr r.1 3) <=? 0); [done|].
  destruct (fields d (i32 (Z.shiftr r.1 3))) as [h|] eqn:Hh; [|apply unknown_field_ends; lia].
  eapply ends_mono; [|eapply Hf; [done|exact Hh|lia]]. cbn. lia.
Qed.

End Totality.
