(* ===== verification/Messages.v ===== *)
(** * The protobuf messages of the evm module

    [Size], [MarshalToSizedBuffer] and [Unmarshal] of the messages in
    [x/evm/types/tx.pb.go], [genesis.pb.go], [consensus.pb.go], [params.pb.go]
    and [query.pb.go], on top of [Wire], and their reference encoding. *)

From S2P Require Import Prelude GoStd External Engine EvmTypes Keeper MsgServer Wire.

(** A generated message type: the methods, and the zero value [Unmarshal]
    starts from. *)
Class ProtoMessage (A : Type) := {
  zero : A;
  Size : A → Z;
  MarshalToSizedBuffer : A → bytes → outcome (bytes * Z);
  Unmarshal : bytes → M A unit }.

Definition Marshal `{ProtoMessage A} (m : A) : outcome bytes := marshal_sized Size MarshalToSizedBuffer m.

(** [MarshalTo]: into the front of a buffer, which shares its bytes. *)
Definition MarshalTo `{ProtoMessage A} (m : A) (dAtA : bytes) : outcome (bytes * Z) :=
  let size := Size m in
  let? front := slice dAtA 0 size in
  let? r := MarshalToSizedBuffer m front in
  Ret ((r.1 ++ drop (Z.to_nat size) dAtA)%list, r.2).

(** [n += 1 + l + sov(l)] for a field that is not empty. *)
Definition size_bytes (x : string) : Z := let l := len x in if 0 <? l then 1 + l + sov l else 0.
Definition size_uint (x : Z) : Z := if negb (x =? 0) then 1 + sov x else 0.
Definition size_message (l : Z) : Z := 1 + l + sov l.

(** The end of [MarshalToSizedBuffer]: [len(dAtA) - i]. *)
Definition written (dAtA : bytes) (s : bytes * Z) : outcome (bytes * Z) := Ret (s.1, blen dAtA - s.2).

(** A nested message of the receiver. *)
Definition zoom {A B} (get : A → B) (set : B → A → A) (m : M B unit) : M A unit := fun a =>
  let (b, o) := m (get a) in (set b a, o).

(** ** Messages without fields: [Params], the responses, [QueryParamsRequest] *)

Definition no_fields {A} : bytes → Z → option (Field A) := fun _ _ => None.

Definition Params_Size (m : Params) : Z := 0.
Definition Params_MarshalToSizedBuffer (m : Params) (dAtA : bytes) : outcome (bytes * Z) :=
  written dAtA (dAtA, blen dAtA).
Definition Params_Unmarshal (dAtA : bytes) : M Params unit := unmarshal "Params" no_fields dAtA.

#[export] Instance Params_proto : ProtoMessage Params :=
  {| zero := mkParams; Size := Params_Size; MarshalToSizedBuffer := Params_MarshalToSizedBuffer;
     Unmarshal := Params_Unmarshal |}.

(** [MsgUpdateParamsResponse], [MsgExecutionPayloadResponse] and
    [QueryParamsRequest]. *)
Inductive EmptyMessage := MsgUpdateParamsResponse | MsgExecutionPayloadResponse | QueryParamsRequest.
Definition EmptyMessage_name (m : EmptyMessage) : string :=
  match m with
  | MsgUpdateParamsResponse => "MsgUpdateParamsResponse"
  | MsgExecutionPayloadResponse => "MsgExecutionPayloadResponse"
  | QueryParamsRequest => "QueryParamsRequest"
  end.
Definition EmptyMessage_Size (m : EmptyMessage) : Z := 0.
Definition EmptyMessage_MarshalToSizedBuffer (m : EmptyMessage) (dAtA : bytes) : outcome (bytes * Z) :=
  written dAtA (dAtA, blen dAtA).
Definition EmptyMessage_Unmarshal (m : EmptyMessage) (dAtA : bytes) : M EmptyMessage unit :=
  unmarshal (EmptyMessage_name m) no_fields dAtA.

(** ** tx.pb.go *)

Definition MsgExecutionPayload_Size (m : MsgExecutionPayload) : Z :=
  size_bytes (mep_Authority m) + size_bytes (mep_ExecutionPayload m).

Definition MsgExecutionPayload_MarshalToSizedBuffer (m : MsgExecutionPayload) (dAtA : bytes) : outcome (bytes * Z) :=
  let? s := put_bytes 0x12 (bytes_of (mep_ExecutionPayload m)) (dAtA, blen dAtA) in
  let? s := put_bytes 0xa (bytes_of (mep_Authority m)) s in
  written dAtA s.

Definition MsgExecutionPayload_fields (dAtA : bytes) (fieldNum : Z) : option (Field MsgExecutionPayload) :=
  if fieldNum =? 1 then
    Some (bytes_field dAtA "Authority" (fun b m => mkMsgExecutionPayload (string_of b) (mep_ExecutionPayload m)))
  else if fieldNum =? 2 then
    Some (bytes_field dAtA "ExecutionPayload" (fun b m => mkMsgExecutionPayload (mep_Authority m) (string_of b)))
  else None.

Definition MsgExecutionPayload_Unmarshal (dAtA : bytes) : M MsgExecutionPayload unit :=
  unmarshal "MsgExecutionPayload" MsgExecutionPayload_fields dAtA.

#[export] Instance MsgExecutionPayload_proto : ProtoMessage MsgExecutionPayload :=
  {| zero := mkMsgExecutionPayload "" ""; Size := MsgExecutionPayload_Size;
     MarshalToSizedBuffer := MsgExecutionPayload_MarshalToSizedBuffer; Unmarshal := MsgExecutionPayload_Unmarshal |}.

Definition MsgUpdateParams_Size (m : MsgUpdateParams) : Z :=
  size_bytes (mup_Authority m) + size_message (Params_Size (mup_Params m)).

Definition MsgUpdateParams_MarshalToSizedBuffer (m : MsgUpdateParams) (dAtA : bytes) : outcome (bytes * Z) :=
  let? s := put_message (Params_MarshalToSizedBuffer (mup_Params m)) 0x12 (dAtA, blen dAtA) in
  let? s := put_bytes 0xa (bytes_of (mup_Authority m)) s in
  written dAtA s.

Definition MsgUpdateParams_fields (dAtA : bytes) (fieldNum : Z) : option (Field MsgUpdateParams) :=
  if fieldNum =? 1 then
    Some (bytes_field dAtA "Authority" (fun b m => mkMsgUpdateParams (string_of b) (mup_Params m)))
  else if fieldNum =? 2 then
    Some (message_field dAtA "Params"
            (fun b => zoom mup_Params (fun p m => mkMsgUpdateParams (mup_Authority m) p) (Params_Unmarshal b)))
  else None.

Definition MsgUpdateParams_Unmarshal (dAtA : bytes) : M MsgUpdateParams unit :=
  unmarshal "MsgUpdateParams" MsgUpdateParams_fields dAtA.

#[export] Instance MsgUpdateParams_proto : ProtoMessage MsgUpdateParams :=
  {| zero := mkMsgUpdateParams "" mkParams; Size := MsgUpdateParams_Size;
     MarshalToSizedBuffer := MsgUpdateParams_MarshalToSizedBuffer; Unmarshal := MsgUpdateParams_Unmarshal |}.

(** ** query.pb.go *)

Record QueryParamsResponse := mkQueryParamsResponse { qpr_Params : Params }.

Definition QueryParamsResponse_Size (m : QueryParamsResponse) : Z := size_message (Params_Size (qpr_Params m)).

Definition QueryParamsResponse_MarshalToSizedBuffer (m : QueryParamsResponse) (dAtA : bytes) : outcome (bytes * Z) :=
  let? s := put_message (Params_MarshalToSizedBuffer (qpr_Params m)) 0xa (dAtA, blen dAtA) in
  written dAtA s.

Definition QueryParamsResponse_fields (dAtA : bytes) (fieldNum : Z) : option (Field QueryParamsResponse) :=
  if fieldNum =? 1 then
    Some (message_field dAtA "Params"
            (fun b => zoom qpr_Params (fun p _ => mkQueryParamsResponse p) (Params_Unmarshal b)))
  else None.

Definition QueryParamsResponse_Unmarshal (dAtA : bytes) : M QueryParamsResponse unit :=
  unmarshal "QueryParamsResponse" QueryParamsResponse_fields dAtA.

#[export] Instance QueryParamsResponse_proto : ProtoMessage QueryParamsResponse :=
  {| zero := mkQueryParamsResponse mkParams; Size := QueryParamsResponse_Size;
     MarshalToSizedBuffer := QueryParamsResponse_MarshalToSizedBuffer; Unmarshal := QueryParamsResponse_Unmarshal |}.

(** ** genesis.pb.go *)

Definition GenesisState_Size (m : GenesisState) : Z :=
  size_message (Params_Size (gs_Params m)) + size_bytes (gs_GenesisExecutionBlockHash m)
  + size_bytes (gs_CurrentBlockHash m) + size_uint (gs_CurrentBlockHeight m) + size_uint (gs_CurrentBlockTimestamp m).

Definition GenesisState_MarshalToSizedBuffer (m : GenesisState) (dAtA : bytes) : outcome (bytes * Z) :=
  let? s := put_uint 0x28 (gs_CurrentBlockTimestamp m) (dAtA, blen dAtA) in
  let? s := put_uint 0x20 (gs_CurrentBlockHeight m) s in
  let? s := put_bytes 0x1a (bytes_of (gs_CurrentBlockHash m)) s in
  let? s := put_bytes 0x12 (bytes_of (gs_GenesisExecutionBlockHash m)) s in
  let? s := put_message (Params_MarshalToSizedBuffer (gs_Params m)) 0xa s in
  written dAtA s.

Definition GenesisState_fields (dAtA : bytes) (fieldNum : Z) : option (Field GenesisState) :=
  if fieldNum =? 1 then
    Some (message_field dAtA "Params"
            (fun b => zoom gs_Params
               (fun p m => mkGenesisState p (gs_GenesisExecutionBlockHash m) (gs_CurrentBlockHash m)
                             (gs_CurrentBlockHeight m) (gs_CurrentBlockTimestamp m)) (Params_Unmarshal b)))
  else if fieldNum =? 2 then
    Some (bytes_field dAtA "GenesisExecutionBlockHash"
            (fun b m => mkGenesisState (gs_Params m) (string_of b) (gs_CurrentBlockHash m)
                          (gs_CurrentBlockHeight m) (gs_CurrentBlockTimestamp m)))
  else if fieldNum =? 3 then
    Some (bytes_field dAtA "CurrentBlockHash"
            (fun b m => mkGenesisState (gs_Params m) (gs_GenesisExecutionBlockHash m) (string_of b)
                          (gs_CurrentBlockHeight m) (gs_CurrentBlockTimestamp m)))
  else if fieldNum =? 4 then
    Some (uint_field dAtA "CurrentBlockHeight"
            (fun x m => mkGenesisState (gs_Params m) (gs_GenesisExecutionBlockHash m) (gs_CurrentBlockHash m) x
                          (gs_CurrentBlockTimestamp m)))
  else if fieldNum =? 5 then
    Some (uint_field dAtA "CurrentBlockTimestamp"
            (fun x m => mkGenesisState (gs_Params m) (gs_GenesisExecutionBlockHash m) (gs_CurrentBlockHash m)
                          (gs_CurrentBlockHeight m) x))
  else None.

Definition GenesisState_Unmarshal (dAtA : bytes) : M GenesisState unit :=
  unmarshal "GenesisState" GenesisState_fields dAtA.

#[export] Instance GenesisState_proto : ProtoMessage GenesisState :=
  {| zero := zeroGenesisState; Size := GenesisState_Size;
     MarshalToSizedBuffer := GenesisState_MarshalToSizedBuffer; Unmarshal := GenesisState_Unmarshal |}.

(** ** consensus.pb.go *)

Definition WithdrawalRequest_Size (m : WithdrawalRequest) : Z :=
  size_bytes (wr_SourceAddress m) + size_bytes (wr_ValidatorPubkey m) + size_uint (wr_Amount m).

Definition WithdrawalRequest_MarshalToSizedBuffer (m : WithdrawalRequest) (dAtA : bytes) : outcome (bytes * Z) :=
  let? s := put_uint 0x18 (wr_Amount m) (dAtA, blen dAtA) in
  let? s := put_bytes 0x12 (bytes_of (wr_ValidatorPubkey m)) s in
  let? s := put_bytes 0xa (bytes_of (wr_SourceAddress m)) s in
  written dAtA s.

Definition WithdrawalRequest_fields (dAtA : bytes) (fieldNum : Z) : option (Field WithdrawalRequest) :=
  if fieldNum =? 1 then
    Some (bytes_field dAtA "SourceAddress"
            (fun b m => mkWithdrawalRequest (string_of b) (wr_ValidatorPubkey m) (wr_Amount m)))
  else if fieldNum =? 2 then
    Some (bytes_field dAtA "ValidatorPubkey"
            (fun b m => mkWithdrawalRequest (wr_SourceAddress m) (string_of b) (wr_Amount m)))
  else if fieldNum =? 3 then
    Some (uint_field dAtA "Amount" (fun x m => mkWithdrawalRequest (wr_SourceAddress m) (wr_ValidatorPubkey m) x))
  else None.

Definition WithdrawalRequest_Unmarshal (dAtA : bytes) : M WithdrawalRequest unit :=
  unmarshal "WithdrawalRequest" WithdrawalRequest_fields dAtA.

#[export] Instance WithdrawalRequest_proto : ProtoMessage WithdrawalRequest :=
  {| zero := mkWithdrawalRequest "" "" 0; Size := WithdrawalRequest_Size;
     MarshalToSizedBuffer := WithdrawalRequest_MarshalToSizedBuffer; Unmarshal := WithdrawalRequest_Unmarshal |}.

Definition DepositRequest_Size (m : DepositRequest) : Z :=
  size_bytes (dr_Pubkey m) + size_bytes (dr_WithdrawalCredentials m) + size_uint (dr_Amount m)
  + size_bytes (dr_Signature m) + size_uint (dr_Index m).

Definition DepositRequest_MarshalToSizedBuffer (m : DepositRequest) (dAtA : bytes) : outcome (bytes * Z) :=
  let? s := put_uint 0x28 (dr_Index m) (dAtA, blen dAtA) in
  let? s := put_bytes 0x22 (bytes_of (dr_Signature m)) s in
  let? s := put_uint 0x18 (dr_Amount m) s in
  let? s := put_bytes 0x12 (bytes_of (dr_WithdrawalCredentials m)) s in
  let? s := put_bytes 0xa (bytes_of (dr_Pubkey m)) s in
  written dAtA s.

Definition DepositRequest_fields (dAtA : bytes) (fieldNum : Z) : option (Field DepositRequest) :=
  if fieldNum =? 1 then
    Some (bytes_field dAtA "Pubkey"
            (fun b m => mkDepositRequest (string_of b) (dr_WithdrawalCredentials m) (dr_Amount m) (dr_Signature m) (dr_Index m)))
  else if fieldNum =? 2 then
    Some (bytes_field dAtA "WithdrawalCredentials"
            (fun b m => mkDepositRequest (dr_Pubkey m) (string_of b) (dr_Amount m) (dr_Signature m) (dr_Index m)))
  else if fieldNum =? 3 then
    Some (uint_field dAtA "Amount"
            (fun x m => mkDepositRequest (dr_Pubkey m) (dr_WithdrawalCredentials m) x (dr_Signature m) (dr_Index m)))
  else if fieldNum =? 4 then
    Some (bytes_field dAtA "Signature"
            (fun b m => mkDepositRequest (dr_Pubkey m) (dr_WithdrawalCredentials m) (dr_Amount m) (string_of b) (dr_Index m)))
  else if fieldNum =? 5 then
    Some (uint_field dAtA "Index"
            (fun x m => mkDepositRequest (dr_Pubkey m) (dr_WithdrawalCredentials m) (dr_Amount m) (dr_Signature m) x))
  else None.

Definition DepositRequest_Unmarshal (dAtA : bytes) : M DepositRequest unit :=
  unmarshal "DepositRequest" DepositRequest_fields dAtA.

#[export] Instance DepositRequest_proto : ProtoMessage DepositRequest :=
  {| zero := mkDepositRequest "" "" 0 "" 0; Size := DepositRequest_Size;
     MarshalToSizedBuffer := DepositRequest_MarshalToSizedBuffer; Unmarshal := DepositRequest_Unmarshal |}.

Definition ConsensusRequests_Size (m : ConsensusRequests) : Z :=
  foldr (fun e n => size_message (DepositRequest_Size e) + n) 0 (cr_Deposits m)
  + foldr (fun e n => size_message (WithdrawalRequest_Size e) + n) 0 (cr_Withdrawals m).

Definition ConsensusRequests_MarshalToSizedBuffer (m : ConsensusRequests) (dAtA : bytes) : outcome (bytes * Z) :=
  let? s := put_messages WithdrawalRequest_MarshalToSizedBuffer 0x12 (cr_Withdrawals m) (dAtA, blen dAtA) in
  let? s := put_messages DepositRequest_MarshalToSizedBuffer 0xa (cr_Deposits m) s in
  written dAtA s.

(** A new element is appended, then decoded in place: after an error it stays
    as far as it was decoded. *)
Definition append_decoded {A B} `{ProtoMessage B} (app : B → A → A) (b : bytes) : M A unit := fun m =>
  let (e, o) := Unmarshal b zero in (app e m, o).

Definition ConsensusRequests_fields (dAtA : bytes) (fieldNum : Z) : option (Field ConsensusRequests) :=
  if fieldNum =? 1 then
    Some (message_field dAtA "Deposits"
            (append_decoded (fun e m => mkConsensusRequests (cr_Deposits m ++ [e]) (cr_Withdrawals m))))
  else if fieldNum =? 2 then
    Some (message_field dAtA "Withdrawals"
            (append_decoded (fun e m => mkConsensusRequests (cr_Deposits m) (cr_Withdrawals m ++ [e]))))
  else None.

Definition ConsensusRequests_Unmarshal (dAtA : bytes) : M ConsensusRequests unit :=
  unmarshal "ConsensusRequests" ConsensusRequests_fields dAtA.

#[export] Instance ConsensusRequests_proto : ProtoMessage ConsensusRequests :=
  {| zero := mkConsensusRequests [] []; Size := ConsensusRequests_Size;
     MarshalToSizedBuffer := ConsensusRequests_MarshalToSizedBuffer; Unmarshal := ConsensusRequests_Unmarshal |}.

Example payload_bytes :
  string_of <$> (match Marshal (mkMsgExecutionPayload "ab" "c") with Ret b => Some b | _ => None end) =
  Some (String (chr 10) (String (chr 2) ("ab" +:+ String (chr 18) (String (chr 1) "c")))).
Proof. vm_compute. reflexivity. Qed.

(** ** The reference encoding of each message

    Front to back, a field that has its default value is left out; [wf] bounds
    the integers of a message by their Go type. *)
Class Reference (A : Type) := { wire : A → bytes; wf : A → Prop }.

#[export] Instance Params_ref : Reference Params := {| wire _ := []; wf _ := True |}.

#[export] Instance MsgExecutionPayload_ref : Reference MsgExecutionPayload :=
  {| wire m := (enc_bytes 0xa (bytes_of (mep_Authority m)) ++ enc_bytes 0x12 (bytes_of (mep_ExecutionPayload m)))%list;
     wf _ := True |}.

#[export] Instance MsgUpdateParams_ref : Reference MsgUpdateParams :=
  {| wire m := (enc_bytes 0xa (bytes_of (mup_Authority m)) ++ enc_message 0x12 (wire (mup_Params m)))%list;
     wf _ := True |}.

#[export] Instance QueryParamsResponse_ref : Reference QueryParamsResponse :=
  {| wire m := enc_message 0xa (wire (qpr_Params m)); wf _ := True |}.

#[export] Instance GenesisState_ref : Reference GenesisState :=
  {| wire m := (enc_message 0xa (wire (gs_Params m)) ++ enc_bytes 0x12 (bytes_of (gs_GenesisExecutionBlockHash m)) ++
                enc_bytes 0x1a (bytes_of (gs_CurrentBlockHash m)) ++ enc_uint 0x20 (gs_CurrentBlockHeight m) ++
                enc_uint 0x28 (gs_CurrentBlockTimestamp m))%list;
     wf m := is_u64 (gs_CurrentBlockHeight m) ∧ is_u64 (gs_CurrentBlockTimestamp m) |}.

#[export] Instance WithdrawalRequest_ref : Reference WithdrawalRequest :=
  {| wire m := (enc_bytes 0xa (bytes_of (wr_SourceAddress m)) ++ enc_bytes 0x12 (bytes_of (wr_ValidatorPubkey m)) ++
                enc_uint 0x18 (wr_Amount m))%list;
     wf m := is_u64 (wr_Amount m) |}.

#[export] Instance DepositRequest_ref : Reference DepositRequest :=
  {| wire m := (enc_bytes 0xa (bytes_of (dr_Pubkey m)) ++ enc_bytes 0x12 (bytes_of (dr_WithdrawalCredentials m)) ++
                enc_uint 0x18 (dr_Amount m) ++ enc_bytes 0x22 (bytes_of (dr_Signature m)) ++ enc_uint 0x28 (dr_Index m))%list;
     wf m := is_u64 (dr_Amount m) ∧ is_u64 (dr_Index m) |}.

#[export] Instance ConsensusRequests_ref : Reference ConsensusRequests :=
  {| wire m := ((cr_Deposits m ≫= fun e => enc_message 0xa (wire e)) ++
                (cr_Withdrawals m ≫= fun e => enc_message 0x12 (wire e)))%list;
     wf m := Forall wf (cr_Deposits m) ∧ Forall wf (cr_Withdrawals m) |}.

(** What holds of a generated message type.  A slice of Go holds at most
    [maxInt64] bytes. *)
Class ProtoLaws (A : Type) `{!ProtoMessage A, !Reference A} := {
  Size_wire (m : A) : wf m → blen (wire m) ≤ maxInt64 → Size m = blen (wire m);
  MarshalToSizedBuffer_wire (m : A) : wf m → blen (wire m) ≤ maxInt64 → ∀ a b,
    length b = length (wire m) → MarshalToSizedBuffer m (a ++ b)%list = Ret ((a ++ wire m)%list, blen (wire m));
  Unmarshal_wire (m : A) : wf m → blen (wire m) ≤ maxInt64 → Unmarshal (wire m) zero = (m, Ret tt);
  Unmarshal_ends : message_ends (A := A) Unmarshal }.

(** *** Lemmas for the instances *)

#[local] Arguments bytes_of : simpl never.
#[local] Arguments string_of : simpl never.

Lemma blen_bytes_of s : blen (bytes_of s) = len s.
Proof. unfold blen, len, bytes_of. f_equal. induction s as [|c s IH]; [done|]. exact (f_equal S IH). Qed.

Lemma enc_message_length t b : is_u64 (blen b) → blen (enc_message t b) = size_message (blen b).
Proof. intros Hb. unfold enc_message, size_message. autorewrite with nexus. rewrite uvarint_length by done. lia. Qed.

Lemma enc_message_ge t b : blen b < blen (enc_message t b).
Proof. unfold enc_message. autorewrite with nexus. pose proof (blen_nonneg (uvarint (blen b))). lia. Qed.

Lemma enc_bytes_ge t x : blen x ≤ blen (enc_bytes t x).
Proof.
  unfold enc_bytes. destruct (Z.ltb_spec 0 (blen x)); [pose proof (enc_message_ge t x); lia|].
  pose proof (blen_nonneg x). change (blen []) with 0. lia.
Qed.

Lemma enc_bytes_length t x : is_u64 (len x) → blen (enc_bytes t (bytes_of x)) = size_bytes x.
Proof.
  intros Hx. unfold enc_bytes, size_bytes. rewrite blen_bytes_of. destruct (0 <? len x); [|done].
  rewrite enc_message_length; by rewrite blen_bytes_of.
Qed.

Lemma enc_uint_length t x : is_u64 x → blen (enc_uint t x) = size_uint x.
Proof.
  intros Hx. unfold enc_uint, size_uint. destruct (negb (x =? 0)); [|done].
  autorewrite with nexus. by rewrite uvarint_length.
Qed.

(** The length of a field that is part of a message that fits. *)
Ltac fits :=
  repeat match goal with
  | H : context [blen (enc_bytes ?t ?x)] |- _ =>
      lazymatch goal with
      | _ : blen x ≤ blen (enc_bytes t x) |- _ => fail
      | _ => pose proof (enc_bytes_ge t x); pose proof (blen_nonneg x)
      end
  | H : context [blen (enc_uint ?t ?x)] |- _ =>
      lazymatch goal with
      | _ : 0 ≤ blen (enc_uint t x) |- _ => fail
      | _ => pose proof (blen_nonneg (enc_uint t x))
      end
  | H : context [blen (enc_message ?t ?x)] |- _ =>
      lazymatch goal with
      | _ : blen x < blen (enc_message t x) |- _ => fail
      | _ => pose proof (enc_message_ge t x); pose proof (blen_nonneg x)
      end
  end.

Lemma empty_bytes x : blen (bytes_of x) ≤ 0 → x = "".
Proof. rewrite blen_bytes_of. destruct x; [done|]. unfold len. cbn. lia. Qed.

(** An empty field is not written, and not reading it leaves the default. *)
Ltac defaults_tac :=
  cbn; rewrite ?string_of_bytes;
  repeat match goal with
  | |- context [0 <? blen (bytes_of ?x)] =>
      destruct (Z.ltb_spec 0 (blen (bytes_of x))) as [_|?%empty_bytes]; [|subst x]; cbn
  | |- context [?x =? 0] => destruct (Z.eqb_spec x 0); [subst x|]; cbn
  end; done.

(** The rest of [MarshalToSizedBuffer] on a buffer of [n] bytes: it writes [q]
    in front of what is there and returns the number of bytes written. *)
Definition finishes (n : Z) (k : bytes * Z → outcome (bytes * Z)) (q : bytes) : Prop := ∀ a b e,
  length b = length q → blen (a ++ b ++ e) = n →
  k ((a ++ b ++ e)%list, blen (a ++ b)) = Ret ((a ++ q ++ e)%list, blen (q ++ e)).

Lemma finishes_written d : finishes (blen d) (written d) [].
Proof.
  intros a b e Hb Hn. apply nil_length_inv in Hb as ->. unfold written. cbn [fst snd app] in *.
  rewrite app_nil_r, <-Hn, blen_app. do 2 f_equal. lia.
Qed.

Lemma finishes_step n f k p q : writes f p → finishes n k q → finishes n (fun s => bindO (f s) k) (q ++ p).
Proof.
  intros Hf Hk a b e Hb Hn. rewrite length_app in Hb.
  destruct (split_at (length q) b) as (b1 & b2 & -> & Hl); [lia|]. rewrite length_app in Hb.
  pose proof (Hf (a ++ b1)%list b2 e ltac:(lia)) as Hf'. rewrite <-!app_assoc in Hf'.
  rewrite <-(app_assoc b1 b2 e), Hf'. cbn [bindO]. rewrite Hk, <-app_assoc by (try lia; rewrite <-Hn, !blen_app; unfold blen; lia).
  done.
Qed.

Lemma marshal_steps f k p q w a b :
  writes f p → finishes (blen (a ++ b)) k q → w = (q ++ p)%list → length b = length w →
  bindO (f ((a ++ b)%list, blen (a ++ b))) k = Ret ((a ++ w)%list, blen w).
Proof.
  intros Hf Hk -> Hb. pose proof (finishes_step _ _ _ _ _ Hf Hk a b [] Hb) as Hr. rewrite !app_nil_r in Hr. by apply Hr.
Qed.

Lemma nil_u64 : is_u64 (blen []).
Proof. by split. Qed.

Lemma Params_marshal p a b : length b = length (A := ascii) [] →
  Params_MarshalToSizedBuffer p (a ++ b)%list = Ret ((a ++ [])%list, blen []).
Proof.
  intros Hb. apply nil_length_inv in Hb as ->. unfold Params_MarshalToSizedBuffer, written. cbn [fst snd].
  by rewrite Z.sub_diag.
Qed.

#[export] Instance Params_laws : ProtoLaws Params.
Proof.
  split; [done| | |].
  - intros p _ _. apply Params_marshal.
  - by intros [].
  - apply unmarshal_ends. done.
Qed.

(** *** The instances

    [side] proves that a field fits; [writes_tac] the step of one field,
    [finishes_tac] the steps of all fields that are left. *)
Ltac fits_in H := cbn in H; autorewrite with nexus in H; fits; unfold maxInt64 in *.
Ltac side := first [done | assumption | unfold is_u64 in *; lia].
Ltac writes_tac :=
  first [ apply put_bytes_writes; side | apply put_uint_writes; side
        | apply put_message_writes; [side|apply nil_u64|apply Params_marshal] ].
Ltac finishes_tac := repeat (eapply finishes_step; [writes_tac|]); apply finishes_written.
Ltac marshal_tac := eapply marshal_steps; [writes_tac|finishes_tac|cbn; rewrite <-?app_assoc; done|done].
Ltac size_tac := rewrite ?enc_message_length, ?enc_bytes_length, ?enc_uint_length by (rewrite <-?blen_bytes_of; side).
Ltac fields_end_tac :=
  repeat case_match; intros; simplify_eq;
  first [by apply bytes_field_ends | apply uint_field_ends | apply message_field_ends; [done|]].

(** A part of the receiver that is decoded by the code of its own type. *)
Lemma zoom_ends {A B} (get : A → B) (set : B → A → A) un :
  message_ends un → message_ends (fun b => zoom get set (un b)).
Proof.
  intros Hu b m Hb. unfold zoom. specialize (Hu b (get m) Hb). by destruct (un b (get m)).
Qed.

#[export] Instance MsgExecutionPayload_laws : ProtoLaws MsgExecutionPayload.
Proof.
  split.
  - intros [x y] _ Hs. fits_in Hs. cbn. unfold MsgExecutionPayload_Size. autorewrite with nexus. size_tac. done.
  - intros [x y] _ Hs a b Hb. fits_in Hs. cbn in Hb |- *. unfold MsgExecutionPayload_MarshalToSizedBuffer. cbn.
    marshal_tac.
  - intros [x y] _ Hs. etrans; [eapply reads_all; [|exact Hs]; apply reads_app; eapply reads_bytes; side|].
    defaults_tac.
  - apply unmarshal_ends. intros d n h Hd. unfold MsgExecutionPayload_fields. fields_end_tac.
Qed.

#[export] Instance MsgUpdateParams_laws : ProtoLaws MsgUpdateParams.
Proof.
  split.
  - intros [x []] _ Hs. fits_in Hs. cbn. unfold MsgUpdateParams_Size. autorewrite with nexus. size_tac. done.
  - intros [x []] _ Hs a b Hb. fits_in Hs. cbn in Hb |- *. unfold MsgUpdateParams_MarshalToSizedBuffer. cbn.
    marshal_tac.
  - intros [x []] _ Hs. etrans; [eapply reads_all; [|exact Hs]; apply reads_app;
      [eapply reads_bytes|eapply (reads_message _ _ _ _ _ _ id)]; side || by intros [? []]|]. defaults_tac.
  - apply unmarshal_ends. intros d n h Hd. unfold MsgUpdateParams_fields. fields_end_tac.
    exact (zoom_ends _ _ _ (Unmarshal_ends (A := Params))).
Qed.

#[export] Instance QueryParamsResponse_laws : ProtoLaws QueryParamsResponse.
Proof.
  split.
  - by intros [[]] _ Hs.
  - intros [[]] _ Hs a b Hb. fits_in Hs. cbn in Hb |- *. unfold QueryParamsResponse_MarshalToSizedBuffer. cbn.
    marshal_tac.
  - intros [[]] _ Hs. etrans; [eapply reads_all; [|exact Hs]; eapply (reads_message _ _ _ _ _ _ id); side || by intros [[]]|].
    done.
  - apply unmarshal_ends. intros d n h Hd. unfold QueryParamsResponse_fields. fields_end_tac.
    exact (zoom_ends _ _ _ (Unmarshal_ends (A := Params))).
Qed.

#[export] Instance GenesisState_laws : ProtoLaws GenesisState.
Proof.
  split.
  - intros [[] g c n t] [Hn Ht] Hs. cbn [gs_CurrentBlockHeight gs_CurrentBlockTimestamp] in *. fits_in Hs.
    cbn. unfold GenesisState_Size. cbn. autorewrite with nexus. size_tac.
    change (blen []) with (Params_Size mkParams). lia.
  - intros [[] g c n t] [Hn Ht] Hs a b Hb. cbn [gs_CurrentBlockHeight gs_CurrentBlockTimestamp] in *. fits_in Hs.
    cbn in Hb |- *. unfold GenesisState_MarshalToSizedBuffer. cbn.
    marshal_tac.
  - intros [[] g c n t] [Hn Ht] Hs. etrans; [eapply reads_all; [|exact Hs];
      apply reads_app; [eapply (reads_message _ _ _ _ _ _ id); side || by intros [[]]|];
      apply reads_app; [eapply reads_bytes; side|]; apply reads_app; [eapply reads_bytes; side|];
      apply reads_app; eapply reads_uint; side|]. defaults_tac.
  - apply unmarshal_ends. intros d n h Hd. unfold GenesisState_fields. fields_end_tac.
    exact (zoom_ends _ _ _ (Unmarshal_ends (A := Params))).
Qed.

#[export] Instance WithdrawalRequest_laws : ProtoLaws WithdrawalRequest.
Proof.
  split.
  - intros [x y v] Hv Hs. cbn [wf WithdrawalRequest_ref wr_Amount] in Hv. fits_in Hs.
    cbn. unfold WithdrawalRequest_Size. cbn. autorewrite with nexus. size_tac. lia.
  - intros [x y v] Hv Hs a b Hb. cbn [wf WithdrawalRequest_ref wr_Amount] in Hv. fits_in Hs.
    cbn in Hb |- *. unfold WithdrawalRequest_MarshalToSizedBuffer. cbn.
    marshal_tac.
  - intros [x y v] Hv Hs. etrans; [eapply reads_all; [|exact Hs];
      apply reads_app; [eapply reads_bytes; side|]; apply reads_app; [eapply reads_bytes; side|];
      eapply reads_uint; side|]. defaults_tac.
  - apply unmarshal_ends. intros d n h Hd. unfold WithdrawalRequest_fields. fields_end_tac.
Qed.

#[export] Instance DepositRequest_laws : ProtoLaws DepositRequest.
Proof.
  split.
  - intros [x y v z i] [Hv Hi] Hs. cbn [dr_Amount dr_Index] in *. fits_in Hs.
    cbn. unfold DepositRequest_Size. cbn. autorewrite with nexus. size_tac. lia.
  - intros [x y v z i] [Hv Hi] Hs a b Hb. cbn [dr_Amount dr_Index] in *. fits_in Hs.
    cbn in Hb |- *. unfold DepositRequest_MarshalToSizedBuffer. cbn.
    marshal_tac.
  - intros [x y v z i] [Hv Hi] Hs. etrans; [eapply reads_all; [|exact Hs];
      apply reads_app; [eapply reads_bytes; side|]; apply reads_app; [eapply reads_bytes; side|];
      apply reads_app; [eapply reads_uint; side|]; apply reads_app; [eapply reads_bytes; side|];
      eapply reads_uint; side|]. defaults_tac.
  - apply unmarshal_ends. intros d n h Hd. unfold DepositRequest_fields. fields_end_tac.
Qed.

(** *** Repeated messages *)
Section Repeated.
Context `{ProtoLaws B} (tag : Z).

Lemma messages_fit (l : list B) :
  blen (l ≫= fun e => enc_message tag (wire e)) ≤ maxInt64 → Forall (fun e => blen (wire e) ≤ maxInt64) l.
Proof.
  induction l as [|e l IH]; [constructor|]. cbn. rewrite blen_app. intros Hb.
  pose proof (enc_message_ge tag (wire e)). pose proof (blen_nonneg (l ≫= fun e => enc_message tag (wire e))).
  pose proof (blen_nonneg (wire e)). constructor; [lia|apply IH; lia].
Qed.

Lemma messages_length (l : list B) :
  Forall wf l → blen (l ≫= fun e => enc_message tag (wire e)) ≤ maxInt64 →
  foldr (fun e n => size_message (Size e) + n) 0 l = blen (l ≫= fun e => enc_message tag (wire e)).
Proof.
  intros Hwf Hb. pose proof (messages_fit l Hb) as Hf. clear Hb.
  induction l as [|e l IH]; [done|]. apply Forall_cons in Hwf as [He Hl]. apply Forall_cons in Hf as [He' Hl'].
  cbn. rewrite blen_app, IH, Size_wire by done. rewrite enc_message_length; [done|].
  pose proof (blen_nonneg (wire e)). unfold is_u64, maxInt64 in *. lia.
Qed.

Lemma messages_write (l : list B) :
  0 ≤ tag < 256 → Forall wf l → blen (l ≫= fun e => enc_message tag (wire e)) ≤ maxInt64 →
  writes (put_messages MarshalToSizedBuffer tag l) (l ≫= fun e => enc_message tag (wire e)).
Proof.
  intros Ht Hwf Hb. apply put_messages_writes; [done|]. apply messages_fit in Hb.
  apply Forall_forall. intros e He. rewrite Forall_forall in Hwf, Hb. specialize (Hwf e He). specialize (Hb e He).
  split; [|by apply MarshalToSizedBuffer_wire]. pose proof (blen_nonneg (wire e)). unfold is_u64, maxInt64 in *. lia.
Qed.

Lemma messages_read {A} name fields fname (app : B → A → A) (l : list B) :
  0 ≤ tag < 128 → Z.land tag 7 = 2 → 0 < Z.shiftr tag 3 →
  (∀ d, fields d (Z.shiftr tag 3) = Some (message_field d fname (append_decoded app))) →
  Forall wf l → blen (l ≫= fun e => enc_message tag (wire e)) ≤ maxInt64 →
  reads name fields (l ≫= fun e => enc_message tag (wire e)) (fun m => fold_left (fun m e => app e m) l m).
Proof.
  intros Ht H2 H0 Hf Hwf Hb. apply (reads_messages _ _ tag fname (append_decoded app) wire app); [done..|].
  apply messages_fit in Hb. apply Forall_forall. intros e He m. rewrite Forall_forall in Hwf, Hb.
  unfold append_decoded. by rewrite Unmarshal_wire by auto.
Qed.

Lemma append_decoded_ends {A} (app : B → A → A) : message_ends (append_decoded app).
Proof.
  intros b m Hb. unfold append_decoded. pose proof (Unmarshal_ends b zero Hb). by destruct (Unmarshal b zero).
Qed.
End Repeated.

#[export] Instance ConsensusRequests_laws : ProtoLaws ConsensusRequests.
Proof.
  assert (Hsplit : ∀ m : ConsensusRequests, blen (wire m) ≤ maxInt64 →
    blen (cr_Deposits m ≫= fun e => enc_message 0xa (wire e)) ≤ maxInt64 ∧
    blen (cr_Withdrawals m ≫= fun e => enc_message 0x12 (wire e)) ≤ maxInt64).
  { intros m. cbn [wire ConsensusRequests_ref]. rewrite blen_app.
    pose proof (blen_nonneg (cr_Deposits m ≫= fun e => enc_message 0xa (wire e))).
    pose proof (blen_nonneg (cr_Withdrawals m ≫= fun e => enc_message 0x12 (wire e))). lia. }
  split.
  - intros m [Hd Hw] [Bd Bw]%Hsplit. cbn [wire ConsensusRequests_ref Size ConsensusRequests_proto].
    rewrite blen_app, <-!messages_length by done. done.
  - intros m [Hd Hw] Hs a b Hb. destruct (Hsplit m Hs) as [Bd Bw].
    cbn [MarshalToSizedBuffer ConsensusRequests_proto]. unfold ConsensusRequests_MarshalToSizedBuffer.
    eapply marshal_steps; [exact (messages_write (B := WithdrawalRequest) 0x12 _ ltac:(lia) Hw Bw)| |by cbn [wire ConsensusRequests_ref]|done].
    apply (finishes_step _ _ _ _ []); [exact (messages_write (B := DepositRequest) 0xa _ ltac:(lia) Hd Bd)|apply finishes_written].
  - intros m [Hd Hw] Hs. destruct (Hsplit m Hs) as [Bd Bw]. etrans; [eapply reads_all; [|exact Hs];
      apply reads_app; eapply messages_read; try done|].
    cbn. destruct m as [ds ws]. cbn in *. f_equal.
    assert (H1 : ∀ l ds0 ws0, fold_left (fun m (e : DepositRequest) => mkConsensusRequests (cr_Deposits m ++ [e]) (cr_Withdrawals m)) l
                   (mkConsensusRequests ds0 ws0) = mkConsensusRequests (ds0 ++ l) ws0).
    { induction l as [|e l IH]; intros ds0 ws0; cbn; [by rewrite app_nil_r|]. by rewrite IH, <-app_assoc. }
    assert (H2 : ∀ l ds0 ws0, fold_left (fun m (e : WithdrawalRequest) => mkConsensusRequests (cr_Deposits m) (cr_Withdrawals m ++ [e])) l
                   (mkConsensusRequests ds0 ws0) = mkConsensusRequests ds0 (ws0 ++ l)).
    { induction l as [|e l IH]; intros ds0 ws0; cbn; [by rewrite app_nil_r|]. by rewrite IH, <-app_assoc. }
    by rewrite H1, H2.
  - apply unmarshal_ends. intros d n h Hd. unfold ConsensusRequests_fields. fields_end_tac; apply append_decoded_ends.
Qed.

(** ** Theorems *)

(** Marshalling agrees with the reference encoding, and a message that was
    marshalled is read back. *)
Definition marshals_to_reference (A : Type) `{ProtoMessage A, !Reference A} : Prop := ∀ m : A,
  wf m → blen (wire m) ≤ maxInt64 →
  Size m = blen (wire m) ∧ Marshal m = Ret (wire m) ∧
  ∀ front rest, length front = length (wire m) →
    MarshalTo m (front ++ rest) = Ret ((wire m ++ rest)%list, blen (wire m)).
Definition reads_back_what_it_wrote (A : Type) `{ProtoMessage A, !Reference A} : Prop := ∀ m : A,
  wf m → blen (wire m) ≤ maxInt64 → ∃ bz, Marshal m = Ret bz ∧ Unmarshal bz zero = (m, Ret tt).
(** Any bytes, into any receiver. *)
Definition unmarshal_returns (A : Type) `{ProtoMessage A} : Prop := ∀ bz (m : A),
  blen bz ≤ maxInt64 → ∃ m' o, Unmarshal bz m = (m', o) ∧ (o = Ret tt ∨ ∃ e, o = Fail e).

Section Generic.
Context `{ProtoLaws A}.

Lemma Marshal_wire (m : A) : wf m → blen (wire m) ≤ maxInt64 → Marshal m = Ret (wire m).
Proof. intros Hw Hb. apply marshal_sized_enc; [by apply Size_wire|by apply MarshalToSizedBuffer_wire]. Qed.

Lemma MarshalTo_wire (m : A) front rest :
  wf m → blen (wire m) ≤ maxInt64 → length front = length (wire m) →
  MarshalTo m (front ++ rest) = Ret ((wire m ++ rest)%list, blen (wire m)).
Proof.
  intros Hw Hb Hl. unfold MarshalTo. rewrite (Size_wire m Hw Hb).
  assert (blen (wire m) = blen front) as Hf by (unfold blen; by rewrite Hl). rewrite Hf, slice_front. cbn [bindO].
  pose proof (MarshalToSizedBuffer_wire m Hw Hb [] front Hl) as Hm. cbn [app] in Hm. rewrite Hm. cbn [bindO fst snd].
  rewrite blen_to_nat, drop_app_length, <-Hf. done.
Qed.

Lemma law_reference : marshals_to_reference A.
Proof. intros m Hw Hb. split_and!; [by apply Size_wire|by apply Marshal_wire|by intros; apply MarshalTo_wire]. Qed.

Lemma law_roundtrip : reads_back_what_it_wrote A.
Proof. intros m Hw Hb. exists (wire m). split; [by apply Marshal_wire|by apply Unmarshal_wire]. Qed.

Lemma law_total : unmarshal_returns A.
Proof.
  intros bz m Hb. pose proof (Unmarshal_ends bz m Hb) as He. destruct (Unmarshal bz m) as [m' [[]|e| |]]; cbn in He; try done.
  - exists m', (Ret tt). eauto.
  - exists m', (Fail e). eauto.
Qed.
End Generic.

(** C25: the generated encoders, which fill a buffer of the computed size from its
    end, write the reference encoding, and [Size] is its length; no access is
    out of range. *)
Theorem marshal_is_the_reference_encoding :
  marshals_to_reference MsgExecutionPayload ∧ marshals_to_reference MsgUpdateParams ∧
  marshals_to_reference GenesisState ∧ marshals_to_reference ConsensusRequests ∧
  marshals_to_reference DepositRequest ∧ marshals_to_reference WithdrawalRequest ∧
  marshals_to_reference QueryParamsResponse ∧ marshals_to_reference Params.
Proof. split_and!; apply law_reference. Qed.

(** C24: every message that fits into memory is read back as it was written. *)
Theorem protobuf_roundtrip :
  reads_back_what_it_wrote MsgExecutionPayload ∧ reads_back_what_it_wrote MsgUpdateParams ∧
  reads_back_what_it_wrote GenesisState ∧ reads_back_what_it_wrote ConsensusRequests ∧
  reads_back_what_it_wrote DepositRequest ∧ reads_back_what_it_wrote WithdrawalRequest ∧
  reads_back_what_it_wrote QueryParamsResponse ∧ reads_back_what_it_wrote Params.
Proof. split_and!; apply law_roundtrip. Qed.

(** C26: decoding bytes from the network ends.  Whatever the bytes (truncated,
    with lengths that overflow, with groups nested in each other), [Unmarshal]
    returns nil or an error after at most as many rounds as there are bytes; it
    neither panics nor loops. *)
Theorem unmarshal_always_returns :
  unmarshal_returns MsgExecutionPayload ∧ unmarshal_returns MsgUpdateParams ∧
  unmarshal_returns GenesisState ∧ unmarshal_returns ConsensusRequests ∧
  unmarshal_returns DepositRequest ∧ unmarshal_returns WithdrawalRequest ∧
  unmarshal_returns QueryParamsResponse ∧ unmarshal_returns Params ∧
  ∀ kind bz m, blen bz ≤ maxInt64 → ends (fun _ => True) (EmptyMessage_Unmarshal kind bz m).2.
Proof.
  split_and!; try apply law_total. intros kind bz m Hb. by apply (unmarshal_ends (EmptyMessage_name kind) no_fields).
Qed.

(** The theorems at a genesis state with a timestamp of ten groups of bits, and
    at a message of two deposits and a withdrawal. *)
Definition sample_genesis_state : GenesisState := mkGenesisState mkParams "0x00" "" 300 (2 ^ 64 - 1).
Definition sample_requests : ConsensusRequests :=
  mkConsensusRequests [mkDepositRequest "pk" "cred" 32000000000 "sig" 7; mkDepositRequest "" "" 0 "" 0]
    [mkWithdrawalRequest "addr" "pk" 128].

Lemma marshal_is_the_reference_encoding_witness :
  Size sample_genesis_state = 22 ∧ Marshal sample_genesis_state = Ret (wire sample_genesis_state).
Proof.
  destruct marshal_is_the_reference_encoding as (_ & _ & Hg & _).
  destruct (Hg sample_genesis_state) as (Hs & Hm & _); [split; vm_compute; split; discriminate || reflexivity|vm_compute; discriminate|].
  split; [rewrite Hs; vm_compute; reflexivity|exact Hm].
Defined.

Lemma protobuf_roundtrip_witness :
  ∃ bz, Marshal sample_requests = Ret bz ∧ Unmarshal bz zero = (sample_requests, Ret tt).
Proof.
  destruct protobuf_roundtrip as (_ & _ & _ & Hr & _). apply Hr.
  - split; repeat constructor; vm_compute; discriminate || reflexivity.
  - vm_compute. discriminate.
Defined.

(** A length that does not fit into the message. *)
Lemma unmarshal_always_returns_witness :
  ∃ m o, Unmarshal [chr 10; chr 255; chr 1] (zero : MsgExecutionPayload) = (m, o) ∧ (o = Ret tt ∨ ∃ e, o = Fail e).
Proof. destruct unmarshal_always_returns as (Hp & _). apply Hp. vm_compute. discriminate. Defined.

(** A payload message of a newer version, with a field this one does not know
    (numbers 3 to 15), is read without that field. *)
Theorem unknown_fields_are_skipped (m : MsgExecutionPayload) n x :
  3 ≤ n ≤ 15 → blen (wire m ++ enc_message (8 * n + 2) x) ≤ maxInt64 →
  Unmarshal (wire m ++ enc_message (8 * n + 2) x) zero = (m, Ret tt).
Proof.
  intros Hn Hb. destruct m as [a b].
  assert (Htag : Z.land (8 * n + 2) 7 = 2 ∧ Z.shiftr (8 * n + 2) 3 = n).
  { change 7 with (Z.ones 3). rewrite Z.land_ones, Z.shiftr_div_pow2 by lia. change (2 ^ 3) with 8.
    split; [rewrite Z.mul_comm, Z.add_comm, Z_mod_plus_full; done|].
    rewrite Z.mul_comm, Z.add_comm, Z.div_add by lia. done. }
  destruct Htag as [H2 H3].
  etrans; [eapply reads_all; [|exact Hb]; apply reads_app; [apply reads_app; eapply reads_bytes; side|]|].
  - apply (reads_unknown _ _ (8 * n + 2)); [lia|done|lia|]. intros d. rewrite H3. unfold MsgExecutionPayload_fields.
    destruct (Z.eqb_spec n 1), (Z.eqb_spec n 2); done || lia.
  - defaults_tac.
Qed.

(** The field number is cut to 32 bits: field 2^32 + 1 is read as field 1, so
    that an encoding is not unique. *)
Example field_numbers_wrap :
  Unmarshal (uvarint (8 * (2 ^ 32 + 1) + 2) ++ bytes_of (String (chr 2) "ab")) zero =
  (mkMsgExecutionPayload "ab" "", Ret tt).
Proof. vm_compute. reflexivity. Qed.

(** ** The codec of the parameters in the store *)

(** [codec.CollValue] of the SDK: the protobuf encoding. *)
Definition CollValue (A : Type) `{ProtoMessage A} : ValueCodec A :=
  mkValueCodec
    (fun v => let? bz := Marshal v in Ret (string_of bz))
    (fun s => let (m, o) := Unmarshal (bytes_of s) zero in do? o in Ret m).

(** With that codec the genesis of the evm module round-trips without any
    assumption on the encoding of the parameters. *)
Theorem genesis_roundtrip_with_protobuf_params {E S : Type} `{!ItemStore S, !ItemStoreLaws S, GoEthereumLaws}
    k p bs (w : World E S) :
  k_paramsCodec k = CollValue Params → writable S → valid_bs bs →
  Params_Get k w = (w, Ret p) → GetBlockState w = (w, Ret bs) →
  ∃ gs, ExportGenesis k w = (w, Ret gs) ∧ GenesisState_Validate gs = Ret tt ∧
        ∀ w1 : World E S, ∃ w2, InitGenesis k gs w1 = (w2, Ret tt) ∧
          GetBlockState w2 = (w2, Ret bs) ∧ Params_Get k w2 = (w2, Ret p).
Proof.
  intros Hk Hw Hbs Hp Hst. apply genesis_export_init_roundtrip; try done. rewrite Hk.
  exists "". split; by destruct p.
Qed.
