(* ===== verification/Service.v ===== *)
(** * The Msg service

    The generated client and server of the module's Msg service
    ([x/evm/types/tx.pb.go]) on the messages of [Messages], and the servers of
    the keeper: the one that executes and the one of ProcessProposal.  A router
    is the list of the services registered on it.  How a request travels, and
    how a router finds a method, is library code and not modelled; a connection
    is its [Invoke].  Responses carry no data. *)

From S2P Require Import Prelude GoStd External Engine Concrete EvmTypes Keeper MsgServer Abci Proposal Wire Messages.

Section Service.
Context {C W : Type}.

Record MsgServerImpl := mkMsgServerImpl {
  srv_UpdateParams : C → MsgUpdateParams → M W unit;
  srv_ExecutionPayload : C → MsgExecutionPayload → M W unit }.

Definition UnimplementedMsgServer : MsgServerImpl := mkMsgServerImpl
  (fun _ _ => fail (errText "rpc error: code = Unimplemented desc = method UpdateParams not implemented"))
  (fun _ _ => fail (errText "rpc error: code = Unimplemented desc = method ExecutionPayload not implemented")).

(** [dec]: decodes the request into any message. *)
Definition Decoder : Type := ∀ A, ProtoMessage A → M A unit.
(** [grpc.UnaryServerInterceptor]: context, request, full method and handler. *)
Definition Interceptor : Type := ∀ A, C → A → string → (C → A → M W unit) → M W unit.

(** What both handlers do: a new message, [dec], then the method, through the
    interceptor when there is one. *)
Definition unary {A} `{ProtoMessage A} (method : string) (serve : C → A → M W unit) (ctx : C) (dec : Decoder)
    (interceptor : option Interceptor) : M W unit :=
  let (inp, o) := dec A _ zero in
  do! lift o in
  match interceptor with
  | None => serve ctx inp
  | Some i => i A ctx inp method serve
  end.

Definition UpdateParams_method : string := "/nexus.evm.v1.Msg/UpdateParams".
Definition ExecutionPayload_method : string := "/nexus.evm.v1.Msg/ExecutionPayload".

Definition _Msg_UpdateParams_Handler (srv : MsgServerImpl) :=
  unary UpdateParams_method (srv_UpdateParams srv).
Definition _Msg_ExecutionPayload_Handler (srv : MsgServerImpl) :=
  unary ExecutionPayload_method (srv_ExecutionPayload srv).

Definition MethodHandler : Type := MsgServerImpl → C → Decoder → option Interceptor → M W unit.
Record ServiceDesc := mkServiceDesc { sd_ServiceName : string; sd_Methods : list (string * MethodHandler) }.

Definition _Msg_serviceDesc : ServiceDesc :=
  mkServiceDesc "nexus.evm.v1.Msg"
    [("UpdateParams", _Msg_UpdateParams_Handler); ("ExecutionPayload", _Msg_ExecutionPayload_Handler)].

(** A server keeps the registered services with their implementation. *)
Definition Server : Type := list (ServiceDesc * MsgServerImpl).
Definition RegisterMsgServer (s : Server) (srv : MsgServerImpl) : Server := (s ++ [(_Msg_serviceDesc, srv)])%list.

(** ** The client *)

Context {Conn : Type} (Invoke : Conn → ∀ A, ProtoMessage A → C → string → A → M W unit).

Definition msgClient_UpdateParams (cc : Conn) (ctx : C) (inp : MsgUpdateParams) : M W unit :=
  Invoke cc MsgUpdateParams _ ctx UpdateParams_method inp.
Definition msgClient_ExecutionPayload (cc : Conn) (ctx : C) (inp : MsgExecutionPayload) : M W unit :=
  Invoke cc MsgExecutionPayload _ ctx ExecutionPayload_method inp.

Lemma unary_reads_back {A} `{ProtoLaws A} method (f : C → A → M W unit) ctx (m : A) bz i w :
  wf m → blen (wire m) ≤ maxInt64 → Marshal m = Ret bz →
  unary method f ctx (fun _ _ => Unmarshal bz) i w =
  (match i with None => f ctx m | Some i => i A ctx m method f end) w.
Proof.
  intros Hw Hb Hm. rewrite (Marshal_wire m Hw Hb) in Hm. injection Hm as <-. unfold unary.
  rewrite (Unmarshal_wire m Hw Hb). done.
Qed.

Lemma unary_refuses {A} `{ProtoMessage A} method (f : C → A → M W unit) ctx bz i w :
  is_ret (Unmarshal bz (zero : A)).2 = false →
  (unary method f ctx (fun _ _ => Unmarshal bz) i w).1 = w.
Proof.
  intros Ho. unfold unary. destruct (Unmarshal bz zero) as [m o]. cbn in Ho. unfold_monad. by destruct o.
Qed.

(** The service has the two methods that the client calls, with their handlers. *)
Lemma service_methods name h : (name, h) ∈ sd_Methods _Msg_serviceDesc →
  ("/" +:+ sd_ServiceName _Msg_serviceDesc +:+ "/" +:+ name = UpdateParams_method ∧ h = _Msg_UpdateParams_Handler) ∨
  ("/" +:+ sd_ServiceName _Msg_serviceDesc +:+ "/" +:+ name = ExecutionPayload_method ∧ h = _Msg_ExecutionPayload_Handler).
Proof. intros Hin. apply elem_of_cons in Hin as [[= -> ->]|[= -> ->]%list_elem_of_singleton]; [by left|by right]. Qed.

End Service.
Arguments MsgServerImpl : clear implicits.
Arguments Server : clear implicits.

(** ** The keeper behind the service *)

Section KeeperService.
Context {E S : Type} `{!ItemStore S, !EngineClient E, !Host E, GoEthereum, CosmosSDK}.
Local Abbreviation W := (World E S).

(** [NewMsgServerImpl]: [UpdateParams] does not look at its context. *)
Definition NewMsgServerImpl (fuel : nat) (k : Keeper) : MsgServerImpl SdkContext W :=
  mkMsgServerImpl (fun _ => UpdateParams k) (ExecutionPayload fuel k).

(** [proposalMsgServer], the server of ProcessProposal. *)
Definition proposalMsgServer (k : Keeper) : MsgServerImpl SdkContext W :=
  mkMsgServerImpl (fun _ => Proposal_UpdateParams) (Proposal_ExecutionPayload k).

Definition RegisterProposalHandlers (router : Server SdkContext W) (k : Keeper) : Server SdkContext W :=
  RegisterMsgServer router (proposalMsgServer k).

(** In spite of its name this one registers the server that executes. *)
Definition RegisterProposalService (fuel : nat) (server : Server SdkContext W) (k : Keeper) : Server SdkContext W :=
  RegisterMsgServer server (NewMsgServerImpl fuel k).


(** A request that does not decode changes nothing, on either server. *)
Theorem undecodable_request_changes_nothing fuel k ctx bz i (w : W) :
  (is_ret (Unmarshal bz (zero : MsgExecutionPayload)).2 = false →
     (_Msg_ExecutionPayload_Handler (NewMsgServerImpl fuel k) ctx (fun _ _ => Unmarshal bz) i w).1 = w) ∧
  (is_ret (Unmarshal bz (zero : MsgUpdateParams)).2 = false →
     (_Msg_UpdateParams_Handler (NewMsgServerImpl fuel k) ctx (fun _ _ => Unmarshal bz) i w).1 = w).
Proof. split; apply unary_refuses. Qed.

End KeeperService.

Section Witnesses.
#[local] Existing Instances geth cosmos mapStore exact_host obliging.

(** A payload on the stored block state, in its encoding, is accepted. *)
Definition encoded (m : MsgExecutionPayload) : bytes := match Marshal m with Ret bz => bz | _ => [] end.


End Witnesses.
