(* ===== verification/Block.v ===== *)
(** * A block through the whole application

    The callbacks that [New] installs, run together.  The base application of
    the SDK, which calls them, is library code and a parameter ([BaseApp]), with
    its documented behaviour as the hypothesis [documented]: FinalizeBlock is
    PreBlocker, BeginBlocker, every transaction, EndBlocker; a transaction is
    decoded, sent through the ante handler, and its messages are executed, all
    of them or none; CheckTx ends after the ante handler and keeps no store.

    The modules of the SDK are parameters too: callbacks and message handlers
    that act on the stores of those modules, [St].  A module reaches the evm
    store only through a message of the evm module; the proposals that
    governance executes at the end of a block are the argument
    [PassedProposals].  As x/gov documents it, the messages of a proposal are
    executed on a branch of the stores, all of them or none. *)

From S2P Require Import Prelude GoStd GoJson External ChainSpec Engine Concrete Async EvmTypes Keeper.
From S2P Require Import MsgServer Abci Proposal Chain Network GlobalFee Upgrades Hooks Alerts Wiring.

Section Block.
Context {E S St AE Resp : Type}.
Context `{!ItemStore S, !EngineClient E, !Host E, GoEthereum, CosmosSDK}.
Context `{!GlobalFee.KVStore St, !GlobalFee.SdkMath, !Upgrades.Keepers St, !Hooks.Bech32}.
Context `{!Alerts.UpgradeKeeper St, !Alerts.Http AE}.

(** The evm store with its execution client, the stores of the other modules
    with the log of the hooks, and the alerts. *)
Record AppState := mkAppState {
  as_evm : World E S; as_mods : Hooks.HookWorld St; as_alerts : Alerts.AlertWorld AE }.

(** A message of the evm module in a proposal. *)
Inductive GovMsg :=
| GovUpdateParams (m : MsgUpdateParams)
| GovExecutionPayload (m : MsgExecutionPayload).

(** What the libraries bring along. *)
Record Modules := mkModules {
  PreBlock : M St Resp;
  BeginBlock : M St Resp;
  EndBlock : M St Resp;
  IterateValidators : St → list Hooks.ValidatorView * option error;
  sdkAnteHandler : GlobalFee.AnteHandler (St := St);
  otherMsg : SdkContext → string → string → M St unit;
  PassedProposals : St → list (list GovMsg) }.

Context (app : Wiring.App) (ms : Modules).
Local Abbreviation k := (Wiring.evmKeeper app).

(** ** Parts of the state *)

Definition on_evm {A} (m : M (World E S) A) : M AppState A := fun s =>
  let (w, o) := m (as_evm s) in (mkAppState w (as_mods s) (as_alerts s), o).

Definition on_hooks {A} (m : M (Hooks.HookWorld St) A) : M AppState A := fun s =>
  let (h, o) := m (as_mods s) in (mkAppState (as_evm s) h (as_alerts s), o).

Definition on_mods {A} (m : M St A) : M AppState A := on_hooks (Hooks.on_state m).

Definition on_alerts {A} (m : M (Alerts.AlertWorld AE * St) A) : M AppState A := fun s =>
  let h := as_mods s in
  let '(a, st, o) := m (as_alerts s, Hooks.hw_state h) in
  (mkAppState (as_evm s) (Hooks.mkHookWorld st (Hooks.hw_log h) (Hooks.hw_gauges h)) a, o).

(** The stores as they were; time, client and logs have moved on. *)
Definition restore (before after : AppState) : AppState :=
  let w := as_evm after in
  let h := as_mods after in
  mkAppState (mkWorld (w_now w) (w_env w) (w_store (as_evm before)) (w_trace w) (w_lastLoggedRPCVersion w))
    (Hooks.mkHookWorld (Hooks.hw_state (as_mods before)) (Hooks.hw_log h) (Hooks.hw_gauges h)) (as_alerts after).

(** A branch of the stores that is written back on success only; the base
    application recovers panics. *)
Definition branch {A} (m : M AppState A) : M AppState (A + error) := fun s =>
  match m s with
  | (s', Ret a) => (s', Ret (inl a))
  | (s', Fail e) => (restore s s', Ret (inr e))
  | (s', Panic msg) => (restore s s', Ret (inr (errText ("recovered: " +:+ msg))))
  | (s', OutOfFuel) => (s', OutOfFuel)
  end.

(** ** Transactions *)

Definition runMsg (fuel : nat) (ctx : SdkContext) (m : SdkMsg) : M AppState unit :=
  match m with
  | MExecutionPayload p => on_evm (ExecutionPayload fuel k ctx p)
  | MOther goType body => on_mods (otherMsg ms ctx goType body)
  end.

Fixpoint runMsgs (fuel : nat) (ctx : SdkContext) (l : list SdkMsg) : M AppState unit :=
  match l with
  | [] => ret tt
  | m :: l => do! runMsg fuel ctx m in runMsgs fuel ctx l
  end.

(** In CheckTx and ReCheckTx the messages are not executed. *)
Definition runTx (fuel : nat) (ctx : SdkContext) (raw : string) : M AppState (unit + error) :=
  match TxDecoder raw with
  | Ret tx =>
      if bool_decide (tx_Msgs tx = []) then ret (inr (errText "must contain at least one message"))
      else
        let! r := branch (on_mods (GlobalFee.anteHandler (sdkAnteHandler ms) ctx tx false)) in
        match r with
        | inr e => ret (inr e)
        | inl newCtx => if sc_IsCheckTx ctx || sc_IsReCheckTx ctx then ret (inl tt)
                        else branch (runMsgs fuel newCtx (tx_Msgs tx))
        end
  | Fail e => ret (inr e)
  | Panic msg => ret (inr (errText ("recovered: " +:+ msg)))
  | OutOfFuel => out_of_fuel
  end.

(** CheckTx runs on a state of its own. *)
Definition checkTx (ctx : SdkContext) (raw : string) : M AppState (unit + error) := fun s =>
  let (s', o) := runTx 0 ctx raw s in (restore s s', o).

Fixpoint deliverTxs (fuel : nat) (ctx : SdkContext) (txs : list string) : M AppState (list (unit + error)) :=
  match txs with
  | [] => ret []
  | raw :: txs =>
      let! r := runTx fuel ctx raw in
      let! rs := deliverTxs fuel ctx txs in
      ret (r :: rs)
  end.

(** ** Blocks *)

Definition runGovMsg (fuel : nat) (ctx : SdkContext) (m : GovMsg) : M AppState unit :=
  match m with
  | GovUpdateParams m => on_evm (UpdateParams k m)
  | GovExecutionPayload m => on_evm (ExecutionPayload fuel k ctx m)
  end.

Fixpoint runGovMsgs (fuel : nat) (ctx : SdkContext) (l : list GovMsg) : M AppState unit :=
  match l with
  | [] => ret tt
  | m :: l => do! runGovMsg fuel ctx m in runGovMsgs fuel ctx l
  end.

(** The result of a proposal is only logged. *)
Fixpoint executeProposals (fuel : nat) (ctx : SdkContext) (ps : list (list GovMsg)) : M AppState unit :=
  match ps with
  | [] => ret tt
  | p :: ps => do! branch (runGovMsgs fuel ctx p) in executeProposals fuel ctx ps
  end.

Definition executeGov (fuel : nat) (ctx : SdkContext) : M AppState unit :=
  let! ps := gets (fun s => PassedProposals ms (Hooks.hw_state (as_mods s))) in
  executeProposals fuel ctx ps.

Definition finalizeBlock (fuel : nat) (ctx : SdkContext) (txs : list string) : M AppState (list (unit + error)) :=
  do! on_alerts (Alerts.PreBlocker (PreBlock ms) (Wiring.webhookNotifier app) (sc_Height ctx) (sc_BlockTime ctx)) in
  do! on_mods (Wiring.BeginBlocker (BeginBlock ms)) in
  let! results := deliverTxs fuel ctx txs in
  do! executeGov fuel ctx in
  do! on_hooks (Hooks.EndBlocker (EndBlock ms) (IterateValidators ms) (Wiring.hooks app) ctx) in
  ret results.

(** ** The base application *)

(** Its two calls; [fuel] bounds the retry loops of a payload. *)
Record BaseApp := mkBaseApp {
  CheckTx : SdkContext → string → M AppState (unit + error);
  FinalizeBlock : nat → SdkContext → list string → M AppState (list (unit + error)) }.

Definition documented (base : BaseApp) : Prop :=
  (∀ ctx raw s, CheckTx base ctx raw s = checkTx ctx raw s) ∧
  (∀ fuel ctx txs s, FinalizeBlock base fuel ctx txs s = finalizeBlock fuel ctx txs s).

(** ** The application as CometBFT sees it *)

Variable base : BaseApp.
Variable max : Z.

(** Any call: the proposal handlers, parameter updates, queries, probes and
    exports on the evm store; CheckTx of any bytes; FinalizeBlock of any
    transactions, whose stores are committed only if it returns. *)
Inductive abci : AppState → AppState → Prop :=
| abci_local s w : local_step k max (as_evm s) w → abci s (mkAppState w (as_mods s) (as_alerts s))
| abci_check ctx raw s s' o : CheckTx base ctx raw s = (s', o) → abci s s'
| abci_finalize fuel ctx txs s s' o :
    FinalizeBlock base fuel ctx txs s = (s', o) → abci s (if is_ret o then s' else restore s s').

End Block.
Arguments AppState : clear implicits.
Arguments Modules : clear implicits.
Arguments BaseApp : clear implicits.

(** ** Safety *)

Section Safety.
Context {E S St AE Resp : Type}.
Context `{!ItemStore S, !ItemStoreLaws S, !EngineClient E, !Host E, GoEthereumLaws, CosmosSDKLaws}.
Context `{!GlobalFee.KVStore St, !GlobalFee.SdkMath, !Upgrades.Keepers St, !Hooks.Bech32}.
Context `{!Alerts.UpgradeKeeper St, !Alerts.Http AE}.
Context (app : Wiring.App) (ms : Modules St Resp).
Local Abbreviation k := (Wiring.evmKeeper app).
Local Abbreviation AS := (AppState E S St AE).

(** The head of the evm store moves along a chain of executed blocks. *)
Definition evm_advances : relation AS := fun s s' => ∀ b, head (as_evm s) b →
  ∃ ps b', advances k (as_evm s) (as_evm s') b ps b'.

#[local] Instance evm_advances_preorder : PreOrder evm_advances.
Proof.
  split.
  - intros s b Hb. exists [], b. by apply advances_refl.
  - intros s1 s2 s3 R1 R2 b Hb. destruct (R1 b Hb) as (ps & b1 & Ha). destruct (R2 b1 (proj1 Ha)) as (qs & b2 & Hq).
    exists (ps ++ qs)%list, b2. by eapply advances_trans.
Qed.

Lemma same_evm_advances {A} (m : M AS A) : preserves (same as_evm) m → preserves evm_advances m.
Proof. intros Hm s s' o Hr b Hb. rewrite (Hm _ _ _ Hr). exists [], b. by apply advances_refl. Qed.

Lemma on_hooks_evm {A} (m : M (Hooks.HookWorld St) A) : preserves (same as_evm) (on_hooks m : M AS A).
Proof. intros s s' o. unfold on_hooks. destruct (m _). by intros [= <- _]. Qed.
Lemma on_mods_evm {A} (m : M St A) : preserves (same as_evm) (on_mods m : M AS A).
Proof. apply on_hooks_evm. Qed.
Lemma on_alerts_evm {A} (m : M (Alerts.AlertWorld AE * St) A) : preserves (same as_evm) (on_alerts m : M AS A).
Proof. intros s s' o. unfold on_alerts. destruct (m _) as [[]]. by intros [= <- _]. Qed.

(** What happened up to a restored state is in the trace, and nothing else. *)
Lemma restore_advances (s s' : AS) : evm_advances s s' → evm_advances s (restore s s').
Proof.
  intros Hr b Hb. destruct (Hr b Hb) as (ps & b' & _ & _ & _ & Hl). exists [], b.
  apply reads_only_advances; [|done]. by split.
Qed.

Lemma branch_advances {A} (m : M AS A) : preserves evm_advances m → preserves evm_advances (branch m).
Proof.
  intros Hm s s' o. unfold branch. destruct (m s) as [s1 [a|e|x|]] eqn:Hr; intros [= <- _]; apply Hm in Hr;
    [done|by apply restore_advances..|done].
Qed.

Lemma runMsg_advances fuel ctx m : preserves evm_advances (runMsg app ms fuel ctx m : M AS _).
Proof.
  destruct m as [p|t b]; [|apply same_evm_advances, on_mods_evm].
  intros s s' o. cbn [runMsg]. unfold on_evm. destruct (ExecutionPayload _ _ _ _ _) as [w o'] eqn:Hx.
  intros [= <- _] b Hb. destruct (ExecutionPayload_advances k _ _ _ _ _ _ _ Hx Hb) as (ps & b' & _ & Ha). eauto.
Qed.

Lemma runMsgs_advances fuel ctx l : preserves evm_advances (runMsgs app ms fuel ctx l : M AS _).
Proof.
  induction l as [|m l IH]; cbn [runMsgs]; [by apply preserves_ret, _|].
  apply preserves_bind; [apply _|apply runMsg_advances|done].
Qed.

#[local] Hint Resolve runMsgs_advances branch_advances on_hooks_evm on_mods_evm on_alerts_evm same_evm_advances : nexus.

Lemma runTx_advances fuel ctx raw : preserves evm_advances (runTx app ms fuel ctx raw : M AS _).
Proof. unfold runTx. preserving. Qed.

Lemma deliverTxs_advances fuel ctx txs : preserves evm_advances (deliverTxs app ms fuel ctx txs : M AS _).
Proof.
  induction txs as [|raw txs IH]; cbn [deliverTxs]; [by apply preserves_ret, _|].
  apply preserves_bind; [apply _|apply runTx_advances|]. preserving.
Qed.

Lemma runGovMsg_advances fuel ctx m : preserves evm_advances (runGovMsg app fuel ctx m : M AS _).
Proof.
  destruct m as [m|p]; [|apply (runMsg_advances fuel ctx (MExecutionPayload p))].
  intros s s' o. cbn [runGovMsg]. unfold on_evm. destruct (UpdateParams k m (as_evm s)) as [w o'] eqn:Hu.
  intros [= <- _] b Hb. exists [], b. pose proof (UpdateParams_head k m _ _ _ _ Hu Hb) as Hb1.
  apply UpdateParams_trace in Hu. split_and!; [done|constructor|constructor|]. exists []. by rewrite app_nil_r.
Qed.

Lemma runGovMsgs_advances fuel ctx l : preserves evm_advances (runGovMsgs app fuel ctx l : M AS _).
Proof.
  induction l as [|m l IH]; cbn [runGovMsgs]; [by apply preserves_ret, _|].
  apply preserves_bind; [apply _|apply runGovMsg_advances|done].
Qed.

Lemma executeGov_advances fuel ctx : preserves evm_advances (executeGov app ms fuel ctx : M AS _).
Proof.
  apply preserves_bind; [apply _|by apply preserves_gets, _|]. intros ps.
  induction ps as [|p ps IH]; cbn [executeProposals]; [by apply preserves_ret, _|].
  apply preserves_bind; [apply _|by apply branch_advances, runGovMsgs_advances|done].
Qed.

Lemma documented_advances fuel ctx txs : preserves evm_advances (finalizeBlock app ms fuel ctx txs : M AS _).
Proof.
  unfold finalizeBlock. do 2 (apply preserves_bind; [apply _|by eauto with nexus|intros]).
  apply preserves_bind; [apply _|apply deliverTxs_advances|intros].
  apply preserves_bind; [apply _|apply executeGov_advances|intros].
  apply preserves_bind; [apply _|by eauto with nexus|intros]. by apply preserves_ret, _.
Qed.

(** Whatever base application that behaves as documented. *)
Variable base : BaseApp E S St AE.
Hypothesis Hbase : documented app ms base.

Lemma abci_advances max (s s' : AS) : abci app base max s s' → evm_advances s s'.
Proof.
  destruct Hbase as [Hck Hfb]. intros [s0 w Hl|ctx raw s0 s1 o Hc|fuel ctx txs s0 s1 o Hf].
  - intros b Hb. exists [], b. by eapply local_step_advances.
  - rewrite Hck in Hc. unfold checkTx in Hc. destruct (runTx _ _ _ _ _ _) as [s2 o'] eqn:Hr. injection Hc as <- _.
    apply restore_advances. by eapply runTx_advances.
  - rewrite Hfb in Hf. apply documented_advances in Hf. destruct (is_ret o); [done|by apply restore_advances].
Qed.

(** C2: the chain of the whole application.  Whatever CometBFT calls, in
    whatever order and with whatever bytes - transactions that were never
    proposed, blocks that were never validated, rounds that fail - and whatever
    the modules, hooks, governance and alerts do, the head of the evm store
    moves along one hash-linked chain of blocks that the execution client has
    executed, its height by one per block. *)
Theorem application_follows_the_chain max (s s' : AS) b :
  rtc (abci app base max) s s' → head (as_evm s) b → valid_bs b →
  ∃ ps b', head (as_evm s') b' ∧ chain_of b ps b' ∧ Forall (fun p => executed_in k p (w_trace (as_evm s'))) ps ∧
    (bs_Height b + Z.of_nat (length ps) < 2 ^ 64 →
     bs_Height b' = bs_Height b + Z.of_nat (length ps) ∧
     bs_Timestamp b + Z.of_nat (length ps) ≤ bs_Timestamp b').
Proof.
  intros Hs Hb (_ & Hh & _). assert (Ha : evm_advances s s').
  { clear Hb. induction Hs as [s|s s1 s' H1' _ IH]; [done|]. etrans; [by eapply abci_advances|done]. }
  destruct (Ha b Hb) as (ps & b' & Hb' & Hc & Hx & _). exists ps, b'. split_and!; [done..|].
  intros Hlt. unfold is_u64 in Hh. by apply chain_of_progress; [..|lia].
Qed.

(** ** The mempool *)

Lemma restore_evm (s s' : AS) : as_evm s' = as_evm s → as_evm (restore s s') = as_evm s.
Proof. intros He. cbn. rewrite He. by destruct (as_evm s). Qed.

Lemma runTx_check_evm fuel ctx raw :
  sc_IsCheckTx ctx || sc_IsReCheckTx ctx = true → preserves (same as_evm) (runTx app ms fuel ctx raw : M AS _).
Proof.
  intros Hc. unfold runTx. rewrite Hc.
  assert (Hbr : ∀ A (m : M AS A), preserves (same as_evm) m → preserves (same as_evm) (branch m)).
  { intros A m Hm s s' o. unfold branch. destruct (m s) as [s1 [a|e|x|]] eqn:Hr; intros [= <- _]; apply Hm in Hr;
      [done|by apply restore_evm..|done]. }
  preserving.
Qed.

(** Nothing that arrives through the mempool touches the evm store or the
    execution client, or writes any store; and a transaction that is a payload
    message is refused. *)
Theorem mempool_never_reaches_the_evm ctx raw (s s' : AS) o :
  sc_IsCheckTx ctx || sc_IsReCheckTx ctx = true → CheckTx base ctx raw s = (s', o) →
  as_evm s' = as_evm s ∧ Hooks.hw_state (as_mods s') = Hooks.hw_state (as_mods s) ∧
  (∀ tx, TxDecoder raw = Ret tx → GlobalFee.is_payload tx →
     o = Ret (inr (errText "MsgExecutionPayload cannot be submitted directly"))).
Proof.
  intros Hc. rewrite (proj1 Hbase). unfold checkTx. destruct (runTx _ _ _ _ _ _) as [s1 o1] eqn:Hr. intros [= <- <-]. split_and!; [|done|].
  - apply restore_evm. by eapply runTx_check_evm.
  - intros tx Hd Hp. unfold runTx in Hr. rewrite Hd in Hr. destruct Hp as [m Hm].
    rewrite bool_decide_eq_false_2 in Hr by (by rewrite Hm).
    unfold bindM, branch, on_mods, on_hooks, Hooks.on_state, GlobalFee.anteHandler in Hr. rewrite Hm, Hc in Hr.
    by injection Hr as _ <-.
Qed.

End Safety.

(** ** Progress *)

Section Progress.
Context {E S St AE Resp : Type}.
Context `{!ItemStore S, !ItemStoreLaws S, !EngineClient E, !Host E, GoEthereumLaws, CosmosSDKLaws}.
Context `{!GlobalFee.KVStore St, !GlobalFee.SdkMath, !Upgrades.Keepers St, !Hooks.Bech32}.
Context `{!Alerts.UpgradeKeeper St, !Alerts.Http AE}.
Context (app : Wiring.App) (ms : Modules St Resp).
Local Abbreviation k := (Wiring.evmKeeper app).
Local Abbreviation AS := (AppState E S St AE).
Variable base : BaseApp E S St AE.
Hypothesis Hbase : documented app ms base.

(** The modules of the SDK return, and no hook of this height panics; the ante
    handler and the handlers of other messages may fail or panic, but end.  The
    messages of a proposal are signed by governance, whose account is not the
    authority of payloads. *)
Record modules_return (ctx : SdkContext) : Prop := {
  mr_pre st : ∃ st' r, PreBlock ms st = (st', Ret r);
  mr_begin st : ∃ st' r, BeginBlock ms st = (st', Ret r);
  mr_end st : ∃ st' r, EndBlock ms st = (st', Ret r);
  mr_hooks h st : h ∈ default [] (Wiring.hooks app !! sc_Height ctx) →
    ∃ st', Hooks.PerformHook ctx h st = (st', Ret tt) ∨ ∃ e, Hooks.PerformHook ctx h st = (st', Fail e);
  mr_address a : StringToBytes a ≠ OutOfFuel;
  mr_store p (st : S) : Item_Set (k_paramsCodec k) ParamsKey p st ≠ OutOfFuel;
  mr_gov st l m : l ∈ PassedProposals ms st → GovExecutionPayload m ∈ l → mep_Authority m ≠ moduleAuthority;
  mr_ante c tx st : (GlobalFee.anteHandler (sdkAnteHandler ms) c tx false st).2 ≠ OutOfFuel;
  mr_other c t b st : (otherMsg ms c t b st).2 ≠ OutOfFuel }.

(** The upgrade plan can be read, or its absence. *)
Definition plan_readable (st : St) : Prop :=
  (∃ p, Alerts.GetUpgradePlan st = Ret p) ∨ ∃ e, Alerts.GetUpgradePlan st = Fail e.

Lemma PreBlocker_returns PB webhook h t st (a : Alerts.AlertWorld AE) :
  Alerts.http_ok (E := AE) → plan_readable st →
  ∃ a', Alerts.PreBlocker (Resp := Resp) PB webhook h t (a, st) = ((a', (PB st).1), (PB st).2).
Proof.
  intros Hok [[p Hp]|[e He]].
  - destruct (Alerts.PreBlocker_alerts PB webhook h t st p a Hok Hp) as (a' & Hr & _). by exists a'.
  - unfold Alerts.PreBlocker, Alerts.preBlockAlerts, Alerts.logHaltIfTriggered, Alerts.MaybeLogNewPlan, bindM. rewrite He.
    destruct (errors_Is e ErrNoUpgradePlanFound); cbn; destruct (PB st); eauto.
Qed.

(** The evm store and the log of the hooks stay as they were. *)
Definition frame (s s' : AS) : Prop :=
  as_evm s' = as_evm s ∧ Hooks.hw_log (as_mods s') = Hooks.hw_log (as_mods s).

Lemma on_mods_frame {A} (m : M St A) (s : AS) : (m (Hooks.hw_state (as_mods s))).2 ≠ OutOfFuel →
  ∃ s' o, on_mods m s = (s', o) ∧ frame s s' ∧ o = (m (Hooks.hw_state (as_mods s))).2.
Proof.
  intros Hm. unfold on_mods, on_hooks, Hooks.on_state. destruct (m _) as [st o]. do 2 eexists. split; [done|]. by split.
Qed.

Lemma branch_frame {A} (m : M AS A) s s1 o :
  m s = (s1, o) → frame s s1 → o ≠ OutOfFuel → ∃ s' r, branch m s = (s', Ret r) ∧ frame s s' ∧
    ∀ a, o = Ret a → s' = s1 ∧ r = inl a.
Proof.
  intros Hr [He Hl] Ho. unfold branch. rewrite Hr. destruct o as [a|e|x|]; [| | |done].
  - do 2 eexists. split; [done|]. split; [done|]. by intros a' [= ->].
  - do 2 eexists. split; [done|]. split; [split; [by apply restore_evm|done]|done].
  - do 2 eexists. split; [done|]. split; [split; [by apply restore_evm|done]|done].
Qed.

Lemma runTx_cosmos fuel ctx raw (s : AS) :
  modules_return ctx → is_cosmos_tx raw → ∃ s' r, runTx app ms fuel ctx raw s = (s', Ret r) ∧ frame s s'.
Proof.
  intros Hm (p & Hp & He). destruct (parseTx_decodes raw p Hp) as (Hd & Hlen & Hno). specialize (Hno He).
  unfold runTx. rewrite Hd. destruct (tx_Msgs (pt_tx p)) as [|[q|t b] [|]] eqn:Hmsgs; try done.
  { unfold tx_payloads in Hno. by rewrite Hmsgs in Hno. }
  rewrite bool_decide_eq_false_2 by done.
  destruct (on_mods_frame (GlobalFee.anteHandler (sdkAnteHandler ms) ctx (pt_tx p) false) s (mr_ante ctx Hm _ _ _))
    as (s1 & o & Hr & Hf & ->).
  destruct (branch_frame _ _ _ _ Hr Hf (mr_ante ctx Hm _ _ _)) as (s2 & r & Hb & Hf2 & _). unfold bindM. rewrite Hb.
  destruct r as [c|e]; [|by eauto]. destruct (_ || _); [by eauto|].
  destruct (on_mods_frame (otherMsg ms c t b) s2 (mr_other ctx Hm _ _ _ _)) as (s3 & o & Hr3 & Hf3 & Ho).
  assert (Hmsg : runMsgs app ms fuel c [MOther t b] s2 = (s3, o)).
  { cbn [runMsgs runMsg]. unfold bindM. rewrite Hr3. destruct o as [[]| | |]; done. }
  destruct (branch_frame _ _ _ _ Hmsg Hf3) as (s4 & r & Hb4 & Hf4 & _).
  { rewrite Ho. apply (mr_other ctx Hm). }
  exists s4, r. split; [done|]. destruct Hf2, Hf4. split; congruence.
Qed.

Lemma deliver_cosmos fuel ctx cs (s : AS) :
  modules_return ctx → Forall is_cosmos_tx cs →
  ∃ s' rs, deliverTxs app ms fuel ctx cs s = (s', Ret rs) ∧ frame s s' ∧ length rs = length cs.
Proof.
  intros Hm Hcs. revert s. induction Hcs as [|raw cs Hraw _ IH]; intros s.
  - exists s, []. by split_and!.
  - destruct (runTx_cosmos fuel ctx raw s Hm Hraw) as (s1 & r & H1' & Hf1). destruct (IH s1) as (s2 & rs & H2' & Hf2 & Hl).
    exists s2, (r :: rs). cbn [deliverTxs]. unfold bindM. rewrite H1', H2'. split_and!; [done| |cbn; lia].
    destruct Hf1, Hf2. split; congruence.
Qed.

Lemma deliverTxs_app fuel ctx l l' (s s1 : AS) rs :
  deliverTxs app ms fuel ctx l s = (s1, Ret rs) →
  deliverTxs app ms fuel ctx (l ++ l') s =
  match deliverTxs app ms fuel ctx l' s1 with
  | (s2, Ret rs') => (s2, Ret (rs ++ rs')%list)
  | (s2, Fail e) => (s2, Fail e)
  | (s2, Panic x) => (s2, Panic x)
  | (s2, OutOfFuel) => (s2, OutOfFuel)
  end.
Proof.
  revert s rs. induction l as [|raw l IH]; intros s rs Hr; cbn [Datatypes.app deliverTxs] in *.
  - injection Hr as <- <-. by destruct (deliverTxs _ _ _ _ _ _) as [? [| | |]].
  - apply bindM_ret in Hr as (s2 & r & H1' & Hr). apply bindM_ret in Hr as (s3 & rs' & H2' & Hr).
    injection Hr as <- <-. unfold bindM. rewrite H1', (IH _ _ H2').
    by destruct (deliverTxs _ _ _ _ _ _) as [? [| | |]].
Qed.

(** The payload transaction passes the ante handler untouched and becomes the
    head. *)
Lemma runTx_payload fuel ctx raw m st p args (s : AS) :
  responsive (E := E) → writable S → sc_ExecMode ctx = ExecModeFinalize →
  sc_IsCheckTx ctx || sc_IsReCheckTx ctx = false →
  is_payload_tx raw m → GetBlockState (as_evm s) = (as_evm s, Ret st) → payload_ok k ctx m st p →
  sendPayload_args ctx p = Ret args →
  ∃ s', runTx app ms (Datatypes.S fuel) ctx raw s = (s', Ret (inl tt)) ∧ head (as_evm s') (payload_state p) ∧
    as_mods s' = as_mods s.
Proof.
  intros HR HW Hmode Hc (q & Hq & _ & Hmsgs) Hst Hok Ha. destruct (parseTx_decodes raw q Hq) as (Hd & _).
  assert (Hlen : len (mep_ExecutionPayload m) ≠ 0).
  { intros Hl. pose proof (po_decoded _ _ _ _ _ Hok) as Hu. destruct (mep_ExecutionPayload m) eqn:He; [|done].
    by apply (ExecutableData_Unmarshal_empty p). }
  destruct (payload_executes fuel k ctx m st p args (as_evm s)) as (w' & Hx & Hg); [done..|].
  exists (mkAppState w' (as_mods s) (as_alerts s)). split_and!; [|done|done].
  unfold runTx. rewrite Hd, Hmsgs. rewrite bool_decide_eq_false_2 by done.
  unfold bindM, branch, on_mods, on_hooks, Hooks.on_state, GlobalFee.anteHandler. rewrite Hmsgs, Hc.
  cbn [ret runMsgs runMsg]. unfold bindM, on_evm. destruct s as [we [hs hl hg] al]. cbn in *. by rewrite Hx.
Qed.

(** Governance does not move the head. *)
Lemma runGovMsg_head fuel ctx m (s : AS) b :
  modules_return ctx → (∀ x, m = GovExecutionPayload x → mep_Authority x ≠ moduleAuthority) → head (as_evm s) b →
  ∃ s' o, runGovMsg app fuel ctx m s = (s', o) ∧ o ≠ OutOfFuel ∧ head (as_evm s') b ∧ as_mods s' = as_mods s.
Proof.
  intros Hm Ha Hb. destruct m as [m|p]; cbn [runGovMsg]; unfold on_evm.
  - destruct (UpdateParams k m (as_evm s)) as [w o] eqn:Hu. do 2 eexists. split; [done|].
    split; [|split; [by eapply (UpdateParams_head k m)|done]].
    intros ->. revert Hu. unfold UpdateParams, Params_Validate, Params_Set, write_store, bindM, lift.
    destruct (StringToBytes (mup_Authority m)) eqn:Hs; cbn; [|done|done|by destruct (mr_address ctx Hm (mup_Authority m))].
    case_bool_decide; [|done]. cbn. destruct (Item_Set _ _ _ _) eqn:Hi; try done. by destruct (mr_store ctx Hm _ _ Hi).
  - destruct (ExecutionPayload_unauthorized fuel k ctx p b (as_evm s) (Ha p eq_refl) Hb) as [e He]. rewrite He.
    do 2 eexists. split; [done|]. by split_and!.
Qed.

Lemma runGovMsgs_head fuel ctx l (s : AS) b :
  modules_return ctx → (∀ x, GovExecutionPayload x ∈ l → mep_Authority x ≠ moduleAuthority) → head (as_evm s) b →
  ∃ s' o, runGovMsgs app fuel ctx l s = (s', o) ∧ o ≠ OutOfFuel ∧ head (as_evm s') b ∧ as_mods s' = as_mods s.
Proof.
  intros Hm. revert s. induction l as [|m l IH]; intros s Hl Hb; cbn [runGovMsgs].
  - exists s, (Ret tt). by split_and!.
  - destruct (runGovMsg_head fuel ctx m s b) as (s1 & o & Hr & Ho & Hb1 & Hs1); [done| |done|].
    { intros x ->. apply Hl. by left. }
    unfold bindM. rewrite Hr. destruct o as [[]| | |]; [|by exists s1; eexists; split_and!..|done].
    destruct (IH s1) as (s2 & o & Hr2 & Ho2 & Hb2 & Hs2); [by intros x Hx; apply Hl; right|done|].
    exists s2, o. split_and!; [done..|congruence].
Qed.

Lemma executeProposals_head fuel ctx ps (s : AS) b :
  modules_return ctx → (∀ l x, l ∈ ps → GovExecutionPayload x ∈ l → mep_Authority x ≠ moduleAuthority) →
  head (as_evm s) b →
  ∃ s', executeProposals app fuel ctx ps s = (s', Ret tt) ∧ head (as_evm s') b ∧ as_mods s' = as_mods s.
Proof.
  intros Hm. revert s. induction ps as [|l ps IH]; intros s Hl Hb; cbn [executeProposals]; [by exists s|].
  destruct (runGovMsgs_head fuel ctx l s b) as (s1 & o & Hr & Ho & Hb1 & Hs1); [done| |done|].
  { intros x Hx. apply (Hl l); [by left|done]. }
  assert (Hbr : ∃ s2 r, branch (runGovMsgs app fuel ctx l) s = (s2, Ret r) ∧ head (as_evm s2) b ∧ as_mods s2 = as_mods s).
  { unfold branch. rewrite Hr. destruct s as [we [hs hl hg] al], s1 as [w1 m1 a1]. cbn in Hs1. subst m1.
    destruct o; [|..|done]; (do 2 eexists; split; [done|]; split; [|done]); [done|by apply (head_same_store we)..]. }
  destruct Hbr as (s2 & r & Hr2 & Hb2 & Hs2). unfold bindM. rewrite Hr2.
  destruct (IH s2) as (s3 & Hr3 & Hb3 & Hs3); [by intros l' x Hin; apply Hl; right|done|].
  exists s3. split_and!; [done..|congruence].
Qed.

(** C7: an accepted block is committed.  A validator has accepted a proposal
    after block 1, and FinalizeBlock runs it on the same store, height and time.
    If the execution client answers, the store can be written, [sendPayload]
    refuses nothing locally (the app hash is not empty, the payload's
    transactions decode, at most six blobs), the modules of the SDK return and
    no hook of the height panics, and the upgrade plan can be read and the HTTP
    library returns, then - whatever the webhook answers, and whatever the ante
    handler, the other transactions and governance do - FinalizeBlock returns,
    the payload, which is the only one of the block, was executed and its header
    is the new block state, and every hook of the height has run once, in
    order. *)
Theorem accepted_block_is_committed fuel max c ctx req (w : World E S) (s : AS) :
  rpr_Height req ≠ 1 → 0 ≤ max → max + Z.of_nat (length (rpr_Txs req)) < 2 ^ 63 →
  (processProposalHandler (makeProcessProposalRouter k) max c req w).2 = Ret ACCEPT →
  sc_ExecMode ctx = ExecModeFinalize → sc_IsCheckTx ctx || sc_IsReCheckTx ctx = false →
  sc_Height ctx = sc_Height c → sc_BlockTime ctx = sc_BlockTime c →
  w_store (as_evm s) = w_store w → responsive (E := E) → writable S →
  (∀ m p, m ∈ block_payloads (rpr_Txs req) → ExecutableData_Unmarshal (mep_ExecutionPayload m) = Ret p →
     ∃ args, sendPayload_args ctx p = Ret args) →
  modules_return ctx → Alerts.http_ok (E := AE) → plan_readable (Hooks.hw_state (as_mods s)) →
  ∃ m p s' rs l, block_payloads (rpr_Txs req) = [m] ∧ ExecutableData_Unmarshal (mep_ExecutionPayload m) = Ret p ∧
    FinalizeBlock base (Datatypes.S fuel) ctx (rpr_Txs req) s = (s', Ret rs) ∧
    length rs = length (rpr_Txs req) ∧ last rs = Some (inl tt) ∧
    head (as_evm s') (payload_state p) ∧
    Hooks.hw_log (as_mods s') = (Hooks.hw_log (as_mods s) ++ l)%list ∧
    fst <$> l = Hooks.Action <$> default [] (Wiring.hooks app !! sc_Height ctx).
Proof.
  intros Hh Hmax Hb Hacc Hmode Hchk Hch Hct Hs HR HW Hargs Hm Hok Hplan.
  apply process_accepts in Hacc as (m & st & p & _ & Hblk & Hst & Hpo); [|done..].
  pose proof (block_ok_payloads _ _ _ Hblk) as Hone. pose proof (po_decoded _ _ _ _ _ Hpo) as Hdec.
  destruct (Hargs m p ltac:(rewrite Hone; set_solver) Hdec) as [args Ha].
  destruct Hblk as (cs & ev & Htxs & _ & Hcs & Hev & _). rewrite Htxs in *.
  destruct s as [we [hs hl hg] al]. cbn in Hs, Hplan |- *.
  destruct (PreBlocker_returns (PreBlock ms) (Wiring.webhookNotifier app) (sc_Height ctx) (sc_BlockTime ctx) hs al Hok Hplan)
    as [al' Hpre]. destruct (mr_pre ctx Hm hs) as (hs1 & r1 & Hp1). rewrite Hp1 in Hpre.
  destruct (mr_begin ctx Hm hs1) as (hs2 & r2 & Hp2).
  set (s1 := mkAppState we (Hooks.mkHookWorld hs2 hl hg) al').
  destruct (deliver_cosmos (Datatypes.S fuel) ctx cs s1 Hm Hcs) as (s2 & rs & Hd & [He2 Hl2] & Hlen).
  assert (Hst2 : GetBlockState (as_evm s2) = (as_evm s2, Ret st)).
  { rewrite He2. cbn. unfold GetBlockState, read_store in *. rewrite Hs. congruence. }
  destruct (runTx_payload fuel ctx ev m st p args s2) as (s3 & Hx & Hhead & Hmods); try done.
  { by apply (payload_ok_context _ c). }
  destruct (executeProposals_head (Datatypes.S fuel) ctx (PassedProposals ms (Hooks.hw_state (as_mods s3))) s3 (payload_state p))
    as (s4 & Hgov & Hhead4 & Hmods4); [done|by intros l0 x; apply (mr_gov ctx Hm)|done|].
  destruct (Hooks.EndBlocker_returns (EndBlock ms) (IterateValidators ms) (Wiring.hooks app) ctx (as_mods s4))
    as (h4 & r4 & Hend); [apply (mr_end ctx Hm)|apply (mr_hooks ctx Hm)|].
  apply Hooks.EndBlocker_spec in Hend as Hspec. destruct Hspec as [_ Hspec].
  destruct (Hspec r4 eq_refl) as (st4 & l & _ & _ & Hlog & Hact).
  exists m, p, (mkAppState (as_evm s4) h4 (as_alerts s4)), (rs ++ [inl tt])%list, l. split_and!; try done.
  - rewrite (proj2 Hbase). unfold finalizeBlock, bindM, on_alerts. cbn [as_alerts as_mods as_evm Hooks.hw_state Hooks.hw_log Hooks.hw_gauges].
    rewrite Hpre. unfold on_mods at 1, on_hooks at 1, Hooks.on_state at 1, Wiring.BeginBlocker.
    cbn [as_alerts as_mods as_evm Hooks.hw_state Hooks.hw_log Hooks.hw_gauges]. cbn [fst snd]. rewrite Hp2. fold s1.
    rewrite (deliverTxs_app _ _ _ _ _ _ _ Hd). cbn [deliverTxs]. unfold bindM. rewrite Hx. cbn [ret].
    unfold executeGov, bindM, gets. rewrite Hgov. unfold on_hooks. rewrite Hend. reflexivity.
  - rewrite !length_app. cbn. lia.
  - apply last_snoc.
  - cbn. rewrite Hlog, Hmods4, Hmods, Hl2. done.
Qed.

End Progress.

(** ** Witnesses: the block of the honest proposer *)

Section Witnesses.
#[local] Existing Instances geth geth_laws cosmos cosmos_laws mapStore mapStore_laws exact_host honest_engine.
#[local] Existing Instances Upgrades.ledger Hooks.plain_bech32 GlobalFee.wide_math Alerts.slack.

(** No fee parameters are stored and no upgrade is planned. *)
Definition no_fees : GlobalFee.KVStore Upgrades.Ledger := {|
  GlobalFee.kv_Get _ _ := Ret None; GlobalFee.kv_Set _ _ _ := Fail syntax_error |}.
Definition no_plan : Alerts.UpgradeKeeper Upgrades.Ledger := {|
  Alerts.GetUpgradePlan _ := Fail ErrNoUpgradePlanFound; Alerts.ShouldExecute _ _ := false;
  Alerts.IsSkipHeight _ := false; Alerts.HasHandler _ := false |}.
#[local] Existing Instances no_fees no_plan.

(** A hook nobody knows is due at height 200, and the handler of the other
    message panics. *)
Definition strange_hook : Hooks.BlockHook := Hooks.mkBlockHook 200 "sleep" (Hooks.rawParams Hooks.YOther).
Definition sample_app : Wiring.App :=
  Wiring.setCallbacks {[200 := [strange_hook]]} (Alerts.newWebhookNotifier "u")
    (Wiring.build (Wiring.injected sample_keeper)).
Definition sample_modules : Modules Upgrades.Ledger unit :=
  mkModules (ret tt) (ret tt) (ret tt) (fun _ => ([], None)) (fun ctx _ _ => ret ctx) (fun _ _ _ => panic "boom")
    (fun _ => [[GovUpdateParams (mkMsgUpdateParams "nexus1mallory" DefaultParams)];
               [GovExecutionPayload (mkMsgExecutionPayload "nexus1gov" "{}")]]).

Definition sample_app_state : AppState Script (gmap string string) Upgrades.Ledger (list Z) :=
  mkAppState (sample_world []) (Hooks.mkHookWorld Upgrades.broken [] []) (Alerts.quiet []).

Lemma sample_modules_return : modules_return (S := gmap string string) sample_app sample_modules (sample_sdk 200 2000).
Proof.
  split.
  - intros st. by exists st, tt.
  - intros st. by exists st, tt.
  - intros st. by exists st, tt.
  - intros h st Hh. apply list_elem_of_singleton in Hh as ->. exists st. right. by eexists.
  - intros a. cbn. by repeat case_match.
  - done.
  - intros st l m Hl Hm. repeat (apply elem_of_cons in Hl as [->|Hl]); [| |set_solver].
    + apply list_elem_of_singleton in Hm. discriminate.
    + apply list_elem_of_singleton in Hm. by injection Hm as ->.
  - intros c tx st. unfold GlobalFee.anteHandler. destruct (tx_Msgs tx) as [|[m|t b] [|]]; try done.
    cbn. by destruct (_ || _).
  - done.
Qed.

Definition sample_base : BaseApp Script (gmap string string) Upgrades.Ledger (list Z) :=
  mkBaseApp (checkTx sample_app sample_modules) (finalizeBlock sample_app sample_modules).
Lemma sample_base_documented : documented sample_app sample_modules sample_base.
Proof. done. Qed.

Definition committed_block := FinalizeBlock sample_base 1 (sample_sdk 200 2000) honest_txs sample_app_state.

Lemma accepted_block_is_committed_witness :
  ∃ m p s' rs l, block_payloads honest_txs = [m] ∧ ExecutableData_Unmarshal (mep_ExecutionPayload m) = Ret p ∧
    committed_block = (s', Ret rs) ∧ length rs = length honest_txs ∧ last rs = Some (inl tt) ∧
    head (as_evm s') (payload_state p) ∧ Hooks.hw_log (as_mods s') = ([] ++ l)%list ∧ fst <$> l = ["sleep"].
Proof.
  apply (accepted_block_is_committed sample_app sample_modules sample_base sample_base_documented 0 1 (sample_sdk 200 2000) (sample_sdk 200 2000)
    honest_request (sample_world []) sample_app_state).
  - discriminate.
  - lia.
  - change (rpr_Txs honest_request) with honest_txs. rewrite honest_txs_length. lia.
  - vm_compute. reflexivity.
  - reflexivity.
  - reflexivity.
  - reflexivity.
  - reflexivity.
  - reflexivity.
  - split; intros; do 2 eexists; (split; [reflexivity|]); simpl; auto; discriminate.
  - apply mapStore_writable.
  - intros m p Hin Hu. assert (Hp : block_payloads honest_txs = [mkMsgExecutionPayload evm_authority (encode_text built)])
      by (vm_compute; reflexivity).
    change (rpr_Txs honest_request) with honest_txs in Hin. rewrite Hp in Hin. apply list_elem_of_singleton in Hin as ->.
    cbn [mep_ExecutionPayload] in Hu. rewrite honest_decodes in Hu. injection Hu as <-. eexists. vm_compute. reflexivity.
  - exact sample_modules_return.
  - exact Alerts.slack_ok.
  - right. by eexists.
Defined.

Lemma application_follows_the_chain_witness :
  ∃ ps b', head (as_evm committed_block.1) b' ∧ chain_of sample_state ps b' ∧
    Forall (fun p => executed_in sample_keeper p (w_trace (as_evm committed_block.1))) ps ∧
    (bs_Height sample_state + Z.of_nat (length ps) < 2 ^ 64 →
     bs_Height b' = bs_Height sample_state + Z.of_nat (length ps) ∧
     bs_Timestamp sample_state + Z.of_nat (length ps) ≤ bs_Timestamp b').
Proof.
  apply (application_follows_the_chain sample_app sample_modules sample_base sample_base_documented 1 sample_app_state).
  - eapply rtc_l; [|apply rtc_refl].
    assert (Hr : is_ret committed_block.2 = true) by (vm_compute; reflexivity).
    pose proof (abci_finalize sample_app sample_base 1 1 (sample_sdk 200 2000) honest_txs sample_app_state
      committed_block.1 committed_block.2 (surjective_pairing _)) as Ha.
    rewrite Hr in Ha. exact Ha.
  - apply sample_state_read.
  - unfold valid_bs, is_hash, is_u64. simpl. lia.
Defined.

End Witnesses.
